(* ===== verification/_CoqProject ===== *)
-Q . S2P
Prelude.v
Bits.v
CString.v
Mem.v
Bytes.v
Pmm.v
Heap.v
Alloc.v
HeapAlloc.v
HeapUse.v
RamDisk.v
Fs.v
FsDisk.v
FsMount.v
FsFile.v
FsDir.v
FsNames.v
Process.v
Sched.v
Ipc.v
Screen.v
Kprintf.v
Console.v
Keyboard.v
Paging.v
PagingWalk.v
PagingUser.v
Timer.v
Gdt.v
Idt.v
Isr.v
X86.v
Switch.v
Stubs.v
Syscall.v
ShellLine.v
Words.v
Lifecycle.v
Shell.v
ShellFs.v
ShellFiles.v
ShellProc.v
ShellRun.v
ShellMem.v
Kernel.v
KernelRun.v
Userlib.v
Programs.v
UserPrograms.v
Demo.v
