(* ===== verification/Prelude.v ===== *)
(** * Wittche OS: a verification library

    Wittche is a small 32-bit operating system in C: a kernel with a page
    allocator, a heap, paging, a RAM disk with a file system, processes with a
    priority scheduler and message queues, drivers for screen, keyboard and timer,
    system calls, and a shell.  [kernel_main] (kernel/kernel.c) sets the components
    up one after the other and enters the shell; from then on the keyboard feeds
    the shell, the timer wakes sleepers and runs the scheduler, and programs reach
    the kernel through interrupt 0x80.

    ** How C is modelled

    An integer is a [Z]; [u8], [u32], [s8], [s32] write out the wrap-around of its
    type wherever the code can leave the range.  A function with effects is a
    value of [M S A]: it takes the state [S] of its component, and returns an
    outcome, the new state and the list of its observable events (text for the
    screen, bytes for I/O ports).  The outcome is a value or the reason why the code
    did not go on: [Undefined] (an access outside an object, a value never
    written), [Switched] (the CPU went to another process), [Halted] (the code
    waits for ever), [UserMode] (the CPU left for user mode), [Fault] (an exception of
    the CPU), [OutOfFuel].  [zoom] runs the code of a component inside a
    state that contains it, so the composition of the definitions is that of the
    calls in C.

    ** Files

    Foundations
    - [Prelude]: machine integers, the monad, its [run] tactics, colours, events.
    - [Bits]: bitmaps as sets of numbers; [Mem], [Bytes]: byte memory, slices,
      little-endian words.
    - [CString]: kernel/string.c.  [Words]: [str_trim], [str_split] against lists.

    Memory
    - [Pmm]: kernel/pmm.c.  The bitmap search is proved equal to a first-fit
      search, and every sequence of calls keeps the counter right.
    - [Heap]: kernel/heap.c, on bytes: block headers live in the memory they manage.
      [heap_wf h bs] says that the bytes of [h] are the list of blocks [bs]; the
      calls refine functions on such lists.  [HeapUse]: what is taken and
      given back leaves the same blocks.
    - [Alloc]: the classes [KmallocOps] and [Allocator], the heap's calls and what they
      promise to its clients; [HeapAlloc] has the instances.
    - [Paging]: kernel/paging.c with page tables in physical memory, CR0, CR3 and
      the TLB; [PagingWalk]: the meaning of the tables as a translation function;
      [PagingUser]: address spaces, page faults, reclaiming.

    Disk
    - [RamDisk]: kernel/ramdisk.c.
    - [Fs]: kernel/fs.c; [FsDisk]: codecs of inodes and superblock and the consistency
      of a mounted disk; [FsMount]: formatting and mounting; [FsFile]: reading and
      writing refine operations on a byte sequence; [FsDir], [FsNames]: the root
      directory as a list of names, creation, lookup and removal.

    Processes
    - [Process]: kernel/process.c; [Sched]: what the scheduler picks; [Ipc]: the ring
      buffer of messages refines a bounded queue; [Lifecycle]: creating and
      killing a process over the heap.
    - [Timer]: kernel/timer.c.  [Syscall]: kernel/syscall.c over the kernel and
      the caller's memory.  [Userlib]: kernel/userlib.c.

    Devices and the CPU
    - [Screen]: kernel/screen.c; [Kprintf]: kernel/kprintf.c; [Console]: the events
      of the other components run on the screen.
    - [Keyboard]: kernel/keyboard.c.
    - [Gdt], [Idt], [Isr]: kernel/gdt.c, idt.c, isr.c.
    - [X86]: the CPU under the assembly, with the checks of segment loads; [Switch]:
      kernel/switch.asm; [Stubs]: interrupt.asm with its table of stubs, syscall.asm
      and usermode.asm, the delivery of interrupts and [iret].

    Shell, boot and programs
    - [ShellLine], [Shell], [ShellFs], [ShellProc], [ShellRun]: kernel/shell.c, the
      line editor with tab completion, the thirty-one commands, the history, the
      dispatcher and the main loop; [ShellFiles], [ShellMem]: what the file
      commands and the memory test do to the system.
    - [Kernel]: [kernel_main] of kernel/kernel.c; [KernelRun]: that it reaches the
      shell.
    - [Programs]: the demonstration programs of kernel/kernel.c; [UserPrograms]: what
      two of them put out through the system calls; [Demo]: turns of producer and
      consumer, timer ticks and the rest of the system as a step relation.  What
      the rest may do is the relation [others_may]: it neither kills the two nor
      sends to the consumer.

    ** What the theorems show

    - Memory: [kmalloc_spec], [kfree_spec], [krealloc_spec] describe the heap's calls on
      every branch, with the bytes of the other blocks; [kmalloc_kfree_restores],
      [address_space_reclaimed] and [memtest_restores] that what was taken comes
      back; [find_free_pages_first_fit] that the search with skips is the plain
      one; [paging_map_translates], [paging_map_user_code_spec] and
      [page_fault_spec] what the page tables translate to afterwards.
    - Disk: [boot_mounts]; [fs_write_spec], [fs_read_spec], [fs_create_spec],
      [fs_unlink_spec] and [path_lookup_spec] are refinements of a directory of
      byte sequences, errors and full disks included.
    - Processes: [schedule_picks_highest], [sleep_wakes_on_time],
      [process_create_spec], [create_kill_restores], [send_appends],
      [receive_takes_oldest], and [messages_in_order]: the demonstration delivers its
      messages complete and in order however its turns are interleaved with each
      other, with timer ticks and with steps of the rest of the system that leave
      its two processes alone.
    - Devices: no call of the screen leaves video memory; no key makes the line
      editor touch a byte outside its buffer; each vector of the interrupt table
      is the gate it should be.
    - Assembly: [switch_returns], the context switch is a call that returns;
      [interrupt_transparent] and [syscall_returns], what the stubs save and
      restore, vector by vector through the stub that
      interrupt.asm declares for it, for every C function that follows the calling
      convention ([c_function]).  They justify how the C model treats these points: [Switched]
      is followed by the code behind the call, an interrupt by the code it
      interrupted, [int $0x80] by the result of the dispatcher in EAX.
    - Shell and boot: [command_dispatch], [history_keeps_last_ten],
      [shell_run_rounds], [touch_rm_restores], [kernel_main_runs_shell]; and
      [usermode_output], a program through wrappers, dispatcher and call.
    - Some theorems state what the code does where it cannot be what it means to
      do: [user_process_faults],
      [user_directory_overwrites_heap], and lemmas such as
      [schedule_starves_middle], [cat_refuses_files], [command_overruns_copy],
      [inode_table_overlaps_data] and [kill_current_keeps_slot].

    ** Fuel

    Loops over an index are folds over the list of its values.  The others are
    [iterate], and the theorems show that the bound suffices: [heap_fuel] (131074
    rounds; a block has at least 32 bytes, so the heap holds at most 131072);
    the search for pages, one round per page and two; reading and writing a file,
    twelve rounds (a file has ten blocks); [shell_run], one round per key and one;
    [timer_wait], any bound above the ticks waited for.  Digits of a number: 33
    for [utoa], 32 for [itoa], 11 in decimal, more than 32 bits can need.

    ** Parameters and limits

    What C leaves open is a parameter: the contents of uninitialised locals
    ([frame], [junk_pcb], [junk_queue]), registers a wrapper does not set, the
    addresses of the linked functions and tables.  Keys are the list of the
    characters read.

    The memory of the heap, that of the page tables and the user memory are separate
    states, although the heap lies in pages that [pmm_alloc_page] gives out;
    [user_directory_overwrites_heap] shows what that overlap does.  The words
    stored on a new stack are kept apart from the bytes of the block they lie in;
    a store outside that block is [Undefined].  The parameter [frame] is the stack
    from [cmd_copy] on: its 256 bytes and the bytes behind them, the first of which
    [strncpy] overwrites on every command ([command_overruns_copy]).
    The C model and the CPU meet in the control block: [saved] reads the structure
    [cpu_state_t] of [Process] out of memory.

    Not modelled: boot/boot.asm, 16-bit code on top of the BIOS, and the entry stub
    that calls [kernel_main]; the reload of the segment registers in gdt.asm;
    interrupts that arrive while a kernel function runs, during the boot or within
    a turn of a program (the functions of [Process] are atomic in the model, which
    the code does not enforce); [idle_task], which only halts; the macros SYSCALL2
    and SYSCALL4, which nothing uses. *)

From Stdlib Require Export ZArith Lia String Ascii.
From stdpp Require Export base list gmap numbers.

#[global] Set Default Goal Selector "!".
Open Scope Z_scope.

(** Linear arithmetic with division and remainder by constants. *)
Ltac dlia := Z.to_euclidean_division_equations; lia.

(** ** Machine integers

    Every C integer is a [Z]; the conversions below write out the
    wrap-around of the width the C type has. *)

Definition u8 (x : Z) : Z := x mod 256.
Definition u16 (x : Z) : Z := x mod 65536.
Definition u32 (x : Z) : Z := x mod 4294967296.
Definition s8 (x : Z) : Z := (x + 128) mod 256 - 128.
Definition s32 (x : Z) : Z := (x + 2147483648) mod 4294967296 - 2147483648.

Definition is_u8 (x : Z) : Prop := 0 <= x < 256.
Definition is_u32 (x : Z) : Prop := 0 <= x < 4294967296.
Definition is_s32 (x : Z) : Prop := -2147483648 <= x < 2147483648.

Lemma u8_range x : is_u8 (u8 x).
Proof. apply Z.mod_pos_bound. lia. Qed.

Lemma u32_range x : is_u32 (u32 x).
Proof. apply Z.mod_pos_bound. lia. Qed.

Lemma u8_small x : is_u8 x -> u8 x = x.
Proof. intros. by apply Z.mod_small. Qed.

Lemma u16_small x : 0 <= x < 65536 -> u16 x = x.
Proof. intros. by apply Z.mod_small. Qed.

Lemma u32_small x : is_u32 x -> u32 x = x.
Proof. intros. by apply Z.mod_small. Qed.

Lemma s8_small x : -128 <= x < 128 -> s8 x = x.
Proof. intros. unfold s8. rewrite Z.mod_small by lia. lia. Qed.

Lemma s32_small x : is_s32 x -> s32 x = x.
Proof. unfold is_s32. intros. unfold s32. rewrite Z.mod_small by lia. lia. Qed.

(** ** Outcomes, events and the kernel monad

    A C function that touches global state is a function of the monad [M S]:
    from a state it gives an outcome, the state it leaves and the list of the
    effects it has on the devices, in order.  [Stopped] is every way in which
    the C code does not come back to its caller: the CPU is halted for good,
    the scheduler switched to another process, the CPU left the kernel for user
    mode, the CPU raises an exception, the code runs into undefined behaviour of C, or the fuel of a modelled loop ran out (each use of fuel
    comes with a theorem that it does not). *)

Inductive stop : Type :=
| Halted
| Switched
| UserMode (entry stack : Z)
| Fault (vector code : Z)
| Undefined
| OutOfFuel.

(** An argument of [kprintf]: a 32-bit integer, or a string ([None] is NULL). *)
Inductive arg : Type :=
| AInt (v : Z)
| AStr (s : option (list Z)).

(** Calls of the screen driver and writes to I/O ports.  [EvWrite],
    [EvWriteColor], [EvDec], [EvHex], [EvClear], [EvPrintf] and [EvPrintfColor]
    stand for calls of [screen_write], [screen_write_color], [screen_write_dec],
    [screen_write_hex], [screen_clear], [kprintf] and [kprintf_color]; what they do to the
    video memory is the subject of the screen component. *)
Inductive event : Type :=
| EvWrite (s : list Z)
| EvWriteColor (s : list Z) (color : Z)
| EvDec (n : Z)
| EvHex (n : Z)
| EvClear
| EvPrintf (fmt : list Z) (args : list arg)
| EvPrintfColor (color : Z) (fmt : list Z) (args : list arg)
| EvOutb (port val : Z).

Inductive outcome (A : Type) : Type :=
| Val (a : A)
| Stopped (w : stop).
Arguments Val {A} a.
Arguments Stopped {A} w.

#[export] Instance stop_eq_dec : EqDecision stop.
Proof. solve_decision. Defined.

Definition M (S A : Type) : Type := S -> outcome A * S * list event.

Section monad.
Context {S : Type}.

Definition ret {A} (a : A) : M S A := fun s => (Val a, s, []).

Definition bind {A B} (m : M S A) (f : A -> M S B) : M S B := fun s =>
  match m s with
  | (Val a, s1, o1) => let '(r, s2, o2) := f a s1 in (r, s2, o1 ++ o2)
  | (Stopped w, s1, o1) => (Stopped w, s1, o1)
  end.

Definition get : M S S := fun s => (Val s, s, []).
Definition gets {A} (f : S -> A) : M S A := fun s => (Val (f s), s, []).
Definition modify (f : S -> S) : M S unit := fun s => (Val tt, f s, []).
Definition emit (e : event) : M S unit := fun s => (Val tt, s, [e]).
Definition stop_with {A} (w : stop) : M S A := fun s => (Stopped w, s, []).

(** A C expression that is undefined behaviour outside its domain. *)
Definition defined {A} (o : option A) : M S A :=
  match o with Some a => ret a | None => stop_with Undefined end.

(** [for] loops: over the values of the index in order, without and with an
    early [return] of the enclosing function. *)
Fixpoint for_each {A} (l : list A) (f : A -> M S unit) : M S unit :=
  match l with
  | [] => ret tt
  | x :: r => bind (f x) (fun _ => for_each r f)
  end.

Fixpoint for_find {A B} (l : list A) (f : A -> M S (option B)) : M S (option B) :=
  match l with
  | [] => ret None
  | x :: r => bind (f x) (fun b =>
      match b with Some _ => ret b | None => for_find r f end)
  end.

(** A [for] loop that also updates local variables: the body gives their new
    values, or leaves the loop with a result. *)
Fixpoint for_state {A L B} (l : list A) (f : A -> L -> M S (L + B)) (loc : L) : M S (L + B) :=
  match l with
  | [] => ret (inl loc)
  | x :: r => bind (f x loc) (fun s =>
      match s with inl loc' => for_state r f loc' | inr b => ret (inr b) end)
  end.

(** [while] loops: the body gives the next value of the loop variables or the
    value the loop leaves with. *)
Fixpoint iterate {A B} (fuel : nat) (body : A -> M S (A + B)) (a : A) : M S B :=
  match fuel with
  | O => stop_with OutOfFuel
  | Datatypes.S n => bind (body a) (fun r =>
      match r with inl a' => iterate n body a' | inr b => ret b end)
  end.

(** The outcome and the state, without the device output. *)
Definition exec {A} (m : M S A) (s : S) : outcome A * S := fst (m s).

(** The device output alone. *)
Definition output {A} (m : M S A) (s : S) : list event := snd (m s).

End monad.

(** A component's operation run on the part of a larger state. *)
Definition zoom {S T A} (g : S -> T) (p : T -> S -> S) (m : M T A) : M S A := fun s =>
  let '(r, t, o) := m (g s) in (r, p t s, o).

Declare Scope kernel_scope.
Delimit Scope kernel_scope with kernel.
Open Scope kernel_scope.

Notation "'let!' x := m 'in' k" := (bind m (fun x => k))
  (at level 10, x name, m at level 200, k at level 200,
   format "'let!'  x  :=  m  'in' '//' k") : kernel_scope.
Notation "'let!' ' p := m 'in' k" := (bind m (fun x => match x with p => k end))
  (at level 10, p pattern, m at level 200, k at level 200,
   only parsing) : kernel_scope.
Notation "m ;; k" := (bind m (fun _ => k))
  (at level 100, k at level 200, right associativity) : kernel_scope.

Create Rewrite HintDb exec.

Section exec_laws.
Context {S : Type}.

Lemma exec_ret {A} (a : A) (s : S) : exec (ret a) s = (Val a, s).
Proof. reflexivity. Qed.

Lemma exec_bind {A B} (m : M S A) (f : A -> M S B) (s : S) :
  exec (bind m f) s =
  match exec m s with
  | (Val a, s') => exec (f a) s'
  | (Stopped w, s') => (Stopped w, s')
  end.
Proof.
  unfold exec, bind. destruct (m s) as [[[a|w] s1] o1]; simpl; [|done].
  by destruct (f a s1) as [[r s2] o2].
Qed.

Lemma exec_get (s : S) : exec get s = (Val s, s).
Proof. reflexivity. Qed.

Lemma exec_gets {A} (f : S -> A) (s : S) : exec (gets f) s = (Val (f s), s).
Proof. reflexivity. Qed.

Lemma exec_modify (f : S -> S) (s : S) : exec (modify f) s = (Val tt, f s).
Proof. reflexivity. Qed.

Lemma exec_emit e (s : S) : exec (emit e) s = (Val tt, s).
Proof. reflexivity. Qed.

Lemma exec_stop {A} w (s : S) : exec (A:=A) (stop_with w) s = (Stopped w, s).
Proof. reflexivity. Qed.

Lemma exec_defined_Some {A} (a : A) (s : S) : exec (defined (Some a)) s = (Val a, s).
Proof. reflexivity. Qed.

Lemma exec_zoom {T A} (g : S -> T) (p : T -> S -> S) (m : M T A) (s : S) :
  exec (zoom g p m) s = let '(r, t) := exec m (g s) in (r, p t s).
Proof. unfold exec, zoom. by destruct (m (g s)) as [[r t] o]. Qed.

Lemma exec_if {A} (b : bool) (m1 m2 : M S A) (s : S) :
  exec (if b then m1 else m2) s = if b then exec m1 s else exec m2 s.
Proof. by destruct b. Qed.

(** A loop keeps an invariant that its body keeps. *)
Lemma exec_for_each_inv {A} (P : S -> Prop) (f : A -> M S unit) l s :
  P s ->
  (forall x s1, x ∈ l -> P s1 -> exists s2, exec (f x) s1 = (Val tt, s2) /\ P s2) ->
  exists s', exec (for_each l f) s = (Val tt, s') /\ P s'.
Proof.
  revert s. induction l as [|x l IH]; intros s HP Hf; simpl.
  { eexists. rewrite exec_ret. eauto. }
  destruct (Hf x s) as (s2 & E & HP2); [set_solver|done|].
  rewrite exec_bind, E. apply IH; [done|]. intros. apply Hf; [set_solver|done].
Qed.

End exec_laws.

#[export] Hint Rewrite @exec_ret @exec_bind @exec_get @exec_gets @exec_modify
  @exec_emit @exec_stop @exec_defined_Some @exec_zoom @exec_if : exec.

(** Run the monad symbolically as far as the state is known. *)
Ltac run := repeat (progress (autorewrite with exec; cbn beta iota match zeta)).
Ltac run_in H := repeat (progress (autorewrite with exec in H; cbn beta iota match zeta in H)).

(** ** C string literals

    [c "text\n"] is the character array of the C literal, without the final
    NUL; the only escape the kernel's messages use is the newline. *)

Fixpoint c_chars (s : string) : list Z :=
  match s with
  | EmptyString => []
  | String "\"%char (String "n"%char r) => 10 :: c_chars r
  | String a r => Z.of_nat (nat_of_ascii a) :: c_chars r
  end.

Definition c (s : string) : list Z := c_chars s.
Arguments c s%_string.

Definition screen_write {S} (s : list Z) : M S unit := emit (EvWrite s).
Definition screen_write_color {S} (s : list Z) (color : Z) : M S unit :=
  emit (EvWriteColor s color).
Definition screen_write_dec {S} (n : Z) : M S unit := emit (EvDec n).
Definition screen_write_hex {S} (n : Z) : M S unit := emit (EvHex n).
Definition screen_clear {S} : M S unit := emit EvClear.
Definition kprintf {S} (fmt : list Z) (args : list arg) : M S unit := emit (EvPrintf fmt args).
Definition kprintf_color {S} (color : Z) (fmt : list Z) (args : list arg) : M S unit :=
  emit (EvPrintfColor color fmt args).
Definition outb {S} (port val : Z) : M S unit := emit (EvOutb port val).

(** Output does not touch the state. *)
Lemma exec_screen {S} (s : S) :
  (forall l, exec (screen_write l) s = (Val tt, s)) /\
  (forall l col, exec (screen_write_color l col) s = (Val tt, s)) /\
  (forall n, exec (screen_write_dec n) s = (Val tt, s)) /\
  (forall n, exec (screen_write_hex n) s = (Val tt, s)) /\
  (forall f a, exec (kprintf f a) s = (Val tt, s)) /\
  (forall col f a, exec (kprintf_color col f a) s = (Val tt, s)) /\
  (forall p v, exec (outb p v) s = (Val tt, s)).
Proof. by repeat split. Qed.

Lemma exec_screen_write {S} l (s : S) : exec (screen_write l) s = (Val tt, s).
Proof. apply exec_screen. Qed.
Lemma exec_screen_write_color {S} l col (s : S) : exec (screen_write_color l col) s = (Val tt, s).
Proof. apply exec_screen. Qed.
Lemma exec_screen_write_dec {S} n (s : S) : exec (screen_write_dec n) s = (Val tt, s).
Proof. apply exec_screen. Qed.
Lemma exec_screen_write_hex {S} n (s : S) : exec (screen_write_hex n) s = (Val tt, s).
Proof. apply exec_screen. Qed.
Lemma exec_kprintf {S} f a (s : S) : exec (kprintf f a) s = (Val tt, s).
Proof. apply exec_screen. Qed.
Lemma exec_kprintf_color {S} col f a (s : S) : exec (kprintf_color col f a) s = (Val tt, s).
Proof. apply exec_screen. Qed.
Lemma exec_outb {S} p v (s : S) : exec (outb p v) s = (Val tt, s).
Proof. apply exec_screen. Qed.

Lemma exec_screen_clear {S} (s : S) : exec screen_clear s = (Val tt, s).
Proof. reflexivity. Qed.

#[export] Hint Rewrite @exec_screen_clear @exec_screen_write @exec_screen_write_color @exec_screen_write_dec
  @exec_screen_write_hex @exec_kprintf @exec_kprintf_color @exec_outb : exec.

Example c_example : c "ab\n" = [97; 98; 10].
Proof. reflexivity. Qed.

(** ** Colours of the VGA text mode (include/screen.h) *)

Definition COLOR_BLACK := 0.
Definition COLOR_BLUE := 1.
Definition COLOR_GREEN := 2.
Definition COLOR_CYAN := 3.
Definition COLOR_RED := 4.
Definition COLOR_MAGENTA := 5.
Definition COLOR_BROWN := 6.
Definition COLOR_LIGHT_GREY := 7.
Definition COLOR_DARK_GREY := 8.
Definition COLOR_LIGHT_BLUE := 9.
Definition COLOR_LIGHT_GREEN := 10.
Definition COLOR_LIGHT_CYAN := 11.
Definition COLOR_LIGHT_RED := 12.
Definition COLOR_LIGHT_MAGENTA := 13.
Definition COLOR_YELLOW := 14.
Definition COLOR_WHITE := 15.

Definition MAKE_COLOR (fg bg : Z) : Z := Z.lor (Z.shiftl bg 4) (Z.land fg 15).
Definition DEFAULT_COLOR : Z := MAKE_COLOR COLOR_LIGHT_GREY COLOR_BLACK.

(** ** Searching loops *)

(** The pure counterpart of [for_find]. *)
Fixpoint first_some {A B} (g : A -> option B) (l : list A) : option B :=
  match l with
  | [] => None
  | x :: r => match g x with Some b => Some b | None => first_some g r end
  end.

Lemma exec_for_find_pure {S A B} (f : A -> M S (option B)) (g : A -> option B) l s :
  (forall x, x ∈ l -> exec (f x) s = (Val (g x), s)) ->
  exec (for_find l f) s = (Val (first_some g l), s).
Proof.
  induction l as [|x l IH]; intros Hf; simpl; [done|].
  rewrite exec_bind, Hf by set_solver. destruct (g x); [done|].
  apply IH. intros. apply Hf. set_solver.
Qed.

Lemma exec_for_find_app {S A B} (f : A -> M S (option B)) l1 l2 s :
  exec (for_find (l1 ++ l2) f) s =
  match exec (for_find l1 f) s with
  | (Val None, s') => exec (for_find l2 f) s'
  | r => r
  end.
Proof.
  revert s. induction l1 as [|x l1 IH]; intros s; simpl; [done|].
  rewrite !exec_bind. destruct (exec (f x) s) as [[[b|]|w] s1]; [done| |done].
  apply IH.
Qed.

Lemma first_some_None {A B} (g : A -> option B) l :
  first_some g l = None <-> forall x, x ∈ l -> g x = None.
Proof.
  induction l as [|x l IH]; simpl.
  - split; [|done]. intros _ x Hx. by apply not_elem_of_nil in Hx.
  - setoid_rewrite elem_of_cons. destruct (g x) eqn:E.
    + split; [done|]. intros H. rewrite H in E by auto. done.
    + rewrite IH. split; [intros H y [->|Hy]; auto|auto].
Qed.

Lemma first_some_Some {A B} (g : A -> option B) l b :
  first_some g l = Some b -> exists x, x ∈ l /\ g x = Some b.
Proof.
  induction l as [|x l IH]; simpl; [done|]. destruct (g x) eqn:E.
  - intros [= <-]. exists x. split; [left|done].
  - intros Hf. destruct (IH Hf) as (y & Hy & Ey). exists y. split; [by right|done].
Qed.

(** The search over [lo, lo + n) for the first number with [p i = false]. *)
Lemma first_some_seqZ_Some (p : Z -> bool) (lo n i : Z) :
  first_some (fun i => if p i then None else Some i) (seqZ lo n) = Some i <->
  lo <= i < lo + n /\ p i = false /\ (forall j, lo <= j < i -> p j = true).
Proof.
  destruct (decide (0 <= n)) as [Hn|Hn].
  2: { rewrite seqZ_nil by lia. simpl. split; [done|lia]. }
  revert lo. pattern n. apply natlike_ind; [|clear n Hn; intros n Hn IH|done]; intros lo.
  { simpl. split; [done|lia]. }
  rewrite seqZ_cons by lia. simpl. replace (Z.pred (Z.succ n)) with n by lia.
  destruct (p lo) eqn:E.
  - rewrite IH. split.
    + intros (H1 & H2 & H3). split; [lia|]. split; [done|]. intros j Hj.
      destruct (decide (j = lo)) as [->|]; [done|]. apply H3. lia.
    + intros (H1 & H2 & H3). assert (i <> lo) by congruence.
      split; [lia|]. split; [done|]. intros. apply H3. lia.
  - split.
    + intros [= ->]. split; [lia|]. split; [done|]. lia.
    + intros (H1 & H2 & H3). destruct (decide (i = lo)) as [->|]; [done|].
      rewrite H3 in E by lia. done.
Qed.

Lemma first_some_seqZ_None (p : Z -> bool) (lo n : Z) :
  first_some (fun i => if p i then None else Some i) (seqZ lo n) = None <->
  forall j, lo <= j < lo + n -> p j = true.
Proof.
  rewrite first_some_None. setoid_rewrite elem_of_seqZ. split; intros H j Hj.
  - specialize (H j Hj). simpl in H. by destruct (p j).
  - simpl. by rewrite H.
Qed.

Lemma exec_for_each_cons {S A} (x : A) l (f : A -> M S unit) s :
  exec (for_each (x :: l) f) s =
  match exec (f x) s with
  | (Val _, s') => exec (for_each l f) s'
  | (Stopped w, s') => (Stopped w, s')
  end.
Proof. apply exec_bind. Qed.

Lemma exec_for_each_app {S A} (l1 l2 : list A) (f : A -> M S unit) s :
  exec (for_each (l1 ++ l2) f) s =
  match exec (for_each l1 f) s with
  | (Val _, s') => exec (for_each l2 f) s'
  | (Stopped w, s') => (Stopped w, s')
  end.
Proof.
  revert s. induction l1 as [|x l1 IH]; intros s; simpl; [done|].
  rewrite !exec_bind. destruct (exec (f x) s) as [[[]|w] s1]; [apply IH|done].
Qed.

(** Two loops whose bodies agree on the states that satisfy an invariant. *)
Lemma exec_for_each_cong {S A} (P : S -> Prop) (f g : A -> M S unit) l s :
  P s -> (forall x s1, x ∈ l -> P s1 -> exec (f x) s1 = exec (g x) s1 /\ P (snd (exec (g x) s1))) ->
  exec (for_each l f) s = exec (for_each l g) s.
Proof.
  revert s. induction l as [|x l IH]; intros s HP Hf; simpl; [done|].
  destruct (Hf x s) as [E HP2]; [set_solver|done|]. rewrite !exec_bind, E.
  destruct (exec (g x) s) as [[[]|w] s1]; [|done]. apply IH; [done|]. intros. apply Hf; [set_solver|done].
Qed.

(** A loop over the concatenation of lists is a loop of loops. *)
Lemma exec_for_each_bind {S A B} (g : A -> list B) (h : B -> M S unit) l s :
  exec (for_each (l ≫= g) h) s = exec (for_each l (fun x => for_each (g x) h)) s.
Proof.
  revert s. induction l as [|x l IH]; intros s; [done|].
  rewrite bind_cons, exec_for_each_app. simpl. rewrite exec_bind.
  destruct (exec (for_each (g x) h) s) as [[[]|w] s1]; [apply IH|done].
Qed.

(** [for (i = 0; i < n; i++)] with an invariant that may mention [i]. *)
Lemma exec_for_each_seqZ {S} (I : Z -> S -> Prop) (f : Z -> M S unit) n s :
  0 <= n -> I 0 s ->
  (forall i s1, 0 <= i < n -> I i s1 -> exists s2, exec (f i) s1 = (Val tt, s2) /\ I (i + 1) s2) ->
  exists s', exec (for_each (seqZ 0 n) f) s = (Val tt, s') /\ I n s'.
Proof.
  intros Hn H0 Hf. revert Hf. pattern n.
  apply natlike_ind; [|clear n Hn; intros n Hn IH|done]; intros Hf; [by exists s|].
  destruct IH as (s1 & E & HI). { intros. apply Hf; [lia|done]. }
  destruct (Hf n s1) as (s2 & E2 & HI2); [lia|done|].
  exists s2. unfold Z.succ. rewrite seqZ_app, exec_for_each_app, E by lia.
  change (seqZ (0 + n) 1) with [Z.of_nat 0 + (0 + n)]. simpl.
  replace (Z.of_nat 0 + (0 + n)) with n by lia. rewrite exec_bind. by rewrite E2.
Qed.

(** A loop over local variables whose body only computes. *)
Lemma exec_for_state_pure {S A L B} (f : A -> L -> M S (L + B)) (g : A -> L -> L) l loc s :
  (forall x y, x ∈ l -> exec (f x y) s = (Val (inl (g x y)), s)) ->
  exec (for_state l f loc) s = (Val (inl (foldl (fun y x => g x y) loc l)), s).
Proof.
  revert loc. induction l as [|x l IH]; intros loc Hf; simpl; [done|].
  rewrite exec_bind, Hf by set_solver. apply IH. intros. apply Hf. set_solver.
Qed.

Lemma exec_for_state_app {S A L B} (l1 l2 : list A) (f : A -> L -> M S (L + B)) loc s :
  exec (for_state (l1 ++ l2) f loc) s =
  match exec (for_state l1 f loc) s with
  | (Val (inl loc'), s') => exec (for_state l2 f loc') s'
  | r => r
  end.
Proof.
  revert loc s. induction l1 as [|x l1 IH]; intros loc s; simpl; [done|].
  rewrite !exec_bind. destruct (exec (f x loc) s) as [[[loc'|b]|w] s1]; [apply IH|done|done].
Qed.

(** [for (i = 0; i < n; i++)] over local variables, with an invariant. *)
Lemma exec_for_state_seqZ {S L B} (I : Z -> L -> S -> Prop) (f : Z -> L -> M S (L + B)) n loc s :
  0 <= n -> I 0 loc s ->
  (forall i loc1 s1, 0 <= i < n -> I i loc1 s1 ->
     exists loc2 s2, exec (f i loc1) s1 = (Val (inl loc2), s2) /\ I (i + 1) loc2 s2) ->
  exists loc' s', exec (for_state (seqZ 0 n) f loc) s = (Val (inl loc'), s') /\ I n loc' s'.
Proof.
  intros Hn H0 Hf. revert Hf. pattern n.
  apply natlike_ind; [|clear n Hn; intros n Hn IH|done]; intros Hf; [by exists loc, s|].
  destruct IH as (loc1 & s1 & E & HI). { intros. apply Hf; [lia|done]. }
  destruct (Hf n loc1 s1) as (loc2 & s2 & E2 & HI2); [lia|done|].
  exists loc2, s2. unfold Z.succ. rewrite seqZ_app, exec_for_state_app, E by lia.
  change (seqZ (0 + n) 1) with [Z.of_nat 0 + (0 + n)]. simpl.
  replace (Z.of_nat 0 + (0 + n)) with n by lia. rewrite exec_bind. by rewrite E2.
Qed.

(** The same over the numbers of [seq]. *)
Lemma exec_for_state_seq {S L B} (I : nat -> L -> S -> Prop) (f : nat -> L -> M S (L + B)) a n loc s :
  I a loc s ->
  (forall i loc1 s1, (a <= i < a + n)%nat -> I i loc1 s1 ->
     exists loc2 s2, exec (f i loc1) s1 = (Val (inl loc2), s2) /\ I (Datatypes.S i) loc2 s2) ->
  exists loc' s', exec (for_state (seq a n) f loc) s = (Val (inl loc'), s') /\ I (a + n)%nat loc' s'.
Proof.
  revert a loc s. induction n as [|n IH]; intros a loc s H0 Hf; cbn [seq].
  - exists loc, s. rewrite Nat.add_0_r. by split.
  - destruct (Hf a loc s) as (loc1 & s1 & E1 & H1); [lia|done|].
    destruct (IH (Datatypes.S a) loc1 s1 H1) as (loc2 & s2 & E2 & H2). { intros. apply Hf; [lia|done]. }
    exists loc2, s2. unfold for_state; fold (@for_state S nat L B). rewrite exec_bind, E1. cbv iota.
    split; [done|]. by replace (a + Datatypes.S n)%nat with (Datatypes.S a + n)%nat by lia.
Qed.

(** A loop ends when every round keeps the invariant and makes the measure
    smaller; the fuel is above the measure. *)
Lemma exec_iterate {S A B} (I : A -> S -> Prop) (m : A -> S -> nat) (Q : B -> S -> Prop)
    (body : A -> M S (A + B)) :
  (forall a s, I a s -> exists r s', exec (body a) s = (Val r, s') /\
     match r with inl a' => I a' s' /\ (m a' s' < m a s)%nat | inr b => Q b s' end) ->
  forall n a s, I a s -> (m a s < n)%nat ->
  exists b s', exec (iterate n body a) s = (Val b, s') /\ Q b s'.
Proof.
  intros Hstep n. induction n as [|n IH]; intros a s HI Hn; [lia|].
  unfold iterate; fold (@iterate S A B). rewrite exec_bind.
  destruct (Hstep a s HI) as ([a'|b] & s' & -> & Hr).
  - destruct Hr as [HI' Hm]. apply IH; [done|lia].
  - by exists b, s'.
Qed.

(** ** Device output *)

(** An operation that writes nothing to a device. *)
Definition silent {S A} (m : M S A) : Prop := forall s, output m s = [].

Section silent.
Context {S : Type}.

Lemma output_bind {A B} (m : M S A) (f : A -> M S B) (s : S) :
  output (bind m f) s = output m s ++
    match exec m s with (Val a, s') => output (f a) s' | (Stopped _, _) => [] end.
Proof.
  unfold output, exec, bind. destruct (m s) as [[[a|w] s1] o1]; simpl; [|by rewrite app_nil_r].
  by destruct (f a s1) as [[r s2] o2].
Qed.

Lemma silent_bind {A B} (m : M S A) (f : A -> M S B) : silent m -> (forall a, silent (f a)) -> silent (bind m f).
Proof. intros Hm Hf s. rewrite output_bind, Hm. destruct (exec m s) as [[a|w] s']; [apply Hf|done]. Qed.

Lemma silent_ret {A} (a : A) : silent (S := S) (ret a).
Proof. done. Qed.
Lemma silent_get : silent (S := S) get.
Proof. done. Qed.
Lemma silent_gets {A} (f : S -> A) : silent (gets f).
Proof. done. Qed.
Lemma silent_modify (f : S -> S) : silent (modify f).
Proof. done. Qed.
Lemma silent_stop {A} w : silent (S := S) (A := A) (stop_with w).
Proof. done. Qed.
Lemma silent_defined {A} (o : option A) : silent (S := S) (defined o).
Proof. by destruct o. Qed.

Lemma silent_for_each {A} (l : list A) (f : A -> M S unit) : (forall x, silent (f x)) -> silent (for_each l f).
Proof. intros Hf. induction l; [apply silent_ret|]. by apply silent_bind. Qed.

Lemma silent_for_state {A L B} (l : list A) (f : A -> L -> M S (L + B)) loc :
  (forall x y, silent (f x y)) -> silent (for_state l f loc).
Proof.
  intros Hf. revert loc. induction l as [|x l IH]; intros loc; [apply silent_ret|].
  apply silent_bind; [apply Hf|]. intros [y|b]; [apply IH|apply silent_ret].
Qed.

Lemma silent_zoom {T A} (g : S -> T) (p : T -> S -> S) (m : M T A) : silent m -> silent (zoom g p m).
Proof. intros Hm s. specialize (Hm (g s)). unfold output, zoom in *. by destruct (m (g s)) as [[r t] o]. Qed.

(** The run of a program that begins with a step without output. *)
Lemma silent_run {A} (m : M S A) s v s' : silent m -> exec m s = (Val v, s') -> m s = (Val v, s', []).
Proof. intros Hm E. specialize (Hm s). unfold exec, output in *. destruct (m s) as [r o]. cbn in *. by subst. Qed.

Lemma bind_run {A B} (m : M S A) (f : A -> M S B) s v s' : m s = (Val v, s', []) -> bind m f s = f v s'.
Proof. intros E. unfold bind. rewrite E. by destruct (f v s') as [[r s2] o]. Qed.

Lemma bind_defined {A B} (v : A) (f : A -> M S B) s : bind (defined (Some v)) f s = f v s.
Proof. by apply bind_run. Qed.

End silent.

Create HintDb silent.
#[export] Hint Resolve silent_ret silent_get silent_gets silent_modify silent_stop silent_defined silent_zoom : silent.

Ltac silence := repeat first
  [ progress intros
  | solve [auto with silent]
  | apply silent_bind | apply silent_for_each | apply silent_for_state
  | case_match ].

(** Loops are unfolded by their lemmas, never by computation: their bounds are
    large. *)
#[global] Arguments for_each : simpl never.
#[global] Arguments first_some : simpl never.
#[global] Arguments for_find : simpl never.
#[global] Arguments for_state : simpl never.
#[global] Arguments iterate : simpl never.
#[global] Arguments seqZ : simpl never.
#[global] Arguments exec : simpl never.
#[global] Arguments output : simpl never.
