(* ===== verification/Bits.v ===== *)
(** * Bitmaps

    The page allocator and the file system both keep sets of numbers in arrays
    of machine words: bit [i mod W] of word [i / W] says whether [i] is in the
    set.  This file has the lemmas both use: what setting and clearing a bit
    do to the set, and how the number of elements changes. *)

From S2P Require Import Prelude.

(** ** Counting *)

(** How many numbers of [0, n) satisfy [p]. *)
Fixpoint cnt (p : Z -> bool) (n : nat) : Z :=
  match n with
  | O => 0
  | S n' => cnt p n' + if p (Z.of_nat n') then 1 else 0
  end.

Arguments cnt : simpl never.

Lemma cnt_S p n : cnt p (S n) = cnt p n + if p (Z.of_nat n) then 1 else 0.
Proof. reflexivity. Qed.

Lemma cnt_ext p q n :
  (forall i, 0 <= i < Z.of_nat n -> p i = q i) -> cnt p n = cnt q n.
Proof.
  induction n as [|n IH]; intros H; [done|].
  rewrite !cnt_S, (H (Z.of_nat n)) by lia. rewrite IH; [done|].
  intros. apply H. lia.
Qed.

Lemma cnt_bounds p n : 0 <= cnt p n <= Z.of_nat n.
Proof. induction n; [done|]. rewrite cnt_S. destruct (p _); lia. Qed.

(** Adding one element. *)
Lemma cnt_add p q n i :
  0 <= i < Z.of_nat n -> p i = false -> q i = true ->
  (forall j, 0 <= j < Z.of_nat n -> j <> i -> p j = q j) ->
  cnt q n = cnt p n + 1.
Proof.
  induction n as [|n IH]; intros Hi Hp Hq Hpq; [lia|].
  rewrite !cnt_S. destruct (decide (i = Z.of_nat n)) as [->|Hne].
  - rewrite Hp, Hq. rewrite (cnt_ext q p n); [lia|]. intros j Hj. symmetry. apply Hpq; lia.
  - rewrite IH; [|lia|done|done|intros; apply Hpq; lia].
    rewrite (Hpq (Z.of_nat n)) by lia. destruct (q (Z.of_nat n)); lia.
Qed.

(** Not every number of the range is counted, so one is not. *)
Lemma cnt_lt_exists p n : cnt p n < Z.of_nat n -> exists i, 0 <= i < Z.of_nat n /\ p i = false.
Proof.
  induction n as [|n IH]; intros H; [change (cnt p 0) with 0 in H; lia|].
  rewrite cnt_S in H. destruct (p (Z.of_nat n)) eqn:E.
  - destruct IH as (i & Hi & Hp); [lia|]. exists i. split; [lia|done].
  - exists (Z.of_nat n). split; [lia|done].
Qed.

Lemma cnt_full p n :
  cnt p n = Z.of_nat n -> forall i, 0 <= i < Z.of_nat n -> p i = true.
Proof.
  induction n as [|n IH]; intros H i Hi; [lia|].
  rewrite cnt_S in H. pose proof (cnt_bounds p n).
  destruct (p (Z.of_nat n)) eqn:E; [|lia].
  destruct (decide (i = Z.of_nat n)) as [->|]; [done|]. apply IH; lia.
Qed.

(** ** One word *)

Lemma testbit_word_set w b i :
  0 <= b -> 0 <= i -> Z.testbit (Z.lor w (Z.shiftl 1 b)) i = Z.testbit w i || (i =? b).
Proof.
  intros. rewrite Z.lor_spec, Z.shiftl_1_l, Z.pow2_bits_eqb by lia.
  by rewrite (Z.eqb_sym b i).
Qed.

Lemma testbit_word_clear w b i :
  0 <= b -> 0 <= i ->
  Z.testbit (Z.land w (Z.lnot (Z.shiftl 1 b))) i = Z.testbit w i && negb (i =? b).
Proof.
  intros. rewrite Z.land_spec, Z.lnot_spec, Z.shiftl_1_l, Z.pow2_bits_eqb by lia.
  by rewrite (Z.eqb_sym b i).
Qed.

(** The C test [(w & (1 << b)) != 0]. *)
Lemma word_test w b :
  0 <= b -> negb (Z.land w (Z.shiftl 1 b) =? 0) = Z.testbit w b.
Proof.
  intros Hb. rewrite Z.shiftl_1_l. destruct (Z.testbit w b) eqn:E.
  - apply negb_true_iff, Z.eqb_neq. intros H.
    assert (Z.testbit (Z.land w (2 ^ b)) b = true) as H1.
    { by rewrite Z.land_spec, E, Z.pow2_bits_true by lia. }
    by rewrite H, Z.bits_0 in H1.
  - apply negb_false_iff, Z.eqb_eq. apply Z.bits_inj'. intros i Hi.
    rewrite Z.land_spec, Z.bits_0, Z.pow2_bits_eqb by lia.
    destruct (Z.eqb_spec b i) as [<-|]; [by rewrite E|by rewrite andb_false_r].
Qed.

Lemma word_bound_bits w W :
  0 <= W -> 0 <= w -> (forall i, W <= i -> Z.testbit w i = false) -> w < 2 ^ W.
Proof.
  intros HW Hw H. destruct (decide (w < 2 ^ W)) as [|Hge]; [done|]. exfalso.
  assert (0 < w) by (pose proof (Z.pow_pos_nonneg 2 W); lia).
  assert (W <= Z.log2 w) by (apply Z.log2_le_pow2; lia).
  specialize (H (Z.log2 w) ltac:(lia)). by rewrite Z.bit_log2 in H by lia.
Qed.

Lemma word_high_bits w W i : 0 <= w < 2 ^ W -> 0 <= W <= i -> Z.testbit w i = false.
Proof.
  intros Hw Hi. destruct (decide (w = 0)) as [->|]; [apply Z.bits_0|].
  apply Z.bits_above_log2; [lia|]. apply Z.log2_lt_pow2; [lia|].
  assert (2 ^ W <= 2 ^ i) by (apply Z.pow_le_mono_r; lia). lia.
Qed.

(** ** A bitmap of [W]-bit words *)

Section bitmap.
Context (W : Z) (HW : 0 < W).

Definition bm_word (l : list Z) (i : Z) : Z := l !!! Z.to_nat (i / W).
Definition bm_bit (l : list Z) (i : Z) : bool := Z.testbit (bm_word l i) (i mod W).
Definition bm_set (l : list Z) (i : Z) : list Z :=
  <[Z.to_nat (i / W) := Z.lor (bm_word l i) (Z.shiftl 1 (i mod W))]> l.
Definition bm_clear (l : list Z) (i : Z) : list Z :=
  <[Z.to_nat (i / W) := Z.land (bm_word l i) (Z.lnot (Z.shiftl 1 (i mod W)))]> l.

(** Every word fits in its width. *)
Definition bm_wf (l : list Z) : Prop := Forall (fun w => 0 <= w < 2 ^ W) l.

Definition in_map (l : list Z) (i : Z) : Prop := 0 <= i < W * Z.of_nat (length l).

Lemma in_map_index l i : in_map l i -> (Z.to_nat (i / W) < length l)%nat.
Proof.
  unfold in_map. intros Hi.
  assert (i / W < Z.of_nat (length l)) by (apply Z.div_lt_upper_bound; lia).
  pose proof (Z.div_pos i W). lia.
Qed.

Lemma same_position i j :
  0 <= i -> 0 <= j -> Z.to_nat (i / W) = Z.to_nat (j / W) -> i mod W = j mod W -> i = j.
Proof.
  intros Hi Hj Hd Hm. pose proof (Z.div_pos i W). pose proof (Z.div_pos j W).
  assert (i / W = j / W) by lia.
  rewrite (Z.div_mod i W), (Z.div_mod j W) by lia. congruence.
Qed.

(** A bitmap whose word [i / W] is changed at bit [i mod W] only. *)
Lemma bm_bit_update l i j w (b : bool) :
  in_map l i -> in_map l j ->
  (forall k, 0 <= k -> Z.testbit w k = if k =? i mod W then b else Z.testbit (bm_word l i) k) ->
  bm_bit (<[Z.to_nat (i / W) := w]> l) j = if i =? j then b else bm_bit l j.
Proof.
  intros Hi Hj Hw. unfold bm_bit, bm_word.
  pose proof (Z.mod_pos_bound j W HW). pose proof (in_map_index _ _ Hi).
  destruct (decide (Z.to_nat (i / W) = Z.to_nat (j / W))) as [Heq|Hne].
  - rewrite <- Heq, list_lookup_total_insert_eq, Hw by lia.
    destruct (Z.eqb_spec i j) as [->|Hij]; [by rewrite Z.eqb_refl|].
    destruct (Z.eqb_spec (j mod W) (i mod W)) as [Hm|]; [|done].
    exfalso. apply Hij. unfold in_map in *. apply same_position; (done || lia).
  - rewrite list_lookup_total_insert_ne by done.
    by destruct (Z.eqb_spec i j) as [->|].
Qed.

Lemma bm_bit_set l i j :
  in_map l i -> in_map l j -> bm_bit (bm_set l i) j = (i =? j) || bm_bit l j.
Proof.
  intros Hi Hj. unfold bm_set. rewrite (bm_bit_update l i j _ true Hi Hj).
  - by destruct (i =? j).
  - intros k Hk. pose proof (Z.mod_pos_bound i W HW). rewrite testbit_word_set by lia.
    destruct (k =? i mod W); [by rewrite orb_true_r|by rewrite orb_false_r].
Qed.

Lemma bm_bit_clear l i j :
  in_map l i -> in_map l j -> bm_bit (bm_clear l i) j = negb (i =? j) && bm_bit l j.
Proof.
  intros Hi Hj. unfold bm_clear. rewrite (bm_bit_update l i j _ false Hi Hj).
  - by destruct (i =? j).
  - intros k Hk. pose proof (Z.mod_pos_bound i W HW). rewrite testbit_word_clear by lia.
    destruct (k =? i mod W); [by rewrite andb_false_r|by rewrite andb_true_r].
Qed.

Lemma length_bm_set l i : length (bm_set l i) = length l.
Proof. apply length_insert. Qed.

Lemma length_bm_clear l i : length (bm_clear l i) = length l.
Proof. apply length_insert. Qed.

Lemma bm_word_wf l i : bm_wf l -> in_map l i -> 0 <= bm_word l i < 2 ^ W.
Proof.
  intros Hl Hi. apply in_map_index in Hi.
  unfold bm_word. destruct (lookup_lt_is_Some_2 l _ Hi) as [w Hw].
  rewrite (list_lookup_total_correct _ _ _ Hw). exact (proj1 (Forall_lookup _ _) Hl _ _ Hw).
Qed.

Lemma bm_set_wf l i : bm_wf l -> in_map l i -> bm_wf (bm_set l i).
Proof.
  intros Hl Hi. apply Forall_insert; [done|].
  pose proof (bm_word_wf l i Hl Hi) as Hw. pose proof (Z.mod_pos_bound i W HW).
  assert (0 <= Z.lor (bm_word l i) (Z.shiftl 1 (i mod W))) as H0.
  { apply Z.lor_nonneg. rewrite Z.shiftl_1_l. split; [lia|]. apply Z.pow_nonneg. lia. }
  split; [done|]. apply word_bound_bits; [lia|done|]. intros k Hk.
  rewrite testbit_word_set by lia. rewrite (word_high_bits _ W) by lia.
  simpl. apply Z.eqb_neq. lia.
Qed.

Lemma bm_clear_wf l i : bm_wf l -> in_map l i -> bm_wf (bm_clear l i).
Proof.
  intros Hl Hi. apply Forall_insert; [done|].
  pose proof (bm_word_wf l i Hl Hi) as Hw. pose proof (Z.mod_pos_bound i W HW).
  assert (0 <= Z.land (bm_word l i) (Z.lnot (Z.shiftl 1 (i mod W)))) as H0.
  { apply Z.land_nonneg. lia. }
  split; [done|]. apply word_bound_bits; [lia|done|]. intros k Hk.
  rewrite testbit_word_clear by lia. by rewrite (word_high_bits _ W) by lia.
Qed.

(** Setting a clear bit and clearing it again gives the same bitmap. *)
Lemma bm_clear_set l i :
  in_map l i -> bm_bit l i = false -> bm_clear (bm_set l i) i = l.
Proof.
  intros Hi Hb. apply in_map_index in Hi. pose proof (Z.mod_pos_bound i W HW).
  unfold bm_clear, bm_set, bm_word.
  rewrite list_lookup_total_insert_eq by done. rewrite list_insert_insert_eq.
  destruct (lookup_lt_is_Some_2 l _ Hi) as [w Hw].
  rewrite (list_lookup_total_correct _ _ _ Hw).
  unfold bm_bit, bm_word in Hb. rewrite (list_lookup_total_correct _ _ _ Hw) in Hb.
  replace (Z.land _ _) with w; [by apply list_insert_id|].
  apply Z.bits_inj'. intros k Hk.
  rewrite testbit_word_clear, testbit_word_set by lia.
  destruct (Z.eqb_spec k (i mod W)) as [->|]; [by rewrite Hb|].
  by rewrite orb_false_r, andb_true_r.
Qed.

Lemma cnt_bm_set l i n :
  Z.of_nat n <= W * Z.of_nat (length l) -> 0 <= i < Z.of_nat n -> bm_bit l i = false ->
  cnt (bm_bit (bm_set l i)) n = cnt (bm_bit l) n + 1.
Proof.
  intros Hn Hi Hb. assert (forall j, 0 <= j < Z.of_nat n -> in_map l j) as Hin.
  { unfold in_map. intros. lia. }
  apply (cnt_add _ _ _ i Hi Hb).
  - rewrite bm_bit_set by auto. by rewrite Z.eqb_refl.
  - intros j Hj Hne. rewrite bm_bit_set by auto. by rewrite (proj2 (Z.eqb_neq i j)) by done.
Qed.

Lemma cnt_bm_clear l i n :
  Z.of_nat n <= W * Z.of_nat (length l) -> 0 <= i < Z.of_nat n -> bm_bit l i = true ->
  cnt (bm_bit (bm_clear l i)) n = cnt (bm_bit l) n - 1.
Proof.
  intros Hn Hi Hb. assert (forall j, 0 <= j < Z.of_nat n -> in_map l j) as Hin.
  { unfold in_map. intros. lia. }
  enough (cnt (bm_bit l) n = cnt (bm_bit (bm_clear l i)) n + 1) by lia.
  apply (cnt_add _ _ _ i Hi); [|done|].
  - rewrite bm_bit_clear by auto. by rewrite Z.eqb_refl.
  - intros j Hj Hne. rewrite bm_bit_clear by auto. by rewrite (proj2 (Z.eqb_neq i j)) by done.
Qed.

End bitmap.
