(* ===== verification/CString.v ===== *)
(** * string.c: C strings, raw memory and integer conversion

    A [char *] is the list of the bytes from the address it points at to the
    end of its array, each byte in [0, 255].  A function that reads or writes
    outside the array gives [None]: the C code has undefined behaviour there.
    A function that writes through a pointer gives the array it leaves.  The
    two arrays of a copy do not overlap, which is how the kernel calls them. *)

From S2P Require Import Prelude.

(** ** Definitions *)

(** The loops [while (p( *str )) str++]: how far the pointer moves. *)
Fixpoint scan (p : Z -> bool) (a : list Z) : option nat :=
  match a with
  | [] => None
  | ch :: r => if p ch then S <$> scan p r else Some O
  end.

Definition strlen (str : list Z) : option Z :=
  Z.of_nat <$> scan (fun ch => negb (ch =? 0)) str.

(** The string an array holds, without its terminator. *)
Definition cstring (a : list Z) : option (list Z) :=
  k ← scan (fun ch => negb (ch =? 0)) a; Some (take k a).

Fixpoint strcmp (str1 str2 : list Z) : option Z :=
  match str1, str2 with
  | a :: r1, b :: r2 =>
      if negb (a =? 0) && (a =? b) then strcmp r1 r2 else Some (a - b)
  | _, _ => None
  end.

Fixpoint strncmp_loop (n : nat) (str1 str2 : list Z) : option Z :=
  match n with
  | O => Some 0
  | S n' =>
      match str1, str2 with
      | a :: r1, b :: r2 =>
          if negb (a =? 0) && (a =? b) then strncmp_loop n' r1 r2 else Some (a - b)
      | _, _ => None
      end
  end.

(** For a negative [n] the loop does not run and [n == 0] is false. *)
Definition strncmp (str1 str2 : list Z) (n : Z) : option Z :=
  if n <? 0 then
    match str1, str2 with a :: _, b :: _ => Some (a - b) | _, _ => None end
  else strncmp_loop (Z.to_nat n) str1 str2.

Fixpoint strcpy (dest src : list Z) : option (list Z) :=
  match dest, src with
  | _ :: d, ch :: r => cons ch <$> (if ch =? 0 then Some d else strcpy d r)
  | _, _ => None
  end.

(** The second loop of [strncpy]: [n] more NUL bytes. *)
Fixpoint pad (n : nat) (dest : list Z) : option (list Z) :=
  match n with
  | O => Some dest
  | S n' => match dest with [] => None | _ :: d => cons 0 <$> pad n' d end
  end.

(** The first loop of [strncpy].  When it copies the NUL it stops before
    [n--], so the padding that follows starts with the old [n]. *)
Fixpoint strncpy_loop (n : nat) (dest src : list Z) : option (list Z) :=
  match n with
  | O => Some dest
  | S n' =>
      match dest, src with
      | _ :: d, ch :: r =>
          cons ch <$> (if ch =? 0 then pad n d else strncpy_loop n' d r)
      | _, _ => None
      end
  end.

Definition strncpy (dest src : list Z) (n : Z) : option (list Z) :=
  strncpy_loop (Z.to_nat n) dest src.

Definition strcat (dest src : list Z) : option (list Z) :=
  k ← scan (fun ch => negb (ch =? 0)) dest;
  app (take k dest) <$> strcpy (drop k dest) src.

(** [None] is undefined behaviour, [Some None] is NULL, [Some (Some k)] is the
    pointer [str + k]. *)
Definition strchr (str : list Z) (ch : Z) : option (option nat) :=
  k ← scan (fun x => negb (x =? 0) && negb (x =? ch)) str;
  x ← str !! k;
  Some (if x =? 0 then None else Some k).

Definition is_space (ch : Z) : bool :=
  (ch =? 32) || (ch =? 9) || (ch =? 10) || (ch =? 13).

(** [while (end > start && is_space( *end )) end--], on [n = end - start]. *)
Fixpoint trim_end (a : list Z) (start n : nat) : option nat :=
  match n with
  | O => Some O
  | S n' =>
      ch ← a !! (start + n)%nat;
      if is_space ch then trim_end a start n' else Some n
  end.

(** [for (i = 0; i < len; i++) str[i] = start[i];] in place. *)
Fixpoint move_down (a : list Z) (start i len : nat) : option (list Z) :=
  match len with
  | O => Some a
  | S len' =>
      ch ← a !! (start + i)%nat;
      move_down (<[i := ch]> a) start (S i) len'
  end.

Definition str_trim (str : list Z) : option (list Z) :=
  start ← scan is_space str;
  l ← scan (fun ch => negb (ch =? 0)) (drop start str);
  len ← match l with
        | O => Some O
        | S e => S <$> trim_end str start e
        end;
  a ← (if Nat.eqb start 0 then Some str else move_down str start 0 len);
  if Nat.ltb len (length a) then Some (<[len := 0]> a) else None.

(** The offsets of the tokens and the array with the delimiters that end them
    overwritten; [current] moves forward in every round, so the length of the
    array is enough fuel. *)
Fixpoint str_split_loop (fuel : nat) (a : list Z) (current : nat) (delim : Z)
    (count max_tokens : Z) : option (list nat * list Z) :=
  match fuel with
  | O => None
  | S f =>
      ch ← a !! current;
      if (ch =? 0) || negb (count <? max_tokens) then Some ([], a) else
      k ← scan (fun x => x =? delim) (drop current a);
      let start := (current + k)%nat in
      ch ← a !! start;
      if ch =? 0 then Some ([], a) else
      k ← scan (fun x => negb (x =? 0) && negb (x =? delim)) (drop start a);
      let e := (start + k)%nat in
      ch ← a !! e;
      let '(a', current') := if ch =? 0 then (a, e) else (<[e := 0]> a, S e) in
      '(ts, a'') ← str_split_loop f a' current' delim (count + 1) max_tokens;
      Some (start :: ts, a'')
  end.

Definition str_split (str : list Z) (delim max_tokens : Z) : option (list nat * list Z) :=
  str_split_loop (S (length str)) str 0 delim 0 max_tokens.

Fixpoint str_map (f : Z -> Z) (str : list Z) : option (list Z) :=
  match str with
  | [] => None
  | ch :: r => if ch =? 0 then Some str else cons (f ch) <$> str_map f r
  end.

Definition str_to_upper (str : list Z) : option (list Z) :=
  str_map (fun ch => if (97 <=? ch) && (ch <=? 122) then ch - 97 + 65 else ch) str.

Definition str_to_lower (str : list Z) : option (list Z) :=
  str_map (fun ch => if (65 <=? ch) && (ch <=? 90) then ch - 65 + 97 else ch) str.

Fixpoint str_starts_with (str prefix : list Z) : option bool :=
  match prefix with
  | [] => None
  | q :: pr =>
      if q =? 0 then Some true else
      match str with
      | [] => None
      | x :: r => if x =? q then str_starts_with r pr else Some false
      end
  end.

(** [memset(ptr, value, num)] on the bytes from [ptr]. *)
Fixpoint memset_loop (num : nat) (ptr : list Z) (value : Z) : option (list Z) :=
  match num with
  | O => Some ptr
  | S n => match ptr with [] => None | _ :: p => cons (u8 value) <$> memset_loop n p value end
  end.

Definition memset (ptr : list Z) (value num : Z) : option (list Z) :=
  memset_loop (Z.to_nat num) ptr value.

Fixpoint memcpy_loop (num : nat) (dest src : list Z) : option (list Z) :=
  match num with
  | O => Some dest
  | S n =>
      match dest, src with
      | _ :: d, ch :: s => cons ch <$> memcpy_loop n d s
      | _, _ => None
      end
  end.

Definition memcpy (dest src : list Z) (num : Z) : option (list Z) :=
  memcpy_loop (Z.to_nat num) dest src.

Fixpoint memcmp_loop (num : nat) (ptr1 ptr2 : list Z) : option Z :=
  match num with
  | O => Some 0
  | S n =>
      match ptr1, ptr2 with
      | a :: r1, b :: r2 => if negb (a =? b) then Some (a - b) else memcmp_loop n r1 r2
      | _, _ => None
      end
  end.

Definition memcmp (ptr1 ptr2 : list Z) (num : Z) : option Z :=
  memcmp_loop (Z.to_nat num) ptr1 ptr2.

(** The digits of [atoi]: [result * 10 + ( *str - '0')] in a 32-bit [int];
    an overflow is undefined behaviour. *)
Fixpoint atoi_digits (str : list Z) (result : Z) : option Z :=
  match str with
  | [] => None
  | ch :: r =>
      if (48 <=? ch) && (ch <=? 57) then
        let v := result * 10 + (ch - 48) in
        if v <=? 2147483647 then atoi_digits r v else None
      else Some result
  end.

Definition atoi (str : list Z) : option Z :=
  k ← scan (fun ch => (ch =? 32) || (ch =? 9)) str;
  ch ← str !! k;
  let str := drop k str in
  let '(sign, str) :=
    if ch =? 45 then (-1, drop 1 str) else if ch =? 43 then (1, drop 1 str) else (1, str) in
  v ← atoi_digits str 0;
  Some (v * sign).

Definition itoa_digit (digit : Z) : Z :=
  u8 (if digit <? 10 then digit + 48 else digit - 10 + 97).

(** The [do ... while (value > 0)] loop of [itoa]: the characters in the order
    it stores them, least significant first.  C division truncates, so a
    negative [value] gives one character.  Base 2 takes 31 rounds at most. *)
Fixpoint itoa_loop (fuel : nat) (value base : Z) : option (list Z) :=
  match fuel with
  | O => None
  | S f =>
      let ch := itoa_digit (Z.rem value base) in
      let value := Z.quot value base in
      if 0 <? value then cons ch <$> itoa_loop f value base else Some [ch]
  end.

(** The characters [itoa] leaves at [str], the NUL included; [None] for the
    one value whose negation overflows. *)
Definition itoa (value base : Z) : option (list Z) :=
  if (base <? 2) || (36 <? base) then Some [0] else
  let is_negative := (value <? 0) && (base =? 10) in
  if is_negative && (value =? -2147483648) then None else
  digits ← itoa_loop 32 (if is_negative then - value else value) base;
  Some (rev (digits ++ (if is_negative then [45] else [])) ++ [0]).

(** ** Strings held by an array *)

(** The array [a] holds the C string [s]. *)
Definition holds (a s : list Z) : Prop :=
  exists t, a = s ++ 0 :: t /\ Forall (fun ch => ch <> 0) s.

Lemma scan_app p s x t :
  Forall (fun ch => p ch = true) s -> p x = false -> scan p (s ++ x :: t) = Some (length s).
Proof.
  intros Hs Hx. induction Hs as [|ch s Hch Hs IH]; simpl.
  - by rewrite Hx.
  - by rewrite Hch, IH.
Qed.

Lemma scan_strlen s t :
  Forall (fun ch => ch <> 0) s ->
  scan (fun ch => negb (ch =? 0)) (s ++ 0 :: t) = Some (length s).
Proof.
  intros Hs. apply scan_app; [|done].
  eapply Forall_impl; [|exact Hs]. intros ch Hch. simpl.
  by rewrite (proj2 (Z.eqb_neq _ _) Hch).
Qed.

Lemma strlen_holds a s : holds a s -> strlen a = Some (Z.of_nat (length s)).
Proof. intros (t & -> & Hs). unfold strlen. by rewrite scan_strlen. Qed.

Lemma holds_cons ch a s : ch <> 0 -> holds (ch :: a) (ch :: s) <-> holds a s.
Proof.
  intros Hch. split.
  - intros (t & E & Hs). inversion Hs; subst. exists t. split; [by simplify_eq/=|done].
  - intros (t & -> & Hs). exists t. split; [done|]. by constructor.
Qed.

Lemma holds_inv a s :
  holds a s ->
  match s with
  | [] => exists t, a = 0 :: t
  | ch :: s' => ch <> 0 /\ exists a', a = ch :: a' /\ holds a' s'
  end.
Proof.
  intros (t & -> & Hs). destruct s as [|ch s]; simpl; [by eexists|].
  inversion Hs; subst. split; [done|]. eexists; split; [done|]. by exists t.
Qed.

(** The value of [strcmp] is the difference of the first two bytes that
    differ, the terminators included. *)
Lemma strcmp_first_difference s t a b :
  holds a s -> holds b t ->
  (s = t /\ strcmp a b = Some 0) \/
  (exists p x y s' t', s ++ [0] = p ++ x :: s' /\ t ++ [0] = p ++ y :: t' /\ x <> y /\
     strcmp a b = Some (x - y)).
Proof.
  revert t a b. induction s as [|x s IH]; intros t a b Ha Hb;
    apply holds_inv in Ha; apply holds_inv in Hb.
  - destruct Ha as [ta ->]. destruct t as [|y t].
    + destruct Hb as [tb ->]. by left.
    + destruct Hb as (Hy & b' & -> & Hb). right.
      by exists [], 0, y, [], (t ++ [0]).
  - destruct Ha as (Hx & a' & -> & Ha). destruct t as [|y t].
    + destruct Hb as [tb ->]. right. exists [], x, 0, (s ++ [0]), []. simpl.
      by rewrite (proj2 (Z.eqb_neq x 0) Hx).
    + destruct Hb as (Hy & b' & -> & Hb). simpl.
      rewrite (proj2 (Z.eqb_neq x 0) Hx). simpl.
      destruct (Z.eqb_spec x y) as [->|Hxy].
      * destruct (IH t a' b' Ha Hb) as [[-> E]|(p & u & v & s' & t' & E1 & E2 & Huv & E)].
        -- by left.
        -- right. exists (y :: p), u, v, s', t'. simpl. by rewrite E1, E2.
      * right. by exists [], x, y, (s ++ [0]), (t ++ [0]).
Qed.

Lemma strcmp_zero_iff s t a b :
  holds a s -> holds b t -> strcmp a b = Some 0 <-> s = t.
Proof.
  intros Ha Hb.
  destruct (strcmp_first_difference s t a b Ha Hb)
    as [[-> E]|(p & x & y & s' & t' & E1 & E2 & Hxy & E)]; [done|].
  rewrite E. split.
  - intros [= ?]. lia.
  - intros ->. rewrite E1 in E2. apply app_inv_head in E2. simplify_eq.
Qed.

(** [strcmp] on two terminated strings, as a boolean test. *)
Lemma strcmp_holds s t a b :
  holds a s -> holds b t ->
  exists v, strcmp a b = Some v /\ (v =? 0) = bool_decide (s = t).
Proof.
  intros Ha Hb. pose proof (strcmp_zero_iff s t a b Ha Hb) as Hiff.
  destruct (strcmp_first_difference s t a b Ha Hb) as [[-> E]|(p & x & y & ? & ? & ? & ? & ? & E)];
    eexists; (split; [exact E|]).
  - by rewrite bool_decide_true.
  - rewrite bool_decide_false; [apply Z.eqb_neq; lia|].
    intros Heq. apply Hiff in Heq. rewrite E in Heq. simplify_eq. lia.
Qed.

(** ** strncpy *)

Lemma pad_ok n dest :
  (n <= length dest)%nat -> pad n dest = Some (replicate n 0 ++ drop n dest).
Proof.
  revert dest. induction n as [|n IH]; intros [|d dest] Hn; simpl in *; try done; [lia|].
  by rewrite IH by lia.
Qed.

Lemma pad_overrun n dest : (length dest < n)%nat -> pad n dest = None.
Proof.
  revert dest. induction n as [|n IH]; intros [|d dest] Hn; simpl in *; try (done || lia).
  by rewrite IH by lia.
Qed.

Lemma strncpy_truncates s n dest src :
  holds src s -> (n <= length s)%nat -> (n <= length dest)%nat ->
  strncpy dest src (Z.of_nat n) = Some (take n s ++ drop n dest).
Proof.
  unfold strncpy. rewrite Nat2Z.id. revert s dest src.
  induction n as [|n IH]; intros s dest src Hs Hn Hd; [done|].
  destruct s as [|ch s]; simpl in Hn; [lia|].
  apply holds_inv in Hs as (Hch & a' & -> & Hs).
  destruct dest as [|d dest]; simpl in *; [lia|].
  rewrite (proj2 (Z.eqb_neq ch 0) Hch). rewrite IH with (s := s); [done|done|lia|lia].
Qed.

(** With a source shorter than [n], [n + 1] bytes are written. *)
Lemma strncpy_short s n dest src :
  holds src s -> (length s < n)%nat ->
  strncpy dest src (Z.of_nat n) =
  if decide (n < length dest)%nat
  then Some (s ++ replicate (S n - length s) 0 ++ drop (S n) dest)
  else None.
Proof.
  unfold strncpy. rewrite Nat2Z.id. revert s dest src.
  induction n as [|n IH]; intros s dest src Hs Hn; [lia|].
  destruct dest as [|d dest]; [by rewrite decide_False by (simpl; lia)|].
  apply holds_inv in Hs. destruct s as [|ch s]; simpl in Hn.
  - destruct Hs as [t ->]. cbn [strncpy_loop]. change (0 =? 0) with true. cbv iota.
    case_decide as Hl; simpl length in Hl.
    + by rewrite pad_ok by lia.
    + by rewrite pad_overrun by lia.
  - destruct Hs as (Hch & a' & -> & Hs). simpl strncpy_loop.
    rewrite (proj2 (Z.eqb_neq ch 0) Hch).
    rewrite IH with (s := s) by (done || lia). simpl length.
    destruct (decide (n < length dest)%nat) as [Hl|Hl].
    2: { by rewrite decide_False by lia. }
    rewrite decide_True by lia.
    simpl. by replace (S (S n) - S (length s))%nat with (S n - length s)%nat by lia.
Qed.

(** ** atoi and itoa *)

Definition is_digit (ch : Z) : Prop := 48 <= ch <= 57.

(** The value of decimal digits, most significant first, after [acc]. *)
Definition dec_value (acc : Z) (l : list Z) : Z :=
  fold_left (fun v ch => v * 10 + (ch - 48)) l acc.

Lemma dec_value_app acc l1 l2 : dec_value acc (l1 ++ l2) = dec_value (dec_value acc l1) l2.
Proof. apply fold_left_app. Qed.

Lemma dec_value_mono acc l : 0 <= acc -> Forall is_digit l -> acc <= dec_value acc l.
Proof.
  intros Hacc Hl. revert acc Hacc.
  induction Hl as [|ch l Hch Hl IH]; intros acc Hacc; simpl; [lia|].
  unfold is_digit in Hch. specialize (IH (acc * 10 + (ch - 48))).
  unfold dec_value in *. lia.
Qed.

Lemma atoi_digits_app l x t acc :
  0 <= acc -> Forall is_digit l -> ~ is_digit x -> dec_value acc l <= 2147483647 ->
  atoi_digits (l ++ x :: t) acc = Some (dec_value acc l).
Proof.
  intros Hacc Hl Hx. revert acc Hacc.
  induction Hl as [|ch l Hch Hl IH]; intros acc Hacc Hmax; simpl.
  - unfold is_digit in Hx.
    destruct (Z.leb_spec 48 x), (Z.leb_spec x 57); simpl; (done || lia).
  - unfold is_digit in Hch.
    rewrite (proj2 (Z.leb_le 48 ch)), (proj2 (Z.leb_le ch 57)) by lia. simpl in *.
    assert (acc * 10 + (ch - 48) <= 2147483647) as Hle.
    { etrans; [apply (dec_value_mono _ l); [lia|done]|exact Hmax]. }
    rewrite (proj2 (Z.leb_le _ _) Hle). apply IH; [lia|done].
Qed.

Lemma itoa_loop_decimal fuel v :
  0 <= v < 10 ^ Z.of_nat (S fuel) ->
  exists ds, itoa_loop (S fuel) v 10 = Some ds /\ Forall is_digit ds /\
    ds <> [] /\ dec_value 0 (rev ds) = v.
Proof.
  revert v. induction fuel as [|fuel IH]; intros v Hv; cbn [itoa_loop].
  - change (10 ^ Z.of_nat 1) with 10 in Hv.
    rewrite Z.rem_small, Z.quot_small by lia. simpl. eexists. split; [done|].
    unfold itoa_digit. rewrite (proj2 (Z.ltb_lt v 10)) by lia.
    rewrite u8_small by (unfold is_u8; lia).
    split_and!; [|done|simpl; lia]. constructor; [unfold is_digit; lia|done].
  - rewrite Nat2Z.inj_succ, Z.pow_succ_r in Hv by lia.
    rewrite Z.rem_mod_nonneg, Z.quot_div_nonneg by lia.
    pose proof (Z.mod_pos_bound v 10 ltac:(lia)) as Hm.
    pose proof (Z.div_mod v 10 ltac:(lia)) as Hdm.
    assert (itoa_digit (v mod 10) = v mod 10 + 48) as Hd.
    { unfold itoa_digit. rewrite (proj2 (Z.ltb_lt _ 10)) by lia.
      apply u8_small. unfold is_u8. lia. }
    rewrite Hd.
    destruct (Z.ltb_spec 0 (v / 10)) as [Hpos|Hz].
    + destruct (IH (v / 10)) as (ds & E & Hds & Hne & Hval).
      { split; [lia|]. apply Z.div_lt_upper_bound; lia. }
      cbn [itoa_loop] in E. rewrite E. eexists. split; [done|].
      split_and!; [|done|].
      * constructor; [unfold is_digit; lia|done].
      * simpl. rewrite dec_value_app, Hval. simpl. lia.
    + eexists. split; [done|]. split_and!; [|done|].
      * constructor; [unfold is_digit; lia|done].
      * simpl. assert (v / 10 = 0) by (pose proof (Z.div_pos v 10); lia). lia.
Qed.

Lemma is_digit_not_space ch : is_digit ch -> (ch =? 32) || (ch =? 9) = false.
Proof. unfold is_digit. intros. destruct (Z.eqb_spec ch 32), (Z.eqb_spec ch 9); simpl; (done || lia). Qed.

Lemma atoi_decimal l t :
  Forall is_digit l -> l <> [] -> dec_value 0 l <= 2147483647 ->
  atoi (l ++ 0 :: t) = Some (dec_value 0 l) /\
  atoi (45 :: l ++ 0 :: t) = Some (- dec_value 0 l).
Proof.
  intros Hl Hne Hmax.
  assert (atoi_digits (l ++ 0 :: t) 0 = Some (dec_value 0 l)) as E.
  { apply atoi_digits_app; [lia|done|unfold is_digit; lia|done]. }
  destruct l as [|ch l]; [done|]. inversion Hl as [|? ? Hch _]; subst.
  unfold is_digit in Hch.
  split; unfold atoi; cbn -[atoi_digits Z.eqb Z.mul].
  - rewrite is_digit_not_space by done. cbn -[atoi_digits Z.eqb Z.mul].
    rewrite (proj2 (Z.eqb_neq ch 45)), (proj2 (Z.eqb_neq ch 43)) by lia.
    simpl app in E. rewrite E. cbn -[Z.mul]. f_equal. unfold dec_value. simpl. lia.
  - change (45 =? 32) with false. change (45 =? 9) with false. cbn -[atoi_digits Z.mul].
    simpl app in E. rewrite E. cbn -[Z.mul]. f_equal. unfold dec_value. simpl. lia.
Qed.

(** ** The theorems *)

(** For every [int] but INT_MIN, the decimal text [itoa] writes is read
    back by [atoi] as the same number. *)
Theorem itoa_atoi_decimal v :
  -2147483648 < v < 2147483648 ->
  exists str, itoa v 10 = Some str /\ atoi str = Some v.
Proof.
  intros Hv. unfold itoa.
  destruct (itoa_loop_decimal 31 (Z.abs v)) as (ds & E & Hds & Hne & Hval).
  { change (10 ^ Z.of_nat 32) with 100000000000000000000000000000000. lia. }
  assert (Forall is_digit (rev ds)) as Hr by (by apply Forall_rev).
  assert (rev ds <> []) as Hrne.
  { intros Hnil. apply Hne. by rewrite <- (rev_involutive ds), Hnil. }
  destruct (atoi_decimal (rev ds) [] Hr Hrne) as [Ep En]; [lia|].
  rewrite Hval in Ep, En. change (10 <? 2) with false. change (36 <? 10) with false.
  change (10 =? 10) with true. cbv zeta. rewrite andb_true_r. cbn [orb].
  destruct (Z.ltb_spec v 0) as [Hneg|Hpos]; cbn [andb].
  - rewrite (proj2 (Z.eqb_neq v (-2147483648))) by lia.
    replace (- v) with (Z.abs v) by lia. rewrite E. eexists. split; [done|].
    rewrite rev_app_distr. simpl. rewrite En. f_equal. lia.
  - rewrite (Z.abs_eq v) in E, Ep by lia. rewrite E. eexists. split; [done|].
    by rewrite app_nil_r, Ep.
Qed.

Lemma itoa_atoi_decimal_witness : exists str, itoa (-1234) 10 = Some str /\ atoi str = Some (-1234).
Proof. apply (itoa_atoi_decimal (-1234)). lia. Defined.

(** The order of strings as sequences of unsigned bytes. *)
Fixpoint lex_lt (s t : list Z) : Prop :=
  match s, t with
  | _, [] => False
  | [], _ :: _ => True
  | x :: s', y :: t' => x < y \/ (x = y /\ lex_lt s' t')
  end.

(** [strcmp] of two terminated strings stays inside both arrays, is zero
    exactly when the strings are equal and negative exactly when the first
    comes before the second in the lexicographic order of bytes. *)
Theorem strcmp_spec a b s t :
  holds a s -> holds b t -> Forall is_u8 s -> Forall is_u8 t ->
  exists v, strcmp a b = Some v /\ (v = 0 <-> s = t) /\ (v < 0 <-> lex_lt s t).
Proof.
  intros Ha Hb. pose proof (strcmp_zero_iff s t a b Ha Hb) as Hz. revert t a b Ha Hb Hz.
  induction s as [|x s IH]; intros t a b Ha Hb Hz Hs Ht.
  - apply holds_inv in Ha as [ta ->]. apply holds_inv in Hb. destruct t as [|y t].
    + destruct Hb as [tb ->]. exists 0. simpl. split_and!; [done|done|lia].
    + destruct Hb as (Hy & b' & -> & Hb). inversion Ht as [|? ? Hyu _]; subst. unfold is_u8 in Hyu.
      exists (0 - y). simpl. split_and!; [done|split; [lia|done]|split; [done|lia]].
  - apply holds_inv in Ha as (Hx & a' & -> & Ha). inversion Hs as [|? ? Hxu Hs']; subst.
    apply holds_inv in Hb. unfold is_u8 in Hxu. destruct t as [|y t].
    + destruct Hb as [tb ->]. exists (x - 0). simpl. rewrite (proj2 (Z.eqb_neq x 0) Hx).
      split_and!; [done|split; [lia|done]|lia].
    + destruct Hb as (Hy & b' & -> & Hb). inversion Ht as [|? ? Hyu Ht']; subst.
      simpl. rewrite (proj2 (Z.eqb_neq x 0) Hx). cbn [negb andb].
      destruct (Z.eqb_spec x y) as [->|Hxy].
      * destruct (IH t a' b' Ha Hb (strcmp_zero_iff s t a' b' Ha Hb) Hs' Ht') as (v & E & H0 & Hlt).
        exists v. rewrite E. split_and!; [done| |].
        -- rewrite H0. split; [by intros ->|by intros [= ->]].
        -- rewrite Hlt. split; [by right|by intros [?|[_ ?]]; [lia|]].
      * exists (x - y). split_and!; [done|split; [lia|intros [= ??]; done]|].
        split; [intros; left; lia|intros [?|[? _]]; [lia|done]].
Qed.

Lemma strcmp_spec_witness : exists v, strcmp [97; 98; 0; 7] [97; 99; 0] = Some v /\
  (v = 0 <-> [97; 98] = [97; 99]) /\ (v < 0 <-> lex_lt [97; 98] [97; 99]).
Proof.
  apply (strcmp_spec [97; 98; 0; 7] [97; 99; 0] [97; 98] [97; 99]).
  - by exists [7]; split; [done|repeat constructor].
  - by exists []; split; [done|repeat constructor].
  - by repeat constructor.
  - by repeat constructor.
Defined.

(** [strncpy(dest, src, n)] with a source shorter than [n] writes [n + 1]
    bytes: with [n] the size of [dest], the size callers pass, every shorter
    source makes it write one byte past the end of the array. *)
Theorem strncpy_overruns_by_one dest src s :
  holds src s -> (length s < length dest)%nat ->
  strncpy dest src (Z.of_nat (length dest)) = None /\
  forall x, strncpy (dest ++ [x]) src (Z.of_nat (length dest)) =
    Some (s ++ replicate (S (length dest) - length s) 0).
Proof.
  intros Hs Hlen. split; [|intros x].
  - rewrite strncpy_short with (s := s) by done. by rewrite decide_False by lia.
  - rewrite strncpy_short with (s := s) by done.
    rewrite length_app. simpl length. rewrite decide_True by lia.
    rewrite drop_ge by (rewrite length_app; simpl; lia). by rewrite app_nil_r.
Qed.

Lemma strncpy_overruns_by_one_witness :
  strncpy [1; 2; 3; 4] [104; 105; 0] (Z.of_nat (length [1; 2; 3; 4])) = None /\
  forall x, strncpy ([1; 2; 3; 4] ++ [x]) [104; 105; 0] (Z.of_nat (length [1; 2; 3; 4])) =
    Some ([104; 105] ++ replicate (S (length [1; 2; 3; 4]) - length [104; 105]) 0).
Proof.
  apply (strncpy_overruns_by_one [1; 2; 3; 4] [104; 105; 0] [104; 105]).
  - exists []. split; [done|]. by repeat constructor.
  - simpl. lia.
Defined.
