(* ===== verification/Mem.v ===== *)
(** * Byte memory

    The memory of the machine: a byte for every address.  The kernel heap
    keeps its block headers in it as 32-bit little-endian words. *)

From S2P Require Import Prelude.

Definition mem : Type := Z -> Z.

Definition store8 (m : mem) (a v : Z) : mem := fun x => if x =? a then u8 v else m x.

Definition load32 (m : mem) (a : Z) : Z :=
  u8 (m a) + 256 * u8 (m (a + 1)) + 65536 * u8 (m (a + 2)) + 16777216 * u8 (m (a + 3)).

Definition store32 (m : mem) (a v : Z) : mem := fun x =>
  if x =? a then u8 v
  else if x =? a + 1 then u8 (v / 256)
  else if x =? a + 2 then u8 (v / 65536)
  else if x =? a + 3 then u8 (v / 16777216)
  else m x.

(** The loops of [memcpy] and [memset] on memory. *)
Fixpoint copy_bytes (n : nat) (m : mem) (dest src : Z) : mem :=
  match n with
  | O => m
  | S n' => copy_bytes n' (store8 m dest (m src)) (dest + 1) (src + 1)
  end.

Fixpoint fill_bytes (n : nat) (m : mem) (dest v : Z) : mem :=
  match n with
  | O => m
  | S n' => fill_bytes n' (store8 m dest v) (dest + 1) v
  end.

Lemma load32_range m a : is_u32 (load32 m a).
Proof.
  unfold is_u32, load32.
  pose proof (u8_range (m a)). pose proof (u8_range (m (a + 1))).
  pose proof (u8_range (m (a + 2))). pose proof (u8_range (m (a + 3))).
  unfold is_u8 in *. lia.
Qed.

Lemma load32_ext m m' a : (forall x, a <= x < a + 4 -> m x = m' x) -> load32 m a = load32 m' a.
Proof. intros H. unfold load32. rewrite !H by lia. done. Qed.

Lemma load_store_same m a v : is_u32 v -> load32 (store32 m a v) a = v.
Proof.
  unfold is_u32. intros Hv. unfold load32, store32.
  repeat match goal with
  | |- context [?x =? ?y] =>
      first [rewrite (proj2 (Z.eqb_eq x y)) by lia | rewrite (proj2 (Z.eqb_neq x y)) by lia]
  end.
  unfold u8. rewrite !Zmod_mod. dlia.
Qed.

Lemma store32_other m a v x : ~ (a <= x < a + 4) -> store32 m a v x = m x.
Proof.
  intros H. unfold store32.
  destruct (Z.eqb_spec x a), (Z.eqb_spec x (a + 1)), (Z.eqb_spec x (a + 2)), (Z.eqb_spec x (a + 3));
    (done || lia).
Qed.

Lemma load_store_other m a b v : a + 4 <= b \/ b + 4 <= a -> load32 (store32 m a v) b = load32 m b.
Proof. intros H. apply load32_ext. intros x Hx. apply store32_other. lia. Qed.

Lemma copy_bytes_other n m dest src x :
  ~ (dest <= x < dest + Z.of_nat n) -> copy_bytes n m dest src x = m x.
Proof.
  revert m dest src. induction n as [|n IH]; intros m dest src H; simpl; [done|].
  rewrite IH by lia. unfold store8. by rewrite (proj2 (Z.eqb_neq x dest)) by lia.
Qed.

Lemma copy_bytes_disjoint n m dest src i :
  0 <= i < Z.of_nat n -> src + Z.of_nat n <= dest \/ dest + Z.of_nat n <= src ->
  copy_bytes n m dest src (dest + i) = u8 (m (src + i)).
Proof.
  revert m dest src i. induction n as [|n IH]; intros m dest src i Hi Hd; [lia|]. simpl.
  destruct (decide (i = 0)) as [->|Hne].
  - rewrite copy_bytes_other by lia. unfold store8.
    rewrite Z.add_0_r, Z.eqb_refl. by rewrite Z.add_0_r.
  - replace (dest + i) with (dest + 1 + (i - 1)) by lia. rewrite IH by lia.
    unfold store8. rewrite (proj2 (Z.eqb_neq _ dest)) by lia. f_equal. f_equal. lia.
Qed.

Lemma fill_bytes_spec n m dest v x :
  fill_bytes n m dest v x =
  if (dest <=? x) && (x <? dest + Z.of_nat n) then u8 v else m x.
Proof.
  revert m dest. induction n as [|n IH]; intros m dest; cbn [fill_bytes].
  - destruct (Z.leb_spec dest x), (Z.ltb_spec x (dest + Z.of_nat 0)); simpl; (done || lia).
  - rewrite IH. unfold store8.
    destruct (Z.leb_spec (dest + 1) x), (Z.ltb_spec x (dest + 1 + Z.of_nat n)),
      (Z.eqb_spec x dest), (Z.leb_spec dest x), (Z.ltb_spec x (dest + Z.of_nat (S n)));
      simpl; (done || lia).
Qed.
