(* ===== verification/Bytes.v ===== *)
(** * Byte arrays: slices, splices, little-endian words *)

From S2P Require Import Prelude Mem.

(** [n] bytes from the offset [off], and the array with bytes replaced. *)
Definition sub {A} (l : list A) (off n : nat) : list A := take n (drop off l).
Definition splice {A} (l : list A) (off : nat) (xs : list A) : list A :=
  take off l ++ xs ++ drop (off + length xs) l.

Section slices.
Context {A : Type}.
Implicit Types l xs : list A.

Lemma length_splice l off xs :
  (off + length xs <= length l)%nat -> length (splice l off xs) = length l.
Proof. intros. unfold splice. rewrite !length_app, length_take, length_drop. lia. Qed.

Lemma length_sub l off n : (off + n <= length l)%nat -> length (sub l off n) = n.
Proof. intros. unfold sub. rewrite length_take, length_drop. lia. Qed.

Lemma sub_splice_same l off xs :
  (off + length xs <= length l)%nat -> sub (splice l off xs) off (length xs) = xs.
Proof.
  intros. unfold sub, splice. rewrite drop_app_length' by (rewrite length_take; lia).
  apply take_app_length.
Qed.

(** A splice may also make the array longer, at its end. *)
Lemma splice_lookup_end l off xs i :
  (off <= length l)%nat ->
  splice l off xs !! i =
  if decide (off <= i < off + length xs)%nat then xs !! (i - off)%nat else l !! i.
Proof.
  intros Hl. unfold splice. destruct (decide (i < off)%nat) as [Hi|Hi].
  - rewrite decide_False by lia. rewrite lookup_app_l by (rewrite length_take; lia).
    by apply lookup_take_lt.
  - rewrite lookup_app_r by (rewrite length_take; lia). rewrite length_take, Nat.min_l by lia.
    case_decide as Hd.
    + by rewrite lookup_app_l by lia.
    + rewrite lookup_app_r by lia. rewrite lookup_drop. f_equal. lia.
Qed.

Lemma splice_lookup l off xs i :
  (off + length xs <= length l)%nat ->
  splice l off xs !! i =
  if decide (off <= i < off + length xs)%nat then xs !! (i - off)%nat else l !! i.
Proof. intros Hl. apply splice_lookup_end. lia. Qed.

Lemma sub_lookup l off n i : sub l off n !! i = if decide (i < n)%nat then l !! (off + i)%nat else None.
Proof.
  unfold sub. case_decide.
  - by rewrite lookup_take_lt, lookup_drop.
  - by apply lookup_take_ge; lia.
Qed.

Lemma sub_splice_other l off xs off' n :
  (off + length xs <= length l)%nat ->
  (off' + n <= off \/ off + length xs <= off')%nat ->
  sub (splice l off xs) off' n = sub l off' n.
Proof.
  intros Hl Hd. apply list_eq. intros i. rewrite !sub_lookup. case_decide; [|done].
  rewrite splice_lookup by done. rewrite decide_False; [done|lia].
Qed.

Lemma splice_sub l off n : (off + n <= length l)%nat -> splice l off (sub l off n) = l.
Proof.
  intros. apply list_eq. intros i. rewrite splice_lookup by (rewrite length_sub; lia).
  rewrite length_sub by lia. case_decide; [|done].
  rewrite sub_lookup, decide_True by lia. f_equal. lia.
Qed.

Lemma sub_all l : sub l 0 (length l) = l.
Proof. unfold sub. rewrite drop_0. by apply take_ge. Qed.

End slices.

(** ** Little-endian words *)

Definition le32 (w : Z) : list Z := [u8 w; u8 (w / 256); u8 (w / 65536); u8 (w / 16777216)].

Definition le_word (l : list Z) : Z :=
  match l with
  | [a; b; c; d] => a + 256 * b + 65536 * c + 16777216 * d
  | _ => 0
  end.

(** The 32-bit word at the byte offset [off]. *)
Definition word_at (l : list Z) (off : nat) : Z := le_word (sub l off 4).

Lemma le_word_le32 w : is_u32 w -> le_word (le32 w) = w.
Proof. unfold is_u32, le32, le_word, u8. intros. dlia. Qed.

Lemma le_word_range a b c d :
  is_u8 a -> is_u8 b -> is_u8 c -> is_u8 d -> is_u32 (le_word [a; b; c; d]).
Proof. unfold is_u8, is_u32. simpl. lia. Qed.

Lemma le32_le_word a b c d :
  is_u8 a -> is_u8 b -> is_u8 c -> is_u8 d -> le32 (le_word [a; b; c; d]) = [a; b; c; d].
Proof. unfold is_u8, le32, le_word, u8. intros. repeat f_equal; dlia. Qed.

Lemma length_le32 w : length (le32 w) = 4%nat.
Proof. done. Qed.

Lemma le32_u8 w : Forall is_u8 (le32 w).
Proof. unfold le32. repeat constructor; apply u8_range. Qed.

Lemma word_at_range l off : Forall is_u8 l -> is_u32 (word_at l off).
Proof.
  intros H. unfold word_at. assert (Forall is_u8 (sub l off 4)) as Hs.
  { unfold sub. by apply Forall_take, Forall_drop. }
  destruct (sub l off 4) as [|a [|b [|c [|d [|]]]]]; simpl; try (unfold is_u32; lia).
  inversion_clear Hs as [|? ? Ha Hs1]. inversion_clear Hs1 as [|? ? Hb Hs2].
  inversion_clear Hs2 as [|? ? Hc Hs3]. inversion_clear Hs3 as [|? ? Hd _].
  by apply le_word_range.
Qed.

(** The words [ws] one after the other. *)
Definition encode_words (ws : list Z) : list Z := mjoin (le32 <$> ws).
Definition decode_words (l : list Z) (n : nat) : list Z := (fun k => word_at l (4 * k)) <$> seq 0 n.

Lemma length_encode_words ws : length (encode_words ws) = (4 * length ws)%nat.
Proof.
  induction ws as [|w ws IH]; [done|].
  change (encode_words (w :: ws)) with (le32 w ++ encode_words ws).
  rewrite length_app, IH, length_le32. simpl length. lia.
Qed.

Lemma encode_words_u8 ws : Forall is_u8 (encode_words ws).
Proof.
  induction ws as [|w ws IH]; [constructor|].
  change (encode_words (w :: ws)) with (le32 w ++ encode_words ws).
  apply Forall_app. split; [apply le32_u8|exact IH].
Qed.

Lemma word_at_encode ws k w rest :
  ws !! k = Some w -> is_u32 w -> word_at (encode_words ws ++ rest) (4 * k) = w.
Proof.
  revert k. induction ws as [|w0 ws IH]; intros k Hk Hw; [done|].
  change (encode_words (w0 :: ws)) with (le32 w0 ++ encode_words ws). rewrite <- app_assoc.
  destruct k as [|k].
  - injection Hk as ->. unfold word_at, sub. simpl. by apply le_word_le32.
  - unfold word_at, sub. replace (4 * S k)%nat with (length (le32 w0) + 4 * k)%nat by (simpl; lia).
    rewrite drop_app_add. by apply (IH k).
Qed.

Lemma decode_encode ws rest :
  Forall is_u32 ws -> decode_words (encode_words ws ++ rest) (length ws) = ws.
Proof.
  intros H. apply list_eq. intros k. unfold decode_words. rewrite list_lookup_fmap.
  destruct (decide (k < length ws)%nat) as [Hk|Hk].
  - rewrite lookup_seq_lt by done. destruct (ws !! k) as [w|] eqn:E.
    + simpl. f_equal. apply (word_at_encode ws k w rest E).
      by apply (proj1 (Forall_lookup _ _) H k).
    + apply lookup_ge_None in E. lia.
  - rewrite lookup_seq_ge by lia. symmetry. apply lookup_ge_None. lia.
Qed.

(** ** Blocks of memory *)

Definition read_bytes (m : mem) (a : Z) (n : nat) : list Z := (fun i => m (a + Z.of_nat i)) <$> seq 0 n.

(** [memcpy] of the bytes [bs] to the address [a]. *)
Definition write_bytes (m : mem) (a : Z) (bs : list Z) : mem := fun x =>
  if (a <=? x) && (x <? a + Z.of_nat (length bs)) then bs !!! Z.to_nat (x - a) else m x.

Lemma length_read_bytes m a n : length (read_bytes m a n) = n.
Proof. unfold read_bytes. by rewrite length_fmap, length_seq. Qed.

Lemma read_bytes_lookup m a n i :
  read_bytes m a n !! i = if decide (i < n)%nat then Some (m (a + Z.of_nat i)) else None.
Proof.
  unfold read_bytes. rewrite list_lookup_fmap. case_decide.
  - by rewrite lookup_seq_lt.
  - by rewrite lookup_seq_ge by lia.
Qed.

Lemma read_bytes_ext m m' a n :
  (forall x, a <= x < a + Z.of_nat n -> m x = m' x) -> read_bytes m a n = read_bytes m' a n.
Proof.
  intros H. apply list_eq. intros i. rewrite !read_bytes_lookup. case_decide; [|done].
  rewrite H by lia. done.
Qed.

Lemma write_bytes_other m a bs x : ~ (a <= x < a + Z.of_nat (length bs)) -> write_bytes m a bs x = m x.
Proof.
  intros H. unfold write_bytes.
  destruct (Z.leb_spec a x), (Z.ltb_spec x (a + Z.of_nat (length bs))); simpl; (done || lia).
Qed.

Lemma read_write_same m a bs : read_bytes (write_bytes m a bs) a (length bs) = bs.
Proof.
  apply list_eq. intros i. rewrite read_bytes_lookup. case_decide as Hi.
  - unfold write_bytes. rewrite (proj2 (Z.leb_le _ _)), (proj2 (Z.ltb_lt _ _)) by lia. simpl.
    replace (Z.to_nat (a + Z.of_nat i - a)) with i by lia. symmetry. by apply list_lookup_lookup_total_lt.
  - symmetry. apply lookup_ge_None. lia.
Qed.

Lemma read_write_other m a bs b n :
  a + Z.of_nat (length bs) <= b \/ b + Z.of_nat n <= a ->
  read_bytes (write_bytes m a bs) b n = read_bytes m b n.
Proof. intros H. apply read_bytes_ext. intros. apply write_bytes_other. lia. Qed.

Lemma sub_read_bytes m a n off k :
  (off + k <= n)%nat -> sub (read_bytes m a n) off k = read_bytes m (a + Z.of_nat off) k.
Proof.
  intros H. apply list_eq. intros i. rewrite sub_lookup, !read_bytes_lookup.
  case_decide; [|done]. rewrite decide_True by lia. f_equal. f_equal. lia.
Qed.
