(* ===== verification/Pmm.v ===== *)
(** * pmm.c: the physical page allocator

    One bit per 4 KB page of the 16 MB of memory, in an array of 128 32-bit
    words, and a counter of the pages in use.  An index outside the array is
    undefined behaviour of the C code and stops the model. *)

From S2P Require Import Prelude Bits.

Definition PAGE_SIZE := 4096.
Definition MEMORY_SIZE := 16 * 1024 * 1024.
Definition TOTAL_PAGES := MEMORY_SIZE / PAGE_SIZE.
Definition KERNEL_END := 2097152. (* 0x200000 *)

#[global] Arguments TOTAL_PAGES : simpl never.

(** The value the searches return when they find nothing. *)
Definition NO_PAGE := 4294967295. (* 0xFFFFFFFF *)

Record pmm : Type := mk_pmm {
  page_bitmap : list Z;
  used_pages : Z
}.

(** ** The bitmap *)

Definition bitmap_word (page_index : Z) : M pmm Z :=
  let! l := gets page_bitmap in
  defined (l !! Z.to_nat (page_index / 32)).

Definition bitmap_store (page_index w : Z) : M pmm unit :=
  modify (fun s => mk_pmm (<[Z.to_nat (page_index / 32) := w]> (page_bitmap s)) (used_pages s)).

Definition bitmap_set (page_index : Z) : M pmm unit :=
  let bit := page_index mod 32 in
  let! w := bitmap_word page_index in
  bitmap_store page_index (Z.lor w (Z.shiftl 1 bit)).

Definition bitmap_clear (page_index : Z) : M pmm unit :=
  let bit := page_index mod 32 in
  let! w := bitmap_word page_index in
  bitmap_store page_index (Z.land w (Z.lnot (Z.shiftl 1 bit))).

Definition bitmap_test (page_index : Z) : M pmm bool :=
  let bit := page_index mod 32 in
  let! w := bitmap_word page_index in
  ret (negb (Z.land w (Z.shiftl 1 bit) =? 0)).

Definition add_used (d : Z) : M pmm unit :=
  modify (fun s => mk_pmm (page_bitmap s) (u32 (used_pages s + d))).

(** ** Searches *)

Definition find_free_page : M pmm Z :=
  let! r := for_find (seqZ 0 TOTAL_PAGES) (fun i =>
    let! b := bitmap_test i in ret (if b then None else Some i)) in
  ret (default NO_PAGE r).

(** One round of the outer loop: [i] moves to the next candidate, past the
    used page that was found if there is one. *)
Definition find_free_pages_round (count i : Z) : M pmm (Z + Z) :=
  if negb (i <=? u32 (TOTAL_PAGES - count)) then ret (inr NO_PAGE) else
  let! r := for_find (seqZ 0 count) (fun j =>
    let! b := bitmap_test (u32 (i + j)) in ret (if b then Some j else None)) in
  match r with
  | Some j => ret (inl (u32 (u32 (i + j) + 1)))
  | None => ret (inr i)
  end.

(** The index grows in every round and stays at most [TOTAL_PAGES] while the
    search is inside the bitmap. *)
Definition find_free_pages (count : Z) : M pmm Z :=
  if count =? 0 then ret NO_PAGE else
  iterate (Z.to_nat TOTAL_PAGES + 2) (find_free_pages_round count) 0.

(** ** The interface *)

Definition pmm_init : M pmm unit :=
  modify (fun s => mk_pmm (replicate 128 0) 0) ;;
  let kernel_pages := KERNEL_END / PAGE_SIZE in
  for_each (seqZ 0 kernel_pages) (fun i => bitmap_set i ;; add_used 1) ;;
  screen_write_color (c "[PMM] ") (MAKE_COLOR COLOR_GREEN COLOR_BLACK) ;;
  screen_write (c "Physical Memory Manager initialized\n") ;;
  kprintf (c "      Total Memory: %d MB (%d pages)\n")
    [AInt (MEMORY_SIZE / (1024 * 1024)); AInt TOTAL_PAGES] ;;
  kprintf (c "      Kernel Reserved: %d KB (%d pages)\n")
    [AInt (KERNEL_END / 1024); AInt kernel_pages] ;;
  kprintf (c "      Available: %d MB (%d pages)\n")
    [AInt ((MEMORY_SIZE - KERNEL_END) / (1024 * 1024)); AInt (TOTAL_PAGES - kernel_pages)].

Definition pmm_alloc_page : M pmm Z :=
  let! page_index := find_free_page in
  if page_index =? NO_PAGE then ret 0 else
  bitmap_set page_index ;;
  add_used 1 ;;
  ret (u32 (page_index * PAGE_SIZE)).

Definition pmm_free_page (page_addr : Z) : M pmm unit :=
  if (MEMORY_SIZE <=? page_addr) || negb (page_addr mod PAGE_SIZE =? 0) then ret tt else
  if page_addr <? KERNEL_END then ret tt else
  let page_index := page_addr / PAGE_SIZE in
  let! b := bitmap_test page_index in
  if b then bitmap_clear page_index ;; add_used (-1) else ret tt.

Definition pmm_alloc_pages (count : Z) : M pmm Z :=
  if count =? 0 then ret 0 else
  let! page_index := find_free_pages count in
  if page_index =? NO_PAGE then ret 0 else
  for_each (seqZ 0 count) (fun i => bitmap_set (u32 (page_index + i)) ;; add_used 1) ;;
  ret (u32 (page_index * PAGE_SIZE)).

Definition pmm_free_pages (page_addr count : Z) : M pmm unit :=
  for_each (seqZ 0 count) (fun i => pmm_free_page (u32 (page_addr + u32 (i * PAGE_SIZE)))).

Definition pmm_get_total_memory (s : pmm) : Z := MEMORY_SIZE.
Definition pmm_get_used_memory (s : pmm) : Z := u32 (used_pages s * PAGE_SIZE).
Definition pmm_get_free_memory (s : pmm) : Z := u32 (u32 (TOTAL_PAGES - used_pages s) * PAGE_SIZE).
Definition pmm_get_total_pages (s : pmm) : Z := TOTAL_PAGES.
Definition pmm_get_used_pages (s : pmm) : Z := used_pages s.
Definition pmm_get_free_pages (s : pmm) : Z := u32 (TOTAL_PAGES - used_pages s).

(** ** Invariant *)

Abbreviation page_used s := (bm_bit 32 (page_bitmap s)).

Definition is_page (i : Z) : Prop := 0 <= i < TOTAL_PAGES.

(** The bitmap has its 128 words, the counter counts the used pages, and the
    pages of the kernel are used. *)
Record pmm_wf (s : pmm) : Prop := {
  wf_length : length (page_bitmap s) = 128%nat;
  wf_words : bm_wf 32 (page_bitmap s);
  wf_used : used_pages s = cnt (page_used s) (Z.to_nat TOTAL_PAGES);
  wf_kernel : forall i, 0 <= i < KERNEL_END / PAGE_SIZE -> page_used s i = true
}.

Definition set_page (i : Z) (s : pmm) : pmm := mk_pmm (bm_set 32 (page_bitmap s) i) (used_pages s).
Definition clear_page (i : Z) (s : pmm) : pmm := mk_pmm (bm_clear 32 (page_bitmap s) i) (used_pages s).

Lemma total_pages : TOTAL_PAGES = 4096.
Proof. reflexivity. Qed.

Lemma total_pages_nat : Z.of_nat (Z.to_nat TOTAL_PAGES) = 4096.
Proof. rewrite Z2Nat.id; [reflexivity|]. rewrite total_pages. lia. Qed.

Lemma total_pages_nat' : Z.of_nat (Z.to_nat TOTAL_PAGES) = TOTAL_PAGES.
Proof. by rewrite total_pages_nat. Qed.

Lemma map_size s :
  length (page_bitmap s) = 128%nat ->
  32 * Z.of_nat (length (page_bitmap s)) = Z.of_nat (Z.to_nat TOTAL_PAGES).
Proof. intros ->. rewrite total_pages_nat. reflexivity. Qed.

Lemma page_in_range i : is_page i -> 0 <= i < Z.of_nat (Z.to_nat TOTAL_PAGES).
Proof. unfold is_page. rewrite total_pages_nat, total_pages. lia. Qed.

Lemma page_in_map s i :
  length (page_bitmap s) = 128%nat -> is_page i -> in_map 32 (page_bitmap s) i.
Proof. unfold is_page, in_map. rewrite total_pages. intros -> ?. lia. Qed.

Lemma exec_bitmap_word s i :
  length (page_bitmap s) = 128%nat -> is_page i ->
  exec (bitmap_word i) s = (Val (bm_word 32 (page_bitmap s) i), s).
Proof.
  intros Hl Hi. unfold bitmap_word. run.
  pose proof (in_map_index 32 ltac:(lia) _ _ (page_in_map s i Hl Hi)) as Hlt.
  destruct (lookup_lt_is_Some_2 _ _ Hlt) as [w Hw]. unfold bm_word.
  by rewrite Hw, (list_lookup_total_correct _ _ _ Hw).
Qed.

Lemma exec_bitmap_test s i :
  length (page_bitmap s) = 128%nat -> is_page i ->
  exec (bitmap_test i) s = (Val (page_used s i), s).
Proof.
  intros Hl Hi. unfold bitmap_test. run. rewrite exec_bitmap_word by done. run.
  rewrite word_test; [done|]. apply Z.mod_pos_bound. lia.
Qed.

Lemma exec_bitmap_set s i :
  length (page_bitmap s) = 128%nat -> is_page i ->
  exec (bitmap_set i) s = (Val tt, set_page i s).
Proof. intros Hl Hi. unfold bitmap_set. run. by rewrite exec_bitmap_word. Qed.

Lemma exec_bitmap_clear s i :
  length (page_bitmap s) = 128%nat -> is_page i ->
  exec (bitmap_clear i) s = (Val tt, clear_page i s).
Proof. intros Hl Hi. unfold bitmap_clear. run. by rewrite exec_bitmap_word. Qed.

(** Taking the free page [i] and giving back the used page [i]. *)
Definition take_page (i : Z) (s : pmm) : pmm :=
  mk_pmm (bm_set 32 (page_bitmap s) i) (u32 (used_pages s + 1)).
Definition drop_page (i : Z) (s : pmm) : pmm :=
  mk_pmm (bm_clear 32 (page_bitmap s) i) (u32 (used_pages s + -1)).

Lemma page_used_take s i j :
  length (page_bitmap s) = 128%nat -> is_page i -> is_page j ->
  page_used (take_page i s) j = (i =? j) || page_used s j.
Proof. intros. apply bm_bit_set; [lia|by apply page_in_map..]. Qed.

Lemma page_used_drop s i j :
  length (page_bitmap s) = 128%nat -> is_page i -> is_page j ->
  page_used (drop_page i s) j = negb (i =? j) && page_used s j.
Proof. intros. apply bm_bit_clear; [lia|by apply page_in_map..]. Qed.

Lemma used_pages_range s : pmm_wf s -> 0 <= used_pages s <= 4096.
Proof.
  intros [_ _ -> _]. pose proof (cnt_bounds (page_used s) (Z.to_nat TOTAL_PAGES)) as H.
  by rewrite total_pages_nat in H.
Qed.

Lemma kernel_page_is_page i : 0 <= i < KERNEL_END / PAGE_SIZE -> is_page i.
Proof. unfold is_page. change (KERNEL_END / PAGE_SIZE) with 512. rewrite total_pages. lia. Qed.

Lemma take_page_wf s i :
  pmm_wf s -> is_page i -> page_used s i = false -> pmm_wf (take_page i s).
Proof.
  intros Hwf Hi Hfree. pose proof (used_pages_range s Hwf) as Hr.
  destruct Hwf as [Hl Hw Hu Hk].
  pose proof (page_in_map s i Hl Hi) as Him. split; simpl.
  - by rewrite length_bm_set.
  - apply bm_set_wf; (done || lia).
  - rewrite cnt_bm_set; [|lia|by rewrite map_size|by apply page_in_range|done]. rewrite <- Hu. apply u32_small.
    unfold is_u32. lia.
  - intros j Hj. pose proof (kernel_page_is_page j Hj).
    rewrite bm_bit_set by (lia || by apply page_in_map).
    rewrite (Hk j Hj). by rewrite orb_true_r.
Qed.

Lemma used_positive s i : pmm_wf s -> is_page i -> page_used s i = true -> 1 <= used_pages s.
Proof.
  intros Hwf Hi Hused. pose proof (page_in_map s i (wf_length s Hwf) Hi) as Him.
  pose proof (cnt_bm_clear 32 ltac:(lia) (page_bitmap s) i (Z.to_nat TOTAL_PAGES)
    (Z.eq_le_incl _ _ (eq_sym (map_size s (wf_length s Hwf)))) (page_in_range i Hi) Hused) as Hc.
  pose proof (cnt_bounds (bm_bit 32 (bm_clear 32 (page_bitmap s) i)) (Z.to_nat TOTAL_PAGES)).
  rewrite (wf_used s Hwf). lia.
Qed.

Lemma drop_page_wf s i :
  pmm_wf s -> is_page i -> KERNEL_END / PAGE_SIZE <= i -> page_used s i = true ->
  pmm_wf (drop_page i s).
Proof.
  intros Hwf Hi Hki Hused. pose proof (used_pages_range s Hwf) as Hr.
  pose proof (used_positive s i Hwf Hi Hused) as Hpos.
  destruct Hwf as [Hl Hw Hu Hk].
  pose proof (page_in_map s i Hl Hi) as Him. split; simpl.
  - by rewrite length_bm_clear.
  - apply bm_clear_wf; (done || lia).
  - rewrite cnt_bm_clear; [|lia|by rewrite map_size|by apply page_in_range|done]. rewrite <- Hu.
    rewrite u32_small by (unfold is_u32; lia). lia.
  - intros j Hj. pose proof (kernel_page_is_page j Hj).
    rewrite bm_bit_clear by (lia || by apply page_in_map).
    rewrite (Hk j Hj), andb_true_r. apply negb_true_iff, Z.eqb_neq. lia.
Qed.

Lemma free_above_kernel s i :
  pmm_wf s -> is_page i -> page_used s i = false -> KERNEL_END / PAGE_SIZE <= i.
Proof.
  intros Hwf Hi Hfree. destruct (decide (KERNEL_END / PAGE_SIZE <= i)) as [|Hlt]; [done|].
  rewrite (wf_kernel s Hwf) in Hfree; [done|]. unfold is_page in Hi. lia.
Qed.

(** ** Searching for one page *)

Lemma exec_find_free_page s :
  length (page_bitmap s) = 128%nat ->
  exec find_free_page s =
  (Val (default NO_PAGE (first_some (fun i => if page_used s i then None else Some i)
                          (seqZ 0 TOTAL_PAGES))), s).
Proof.
  intros Hl. unfold find_free_page. run.
  rewrite exec_for_find_pure with (g := fun i => if page_used s i then None else Some i); [done|].
  intros i Hi%elem_of_seqZ. run. by rewrite exec_bitmap_test by (unfold is_page; done || lia).
Qed.

(** The outcome of [pmm_alloc_page]: the free page with the lowest number, or
    address 0 when every page is used. *)
Lemma exec_pmm_alloc_page s :
  pmm_wf s ->
  (exists i, is_page i /\ page_used s i = false /\ (forall j, 0 <= j < i -> page_used s j = true) /\
     exec pmm_alloc_page s = (Val (i * PAGE_SIZE), take_page i s)) \/
  ((forall i, is_page i -> page_used s i = true) /\ exec pmm_alloc_page s = (Val 0, s)).
Proof.
  intros Hwf. pose proof (wf_length s Hwf) as Hl. unfold pmm_alloc_page. run.
  rewrite exec_find_free_page by done. cbv iota.
  destruct (first_some _ _) as [i|] eqn:E.
  - left. apply first_some_seqZ_Some in E as (Hi & Hfree & Hmin). exists i.
    assert (is_page i) as Hp by (unfold is_page; lia). split_and!; [done..|].
    unfold is_page in Hp. rewrite total_pages in Hp. simpl default.
    rewrite (proj2 (Z.eqb_neq i NO_PAGE)) by (unfold NO_PAGE; lia). run.
    rewrite exec_bitmap_set by (unfold is_page; done || lia). unfold add_used. run.
    rewrite u32_small; [done|]. unfold is_u32, PAGE_SIZE. lia.
  - right. rewrite first_some_seqZ_None in E. split; [|done].
    intros i Hi. apply E. unfold is_page in Hi. lia.
Qed.

(** ** Freeing *)

(** The pages [pmm_free_page] gives back. *)
Definition freeable (page_addr : Z) : Prop :=
  KERNEL_END <= page_addr < MEMORY_SIZE /\ page_addr mod PAGE_SIZE = 0.

Lemma freeable_page a : freeable a -> is_page (a / PAGE_SIZE) /\ KERNEL_END / PAGE_SIZE <= a / PAGE_SIZE.
Proof.
  unfold freeable, is_page, KERNEL_END, MEMORY_SIZE. rewrite total_pages. unfold PAGE_SIZE.
  intros [Ha _]. dlia.
Qed.

Lemma freeable_guards a : 0 <= a ->
  (MEMORY_SIZE <=? a) || negb (a mod PAGE_SIZE =? 0) || (a <? KERNEL_END) = false <-> freeable a.
Proof.
  intros Ha. unfold freeable.
  destruct (Z.leb_spec MEMORY_SIZE a), (Z.eqb_spec (a mod PAGE_SIZE) 0), (Z.ltb_spec a KERNEL_END);
    simpl; split; (done || lia || intros [? ?]; (done || lia)).
Qed.

Lemma exec_pmm_free_page s a :
  pmm_wf s -> 0 <= a ->
  exec (pmm_free_page a) s =
  (Val tt, if (MEMORY_SIZE <=? a) || negb (a mod PAGE_SIZE =? 0) || (a <? KERNEL_END) then s
           else if page_used s (a / PAGE_SIZE) then drop_page (a / PAGE_SIZE) s else s).
Proof.
  intros Hwf Ha. unfold pmm_free_page.
  destruct (_ || negb _) eqn:E1; [by run|].
  destruct (a <? KERNEL_END) eqn:E2; [by run|]. simpl orb.
  destruct (freeable_page a) as [Hp Hk].
  { apply freeable_guards; [done|]. by rewrite E1, E2. }
  run. rewrite exec_bitmap_test by (done || apply Hwf). run.
  destruct (page_used s (a / PAGE_SIZE)); [|by run]. run.
  rewrite exec_bitmap_clear by (done || apply Hwf). done.
Qed.

Lemma pmm_free_page_wf s a : pmm_wf s -> 0 <= a ->
  exists s', exec (pmm_free_page a) s = (Val tt, s') /\ pmm_wf s'.
Proof.
  intros Hwf Ha. rewrite exec_pmm_free_page by done. eexists. split; [done|].
  destruct (_ || _ || _) eqn:E; [done|]. apply freeable_guards in E; [|done].
  destruct (page_used s (a / PAGE_SIZE)) eqn:Eu; [|done].
  by apply drop_page_wf; [|apply freeable_page..|].
Qed.

(** ** Searching for a run of pages *)

Definition free_run (s : pmm) (count i : Z) : Prop :=
  forall j, 0 <= j < count -> page_used s (i + j) = false.

Lemma exec_find_free_pages_round s count i :
  length (page_bitmap s) = 128%nat -> 0 < count <= 4096 -> 0 <= i <= 4096 ->
  (4096 - count < i /\ exec (find_free_pages_round count i) s = (Val (inr NO_PAGE), s)) \/
  (i <= 4096 - count /\ free_run s count i /\
     exec (find_free_pages_round count i) s = (Val (inr i), s)) \/
  (i <= 4096 - count /\ exists j, 0 <= j < count /\ page_used s (i + j) = true /\
     exec (find_free_pages_round count i) s = (Val (inl (i + j + 1)), s)).
Proof.
  intros Hl Hc Hi. unfold find_free_pages_round. rewrite total_pages.
  rewrite (u32_small (4096 - count)) by (unfold is_u32; lia).
  destruct (Z.leb_spec i (4096 - count)) as [Hle|Hgt]; cbn [negb]; [|left; split; [lia|by run]].
  right. run.
  rewrite exec_for_find_pure with
    (g := fun j => if negb (page_used s (i + j)) then None else Some j).
  2: { intros j Hj%elem_of_seqZ. run. rewrite (u32_small (i + j)) by (unfold is_u32; lia).
       rewrite exec_bitmap_test by (unfold is_page; rewrite ?total_pages; done || lia). run.
       by destruct (page_used s (i + j)). }
  cbv iota. destruct (first_some _ _) as [j|] eqn:E.
  - right. rewrite first_some_seqZ_Some in E. destruct E as (Hj & Hu & _).
    split; [done|]. exists j. apply negb_false_iff in Hu. split_and!; [lia|lia|done|].
    run. rewrite (u32_small (i + j)) by (unfold is_u32; lia).
    by rewrite u32_small by (unfold is_u32; lia).
  - left. rewrite first_some_seqZ_None in E. split_and!; [done| |by run].
    intros j Hj. apply negb_true_iff, E. lia.
Qed.

Lemma exec_find_loop s count fuel i :
  length (page_bitmap s) = 128%nat -> 0 < count <= 4096 -> 0 <= i <= 4096 ->
  4097 - i < Z.of_nat fuel ->
  (forall k, 0 <= k < i -> k <= 4096 - count -> ~ free_run s count k) ->
  exists r, exec (iterate fuel (find_free_pages_round count) i) s = (Val r, s) /\
    ((r = NO_PAGE /\ forall k, 0 <= k <= 4096 - count -> ~ free_run s count k) \/
     (0 <= r <= 4096 - count /\ free_run s count r /\
        forall k, 0 <= k < r -> ~ free_run s count k)).
Proof.
  intros Hl Hc. revert i. induction fuel as [|fuel IH]; intros i Hi Hf Hprev; [lia|].
  unfold iterate; fold (@iterate pmm Z Z). rewrite exec_bind.
  destruct (exec_find_free_pages_round s count i Hl Hc Hi)
    as [[Hgt ->]|[(Hle & Hfree & ->)|(Hle & j & Hj & Hu & ->)]].
  - exists NO_PAGE. split; [by run|]. left. split; [done|]. intros k Hk. apply Hprev; lia.
  - exists i. split; [by run|]. right. split_and!; [lia|lia|done|].
    intros k Hk. apply Hprev; lia.
  - cbv iota. apply IH; [lia|lia|]. intros k Hk Hle' Hrun.
    destruct (decide (k < i)) as [|Hge]; [apply (Hprev k); (done || lia)|].
    (* the window of [k] has the used page [i + j] in it *)
    specialize (Hrun (i + j - k) ltac:(lia)). replace (k + (i + j - k)) with (i + j) in Hrun by lia.
    congruence.
Qed.

Lemma exec_find_free_pages s count :
  length (page_bitmap s) = 128%nat -> 0 < count <= 4096 ->
  exists r, exec (find_free_pages count) s = (Val r, s) /\
    ((r = NO_PAGE /\ forall k, 0 <= k <= 4096 - count -> ~ free_run s count k) \/
     (0 <= r <= 4096 - count /\ free_run s count r /\
        forall k, 0 <= k < r -> ~ free_run s count k)).
Proof.
  intros Hl Hc. unfold find_free_pages. rewrite (proj2 (Z.eqb_neq count 0)) by lia.
  apply exec_find_loop; [done|done|lia| |lia].
  rewrite Nat2Z.inj_add, total_pages_nat. lia.
Qed.

(** Marking the run [start, start + n) as used. *)
Lemma exec_mark_pages s start n :
  pmm_wf s -> 0 <= n -> 0 <= start -> start + n <= 4096 -> free_run s n start ->
  exists s', exec (for_each (seqZ 0 n) (fun i => bitmap_set (u32 (start + i)) ;; add_used 1)) s =
      (Val tt, s') /\ pmm_wf s' /\
    forall j, is_page j -> page_used s' j = page_used s j || ((start <=? j) && (j <? start + n)).
Proof.
  intros Hwf Hn Hs Hsn Hrun.
  apply (exec_for_each_seqZ (fun i s' => pmm_wf s' /\ forall j, is_page j ->
    page_used s' j = page_used s j || ((start <=? j) && (j <? start + i)))); [done| |].
  - split; [done|]. intros j _.
    destruct (Z.leb_spec start j), (Z.ltb_spec j (start + 0)); simpl; try lia; by rewrite orb_false_r.
  - intros i s1 Hi [Hwf1 Hu]. assert (is_page (start + i)) as Hp.
    { unfold is_page. rewrite total_pages. lia. }
    rewrite u32_small by (unfold is_u32; lia). exists (take_page (start + i) s1). run.
    rewrite exec_bitmap_set by (done || apply Hwf1). split; [done|]. split.
    + apply take_page_wf; [done..|]. rewrite Hu, Hrun by (done || lia). simpl.
      destruct (Z.leb_spec start (start + i)), (Z.ltb_spec (start + i) (start + i)); simpl; (done || lia).
    + intros j Hj. rewrite page_used_take by (done || apply Hwf1). rewrite Hu by done.
      destruct (Z.eqb_spec (start + i) j), (page_used s j), (Z.leb_spec start j),
        (Z.ltb_spec j (start + i)), (Z.ltb_spec j (start + (i + 1))); simpl; (done || lia).
Qed.

Lemma pmm_alloc_pages_spec s count :
  pmm_wf s -> 0 < count <= 4096 ->
  (exists i s', 0 <= i /\ i + count <= 4096 /\ free_run s count i /\
     (forall k, 0 <= k < i -> ~ free_run s count k) /\
     exec (pmm_alloc_pages count) s = (Val (i * PAGE_SIZE), s') /\ pmm_wf s' /\
     forall j, is_page j -> page_used s' j = page_used s j || ((i <=? j) && (j <? i + count))) \/
  ((forall k, 0 <= k -> k + count <= 4096 -> ~ free_run s count k) /\
     exec (pmm_alloc_pages count) s = (Val 0, s)).
Proof.
  intros Hwf Hc. unfold pmm_alloc_pages. rewrite (proj2 (Z.eqb_neq count 0)) by lia. run.
  destruct (exec_find_free_pages s count (wf_length s Hwf) Hc)
    as (r & -> & [[-> Hno]|(Hr & Hrun & Hmin)]); run.
  - right. split; [|done]. intros k Hk Hle. apply Hno. lia.
  - left. rewrite (proj2 (Z.eqb_neq r NO_PAGE)) by (unfold NO_PAGE; lia). run.
    destruct (exec_mark_pages s r count Hwf) as (s' & -> & Hwf' & Hu); [lia|lia|lia|done|].
    exists r, s'. split_and!; [lia|lia|done|done| |done|done].
    run. rewrite u32_small; [done|]. unfold is_u32, PAGE_SIZE. lia.
Qed.

(** ** Initial state *)

Definition boot_bitmap : list Z := replicate 16 4294967295 ++ replicate 112 0.

Lemma exec_pmm_init s : exec pmm_init s = (Val tt, mk_pmm boot_bitmap 512).
Proof. vm_compute. reflexivity. Qed.

Lemma pmm_init_wf : pmm_wf (mk_pmm boot_bitmap 512).
Proof.
  split; cbn [page_bitmap used_pages].
  - reflexivity.
  - apply Forall_app. split; apply Forall_replicate; lia.
  - vm_compute. reflexivity.
  - intros i Hi.
    assert (forallb (bm_bit 32 boot_bitmap) (seqZ 0 512) = true) as H by (vm_compute; reflexivity).
    rewrite forallb_forall in H. apply H. apply list_elem_of_In, elem_of_seqZ.
    change (KERNEL_END / PAGE_SIZE) with 512 in Hi. lia.
Qed.

(** ** Sequences of calls *)

Inductive pmm_call : Type :=
| CallAllocPage
| CallFreePage (page_addr : Z)
| CallAllocPages (count : Z)
| CallFreePages (page_addr count : Z).

Definition pmm_run (k : pmm_call) : M pmm unit :=
  match k with
  | CallAllocPage => pmm_alloc_page ;; ret tt
  | CallFreePage a => pmm_free_page a
  | CallAllocPages n => pmm_alloc_pages n ;; ret tt
  | CallFreePages a n => pmm_free_pages a n
  end.

(** Arguments are 32-bit values, and a run has at most as many pages as there are. *)
Definition call_ok (k : pmm_call) : Prop :=
  match k with
  | CallAllocPage => True
  | CallFreePage a => is_u32 a
  | CallAllocPages n => 0 <= n <= TOTAL_PAGES
  | CallFreePages a n => is_u32 a /\ is_u32 n
  end.

Lemma pmm_run_wf k s :
  pmm_wf s -> call_ok k -> exists s', exec (pmm_run k) s = (Val tt, s') /\ pmm_wf s'.
Proof.
  intros Hwf Hk. destruct k as [|a|n|a n]; simpl in *.
  - run. destruct (exec_pmm_alloc_page s Hwf) as [(i & Hi & Hf & _ & ->)|[_ ->]]; run.
    + eexists. split; [done|]. by apply take_page_wf.
    + by exists s.
  - apply pmm_free_page_wf; [done|]. unfold is_u32 in Hk. lia.
  - rewrite total_pages in Hk. run. destruct (decide (n = 0)) as [->|Hn]; [by exists s|].
    destruct (pmm_alloc_pages_spec s n Hwf)
      as [(i & s' & _ & _ & _ & _ & -> & Hwf' & _)|[_ ->]]; [lia| |]; run; by eexists.
  - apply exec_for_each_inv; [done|]. intros i s1 _ Hwf1.
    apply pmm_free_page_wf; [done|]. apply u32_range.
Qed.

Lemma pmm_calls_wf ks s :
  pmm_wf s -> Forall call_ok ks ->
  exists s', exec (for_each ks pmm_run) s = (Val tt, s') /\ pmm_wf s'.
Proof.
  intros Hwf Hks. apply exec_for_each_inv; [done|].
  intros k s1 Hk Hwf1. apply pmm_run_wf; [done|].
  rewrite List.Forall_forall in Hks. apply Hks. by apply list_elem_of_In.
Qed.

(** ** Requests for more pages than there are *)

(** The inner loop of a request for more than 4096 pages leaves the bitmap
    unless it meets a used page first. *)
Lemma exec_round_too_many s count i :
  length (page_bitmap s) = 128%nat -> 4096 < count < 4294967296 -> 0 <= i <= 4096 ->
  exec (find_free_pages_round count i) s = (Stopped Undefined, s) \/
  (exists i', i < i' <= 4096 /\ exec (find_free_pages_round count i) s = (Val (inl i'), s)).
Proof.
  intros Hl Hc Hi. unfold find_free_pages_round. rewrite total_pages.
  assert (u32 (4096 - count) = 4096 - count + 4294967296) as ->.
  { unfold u32. symmetry. apply (Z.mod_unique_pos _ _ (-1)); lia. }
  rewrite (proj2 (Z.leb_le i _)) by lia. cbn [negb]. run.
  replace count with ((4096 - i) + (1 + (count - (4096 - i) - 1))) by lia.
  rewrite seqZ_app, exec_for_find_app by lia.
  rewrite exec_for_find_pure with
    (g := fun j => if negb (page_used s (i + j)) then None else Some j).
  2: { intros j Hj%elem_of_seqZ. run. rewrite (u32_small (i + j)) by (unfold is_u32; lia).
       rewrite exec_bitmap_test by (unfold is_page; rewrite ?total_pages; done || lia). run.
       by destruct (page_used s (i + j)). }
  destruct (first_some _ _) as [j|] eqn:E.
  - right. rewrite first_some_seqZ_Some in E. destruct E as (Hj & _ & _).
    exists (i + j + 1). split; [lia|]. run. rewrite (u32_small (i + j)) by (unfold is_u32; lia).
    by rewrite u32_small by (unfold is_u32; lia).
  - left. rewrite seqZ_cons by lia. unfold for_find. fold (@for_find pmm Z Z).
    rewrite !exec_bind. replace (i + (0 + (4096 - i))) with 4096 by lia.
    unfold bitmap_test, bitmap_word. run.
    change (u32 4096 / 32) with 128.
    by rewrite lookup_ge_None_2 by (rewrite Hl; simpl; lia).
Qed.

Lemma exec_too_many_loop s count fuel i :
  length (page_bitmap s) = 128%nat -> 4096 < count < 4294967296 -> 0 <= i <= 4096 ->
  4096 - i < Z.of_nat fuel ->
  exec (iterate fuel (find_free_pages_round count) i) s = (Stopped Undefined, s).
Proof.
  intros Hl Hc. revert i. induction fuel as [|fuel IH]; intros i Hi Hf; [lia|].
  unfold iterate; fold (@iterate pmm Z Z). rewrite exec_bind.
  destruct (exec_round_too_many s count i Hl Hc Hi) as [->|(i' & Hi' & ->)]; [done|].
  cbv iota. apply IH; lia.
Qed.

(** ** Properties *)

(** [pmm_alloc_page] is first fit.  In a well-formed state where the
    counter is below the number of pages it takes the free page with the
    lowest number: the address it returns is page aligned and above the
    kernel, the page was free, every lower page is in use, no other page
    changes, and the state stays well formed.  When the counter says that all
    pages are used it returns 0 and changes nothing. *)
Theorem pmm_alloc_page_first_fit (s : pmm) (Hwf : pmm_wf s) :
  exists a s', exec pmm_alloc_page s = (Val a, s') /\ pmm_wf s' /\
    if used_pages s =? TOTAL_PAGES
    then a = 0 /\ s' = s
    else a mod PAGE_SIZE = 0 /\ KERNEL_END <= a < MEMORY_SIZE /\
         page_used s (a / PAGE_SIZE) = false /\
         (forall j, 0 <= j < a / PAGE_SIZE -> page_used s j = true) /\
         (forall j, 0 <= j < TOTAL_PAGES ->
            page_used s' j = (a / PAGE_SIZE =? j) || page_used s j).
Proof.
  destruct (exec_pmm_alloc_page s Hwf) as [(i & Hi & Hfree & Hmin & ->)|[Hall ->]].
  - eexists _, _. split; [done|]. split; [by apply take_page_wf|].
    rewrite (proj2 (Z.eqb_neq _ _)).
    2: { intros Hfull. rewrite (wf_used s Hwf), <- total_pages_nat' in Hfull.
         rewrite (cnt_full _ _ Hfull) in Hfree; [done|]. by apply page_in_range. }
    rewrite Z.mod_mul, Z.div_mul by done.
    pose proof (free_above_kernel s i Hwf Hi Hfree) as Hk.
    split_and!; [done| | |done|done|].
    + change (KERNEL_END / PAGE_SIZE) with 512 in Hk. unfold KERNEL_END, PAGE_SIZE. lia.
    + unfold is_page in Hi. rewrite total_pages in Hi. unfold MEMORY_SIZE, PAGE_SIZE. lia.
    + intros j Hj. apply page_used_take; (done || apply Hwf).
  - exists 0, s. split; [done|]. split; [done|].
    destruct (Z.eqb_spec (used_pages s) TOTAL_PAGES) as [|Hne]; [done|]. exfalso.
    destruct (cnt_lt_exists (page_used s) (Z.to_nat TOTAL_PAGES)) as (i & Hi & Hf).
    + pose proof (used_pages_range s Hwf). rewrite <- (wf_used s Hwf), total_pages_nat.
      rewrite total_pages in Hne. lia.
    + rewrite Hall in Hf; [done|]. unfold is_page. rewrite total_pages.
      rewrite total_pages_nat in Hi. lia.
Qed.

Lemma pmm_alloc_page_first_fit_witness :
  exists a s', exec pmm_alloc_page (mk_pmm boot_bitmap 512) = (Val a, s') /\ pmm_wf s' /\
    a mod PAGE_SIZE = 0 /\ page_used (mk_pmm boot_bitmap 512) (a / PAGE_SIZE) = false.
Proof.
  destruct (pmm_alloc_page_first_fit (mk_pmm boot_bitmap 512) pmm_init_wf)
    as (a & s' & E & Hwf & H).
  exists a, s'. change (512 =? TOTAL_PAGES) with false in H. simpl in H. tauto.
Defined.

(** A page taken by [pmm_alloc_page] and given back at once leaves the
    bitmap and the counter exactly as they were. *)
Theorem pmm_alloc_free_roundtrip (s s1 : pmm) (a : Z) (Hwf : pmm_wf s)
    (Halloc : exec pmm_alloc_page s = (Val a, s1)) (Ha : a <> 0) :
  exec (pmm_free_page a) s1 = (Val tt, s).
Proof.
  destruct (exec_pmm_alloc_page s Hwf) as [(i & Hi & Hfree & Hmin & E)|[_ E]];
    rewrite E in Halloc; simplify_eq.
  rewrite exec_pmm_free_page; [|by apply take_page_wf|].
  2: { unfold is_page, PAGE_SIZE in *. lia. }
  pose proof (free_above_kernel s i Hwf Hi Hfree) as Hk.
  assert (0 <= i * PAGE_SIZE) as H0 by (unfold is_page, PAGE_SIZE in *; lia).
  rewrite (proj2 (freeable_guards (i * PAGE_SIZE) H0)).
  2: { unfold freeable. rewrite Z.mod_mul by done. unfold is_page in Hi.
       rewrite total_pages in Hi. change (KERNEL_END / PAGE_SIZE) with 512 in Hk.
       unfold KERNEL_END, MEMORY_SIZE, PAGE_SIZE. lia. }
  rewrite Z.div_mul by done.
  rewrite page_used_take, Z.eqb_refl by (done || apply Hwf). simpl. f_equal.
  pose proof (used_pages_range s Hwf). unfold drop_page, take_page. simpl.
  rewrite bm_clear_set by (done || lia || apply page_in_map; (done || apply Hwf)).
  rewrite (u32_small (used_pages s + 1)) by (unfold is_u32; lia).
  rewrite u32_small by (unfold is_u32; lia). destruct s; simpl. f_equal. lia.
Qed.

Lemma pmm_alloc_free_roundtrip_witness :
  exec (pmm_free_page 2097152) (take_page 512 (mk_pmm boot_bitmap 512)) =
  (Val tt, mk_pmm boot_bitmap 512).
Proof.
  apply (pmm_alloc_free_roundtrip (mk_pmm boot_bitmap 512) _ 2097152 pmm_init_wf);
    [vm_compute; reflexivity|lia].
Defined.

(** C23: The search for a run of pages, which skips past every used page it
    meets, is first fit: for a run of 1 to 4096 pages it ends, changes nothing
    and returns the lowest page that starts a run of free pages inside the
    memory, or 0xFFFFFFFF if there is none. *)
Theorem find_free_pages_first_fit (s : pmm) (count : Z) (Hwf : pmm_wf s)
    (Hc : 0 < count <= TOTAL_PAGES) :
  exists r, exec (find_free_pages count) s = (Val r, s) /\
    ((r = NO_PAGE /\ forall k, 0 <= k -> k + count <= TOTAL_PAGES -> ~ free_run s count k) \/
     (0 <= r /\ r + count <= TOTAL_PAGES /\ free_run s count r /\
        forall k, 0 <= k < r -> ~ free_run s count k)).
Proof.
  rewrite total_pages in *.
  destruct (exec_find_free_pages s count (wf_length s Hwf) Hc) as (r & E & H).
  exists r. split; [done|]. destruct H as [[-> H]|(Hr & H1 & H2)].
  - left. split; [done|]. intros. apply H. lia.
  - right. split_and!; [lia|lia|done|done].
Qed.

Lemma find_free_pages_first_fit_witness :
  exists r, exec (find_free_pages 3) (mk_pmm boot_bitmap 512) = (Val r, mk_pmm boot_bitmap 512) /\
    r = 512.
Proof.
  destruct (find_free_pages_first_fit (mk_pmm boot_bitmap 512) 3 pmm_init_wf)
    as (r & E & _); [rewrite total_pages; lia|].
  exists r. split; [exact E|]. vm_compute in E. congruence.
Defined.

(** C27: For every sequence of calls after [pmm_init] in which [pmm_alloc_pages] asks
    for at most 4096 pages and addresses and counts are 32-bit words, every call
    returns and the state stays well formed: the counter is the number of set bits
    and no page of the kernel is ever free. *)
Theorem pmm_calls_preserve_wf (s : pmm) (ks : list pmm_call) (Hks : Forall call_ok ks) :
  exists s', exec (pmm_init ;; for_each ks pmm_run) s = (Val tt, s') /\ pmm_wf s'.
Proof.
  rewrite exec_bind, exec_pmm_init. apply pmm_calls_wf; [apply pmm_init_wf|done].
Qed.

Lemma pmm_calls_preserve_wf_witness :
  exists s', exec (pmm_init ;; for_each
    [CallAllocPages 3; CallFreePage 2101248; CallAllocPage; CallFreePages 2097152 3] pmm_run)
    (mk_pmm [] 0) = (Val tt, s') /\ pmm_wf s'.
Proof.
  apply pmm_calls_preserve_wf.
  repeat (constructor; [unfold call_ok, is_u32; rewrite ?total_pages; lia|]). constructor.
Defined.

(** A request for more than 4096 pages is undefined behaviour in every
    well-formed state: the bound [TOTAL_PAGES - count] of the outer loop wraps
    around and the inner loop reads past the end of the bitmap. *)
Theorem find_free_pages_too_many (s : pmm) (count : Z) (Hwf : pmm_wf s)
    (Hc : TOTAL_PAGES < count < 4294967296) :
  exec (pmm_alloc_pages count) s = (Stopped Undefined, s).
Proof.
  rewrite total_pages in Hc. unfold pmm_alloc_pages, find_free_pages.
  rewrite (proj2 (Z.eqb_neq count 0)) by lia. run.
  rewrite exec_too_many_loop; [done|apply Hwf|lia|lia|].
  rewrite Nat2Z.inj_add, total_pages_nat. lia.
Qed.

Lemma find_free_pages_too_many_witness :
  exec (pmm_alloc_pages 4097) (mk_pmm boot_bitmap 512) = (Stopped Undefined, mk_pmm boot_bitmap 512).
Proof. apply find_free_pages_too_many; [apply pmm_init_wf|rewrite total_pages; lia]. Defined.
