(* ===== verification/Heap.v ===== *)
(** * heap.c: the kernel heap

    A list of blocks threaded through the memory they manage: every block
    starts with a 16-byte header (size, is_free, magic, next).  The
    definitions work on the bytes of the memory, as the C code does; the
    abstract heap, a list of block sizes and states, is related to them by the
    representation predicate [hrep]. *)

From S2P Require Import Prelude Mem.

Definition HEAP_START := 2097152.            (* 0x00200000 *)
Definition HEAP_SIZE := 4 * 1024 * 1024.
Definition HEAP_END := HEAP_START + HEAP_SIZE.
Definition HEAP_MAGIC := 3735928559.         (* 0xDEADBEEF *)
Definition MIN_BLOCK_SIZE := 32.
Definition HEADER := 16.                     (* sizeof(heap_block_t) *)

Record heap : Type := mk_heap {
  hmem : mem;
  heap_head : Z
}.

(** ** The fields of the header at [p] *)

Definition block_size (p : Z) : M heap Z := gets (fun h => load32 (hmem h) p).
Definition block_is_free (p : Z) : M heap Z := gets (fun h => load32 (hmem h) (p + 4)).
Definition block_magic (p : Z) : M heap Z := gets (fun h => load32 (hmem h) (p + 8)).
Definition block_next (p : Z) : M heap Z := gets (fun h => load32 (hmem h) (p + 12)).

Definition poke (a v : Z) : M heap unit := modify (fun h => mk_heap (store32 (hmem h) a v) (heap_head h)).
Definition set_size (p v : Z) : M heap unit := poke p v.
Definition set_is_free (p v : Z) : M heap unit := poke (p + 4) v.
Definition set_magic (p v : Z) : M heap unit := poke (p + 8) v.
Definition set_next (p v : Z) : M heap unit := poke (p + 12) v.

(** Every block has at least 32 bytes, so 4 MB hold at most 131072 of them. *)
Definition heap_fuel : nat := Z.to_nat 131074.

(** ** Operations *)

Definition align_size (size : Z) : Z := Z.land (u32 (size + 3)) (Z.lnot 3).

Definition coalesce_round (current : Z) : M heap (Z + unit) :=
  if current =? 0 then ret (inr tt) else
  let! next := block_next current in
  if next =? 0 then ret (inr tt) else
  let! free1 := block_is_free current in
  let! free2 := block_is_free next in
  if negb (free1 =? 0) && negb (free2 =? 0) then
    let! size1 := block_size current in
    let current_end := u32 (current + size1) in
    if current_end =? next then
      let! size2 := block_size next in
      set_size current (u32 (size1 + size2)) ;;
      let! next2 := block_next next in
      set_next current next2 ;;
      ret (inl current)
    else ret (inl next)
  else ret (inl next).

Definition coalesce_free_blocks : M heap unit :=
  let! current := gets heap_head in
  iterate heap_fuel coalesce_round current.

Definition heap_init : M heap unit :=
  modify (fun h => mk_heap (hmem h) HEAP_START) ;;
  set_size HEAP_START HEAP_SIZE ;;
  set_is_free HEAP_START 1 ;;
  set_magic HEAP_START HEAP_MAGIC ;;
  set_next HEAP_START 0 ;;
  screen_write_color (c "[HEAP] ") (MAKE_COLOR COLOR_GREEN COLOR_BLACK) ;;
  screen_write (c "Kernel heap initialized\n") ;;
  kprintf (c "       Heap Start: 0x%x\n") [AInt HEAP_START] ;;
  kprintf (c "       Heap Size: %d MB\n") [AInt (HEAP_SIZE / (1024 * 1024))] ;;
  kprintf (c "       Heap End: 0x%x\n") [AInt HEAP_END].

(** One round of the first-fit search at the block [current]. *)
Definition kmalloc_round (total_size current : Z) : M heap (Z + Z) :=
  if current =? 0 then ret (inr 0) else
  let! magic := block_magic current in
  if negb (magic =? HEAP_MAGIC) then
    kprintf_color (MAKE_COLOR COLOR_RED COLOR_BLACK)
      (c "[HEAP ERROR] Corrupted heap block at 0x%x\n") [AInt current] ;;
    ret (inr 0)
  else
  let! is_free := block_is_free current in
  let! size := block_size current in
  if negb (is_free =? 0) && (total_size <=? size) then
    (if u32 (total_size + MIN_BLOCK_SIZE) <=? size then
       let new_block := u32 (current + total_size) in
       set_size new_block (u32 (size - total_size)) ;;
       set_is_free new_block 1 ;;
       set_magic new_block HEAP_MAGIC ;;
       (let! next := block_next current in set_next new_block next) ;;
       set_size current total_size ;;
       set_next current new_block
     else ret tt) ;;
    set_is_free current 0 ;;
    ret (inr (u32 (current + HEADER)))
  else
    let! next := block_next current in
    ret (inl next).

Definition kmalloc (size : Z) : M heap Z :=
  if size =? 0 then ret 0 else
  let aligned_size := align_size size in
  let total_size := u32 (aligned_size + HEADER) in
  let total_size := if total_size <? MIN_BLOCK_SIZE then MIN_BLOCK_SIZE else total_size in
  let! current := gets heap_head in
  iterate heap_fuel (kmalloc_round total_size) current.

Definition kfree (ptr : Z) : M heap unit :=
  if ptr =? 0 then ret tt else
  let block := u32 (ptr - HEADER) in
  let! magic := block_magic block in
  if negb (magic =? HEAP_MAGIC) then
    kprintf_color (MAKE_COLOR COLOR_RED COLOR_BLACK)
      (c "[HEAP ERROR] Invalid free - bad magic at 0x%x\n") [AInt block]
  else if (block <? HEAP_START) || (HEAP_END <=? block) then
    kprintf_color (MAKE_COLOR COLOR_RED COLOR_BLACK)
      (c "[HEAP ERROR] Free outside heap bounds: 0x%x\n") [AInt block]
  else
  let! is_free := block_is_free block in
  if negb (is_free =? 0) then
    kprintf_color (MAKE_COLOR COLOR_RED COLOR_BLACK)
      (c "[HEAP WARNING] Double free detected at 0x%x\n") [AInt block]
  else
  set_is_free block 1 ;;
  coalesce_free_blocks.

Definition krealloc (ptr new_size : Z) : M heap Z :=
  if ptr =? 0 then kmalloc new_size else
  if new_size =? 0 then kfree ptr ;; ret 0 else
  let block := u32 (ptr - HEADER) in
  let! magic := block_magic block in
  if negb (magic =? HEAP_MAGIC) then ret 0 else
  let! size := block_size block in
  let current_size := u32 (size - HEADER) in
  if new_size <=? current_size then ret ptr else
  let! new_ptr := kmalloc new_size in
  if new_ptr =? 0 then ret 0 else
  modify (fun h => mk_heap (copy_bytes (Z.to_nat current_size) (hmem h) new_ptr ptr) (heap_head h)) ;;
  kfree ptr ;;
  ret new_ptr.

Definition kcalloc (num size : Z) : M heap Z :=
  let total := u32 (num * size) in
  let! ptr := kmalloc total in
  (if negb (ptr =? 0) then
     modify (fun h => mk_heap (fill_bytes (Z.to_nat total) (hmem h) ptr 0) (heap_head h))
   else ret tt) ;;
  ret ptr.

(** ** Statistics: the four walks over the list *)

Definition walk_round (f : Z -> Z -> Z -> Z) (st : Z * Z) : M heap (Z * Z + Z) :=
  let '(current, acc) := st in
  if current =? 0 then ret (inr acc) else
  let! is_free := block_is_free current in
  let! size := block_size current in
  let! next := block_next current in
  ret (inl (next, u32 (f is_free size acc))).

Definition walk (f : Z -> Z -> Z -> Z) : M heap Z :=
  let! current := gets heap_head in
  iterate heap_fuel (walk_round f) (current, 0).

Definition heap_get_total_size : M heap Z := ret HEAP_SIZE.
Definition heap_get_used_size : M heap Z :=
  walk (fun is_free size used => if is_free =? 0 then used + size else used).
Definition heap_get_free_size : M heap Z :=
  walk (fun is_free size free => if negb (is_free =? 0) then free + size else free).
Definition heap_get_block_count : M heap Z :=
  walk (fun is_free size count => count + 1).
Definition heap_get_free_block_count : M heap Z :=
  walk (fun is_free size count => if negb (is_free =? 0) then count + 1 else count).

(** ** The abstract heap *)

Record block : Type := mk_block { b_size : Z; b_free : bool }.

#[export] Instance block_eq_dec : EqDecision block.
Proof. solve_decision. Defined.

(** The address after the blocks [bs] laid out from [a]. *)
Fixpoint end_of (a : Z) (bs : list block) : Z :=
  match bs with [] => a | b :: r => end_of (a + b_size b) r end.

Definition next_of (a : Z) (b : block) (r : list block) : Z :=
  match r with [] => 0 | _ => a + b_size b end.

Definition free_word (b : bool) : Z := if b then 1 else 0.

Record header (m : mem) (a : Z) (b : block) (nx : Z) : Prop := {
  h_size : load32 m a = b_size b;
  h_free : load32 m (a + 4) = free_word (b_free b);
  h_magic : load32 m (a + 8) = HEAP_MAGIC;
  h_next : load32 m (a + 12) = nx
}.

(** The memory holds the headers of [bs], one block after the other from [a]
    to the end of the heap. *)
Fixpoint hrep (m : mem) (a : Z) (bs : list block) : Prop :=
  match bs with
  | [] => a = HEAP_END
  | b :: r =>
      MIN_BLOCK_SIZE <= b_size b /\ b_size b mod 4 = 0 /\
      header m a b (next_of a b r) /\ hrep m (a + b_size b) r
  end.

Definition head_free (bs : list block) : bool :=
  match bs with b :: _ => b_free b | [] => false end.

(** No two neighbouring blocks are free. *)
Fixpoint coalesced (bs : list block) : Prop :=
  match bs with
  | [] => True
  | b :: r => b_free b && head_free r = false /\ coalesced r
  end.

Record heap_wf (h : heap) (bs : list block) : Prop := {
  hw_head : heap_head h = HEAP_START;
  hw_rep : hrep (hmem h) HEAP_START bs;
  hw_coalesced : coalesced bs;
  hw_nonempty : bs <> []
}.

(** First fit with splitting, on the abstract heap: the address of the block
    and the heap after. *)
Fixpoint amalloc (total a : Z) (bs : list block) : option (Z * list block) :=
  match bs with
  | [] => None
  | b :: r =>
      if b_free b && (total <=? b_size b) then
        Some (a, if total + MIN_BLOCK_SIZE <=? b_size b
                 then mk_block total false :: mk_block (b_size b - total) true :: r
                 else mk_block (b_size b) false :: r)
      else
        '(p, r') ← amalloc total (a + b_size b) r;
        Some (p, b :: r')
  end.

(** Merging of neighbouring free blocks, from the block [b] on. *)
Fixpoint acoalesce (b : block) (r : list block) : list block :=
  match r with
  | [] => [b]
  | b2 :: r' =>
      if b_free b && b_free b2 then acoalesce (mk_block (b_size b + b_size b2) true) r'
      else b :: acoalesce b2 r'
  end.

Definition acoalesce_all (bs : list block) : list block :=
  match bs with [] => [] | b :: r => acoalesce b r end.

(** The block [b] is at the address [p] of the heap [bs] laid out from [a]. *)
Fixpoint block_at (a : Z) (bs : list block) (p : Z) (b : block) : Prop :=
  match bs with
  | [] => False
  | b0 :: r => (p = a /\ b = b0) \/ block_at (a + b_size b0) r p b
  end.

(** ** Layout *)

Lemma end_of_app a bs1 bs2 : end_of a (bs1 ++ bs2) = end_of (end_of a bs1) bs2.
Proof. revert a. induction bs1; intros a0; simpl; auto. Qed.

Lemma hrep_end m a bs : hrep m a bs -> end_of a bs = HEAP_END.
Proof. revert a. induction bs as [|b r IH]; intros a; simpl; [done|]. intros (_ & _ & _ & H). auto. Qed.

Lemma hrep_bounds m a bs : hrep m a bs -> a + 32 * Z.of_nat (length bs) <= HEAP_END.
Proof.
  revert a. induction bs as [|b r IH]; intros a; simpl; [lia|].
  unfold MIN_BLOCK_SIZE. intros (H1 & _ & _ & H2). specialize (IH _ H2). lia.
Qed.

Lemma header_ext m m' a b nx :
  (forall x, a <= x < a + HEADER -> m x = m' x) -> header m a b nx -> header m' a b nx.
Proof.
  unfold HEADER. intros H [H1 H2 H3 H4].
  split; [rewrite <- H1|rewrite <- H2|rewrite <- H3|rewrite <- H4];
    apply load32_ext; intros; symmetry; apply H; lia.
Qed.

Lemma hrep_ext m m' a bs :
  (forall x, a <= x -> m x = m' x) -> hrep m a bs -> hrep m' a bs.
Proof.
  revert a. induction bs as [|b r IH]; intros a H; simpl; [done|].
  unfold MIN_BLOCK_SIZE. intros (H1 & H2 & H3 & H4). split_and!; [done|done| |].
  - eapply header_ext; [|exact H3]. intros. apply H. lia.
  - apply IH; [|done]. intros. apply H. lia.
Qed.

Lemma hrep_app m a bs1 bs2 :
  hrep m a (bs1 ++ bs2) -> hrep m (end_of a bs1) bs2.
Proof. revert a. induction bs1; intros a0; simpl; [done|]. intros (_ & _ & _ & H). auto. Qed.

Lemma end_of_ge m a bs1 bs2 : hrep m a (bs1 ++ bs2) -> a <= end_of a bs1.
Proof.
  revert a. induction bs1 as [|b r IH]; intros a; simpl; [lia|].
  unfold MIN_BLOCK_SIZE. intros (Hs & _ & _ & H). specialize (IH _ H). lia.
Qed.

(** A representation with the blocks from some point on replaced. *)
Lemma hrep_replace m m' a bs1 bs2 bs2' :
  hrep m a (bs1 ++ bs2) -> hrep m' (end_of a bs1) bs2' ->
  (bs2 = [] <-> bs2' = []) ->
  (forall x, a <= x < end_of a bs1 -> m x = m' x) ->
  hrep m' a (bs1 ++ bs2').
Proof.
  intros H H' Hnil Hx. revert a H H' Hx. induction bs1 as [|b r IH]; intros a; simpl; [done|].
  intros (H1 & H2 & H3 & H4) H' Hx.
  assert (a + b_size b <= end_of (a + b_size b) r) as Hle.
  { by apply (end_of_ge m _ r bs2). }
  split_and!; [done|done| |].
  - assert (next_of a b (r ++ bs2') = next_of a b (r ++ bs2)) as ->.
    { destruct r; [|done]. destruct bs2, bs2'; try done; exfalso;
        [discriminate (proj1 Hnil eq_refl)|discriminate (proj2 Hnil eq_refl)]. }
    eapply header_ext; [|exact H3]. unfold HEADER, MIN_BLOCK_SIZE in *. intros. apply Hx. lia.
  - apply IH; [done..|]. intros. apply Hx. unfold MIN_BLOCK_SIZE in *. lia.
Qed.

Lemma block_at_ge m a bs p b :
  hrep m a bs -> block_at a bs p b -> a <= p /\ p + b_size b <= end_of a bs /\ MIN_BLOCK_SIZE <= b_size b.
Proof.
  revert a. induction bs as [|b0 r IH]; intros a; simpl; [done|].
  intros (H1 & _ & _ & H2) [[-> ->]|Hat].
  - pose proof (end_of_ge m _ r [] ltac:(by rewrite app_nil_r)). lia.
  - specialize (IH _ H2 Hat). unfold MIN_BLOCK_SIZE in *. lia.
Qed.

(** Two blocks of a heap are the same block or do not overlap. *)
Lemma block_at_disjoint m a bs p1 b1 p2 b2 :
  hrep m a bs -> block_at a bs p1 b1 -> block_at a bs p2 b2 ->
  (p1 = p2 /\ b1 = b2) \/ p1 + b_size b1 <= p2 \/ p2 + b_size b2 <= p1.
Proof.
  revert a. induction bs as [|b0 r IH]; intros a; simpl; [done|].
  intros (H1 & _ & _ & H2) [[-> ->]|Hat1] [[-> ->]|Hat2].
  - by left.
  - apply (block_at_ge m _ _ _ _ H2) in Hat2. lia.
  - apply (block_at_ge m _ _ _ _ H2) in Hat1. lia.
  - by apply (IH _ H2).
Qed.

Lemma hrep_header m a bs p b :
  hrep m a bs -> block_at a bs p b -> exists nx, header m p b nx /\ b_size b mod 4 = 0.
Proof.
  revert a. induction bs as [|b0 r IH]; intros a; simpl; [done|].
  intros (_ & H4 & H & H2) [[-> ->]|Hat]; [by eexists|]. by apply (IH _ H2).
Qed.

Lemma hrep_aligned m a bs p b :
  hrep m a bs -> a mod 4 = 0 -> block_at a bs p b -> p mod 4 = 0.
Proof.
  revert a. induction bs as [|b0 r IH]; intros a; simpl; [done|].
  intros (_ & H4 & _ & H2) Ha [[-> ->]|Hat]; [done|].
  apply (IH _ H2); [|done]. by rewrite Zplus_mod, H4, Ha.
Qed.

Lemma block_in_range m a b r : hrep m a (b :: r) -> b_size b <= HEAP_END - a.
Proof. simpl. intros (_ & _ & _ & H). apply hrep_bounds in H. lia. Qed.

(** ** kmalloc *)

Definition heap_addr (a : Z) : Prop := HEAP_START <= a /\ a <= HEAP_END.

Ltac heap_consts := unfold heap_addr, HEADER, MIN_BLOCK_SIZE, HEAP_END, HEAP_START, HEAP_SIZE in *.

(** Words read back from a memory after stores at known distances. *)
Ltac loads := repeat first
  [ rewrite load_store_same by (done || (unfold is_u32, HEAP_MAGIC; heap_consts; lia))
  | rewrite load_store_other by (heap_consts; lia) ].
Ltac bytes := repeat rewrite store32_other by (heap_consts; lia).

Lemma kmalloc_round_fit m hd a b r total :
  hrep m a (b :: r) -> heap_addr a -> b_free b = true ->
  MIN_BLOCK_SIZE <= total <= b_size b -> total mod 4 = 0 ->
  exists m', exec (kmalloc_round total a) (mk_heap m hd) = (Val (inr (a + HEADER)), mk_heap m' hd) /\
    hrep m' a (if total + MIN_BLOCK_SIZE <=? b_size b
               then mk_block total false :: mk_block (b_size b - total) true :: r
               else mk_block (b_size b) false :: r) /\
    (forall x, ~ (a <= x < a + b_size b) -> m' x = m x).
Proof.
  intros Hrep Ha Hb Ht H4. pose proof (block_in_range _ _ _ _ Hrep) as Hsz.
  simpl in Hrep. destruct Hrep as (Hmin & Hal & [Hs Hf Hm Hn] & Hr).
  unfold kmalloc_round. rewrite (proj2 (Z.eqb_neq a 0)) by (heap_consts; lia).
  unfold block_magic, block_is_free, block_size, block_next. run. cbn [hmem].
  rewrite Hm, Hf, Hs, Hb, Z.eqb_refl. cbn [negb free_word]. change (1 =? 0) with false.
  cbn [negb andb]. rewrite (proj2 (Z.leb_le total _)) by lia.
  rewrite (u32_small (total + MIN_BLOCK_SIZE)) by (unfold is_u32; heap_consts; lia).
  rewrite (u32_small (a + HEADER)) by (unfold is_u32; heap_consts; lia).
  rewrite (u32_small (a + total)) by (unfold is_u32; heap_consts; lia).
  destruct (Z.leb_spec (total + MIN_BLOCK_SIZE) (b_size b)) as [Hsplit|Hno].
  - rewrite (u32_small (b_size b - total)) by (unfold is_u32; heap_consts; lia).
    unfold set_size, set_is_free, set_magic, set_next, poke. run. cbn [hmem heap_head].
    rewrite !load_store_other by (heap_consts; lia). rewrite Hn.
    assert (is_u32 (next_of a b r)) as Hnx by (rewrite <- Hn; apply load32_range).
    eexists. split; [done|]. split.
    + cbn [hrep]. split_and!; cbn [b_size b_free].
      * heap_consts; lia.
      * done.
      * split; cbn [b_size b_free next_of free_word]; loads; done.
      * heap_consts; lia.
      * rewrite Zminus_mod, Hal, H4. done.
      * split; cbn [b_size b_free free_word]; loads; [done|done|done|].
        destruct r; cbn [next_of b_size]; [done|lia].
      * replace (a + total + (b_size b - total)) with (a + b_size b) by lia.
        eapply hrep_ext; [|exact Hr]. intros. symmetry. by bytes.
    + intros x Hx. by bytes.
  - unfold set_is_free, poke. run. cbn [hmem heap_head].
    eexists. split; [done|]. split.
    + cbn [hrep]. split_and!; cbn [b_size b_free]; [done|done| |].
      * split; cbn [b_size b_free free_word]; loads; done.
      * eapply hrep_ext; [|exact Hr]. intros. symmetry. by bytes.
    + intros x Hx. by bytes.
Qed.

Lemma kmalloc_round_skip m hd a b r total :
  hrep m a (b :: r) -> heap_addr a -> b_free b && (total <=? b_size b) = false ->
  exec (kmalloc_round total a) (mk_heap m hd) = (Val (inl (next_of a b r)), mk_heap m hd).
Proof.
  intros Hrep Ha Hb. simpl in Hrep. destruct Hrep as (Hmin & _ & [Hs Hf Hm Hn] & _).
  unfold kmalloc_round. rewrite (proj2 (Z.eqb_neq a 0)) by (heap_consts; lia).
  unfold block_magic, block_is_free, block_size, block_next. run. cbn [hmem].
  rewrite Hm, Hf, Hs, Hn, Z.eqb_refl. cbn [negb].
  replace (negb (free_word (b_free b) =? 0)) with (b_free b) by (by destruct (b_free b)).
  by rewrite Hb.
Qed.

(** The search refines [amalloc], and touches no byte outside the block it
    takes, which was free. *)
Lemma kmalloc_loop bs : forall m hd a total fuel,
  hrep m a bs -> bs <> [] -> heap_addr a -> MIN_BLOCK_SIZE <= total -> total mod 4 = 0 ->
  (length bs < fuel)%nat ->
  match amalloc total a bs with
  | None => exec (iterate fuel (kmalloc_round total) a) (mk_heap m hd) = (Val 0, mk_heap m hd)
  | Some (p, bs') =>
      exists m' b, block_at a bs p b /\ b_free b = true /\ total <= b_size b /\
        exec (iterate fuel (kmalloc_round total) a) (mk_heap m hd) =
          (Val (p + HEADER), mk_heap m' hd) /\
        hrep m' a bs' /\ (forall x, ~ (p <= x < p + b_size b) -> m' x = m x)
  end.
Proof.
  induction bs as [|b r IH]; intros m hd a total fuel Hrep Hne Ha Ht H4 Hfuel; [done|].
  destruct fuel as [|fuel]; [simpl in Hfuel; lia|].
  unfold iterate; fold (@iterate heap Z Z). cbn [amalloc]. rewrite exec_bind.
  destruct (b_free b && (total <=? b_size b)) eqn:E.
  - apply andb_true_iff in E as [Hb Hle]. apply Z.leb_le in Hle.
    destruct (kmalloc_round_fit m hd a b r total Hrep Ha Hb) as (m' & -> & Hrep' & Hx); [lia|done|].
    exists m', b. split_and!; [by left|done..].
  - rewrite (kmalloc_round_skip m hd a b r total Hrep Ha E).
    pose proof Hrep as Hrep0. destruct Hrep as (Hmin & Hal & Hh & Hr).
    destruct r as [|b2 r].
    + destruct fuel as [|fuel]; [simpl in Hfuel; lia|]. reflexivity.
    + cbn [next_of]. assert (heap_addr (a + b_size b)) as Ha2.
      { apply hrep_bounds in Hr. heap_consts. lia. }
      specialize (IH m hd (a + b_size b) total fuel Hr ltac:(done) Ha2 Ht H4 ltac:(simpl in *; lia)).
      destruct (amalloc total (a + b_size b) (b2 :: r)) as [[p bs']|]; [|done].
      destruct IH as (m' & b' & Hat & Hb' & Hle & Hex & Hrep' & Hx).
      exists m', b'. split_and!; [by right|done|done|done| |done].
      pose proof (block_at_ge m _ _ _ _ Hr Hat) as Hap.
      apply (hrep_replace m m' a [b] (b2 :: r) bs' Hrep0); [exact Hrep'| |].
      * split; [done|]. intros ->. exfalso. apply hrep_end in Hrep'. simpl in Hrep'.
        apply hrep_bounds in Hr. simpl in Hr. heap_consts. lia.
      * simpl. intros x Hlt. symmetry. apply Hx. lia.
Qed.

(** ** coalesce_free_blocks *)

(** The bytes of the headers of the free blocks. *)
Fixpoint free_header (a : Z) (bs : list block) (x : Z) : Prop :=
  match bs with
  | [] => False
  | b :: r => (b_free b = true /\ a <= x < a + HEADER) \/ free_header (a + b_size b) r x
  end.

Lemma coalesce_round_last m hd a b :
  hrep m a [b] -> heap_addr a -> exec (coalesce_round a) (mk_heap m hd) = (Val (inr tt), mk_heap m hd).
Proof.
  intros Hrep Ha. simpl in Hrep. destruct Hrep as (_ & _ & [_ _ _ Hn] & _).
  unfold coalesce_round. rewrite (proj2 (Z.eqb_neq a 0)) by (heap_consts; lia).
  unfold block_next. run. cbn [hmem]. by rewrite Hn.
Qed.

Lemma free_header_ge m a bs x : hrep m a bs -> free_header a bs x -> a <= x.
Proof.
  revert a. induction bs as [|b r IH]; intros a; simpl; [done|].
  heap_consts. intros (Hm & _ & _ & Hr) [[_ ?]|Hfh]; [lia|].
  specialize (IH _ Hr Hfh). lia.
Qed.

Lemma free_word_test f : negb (free_word f =? 0) = f.
Proof. by destruct f. Qed.

(** The memory after two free blocks at [a] are merged. *)
Lemma coalesce_round_step m hd a b b2 r :
  hrep m a (b :: b2 :: r) -> heap_addr a ->
  if b_free b && b_free b2 then
    exists m', exec (coalesce_round a) (mk_heap m hd) = (Val (inl a), mk_heap m' hd) /\
      hrep m' a (mk_block (b_size b + b_size b2) true :: r) /\
      (forall x, ~ (a <= x < a + HEADER) -> m' x = m x)
  else exec (coalesce_round a) (mk_heap m hd) = (Val (inl (a + b_size b)), mk_heap m hd).
Proof.
  intros Hrep Ha. simpl in Hrep.
  destruct Hrep as (Hmin & Hal & [Hs Hf Hm Hn] & Hmin2 & Hal2 & [Hs2 Hf2 Hm2 Hn2] & Hr).
  pose proof (hrep_bounds _ _ _ Hr) as Hb. cbn [next_of] in Hn.
  unfold coalesce_round. rewrite (proj2 (Z.eqb_neq a 0)) by (heap_consts; lia).
  unfold block_next, block_is_free, block_size. run. cbn [hmem].
  rewrite Hn, (proj2 (Z.eqb_neq (a + b_size b) 0)) by (heap_consts; lia).
  rewrite Hf, Hf2, Hs, !free_word_test. run. cbn [hmem].
  destruct (b_free b && b_free b2) eqn:E; [|done].
  rewrite (u32_small (a + b_size b)) by (unfold is_u32; heap_consts; lia).
  rewrite Z.eqb_refl. unfold set_size, set_next, poke. run. cbn [hmem heap_head].
  rewrite Hs2, (u32_small (b_size b + b_size b2)) by (unfold is_u32; heap_consts; lia).
  rewrite load_store_other by (heap_consts; lia). rewrite Hn2.
  assert (is_u32 (next_of (a + b_size b) b2 r)) as Hnx by (rewrite <- Hn2; apply load32_range).
  apply andb_true_iff in E as [Eb Eb2]. rewrite Eb in Hf.
  eexists. split; [done|]. split; [|intros x Hx; by bytes].
  cbn [hrep]. split_and!; cbn [b_size b_free].
  - heap_consts; lia.
  - by rewrite Zplus_mod, Hal, Hal2.
  - split; cbn [b_size b_free]; loads; [done|done|done|].
    destruct r; cbn [next_of b_size]; [done|lia].
  - replace (a + (b_size b + b_size b2)) with (a + b_size b + b_size b2) by lia.
    eapply hrep_ext; [|exact Hr]. intros. symmetry. by bytes.
Qed.

Lemma coalesce_loop r : forall b m hd a fuel,
  hrep m a (b :: r) -> heap_addr a -> (length r < fuel)%nat ->
  exists m', exec (iterate fuel coalesce_round a) (mk_heap m hd) = (Val tt, mk_heap m' hd) /\
    hrep m' a (acoalesce b r) /\
    (forall x, ~ free_header a (b :: r) x -> m' x = m x).
Proof.
  induction r as [|b2 r IH]; intros b m hd a fuel Hrep Ha Hfuel;
    (destruct fuel as [|fuel]; [simpl in Hfuel; lia|]);
    unfold iterate; fold (@iterate heap Z unit); rewrite exec_bind.
  - rewrite (coalesce_round_last m hd a b Hrep Ha). by exists m.
  - pose proof (coalesce_round_step m hd a b b2 r Hrep Ha) as Hstep.
    cbn [acoalesce]. destruct (b_free b && b_free b2) eqn:E.
    + destruct Hstep as (m1 & -> & Hrep1 & Hx1).
      destruct (IH (mk_block (b_size b + b_size b2) true) m1 hd a fuel Hrep1 Ha)
        as (m' & Hex & Hrep' & Hx); [simpl in Hfuel; lia|].
      exists m'. split_and!; [done|done|]. intros x Hnot.
      apply andb_true_iff in E as [Eb Eb2]. cbn [free_header] in Hnot.
      rewrite Hx; [apply Hx1; tauto|]. cbn [free_header b_free b_size].
      replace (a + (b_size b + b_size b2)) with (a + b_size b + b_size b2) by lia. tauto.
    + rewrite Hstep. cbv iota. pose proof Hrep as Hrep0.
      destruct Hrep as (Hmin & Hal & Hh & Hr).
      assert (heap_addr (a + b_size b)) as Ha2.
      { apply hrep_bounds in Hr. heap_consts. lia. }
      destruct (IH b2 m hd (a + b_size b) fuel Hr Ha2) as (m' & Hex & Hrep' & Hx);
        [simpl in Hfuel; lia|].
      exists m'. split_and!; [done| |].
      * apply (hrep_replace m m' a [b] (b2 :: r) (acoalesce b2 r) Hrep0); [exact Hrep'| |].
        -- split; [done|]. intros Hnil. exfalso. rewrite Hnil in Hrep'. simpl in Hrep'.
           apply hrep_bounds in Hr. simpl in Hr. heap_consts. lia.
        -- simpl. intros x Hlt. symmetry. apply Hx. intros Hfh.
           apply (free_header_ge m _ _ _ Hr) in Hfh. lia.
      * intros x Hnot. apply Hx. cbn [free_header] in Hnot |- *. tauto.
Qed.

Lemma acoalesce_head r : forall b,
  exists b' r', acoalesce b r = b' :: r' /\ b_free b' = b_free b.
Proof.
  induction r as [|b2 r IH]; intros b; cbn [acoalesce]; [by eexists _, _|].
  destruct (b_free b && b_free b2) eqn:E; [|by eexists _, _].
  destruct (IH (mk_block (b_size b + b_size b2) true)) as (b4 & r4 & E4 & Hf4).
  exists b4, r4. split; [done|]. rewrite Hf4. apply andb_true_iff in E as [-> _]. done.
Qed.

Lemma acoalesce_coalesced r : forall b, coalesced (acoalesce b r).
Proof.
  induction r as [|b2 r IH]; intros b; cbn [acoalesce].
  { simpl. by rewrite andb_false_r. }
  destruct (b_free b && b_free b2) eqn:E; [apply IH|].
  specialize (IH b2). destruct (acoalesce_head r b2) as (b3 & r3 & E3 & Hf).
  rewrite E3 in *. split; [|exact IH]. cbn [head_free]. by rewrite Hf.
Qed.

(** On a heap without neighbouring free blocks, merging changes nothing. *)
Lemma acoalesce_id r : forall b, coalesced (b :: r) -> acoalesce b r = b :: r.
Proof.
  induction r as [|b2 r IH]; intros b Hc; cbn [acoalesce]; [done|].
  destruct Hc as [Hn Hc]. simpl head_free in Hn. by rewrite Hn, IH.
Qed.

(** ** What the abstract operations do to the blocks *)

Lemma amalloc_blocks total a bs p bs' :
  amalloc total a bs = Some (p, bs') ->
  (exists n, block_at a bs' p (mk_block n false) /\ total <= n) /\
  (forall q b, b_free b = false -> block_at a bs q b -> block_at a bs' q b) /\
  (forall q b, b_free b = false -> block_at a bs' q b -> q = p \/ block_at a bs q b).
Proof.
  revert a p bs'. induction bs as [|b0 r IH]; intros a p bs'; cbn [amalloc]; [done|].
  destruct (b_free b0 && (total <=? b_size b0)) eqn:E.
  - apply andb_true_iff in E as [Eb Ele]. apply Z.leb_le in Ele. intros [= <- <-].
    destruct (total + MIN_BLOCK_SIZE <=? b_size b0); split_and!; cbn [block_at b_size b_free].
    + exists total. split; [by left|lia].
    + intros q b Hb [[-> ->]|Hat]; [congruence|]. right. right.
      by replace (a + total + (b_size b0 - total)) with (a + b_size b0) by lia.
    + intros q b Hb [[-> _]|[[-> ->]|Hat]]; [by left|done|]. right. right.
      by replace (a + total + (b_size b0 - total)) with (a + b_size b0) in Hat by lia.
    + exists (b_size b0). split; [by left|done].
    + intros q b Hb [[-> ->]|Hat]; [congruence|by right].
    + intros q b Hb [[-> _]|Hat]; [by left|by right; right].
  - destruct (amalloc total (a + b_size b0) r) as [[p0 r']|] eqn:Er; [|done].
    simpl. intros [= <- <-]. destruct (IH _ _ _ Er) as ((n & Hn & Hle) & H1 & H2).
    split_and!; cbn [block_at].
    + exists n. split; [by right|done].
    + intros q b Hb [[-> ->]|Hat]; [by left|right; auto].
    + intros q b Hb [[-> ->]|Hat]; [right; by left|].
      destruct (H2 q b Hb Hat) as [->|Hat']; [by left|right; by right].
Qed.

Lemma amalloc_None total a bs :
  amalloc total a bs = None -> forall q b, block_at a bs q b -> b_free b = true -> b_size b < total.
Proof.
  revert a. induction bs as [|b0 r IH]; intros a; cbn [amalloc block_at]; [done|].
  destruct (b_free b0 && (total <=? b_size b0)) eqn:E; [done|].
  destruct (amalloc total (a + b_size b0) r) as [[p0 r']|] eqn:Er; [done|].
  intros _ q b [[-> ->]|Hat] Hb; [|by apply (IH _ Er q)].
  rewrite Hb in E. simpl in E. apply Z.leb_gt in E. lia.
Qed.

Lemma amalloc_coalesced total a bs p bs' :
  amalloc total a bs = Some (p, bs') -> coalesced bs ->
  coalesced bs' /\ bs' <> [] /\ (head_free bs = false -> head_free bs' = false).
Proof.
  revert a p bs'. induction bs as [|b0 r IH]; intros a p bs'; cbn [amalloc]; [done|].
  destruct (b_free b0 && (total <=? b_size b0)) eqn:E.
  - apply andb_true_iff in E as [Eb _]. intros [= <- <-] [Hn Hc]. rewrite Eb in Hn.
    destruct (total + MIN_BLOCK_SIZE <=? b_size b0); cbn [coalesced head_free b_free]; by rewrite ?Hn.
  - destruct (amalloc total (a + b_size b0) r) as [[p0 r']|] eqn:Er; [|done].
    simpl. intros [= <- <-] [Hn Hc]. destruct (IH _ _ _ Er Hc) as (Hc' & _ & Hh).
    split_and!; [split; [|done]|done|done]. destruct (b_free b0); [|done]. simpl in *. auto.
Qed.

(** Merging keeps the allocated blocks where they are, and makes no new ones. *)
Lemma acoalesce_blocks r : forall b a q b',
  b_free b' = false -> block_at a (acoalesce b r) q b' <-> block_at a (b :: r) q b'.
Proof.
  induction r as [|b2 r IH]; intros b a q b' Hb'; cbn [acoalesce]; [done|].
  destruct (b_free b && b_free b2) eqn:E.
  - apply andb_true_iff in E as [Eb Eb2]. rewrite IH by done. cbn [block_at b_size].
    replace (a + (b_size b + b_size b2)) with (a + b_size b + b_size b2) by lia.
    split; [intros [[_ ->]|H]; [done|tauto]|].
    intros [[_ ->]|[[_ ->]|H]]; [congruence|congruence|by right].
  - cbn [block_at]. by rewrite IH by done.
Qed.

(** The heap [bs] with the block at [p] marked free. *)
Fixpoint mark_free (a : Z) (bs : list block) (p : Z) : list block :=
  match bs with
  | [] => []
  | b :: r => if p =? a then mk_block (b_size b) true :: r else b :: mark_free (a + b_size b) r p
  end.

Definition afree (a : Z) (bs : list block) (p : Z) : list block := acoalesce_all (mark_free a bs p).

Lemma mark_free_blocks m a bs p b0 : hrep m a bs -> block_at a bs p b0 -> forall q b,
  b_free b = false -> block_at a (mark_free a bs p) q b <-> q <> p /\ block_at a bs q b.
Proof.
  revert a. induction bs as [|b1 r IH]; intros a; [done|].
  intros (H1 & _ & _ & H2) Hat q b Hb. cbn [mark_free].
  assert (forall b', block_at (a + b_size b1) r a b' -> False) as Hno.
  { intros b' Hat'. apply (block_at_ge m _ _ _ _ H2) in Hat'. heap_consts. lia. }
  destruct (Z.eqb_spec p a) as [->|Hne]; cbn [block_at b_size].
  - split.
    + intros [[_ ->]|H]; [done|]. split; [|by right]. intros ->. by apply (Hno b).
    + intros [Hne [[-> _]|H]]; [done|by right].
  - destruct Hat as [[-> _]|Hat]; [done|]. rewrite (IH _ H2 Hat q b Hb). split.
    + intros [[-> ->]|[? ?]]; [split; [done|by left]|split; [done|by right]].
    + intros [? [[-> ->]|?]]; [by left|by right].
Qed.

Lemma afree_blocks m a bs p b0 : hrep m a bs -> block_at a bs p b0 -> forall q b,
  b_free b = false -> block_at a (afree a bs p) q b <-> q <> p /\ block_at a bs q b.
Proof.
  intros Hr Hat q b Hb. rewrite <- (mark_free_blocks _ _ _ _ _ Hr Hat) by done.
  unfold afree. destruct (mark_free a bs p); [done|]. by apply acoalesce_blocks.
Qed.

Lemma mark_free_rep m m' a bs p b0 :
  hrep m a bs -> block_at a bs p b0 ->
  (forall x, m' x = store32 m (p + 4) 1 x) -> hrep m' a (mark_free a bs p).
Proof.
  revert a. induction bs as [|b1 r IH]; intros a; [done|].
  intros (H1 & H4 & Hh & H2) Hat Hx. cbn [mark_free].
  destruct (Z.eqb_spec p a) as [->|Hne]; cbn [hrep b_size].
  - split_and!; [done|done| |].
    + apply (header_ext (store32 m (a + 4) 1)); [intros; symmetry; apply Hx|].
      destruct Hh as [Hs Hf Hm Hn]. split; cbn [b_size b_free]; loads; [done..|].
      rewrite Hn. by destruct r.
    + eapply hrep_ext; [|exact H2]. intros x Hge. rewrite Hx. symmetry. by bytes.
  - destruct Hat as [[-> _]|Hat]; [done|].
    pose proof (block_at_ge m _ _ _ _ H2 Hat) as (Hge & _ & _).
    split_and!; [done|done| |by apply IH].
    assert (next_of a b1 (mark_free (a + b_size b1) r p) = next_of a b1 r) as ->.
    { destruct r; [done|]. cbn [mark_free]. by destruct (p =? _). }
    eapply header_ext; [|exact Hh]. intros x Hx'. rewrite Hx. symmetry. by bytes.
Qed.

(** ** The operations on a well-formed heap *)

(** The block size [kmalloc] looks for. *)
Definition total_of (size : Z) : Z := Z.max MIN_BLOCK_SIZE (4 * ((size + 3) / 4) + HEADER).

Lemma align_size_eq size : 0 <= size -> size + 3 < 4294967296 ->
  align_size size = 4 * ((size + 3) / 4).
Proof.
  intros. unfold align_size. rewrite u32_small by (unfold is_u32; lia).
  change 3 with (Z.ones 2) at 2. rewrite <- Z.ldiff_land, Z.ldiff_ones_r by lia.
  rewrite Z.shiftl_mul_pow2, Z.shiftr_div_pow2 by lia. change (2 ^ 2) with 4. lia.
Qed.

Lemma total_of_facts size : 0 < size ->
  MIN_BLOCK_SIZE <= total_of size /\ total_of size mod 4 = 0 /\ size + HEADER <= total_of size.
Proof. unfold total_of. heap_consts. intros. dlia. Qed.

Lemma heap_fuel_enough h bs : heap_wf h bs -> (length bs < heap_fuel)%nat.
Proof.
  intros [_ Hr _ _]. apply hrep_bounds in Hr. unfold heap_fuel. heap_consts. lia.
Qed.

Lemma kmalloc_exec h bs size :
  heap_wf h bs -> 0 < size <= 4294967276 ->
  match amalloc (total_of size) HEAP_START bs with
  | None => exec (kmalloc size) h = (Val 0, h)
  | Some (p, bs') =>
      exists h' b, block_at HEAP_START bs p b /\ b_free b = true /\ total_of size <= b_size b /\
        exec (kmalloc size) h = (Val (p + HEADER), h') /\ heap_wf h' bs' /\
        (forall x, ~ (p <= x < p + b_size b) -> hmem h' x = hmem h x)
  end.
Proof.
  intros Hwf Hs. pose proof (heap_fuel_enough _ _ Hwf) as Hfuel.
  destruct h as [m hd], Hwf as [Hhd Hr Hc Hne]. cbn [hmem heap_head] in *.
  unfold kmalloc. rewrite (proj2 (Z.eqb_neq size 0)), align_size_eq by lia.
  rewrite u32_small by (unfold is_u32; heap_consts; dlia).
  destruct (total_of_facts size) as (H1 & H2 & _); [lia|].
  assert ((if 4 * ((size + 3) / 4) + HEADER <? MIN_BLOCK_SIZE then MIN_BLOCK_SIZE
           else 4 * ((size + 3) / 4) + HEADER) = total_of size) as E.
  { unfold total_of. destruct (Z.ltb_spec (4 * ((size + 3) / 4) + HEADER) MIN_BLOCK_SIZE); lia. }
  cbv zeta. rewrite E, exec_bind, exec_gets. cbn [heap_head]. rewrite Hhd.
  pose proof (kmalloc_loop bs m HEAP_START HEAP_START _ _ Hr Hne ltac:(heap_consts; lia) H1 H2 Hfuel) as HL.
  destruct (amalloc _ HEAP_START bs) as [[p bs']|] eqn:Ea; [|by rewrite HL].
  destruct HL as (m' & b & Hat & Hb & Hle & -> & Hr' & Hx).
  destruct (amalloc_coalesced _ _ _ _ _ Ea Hc) as (Hc' & Hne' & _).
  exists (mk_heap m' HEAP_START), b. by split_and!.
Qed.

Lemma free_header_alloc m a bs x q b :
  hrep m a bs -> block_at a bs q b -> b_free b = false -> q <= x < q + b_size b -> ~ free_header a bs x.
Proof.
  revert a. induction bs as [|b0 r IH]; intros a; simpl; [done|].
  intros (H1 & _ & _ & H2) Hat Hb Hx [[Hf Hlt]|Hfh].
  - destruct Hat as [[-> ->]|Hat]; [congruence|].
    apply (block_at_ge m _ _ _ _ H2) in Hat. heap_consts. lia.
  - destruct Hat as [[-> ->]|Hat]; [|by apply (IH _ H2 Hat Hb Hx)].
    apply (free_header_ge m _ _ _ H2) in Hfh. lia.
Qed.

Lemma mark_free_nil a bs p : mark_free a bs p = [] -> bs = [].
Proof. destruct bs; [done|]. simpl. by destruct (p =? a). Qed.

Lemma mark_free_length a bs p : length (mark_free a bs p) = length bs.
Proof.
  revert a. induction bs as [|b r IH]; intros a; [done|]. simpl.
  destruct (p =? a); simpl; [done|]. by rewrite IH.
Qed.

Lemma kfree_exec h bs p b :
  heap_wf h bs -> block_at HEAP_START bs p b -> b_free b = false ->
  exists h', exec (kfree (p + HEADER)) h = (Val tt, h') /\ heap_wf h' (afree HEAP_START bs p) /\
    (forall q b', q <> p -> b_free b' = false -> block_at HEAP_START bs q b' ->
       forall x, q <= x < q + b_size b' -> hmem h' x = hmem h x).
Proof.
  intros Hwf Hat Hb. pose proof (heap_fuel_enough _ _ Hwf) as Hfuel.
  destruct h as [m hd], Hwf as [Hhd Hr Hc Hne]. cbn [hmem heap_head] in *. subst hd.
  destruct (hrep_header _ _ _ _ _ Hr Hat) as (nx & [Hs Hf Hm Hn] & _).
  pose proof (block_at_ge _ _ _ _ _ Hr Hat) as (Hge & Hle & Hmin).
  rewrite (hrep_end _ _ _ Hr) in Hle.
  pose proof (mark_free_rep m (store32 m (p + 4) 1) _ _ p b Hr Hat ltac:(done)) as Hr1.
  pose proof (mark_free_blocks m _ _ p b Hr Hat) as Hblk.
  unfold afree. destruct (mark_free HEAP_START bs p) as [|b1 r1] eqn:Em.
  { by apply mark_free_nil in Em. }
  destruct (coalesce_loop r1 b1 (store32 m (p + 4) 1) HEAP_START HEAP_START heap_fuel Hr1)
    as (m' & Hex & Hr' & Hx); [heap_consts; lia| |].
  { rewrite <- (mark_free_length HEAP_START bs p), Em in Hfuel. simpl in Hfuel. lia. }
  exists (mk_heap m' HEAP_START). split_and!.
  - unfold kfree. rewrite (proj2 (Z.eqb_neq _ 0)) by (heap_consts; lia).
    replace (p + HEADER - HEADER) with p by lia.
    rewrite u32_small by (unfold is_u32; heap_consts; lia). cbv zeta.
    unfold block_magic, block_is_free, set_is_free, poke, coalesce_free_blocks.
    run. cbn [hmem heap_head]. rewrite Hm, Hf, Hb, Z.eqb_refl.
    rewrite (proj2 (Z.ltb_ge p _)), (proj2 (Z.leb_gt _ p)) by (heap_consts; lia).
    cbn. run. exact Hex.
  - split; cbn [hmem heap_head acoalesce_all]; [done|done|apply acoalesce_coalesced|].
    by destruct (acoalesce_head r1 b1) as (? & ? & -> & _).
  - intros q b' Hq Hb' Hat' x Hin. cbn [hmem]. rewrite Hx.
    + destruct (block_at_disjoint _ _ _ _ _ _ _ Hr Hat Hat') as [[? _]|Hd]; [done|].
      by bytes.
    + eapply free_header_alloc; [exact Hr1| |exact Hb'|exact Hin]. apply Hblk; auto.
Qed.

(** Freeing the block an allocation just gave back restores the heap. *)
Lemma acoalesce_split b r t :
  0 < t -> b_free b = true -> coalesced (b :: r) ->
  acoalesce (mk_block t true) (mk_block (b_size b - t) true :: r) = b :: r.
Proof.
  intros _ Hb Hc. cbn [acoalesce b_free b_size andb].
  replace (t + (b_size b - t)) with (b_size b) by lia.
  destruct b as [n f]. simpl in Hb. subst f. by apply acoalesce_id.
Qed.

Lemma amalloc_ge total a bs p bs' m :
  hrep m a bs -> amalloc total a bs = Some (p, bs') -> a <= p.
Proof.
  revert a p bs'. induction bs as [|b r IH]; intros a p bs'; cbn [amalloc]; [done|].
  intros (H1 & _ & _ & H2) Er. destruct (b_free b && (total <=? b_size b)).
  { injection Er. lia. }
  destruct (amalloc total (a + b_size b) r) as [[p1 r1]|] eqn:E1; [|done].
  simpl in Er. injection Er as -> _. specialize (IH _ _ _ H2 E1). heap_consts. lia.
Qed.

Lemma afree_amalloc total a bs p bs' m :
  hrep m a bs -> MIN_BLOCK_SIZE <= total -> coalesced bs ->
  amalloc total a bs = Some (p, bs') -> afree a bs' p = bs.
Proof.
  unfold afree. revert a p bs'.
  induction bs as [|b r IH]; intros a p bs' Hr Ht Hc; cbn [amalloc]; [done|].
  destruct Hr as (H1 & _ & _ & H2). destruct (b_free b && (total <=? b_size b)) eqn:E.
  - apply andb_true_iff in E as [Eb _]. intros [= <- <-].
    destruct (total + MIN_BLOCK_SIZE <=? b_size b); cbn [mark_free]; rewrite Z.eqb_refl;
      cbn [acoalesce_all b_size].
    + apply acoalesce_split; [heap_consts; lia|done|done].
    + destruct b as [n f]. simpl in Eb. subst f. by apply acoalesce_id.
  - destruct (amalloc total (a + b_size b) r) as [[p0 r']|] eqn:Er; [|done].
    simpl. intros [= <- <-]. destruct Hc as [Hn Hc]. cbn [mark_free].
    specialize (IH _ _ _ H2 Ht Hc Er).
    pose proof (amalloc_ge _ _ _ _ _ m H2 Er) as Hge.
    destruct (Z.eqb_spec p0 a) as [->|_]; [heap_consts; lia|]. cbn [acoalesce_all].
    destruct (mark_free (a + b_size b) r' p0) as [|b1 r1] eqn:Em.
    { simpl in IH. by subst r. }
    cbn [acoalesce_all acoalesce] in IH |- *.
    destruct (acoalesce_head r1 b1) as (b2 & r2 & E2 & Hf2). rewrite E2 in IH. subst r.
    cbn [head_free] in Hn. rewrite Hf2 in Hn. rewrite Hn. by rewrite E2.
Qed.

(** ** The statistics *)

Definition fold_blocks (f : Z -> Z -> Z -> Z) (bs : list block) (acc : Z) : Z :=
  foldl (fun acc b => u32 (f (free_word (b_free b)) (b_size b) acc)) acc bs.

Lemma walk_loop f bs : forall m hd a acc fuel,
  hrep m a bs -> bs <> [] -> heap_addr a -> (length bs < fuel)%nat ->
  exec (iterate fuel (walk_round f) (a, acc)) (mk_heap m hd) =
  (Val (fold_blocks f bs acc), mk_heap m hd).
Proof.
  induction bs as [|b r IH]; intros m hd a acc fuel Hr Hne Ha Hfuel; [done|].
  destruct fuel as [|fuel]; [simpl in Hfuel; lia|].
  unfold iterate; fold (@iterate heap (Z * Z) Z). rewrite exec_bind.
  destruct Hr as (H1 & _ & [Hs Hf Hm Hn] & H2). unfold walk_round at 1.
  rewrite (proj2 (Z.eqb_neq a 0)) by (heap_consts; lia).
  unfold block_is_free, block_size, block_next. run. cbn [hmem]. rewrite Hs, Hf, Hn.
  destruct r as [|b2 r].
  - destruct fuel as [|fuel]; [simpl in Hfuel; lia|]. reflexivity.
  - cbn [next_of]. rewrite IH; [done|done|done| |simpl in *; lia].
    apply hrep_bounds in H2. heap_consts. lia.
Qed.

Lemma walk_exec f h bs : heap_wf h bs -> exec (walk f) h = (Val (fold_blocks f bs 0), h).
Proof.
  intros Hwf. pose proof (heap_fuel_enough _ _ Hwf) as Hfuel. destruct h as [m hd], Hwf as [Hhd Hr _ Hne].
  unfold walk. rewrite exec_bind, exec_gets, Hhd. apply walk_loop; [done|done| |done].
  heap_consts; lia.
Qed.

Definition sum_sizes (keep : bool -> bool) (bs : list block) : Z :=
  foldr (fun b acc => (if keep (b_free b) then b_size b else 0) + acc) 0 bs.

Lemma sum_sizes_bounds m a bs keep : hrep m a bs -> 0 <= sum_sizes keep bs <= HEAP_END - a.
Proof.
  revert a. induction bs as [|b r IH]; intros a; simpl; [lia|].
  intros (H1 & _ & _ & H2). specialize (IH _ H2). heap_consts. destruct (keep (b_free b)); lia.
Qed.

Lemma sum_sizes_split m a bs : hrep m a bs ->
  sum_sizes negb bs + sum_sizes (fun f => f) bs = HEAP_END - a.
Proof.
  revert a. induction bs as [|b r IH]; intros a; simpl; [lia|].
  intros (H1 & _ & _ & H2). specialize (IH _ H2). destruct (b_free b); simpl; lia.
Qed.

Lemma fold_blocks_sum (f : Z -> Z -> Z -> Z) (keep : bool -> bool) bs : forall m a acc,
  (forall fr size acc, f (free_word fr) size acc = (if keep fr then acc + size else acc)) ->
  hrep m a bs -> heap_addr a -> 0 <= acc <= a ->
  fold_blocks f bs acc = acc + sum_sizes keep bs.
Proof.
  induction bs as [|b r IH]; intros m a acc Hf Hr Ha Hacc; simpl; [lia|].
  destruct Hr as (H1 & _ & _ & H2). pose proof (hrep_bounds _ _ _ H2) as Hb.
  unfold fold_blocks in *. simpl. rewrite Hf.
  destruct (keep (b_free b)); (rewrite u32_small by (unfold is_u32; heap_consts; lia));
    rewrite (IH m (a + b_size b)); (done || heap_consts; lia).
Qed.

Lemma used_free_exec h bs : heap_wf h bs ->
  exec heap_get_used_size h = (Val (sum_sizes negb bs), h) /\
  exec heap_get_free_size h = (Val (sum_sizes (fun f => f) bs), h).
Proof.
  intros Hwf. unfold heap_get_used_size, heap_get_free_size. rewrite !(walk_exec _ h bs Hwf).
  destruct Hwf as [_ Hr _ _].
  rewrite (fold_blocks_sum _ negb bs (hmem h) HEAP_START), (fold_blocks_sum _ (fun f : bool => f) bs (hmem h) HEAP_START);
    try done; try (heap_consts; lia); by intros [] ? ?.
Qed.

Lemma heap_init_exec h : exists h', exec heap_init h = (Val tt, h') /\
  heap_wf h' [mk_block HEAP_SIZE true].
Proof.
  unfold heap_init, set_size, set_is_free, set_magic, set_next, poke, screen_write_color,
    screen_write, kprintf. run. eexists. split; [done|].
  split; cbn [hmem heap_head]; [done| |done|done].
  cbn [hrep]. split_and!; [heap_consts; cbn [b_size]; lia|done| |done].
  split; cbn [b_size b_free next_of free_word]; loads; done.
Qed.

(** ** krealloc and kcalloc *)

(** Writing to the contents of an allocated block leaves the heap's structure. *)
Lemma hrep_headers m m' a bs :
  hrep m a bs ->
  (forall q b x, block_at a bs q b -> q <= x < q + HEADER -> m x = m' x) -> hrep m' a bs.
Proof.
  revert a. induction bs as [|b r IH]; intros a; simpl; [done|].
  intros (H1 & H2 & H3 & H4) Hx. split_and!; [done|done| |].
  - eapply header_ext; [|exact H3]. intros. eapply Hx; [|done]. by left.
  - apply IH; [done|]. intros. eapply Hx; [|done]. by right.
Qed.

Lemma heap_wf_write h bs m' q b :
  heap_wf h bs -> block_at HEAP_START bs q b ->
  (forall x, ~ (q + HEADER <= x < q + b_size b) -> m' x = hmem h x) ->
  heap_wf (mk_heap m' (heap_head h)) bs.
Proof.
  intros [Hhd Hr Hc Hne] Hat Hx. split; cbn [hmem heap_head]; [done| |done|done].
  eapply hrep_headers; [exact Hr|]. intros q' b' x Hat' Hin. symmetry. apply Hx.
  pose proof (block_at_ge _ _ _ _ _ Hr Hat') as (_ & _ & Hm').
  destruct (block_at_disjoint _ _ _ _ _ _ _ Hr Hat Hat') as [[-> ->]|Hd]; heap_consts; lia.
Qed.

(** Past its guards, [krealloc] allocates, copies the old contents and frees. *)
Lemma krealloc_grows h bs p b new_size :
  heap_wf h bs -> block_at HEAP_START bs p b -> b_size b - HEADER < new_size ->
  exec (krealloc (p + HEADER) new_size) h =
  exec (let! new_ptr := kmalloc new_size in
        if new_ptr =? 0 then ret 0 else
        modify (fun h => mk_heap (copy_bytes (Z.to_nat (b_size b - HEADER)) (hmem h) new_ptr (p + HEADER))
                  (heap_head h)) ;;
        kfree (p + HEADER) ;; ret new_ptr) h.
Proof.
  intros [Hhd Hr _ _] Hat Hs.
  destruct (hrep_header _ _ _ _ _ Hr Hat) as (nx & [Hsz Hf Hm Hn] & _).
  pose proof (block_at_ge _ _ _ _ _ Hr Hat) as (Hge & Hle & Hmin). rewrite (hrep_end _ _ _ Hr) in Hle.
  unfold krealloc. rewrite (proj2 (Z.eqb_neq _ 0)) by (heap_consts; lia).
  rewrite (proj2 (Z.eqb_neq new_size 0)) by (heap_consts; lia).
  replace (p + HEADER - HEADER) with p by lia.
  rewrite u32_small by (unfold is_u32; heap_consts; lia). cbv zeta.
  unfold block_magic, block_size. rewrite exec_bind, exec_gets, Hm, Z.eqb_refl. cbn [negb].
  rewrite exec_bind, exec_gets, Hsz.
  rewrite u32_small by (unfold is_u32; heap_consts; lia).
  by rewrite (proj2 (Z.leb_gt new_size _)) by lia.
Qed.

(** ** The theorems *)

(** A heap right after initialisation, and one with one block of 100 bytes. *)
Definition heap0 : heap := snd (exec heap_init (mk_heap (fun _ => 0) 0)).
Definition heap1 : heap := snd (exec (kmalloc 100) heap0).
Definition blocks1 : list block := [mk_block 116 false; mk_block 4194188 true].

Lemma heap0_wf : heap_wf heap0 [mk_block HEAP_SIZE true].
Proof.
  unfold heap0. destruct (heap_init_exec (mk_heap (fun _ => 0) 0)) as (h' & -> & H). exact H.
Qed.

Lemma heap1_wf : heap_wf heap1 blocks1.
Proof.
  pose proof (kmalloc_exec heap0 _ 100 heap0_wf ltac:(lia)) as H.
  cbv [amalloc b_free b_size] in H. change (total_of 100) with 116 in H.
  destruct H as (h' & b & _ & _ & _ & E & Hwf & _).
  unfold heap1. rewrite E. exact Hwf.
Qed.

(** C1: [kmalloc] on a well-formed heap, for every size whose block size fits
    in 32 bits.  It returns NULL exactly when no free block is large enough, and
    then changes nothing; otherwise the pointer is 4-byte aligned, it is the
    contents of a block of the new heap that is large enough, the new heap is
    well formed, and every block that was allocated before is still there,
    does not overlap the new one and has the same bytes. *)
Theorem kmalloc_spec h bs size :
  heap_wf h bs -> 0 < size <= 4294967276 ->
  exists r h', exec (kmalloc size) h = (Val r, h') /\
  if r =? 0 then
    h' = h /\ (forall q b, block_at HEAP_START bs q b -> b_free b = true -> b_size b < total_of size)
  else
    r mod 4 = 0 /\
    exists bs' n, heap_wf h' bs' /\ size + HEADER <= n /\
      block_at HEAP_START bs' (r - HEADER) (mk_block n false) /\
      (forall q b, b_free b = false -> block_at HEAP_START bs q b ->
         block_at HEAP_START bs' q b /\
         (q + b_size b <= r - HEADER \/ r - HEADER + n <= q) /\
         (forall x, q <= x < q + b_size b -> hmem h' x = hmem h x)).
Proof.
  intros Hwf Hs. pose proof (kmalloc_exec h bs size Hwf Hs) as Hk.
  destruct (amalloc _ HEAP_START bs) as [[p bs']|] eqn:Ea.
  - destruct Hk as (h' & b & Hat & Hb & Hle & -> & Hwf' & Hx).
    pose proof Hwf as [_ Hr _ _]. pose proof Hwf' as [_ Hr' _ _].
    destruct (amalloc_blocks _ _ _ _ _ Ea) as ((n & Hat' & Hn) & Hkeep & _).
    pose proof (amalloc_ge _ _ _ _ _ _ Hr Ea).
    pose proof (total_of_facts size ltac:(lia)) as (_ & _ & Htot).
    exists (p + HEADER), h'. split; [done|].
    rewrite (proj2 (Z.eqb_neq _ 0)) by (heap_consts; lia).
    replace (p + HEADER - HEADER) with p by lia. split.
    { pose proof (hrep_aligned _ _ _ _ _ Hr ltac:(done) Hat). heap_consts. dlia. }
    exists bs', n. split_and!; [done|lia|done|]. intros q bq Hbq Hatq.
    pose proof (Hkeep _ _ Hbq Hatq) as Hatq'.
    assert (q <> p) as Hqp.
    { intros ->. destruct (block_at_disjoint _ _ _ _ _ _ _ Hr Hat Hatq) as [[_ ->]|?];
        [congruence|]. pose proof (block_at_ge _ _ _ _ _ Hr Hat). pose proof (block_at_ge _ _ _ _ _ Hr Hatq). heap_consts; lia. }
    split_and!; [done| |].
    + destruct (block_at_disjoint _ _ _ _ _ _ _ Hr' Hatq' Hat') as [[? _]|?]; done.
    + intros x Hin. apply Hx.
      destruct (block_at_disjoint _ _ _ _ _ _ _ Hr Hat Hatq) as [[? _]|?]; [congruence|lia].
  - exists 0, h. split; [done|]. split; [done|]. by apply amalloc_None.
Qed.

Lemma kmalloc_spec_witness :
  heap_wf heap1 blocks1 /\ exists r h', exec (kmalloc 4096) heap1 = (Val r, h').
Proof.
  split; [exact heap1_wf|].
  destruct (kmalloc_spec heap1 blocks1 4096 heap1_wf ltac:(lia)) as (r & h' & E & _).
  exists r, h'. exact E.
Defined.

(** C20: [kfree] of an allocated block returns, the heap stays well formed (no
    two neighbouring free blocks, headers intact), exactly that block leaves
    the allocated ones, and no byte of another allocated block changes. *)
Theorem kfree_spec h bs p b :
  heap_wf h bs -> block_at HEAP_START bs p b -> b_free b = false ->
  exists h' bs', exec (kfree (p + HEADER)) h = (Val tt, h') /\ heap_wf h' bs' /\
    (forall q b', b_free b' = false ->
       block_at HEAP_START bs' q b' <-> q <> p /\ block_at HEAP_START bs q b') /\
    (forall q b', q <> p -> b_free b' = false -> block_at HEAP_START bs q b' ->
       forall x, q <= x < q + b_size b' -> hmem h' x = hmem h x).
Proof.
  intros Hwf Hat Hb. destruct (kfree_exec h bs p b Hwf Hat Hb) as (h' & E & Hwf' & Hx).
  exists h', (afree HEAP_START bs p). split_and!; [done|done| |done].
  destruct Hwf as [_ Hr _ _]. by apply (afree_blocks _ _ _ _ _ Hr Hat).
Qed.

Lemma kfree_spec_witness :
  block_at HEAP_START blocks1 HEAP_START (mk_block 116 false) /\
  exists h' bs', exec (kfree (HEAP_START + HEADER)) heap1 = (Val tt, h') /\ heap_wf h' bs'.
Proof.
  split; [by left|].
  destruct (kfree_spec heap1 blocks1 HEAP_START (mk_block 116 false) heap1_wf
    ltac:(by left) ltac:(done)) as (h' & bs' & E & Hwf & _).
  exists h', bs'. split; [exact E|exact Hwf].
Defined.

(** C21: an allocation followed by the release of its block gives back the heap
    as it was, block for block: splitting and merging are inverse. *)
Theorem kmalloc_kfree_restores h bs size r h1 :
  heap_wf h bs -> 0 < size <= 4294967276 -> exec (kmalloc size) h = (Val r, h1) -> r <> 0 ->
  exists h2, exec (kfree r) h1 = (Val tt, h2) /\ heap_wf h2 bs.
Proof.
  intros Hwf Hs E Hr0. pose proof (kmalloc_exec h bs size Hwf Hs) as Hk.
  destruct (amalloc _ HEAP_START bs) as [[p bs']|] eqn:Ea; [|congruence].
  destruct Hk as (h1' & b & _ & _ & _ & E' & Hwf' & _).
  rewrite E in E'. injection E' as -> ->.
  destruct (amalloc_blocks _ _ _ _ _ Ea) as ((n & Hat & _) & _ & _).
  destruct (kfree_exec h1' bs' p _ Hwf' Hat ltac:(done)) as (h2 & E2 & Hwf2 & _).
  exists h2. split; [done|]. destruct Hwf as [_ Hr Hc _].
  pose proof (total_of_facts size ltac:(lia)) as (Hm & _ & _).
  by rewrite (afree_amalloc _ _ _ _ _ _ Hr Hm Hc Ea) in Hwf2.
Qed.

Lemma kmalloc_kfree_restores_witness :
  exists h1 h2, exec (kmalloc 100) heap0 = (Val (HEAP_START + HEADER), h1) /\
    exec (kfree (HEAP_START + HEADER)) h1 = (Val tt, h2) /\ heap_wf h2 [mk_block HEAP_SIZE true].
Proof.
  assert (exists h1, exec (kmalloc 100) heap0 = (Val (HEAP_START + HEADER), h1)) as (h1 & E).
  { pose proof (kmalloc_exec heap0 _ 100 heap0_wf ltac:(lia)) as H.
    cbv [amalloc b_free b_size] in H. change (total_of 100) with 116 in H.
    destruct H as (h' & b & _ & _ & _ & E & _). exists h'. exact E. }
  destruct (kmalloc_kfree_restores heap0 _ 100 _ h1 heap0_wf ltac:(lia) E ltac:(done)) as (h2 & E2 & H).
  exists h1, h2. split_and!; [exact E|exact E2|exact H].
Defined.

(** the used and the free size the heap reports always add up to the whole
    heap, and reporting them changes nothing. *)
Theorem heap_accounting h bs :
  heap_wf h bs ->
  exists used free, exec heap_get_used_size h = (Val used, h) /\
    exec heap_get_free_size h = (Val free, h) /\
    exec heap_get_total_size h = (Val (used + free), h).
Proof.
  intros Hwf. destruct (used_free_exec h bs Hwf) as [E1 E2].
  exists (sum_sizes negb bs), (sum_sizes (fun f => f) bs). split_and!; [done|done|].
  destruct Hwf as [_ Hr _ _]. rewrite (sum_sizes_split _ _ _ Hr).
  reflexivity.
Qed.

Lemma heap_accounting_witness : exists used free,
  exec heap_get_used_size heap1 = (Val used, heap1) /\
  exec heap_get_free_size heap1 = (Val free, heap1) /\ used + free = HEAP_SIZE.
Proof.
  destruct (heap_accounting heap1 blocks1 heap1_wf) as (used & free & E1 & E2 & E3).
  exists used, free. split_and!; [exact E1|exact E2|].
  unfold heap_get_total_size in E3. rewrite exec_ret in E3. revert E3. generalize heap1. congruence.
Defined.

(** a second [kfree] of a block is detected: the heap does not change. *)
Theorem kfree_double_free h bs p b :
  heap_wf h bs -> block_at HEAP_START bs p b -> b_free b = true ->
  exec (kfree (p + HEADER)) h = (Val tt, h).
Proof.
  intros [Hhd Hr _ _] Hat Hb.
  destruct (hrep_header _ _ _ _ _ Hr Hat) as (nx & [Hs Hf Hm Hn] & _).
  pose proof (block_at_ge _ _ _ _ _ Hr Hat) as (Hge & Hle & Hmin).
  rewrite (hrep_end _ _ _ Hr) in Hle.
  unfold kfree. rewrite (proj2 (Z.eqb_neq _ 0)) by (heap_consts; lia).
  replace (p + HEADER - HEADER) with p by lia.
  rewrite u32_small by (unfold is_u32; heap_consts; lia). cbv zeta.
  unfold block_magic, block_is_free, kprintf_color. run. rewrite Hm, Hf, Hb, Z.eqb_refl.
  rewrite (proj2 (Z.ltb_ge p _)), (proj2 (Z.leb_gt _ p)) by (heap_consts; lia). cbn. by run.
Qed.

Lemma kfree_double_free_witness : exec (kfree (HEAP_START + HEADER)) heap0 = (Val tt, heap0).
Proof.
  apply (kfree_double_free heap0 [mk_block HEAP_SIZE true] HEAP_START (mk_block HEAP_SIZE true)).
  - exact heap0_wf.
  - by left.
  - reflexivity.
Defined.

(** C22: [krealloc] of an allocated block to a larger size either fails and
    changes nothing, or returns a block that is large enough and starts with
    the bytes of the old one; the old block is free, every other allocated
    block stays. *)
Theorem krealloc_spec h bs p b new_size :
  heap_wf h bs -> block_at HEAP_START bs p b -> b_free b = false ->
  b_size b - HEADER < new_size <= 4294967276 ->
  (exec (krealloc (p + HEADER) new_size) h = (Val 0, h) \/
   exists q h' bs', exec (krealloc (p + HEADER) new_size) h = (Val (q + HEADER), h') /\
     heap_wf h' bs' /\ (exists n, block_at HEAP_START bs' q (mk_block n false) /\ new_size + HEADER <= n) /\
     (forall i, 0 <= i < b_size b - HEADER ->
        hmem h' (q + HEADER + i) = u8 (hmem h (p + HEADER + i))) /\
     (forall q' b', b_free b' = false -> q' <> q ->
        block_at HEAP_START bs' q' b' <-> q' <> p /\ block_at HEAP_START bs q' b')).
Proof.
  intros Hwf Hat Hb Hs. pose proof Hwf as [Hhd Hr Hc Hne].
  pose proof (block_at_ge _ _ _ _ _ Hr Hat) as (Hge & _ & Hmin).
  rewrite (krealloc_grows h bs p b) by (done || lia). run.
  pose proof (kmalloc_exec h bs new_size Hwf ltac:(heap_consts; lia)) as Hk.
  destruct (amalloc _ HEAP_START bs) as [[q bs1]|] eqn:Ea; [right|left; by rewrite Hk].
  destruct Hk as (h1 & b1 & Hat1 & Hb1 & Hle1 & -> & Hwf1 & Hx1).
  pose proof (amalloc_ge _ _ _ _ _ _ Hr Ea) as Hq.
  rewrite (proj2 (Z.eqb_neq _ 0)) by (heap_consts; lia). run.
  destruct (amalloc_blocks _ _ _ _ _ Ea) as ((n & Hat2 & Hn2) & Hkeep & Hold).
  pose proof (total_of_facts new_size ltac:(heap_consts; lia)) as (_ & _ & Htot).
  assert (q <> p) as Hqp. { intros ->. destruct (block_at_disjoint _ _ _ _ _ _ _ Hr Hat Hat1) as [[_ ->]|Hd]; [congruence|heap_consts; lia]. }
  pose proof (Hkeep p b Hb Hat) as Hatp1. pose proof Hwf1 as [_ Hr1 _ _].
  pose proof (block_at_disjoint _ _ _ _ _ _ _ Hr1 Hatp1 Hat2) as Hd. cbn [b_size] in Hd.
  destruct Hd as [[? _]|Hd]; [done|].
  set (m2 := copy_bytes _ _ _ _).
  assert (heap_wf (mk_heap m2 (heap_head h1)) bs1) as Hwf2.
  { eapply (heap_wf_write h1 bs1 m2 q); [done|exact Hat2|]. intros x Hx. cbn [b_size] in Hx.
    unfold m2. rewrite copy_bytes_other; [done|]. heap_consts. lia. }
  destruct (kfree_exec _ _ p b Hwf2 Hatp1 Hb) as (h3 & -> & Hwf3 & Hx3). run.
  exists q, h3, (afree HEAP_START bs1 p). split; [done|]. split; [done|].
  pose proof (afree_blocks _ _ _ _ _ Hr1 Hatp1) as Haf.
  split_and!.
  - exists n. split; [by apply Haf|lia].
  - intros i Hi. rewrite (Hx3 q (mk_block n false)); [|done|done|done|cbn [b_size]; heap_consts; lia].
    cbn [hmem]. unfold m2. rewrite copy_bytes_disjoint by (heap_consts; lia).
    f_equal. apply Hx1.
    destruct (block_at_disjoint _ _ _ _ _ _ _ Hr Hat Hat1) as [[? _]|Hd']; [done|heap_consts; lia].
  - intros q' b' Hb' Hq'. rewrite Haf by done. split; [|intros []; auto].
    intros [? Hat']. destruct (Hold q' b' Hb' Hat') as [->|?]; [done|auto].
Qed.

Lemma krealloc_spec_witness :
  (exec (krealloc (HEAP_START + HEADER) 200) heap1 = (Val 0, heap1)) \/
  (exists q h', exec (krealloc (HEAP_START + HEADER) 200) heap1 = (Val (q + HEADER), h')).
Proof.
  destruct (krealloc_spec heap1 blocks1 HEAP_START (mk_block 116 false) 200 heap1_wf
    ltac:(by left) ltac:(done) ltac:(cbn; heap_consts; lia)) as [H|(q & h' & bs' & E & _)].
  - left. exact H.
  - right. exists q, h'. exact E.
Defined.

(** the sizes that are not covered above: within 19 bytes of 2^32 the
    rounding wraps around, and the call behaves exactly as [kmalloc(1)] - it
    hands out a 32-byte block for a request of almost 4 GB. *)
Theorem kmalloc_size_overflow size :
  4294967276 < size < 4294967296 -> kmalloc size = kmalloc 1.
Proof.
  intros H. unfold kmalloc. rewrite (proj2 (Z.eqb_neq size 0)) by lia.
  change (1 =? 0) with false. cbv iota zeta.
  assert (u32 (align_size size + HEADER) < 32) as Hlt.
  { unfold align_size. destruct (Z.ltb_spec (size + 3) 4294967296) as [Hl|Hl].
    - pose proof (align_size_eq size ltac:(lia) Hl) as E. unfold align_size in E. rewrite E.
      unfold u32. heap_consts. dlia.
    - assert (u32 (size + 3) = size + 3 - 4294967296) as -> by (unfold u32; dlia).
      assert (size + 3 - 4294967296 = 0 \/ size + 3 - 4294967296 = 1 \/ size + 3 - 4294967296 = 2)
        as [-> | [-> | ->]] by lia; vm_compute; done. }
  assert ((u32 (align_size size + HEADER) <? MIN_BLOCK_SIZE) = true) as ->
    by (apply Z.ltb_lt; heap_consts; lia).
  reflexivity.
Qed.

Lemma kmalloc_size_overflow_witness : kmalloc 4294967295 = kmalloc 1.
Proof. apply (kmalloc_size_overflow 4294967295). lia. Defined.
