(* ===== verification/Alloc.v ===== *)
(** * The allocator interface

    What the kernel heap promises to its clients (the RAM disk, the file
    system, the process manager): [kmalloc] and [kfree] as operations on some
    heap state [H], and the laws the clients' theorems rest on.  The laws are
    stated through an abstract view [blocks] of the heap; [take] says whether an
    allocation succeeds, what it returns and which view it leaves. *)

From S2P Require Import Prelude.

Class KmallocOps (H : Type) : Type := {
  kmalloc : Z -> M H Z;
  kfree : Z -> M H unit
}.

(** What the commands of the shell use of the heap besides: loads and stores
    through a pointer to a block, and the reports. *)
Class HeapStats (H : Type) : Type := {
  heap_store : Z -> list Z -> M H unit;
  heap_load : Z -> nat -> M H (list Z);
  heap_get_total_size : M H Z;
  heap_get_used_size : M H Z;
  heap_get_free_size : M H Z;
  heap_get_block_count : M H Z;
  heap_get_free_block_count : M H Z
}.

(** The largest size whose block size does not wrap around. *)
Definition MAX_REQUEST := 4294967276.

Class Allocator (H : Type) `{KmallocOps H} : Type := {
  blocks : Type;
  alloc_rep : H -> blocks -> Prop;
  take_block : Z -> blocks -> option (Z * blocks);
  kmalloc_law h B size :
    alloc_rep h B -> 0 < size <= MAX_REQUEST ->
    match take_block size B with
    | None => exec (kmalloc size) h = (Val 0, h)
    | Some (p, B') => exists h', exec (kmalloc size) h = (Val p, h') /\ alloc_rep h' B' /\ p <> 0
    end;
  kfree_law h0 h B B' p size :
    alloc_rep h0 B -> 0 < size <= MAX_REQUEST ->
    take_block size B = Some (p, B') -> alloc_rep h B' ->
    exists h', exec (kfree p) h = (Val tt, h') /\ alloc_rep h' B
}.

(** The heap has room for [n] more blocks of [size] bytes at the same time. *)
Fixpoint room `{Allocator H} (n : nat) (size : Z) (B : blocks) : Prop :=
  match n with
  | O => True
  | S n' => match take_block size B with None => False | Some (_, B') => room n' size B' end
  end.

(** The view after [n] allocations of [size] bytes. *)
Fixpoint take_blocks `{Allocator H} (n : nat) (size : Z) (B : blocks) : option blocks :=
  match n with
  | O => Some B
  | S n' => match take_block size B with None => None | Some (_, B') => take_blocks n' size B' end
  end.

(** A block a client allocated: its address (0 is NULL) and what the client
    knows of its bytes.  A fresh block holds nothing a program may rely on, a
    freed one must not be touched: both are undefined behaviour to read. *)
Inductive contents : Type :=
| Uninit
| Bytes (l : list Z)
| Freed.

Record buf : Type := mk_buf { b_ptr : Z; b_data : contents }.

Definition null_buf : buf := mk_buf 0 Uninit.
Definition is_null (b : buf) : bool := b_ptr b =? 0.

Definition bytes_of (b : buf) : option (list Z) :=
  match b_data b with Bytes l => Some l | _ => None end.

(** [memset(b, 0, n)] of a whole block of [n] bytes. *)
Definition zeroed (b : buf) (n : nat) : option buf :=
  match b_data b with
  | Freed => None
  | _ => Some (mk_buf (b_ptr b) (Bytes (replicate n 0)))
  end.
