(* ===== verification/HeapAlloc.v ===== *)
(** * The kernel heap implements the allocator interface *)

From S2P Require Import Prelude Mem Bytes Heap Alloc.

#[export] Instance heap_ops : KmallocOps heap := {|
  Alloc.kmalloc := Heap.kmalloc;
  Alloc.kfree := Heap.kfree
|}.

#[export] Instance heap_stats : HeapStats heap := {|
  heap_store p l := modify (fun h => mk_heap (write_bytes (hmem h) p l) (heap_head h));
  heap_load p n := gets (fun h => read_bytes (hmem h) p n);
  Alloc.heap_get_total_size := Heap.heap_get_total_size;
  Alloc.heap_get_used_size := Heap.heap_get_used_size;
  Alloc.heap_get_free_size := Heap.heap_get_free_size;
  Alloc.heap_get_block_count := Heap.heap_get_block_count;
  Alloc.heap_get_free_block_count := Heap.heap_get_free_block_count
|}.

Definition heap_take (size : Z) (bs : list block) : option (Z * list block) :=
  '(p, bs') ← amalloc (total_of size) HEAP_START bs; Some (p + HEADER, bs').

#[export] Program Instance heap_allocator : Allocator heap := {|
  blocks := list block;
  alloc_rep := heap_wf;
  take_block := heap_take
|}.
Next Obligation.
  intros h bs size Hwf Hs. cbn [Alloc.kmalloc heap_ops]. pose proof (kmalloc_exec h bs size Hwf Hs) as Hk.
  unfold heap_take. destruct (amalloc _ HEAP_START bs) as [[p bs']|] eqn:Ea; [|exact Hk].
  destruct Hk as (h' & b & _ & _ & _ & E & Hwf' & _). cbn. exists h'. split_and!; [done|done|].
  destruct Hwf as [_ Hr _ _]. apply (amalloc_ge _ _ _ _ _ _ Hr) in Ea. heap_consts. lia.
Qed.
Next Obligation.
  intros h0 h bs bs' p size Hwf0 Hs Hk Hwf. cbn [Alloc.kfree heap_ops]. unfold heap_take in Hk.
  destruct (amalloc _ HEAP_START bs) as [[q bs1]|] eqn:Ea; [|done]. cbn in Hk. injection Hk as <- <-.
  destruct (amalloc_blocks _ _ _ _ _ Ea) as ((n & Hat & _) & _ & _).
  destruct (kfree_exec h bs1 q _ Hwf Hat ltac:(done)) as (h2 & E2 & Hwf2 & _).
  exists h2. split; [done|]. destruct Hwf0 as [_ Hr Hc _].
  pose proof (total_of_facts size ltac:(lia)) as (Hm & _ & _).
  by rewrite (afree_amalloc _ _ _ _ _ _ Hr Hm Hc Ea) in Hwf2.
Qed.
