(* ===== verification/HeapUse.v ===== *)
(** * Blocks taken from the heap and given back

    A list of blocks without neighbouring free ones is determined by the blocks
    in use: whatever is taken from the heap and given back, in any order, the
    heap is the same afterwards. *)

From S2P Require Import Prelude Mem Bytes Heap Alloc HeapAlloc.

(** ** The blocks in use determine the heap *)

Definition in_use (a : Z) (bs : list block) (q : Z) (b : block) : Prop := b_free b = false /\ block_at a bs q b.

(** A free block cannot reach over the next block of another heap. *)
Lemma free_block_short m1 m2 a b1 r1 b2 r2 :
  hrep m1 a (b1 :: r1) -> hrep m2 a (b2 :: r2) -> coalesced (b1 :: r1) -> b_free b1 = true ->
  (forall q b, in_use a (b1 :: r1) q b -> in_use a (b2 :: r2) q b) -> b_size b2 <= b_size b1.
Proof.
  intros (H1 & _ & _ & R1) Hr2 [Hc _] Hf Hsub. pose proof Hr2 as (H2 & _ & _ & R2).
  destruct (Z.le_gt_cases (b_size b2) (b_size b1)) as [|Hlt]; [done|exfalso]. rewrite Hf in Hc. destruct r1 as [|b3 r1].
  - cbn [hrep] in R1. apply hrep_bounds in R2. lia.
  - destruct (Hsub (a + b_size b1) b3) as [_ Hat]; [split; [exact Hc|right; by left]|].
    destruct Hat as [[E _]|Hat]; [heap_consts; lia|]. apply (block_at_ge _ _ _ _ _ R2) in Hat. lia.
Qed.

Lemma blocks_determined bs1 : forall m1 m2 a bs2, hrep m1 a bs1 -> hrep m2 a bs2 -> coalesced bs1 -> coalesced bs2 ->
  (forall q b, in_use a bs1 q b <-> in_use a bs2 q b) -> bs1 = bs2.
Proof.
  induction bs1 as [|b1 r1 IH]; intros m1 m2 a [|b2 r2] Hr1 Hr2 Hc1 Hc2 Hu; [done| | |].
  - apply hrep_bounds in Hr2. cbn in Hr1, Hr2. lia.
  - apply hrep_bounds in Hr1. cbn in Hr1, Hr2. lia.
  - assert (b1 = b2) as <-.
    { destruct (b_free b1) eqn:F1; [destruct (b_free b2) eqn:F2|].
      - pose proof (free_block_short _ _ _ _ _ _ _ Hr1 Hr2 Hc1 F1 (fun q b => proj1 (Hu q b))).
        pose proof (free_block_short _ _ _ _ _ _ _ Hr2 Hr1 Hc2 F2 (fun q b => proj2 (Hu q b))).
        destruct b1, b2. cbn in *. f_equal; [lia|congruence].
      - destruct (proj2 (Hu a b2)) as [_ [[_ ?]|Hat]]; [by split; [|left]|done|].
        destruct Hr1 as (H1 & _ & _ & R1). apply (block_at_ge _ _ _ _ _ R1) in Hat. heap_consts. lia.
      - destruct (proj1 (Hu a b1)) as [_ [[_ ?]|Hat]]; [by split; [|left]|done|].
        destruct Hr2 as (H2 & _ & _ & R2). apply (block_at_ge _ _ _ _ _ R2) in Hat. heap_consts. lia. }
    f_equal. destruct Hr1 as (H1 & _ & _ & R1), Hr2 as (_ & _ & _ & R2), Hc1 as [_ C1], Hc2 as [_ C2].
    apply (IH m1 m2 (a + b_size b1) r2 R1 R2 C1 C2). intros q b.
    assert (forall m r, hrep m (a + b_size b1) r -> in_use (a + b_size b1) r q b <-> in_use a (b1 :: r) q b /\ q <> a) as Hin.
    { intros m r R. unfold in_use. cbn [block_at]. split.
      - intros [Hf Hat]. split; [split; [done|by right]|]. apply (block_at_ge _ _ _ _ _ R) in Hat. heap_consts. lia.
      - intros [[Hf [[-> _]|Hat]] Hne]; [done|done]. }
    rewrite (Hin m1 r1 R1), (Hin m2 r2 R2), Hu. done.
Qed.

(** ** Temporary blocks *)

(** The heap [bs] has the blocks in use of [bs0] and, besides them, those at the
    addresses [L]. *)
Record borrowed (bs0 bs : list block) (L : list Z) : Prop := {
  bw_kept : forall q b, in_use HEAP_START bs0 q b -> in_use HEAP_START bs q b;
  bw_only : forall q b, in_use HEAP_START bs q b -> q ∈ L \/ in_use HEAP_START bs0 q b;
  bw_live : forall q, q ∈ L -> exists b, in_use HEAP_START bs q b;
  bw_new : forall q b, q ∈ L -> ~ in_use HEAP_START bs0 q b
}.

Lemma borrowed_none bs : borrowed bs bs [].
Proof. split; [done|by right|by intros ? ?%elem_of_nil|by intros ? ? ?%elem_of_nil]. Qed.

Lemma borrowed_iff bs0 bs L L' : (forall q, q ∈ L <-> q ∈ L') -> borrowed bs0 bs L -> borrowed bs0 bs L'.
Proof.
  intros HL [Hk Ho Hl Hn]. split; [done| | |].
  - intros q b Hq. destruct (Ho q b Hq); [left; by apply HL|by right].
  - intros q Hq. by apply Hl, HL.
  - intros q b Hq. by apply Hn, HL.
Qed.

(** An allocation borrows a block, large enough, or fails and changes nothing. *)
Lemma borrow bs0 bs L h size : heap_wf h bs -> borrowed bs0 bs L -> 0 < size <= 4294967276 ->
  exists r h' bs', exec (kmalloc size) h = (Val r, h') /\ heap_wf h' bs' /\
    ((r = 0 /\ bs' = bs) \/
     (exists p n, r = p + HEADER /\ r <> 0 /\ borrowed bs0 bs' (p :: L) /\
        block_at HEAP_START bs' p (mk_block n false) /\ size + HEADER <= n /\ (p ∉ L) /\
        forall q b, in_use HEAP_START bs q b -> in_use HEAP_START bs' q b)).
Proof.
  intros Hwf [Hk Ho Hl Hn] Hs. pose proof (kmalloc_exec h bs size Hwf Hs) as Hm. cbn [kmalloc heap_ops].
  destruct (amalloc (total_of size) HEAP_START bs) as [[p bs']|] eqn:Ea.
  2: { exists 0, h, bs. split; [exact Hm|]. split; [done|by left]. }
  destruct Hm as (h' & b & Hat & Hfree & _ & E & Hwf' & _). destruct (amalloc_blocks _ _ _ _ _ Ea) as ((n & Hp & Hsz) & Hkeep & Hnew).
  assert (forall b', ~ in_use HEAP_START bs p b') as Hpf.
  { intros b' [Hf' Hat']. destruct (block_at_disjoint _ _ _ _ _ _ _ (hw_rep _ _ Hwf) Hat Hat') as [[_ ->]|Hd]; [congruence|].
    pose proof (block_at_ge _ _ _ _ _ (hw_rep _ _ Hwf) Hat) as (_ & _ & Hmin).
    pose proof (block_at_ge _ _ _ _ _ (hw_rep _ _ Hwf) Hat') as (_ & _ & Hmin'). heap_consts. lia. }
  exists (p + HEADER), h', bs'. split; [exact E|]. split; [done|]. right. exists p, n.
  pose proof (amalloc_ge _ _ _ _ _ _ (hw_rep _ _ Hwf) Ea). destruct (total_of_facts size) as (_ & _ & Htot); [lia|].
  split_and!; [done|heap_consts; lia| |done|lia| |intros q b' [? ?]; split; [done|by apply Hkeep]].
  2: { intros Hin. destruct (Hl p Hin) as [b' Hb']. by apply (Hpf b'). }
  split.
  - intros q b' Hu. destruct (Hk q b' Hu) as [? ?]. split; [done|by apply Hkeep].
  - intros q b' [Hf' Hat']. destruct (Hnew q b' Hf' Hat') as [->|Hold]; [left; by apply list_elem_of_here|].
    destruct (Ho q b') as [Hin|Hu]; [by split|left; by apply list_elem_of_further|by right].
  - intros q [->|Hq]%elem_of_cons; [by exists (mk_block n false)|]. destruct (Hl q Hq) as (b' & Hf' & Hat').
    exists b'. split; [done|by apply Hkeep].
  - intros q b' [->|Hq]%elem_of_cons; [|by apply Hn]. intros Hu. by apply (Hpf b'), Hk.
Qed.

(** Giving a borrowed block back. *)
Lemma give_back_block bs0 bs L h p : heap_wf h bs -> borrowed bs0 bs L -> p ∈ L ->
  exists h' bs', exec (kfree (p + HEADER)) h = (Val tt, h') /\ heap_wf h' bs' /\ borrowed bs0 bs' (filter (.≠ p) L).
Proof.
  intros Hwf [Hk Ho Hl Hn] Hp. destruct (Hl p Hp) as (b & Hf & Hat).
  destruct (kfree_exec h bs p b Hwf Hat Hf) as (h' & E & Hwf' & _). exists h', (afree HEAP_START bs p). split; [exact E|]. split; [done|].
  pose proof (afree_blocks _ _ _ _ _ (hw_rep _ _ Hwf) Hat) as Haf.
  assert (forall q b', in_use HEAP_START (afree HEAP_START bs p) q b' <-> q <> p /\ in_use HEAP_START bs q b') as Hu.
  { intros q b'. unfold in_use. split; [intros [Hf' Hat']|intros (Hne & Hf' & Hat')].
    - apply Haf in Hat' as [? ?]; [|done]. by split_and!.
    - split; [done|]. by apply Haf. }
  split.
  - intros q b' Hq. apply Hu. split; [|by apply Hk]. intros ->. by apply (Hn p b' Hp).
  - intros q b' [Hne Hq]%Hu. destruct (Ho q b' Hq) as [Hin|?]; [left; by apply list_elem_of_filter|by right].
  - intros q [Hne Hq]%list_elem_of_filter. destruct (Hl q Hq) as [b' Hb']. exists b'. by apply Hu.
  - intros q b' [_ Hq]%list_elem_of_filter. by apply Hn.
Qed.

(** When everything is given back, the heap is the old one. *)
Lemma all_given_back bs0 bs h0 h : heap_wf h0 bs0 -> heap_wf h bs -> borrowed bs0 bs [] -> bs = bs0.
Proof.
  intros [_ R0 C0 _] [_ R C _] [Hk Ho _ _]. apply (blocks_determined bs _ _ HEAP_START bs0 R R0 C C0).
  intros q b. split; [|by apply Hk]. intros Hu. by destruct (Ho q b Hu) as [?%elem_of_nil|?].
Qed.
