(* ===== verification/RamDisk.v ===== *)
(** * ramdisk.c: the virtual disk

    The disk is one block of heap memory of 1 MB, addressed by 512-byte block
    numbers.  [rd_data] is its contents, by offset from [ramdisk.data]; the
    heap's theorems say that nobody else touches them. *)

From S2P Require Import Prelude Mem Bytes Alloc.

Definition RAMDISK_SIZE := 1024 * 1024.
Definition RAMDISK_BLOCK_SIZE := 512.
Definition RAMDISK_BLOCK_COUNT := RAMDISK_SIZE / RAMDISK_BLOCK_SIZE.

Record ramdisk_t : Type := mk_ramdisk {
  rd_ptr : Z;
  rd_data : mem;
  rd_size : Z;
  rd_block_size : Z;
  rd_block_count : Z;
  rd_initialized : Z
}.

(** [memset(data, 0, n)] on the disk. *)
Definition clear_data (d : mem) (n : Z) : mem := fun x =>
  if (0 <=? x) && (x <? n) then 0 else d x.

Definition red : Z := MAKE_COLOR COLOR_RED COLOR_BLACK.
Definition green : Z := MAKE_COLOR COLOR_GREEN COLOR_BLACK.
Definition cyan : Z := MAKE_COLOR COLOR_CYAN COLOR_BLACK.
Definition yellow : Z := MAKE_COLOR COLOR_YELLOW COLOR_BLACK.

Section init.
Context {H : Type} `{KmallocOps H}.

Definition on_heap {A} (m : M H A) : M (H * ramdisk_t) A := zoom fst (fun h s => (h, snd s)) m.
Definition upd_disk (f : ramdisk_t -> ramdisk_t) : M (H * ramdisk_t) unit :=
  modify (fun s => (fst s, f (snd s))).

Definition ramdisk_init : M (H * ramdisk_t) unit :=
  screen_write_color (c "[RAMDISK_INIT] Initializing RAM disk...\n") cyan ;;
  let! p := on_heap (kmalloc RAMDISK_SIZE) in
  upd_disk (fun d => mk_ramdisk p (rd_data d) (rd_size d) (rd_block_size d) (rd_block_count d)
                       (rd_initialized d)) ;;
  if p =? 0 then
    screen_write_color (c "[RAMDISK_INIT] ERROR: Failed to allocate memory!\n") red ;;
    upd_disk (fun d => mk_ramdisk (rd_ptr d) (rd_data d) (rd_size d) (rd_block_size d)
                         (rd_block_count d) 0)
  else
    screen_write_color (c "[RAMDISK_INIT] Memory allocated at 0x") cyan ;;
    screen_write_hex p ;;
    screen_write (c ", size=") ;;
    screen_write_dec RAMDISK_SIZE ;;
    screen_write (c " bytes\n") ;;
    upd_disk (fun d => mk_ramdisk (rd_ptr d) (rd_data d) RAMDISK_SIZE RAMDISK_BLOCK_SIZE
                         RAMDISK_BLOCK_COUNT 1) ;;
    upd_disk (fun d => mk_ramdisk (rd_ptr d) (clear_data (rd_data d) RAMDISK_SIZE) (rd_size d)
                         (rd_block_size d) (rd_block_count d) (rd_initialized d)) ;;
    screen_write_color (c "[RAMDISK_INIT] RAM disk initialized successfully! ") green ;;
    screen_write_dec RAMDISK_BLOCK_COUNT ;;
    screen_write (c " blocks of ") ;;
    screen_write_dec RAMDISK_BLOCK_SIZE ;;
    screen_write (c " bytes\n").
End init.

(** The code returned, and the buffer as the call leaves it. *)
Definition ramdisk_read_block (block_num : Z) (buffer : buf) : M ramdisk_t (Z * buf) :=
  let! d := get in
  if rd_initialized d =? 0 then ret (-1, buffer) else
  if rd_block_count d <=? block_num then ret (-1, buffer) else
  if is_null buffer then ret (-1, buffer) else
  let offset := u32 (block_num * rd_block_size d) in
  ret (0, mk_buf (b_ptr buffer) (Bytes (read_bytes (rd_data d) offset (Z.to_nat (rd_block_size d))))).

Definition ramdisk_write_block (block_num : Z) (buffer : buf) : M ramdisk_t Z :=
  let! d := get in
  if rd_initialized d =? 0 then ret (-1) else
  if rd_block_count d <=? block_num then ret (-1) else
  if is_null buffer then ret (-1) else
  let offset := u32 (block_num * rd_block_size d) in
  let! l := defined (bytes_of buffer) in
  if Z.of_nat (length l) <? rd_block_size d then stop_with Undefined else
  modify (fun d => mk_ramdisk (rd_ptr d)
    (write_bytes (rd_data d) offset (take (Z.to_nat (rd_block_size d)) l))
    (rd_size d) (rd_block_size d) (rd_block_count d) (rd_initialized d)) ;;
  ret 0.

Definition ramdisk_format : M ramdisk_t unit :=
  let! d := get in
  if rd_initialized d =? 0 then ret tt else
  modify (fun d => mk_ramdisk (rd_ptr d) (clear_data (rd_data d) (rd_size d)) (rd_size d)
    (rd_block_size d) (rd_block_count d) (rd_initialized d)).

Definition ramdisk_get_info : M ramdisk_t ramdisk_t := get.
Definition ramdisk_is_initialized : M ramdisk_t Z := gets rd_initialized.

(** ** A disk in service *)

Record disk_ok (d : ramdisk_t) : Prop := {
  dk_init : rd_initialized d = 1;
  dk_bs : rd_block_size d = 512;
  dk_count : rd_block_count d = 2048;
  dk_bytes : forall x, is_u8 (rd_data d x)
}.

(** Block [n] of the disk. *)
Definition disk_block (d : ramdisk_t) (n : Z) : list Z := read_bytes (rd_data d) (n * 512) 512.

Definition with_data (d : ramdisk_t) (m : mem) : ramdisk_t :=
  mk_ramdisk (rd_ptr d) m (rd_size d) (rd_block_size d) (rd_block_count d) (rd_initialized d).

(** The disk with block [n] replaced. *)
Definition put_block (d : ramdisk_t) (n : Z) (l : list Z) : ramdisk_t :=
  with_data d (write_bytes (rd_data d) (n * 512) l).

Definition is_block (l : list Z) : Prop := length l = 512%nat /\ Forall is_u8 l.

Lemma disk_block_ok d n : disk_ok d -> is_block (disk_block d n).
Proof.
  intros Hd. unfold disk_block. split; [apply length_read_bytes|].
  apply Forall_lookup. intros i x. rewrite read_bytes_lookup. case_decide; [|done].
  intros [= <-]. apply (dk_bytes d Hd).
Qed.

Lemma put_block_ok d n l : disk_ok d -> is_block l -> disk_ok (put_block d n l).
Proof.
  intros [H1 H2 H3 H4] [Hl Hu]. split; try done. cbn. intros x. unfold write_bytes.
  destruct ((n * 512 <=? x) && (x <? n * 512 + Z.of_nat (length l))) eqn:E; [|apply H4].
  apply andb_true_iff in E as [E1 E2]. apply Z.leb_le in E1. apply Z.ltb_lt in E2.
  rewrite Forall_lookup in Hu. eapply (Hu (Z.to_nat (x - n * 512))).
  apply list_lookup_lookup_total_lt. lia.
Qed.

Lemma disk_block_put d n m l : length l = 512%nat ->
  disk_block (put_block d n l) m = if decide (m = n) then l else disk_block d m.
Proof.
  intros Hl. unfold disk_block, put_block, with_data. cbn [rd_data]. case_decide as E.
  - subst m. rewrite <- Hl. apply read_write_same.
  - apply read_write_other. rewrite Hl. lia.
Qed.

Lemma exec_read_block d n b :
  disk_ok d -> 0 <= n < 2048 -> is_null b = false ->
  exec (ramdisk_read_block n b) d = (Val (0, mk_buf (b_ptr b) (Bytes (disk_block d n))), d).
Proof.
  intros [H1 H2 H3 H4] Hn Hb. unfold ramdisk_read_block. run.
  rewrite H1, H2, H3, Hb, (proj2 (Z.leb_gt 2048 n)) by lia. cbn [Z.eqb]. run.
  rewrite u32_small by (unfold is_u32; lia). done.
Qed.

Lemma exec_write_block d n p l :
  disk_ok d -> 0 <= n < 2048 -> p <> 0 -> length l = 512%nat ->
  exec (ramdisk_write_block n (mk_buf p (Bytes l))) d = (Val 0, put_block d n l).
Proof.
  intros [H1 H2 H3 H4] Hn Hp Hl. unfold ramdisk_write_block. run.
  rewrite H1, H2, H3, (proj2 (Z.leb_gt 2048 n)) by lia.
  unfold is_null, bytes_of. cbn [b_ptr b_data]. rewrite (proj2 (Z.eqb_neq p 0)) by done.
  cbn [Z.eqb]. run. rewrite Hl. change (Z.of_nat 512 <? 512) with false. run.
  rewrite u32_small by (unfold is_u32; lia). rewrite H2.
  rewrite take_ge by (rewrite Hl; lia). unfold put_block, with_data. by rewrite H2.
Qed.

Lemma exec_block_out_of_range d n b :
  rd_block_count d <= n ->
  exec (ramdisk_read_block n b) d = (Val (-1, b), d) /\ exec (ramdisk_write_block n b) d = (Val (-1), d).
Proof.
  intros Hn. unfold ramdisk_read_block, ramdisk_write_block. run.
  rewrite (proj2 (Z.leb_le _ n)) by done. by destruct (rd_initialized d =? 0).
Qed.

(** ** The theorems *)

Definition disk0 : ramdisk_t := mk_ramdisk 2097168 (fun _ => 0) RAMDISK_SIZE 512 2048 1.

Lemma disk0_ok : disk_ok disk0.
Proof. by split. Qed.

(** A block written to the disk is read back, and no other block changes. *)
Theorem ramdisk_write_read d n l p b m :
  disk_ok d -> 0 <= n < 2048 -> 0 <= m < 2048 -> is_block l -> p <> 0 -> is_null b = false ->
  exists d', exec (ramdisk_write_block n (mk_buf p (Bytes l))) d = (Val 0, d') /\ disk_ok d' /\
    exec (ramdisk_read_block m b) d' =
      (Val (0, mk_buf (b_ptr b) (Bytes (if decide (m = n) then l else disk_block d m))), d').
Proof.
  intros Hd Hn Hm Hl Hp Hb. exists (put_block d n l). pose proof Hl as [Hlen _].
  split_and!; [by apply exec_write_block|by apply put_block_ok|].
  rewrite exec_read_block by (try done; by apply put_block_ok).
  by rewrite disk_block_put.
Qed.

Lemma ramdisk_write_read_witness :
  exists d', exec (ramdisk_write_block 5 (mk_buf 8 (Bytes (replicate 512 7)))) disk0 = (Val 0, d') /\
    disk_ok d' /\
    exec (ramdisk_read_block 5 (mk_buf 8 Uninit)) d' =
      (Val (0, mk_buf 8 (Bytes (replicate 512 7))), d').
Proof.
  apply (ramdisk_write_read disk0 5 (replicate 512 7) 8 (mk_buf 8 Uninit) 5 disk0_ok); try lia; [|done].
  split; [by rewrite length_replicate|]. apply Forall_replicate. unfold is_u8. lia.
Defined.
