(* ===== verification/Fs.v ===== *)
(** * fs.c: WitFS, the file system on the RAM disk

    Definitions only; the theorems are in FsDisk, FsMount, FsFile, FsDir and FsNames.
    The structures of the disk (superblock, inodes, directory entries) are the
    packed little-endian bytes the C structures have; a block read into a heap
    buffer is a [buf], whose bytes exist once they were written. *)

From S2P Require Import Prelude Mem Bytes CString Alloc RamDisk.

(** ** include/fs.h *)

Definition FS_MAGIC := 1464423491.          (* 0x57495443 *)
Definition FS_VERSION := 1.
Definition FS_BLOCK_SIZE := 512.
Definition FS_SUPERBLOCK_BLOCK := 0.
Definition FS_INODE_BITMAP_BLOCK := 1.
Definition FS_DATA_BITMAP_BLOCK := 2.
Definition FS_INODE_TABLE_BLOCK := 3.
Definition FS_INODE_TABLE_BLOCKS := 64.
Definition FS_DATA_BLOCKS_START := 67.
Definition FS_MAX_INODES := 512.
Definition FS_MAX_DATA_BLOCKS := 1981.
Definition FS_MAX_FILENAME := 27.
Definition FS_DIRECT_BLOCKS := 10%nat.
Definition FS_TYPE_FILE := 1.
Definition FS_TYPE_DIR := 2.
Definition FS_PERM_READ := 4.
Definition FS_PERM_WRITE := 2.
Definition FS_PERM_EXEC := 1.
Definition FS_PERM_DEFAULT := Z.lor FS_PERM_READ FS_PERM_WRITE.
Definition FS_MAX_OPEN_FILES := 16.
Definition FS_OPEN_READ := 1.
Definition FS_OPEN_WRITE := 2.
Definition FS_OPEN_CREATE := 4.

(** (uint32_t)-1 *)
Definition NONE := 4294967295.

Record fs_superblock_t : Type := mk_sb {
  magic : Z; version : Z; block_size : Z; total_blocks : Z;
  inode_bitmap_block : Z; data_bitmap_block : Z; inode_table_block : Z; data_blocks_start : Z;
  total_inodes : Z; total_data_blocks : Z; free_inodes : Z; free_blocks : Z;
  root_inode : Z;
  sb_reserved : list Z
}.

Record fs_inode_t : Type := mk_inode {
  i_mode : Z; i_size : Z; i_uid : Z; i_gid : Z;
  i_created : Z; i_modified : Z;
  i_blocks : list Z;
  i_reserved : list Z
}.

Record fs_file_t : Type := mk_file {
  f_inode : Z; f_position : Z; f_flags : Z; f_in_use : Z
}.

(** sizeof: 20 words, 8 words, 13 words and 460 bytes. *)
Definition INODE_SIZE := 80%nat.
Definition DIRENT_SIZE := 32%nat.
Definition SUPERBLOCK_SIZE := 512%nat.

Definition inode_words (i : fs_inode_t) : list Z :=
  [i_mode i; i_size i; i_uid i; i_gid i; i_created i; i_modified i] ++ i_blocks i ++ i_reserved i.
Definition encode_inode (i : fs_inode_t) : list Z := encode_words (inode_words i).
Definition decode_inode (l : list Z) : fs_inode_t :=
  let w k := word_at l (4 * k) in
  mk_inode (w 0%nat) (w 1%nat) (w 2%nat) (w 3%nat) (w 4%nat) (w 5%nat)
    (w <$> seq 6 10) (w <$> seq 16 4).

Definition sb_words (sb : fs_superblock_t) : list Z :=
  [magic sb; version sb; block_size sb; total_blocks sb; inode_bitmap_block sb;
   data_bitmap_block sb; inode_table_block sb; data_blocks_start sb; total_inodes sb;
   total_data_blocks sb; free_inodes sb; free_blocks sb; root_inode sb].
Definition encode_sb (sb : fs_superblock_t) : list Z := encode_words (sb_words sb) ++ sb_reserved sb.
Definition decode_sb (l : list Z) : fs_superblock_t :=
  let w k := word_at l (4 * k) in
  mk_sb (w 0%nat) (w 1%nat) (w 2%nat) (w 3%nat) (w 4%nat) (w 5%nat) (w 6%nat) (w 7%nat)
    (w 8%nat) (w 9%nat) (w 10%nat) (w 11%nat) (w 12%nat) (sub l 52 460).

Definition empty_inode : fs_inode_t := mk_inode 0 0 0 0 0 0 (replicate 10 0) (replicate 4 0).

(** ** The state *)

Record fs_t (H : Type) : Type := mk_fs {
  fs_heap : H;
  fs_rd : ramdisk_t;
  superblock : fs_superblock_t;
  inode_bitmap : buf;
  data_bitmap : buf;
  open_files : list fs_file_t;
  fs_initialized : Z;
  fs_ticks : Z          (* what timer_get_ticks() returns during the call *)
}.
Arguments mk_fs {H}.
Arguments fs_heap {H}. Arguments fs_rd {H}. Arguments superblock {H}.
Arguments inode_bitmap {H}. Arguments data_bitmap {H}. Arguments open_files {H}.
Arguments fs_initialized {H}. Arguments fs_ticks {H}.

(** ** Bitmaps *)

Definition bitmap_test (bitmap : list Z) (bit : Z) : option bool :=
  w ← bitmap !! Z.to_nat (bit / 8);
  Some (negb (Z.land w (Z.shiftl 1 (bit mod 8)) =? 0)).

Definition bitmap_set (bitmap : list Z) (bit : Z) : option (list Z) :=
  w ← bitmap !! Z.to_nat (bit / 8);
  Some (<[Z.to_nat (bit / 8) := u8 (Z.lor w (Z.shiftl 1 (bit mod 8)))]> bitmap).

Definition bitmap_clear (bitmap : list Z) (bit : Z) : option (list Z) :=
  w ← bitmap !! Z.to_nat (bit / 8);
  Some (<[Z.to_nat (bit / 8) := u8 (Z.land w (Z.lnot (Z.shiftl 1 (bit mod 8))))]> bitmap).

Fixpoint find_free_loop (bitmap : list Z) (idx : list Z) : option Z :=
  match idx with
  | [] => Some NONE
  | i :: r => t ← bitmap_test bitmap i; if negb t then Some i else find_free_loop bitmap r
  end.

Definition bitmap_find_free (bitmap : list Z) (max_bits : Z) : option Z :=
  find_free_loop bitmap (seqZ 0 max_bits).

(** ** Directory entries inside a block *)

Definition entry_inode (data : list Z) (i : nat) : Z := word_at data (DIRENT_SIZE * i).

(** [entries[i].name]: from its first byte to the end of the block. *)
Definition entry_name (data : list Z) (i : nat) : list Z := drop (DIRENT_SIZE * i + 4) data.

(** [entries[i].inode = v] *)
Definition set_entry_inode (data : list Z) (i : nat) (v : Z) : list Z :=
  splice data (DIRENT_SIZE * i) (le32 v).

(** [strncpy(entries[i].name, name, FS_MAX_FILENAME); entries[i].name[FS_MAX_FILENAME] = 0;] *)
Definition set_entry_name (data : list Z) (i : nat) (name : list Z) : option (list Z) :=
  tail ← strncpy (entry_name data i) name FS_MAX_FILENAME;
  let data := take (DIRENT_SIZE * i + 4) data ++ tail in
  Some (splice data (DIRENT_SIZE * i + 4 + 27) [0]).

(** The loop over the entries of a block for one with the name [name]. *)
Fixpoint find_entry (data name : list Z) (idx : list nat) : option (option nat) :=
  match idx with
  | [] => Some None
  | i :: r =>
      if entry_inode data i =? 0 then find_entry data name r else
      v ← strcmp (entry_name data i) name;
      if v =? 0 then Some (Some i) else find_entry data name r
  end.

(** The loop for an unused entry. *)
Definition find_slot (data : list Z) (idx : list nat) : option nat :=
  first_some (fun i => if entry_inode data i =? 0 then Some i else None) idx.

Definition entries_per_block : nat := 16.     (* FS_BLOCK_SIZE / sizeof(fs_dirent_t) *)

(** The first characters of a path: NULL, or the name after a leading slash. *)
Definition skip_slash (path : list Z) : option (list Z) :=
  ch ← head path; Some (if ch =? 47 then drop 1 path else path).

Section fs.
Context {H : Type} `{KmallocOps H}.
Abbreviation fs := (fs_t H).

(** ** Access to the components of the state *)

Definition set_heap (h : H) (s : fs) : fs :=
  mk_fs h (fs_rd s) (superblock s) (inode_bitmap s) (data_bitmap s) (open_files s)
    (fs_initialized s) (fs_ticks s).
Definition set_rd (d : ramdisk_t) (s : fs) : fs :=
  mk_fs (fs_heap s) d (superblock s) (inode_bitmap s) (data_bitmap s) (open_files s)
    (fs_initialized s) (fs_ticks s).
Definition set_superblock (sb : fs_superblock_t) (s : fs) : fs :=
  mk_fs (fs_heap s) (fs_rd s) sb (inode_bitmap s) (data_bitmap s) (open_files s)
    (fs_initialized s) (fs_ticks s).
Definition set_inode_bitmap (b : buf) (s : fs) : fs :=
  mk_fs (fs_heap s) (fs_rd s) (superblock s) b (data_bitmap s) (open_files s)
    (fs_initialized s) (fs_ticks s).
Definition set_data_bitmap (b : buf) (s : fs) : fs :=
  mk_fs (fs_heap s) (fs_rd s) (superblock s) (inode_bitmap s) b (open_files s)
    (fs_initialized s) (fs_ticks s).
Definition set_open_files (l : list fs_file_t) (s : fs) : fs :=
  mk_fs (fs_heap s) (fs_rd s) (superblock s) (inode_bitmap s) (data_bitmap s) l
    (fs_initialized s) (fs_ticks s).
Definition set_initialized (v : Z) (s : fs) : fs :=
  mk_fs (fs_heap s) (fs_rd s) (superblock s) (inode_bitmap s) (data_bitmap s) (open_files s)
    v (fs_ticks s).

Definition add_free_inodes (d : Z) (sb : fs_superblock_t) : fs_superblock_t :=
  mk_sb (magic sb) (version sb) (block_size sb) (total_blocks sb) (inode_bitmap_block sb)
    (data_bitmap_block sb) (inode_table_block sb) (data_blocks_start sb) (total_inodes sb)
    (total_data_blocks sb) (u32 (free_inodes sb + d)) (free_blocks sb) (root_inode sb) (sb_reserved sb).
Definition add_free_blocks (d : Z) (sb : fs_superblock_t) : fs_superblock_t :=
  mk_sb (magic sb) (version sb) (block_size sb) (total_blocks sb) (inode_bitmap_block sb)
    (data_bitmap_block sb) (inode_table_block sb) (data_blocks_start sb) (total_inodes sb)
    (total_data_blocks sb) (free_inodes sb) (u32 (free_blocks sb + d)) (root_inode sb) (sb_reserved sb).

Definition upd_sb (f : fs_superblock_t -> fs_superblock_t) : M fs unit :=
  modify (fun s => set_superblock (f (superblock s)) s).

Definition kmalloc_buf (size : Z) : M fs buf :=
  let! p := zoom fs_heap set_heap (kmalloc size) in ret (mk_buf p Uninit).
Definition kfree_buf (b : buf) : M fs unit := zoom fs_heap set_heap (kfree (b_ptr b)).
Definition read_block (n : Z) (b : buf) : M fs (Z * buf) := zoom fs_rd set_rd (ramdisk_read_block n b).
Definition write_block (n : Z) (b : buf) : M fs Z := zoom fs_rd set_rd (ramdisk_write_block n b).
Definition timer_get_ticks : M fs Z := gets fs_ticks.

Definition freed (b : buf) : buf := mk_buf (b_ptr b) Freed.

(** ** Inodes *)

Definition inodes_per_block : Z := FS_BLOCK_SIZE / Z.of_nat INODE_SIZE.

Definition read_inode (inode_num : Z) : M fs (option fs_inode_t) :=
  if FS_MAX_INODES <=? inode_num then ret None else
  let block := FS_INODE_TABLE_BLOCK + inode_num / inodes_per_block in
  let offset := (inode_num mod inodes_per_block) * Z.of_nat INODE_SIZE in
  let! temp := kmalloc_buf FS_BLOCK_SIZE in
  if is_null temp then ret None else
  let! ' (_, temp) := read_block block temp in
  let! l := defined (bytes_of temp) in
  let inode := decode_inode (sub l (Z.to_nat offset) INODE_SIZE) in
  kfree_buf temp ;;
  ret (Some inode).

Definition write_inode (inode_num : Z) (inode : fs_inode_t) : M fs Z :=
  if FS_MAX_INODES <=? inode_num then ret (-1) else
  let block := FS_INODE_TABLE_BLOCK + inode_num / inodes_per_block in
  let offset := (inode_num mod inodes_per_block) * Z.of_nat INODE_SIZE in
  let! temp := kmalloc_buf FS_BLOCK_SIZE in
  if is_null temp then ret (-1) else
  let! ' (_, temp) := read_block block temp in
  let! l := defined (bytes_of temp) in
  let temp := mk_buf (b_ptr temp) (Bytes (splice l (Z.to_nat offset) (encode_inode inode))) in
  write_block block temp ;;
  kfree_buf temp ;;
  ret 0.

Definition alloc_inode : M fs Z :=
  let! bm := gets inode_bitmap in
  let! l := defined (bytes_of bm) in
  let! inode := defined (bitmap_find_free l FS_MAX_INODES) in
  (if negb (inode =? NONE) then
     let! l := defined (bitmap_set l inode) in
     modify (set_inode_bitmap (mk_buf (b_ptr bm) (Bytes l))) ;;
     upd_sb (add_free_inodes (-1)) ;;
     write_block FS_INODE_BITMAP_BLOCK (mk_buf (b_ptr bm) (Bytes l)) ;;
     ret tt
   else ret tt) ;;
  ret inode.

Definition free_inode (inode_num : Z) : M fs unit :=
  let! bm := gets inode_bitmap in
  let! l := defined (bytes_of bm) in
  let! l := defined (bitmap_clear l inode_num) in
  modify (set_inode_bitmap (mk_buf (b_ptr bm) (Bytes l))) ;;
  upd_sb (add_free_inodes 1) ;;
  write_block FS_INODE_BITMAP_BLOCK (mk_buf (b_ptr bm) (Bytes l)) ;;
  ret tt.

Definition alloc_data_block : M fs Z :=
  let! bm := gets data_bitmap in
  let! l := defined (bytes_of bm) in
  let! block := defined (bitmap_find_free l FS_MAX_DATA_BLOCKS) in
  (if negb (block =? NONE) then
     let! l := defined (bitmap_set l block) in
     modify (set_data_bitmap (mk_buf (b_ptr bm) (Bytes l))) ;;
     upd_sb (add_free_blocks (-1)) ;;
     write_block FS_DATA_BITMAP_BLOCK (mk_buf (b_ptr bm) (Bytes l)) ;;
     ret tt
   else ret tt) ;;
  ret block.

Definition free_data_block (block_num : Z) : M fs unit :=
  let! bm := gets data_bitmap in
  let! l := defined (bytes_of bm) in
  let! l := defined (bitmap_clear l block_num) in
  modify (set_data_bitmap (mk_buf (b_ptr bm) (Bytes l))) ;;
  upd_sb (add_free_blocks 1) ;;
  write_block FS_DATA_BITMAP_BLOCK (mk_buf (b_ptr bm) (Bytes l)) ;;
  ret tt.

(** ** Mounting and formatting *)

Definition fs_init : M fs unit :=
  screen_write_color (c "[FS_INIT] Starting file system mount...\n") cyan ;;
  let! up := zoom fs_rd set_rd ramdisk_is_initialized in
  if up =? 0 then
    screen_write_color (c "[FS_INIT] ERROR: RAM disk not initialized!\n") red
  else
  screen_write_color (c "[FS_INIT] RAM disk is initialized\n") cyan ;;
  let! ib := kmalloc_buf FS_BLOCK_SIZE in
  modify (set_inode_bitmap ib) ;;
  let! db := kmalloc_buf FS_BLOCK_SIZE in
  modify (set_data_bitmap db) ;;
  if is_null ib || is_null db then
    screen_write_color (c "[FS_INIT] ERROR: Failed to allocate bitmaps!\n") red ;;
    (if negb (is_null ib) then kfree_buf ib ;; modify (set_inode_bitmap (freed ib)) else ret tt) ;;
    (if negb (is_null db) then kfree_buf db ;; modify (set_data_bitmap (freed db)) else ret tt)
  else
  screen_write_color (c "[FS_INIT] Bitmaps allocated\n") cyan ;;
  let! temp_block := kmalloc_buf FS_BLOCK_SIZE in
  if is_null temp_block then
    screen_write_color (c "[FS_INIT] ERROR: Failed to allocate temp block!\n") red ;;
    kfree_buf ib ;; modify (set_inode_bitmap (freed ib)) ;;
    kfree_buf db ;; modify (set_data_bitmap (freed db))
  else
  let! ' (_, temp_block) := read_block FS_SUPERBLOCK_BLOCK temp_block in
  let! l := defined (bytes_of temp_block) in
  upd_sb (fun _ => decode_sb l) ;;
  kfree_buf temp_block ;;
  screen_write_color (c "[FS_INIT] Superblock read, magic=0x") cyan ;;
  let! sb := gets superblock in
  screen_write_hex (magic sb) ;;
  screen_write (c "\n") ;;
  if negb (magic sb =? FS_MAGIC) then
    screen_write_color (c "[FS_INIT] ERROR: Invalid magic number! Expected 0x") red ;;
    screen_write_hex FS_MAGIC ;;
    screen_write (c ", got 0x") ;;
    screen_write_hex (magic sb) ;;
    screen_write (c "\n") ;;
    kfree_buf ib ;; modify (set_inode_bitmap (freed ib)) ;;
    kfree_buf db ;; modify (set_data_bitmap (freed db))
  else
  let! ' (_, ib) := read_block FS_INODE_BITMAP_BLOCK ib in
  modify (set_inode_bitmap ib) ;;
  let! ' (_, db) := read_block FS_DATA_BITMAP_BLOCK db in
  modify (set_data_bitmap db) ;;
  screen_write_color (c "[FS_INIT] Bitmaps loaded from disk\n") cyan ;;
  modify (fun s => set_open_files
    ((fun f => mk_file (f_inode f) (f_position f) (f_flags f) 0) <$> open_files s) s) ;;
  modify (set_initialized 1) ;;
  screen_write_color (c "[FS_INIT] File system mounted successfully!\n") green.

Definition fresh_superblock : fs_superblock_t :=
  mk_sb FS_MAGIC FS_VERSION FS_BLOCK_SIZE 2048 FS_INODE_BITMAP_BLOCK FS_DATA_BITMAP_BLOCK
    FS_INODE_TABLE_BLOCK FS_DATA_BLOCKS_START FS_MAX_INODES FS_MAX_DATA_BLOCKS
    (FS_MAX_INODES - 1) (FS_MAX_DATA_BLOCKS - 1) 0 (replicate 460 0).

(** The second half of [fs_format], with both bitmaps in memory: the root
    inode, the empty root block, the superblock and the bitmaps go to the disk. *)
Definition format_disk (ib db : buf) : M fs unit :=
  let! now := timer_get_ticks in
  let root_inode := mk_inode (Z.lor FS_TYPE_DIR FS_PERM_DEFAULT) 0 0 0 now now
                      (replicate 10 0) (replicate 4 0) in
  write_inode 0 root_inode ;;
  let! empty_block := kmalloc_buf FS_BLOCK_SIZE in
  (if negb (is_null empty_block) then
     let! empty_block := defined (zeroed empty_block 512) in
     write_block FS_DATA_BLOCKS_START empty_block ;;
     kfree_buf empty_block
   else ret tt) ;;
  let! temp_block := kmalloc_buf FS_BLOCK_SIZE in
  (if negb (is_null temp_block) then
     let! sb := gets superblock in
     write_block FS_SUPERBLOCK_BLOCK (mk_buf (b_ptr temp_block) (Bytes (encode_sb sb))) ;;
     kfree_buf temp_block
   else ret tt) ;;
  write_block FS_INODE_BITMAP_BLOCK ib ;;
  write_block FS_DATA_BITMAP_BLOCK db ;;
  screen_write_color (c "[FS_FORMAT] Bitmaps written to disk\n") cyan ;;
  modify (set_initialized 1) ;;
  screen_write_color (c "[FS_FORMAT] File system formatted successfully!\n") green.

Definition fs_format : M fs unit :=
  screen_write_color (c "[FS_FORMAT] Starting file system format...\n") cyan ;;
  let! up := zoom fs_rd set_rd ramdisk_is_initialized in
  if up =? 0 then
    screen_write_color (c "[FS_FORMAT] ERROR: RAM disk not initialized!\n") red
  else
  let! ib := gets inode_bitmap in
  (if is_null ib then let! b := kmalloc_buf FS_BLOCK_SIZE in modify (set_inode_bitmap b)
   else ret tt) ;;
  let! db := gets data_bitmap in
  (if is_null db then let! b := kmalloc_buf FS_BLOCK_SIZE in modify (set_data_bitmap b)
   else ret tt) ;;
  let! ib := gets inode_bitmap in
  let! db := gets data_bitmap in
  if is_null ib || is_null db then
    screen_write_color (c "[FS_FORMAT] ERROR: Failed to allocate bitmaps!\n") red
  else
  screen_write_color (c "[FS_FORMAT] Bitmaps allocated\n") cyan ;;
  upd_sb (fun _ => fresh_superblock) ;;
  let! ib := defined (zeroed ib 512) in
  modify (set_inode_bitmap ib) ;;
  let! db := defined (zeroed db 512) in
  modify (set_data_bitmap db) ;;
  let! l := defined (bytes_of ib) in
  let! l := defined (bitmap_set l 0) in
  let ib := mk_buf (b_ptr ib) (Bytes l) in
  modify (set_inode_bitmap ib) ;;
  let! l := defined (bytes_of db) in
  let! l := defined (bitmap_set l 0) in
  let db := mk_buf (b_ptr db) (Bytes l) in
  modify (set_data_bitmap db) ;;
  format_disk ib db.

Definition fs_is_initialized : M fs Z := gets fs_initialized.

(** ** Directories *)

(** One block of the root directory: [inr None] ends the search, [inr (Some n)]
    is the inode found. *)
Definition lookup_round (root : fs_inode_t) (name : list Z) (block_idx : nat) (data : buf)
    : M fs (buf + option Z) :=
  if i_blocks root !!! block_idx =? 0 then ret (inr None) else
  let data_block := u32 (FS_DATA_BLOCKS_START + i_blocks root !!! block_idx) in
  let! ' (_, data) := read_block data_block data in
  let! l := defined (bytes_of data) in
  let! r := defined (find_entry l name (seq 0 entries_per_block)) in
  match r with
  | Some i => kfree_buf data ;; ret (inr (Some (entry_inode l i)))
  | None => ret (inl data)
  end.

(** [Some n] is the result 0 with [*inode_num = n], [None] the result -1. *)
Definition path_lookup (path : option (list Z)) : M fs (option Z) :=
  match path with
  | None => ret None
  | Some path =>
      let! name := defined (skip_slash path) in
      let! ch := defined (head name) in
      if ch =? 0 then ret (Some 0) else
      let! r := read_inode 0 in
      match r with
      | None => ret None
      | Some root =>
          if Z.land (i_mode root) FS_TYPE_DIR =? 0 then ret None else
          let! data := kmalloc_buf FS_BLOCK_SIZE in
          if is_null data then ret None else
          let! r := for_state (seq 0 FS_DIRECT_BLOCKS) (lookup_round root name) data in
          match r with
          | inr (Some inode_num) => ret (Some inode_num)
          | _ => kfree_buf data ;; ret None
          end
      end
  end.

Definition set_block (i : fs_inode_t) (k : nat) (b : Z) : fs_inode_t :=
  mk_inode (i_mode i) (i_size i) (i_uid i) (i_gid i) (i_created i) (i_modified i)
    (<[k := b]> (i_blocks i)) (i_reserved i).
Definition set_size (i : fs_inode_t) (size : Z) : fs_inode_t :=
  mk_inode (i_mode i) size (i_uid i) (i_gid i) (i_created i) (i_modified i) (i_blocks i) (i_reserved i).
Definition set_modified (i : fs_inode_t) (t : Z) : fs_inode_t :=
  mk_inode (i_mode i) (i_size i) (i_uid i) (i_gid i) (i_created i) t (i_blocks i) (i_reserved i).

(** The block [block_idx] of the directory: allocated when it does not exist;
    [None] when there is no block left. *)
Definition add_entry_block (dir_inode : fs_inode_t) (block_idx : nat) (data : buf)
    : M fs (option (fs_inode_t * buf)) :=
  if i_blocks dir_inode !!! block_idx =? 0 then
    let! new_block := alloc_data_block in
    if new_block =? NONE then ret None else
    let! data := defined (zeroed data 512) in
    ret (Some (set_block dir_inode block_idx new_block, data))
  else
    let data_block := u32 (FS_DATA_BLOCKS_START + i_blocks dir_inode !!! block_idx) in
    let! ' (_, data) := read_block data_block data in
    ret (Some (dir_inode, data)).

Definition add_entry_round (dir_inode_num : Z) (name : list Z) (inode : Z) (block_idx : nat)
    (st : fs_inode_t * buf) : M fs (fs_inode_t * buf + Z) :=
  let '(dir_inode, data) := st in
  let! r := add_entry_block dir_inode block_idx data in
  match r with
  | None => kfree_buf data ;; ret (inr (-1))
  | Some (dir_inode, data) =>
      let! l := defined (bytes_of data) in
      match find_slot l (seq 0 entries_per_block) with
      | Some i =>
          let! l := defined (set_entry_name (set_entry_inode l i inode) i name) in
          let data := mk_buf (b_ptr data) (Bytes l) in
          let data_block := u32 (FS_DATA_BLOCKS_START + i_blocks dir_inode !!! block_idx) in
          write_block data_block data ;;
          let dir_inode := set_size dir_inode (u32 (i_size dir_inode + Z.of_nat DIRENT_SIZE)) in
          let! now := timer_get_ticks in
          let dir_inode := set_modified dir_inode now in
          write_inode dir_inode_num dir_inode ;;
          kfree_buf data ;;
          ret (inr 0)
      | None => ret (inl (dir_inode, data))
      end
  end.

Definition dir_add_entry (dir_inode_num : Z) (name : list Z) (inode : Z) : M fs Z :=
  let! r := read_inode dir_inode_num in
  match r with
  | None => ret (-1)
  | Some dir_inode =>
      if Z.land (i_mode dir_inode) FS_TYPE_DIR =? 0 then ret (-1) else
      let! data := kmalloc_buf FS_BLOCK_SIZE in
      if is_null data then ret (-1) else
      let! r := for_state (seq 0 FS_DIRECT_BLOCKS) (add_entry_round dir_inode_num name inode)
                  (dir_inode, data) in
      match r with
      | inr rc => ret rc
      | inl _ => kfree_buf data ;; ret (-1)
      end
  end.

Definition remove_entry_round (dir_inode_num : Z) (dir_inode : fs_inode_t) (name : list Z)
    (block_idx : nat) (data : buf) : M fs (buf + option Z) :=
  if i_blocks dir_inode !!! block_idx =? 0 then ret (inr None) else
  let data_block := u32 (FS_DATA_BLOCKS_START + i_blocks dir_inode !!! block_idx) in
  let! ' (_, data) := read_block data_block data in
  let! l := defined (bytes_of data) in
  let! r := defined (find_entry l name (seq 0 entries_per_block)) in
  match r with
  | Some i =>
      let data := mk_buf (b_ptr data) (Bytes (set_entry_inode l i 0)) in
      write_block data_block data ;;
      let dir_inode := set_size dir_inode (u32 (i_size dir_inode - Z.of_nat DIRENT_SIZE)) in
      let! now := timer_get_ticks in
      let dir_inode := set_modified dir_inode now in
      write_inode dir_inode_num dir_inode ;;
      kfree_buf data ;;
      ret (inr (Some 0))
  | None => ret (inl data)
  end.

Definition dir_remove_entry (dir_inode_num : Z) (name : list Z) : M fs Z :=
  let! r := read_inode dir_inode_num in
  match r with
  | None => ret (-1)
  | Some dir_inode =>
      let! data := kmalloc_buf FS_BLOCK_SIZE in
      if is_null data then ret (-1) else
      let! r := for_state (seq 0 FS_DIRECT_BLOCKS) (remove_entry_round dir_inode_num dir_inode name) data in
      match r with
      | inr (Some rc) => ret rc
      | _ => kfree_buf data ;; ret (-1)
      end
  end.

(** ** Files and directories by path *)

Definition fs_create (path : option (list Z)) (type : Z) : M fs Z :=
  let! up := gets fs_initialized in
  if up =? 0 then ret (-1) else
  match path with
  | None => ret (-1)
  | Some p =>
      let! name := defined (skip_slash p) in
      let! existing := path_lookup path in
      match existing with
      | Some _ => ret (-1)
      | None =>
          let! inode_num := alloc_inode in
          if inode_num =? NONE then ret (-1) else
          let! now := timer_get_ticks in
          let inode := mk_inode (Z.lor type FS_PERM_DEFAULT) 0 0 0 now now
                         (replicate 10 0) (replicate 4 0) in
          let! r :=
            if type =? FS_TYPE_DIR then
              let! block := alloc_data_block in
              if block =? NONE then free_inode inode_num ;; ret None else
              let inode := set_block inode 0 block in
              let! data := kmalloc_buf FS_BLOCK_SIZE in
              (if negb (is_null data) then
                 let! data := defined (zeroed data 512) in
                 write_block (u32 (FS_DATA_BLOCKS_START + block)) data ;;
                 kfree_buf data
               else ret tt) ;;
              ret (Some inode)
            else ret (Some inode) in
          match r with
          | None => ret (-1)
          | Some inode =>
              write_inode inode_num inode ;;
              let! rc := dir_add_entry 0 name inode_num in
              if rc <? 0 then
                free_inode inode_num ;;
                (if (type =? FS_TYPE_DIR) && negb (i_blocks inode !!! 0%nat =? 0)
                 then free_data_block (i_blocks inode !!! 0%nat) else ret tt) ;;
                ret (-1)
              else ret 0
          end
      end
  end.

(** [for (i = 0; i < FS_DIRECT_BLOCKS && inode.blocks[i] != 0; i++)] *)
Fixpoint free_all_blocks (bs : list Z) : M fs unit :=
  match bs with
  | [] => ret tt
  | b :: r => if b =? 0 then ret tt else free_data_block b ;; free_all_blocks r
  end.

Definition fs_unlink (path : option (list Z)) : M fs Z :=
  let! up := gets fs_initialized in
  if up =? 0 then ret (-1) else
  let! r := path_lookup path in
  match r with
  | None => ret (-1)
  | Some inode_num =>
      let! r := read_inode inode_num in
      match r with
      | None => ret (-1)
      | Some inode =>
          free_all_blocks (i_blocks inode) ;;
          free_inode inode_num ;;
          let! p := defined path in
          let! name := defined (skip_slash p) in
          dir_remove_entry 0 name ;;
          ret 0
      end
  end.

Definition write_path (path : option (list Z)) : M fs unit :=
  match path with
  | None => ret tt
  | Some p => let! s := defined (cstring p) in screen_write s
  end.

(** The first free descriptor, or -1. *)
Definition find_fd (files : list fs_file_t) : Z :=
  match list_find (fun f => f_in_use f = 0) files with
  | Some (i, _) => Z.of_nat i
  | None => -1
  end.

Definition fs_open (path : option (list Z)) (flags : Z) : M fs Z :=
  screen_write_color (c "[FS_OPEN] Opening file: ") yellow ;;
  write_path path ;;
  screen_write (c ", flags=0x") ;;
  screen_write_hex flags ;;
  screen_write (c "\n") ;;
  let! up := gets fs_initialized in
  if up =? 0 then
    screen_write_color (c "[FS_OPEN] ERROR: File system not initialized!\n") red ;; ret (-1)
  else
  let! r := path_lookup path in
  let! r :=
    match r with
    | None =>
        screen_write_color (c "[FS_OPEN] File not found\n") yellow ;;
        if negb (Z.land flags FS_OPEN_CREATE =? 0) then
          screen_write_color (c "[FS_OPEN] Creating file...\n") yellow ;;
          let! rc := fs_create path FS_TYPE_FILE in
          if rc <? 0 then
            screen_write_color (c "[FS_OPEN] ERROR: Failed to create file!\n") red ;; ret None
          else
          let! r := path_lookup path in
          match r with
          | None =>
              screen_write_color (c "[FS_OPEN] ERROR: Created file but can't find it!\n") red ;; ret None
          | Some inode_num =>
              screen_write_color (c "[FS_OPEN] File created, inode=") yellow ;;
              screen_write_dec inode_num ;;
              screen_write (c "\n") ;;
              ret (Some inode_num)
          end
        else
          screen_write_color (c "[FS_OPEN] ERROR: File not found and CREATE flag not set!\n") red ;;
          ret None
    | Some inode_num =>
        screen_write_color (c "[FS_OPEN] File found, inode=") yellow ;;
        screen_write_dec inode_num ;;
        screen_write (c "\n") ;;
        ret (Some inode_num)
    end in
  match r with
  | None => ret (-1)
  | Some inode_num =>
      let! files := gets open_files in
      let fd := find_fd files in
      if fd <? 0 then
        screen_write_color (c "[FS_OPEN] ERROR: Too many open files!\n") red ;; ret (-1)
      else
      modify (set_open_files (<[Z.to_nat fd := mk_file inode_num 0 flags 1]> files)) ;;
      screen_write_color (c "[FS_OPEN] File opened successfully, fd=") green ;;
      screen_write_dec fd ;;
      screen_write (c "\n") ;;
      ret fd
  end.

Definition fd_valid (s : fs) (fd : Z) : bool :=
  negb ((fd <? 0) || (FS_MAX_OPEN_FILES <=? fd)) &&
  match open_files s !! Z.to_nat fd with Some f => negb (f_in_use f =? 0) | None => false end.

Definition fs_close (fd : Z) : M fs Z :=
  let! s := get in
  if negb (fd_valid s fd) then ret (-1) else
  let! f := defined (open_files s !! Z.to_nat fd) in
  modify (set_open_files (<[Z.to_nat fd := mk_file (f_inode f) (f_position f) (f_flags f) 0]> (open_files s))) ;;
  ret 0.

Definition get_file (fd : Z) : M fs fs_file_t :=
  let! s := get in defined (open_files s !! Z.to_nat fd).
Definition set_position (fd pos : Z) : M fs unit :=
  let! f := get_file fd in
  modify (fun s => set_open_files
    (<[Z.to_nat fd := mk_file (f_inode f) pos (f_flags f) (f_in_use f)]> (open_files s)) s).

(** The ten direct blocks end a transfer after at most ten full rounds. *)
Definition transfer_fuel : nat := 12.

(** One round of the copying loop of [fs_read]: the bytes read so far, the
    block buffer and the bytes stored at [buf]. *)
Definition read_round (fd : Z) (inode : fs_inode_t) (size : Z) (st : Z * buf * list Z)
    : M fs (Z * buf * list Z + Z * buf * list Z) :=
  let '(bytes_read, block_data, dest) := st in
  if negb (bytes_read <? size) then ret (inr st) else
  let! f := get_file fd in
  let block_idx := f_position f / FS_BLOCK_SIZE in
  let block_offset := f_position f mod FS_BLOCK_SIZE in
  let block_remaining := FS_BLOCK_SIZE - block_offset in
  let to_read := if size - bytes_read <? block_remaining then size - bytes_read else block_remaining in
  if (Z.of_nat FS_DIRECT_BLOCKS <=? block_idx) || (i_blocks inode !!! Z.to_nat block_idx =? 0)
  then ret (inr st) else
  let data_block := u32 (FS_DATA_BLOCKS_START + i_blocks inode !!! Z.to_nat block_idx) in
  let! ' (_, block_data) := read_block data_block block_data in
  let! l := defined (bytes_of block_data) in
  let dest := dest ++ sub l (Z.to_nat block_offset) (Z.to_nat to_read) in
  set_position fd (u32 (f_position f + to_read)) ;;
  ret (inl (u32 (bytes_read + to_read), block_data, dest)).

(** The value returned and the bytes stored at [buf], from its start. *)
Definition fs_read (fd size : Z) : M fs (Z * list Z) :=
  screen_write_color (c "[FS_READ] Reading from fd=") yellow ;;
  screen_write_dec (u32 fd) ;;
  screen_write (c ", size=") ;;
  screen_write_dec size ;;
  screen_write (c " bytes\n") ;;
  let! s := get in
  if negb (fd_valid s fd) then
    screen_write_color (c "[FS_READ] ERROR: Invalid file descriptor!\n") red ;; ret (-1, [])
  else
  let! f := get_file fd in
  if Z.land (f_flags f) FS_OPEN_READ =? 0 then
    screen_write_color (c "[FS_READ] ERROR: File not open for reading!\n") red ;; ret (-1, [])
  else
  let! r := read_inode (f_inode f) in
  match r with
  | None => screen_write_color (c "[FS_READ] ERROR: Failed to read inode!\n") red ;; ret (-1, [])
  | Some inode =>
      screen_write_color (c "[FS_READ] Inode read, inode=") yellow ;;
      screen_write_dec (f_inode f) ;;
      screen_write (c ", file size=") ;;
      screen_write_dec (i_size inode) ;;
      screen_write (c " bytes\n") ;;
      if i_size inode <=? f_position f then
        screen_write_color (c "[FS_READ] At EOF, returning 0\n") yellow ;; ret (0, [])
      else
      let! size :=
        if i_size inode <? u32 (f_position f + size) then
          let size := u32 (i_size inode - f_position f) in
          screen_write_color (c "[FS_READ] Limiting read to ") yellow ;;
          screen_write_dec size ;;
          screen_write (c " bytes\n") ;;
          ret size
        else ret size in
      let! block_data := kmalloc_buf FS_BLOCK_SIZE in
      if is_null block_data then ret (-1, []) else
      let! ' (bytes_read, block_data, dest) :=
        iterate transfer_fuel (read_round fd inode size) (0, block_data, []) in
      kfree_buf block_data ;;
      screen_write_color (c "[FS_READ] Read completed, bytes_read=") green ;;
      screen_write_dec bytes_read ;;
      screen_write (c "\n") ;;
      ret (s32 bytes_read, dest)
  end.

(** The block for the next bytes of a write: a new zeroed one where the file
    has none; [None] when the disk is full. *)
Definition write_target (inode : fs_inode_t) (block_idx : nat) (block_data : buf)
    : M fs (option (fs_inode_t * buf)) :=
  if i_blocks inode !!! block_idx =? 0 then
    let! new_block := alloc_data_block in
    if new_block =? NONE then ret None else
    let! block_data := defined (zeroed block_data 512) in
    ret (Some (set_block inode block_idx new_block, block_data))
  else
    let data_block := u32 (FS_DATA_BLOCKS_START + i_blocks inode !!! block_idx) in
    let! ' (_, block_data) := read_block data_block block_data in
    ret (Some (inode, block_data)).

Definition write_round (fd : Z) (src : list Z) (size : Z) (st : Z * fs_inode_t * buf)
    : M fs (Z * fs_inode_t * buf + Z * fs_inode_t * buf) :=
  let '(bytes_written, inode, block_data) := st in
  if negb (bytes_written <? size) then ret (inr st) else
  let! f := get_file fd in
  let block_idx := f_position f / FS_BLOCK_SIZE in
  let block_offset := f_position f mod FS_BLOCK_SIZE in
  let block_remaining := FS_BLOCK_SIZE - block_offset in
  let to_write :=
    if size - bytes_written <? block_remaining then size - bytes_written else block_remaining in
  if Z.of_nat FS_DIRECT_BLOCKS <=? block_idx then ret (inr st) else
  let! r := write_target inode (Z.to_nat block_idx) block_data in
  match r with
  | None => ret (inr st)
  | Some (inode, block_data) =>
      let! l := defined (bytes_of block_data) in
      if Z.of_nat (length src) <? bytes_written + to_write then stop_with Undefined else
      let block_data := mk_buf (b_ptr block_data)
        (Bytes (splice l (Z.to_nat block_offset) (sub src (Z.to_nat bytes_written) (Z.to_nat to_write)))) in
      let data_block := u32 (FS_DATA_BLOCKS_START + i_blocks inode !!! Z.to_nat block_idx) in
      write_block data_block block_data ;;
      let pos := u32 (f_position f + to_write) in
      set_position fd pos ;;
      let inode := if i_size inode <? pos then set_size inode pos else inode in
      ret (inl (u32 (bytes_written + to_write), inode, block_data))
  end.

Definition fs_write (fd : Z) (src : list Z) (size : Z) : M fs Z :=
  screen_write_color (c "[FS_WRITE] Writing to fd=") yellow ;;
  screen_write_dec (u32 fd) ;;
  screen_write (c ", size=") ;;
  screen_write_dec size ;;
  screen_write (c " bytes\n") ;;
  let! s := get in
  if negb (fd_valid s fd) then
    screen_write_color (c "[FS_WRITE] ERROR: Invalid file descriptor!\n") red ;; ret (-1)
  else
  let! f := get_file fd in
  if Z.land (f_flags f) FS_OPEN_WRITE =? 0 then
    screen_write_color (c "[FS_WRITE] ERROR: File not open for writing!\n") red ;; ret (-1)
  else
  let! r := read_inode (f_inode f) in
  match r with
  | None => screen_write_color (c "[FS_WRITE] ERROR: Failed to read inode!\n") red ;; ret (-1)
  | Some inode =>
      screen_write_color (c "[FS_WRITE] Inode read successfully, inode=") yellow ;;
      screen_write_dec (f_inode f) ;;
      screen_write (c "\n") ;;
      let! block_data := kmalloc_buf FS_BLOCK_SIZE in
      if is_null block_data then ret (-1) else
      let! ' (bytes_written, inode, block_data) :=
        iterate transfer_fuel (write_round fd src size) (0, inode, block_data) in
      kfree_buf block_data ;;
      let! now := timer_get_ticks in
      let inode := set_modified inode now in
      write_inode (f_inode f) inode ;;
      screen_write_color (c "[FS_WRITE] Write completed, bytes_written=") green ;;
      screen_write_dec bytes_written ;;
      screen_write (c ", new file size=") ;;
      screen_write_dec (i_size inode) ;;
      screen_write (c "\n") ;;
      ret (s32 bytes_written)
  end.

(** The entries of one block in use, as many as still fit. *)
Fixpoint take_entries (l : list Z) (idx : list nat) (n : Z) : list (list Z) :=
  match idx with
  | [] => []
  | i :: r =>
      if n <=? 0 then [] else
      if entry_inode l i =? 0 then take_entries l r n
      else sub l (DIRENT_SIZE * i) DIRENT_SIZE :: take_entries l r (n - 1)
  end.

Definition readdir_round (inode : fs_inode_t) (max : Z) (block_idx : nat) (st : buf * list (list Z))
    : M fs (buf * list (list Z) + list (list Z)) :=
  let '(data, entries) := st in
  if (i_blocks inode !!! block_idx =? 0) || (max <=? Z.of_nat (length entries)) then ret (inr entries) else
  let data_block := u32 (FS_DATA_BLOCKS_START + i_blocks inode !!! block_idx) in
  let! ' (_, data) := read_block data_block data in
  let! l := defined (bytes_of data) in
  ret (inl (data, entries ++ take_entries l (seq 0 entries_per_block) (max - Z.of_nat (length entries)))).

(** The number of entries, and the entries stored. *)
Definition fs_readdir (path : option (list Z)) (max : Z) : M fs (Z * list (list Z)) :=
  let! up := gets fs_initialized in
  if up =? 0 then ret (-1, []) else
  let! r := path_lookup path in
  match r with
  | None => ret (-1, [])
  | Some inode_num =>
      let! r := read_inode inode_num in
      match r with
      | None => ret (-1, [])
      | Some inode =>
          if Z.land (i_mode inode) FS_TYPE_DIR =? 0 then ret (-1, []) else
          let! data := kmalloc_buf FS_BLOCK_SIZE in
          if is_null data then ret (-1, []) else
          let! r := for_state (seq 0 FS_DIRECT_BLOCKS) (readdir_round inode max) (data, []) in
          let entries := match r with inl (_, es) => es | inr es => es end in
          kfree_buf data ;;
          ret (Z.of_nat (length entries), entries)
      end
  end.

Definition fs_mkdir (path : option (list Z)) : M fs Z := fs_create path FS_TYPE_DIR.
Definition fs_rmdir (path : option (list Z)) : M fs Z := fs_unlink path.

Definition fs_stat (path : option (list Z)) : M fs (option fs_inode_t) :=
  let! up := gets fs_initialized in
  if up =? 0 then ret None else
  let! r := path_lookup path in
  match r with
  | None => ret None
  | Some inode_num => read_inode inode_num
  end.

Definition fs_exists (path : option (list Z)) : M fs Z :=
  let! r := path_lookup path in
  ret (match r with Some _ => 1 | None => 0 end).

Definition fs_get_stats (s : fs) : Z * Z * Z * Z :=
  (total_inodes (superblock s), free_inodes (superblock s),
   total_data_blocks (superblock s), free_blocks (superblock s)).

End fs.
