(* ===== verification/FsDisk.v ===== *)
(** * WitFS: the codecs, the bitmaps and the primitives on the disk

    What the functions at the bottom of fs.c do on a mounted file system:
    [read_inode] and [write_inode] read and replace one slot of the inode
    table, the allocation functions take and give back the first free bit of a
    bitmap, keep the counters right and the copy on the disk up to date. *)

From S2P Require Import Prelude Bits Mem Bytes CString Alloc RamDisk Fs.

(** ** Codecs *)

Record inode_ok (i : fs_inode_t) : Prop := {
  io_words : Forall is_u32 (inode_words i);
  io_blocks : length (i_blocks i) = 10%nat;
  io_reserved : length (i_reserved i) = 4%nat
}.

Lemma inode_words_length i : inode_ok i -> length (inode_words i) = 20%nat.
Proof. intros [_ Hb Hr]. unfold inode_words. rewrite !length_app, Hb, Hr. done. Qed.

Lemma length_encode_inode i : inode_ok i -> length (encode_inode i) = INODE_SIZE.
Proof. intros Hi. unfold encode_inode. rewrite length_encode_words, inode_words_length; done. Qed.

(** Every field of an inode survives the trip through its 80 bytes. *)
Lemma decode_encode_inode i : inode_ok i -> decode_inode (encode_inode i) = i.
Proof.
  intros Hi. pose proof (decode_encode (inode_words i) [] (io_words i Hi)) as E.
  rewrite inode_words_length, app_nil_r in E by done. fold (encode_inode i) in E.
  destruct Hi as [_ Hb Hr]. destruct i as [m s u g cr mo bl re].
  unfold inode_words in E. simpl in Hb, Hr.
  do 11 (destruct bl as [|? bl]; try discriminate Hb).
  do 5 (destruct re as [|? re]; try discriminate Hr).
  unfold decode_words in E. unfold decode_inode.
  set (w := fun k => word_at _ (4 * k)) in *. cbn [fmap list_fmap seq app] in E |- *.
  injection E as E0 E1 E2 E3 E4 E5 E6 E7 E8 E9 E10 E11 E12 E13 E14 E15 E16 E17 E18 E19.
  unfold w in *. cbn [i_mode i_size i_uid i_gid i_created i_modified i_blocks i_reserved] in *.
  congruence.
Qed.

Lemma decode_inode_ok l : Forall is_u8 l -> inode_ok (decode_inode l).
Proof.
  intros Hl. split; [|done|done]. unfold decode_inode, inode_words.
  cbn [i_mode i_size i_uid i_gid i_created i_modified i_blocks i_reserved fmap list_fmap seq app].
  repeat constructor; by apply word_at_range.
Qed.

Definition sb_ok (sb : fs_superblock_t) : Prop :=
  Forall is_u32 (sb_words sb) /\ length (sb_reserved sb) = 460%nat /\ Forall is_u8 (sb_reserved sb).

Lemma encode_sb_block sb : sb_ok sb -> is_block (encode_sb sb).
Proof.
  intros (Hw & Hl & Hu). unfold encode_sb. split.
  - rewrite length_app, length_encode_words, Hl. done.
  - apply Forall_app. split; [apply encode_words_u8|done].
Qed.

(** The superblock survives the trip through its block. *)
Lemma decode_encode_sb sb : sb_ok sb -> decode_sb (encode_sb sb) = sb.
Proof.
  intros (Hw & Hl & Hu). pose proof (decode_encode (sb_words sb) (sb_reserved sb) Hw) as E.
  fold (encode_sb sb) in E. change (length (sb_words sb)) with 13%nat in E.
  assert (sub (encode_sb sb) 52 460 = sb_reserved sb) as Er.
  { unfold sub, encode_sb. rewrite drop_app_length' by (by rewrite length_encode_words).
    apply take_ge. lia. }
  unfold decode_sb. rewrite Er. clear Er. unfold decode_words, sb_words in E.
  set (w := fun k => word_at _ (4 * k)) in *. cbn [fmap list_fmap seq] in E.
  injection E as E0 E1 E2 E3 E4 E5 E6 E7 E8 E9 E10 E11 E12.
  unfold w in *. destruct sb as [a0 a1 a2 a3 a4 a5 a6 a7 a8 a9 a10 a11 a12 r].
  cbn [magic version block_size total_blocks inode_bitmap_block data_bitmap_block inode_table_block
    data_blocks_start total_inodes total_data_blocks free_inodes free_blocks root_inode sb_reserved] in *.
  f_equal; assumption.
Qed.

(** ** Bitmaps *)

Lemma bitmap_byte l i : in_map 8 l i -> l !! Z.to_nat (i / 8) = Some (bm_word 8 l i).
Proof. intros Hi. apply list_lookup_lookup_total_lt. by apply in_map_index. Qed.

Lemma bitmap_test_eq l i : in_map 8 l i -> bitmap_test l i = Some (bm_bit 8 l i).
Proof.
  intros Hi. unfold bitmap_test. rewrite (bitmap_byte l i Hi). simpl. f_equal. unfold bm_bit.
  pose proof (Z.mod_pos_bound i 8 ltac:(lia)). rewrite (word_test _ (i mod 8)) by lia. by destruct (Z.testbit _ _).
Qed.

Lemma block_bits_wf l : is_block l -> bm_wf 8 l.
Proof. intros [_ Hu]. exact Hu. Qed.

Lemma u8_word l i : bm_wf 8 l -> in_map 8 l i -> u8 (bm_word 8 l i) = bm_word 8 l i.
Proof. intros Hl Hi. apply u8_small. by apply (bm_word_wf 8 ltac:(lia)). Qed.

Lemma bm_set_byte l i : bm_wf 8 l -> in_map 8 l i ->
  is_u8 (Z.lor (bm_word 8 l i) (Z.shiftl 1 (i mod 8))).
Proof.
  intros Hl Hi. pose proof (bm_set_wf 8 ltac:(lia) l i Hl Hi) as Hs. unfold bm_set in Hs.
  eapply (proj1 (Forall_lookup _ _) Hs (Z.to_nat (i / 8))).
  apply list_lookup_insert_eq. apply in_map_index; [lia|done].
Qed.

Lemma bm_clear_byte l i : bm_wf 8 l -> in_map 8 l i ->
  is_u8 (Z.land (bm_word 8 l i) (Z.lnot (Z.shiftl 1 (i mod 8)))).
Proof.
  intros Hl Hi. pose proof (bm_clear_wf 8 ltac:(lia) l i Hl Hi) as Hs. unfold bm_clear in Hs.
  eapply (proj1 (Forall_lookup _ _) Hs (Z.to_nat (i / 8))).
  apply list_lookup_insert_eq. apply in_map_index; [lia|done].
Qed.

Lemma bitmap_set_eq l i : bm_wf 8 l -> in_map 8 l i -> bitmap_set l i = Some (bm_set 8 l i).
Proof.
  intros Hl Hi. unfold bitmap_set. rewrite (bitmap_byte l i Hi). simpl. unfold bm_set.
  by rewrite u8_small by (by apply bm_set_byte).
Qed.

Lemma bitmap_clear_eq l i : bm_wf 8 l -> in_map 8 l i -> bitmap_clear l i = Some (bm_clear 8 l i).
Proof.
  intros Hl Hi. unfold bitmap_clear. rewrite (bitmap_byte l i Hi). simpl. unfold bm_clear.
  by rewrite u8_small by (by apply bm_clear_byte).
Qed.

(** [bitmap_find_free] gives the least number below the bound that is not in
    the set, or (uint32_t)-1 when there is none. *)
Definition first_free (l : list Z) (max : Z) : Z :=
  default NONE (first_some (fun i => if bm_bit 8 l i then None else Some i) (seqZ 0 max)).

Lemma find_free_loop_eq l idx :
  (forall i, i ∈ idx -> in_map 8 l i) ->
  find_free_loop l idx =
  Some (default NONE (first_some (fun i => if bm_bit 8 l i then None else Some i) idx)).
Proof.
  induction idx as [|i r IH]; intros Hin; simpl; [done|].
  rewrite bitmap_test_eq by (apply Hin; set_solver). simpl. unfold first_some.
  destruct (bm_bit 8 l i); simpl; [|done]. apply IH. set_solver.
Qed.

Lemma bitmap_find_free_eq l max :
  max <= 8 * Z.of_nat (length l) -> bitmap_find_free l max = Some (first_free l max).
Proof.
  intros Hm. apply find_free_loop_eq. intros i Hi. apply elem_of_seqZ in Hi. unfold in_map. lia.
Qed.

Lemma first_free_spec l max : 0 <= max < NONE ->
  (first_free l max = NONE /\ forall j, 0 <= j < max -> bm_bit 8 l j = true) \/
  (0 <= first_free l max < max /\ bm_bit 8 l (first_free l max) = false /\
   forall j, 0 <= j < first_free l max -> bm_bit 8 l j = true).
Proof.
  intros Hm. unfold first_free. destruct (first_some _ _) as [i|] eqn:E; simpl.
  - right. apply first_some_seqZ_Some in E as (H1 & H2 & H3). split_and!; (done || lia).
  - left. split; [done|]. intros j Hj. eapply first_some_seqZ_None; [exact E|lia].
Qed.

(** ** The inode table *)

(** Six inodes of 80 bytes fit in a block. *)
Definition inode_block (n : Z) : Z := 3 + n / 6.
Definition inode_offset (n : Z) : nat := Z.to_nat (n mod 6 * 80).

Definition inode_at (d : ramdisk_t) (n : Z) : fs_inode_t :=
  decode_inode (sub (disk_block d (inode_block n)) (inode_offset n) INODE_SIZE).

Definition put_inode (d : ramdisk_t) (n : Z) (i : fs_inode_t) : ramdisk_t :=
  put_block d (inode_block n)
    (splice (disk_block d (inode_block n)) (inode_offset n) (encode_inode i)).

Lemma inode_offset_bound n : (inode_offset n + INODE_SIZE <= 512)%nat.
Proof. unfold inode_offset, INODE_SIZE. pose proof (Z.mod_pos_bound n 6 ltac:(lia)). lia. Qed.

Lemma splice_block l off xs :
  is_block l -> Forall is_u8 xs -> (off + length xs <= 512)%nat -> is_block (splice l off xs).
Proof.
  intros [Hl Hu] Hx Hb. split; [rewrite length_splice; lia|].
  unfold splice. rewrite !Forall_app. split_and!; [by apply Forall_take|done|by apply Forall_drop].
Qed.

Lemma put_inode_block d n i :
  disk_ok d -> inode_ok i ->
  is_block (splice (disk_block d (inode_block n)) (inode_offset n) (encode_inode i)).
Proof.
  intros Hd Hi. apply splice_block; [by apply disk_block_ok|apply encode_words_u8|].
  rewrite length_encode_inode by done. apply inode_offset_bound.
Qed.

Lemma put_inode_ok d n i : disk_ok d -> inode_ok i -> disk_ok (put_inode d n i).
Proof. intros. by apply put_block_ok, put_inode_block. Qed.

Lemma inode_at_ok d n : disk_ok d -> inode_ok (inode_at d n).
Proof.
  intros Hd. apply decode_inode_ok. unfold sub. apply Forall_take, Forall_drop.
  by apply disk_block_ok.
Qed.

(** Two inodes of one block do not overlap. *)
Lemma inode_slots n m :
  0 <= n -> 0 <= m -> n <> m -> inode_block n = inode_block m ->
  (inode_offset n + INODE_SIZE <= inode_offset m \/ inode_offset m + INODE_SIZE <= inode_offset n)%nat.
Proof. unfold inode_block, inode_offset, INODE_SIZE. intros. dlia. Qed.

Lemma inode_at_put d n m i :
  disk_ok d -> inode_ok i -> 0 <= n -> 0 <= m ->
  inode_at (put_inode d n i) m = if decide (m = n) then i else inode_at d m.
Proof.
  intros Hd Hi Hn Hm. unfold inode_at, put_inode.
  pose proof (put_inode_block d n i Hd Hi) as [Hlen _]. rewrite disk_block_put by done.
  pose proof (disk_block_ok d (inode_block n) Hd) as [Hbl _].
  pose proof (inode_offset_bound n). pose proof (length_encode_inode i Hi) as Hei.
  case_decide as Eb; case_decide as Em; subst.
  - rewrite <- Hei, sub_splice_same by lia. by apply decode_encode_inode.
  - rewrite Eb, sub_splice_other; [done|lia|]. rewrite Hei. apply inode_slots; auto.
  - congruence.
  - done.
Qed.

(** A write outside the inode table leaves the inodes; a write to the table
    leaves the other blocks. *)
Lemma inode_at_put_block d k l n :
  length l = 512%nat -> k <> inode_block n -> inode_at (put_block d k l) n = inode_at d n.
Proof. intros Hl Hk. unfold inode_at. by rewrite disk_block_put, decide_False by done. Qed.

Lemma disk_block_put_inode d n i k :
  disk_ok d -> inode_ok i -> k <> inode_block n -> disk_block (put_inode d n i) k = disk_block d k.
Proof.
  intros Hd Hi Hk. unfold put_inode. rewrite disk_block_put by (by apply put_inode_block).
  by rewrite decide_False.
Qed.

(** ** The primitives on the state *)

Section primitives.
Context {H : Type} `{Allocator H}.
Implicit Types s : fs_t H.

Lemma set_heap_id s : set_heap (fs_heap s) s = s.
Proof. by destruct s. Qed.

Lemma set_rd_id s : set_rd (fs_rd s) s = s.
Proof. by destruct s. Qed.

Lemma exec_kmalloc_buf s B size :
  alloc_rep (fs_heap s) B -> 0 < size <= MAX_REQUEST ->
  match take_block size B with
  | None => exec (kmalloc_buf size) s = (Val null_buf, s)
  | Some (p, B') => exists h', exec (kmalloc_buf size) s = (Val (mk_buf p Uninit), set_heap h' s) /\
      alloc_rep h' B' /\ p <> 0
  end.
Proof.
  intros Hr Hs. pose proof (kmalloc_law _ _ size Hr Hs) as Hk. unfold kmalloc_buf.
  destruct (take_block size B) as [[p B']|].
  - destruct Hk as (h' & E & Hr' & Hp). exists h'. run. rewrite E. run. done.
  - run. rewrite Hk. run. by rewrite set_heap_id.
Qed.

Lemma exec_kfree_buf s h0 B B' p size d :
  alloc_rep h0 B -> 0 < size <= MAX_REQUEST -> take_block size B = Some (p, B') ->
  alloc_rep (fs_heap s) B' ->
  exists h', exec (kfree_buf (mk_buf p d)) s = (Val tt, set_heap h' s) /\ alloc_rep h' B.
Proof.
  intros Hr0 Hs Ht Hr. destruct (kfree_law h0 (fs_heap s) B B' p size Hr0 Hs Ht Hr) as (h' & E & Hr').
  exists h'. unfold kfree_buf. run. cbn [b_ptr]. rewrite E. run. done.
Qed.

Lemma exec_read_block_fs s n b :
  disk_ok (fs_rd s) -> 0 <= n < 2048 -> is_null b = false ->
  exec (read_block n b) s = (Val (0, mk_buf (b_ptr b) (Bytes (disk_block (fs_rd s) n))), s).
Proof.
  intros Hd Hn Hb. unfold read_block. run. rewrite exec_read_block by done. run. by rewrite set_rd_id.
Qed.

Lemma exec_write_block_fs s n p l :
  disk_ok (fs_rd s) -> 0 <= n < 2048 -> p <> 0 -> length l = 512%nat ->
  exec (write_block n (mk_buf p (Bytes l))) s = (Val 0, set_rd (put_block (fs_rd s) n l) s).
Proof. intros Hd Hn Hp Hl. unfold write_block. run. by rewrite exec_write_block. Qed.

Lemma nonnull p d : p <> 0 -> is_null (mk_buf p d) = false.
Proof. intros. by apply Z.eqb_neq. Qed.

Lemma request_512 : 0 < FS_BLOCK_SIZE <= MAX_REQUEST.
Proof. unfold FS_BLOCK_SIZE, MAX_REQUEST. lia. Qed.

Lemma inode_block_range n : 0 <= n < 512 -> 3 <= inode_block n < 89.
Proof. unfold inode_block. intros. dlia. Qed.

Lemma inode_position n : 0 <= n ->
  FS_INODE_TABLE_BLOCK + n / inodes_per_block = inode_block n /\
  Z.to_nat (n mod inodes_per_block * Z.of_nat INODE_SIZE) = inode_offset n.
Proof. intros. done. Qed.

(** Side conditions of the primitives. *)
Ltac fs_side := first [done | lia | by apply nonnull | by apply put_inode_block].

(** [read_inode]: the inode, or -1 when there is no memory for the buffer. *)
Lemma exec_read_inode s B n :
  alloc_rep (fs_heap s) B -> disk_ok (fs_rd s) -> 0 <= n < 512 ->
  exists h', alloc_rep h' B /\
    exec (read_inode n) s =
      (Val (match take_block FS_BLOCK_SIZE B with None => None | Some _ => Some (inode_at (fs_rd s) n) end),
       set_heap h' s).
Proof.
  intros Hr Hd Hn. unfold read_inode. rewrite (proj2 (Z.leb_gt FS_MAX_INODES n)) by (unfold FS_MAX_INODES; lia).
  destruct (inode_position n) as [-> ->]; [lia|]. cbv zeta. pose proof (inode_block_range n Hn) as Hb.
  pose proof (exec_kmalloc_buf s B FS_BLOCK_SIZE Hr request_512) as Hk. rewrite exec_bind.
  destruct (take_block FS_BLOCK_SIZE B) as [[p B']|] eqn:Et.
  - destruct Hk as (h1 & -> & Hr1 & Hp). cbv iota. rewrite nonnull by done. rewrite exec_bind.
    rewrite exec_read_block_fs by fs_side.
    cbv iota. cbn [b_ptr bytes_of b_data]. run.
    destruct (exec_kfree_buf (set_heap h1 s) (fs_heap s) B B' p FS_BLOCK_SIZE
      (Bytes (disk_block (fs_rd (set_heap h1 s)) (inode_block n))) Hr request_512 Et Hr1) as (h2 & -> & Hr2).
    exists h2. split; [done|]. done.
  - rewrite Hk. cbv iota. exists (fs_heap s). split; [done|]. run. by rewrite set_heap_id.
Qed.

(** [write_inode]: the slot is replaced, or -1 when there is no memory. *)
Lemma exec_write_inode s B n i :
  alloc_rep (fs_heap s) B -> disk_ok (fs_rd s) -> 0 <= n < 512 -> inode_ok i ->
  exists h', alloc_rep h' B /\
    exec (write_inode n i) s =
      match take_block FS_BLOCK_SIZE B with
      | None => (Val (-1), set_heap h' s)
      | Some _ => (Val 0, set_heap h' (set_rd (put_inode (fs_rd s) n i) s))
      end.
Proof.
  intros Hr Hd Hn Hi. unfold write_inode.
  rewrite (proj2 (Z.leb_gt FS_MAX_INODES n)) by (unfold FS_MAX_INODES; lia).
  destruct (inode_position n) as [-> ->]; [lia|]. cbv zeta.
  pose proof (exec_kmalloc_buf s B FS_BLOCK_SIZE Hr request_512) as Hk. rewrite exec_bind.
  pose proof (inode_block_range n Hn) as Hb.
  destruct (take_block FS_BLOCK_SIZE B) as [[p B']|] eqn:Et.
  - destruct Hk as (h1 & -> & Hr1 & Hp). cbv iota. rewrite nonnull by done. rewrite exec_bind.
    rewrite exec_read_block_fs by fs_side.
    cbv iota. cbn [b_ptr bytes_of b_data]. run. unfold bytes_of. cbn [b_data]. run.
    rewrite exec_write_block_fs by fs_side. run.
    set (s2 := set_rd _ _).
    match goal with |- context [kfree_buf (mk_buf p ?d)] =>
      destruct (exec_kfree_buf s2 (fs_heap s) B B' p FS_BLOCK_SIZE d Hr request_512 Et Hr1)
        as (h2 & -> & Hr2) end.
    exists h2. split; [done|]. done.
  - rewrite Hk. cbv iota. exists (fs_heap s). split; [done|]. run. by rewrite set_heap_id.
Qed.

(** ** A mounted file system *)

(** The bitmap of a mounted file system is kept twice: in the heap and in its
    block on the disk. *)
Definition mirrors (b : buf) (l : list Z) : Prop := b_ptr b <> 0 /\ b_data b = Bytes l.

Definition ibits s : list Z := disk_block (fs_rd s) 1.
Definition dbits s : list Z := disk_block (fs_rd s) 2.

Record mounted s (B : blocks) : Prop := {
  mt_heap : alloc_rep (fs_heap s) B;
  mt_disk : disk_ok (fs_rd s);
  mt_ib : mirrors (inode_bitmap s) (ibits s);
  mt_db : mirrors (data_bitmap s) (dbits s);
  mt_ifree : free_inodes (superblock s) = 512 - cnt (bm_bit 8 (ibits s)) 512;
  mt_dfree : free_blocks (superblock s) = 1981 - cnt (bm_bit 8 (dbits s)) 1981;
  mt_files : length (open_files s) = 16%nat;
  mt_up : fs_initialized s = 1
}.

(** The state with the bitmap of the data blocks, or of the inodes, replaced. *)
Definition with_dbits s (l : list Z) (d : Z) : fs_t H :=
  set_rd (put_block (fs_rd s) 2 l)
    (set_superblock (add_free_blocks d (superblock s))
      (set_data_bitmap (mk_buf (b_ptr (data_bitmap s)) (Bytes l)) s)).
Definition with_ibits s (l : list Z) (d : Z) : fs_t H :=
  set_rd (put_block (fs_rd s) 1 l)
    (set_superblock (add_free_inodes d (superblock s))
      (set_inode_bitmap (mk_buf (b_ptr (inode_bitmap s)) (Bytes l)) s)).

Lemma bits_block d n : disk_ok d -> is_block (disk_block d n).
Proof. apply disk_block_ok. Qed.

Lemma bits_in_map l i : is_block l -> 0 <= i < 4096 -> in_map 8 l i.
Proof. intros [Hl _] Hi. unfold in_map. rewrite Hl. lia. Qed.

Lemma bm_set_block l i : is_block l -> 0 <= i < 4096 -> is_block (bm_set 8 l i).
Proof.
  intros Hl Hi. split; [rewrite length_bm_set; apply Hl|].
  apply (bm_set_wf 8 ltac:(lia)); [by apply block_bits_wf|by apply bits_in_map].
Qed.

Lemma bm_clear_block l i : is_block l -> 0 <= i < 4096 -> is_block (bm_clear 8 l i).
Proof.
  intros Hl Hi. split; [rewrite length_bm_clear; apply Hl|].
  apply (bm_clear_wf 8 ltac:(lia)); [by apply block_bits_wf|by apply bits_in_map].
Qed.

Lemma mounted_with_dbits s B l d :
  mounted s B -> is_block l -> cnt (bm_bit 8 l) 1981 = cnt (bm_bit 8 (dbits s)) 1981 - d ->
  mounted (with_dbits s l d) B.
Proof.
  intros [Hh Hd [Hip Hi] [Hdp Hdb] Hif Hdf Hf Hu] Hl Hc. pose proof Hl as [Hlen _].
  split; unfold with_dbits, mirrors, ibits, dbits in *; cbn [fs_heap fs_rd inode_bitmap data_bitmap
    superblock open_files fs_initialized set_rd set_superblock set_data_bitmap b_ptr b_data free_inodes
    free_blocks add_free_blocks]; rewrite ?disk_block_put by done.
  - done.
  - by apply put_block_ok.
  - done.
  - done.
  - by rewrite decide_False by done.
  - rewrite decide_True by done. rewrite Hdf. rewrite Hc. rewrite u32_small; [lia|].
    unfold is_u32. pose proof (cnt_bounds (bm_bit 8 (disk_block (fs_rd s) 2)) 1981).
    pose proof (cnt_bounds (bm_bit 8 l) 1981). lia.
  - done.
  - done.
Qed.

Lemma mounted_with_ibits s B l d :
  mounted s B -> is_block l -> cnt (bm_bit 8 l) 512 = cnt (bm_bit 8 (ibits s)) 512 - d ->
  mounted (with_ibits s l d) B.
Proof.
  intros [Hh Hd [Hip Hi] [Hdp Hdb] Hif Hdf Hf Hu] Hl Hc. pose proof Hl as [Hlen _].
  split; unfold with_ibits, mirrors, ibits, dbits in *; cbn [fs_heap fs_rd inode_bitmap data_bitmap
    superblock open_files fs_initialized set_rd set_superblock set_inode_bitmap b_ptr b_data free_inodes
    free_blocks add_free_inodes]; rewrite ?disk_block_put by done.
  - done.
  - by apply put_block_ok.
  - done.
  - done.
  - rewrite decide_True by done. rewrite Hif. rewrite Hc. rewrite u32_small; [lia|].
    unfold is_u32. pose proof (cnt_bounds (bm_bit 8 (disk_block (fs_rd s) 1)) 512).
    pose proof (cnt_bounds (bm_bit 8 l) 512). lia.
  - by rewrite decide_False by done.
  - done.
  - done.
Qed.

(** Heap and inode-table updates keep a file system mounted. *)
Lemma mounted_set_heap s B h B' : mounted s B -> alloc_rep h B' -> mounted (set_heap h s) B'.
Proof. intros [] Hr. by split. Qed.

Lemma mounted_put_block s B k l :
  mounted s B -> is_block l -> k <> 1 -> k <> 2 -> mounted (set_rd (put_block (fs_rd s) k l) s) B.
Proof.
  intros [Hh Hd Hi Hdb Hif Hdf Hf Hu] Hl Hk1 Hk2. pose proof Hl as [Hlen _].
  split; unfold ibits, dbits in *; cbn [fs_rd set_rd]; rewrite ?disk_block_put by done;
    rewrite ?decide_False by done; try done. by apply put_block_ok.
Qed.

Lemma mounted_put_inode s B n i :
  mounted s B -> inode_ok i -> 0 <= n < 512 -> mounted (set_rd (put_inode (fs_rd s) n i) s) B.
Proof.
  intros Hm Hi Hn. pose proof (inode_block_range n Hn). apply mounted_put_block; [done| |lia|lia].
  apply put_inode_block; [apply (mt_disk _ _ Hm)|done].
Qed.

Lemma mounted_set_open_files s B l :
  mounted s B -> length l = 16%nat -> mounted (set_open_files l s) B.
Proof. intros [] Hl. by split. Qed.

(** [alloc_data_block]: the first block that is not in use, or nothing. *)
Lemma exec_alloc_data_block s B :
  mounted s B ->
  exec alloc_data_block s =
    (Val (first_free (dbits s) 1981),
     if first_free (dbits s) 1981 =? NONE then s
     else with_dbits s (bm_set 8 (dbits s) (first_free (dbits s) 1981)) (-1)).
Proof.
  intros Hm. pose proof Hm as [Hh Hd [Hip Hi] [Hdp Hdb] Hif Hdf Hf Hu].
  pose proof (bits_block (fs_rd s) 2 Hd) as Hbl. fold (dbits s) in Hbl.
  unfold alloc_data_block. run. unfold bytes_of. rewrite Hdb. run.
  rewrite bitmap_find_free_eq by (destruct Hbl as [-> _]; unfold FS_MAX_DATA_BLOCKS; lia). run.
  fold FS_MAX_DATA_BLOCKS. change 1981 with FS_MAX_DATA_BLOCKS.
  destruct (first_free_spec (dbits s) FS_MAX_DATA_BLOCKS ltac:(unfold FS_MAX_DATA_BLOCKS, NONE; lia))
    as [[-> _]|(Hr & Hfree & _)]; [by run|].
  unfold FS_MAX_DATA_BLOCKS in *. rewrite (proj2 (Z.eqb_neq _ NONE)) by (unfold NONE; lia). cbn [negb]. run.
  rewrite bitmap_set_eq by (first [by apply block_bits_wf | apply bits_in_map; [done|lia]]). run.
  unfold upd_sb. run. rewrite exec_write_block_fs; [by run|done|done|done|].
  rewrite length_bm_set. apply Hbl.
Qed.

Lemma exec_alloc_inode s B :
  mounted s B ->
  exec alloc_inode s =
    (Val (first_free (ibits s) 512),
     if first_free (ibits s) 512 =? NONE then s
     else with_ibits s (bm_set 8 (ibits s) (first_free (ibits s) 512)) (-1)).
Proof.
  intros Hm. pose proof Hm as [Hh Hd [Hip Hi] [Hdp Hdb] Hif Hdf Hf Hu].
  pose proof (bits_block (fs_rd s) 1 Hd) as Hbl. fold (ibits s) in Hbl.
  unfold alloc_inode. run. unfold bytes_of. rewrite Hi. run.
  rewrite bitmap_find_free_eq by (destruct Hbl as [-> _]; unfold FS_MAX_INODES; lia). run.
  change 512 with FS_MAX_INODES.
  destruct (first_free_spec (ibits s) FS_MAX_INODES ltac:(unfold FS_MAX_INODES, NONE; lia))
    as [[-> _]|(Hr & Hfree & _)]; [by run|].
  unfold FS_MAX_INODES in *. rewrite (proj2 (Z.eqb_neq _ NONE)) by (unfold NONE; lia). cbn [negb]. run.
  rewrite bitmap_set_eq by (first [by apply block_bits_wf | apply bits_in_map; [done|lia]]). run.
  unfold upd_sb. run. rewrite exec_write_block_fs; [by run|done|done|done|].
  rewrite length_bm_set. apply Hbl.
Qed.

Lemma exec_free_data_block s B b :
  mounted s B -> 0 <= b < 4096 ->
  exec (free_data_block b) s = (Val tt, with_dbits s (bm_clear 8 (dbits s) b) 1).
Proof.
  intros Hm Hb. pose proof Hm as [Hh Hd [Hip Hi] [Hdp Hdb] Hif Hdf Hf Hu].
  pose proof (bits_block (fs_rd s) 2 Hd) as Hbl. fold (dbits s) in Hbl.
  unfold free_data_block. run. unfold bytes_of. rewrite Hdb. run.
  rewrite bitmap_clear_eq by (first [by apply block_bits_wf | by apply bits_in_map]). run.
  unfold upd_sb. run. rewrite exec_write_block_fs; [by run|done|done|done|].
  rewrite length_bm_clear. apply Hbl.
Qed.

Lemma exec_free_inode s B n :
  mounted s B -> 0 <= n < 4096 ->
  exec (free_inode n) s = (Val tt, with_ibits s (bm_clear 8 (ibits s) n) 1).
Proof.
  intros Hm Hb. pose proof Hm as [Hh Hd [Hip Hi] [Hdp Hdb] Hif Hdf Hf Hu].
  pose proof (bits_block (fs_rd s) 1 Hd) as Hbl. fold (ibits s) in Hbl.
  unfold free_inode. run. unfold bytes_of. rewrite Hi. run.
  rewrite bitmap_clear_eq by (first [by apply block_bits_wf | by apply bits_in_map]). run.
  unfold upd_sb. run. rewrite exec_write_block_fs; [by run|done|done|done|].
  rewrite length_bm_clear. apply Hbl.
Qed.

(** What an allocation of a data block does, in one statement. *)
Lemma alloc_block_step s B :
  mounted s B ->
  exists s', exec alloc_data_block s = (Val (first_free (dbits s) 1981), s') /\ mounted s' B /\
    let b := first_free (dbits s) 1981 in
    ((b = NONE /\ s' = s /\ forall j, 0 <= j < 1981 -> bm_bit 8 (dbits s) j = true) \/
     (0 <= b < 1981 /\ (forall j, 0 <= j < 1981 -> bm_bit 8 (dbits s') j = (b =? j) || bm_bit 8 (dbits s) j) /\
      bm_bit 8 (dbits s) b = false /\ (forall j, 0 <= j < b -> bm_bit 8 (dbits s) j = true) /\
      free_blocks (superblock s') = free_blocks (superblock s) - 1 /\
      (forall k, k <> 2 -> disk_block (fs_rd s') k = disk_block (fs_rd s) k))).
Proof.
  intros Hm. rewrite (exec_alloc_data_block s B Hm). pose proof Hm as [_ Hd _ _ _ Hdf _ _].
  pose proof (bits_block (fs_rd s) 2 Hd) as Hbl. fold (dbits s) in Hbl.
  destruct (first_free_spec (dbits s) 1981 ltac:(unfold NONE; lia)) as [[-> Hall]|(Hr & Hfree & Hmin)].
  { exists s. split; [done|]. split; [done|]. by left. }
  rewrite (proj2 (Z.eqb_neq _ NONE)) by (unfold NONE; lia).
  set (b := first_free _ _) in *. eexists. split; [done|].
  assert (is_block (bm_set 8 (dbits s) b)) as Hbl2 by (apply bm_set_block; [done|lia]).
  assert (dbits (with_dbits s (bm_set 8 (dbits s) b) (-1)) = bm_set 8 (dbits s) b) as Edb.
  { unfold dbits at 1, with_dbits. cbn [fs_rd set_rd]. by rewrite disk_block_put, decide_True by (done || apply Hbl2). }
  split.
  - apply mounted_with_dbits; [done|done|]. rewrite cnt_bm_set; [lia|lia| |lia|done].
    destruct Hbl as [-> _]. lia.
  - right. rewrite Edb. split_and!; [lia|lia| |done|done| |].
    + intros j Hj. apply bm_bit_set; [lia|apply bits_in_map; [done|lia]..].
    + unfold with_dbits. cbn [superblock set_rd set_superblock free_blocks add_free_blocks].
      rewrite u32_small; [lia|]. rewrite Hdf. unfold is_u32.
      pose proof (cnt_bounds (bm_bit 8 (bm_set 8 (dbits s) b)) 1981) as Hcb.
      rewrite cnt_bm_set in Hcb; [|lia| |lia|done].
      * pose proof (cnt_bounds (bm_bit 8 (dbits s)) 1981). lia.
      * destruct Hbl as [-> _]. lia.
    + intros k Hk. unfold with_dbits. cbn [fs_rd set_rd].
      by rewrite disk_block_put, decide_False by (done || apply Hbl2).
Qed.

End primitives.
