(* ===== verification/FsMount.v ===== *)
(** * WitFS: formatting and mounting, and the theorems about the primitives *)

From S2P Require Import Prelude Bits Mem Bytes CString Heap Alloc HeapAlloc RamDisk Fs FsDisk.

Section mount.
Context {H : Type} `{Allocator H}.
Implicit Types s : fs_t H.

(** ** fs_format *)

Definition zero_block : list Z := replicate 512 0.
Definition bit0_block : list Z := 1 :: replicate 511 0.

Lemma zero_block_ok : is_block zero_block.
Proof. unfold zero_block. split; [by rewrite length_replicate|]. apply Forall_replicate. unfold is_u8. lia. Qed.

Lemma bit0_block_ok : is_block bit0_block.
Proof. split; [done|]. constructor; [unfold is_u8; lia|]. apply Forall_replicate. unfold is_u8. lia. Qed.

Lemma bit0_bit j : 0 <= j < 4096 -> bm_bit 8 bit0_block j = (j =? 0).
Proof.
  intros Hj. unfold bm_bit, bm_word, bit0_block. destruct (decide (j / 8 = 0)) as [E|E].
  - rewrite E. cbn. assert (j mod 8 = j) as -> by dlia.
    assert (j = 0 \/ j = 1 \/ j = 2 \/ j = 3 \/ j = 4 \/ j = 5 \/ j = 6 \/ j = 7) as Hc by dlia.
    destruct_or! Hc; by subst.
  - replace (Z.to_nat (j / 8)) with (S (Z.to_nat (j / 8 - 1))) by dlia.
    change (Z.testbit (replicate 511 0 !!! Z.to_nat (j / 8 - 1)) (j mod 8) = (j =? 0)).
    rewrite lookup_total_replicate_2 by dlia. rewrite Z.bits_0. symmetry. apply Z.eqb_neq. dlia.
Qed.

Lemma bit0_count n : (0 < n <= 4096)%nat -> cnt (bm_bit 8 bit0_block) n = 1.
Proof.
  intros Hn. rewrite (cnt_ext _ (fun j => j =? 0)) by (intros; apply bit0_bit; lia).
  destruct Hn as [Hn _]. induction n as [|n IH]; [lia|]. rewrite cnt_S.
  destruct n as [|n]; [done|]. rewrite IH by lia.
  by rewrite (proj2 (Z.eqb_neq (Z.of_nat (S n)) 0)) by lia.
Qed.

Lemma set_bit0 : bitmap_set zero_block 0 = Some bit0_block.
Proof. by vm_compute. Qed.

(** The root directory of a new file system. *)
Definition new_root (now : Z) : fs_inode_t :=
  mk_inode (Z.lor FS_TYPE_DIR FS_PERM_DEFAULT) 0 0 0 now now (replicate 10 0) (replicate 4 0).

Lemma new_inode_ok mode now : is_u32 mode -> is_u32 now ->
  inode_ok (mk_inode mode 0 0 0 now now (replicate 10 0) (replicate 4 0)).
Proof.
  intros. split; [|done|done]. unfold inode_words. cbn. repeat constructor; unfold is_u32 in *; lia.
Qed.

Lemma fresh_superblock_ok : sb_ok fresh_superblock.
Proof.
  split_and!.
  - repeat constructor; unfold is_u32; by vm_compute.
  - done.
  - apply Forall_replicate. unfold is_u8. lia.
Qed.

Definition formatted (d : ramdisk_t) (now : Z) : ramdisk_t :=
  put_block (put_block (put_block (put_block (put_inode d 0 (new_root now)) 67 zero_block)
    0 (encode_sb fresh_superblock)) 1 bit0_block) 2 bit0_block.

Lemma exec_zeroed b : b_data b <> Freed -> zeroed b 512 = Some (mk_buf (b_ptr b) (Bytes zero_block)).
Proof. intros Hb. unfold zeroed. by destruct (b_data b). Qed.

(** A temporary block, filled and written to the disk, with no trace in the heap. *)
Lemma exec_temp_write s B (k : Z) (l : list Z) (p : Z) B' h2 h :
  alloc_rep h B -> take_block FS_BLOCK_SIZE B = Some (p, B') -> p <> 0 ->
  alloc_rep h2 B' -> disk_ok (fs_rd s) -> 0 <= k < 2048 -> length l = 512%nat ->
  exists h3, alloc_rep h3 B /\ forall b, b_ptr b = p ->
    exec (write_block k (mk_buf p (Bytes l)) ;; kfree_buf b) (set_heap h2 s) =
      (Val tt, set_heap h3 (set_rd (put_block (fs_rd s) k l) s)).
Proof.
  intros Hr Et Hp Hr2 Hd Hk Hl.
  destruct (exec_kfree_buf (set_rd (put_block (fs_rd s) k l) (set_heap h2 s)) h B B' p FS_BLOCK_SIZE
    Uninit Hr request_512 Et Hr2) as (h3 & E & Hr3).
  exists h3. split; [done|]. intros b <-. rewrite exec_bind, exec_write_block_fs by done. exact E.
Qed.

Lemma exec_format_disk s B ib db :
  alloc_rep (fs_heap s) B -> room 1 512 B -> disk_ok (fs_rd s) -> is_u32 (fs_ticks s) ->
  ib <> 0 -> db <> 0 -> superblock s = fresh_superblock ->
  exists h', alloc_rep h' B /\
    exec (format_disk (mk_buf ib (Bytes bit0_block)) (mk_buf db (Bytes bit0_block))) s =
      (Val tt, set_initialized 1 (set_heap h' (set_rd (formatted (fs_rd s) (fs_ticks s)) s))).
Proof.
  intros Hr Hroom Hd Ht Hip Hdp Hsb. cbn [room] in Hroom. fold FS_BLOCK_SIZE in Hroom.
  destruct (take_block FS_BLOCK_SIZE B) as [[p B']|] eqn:Et; [|done].
  assert (inode_ok (new_root (fs_ticks s))) as Hnr by (by apply new_inode_ok).
  unfold format_disk, timer_get_ticks. run. fold (new_root (fs_ticks s)).
  destruct (exec_write_inode s B 0 (new_root (fs_ticks s)) Hr Hd ltac:(lia) Hnr) as (h1 & Hr1 & ->).
  rewrite Et. cbv iota. pose proof (put_inode_ok _ 0 _ Hd Hnr) as Hd1. set (s2 := set_heap h1 _).
  pose proof (exec_kmalloc_buf s2 B FS_BLOCK_SIZE Hr1 request_512) as Hk. rewrite Et in Hk.
  destruct Hk as (h2 & E2 & Hr2 & Hp). rewrite exec_bind, E2. cbv iota. rewrite (nonnull p Uninit Hp).
  cbn [negb]. rewrite exec_bind, exec_bind, exec_zeroed by done. rewrite exec_defined_Some. cbv iota. cbn [b_ptr].
  destruct (exec_temp_write s2 B FS_DATA_BLOCKS_START zero_block p B' h2 h1 Hr1 Et Hp Hr2 Hd1)
    as (h3 & Hr3 & E3); [unfold FS_DATA_BLOCKS_START; lia|apply zero_block_ok|].
  rewrite E3 by done. cbv iota.
  set (s3 := set_heap h3 _). assert (disk_ok (fs_rd s3)) as Hd3 by (apply put_block_ok; [done|apply zero_block_ok]).
  pose proof (exec_kmalloc_buf s3 B FS_BLOCK_SIZE Hr3 request_512) as Hk. rewrite Et in Hk.
  destruct Hk as (h4 & E4 & Hr4 & _). rewrite exec_bind, E4. cbv iota. rewrite (nonnull p Uninit Hp).
  cbn [negb]. rewrite exec_bind, exec_bind, exec_gets. cbv iota.
  change (superblock (set_heap h4 s3)) with (superblock s). rewrite Hsb. cbn [b_ptr].
  pose proof (encode_sb_block _ fresh_superblock_ok) as Hsbb.
  destruct (exec_temp_write s3 B FS_SUPERBLOCK_BLOCK (encode_sb fresh_superblock) p B' h4 h3 Hr3 Et Hp Hr4 Hd3)
    as (h5 & Hr5 & E5); [unfold FS_SUPERBLOCK_BLOCK; lia|apply Hsbb|].
  rewrite E5 by done. cbv iota.
  set (s5 := set_heap h5 _). assert (disk_ok (fs_rd s5)) as Hd5 by (by apply put_block_ok).
  run. rewrite exec_write_block_fs by done. run.
  rewrite exec_write_block_fs by (first [done | by apply put_block_ok, bit0_block_ok]). run.
  by exists h5.
Qed.

(** Formatting, from the point where both bitmaps are allocated. *)
Lemma exec_fs_format s B :
  alloc_rep (fs_heap s) B -> room 1 512 B -> disk_ok (fs_rd s) -> is_u32 (fs_ticks s) ->
  b_ptr (inode_bitmap s) <> 0 -> b_data (inode_bitmap s) <> Freed ->
  b_ptr (data_bitmap s) <> 0 -> b_data (data_bitmap s) <> Freed ->
  exists h', alloc_rep h' B /\
    exec fs_format s = (Val tt, mk_fs h' (formatted (fs_rd s) (fs_ticks s)) fresh_superblock
      (mk_buf (b_ptr (inode_bitmap s)) (Bytes bit0_block))
      (mk_buf (b_ptr (data_bitmap s)) (Bytes bit0_block)) (open_files s) 1 (fs_ticks s)).
Proof.
  intros Hr Hroom Hd Ht Hip Hif Hdp Hdf.
  unfold fs_format, ramdisk_is_initialized. run. rewrite (dk_init _ Hd). cbn [Z.eqb]. run.
  rewrite set_rd_id. unfold is_null.
  rewrite (proj2 (Z.eqb_neq (b_ptr (inode_bitmap s)) 0) Hip). run.
  rewrite (proj2 (Z.eqb_neq (b_ptr (data_bitmap s)) 0) Hdp). run.
  rewrite (proj2 (Z.eqb_neq (b_ptr (inode_bitmap s)) 0) Hip), (proj2 (Z.eqb_neq (b_ptr (data_bitmap s)) 0) Hdp).
  cbn [orb]. run. unfold upd_sb. run. rewrite !exec_zeroed by done. run.
  unfold bytes_of. cbn [b_data b_ptr]. run. rewrite set_bit0. run. rewrite set_bit0. run.
  match goal with |- context [exec (format_disk _ _) ?s1] =>
    destruct (exec_format_disk s1 B (b_ptr (inode_bitmap s)) (b_ptr (data_bitmap s)) Hr Hroom Hd Ht Hip Hdp eq_refl)
      as (h' & Hr' & ->) end.
  by exists h'.
Qed.

Lemma formatted_ok d now : disk_ok d -> is_u32 now -> disk_ok (formatted d now).
Proof.
  intros Hd Ht. unfold formatted.
  repeat (apply put_block_ok; [|first [apply zero_block_ok | apply bit0_block_ok
    | apply encode_sb_block, fresh_superblock_ok]]).
  apply put_inode_ok; [done|by apply new_inode_ok].
Qed.

Lemma formatted_blocks d now k :
  disk_ok d -> is_u32 now ->
  disk_block (formatted d now) k =
  if decide (k = 2) then bit0_block else if decide (k = 1) then bit0_block else
  if decide (k = 0) then encode_sb fresh_superblock else if decide (k = 67) then zero_block
  else disk_block (put_inode d 0 (new_root now)) k.
Proof.
  intros Hd Ht. unfold formatted.
  rewrite !disk_block_put by (first [apply bit0_block_ok | apply zero_block_ok
    | apply encode_sb_block, fresh_superblock_ok]). done.
Qed.

Lemma formatted_bits d now :
  disk_ok d -> is_u32 now ->
  disk_block (formatted d now) 1 = bit0_block /\ disk_block (formatted d now) 2 = bit0_block.
Proof. intros. by rewrite !formatted_blocks. Qed.

Lemma formatted_root d now :
  disk_ok d -> is_u32 now -> inode_at (formatted d now) 0 = new_root now.
Proof.
  intros Hd Ht. unfold inode_at. change (inode_block 0) with 3. rewrite formatted_blocks by done.
  rewrite !decide_False by done. change 3 with (inode_block 0).
  fold (inode_at (put_inode d 0 (new_root now)) 0).
  rewrite inode_at_put by (first [done|lia|by apply new_inode_ok]). by rewrite decide_True.
Qed.

(** With NULL bitmaps, [fs_format] allocates them first. *)
Lemma exec_fs_format_boot s B p1 B1 p2 B2 :
  alloc_rep (fs_heap s) B -> disk_ok (fs_rd s) ->
  b_ptr (inode_bitmap s) = 0 -> b_ptr (data_bitmap s) = 0 ->
  take_block FS_BLOCK_SIZE B = Some (p1, B1) -> take_block FS_BLOCK_SIZE B1 = Some (p2, B2) ->
  exists h2, alloc_rep h2 B2 /\ p1 <> 0 /\ p2 <> 0 /\
    exec fs_format s =
    exec fs_format (set_data_bitmap (mk_buf p2 Uninit) (set_inode_bitmap (mk_buf p1 Uninit) (set_heap h2 s))).
Proof.
  intros Hr Hd Hi Hdb E1 E2.
  pose proof (exec_kmalloc_buf s B FS_BLOCK_SIZE Hr request_512) as Hk. rewrite E1 in Hk.
  destruct Hk as (h1 & X1 & Hr1 & Hp1).
  pose proof (exec_kmalloc_buf (set_inode_bitmap (mk_buf p1 Uninit) (set_heap h1 s)) B1 FS_BLOCK_SIZE Hr1 request_512) as Hk.
  rewrite E2 in Hk. destruct Hk as (h2 & X2 & Hr2 & Hp2).
  exists h2. split_and!; [done..|]. unfold fs_format, ramdisk_is_initialized. run.
  cbn [fs_rd set_data_bitmap set_inode_bitmap set_heap]. rewrite (dk_init _ Hd). cbn [Z.eqb]. run.
  rewrite !set_rd_id. unfold is_null. rewrite Hi. cbn [Z.eqb]. run. rewrite X1. run.
  cbn [data_bitmap set_inode_bitmap set_heap inode_bitmap set_data_bitmap]. rewrite Hdb. cbn [Z.eqb]. run.
  cbn [data_bitmap set_inode_bitmap set_heap inode_bitmap set_data_bitmap set_rd b_ptr].
  rewrite X2. rewrite !(proj2 (Z.eqb_neq p1 0) Hp1). run.
  cbn [data_bitmap set_inode_bitmap set_heap inode_bitmap set_data_bitmap set_rd b_ptr].
  rewrite !(proj2 (Z.eqb_neq p2 0) Hp2). run.
  cbn [data_bitmap set_inode_bitmap set_heap inode_bitmap set_data_bitmap set_rd b_ptr].
  rewrite !(proj2 (Z.eqb_neq p1 0) Hp1), !(proj2 (Z.eqb_neq p2 0) Hp2). done.
Qed.

(** ** fs_init *)

Definition closed (f : fs_file_t) : fs_file_t := mk_file (f_inode f) (f_position f) (f_flags f) 0.

Lemma exec_fs_init s B p1 B1 p2 B2 :
  alloc_rep (fs_heap s) B -> disk_ok (fs_rd s) ->
  take_block FS_BLOCK_SIZE B = Some (p1, B1) -> take_block FS_BLOCK_SIZE B1 = Some (p2, B2) ->
  room 1 512 B2 -> magic (decode_sb (disk_block (fs_rd s) 0)) = FS_MAGIC ->
  exists h', alloc_rep h' B2 /\ p1 <> 0 /\ p2 <> 0 /\
    exec fs_init s = (Val tt, mk_fs h' (fs_rd s) (decode_sb (disk_block (fs_rd s) 0))
      (mk_buf p1 (Bytes (disk_block (fs_rd s) 1))) (mk_buf p2 (Bytes (disk_block (fs_rd s) 2)))
      (closed <$> open_files s) 1 (fs_ticks s)).
Proof.
  intros Hr Hd E1 E2 Hroom Hmagic. cbn [room] in Hroom. fold FS_BLOCK_SIZE in Hroom.
  destruct (take_block FS_BLOCK_SIZE B2) as [[p3 B3]|] eqn:E3; [|done].
  pose proof (exec_kmalloc_buf s B FS_BLOCK_SIZE Hr request_512) as Hk. rewrite E1 in Hk.
  destruct Hk as (h1 & X1 & Hr1 & Hp1).
  set (s1 := set_inode_bitmap (mk_buf p1 Uninit) (set_heap h1 s)).
  pose proof (exec_kmalloc_buf s1 B1 FS_BLOCK_SIZE Hr1 request_512) as Hk.
  rewrite E2 in Hk. destruct Hk as (h2 & X2 & Hr2 & Hp2).
  set (s2 := set_data_bitmap (mk_buf p2 Uninit) (set_heap h2 s1)).
  pose proof (exec_kmalloc_buf s2 B2 FS_BLOCK_SIZE Hr2 request_512) as Hk.
  rewrite E3 in Hk. destruct Hk as (h3 & X3 & Hr3 & Hp3).
  unfold fs_init, ramdisk_is_initialized. run. rewrite (dk_init _ Hd). cbn [Z.eqb]. run.
  rewrite !set_rd_id, X1. run. fold s1. rewrite X2. run. fold s2.
  rewrite !nonnull by done. cbn [orb]. run. rewrite X3. run. rewrite nonnull by done. run.
  rewrite exec_read_block_fs by (first [done|lia|by apply nonnull]). run.
  unfold bytes_of. cbn [b_data b_ptr]. run. unfold upd_sb. run.
  match goal with |- context [exec (kfree_buf ?b) ?st] =>
    destruct (exec_kfree_buf st (fs_heap s2) B2 B3 p3 FS_BLOCK_SIZE (b_data b) Hr2 request_512 E3 Hr3)
      as (h4 & X4 & Hr4) end.
  cbn [b_data] in X4. rewrite X4. run. cbn [superblock set_heap set_superblock].
  change (fs_rd (set_heap h3 s2)) with (fs_rd s). change FS_SUPERBLOCK_BLOCK with 0.
  rewrite Hmagic, Z.eqb_refl. cbn [negb]. run.
  rewrite exec_read_block_fs by (first [done|lia|by apply nonnull]). run.
  rewrite exec_read_block_fs by (first [done|lia|by apply nonnull]). run.
  by exists h4.
Qed.

Lemma formatted_mounted s B ib db :
  alloc_rep (fs_heap s) B -> (exists d now, disk_ok d /\ is_u32 now /\ fs_rd s = formatted d now) ->
  superblock s = fresh_superblock -> ib <> 0 -> db <> 0 ->
  inode_bitmap s = mk_buf ib (Bytes bit0_block) -> data_bitmap s = mk_buf db (Bytes bit0_block) ->
  length (open_files s) = 16%nat -> fs_initialized s = 1 -> mounted s B.
Proof.
  intros Hr (d & now & Hd & Ht & Erd) Hsb Hib Hdb Ei Ed Hf Hu.
  assert (ibits s = bit0_block) as Hi1.
  { unfold ibits. rewrite Erd, formatted_blocks by done. by rewrite decide_False by done. }
  assert (dbits s = bit0_block) as Hd1.
  { unfold dbits. by rewrite Erd, formatted_blocks by done. }
  split; [done|rewrite Erd; by apply formatted_ok|..|done|done].
  - by rewrite Ei, Hi1.
  - by rewrite Ed, Hd1.
  - rewrite Hi1, Hsb, bit0_count by lia. done.
  - rewrite Hd1, Hsb, bit0_count by lia. done.
Qed.

(** A file system that was just formatted, its bitmaps not yet in memory or
    already there. *)
Definition fresh_fs s : Prop :=
  superblock s = fresh_superblock /\ inode_at (fs_rd s) 0 = new_root (fs_ticks s) /\
  ibits s = bit0_block /\ dbits s = bit0_block.

Lemma boot_exec k s B :
  alloc_rep (fs_heap s) B -> room (5 + k) 512 B -> disk_ok (fs_rd s) -> is_u32 (fs_ticks s) ->
  b_ptr (inode_bitmap s) = 0 -> b_ptr (data_bitmap s) = 0 -> length (open_files s) = 16%nat ->
  exists s1 s' B', exec fs_format s = (Val tt, s1) /\ exec fs_init s1 = (Val tt, s') /\
    fs_ticks s1 = fs_ticks s /\ fs_ticks s' = fs_ticks s /\ mounted s' B' /\ fresh_fs s' /\
    room (S k) 512 B' /\ take_blocks 4 512 B = Some B'.
Proof.
  intros Hr Hroom Hd Ht Hi Hdb Hf. cbn [room Nat.add] in Hroom. fold FS_BLOCK_SIZE in Hroom.
  destruct (take_block FS_BLOCK_SIZE B) as [[p1 B1]|] eqn:E1; [|done].
  destruct (take_block FS_BLOCK_SIZE B1) as [[p2 B2]|] eqn:E2; [|done].
  destruct (exec_fs_format_boot s B p1 B1 p2 B2 Hr Hd Hi Hdb E1 E2) as (h2 & Hr2 & Hp1 & Hp2 & X).
  set (sA := set_data_bitmap _ _) in *.
  destruct (exec_fs_format sA B2 Hr2) as (h3 & Hr3 & XB); [|done|done|done|done|done|done|].
  { cbn [room]. fold FS_BLOCK_SIZE. by destruct (take_block FS_BLOCK_SIZE B2) as [[]|]. }
  rewrite <- X in XB. set (sB := mk_fs _ _ _ _ _ _ _ _) in XB.
  destruct (take_block FS_BLOCK_SIZE B2) as [[p3 B3]|] eqn:E3; [|done].
  destruct (take_block FS_BLOCK_SIZE B3) as [[p4 B4]|] eqn:E4; [|done].
  assert (disk_ok (fs_rd sB)) as HdB by (by apply formatted_ok).
  assert (decode_sb (disk_block (fs_rd sB) 0) = fresh_superblock) as Esb.
  { cbn [fs_rd sB]. rewrite formatted_blocks, !decide_False, decide_True by done.
    apply decode_encode_sb, fresh_superblock_ok. }
  destruct (exec_fs_init sB B2 p3 B3 p4 B4 Hr3 HdB E3 E4) as (h5 & Hr5 & Hp3 & Hp4 & X5).
  { cbn [room]. fold FS_BLOCK_SIZE. by destruct (take_block FS_BLOCK_SIZE B4) as [[]|]. }
  { by rewrite Esb. }
  rewrite Esb in X5. cbn [fs_rd sB] in X5.
  destruct (formatted_bits (fs_rd sA) (fs_ticks sA) Hd Ht) as [F1 F2]. rewrite F1, F2 in X5.
  eexists sB, _, B4. split; [exact XB|]. split; [exact X5|]. split; [done|]. split; [done|]. split; [|split; [|split]].
  - apply (formatted_mounted _ B4 p3 p4); [exact Hr5| |reflexivity|exact Hp3|exact Hp4
      |reflexivity|reflexivity| |reflexivity].
    + exists (fs_rd sA), (fs_ticks sA). split_and!; [exact Hd|exact Ht|reflexivity].
    + cbn [open_files]. rewrite length_fmap. exact Hf.
  - split_and!; [reflexivity|by apply formatted_root|exact F1|exact F2].
  - exact Hroom.
  - cbn [take_blocks]. fold FS_BLOCK_SIZE. by rewrite E1, E2, E3, E4.
Qed.

(** ** The theorems *)

(** C3: at boot, with the RAM disk ready, no bitmaps in memory and room for five
    blocks in the heap, formatting and then mounting succeeds: the mounted file
    system is consistent (bitmaps in memory equal to those on the disk, counters
    equal to the number of free bits), its superblock is the one written by
    the format, the root directory is there, and only the root inode and
    its block are in use. *)
Theorem boot_mounts s B :
  alloc_rep (fs_heap s) B -> room 5 512 B -> disk_ok (fs_rd s) -> is_u32 (fs_ticks s) ->
  b_ptr (inode_bitmap s) = 0 -> b_ptr (data_bitmap s) = 0 -> length (open_files s) = 16%nat ->
  exists s' B', exec (fs_format ;; fs_init) s = (Val tt, s') /\ mounted s' B' /\
    superblock s' = fresh_superblock /\ inode_at (fs_rd s') 0 = new_root (fs_ticks s') /\
    (forall n, 0 <= n < 512 -> bm_bit 8 (ibits s') n = (n =? 0)) /\
    (forall b, 0 <= b < 1981 -> bm_bit 8 (dbits s') b = (b =? 0)).
Proof.
  intros Hr Hroom Hd Ht Hi Hdb Hf.
  destruct (boot_exec 0 s B Hr Hroom Hd Ht Hi Hdb Hf) as (s1 & s' & B' & X1 & X & _ & _ & Hm & (Hs & Hroot & Hib & Hdbb) & _).
  exists s', B'. split; [by rewrite exec_bind, X1|]. split_and!; [done..| |]; rewrite ?Hib, ?Hdbb; intros n Hn; apply bit0_bit; lia.
Qed.

(** An inode written to the table is read back field for field, every other
    inode keeps its value, no block outside the table block it lives in
    changes, the file system stays mounted and the heap has the same blocks as
    before (nothing leaks). *)
Theorem inode_write_read s B n m i :
  mounted s B -> room 1 512 B -> 0 <= n < 512 -> 0 <= m < 512 -> inode_ok i ->
  exists s1 s2, exec (write_inode n i) s = (Val 0, s1) /\ mounted s1 B /\
    exec (read_inode m) s1 = (Val (Some (if decide (m = n) then i else inode_at (fs_rd s) m)), s2) /\
    mounted s2 B /\
    (forall k, k <> inode_block n -> disk_block (fs_rd s2) k = disk_block (fs_rd s) k).
Proof.
  intros Hm Hroom Hn Hmn Hi. cbn [room] in Hroom. fold FS_BLOCK_SIZE in Hroom.
  destruct (take_block FS_BLOCK_SIZE B) as [[p B']|] eqn:Et; [|done].
  pose proof Hm as [Hh Hd _ _ _ _ _ _].
  destruct (exec_write_inode s B n i Hh Hd Hn Hi) as (h1 & Hr1 & E1). rewrite Et in E1.
  set (s1 := set_heap h1 _) in *.
  assert (mounted s1 B) as Hm1 by (by apply mounted_set_heap with B, Hr1; apply mounted_put_inode).
  destruct (exec_read_inode s1 B m Hr1 (mt_disk _ _ Hm1) Hmn) as (h2 & Hr2 & E2). rewrite Et in E2.
  exists s1, (set_heap h2 s1). split_and!; [done|done| | |].
  - rewrite E2. cbn [fs_rd set_heap set_rd s1]. by rewrite inode_at_put by (done || lia).
  - by apply mounted_set_heap with B.
  - intros k Hk. cbn [fs_rd set_heap set_rd s1]. by apply disk_block_put_inode.
Qed.

(** An inode takes 80 bytes, six to a block, so the 64 blocks of the table
    hold 384 inodes and not 512: [write_inode] of an inode number from 384 on,
    which its bounds check accepts, overwrites a data block. *)
Theorem inode_table_overlaps_data s B n i :
  mounted s B -> room 1 512 B -> 384 <= n < 512 -> inode_ok i ->
  exists s1, exec (write_inode n i) s = (Val 0, s1) /\
    0 <= (n - 384) / 6 < FS_MAX_DATA_BLOCKS /\
    sub (disk_block (fs_rd s1) (FS_DATA_BLOCKS_START + (n - 384) / 6)) (inode_offset n) INODE_SIZE
      = encode_inode i.
Proof.
  intros Hm Hroom Hn Hi. cbn [room] in Hroom. fold FS_BLOCK_SIZE in Hroom.
  destruct (take_block FS_BLOCK_SIZE B) as [[p B']|] eqn:Et; [|done].
  pose proof Hm as [Hh Hd _ _ _ _ _ _].
  destruct (exec_write_inode s B n i Hh Hd ltac:(lia) Hi) as (h1 & Hr1 & E1). rewrite Et in E1.
  eexists. split; [exact E1|]. split; [unfold FS_MAX_DATA_BLOCKS; dlia|].
  replace (FS_DATA_BLOCKS_START + (n - 384) / 6) with (inode_block n)
    by (unfold inode_block, FS_DATA_BLOCKS_START; dlia).
  cbn [fs_rd set_heap set_rd]. unfold put_inode.
  rewrite disk_block_put, decide_True by (try done; by apply put_inode_block).
  rewrite <- (length_encode_inode i Hi). apply sub_splice_same.
  rewrite (length_encode_inode i Hi). destruct (disk_block_ok (fs_rd s) (inode_block n) Hd) as [-> _].
  apply inode_offset_bound.
Qed.

(** [alloc_data_block] on a mounted file system.  When every block is in use
    it returns (uint32_t)-1 and changes nothing.  Otherwise it returns the lowest
    free block, marks exactly that one in memory and on the disk, takes one
    off the counter, and the file system stays consistent. *)
Theorem alloc_data_block_spec s B :
  mounted s B ->
  exists b s', exec alloc_data_block s = (Val b, s') /\ mounted s' B /\
    ((b = NONE /\ s' = s /\ forall j, 0 <= j < 1981 -> bm_bit 8 (dbits s) j = true) \/
     (0 <= b < 1981 /\ (forall j, 0 <= j < 1981 -> bm_bit 8 (dbits s') j = (b =? j) || bm_bit 8 (dbits s) j) /\
      bm_bit 8 (dbits s) b = false /\ (forall j, 0 <= j < b -> bm_bit 8 (dbits s) j = true) /\
      free_blocks (superblock s') = free_blocks (superblock s) - 1 /\
      (forall k, k <> 2 -> disk_block (fs_rd s') k = disk_block (fs_rd s) k))).
Proof.
  intros Hm. destruct (alloc_block_step s B Hm) as (s' & E & Hm' & Hc). eauto.
Qed.

End mount.

(** ** The file system at boot, on the kernel heap *)

Definition blank_disk : ramdisk_t := mk_ramdisk 0 (fun _ => 0) 0 0 0 0.
Definition boot_disk : heap * ramdisk_t := snd (exec ramdisk_init (heap0, blank_disk)).
Definition boot_blocks : list block := [mk_block 1048592 false; mk_block 3145712 true].
Definition fs0 : fs_t heap :=
  mk_fs (fst boot_disk) (snd boot_disk) fresh_superblock null_buf null_buf
    (replicate 16 (mk_file 0 0 0 0)) 0 0.
Definition fs1 : fs_t heap := snd (exec (fs_format ;; fs_init) fs0).

Lemma boot_disk_ok : heap_wf (fst boot_disk) boot_blocks /\ disk_ok (snd boot_disk).
Proof.
  pose proof (kmalloc_exec heap0 _ RAMDISK_SIZE heap0_wf ltac:(unfold RAMDISK_SIZE; lia)) as Hk.
  cbv [amalloc b_free b_size] in Hk. change (total_of RAMDISK_SIZE) with 1048592 in Hk.
  destruct Hk as (h & b & _ & _ & _ & E & Hwf & _).
  assert (boot_disk = (h, mk_ramdisk (HEAP_START + HEADER) (clear_data (fun _ => 0) RAMDISK_SIZE)
    RAMDISK_SIZE 512 2048 1)) as ->.
  { unfold boot_disk, ramdisk_init, on_heap, upd_disk. run. cbn [fst].
    change (Alloc.kmalloc RAMDISK_SIZE) with (Heap.kmalloc RAMDISK_SIZE). rewrite E. by run. }
  split; [exact Hwf|]. split; try done. cbn. intros x. unfold clear_data, is_u8.
  destruct (_ && _); lia.
Qed.

Lemma boot_room k : (k <= 10)%nat -> room (H1 := heap_allocator) k 512 boot_blocks.
Proof. intros Hk. do 11 (destruct k as [|k]; [by vm_compute|]). lia. Qed.

Lemma fs1_ok : exists B, mounted fs1 B /\ fresh_fs fs1 /\ room 3 512 B.
Proof.
  destruct boot_disk_ok as [Hwf Hd].
  destruct (@boot_exec heap heap_ops heap_allocator 2 fs0 boot_blocks Hwf (boot_room 7 ltac:(lia)) Hd ltac:(unfold is_u32; cbn; lia) eq_refl eq_refl eq_refl)
    as (s1 & s' & B' & E1 & E & _ & _ & Hm & Hf & Hr & _).
  exists B'. unfold fs1. rewrite exec_bind, E1. cbv iota. rewrite E. split_and!; [exact Hm|apply Hf..|exact Hr].
Qed.

Lemma boot_mounts_witness : exists s' B', exec (fs_format ;; fs_init) fs0 = (Val tt, s') /\ mounted s' B'.
Proof.
  destruct boot_disk_ok as [Hwf Hd].
  destruct (@boot_mounts heap heap_ops heap_allocator fs0 boot_blocks Hwf (boot_room 5 ltac:(lia)) Hd ltac:(unfold is_u32; cbn; lia) eq_refl eq_refl eq_refl)
    as (s' & B' & E & Hm & _).
  exists s', B'. split; [exact E|exact Hm].
Defined.

Lemma room_le `{Allocator H} n m size B : (n <= m)%nat -> room m size B -> room n size B.
Proof.
  revert m B. induction n as [|n IH]; intros m B Hle Hr; [done|].
  destruct m as [|m]; [lia|]. cbn [room] in *. destruct (take_block size B) as [[]|]; [|done].
  apply (IH m); [lia|done].
Qed.

Lemma inode_write_read_witness : exists s1 s2,
  exec (write_inode 7 (new_root 5)) fs1 = (Val 0, s1) /\
  exec (read_inode 7) s1 = (Val (Some (new_root 5)), s2).
Proof.
  destruct fs1_ok as (B & Hm & _ & Hr).
  destruct (inode_write_read fs1 B 7 7 (new_root 5) Hm (room_le 1 3 512 B ltac:(lia) Hr) ltac:(lia) ltac:(lia))
    as (s1 & s2 & E1 & _ & E2 & _).
  - apply new_inode_ok; by unfold is_u32.
  - exists s1, s2. split; [exact E1|exact E2].
Defined.

Lemma inode_table_overlaps_data_witness : exists s1,
  exec (write_inode 390 (new_root 5)) fs1 = (Val 0, s1) /\
  sub (disk_block (fs_rd s1) (FS_DATA_BLOCKS_START + 1)) 0 INODE_SIZE = encode_inode (new_root 5).
Proof.
  destruct fs1_ok as (B & Hm & _ & Hr).
  destruct (inode_table_overlaps_data fs1 B 390 (new_root 5) Hm (room_le 1 3 512 B ltac:(lia) Hr) ltac:(lia))
    as (s1 & E1 & _ & E2).
  - apply new_inode_ok; by unfold is_u32.
  - exists s1. split; [exact E1|exact E2].
Defined.

Lemma alloc_data_block_spec_witness : exists b s', exec alloc_data_block fs1 = (Val b, s').
Proof.
  destruct fs1_ok as (B & Hm & _ & _).
  destruct (alloc_data_block_spec fs1 B Hm) as (b & s' & E & _). exists b, s'. exact E.
Defined.
