(* ===== verification/FsFile.v ===== *)
(** * WitFS: what reading and writing a file do

    A file is the sequence of its bytes: byte [j] is byte [j mod 512] of the
    data block that direct pointer [j / 512] of the inode names.  [fs_write]
    replaces bytes of that sequence from the position of the descriptor on and
    makes it longer where needed, [fs_read] returns a part of it. *)

From S2P Require Import Prelude Bits Mem Bytes CString Heap Alloc HeapAlloc RamDisk Fs FsDisk FsMount.

(** ** The bytes of a file *)

Definition block_of (i : fs_inode_t) (j : Z) : Z := i_blocks i !!! Z.to_nat (j / 512).

Definition file_byte (d : ramdisk_t) (i : fs_inode_t) (j : Z) : Z :=
  disk_block d (67 + block_of i j) !!! Z.to_nat (j mod 512).

Definition file_bytes (d : ramdisk_t) (i : fs_inode_t) : list Z :=
  file_byte d i <$> seqZ 0 (i_size i).

Lemma length_file_bytes d i : length (file_bytes d i) = Z.to_nat (i_size i).
Proof. unfold file_bytes. by rewrite length_fmap, length_seqZ. Qed.

Lemma file_bytes_lookup d i j :
  0 <= j < i_size i -> file_bytes d i !! Z.to_nat j = Some (file_byte d i j).
Proof.
  intros Hj. unfold file_bytes. rewrite list_lookup_fmap, lookup_seqZ_lt by lia. simpl. f_equal. f_equal. lia.
Qed.

(** A part of a block, as a part of the file. *)
Lemma sub_file_block d i pos n :
  0 <= pos -> (Z.to_nat (pos mod 512) + n <= 512)%nat ->
  sub (disk_block d (67 + block_of i pos)) (Z.to_nat (pos mod 512)) n =
  file_byte d i <$> seqZ pos (Z.of_nat n).
Proof.
  intros Hp Hn. apply list_eq. intros k. rewrite sub_lookup, list_lookup_fmap. case_decide as Hk.
  - rewrite lookup_seqZ_lt by lia. simpl. unfold file_byte, block_of.
    replace ((pos + Z.of_nat k) / 512) with (pos / 512) by dlia.
    replace (Z.to_nat ((pos + Z.of_nat k) mod 512)) with (Z.to_nat (pos mod 512) + k)%nat by dlia.
    apply list_lookup_lookup_total_lt. unfold disk_block. rewrite length_read_bytes. lia.
  - by rewrite lookup_seqZ_ge by lia.
Qed.

(** A file after a part of one of its blocks was replaced; [l] is what the rest
    of the block holds. *)
Lemma file_byte_store d (i i' : fs_inode_t) pos l xs j :
  i_blocks i' = i_blocks i -> length l = 512%nat -> 0 <= pos -> 0 <= j ->
  (Z.to_nat (pos mod 512) + length xs <= 512)%nat ->
  (j / 512 <> pos / 512 -> block_of i j <> block_of i pos) ->
  (j / 512 = pos / 512 -> ~ pos <= j < pos + Z.of_nat (length xs) ->
     l !!! Z.to_nat (j mod 512) = file_byte d i j) ->
  file_byte (put_block d (67 + block_of i pos) (splice l (Z.to_nat (pos mod 512)) xs)) i' j =
  if decide (pos <= j < pos + Z.of_nat (length xs)) then xs !!! Z.to_nat (j - pos) else file_byte d i j.
Proof.
  intros Ebl Hl Hp Hj Hn Hd Hold. unfold file_byte at 1.
  assert (block_of i' j = block_of i j) as -> by (unfold block_of; by rewrite Ebl).
  rewrite disk_block_put by (rewrite length_splice; lia).
  destruct (decide (j / 512 = pos / 512)) as [Eq|Eq].
  - rewrite decide_True by (unfold block_of; by rewrite Eq).
    rewrite list_lookup_total_alt, splice_lookup by lia.
    destruct (decide (pos <= j < pos + Z.of_nat (length xs))) as [Hin|Hout].
    + rewrite decide_True by dlia. rewrite list_lookup_total_alt. do 2 f_equal. dlia.
    + rewrite decide_False by dlia. rewrite <- list_lookup_total_alt. by apply Hold.
  - rewrite decide_False by (specialize (Hd Eq); lia). rewrite decide_False by dlia. done.
Qed.

Section files.
Context {H : Type} `{Allocator H}.
Implicit Types s : fs_t H.

(** The inode of a file in order: its blocks are data blocks in use, all
    different, and there is one for every byte.  Block 0, the root directory's,
    is in use, so that no file gets it: in an inode 0 means no block. *)
Record file_ok s (i : fs_inode_t) : Prop := {
  fo_inode : inode_ok i;
  fo_size : 0 <= i_size i <= 5120;
  fo_used : forall k, (k < 10)%nat -> i_blocks i !!! k <> 0 ->
    0 < i_blocks i !!! k < 1981 /\ bm_bit 8 (dbits s) (i_blocks i !!! k) = true;
  fo_distinct : forall k k', (k < 10)%nat -> (k' < 10)%nat -> k <> k' ->
    i_blocks i !!! k <> 0 -> i_blocks i !!! k <> i_blocks i !!! k';
  fo_cover : forall k, (k < 10)%nat -> 512 * Z.of_nat k < i_size i -> i_blocks i !!! k <> 0;
  fo_zero : bm_bit 8 (dbits s) 0 = true
}.

Lemma block_of_range s i j :
  file_ok s i -> 0 <= j < i_size i -> 0 < block_of i j < 1981.
Proof.
  intros Hf Hj. pose proof (fo_size _ _ Hf). apply (fo_used _ _ Hf); [dlia|].
  apply (fo_cover _ _ Hf); dlia.
Qed.

(** ** Reading *)

(** The state with only the position of one descriptor changed. *)
Definition at_position s (fd pos : Z) : fs_t H :=
  match open_files s !! Z.to_nat fd with
  | Some f => set_open_files (<[Z.to_nat fd := mk_file (f_inode f) pos (f_flags f) (f_in_use f)]> (open_files s)) s
  | None => s
  end.

Definition fd_open s (fd : Z) (f : fs_file_t) : Prop :=
  0 <= fd < 16 /\ open_files s !! Z.to_nat fd = Some f /\ f_in_use f <> 0.

Lemma fd_open_valid s fd f : fd_open s fd f -> fd_valid s fd = true.
Proof.
  intros (Hr & El & Hu). unfold fd_valid, FS_MAX_OPEN_FILES. rewrite El.
  rewrite (proj2 (Z.ltb_ge fd 0)), (proj2 (Z.leb_gt 16 fd)) by lia. cbn.
  by rewrite (proj2 (Z.eqb_neq _ 0)) by done.
Qed.

Lemma exec_get_file s fd f : fd_open s fd f -> exec (get_file fd) s = (Val f, s).
Proof. intros (_ & E & _). unfold get_file. run. rewrite E. by run. Qed.

Lemma exec_set_position s fd f pos : fd_open s fd f ->
  exec (set_position fd pos) s = (Val tt, at_position s fd pos).
Proof.
  intros Hf. unfold set_position, at_position. rewrite exec_bind, (exec_get_file s fd f Hf). run.
  by destruct Hf as (_ & -> & _).
Qed.

Lemma fd_open_at s fd f pos : fd_open s fd f ->
  fd_open (at_position s fd pos) fd (mk_file (f_inode f) pos (f_flags f) (f_in_use f)).
Proof.
  intros (Hr & E & Hu). unfold fd_open, at_position. rewrite E. cbn [open_files set_open_files f_in_use].
  rewrite list_lookup_insert_eq by (by eapply lookup_lt_Some). done.
Qed.

Lemma at_position_at s fd pos pos' :
  at_position (at_position s fd pos) fd pos' = at_position s fd pos'.
Proof.
  unfold at_position. destruct (open_files s !! Z.to_nat fd) as [f|] eqn:E; [|by rewrite E].
  cbn [open_files set_open_files]. rewrite list_lookup_insert_eq by (by eapply lookup_lt_Some).
  rewrite list_insert_insert_eq. done.
Qed.

Lemma at_position_same s fd f : fd_open s fd f -> at_position s fd (f_position f) = s.
Proof.
  intros (_ & E & _). unfold at_position. rewrite E. destruct f as [a b c d]. cbn.
  rewrite list_insert_id by done. by destruct s.
Qed.

Lemma at_position_proj s fd pos :
  fs_heap (at_position s fd pos) = fs_heap s /\ fs_rd (at_position s fd pos) = fs_rd s /\
  superblock (at_position s fd pos) = superblock s.
Proof. unfold at_position. by destruct (open_files s !! Z.to_nat fd). Qed.

Lemma mounted_at_position s B fd pos : mounted s B -> mounted (at_position s fd pos) B.
Proof.
  intros Hm. unfold at_position. destruct (open_files s !! Z.to_nat fd); [|done].
  apply mounted_set_open_files; [done|]. rewrite length_insert. apply (mt_files _ _ Hm).
Qed.

(** The rounds still to come: one for every block from the position on. *)
Definition rounds_left (done size pos : Z) : nat :=
  if done <? size then Z.to_nat (11 - pos / 512) else 0.

(** How much one round moves: to the end of the block or of the request. *)
Definition chunk (done size pos : Z) : Z := Z.min (size - done) (512 - pos mod 512).

Lemma chunk_eq done size pos :
  (if size - done <? 512 - pos mod 512 then size - done else 512 - pos mod 512) = chunk done size pos.
Proof. unfold chunk. destruct (Z.ltb_spec (size - done) (512 - pos mod 512)); lia. Qed.

Lemma chunk_range done size pos : done < size -> 0 < chunk done size pos <= 512 - pos mod 512 /\
  done + chunk done size pos <= size.
Proof. intros Hd. unfold chunk. pose proof (Z.mod_pos_bound pos 512 ltac:(lia)). lia. Qed.

Lemma rounds_left_step done size pos :
  0 <= pos < 5120 -> done < size ->
  (rounds_left (done + chunk done size pos) size (pos + chunk done size pos)
    < rounds_left done size pos)%nat.
Proof.
  intros Hp Hd. unfold rounds_left. rewrite (proj2 (Z.ltb_lt done size)) by lia. unfold chunk.
  destruct (Z.ltb_spec (done + Z.min (size - done) (512 - pos mod 512)) size) as [Hlt|Hge]; [|dlia].
  rewrite Z.min_r in * by lia. dlia.
Qed.

Section reading.
Context (s : fs_t H) (B : blocks) (fd : Z) (f : fs_file_t) (i : fs_inode_t) (size p : Z).
Hypothesis Hm : mounted s B.
Hypothesis Hfd : fd_open s fd f.
Hypothesis Hi : file_ok s i.
Hypothesis Hpos : 0 <= f_position f /\ 0 <= size /\ f_position f + size <= i_size i.
Hypothesis Hp : p <> 0.

Let reading (st : Z * buf * list Z) (s1 : fs_t H) : Prop :=
  let '(r, b, dest) := st in
  0 <= r <= size /\ b_ptr b = p /\ dest = file_byte (fs_rd s) i <$> seqZ (f_position f) r /\
  s1 = at_position s fd (f_position f + r).

Lemma exec_read_round r b dest s1 :
  reading (r, b, dest) s1 ->
  exists res s2, exec (read_round fd i size (r, b, dest)) s1 = (Val res, s2) /\
  match res with
  | inl (r', b', dest') => reading (r', b', dest') s2 /\
      (rounds_left r' size (f_position f + r') < rounds_left r size (f_position f + r))%nat
  | inr (r', b', dest') => reading (r', b', dest') s2 /\ r' = size
  end.
Proof.
  intros (Hr & Hb & Hdest & ->). unfold read_round.
  destruct (Z.ltb_spec r size) as [Hlt|Hge]; cbn [negb].
  2: { eexists _, _. split; [by run|]. split; [|lia]. done. }
  pose proof (fo_size _ _ Hi) as Hsz. set (pos := f_position f + r).
  rewrite exec_bind, (exec_get_file _ _ _ (fd_open_at s fd f pos Hfd)). cbv iota.
  cbn [f_position]. cbv zeta. unfold FS_BLOCK_SIZE. rewrite chunk_eq.
  pose proof (chunk_range r size pos Hlt) as Hc. pose proof (block_of_range s i pos Hi ltac:(lia)) as Hbr.
  fold (block_of i pos). unfold FS_DIRECT_BLOCKS. rewrite (proj2 (Z.leb_gt _ _)) by dlia.
  rewrite (proj2 (Z.eqb_neq (block_of i pos) 0)) by lia. cbn [orb].
  unfold FS_DATA_BLOCKS_START. rewrite u32_small by (unfold is_u32; lia).
  destruct (at_position_proj s fd pos) as (_ & Erd & _).
  rewrite exec_bind, exec_read_block_fs;
    [|rewrite Erd; apply (mt_disk _ _ Hm)|lia|by apply Z.eqb_neq; rewrite Hb].
  cbv iota. cbn [b_ptr bytes_of b_data]. rewrite exec_bind, exec_defined_Some. cbv iota.
  rewrite exec_bind, (exec_set_position _ _ _ _ (fd_open_at s fd f pos Hfd)). cbv iota.
  rewrite exec_ret, Erd, sub_file_block, Z2Nat.id by dlia. eexists _, _. split; [done|]. cbv iota.
  rewrite !u32_small by (unfold is_u32; lia). split.
  - split_and!; [lia|lia|done| |by rewrite at_position_at; f_equal; lia].
    rewrite Hdest, <- fmap_app, <- seqZ_app by lia. done.
  - replace (f_position f + (r + chunk r size pos)) with (pos + chunk r size pos) by lia.
    apply rounds_left_step; lia.
Qed.

Lemma exec_read_loop b :
  b_ptr b = p ->
  exists b', b_ptr b' = p /\
    exec (iterate transfer_fuel (read_round fd i size) (0, b, [])) s =
    (Val (size, b', file_byte (fs_rd s) i <$> seqZ (f_position f) size),
     at_position s fd (f_position f + size)).
Proof.
  intros Hb. pose proof (fo_size _ _ Hi) as Hsz.
  destruct (exec_iterate reading (fun st _ => let '(r, _, _) := st in rounds_left r size (f_position f + r))
    (fun st s1 => reading st s1 /\ st.1.1 = size) (read_round fd i size)) with
    (n := transfer_fuel) (a := (0, b, [] : list Z)) (s := s) as ([[r b'] dest] & s' & E & (Hr & Hb' & Hd & Hs) & Er).
  - intros [[r b0] dest] s1 HI. destruct (exec_read_round r b0 dest s1 HI) as (res & s2 & E & Hres).
    exists res, s2. split; [done|]. by destruct res as [[[r' b'] dest']|[[r' b'] dest']].
  - split_and!; [lia|lia|done|done|]. by rewrite Z.add_0_r, (at_position_same s fd f Hfd).
  - unfold rounds_left, transfer_fuel. destruct (0 <? size); dlia.
  - cbn in Er. subst r. exists b'. split; [done|]. by rewrite E, Hd, Hs.
Qed.

End reading.

Lemma at_position_set_heap s fd pos h :
  at_position (set_heap h s) fd pos = set_heap h (at_position s fd pos).
Proof. unfold at_position. cbn. by destruct (open_files s !! Z.to_nat fd). Qed.

Lemma file_ok_same_bits s s' i : file_ok s i -> dbits s' = dbits s -> file_ok s' i.
Proof. intros [] E. split; rewrite ?E; done. Qed.

Lemma sub_file_bytes d i pos n :
  0 <= pos -> 0 <= n -> pos + n <= i_size i ->
  sub (file_bytes d i) (Z.to_nat pos) (Z.to_nat n) = file_byte d i <$> seqZ pos n.
Proof.
  intros Hp Hn Hs. unfold file_bytes. replace (i_size i) with (pos + (n + (i_size i - pos - n))) by lia.
  rewrite seqZ_app, seqZ_app, !fmap_app by lia. unfold sub.
  rewrite drop_app_length' by (rewrite length_fmap, length_seqZ; lia).
  rewrite take_app_length' by (rewrite length_fmap, length_seqZ; lia). by rewrite Z.add_0_l.
Qed.

(** Room for one more block: the allocation of a temporary buffer succeeds. *)
Lemma room_1 B : room 1 512 B -> exists p B', take_block FS_BLOCK_SIZE B = Some (p, B').
Proof. cbn [room]. fold FS_BLOCK_SIZE. destruct (take_block FS_BLOCK_SIZE B) as [[p B']|]; [eauto|done]. Qed.

(** The number of bytes [fs_read] returns: up to the end of the file. *)
Definition readable (i : fs_inode_t) (pos size : Z) : Z := Z.max 0 (Z.min size (i_size i - pos)).

Lemma exec_fs_read s B fd f size :
  mounted s B -> room 1 512 B -> fd_open s fd f -> Z.land (f_flags f) FS_OPEN_READ <> 0 ->
  0 <= f_inode f < 512 -> file_ok s (inode_at (fs_rd s) (f_inode f)) ->
  0 <= f_position f -> 0 <= size -> f_position f + size < 4294967296 ->
  let i := inode_at (fs_rd s) (f_inode f) in
  let n := readable i (f_position f) size in
  exists h', alloc_rep h' B /\
    exec (fs_read fd size) s =
      (Val (n, sub (file_bytes (fs_rd s) i) (Z.to_nat (f_position f)) (Z.to_nat n)),
       set_heap h' (at_position s fd (f_position f + n))).
Proof.
  intros Hm Hroom Hfd Hfl Hn Hi Hp Hs Hov i n. fold i in Hi.
  destruct (room_1 B Hroom) as (p & B' & Et). pose proof Hm as [Hh Hd _ _ _ _ _ _].
  unfold fs_read. run. rewrite (fd_open_valid s fd f Hfd). cbn [negb]. rewrite (exec_get_file s fd f Hfd). cbv iota.
  rewrite (proj2 (Z.eqb_neq _ 0)) by done. rewrite exec_bind.
  destruct (exec_read_inode s B (f_inode f) Hh Hd Hn) as (h1 & Hr1 & ->). rewrite Et. cbv iota. run.
  fold i. pose proof (fo_size _ _ Hi) as Hsz.
  destruct (Z.leb_spec (i_size i) (f_position f)) as [Heof|Hmore].
  { run. exists h1. split; [done|]. assert (n = 0) as -> by (unfold n, readable; lia).
    rewrite Z.add_0_r, (at_position_same s fd f Hfd). done. }
  rewrite u32_small by (unfold is_u32; lia). set (s1 := set_heap h1 s).
  assert ((if i_size i <? f_position f + size then (Val (u32 (i_size i - f_position f)), s1) else (Val size, s1))
    = (Val n, s1)) as ->.
  { unfold n, readable. destruct (Z.ltb_spec (i_size i) (f_position f + size)); repeat f_equal;
      rewrite ?u32_small by (unfold is_u32; lia); lia. }
  cbv iota.
  pose proof (exec_kmalloc_buf s1 B FS_BLOCK_SIZE Hr1 request_512) as Hk. rewrite Et in Hk.
  destruct Hk as (h2 & E2 & Hr2 & Hpn). rewrite exec_bind, E2. cbv iota. rewrite (nonnull p Uninit Hpn).
  set (s2 := set_heap h2 s1).
  destruct (exec_read_loop s2 B' fd f i n p) with (b := mk_buf p Uninit) as ([p' d'] & Hb' & E3); try done.
  { by apply mounted_set_heap with B; [apply mounted_set_heap with B|]. }
  { by apply file_ok_same_bits with s. }
  { unfold n, readable. lia. }
  rewrite exec_bind, E3. cbv iota. cbn in Hb'. subst p'. set (s3 := at_position _ _ _).
  destruct (exec_kfree_buf s3 h1 B B' p FS_BLOCK_SIZE d' Hr1 request_512 Et) as (h4 & E4 & Hr4).
  { destruct (at_position_proj s2 fd (f_position f + n)) as (E & _). unfold s3. by rewrite E. }
  rewrite exec_bind, E4. run. exists h4. split; [done|].
  rewrite sub_file_bytes by (unfold n, readable; lia). unfold s3, s2, s1. rewrite !at_position_set_heap.
  rewrite s32_small; [done|]. unfold is_s32, n, readable. lia.
Qed.

(** ** Writing *)

Lemma inode_ok_set_block i k b : inode_ok i -> is_u32 b -> inode_ok (set_block i k b).
Proof.
  intros [Hw Hb Hr] Hu. split; [|by cbn; rewrite length_insert|done]. unfold inode_words in *. cbn [i_mode i_size
    i_uid i_gid i_created i_modified i_blocks i_reserved set_block] in *.
  apply Forall_app in Hw as [Hw1 Hw]. apply Forall_app in Hw as [Hw2 Hw3].
  apply Forall_app; split; [done|]. apply Forall_app; split; [|done]. by apply Forall_insert.
Qed.

Lemma inode_ok_set_size i n : inode_ok i -> is_u32 n -> inode_ok (Fs.set_size i n).
Proof.
  intros [Hw Hb Hr] Hu. split; [|done|done]. unfold inode_words in *. cbn [i_mode i_size
    i_uid i_gid i_created i_modified i_blocks i_reserved Fs.set_size app] in *.
  rewrite !Forall_cons_iff in Hw |- *. destruct Hw as (? & ? & ? & ? & ? & ? & ?). done.
Qed.

Lemma inode_ok_set_modified i n : inode_ok i -> is_u32 n -> inode_ok (set_modified i n).
Proof.
  intros [Hw Hb Hr] Hu. split; [|done|done]. unfold inode_words in *. cbn [i_mode i_size
    i_uid i_gid i_created i_modified i_blocks i_reserved set_modified app] in *.
  rewrite !Forall_cons_iff in Hw |- *. destruct Hw as (? & ? & ? & ? & ? & ? & ?). done.
Qed.

(** Full: no data block is free. *)
Lemma disk_full s B :
  mounted s B -> (forall j, 0 <= j < 1981 -> bm_bit 8 (dbits s) j = true) -> free_blocks (superblock s) = 0.
Proof.
  intros Hm Hall. rewrite (mt_dfree _ _ Hm). rewrite (cnt_ext _ (fun _ => true)) by (intros; apply Hall; lia).
  by vm_compute.
Qed.

(** Two states that differ in nothing a descriptor sees. *)
Definition same_files s s' : Prop :=
  open_files s' = open_files s /\ fs_ticks s' = fs_ticks s.

(** The block a write goes to: the one the inode has, or a new zeroed one. *)
Lemma exec_write_target s B i k b :
  mounted s B -> bm_bit 8 (dbits s) 0 = true -> (i_blocks i !!! k <> 0 -> 0 < i_blocks i !!! k < 1981) ->
  b_ptr b <> 0 -> b_data b <> Freed ->
  (i_blocks i !!! k = 0 /\ free_blocks (superblock s) = 0 /\
   exec (write_target i k b) s = (Val None, s)) \/
  (i_blocks i !!! k <> 0 /\
   exec (write_target i k b) s =
     (Val (Some (i, mk_buf (b_ptr b) (Bytes (disk_block (fs_rd s) (67 + i_blocks i !!! k))))), s)) \/
  (i_blocks i !!! k = 0 /\ exists nb s', 0 < nb < 1981 /\ bm_bit 8 (dbits s) nb = false /\
   exec (write_target i k b) s =
     (Val (Some (set_block i k nb, mk_buf (b_ptr b) (Bytes zero_block))), s') /\
   mounted s' B /\ same_files s s' /\
   (forall j, 0 <= j < 1981 -> bm_bit 8 (dbits s') j = (nb =? j) || bm_bit 8 (dbits s) j) /\
   (forall k, k <> 2 -> disk_block (fs_rd s') k = disk_block (fs_rd s) k)).
Proof.
  intros Hm Hz Hrange Hp Hb. unfold write_target. destruct (Z.eqb_spec (i_blocks i !!! k) 0) as [E0|E0].
  - destruct (alloc_block_step s B Hm) as (s' & E & Hm' & Hc).
    pose proof (exec_alloc_data_block s B Hm) as E'. rewrite E in E'. injection E' as E'.
    rewrite exec_bind, E. cbv iota. destruct Hc as [(Hn & -> & Hall)|(Hr & Hbits & Hfree & _ & _ & Hdisk)].
    + left. rewrite Hn, Z.eqb_refl. split_and!; [done| |done]. by apply disk_full with B.
    + right; right. split; [done|]. set (nb := first_free _ _) in *. exists nb, s'.
      assert (nb <> 0) by congruence.
      rewrite (proj2 (Z.eqb_neq nb NONE)) in * by (unfold NONE; lia).
      rewrite exec_bind, exec_zeroed by done. rewrite exec_defined_Some. cbv iota. rewrite exec_ret.
      split_and!; [lia|lia|done|done|done| |done|done]. split; by rewrite E'.
  - right; left. split; [done|]. specialize (Hrange E0).
    unfold FS_DATA_BLOCKS_START. rewrite u32_small by (unfold is_u32; lia).
    rewrite exec_bind, exec_read_block_fs; [done|apply (mt_disk _ _ Hm)|lia|by apply Z.eqb_neq].
Qed.

Section writing.
Context (s : fs_t H) (B : blocks) (fd : Z) (f : fs_file_t) (i0 : fs_inode_t) (src : list Z) (size p : Z).
Hypothesis Hfd : fd_open s fd f.
Hypothesis Hpos : 0 <= f_position f <= i_size i0.
Hypothesis Hsize : 0 <= size <= Z.of_nat (length src).
Hypothesis Hsrc : Forall is_u8 src.
Hypothesis Hp : p <> 0.

(** The state of the loop after [w] bytes, the inode being [i]. *)
Record writing (w : Z) (i : fs_inode_t) (b : buf) (s1 : fs_t H) : Prop := {
  wr_mounted : mounted s1 B;
  wr_file : file_ok s1 i;
  wr_state : same_files (at_position s fd (f_position f + w)) s1;
  wr_buf : b_ptr b = p /\ b_data b <> Freed;
  wr_w : 0 <= w <= size /\ f_position f + w <= 5120;
  wr_size : i_size i = Z.max (i_size i0) (f_position f + w);
  wr_bytes : forall j, 0 <= j < i_size i ->
    file_byte (fs_rd s1) i j =
    if decide (f_position f <= j < f_position f + w) then src !!! Z.to_nat (j - f_position f)
    else file_byte (fs_rd s) i0 j;
  wr_blocks : forall k, (k < 10)%nat -> i_blocks i !!! k = i_blocks i0 !!! k \/
    i_blocks i0 !!! k = 0 /\ bm_bit 8 (dbits s) (i_blocks i !!! k) = false;
  wr_kept : forall j, 0 <= j < 1981 -> bm_bit 8 (dbits s) j = true -> bm_bit 8 (dbits s1) j = true;
  wr_frame : forall k, k <> 2 ->
    (67 < k -> bm_bit 8 (dbits s) (k - 67) = true /\ forall q, (q < 10)%nat -> i_blocks i0 !!! q <> k - 67) ->
    disk_block (fs_rd s1) k = disk_block (fs_rd s) k
}.

Lemma writing_fd w i b s1 : writing w i b s1 ->
  fd_open s1 fd (mk_file (f_inode f) (f_position f + w) (f_flags f) (f_in_use f)).
Proof.
  intros Hw. destruct (wr_state _ _ _ _ Hw) as [Eo _].
  pose proof (fd_open_at s fd f (f_position f + w) Hfd) as (Hr & E & Hu).
  split_and!; [lia..| |done]. by rewrite Eo.
Qed.

(** Taking a new block for the next bytes changes nothing that was written. *)
Lemma writing_new_block w i b s1 k nb s2 :
  writing w i b s1 -> (k < 10)%nat -> i_blocks i !!! k = 0 -> 0 < nb < 1981 -> bm_bit 8 (dbits s1) nb = false ->
  mounted s2 B -> same_files s1 s2 ->
  (forall j, 0 <= j < 1981 -> bm_bit 8 (dbits s2) j = (nb =? j) || bm_bit 8 (dbits s1) j) ->
  (forall k, k <> 2 -> disk_block (fs_rd s2) k = disk_block (fs_rd s1) k) ->
  writing w (set_block i k nb) (mk_buf (b_ptr b) (Bytes zero_block)) s2.
Proof.
  intros [Hm [Fi Fs Fu Fd Fc Fz] [So St] [Hb Hbf] Hw Hsz Hby Hbl Hk Hfr] Hk10 E0 Hnb Hfree Hm2 [So2 St2] Hbits Hdisk.
  pose proof (io_blocks _ Fi) as Hlen.
  assert (forall q, (q < 10)%nat -> i_blocks (set_block i k nb) !!! q = if decide (q = k) then nb else i_blocks i !!! q) as Hq.
  { intros q Hq. cbn [i_blocks set_block]. case_decide as Eq.
    - subst q. apply list_lookup_total_insert_eq. lia.
    - by apply list_lookup_total_insert_ne. }
  split.
  - done.
  - split; [by apply inode_ok_set_block; [|unfold is_u32; lia]|done|..].
    + intros q Hq10 Hne. rewrite Hq in Hne |- * by done. case_decide as Eq.
      * split; [lia|]. by rewrite Hbits, Z.eqb_refl by lia.
      * destruct (Fu q Hq10 Hne) as [Hr Ht]. split; [lia|]. rewrite Hbits, Ht by lia. apply orb_true_r.
    + intros q q' Hq1 Hq2 Hne Hn0. rewrite (Hq q) in Hn0 by done. rewrite (Hq q), (Hq q') by done.
      destruct (decide (q = k)), (decide (q' = k)); cbv iota in Hn0 |- *; subst.
      * done.
      * intros E. destruct (Fu q' Hq2) as [_ Ht]; [by rewrite <- E|congruence].
      * intros E. destruct (Fu q Hq1 Hn0) as [_ Ht]. congruence.
      * by apply Fd.
    + intros q Hq10 Hcov. rewrite Hq by done. case_decide; [lia|]. by apply Fc.
    + rewrite Hbits, Fz by lia. apply orb_true_r.
  - split; congruence.
  - done.
  - done.
  - done.
  - intros j Hj. cbn [i_size set_block] in Hj. rewrite <- Hby by done.
    assert (block_of (set_block i k nb) j = block_of i j) as Eb.
    { unfold block_of. rewrite Hq by dlia. apply decide_False. intros E.
      apply (Fc k Hk10); [dlia|done]. }
    unfold file_byte. rewrite Eb, Hdisk; [done|]. assert (0 < block_of i j) by (apply Fu; [dlia|apply Fc; dlia]). lia.
  - intros q Hq10. rewrite Hq by done. case_decide as Eq; [subst q|by apply Hbl]. right.
    split; [destruct (Hbl k Hk10) as [?|[? _]]; congruence|].
    destruct (bm_bit 8 (dbits s) nb) eqn:Eb; [|done]. apply Hk in Eb; [congruence|lia].
  - intros j Hj Ht. rewrite Hbits, (Hk j Hj Ht) by done. apply orb_true_r.
  - intros q Hq2 Hpr. rewrite Hdisk by done. by apply Hfr.
Qed.

(** The bytes of one round, stored. *)
Lemma writing_store w i b s1 l :
  let pos := f_position f + w in
  let n := chunk w size pos in
  let l' := splice l (Z.to_nat (pos mod 512)) (sub src (Z.to_nat w) (Z.to_nat n)) in
  writing w i b s1 -> w < size -> pos < 5120 -> block_of i pos <> 0 -> is_block l ->
  (forall j, 0 <= j < i_size i -> j / 512 = pos / 512 ->
     l !!! Z.to_nat (j mod 512) = file_byte (fs_rd s1) i j) ->
  writing (w + n) (if i_size i <? pos + n then Fs.set_size i (pos + n) else i) (mk_buf p (Bytes l'))
    (at_position (set_rd (put_block (fs_rd s1) (67 + block_of i pos) l') s1) fd (pos + n)).
Proof.
  intros pos n l' Hwr Hlt Hp512 Hb0 [Hl Hlu] Hold. pose proof (writing_fd _ _ _ _ Hwr) as Hfd1.
  destruct Hwr as [Hm Hf [So St] [Hb Hbf] Hw Hsz Hby Hbl Hk Hfr]. pose proof Hf as [Fi Fs Fu Fd Fc Fz].
  pose proof (chunk_range w size pos Hlt) as Hn. fold n in Hn. set (i' := if i_size i <? pos + n then Fs.set_size i (pos + n) else i).
  assert (i_blocks i' = i_blocks i) as Ebl by (unfold i'; by destruct (_ <? _)).
  assert (i_size i' = Z.max (i_size i) (pos + n)) as Esz.
  { unfold i'. destruct (Z.ltb_spec (i_size i) (pos + n)); cbn; lia. }
  assert (Z.to_nat (pos / 512) < 10)%nat as Hk10 by dlia. assert (pos + n <= 5120) as Hend by dlia.
  destruct (Fu _ Hk10 Hb0) as [Hbr Hbt]. fold (block_of i pos) in Hbr, Hbt.
  assert (length (sub src (Z.to_nat w) (Z.to_nat n)) = Z.to_nat n) as Hsub by (apply length_sub; lia).
  assert (is_block l') as Hl'.
  { apply splice_block; [done|by apply Forall_take, Forall_drop|rewrite Hsub; dlia]. }
  set (d2 := put_block _ _ _). set (s2 := at_position _ _ _).
  assert (fs_rd s2 = d2) as Erd by (apply at_position_proj).
  assert (forall k, disk_block d2 k = if decide (k = 67 + block_of i pos) then l' else disk_block (fs_rd s1) k) as Hd2.
  { intros k. apply disk_block_put, Hl'. }
  assert (dbits s2 = dbits s1) as Ebits by (unfold dbits; rewrite Erd, Hd2, decide_False; [done|lia]).
  split.
  - apply mounted_at_position, mounted_put_block; [done|done|lia|lia].
  - split; rewrite ?Ebits, ?Esz, ?Ebl; [|lia|done|done| |done].
    + unfold i'. destruct (_ <? _); [|done]. apply inode_ok_set_size; [done|unfold is_u32; lia].
    + intros q Hq Hcov. destruct (decide (q = Z.to_nat (pos / 512))) as [->|]; [done|]. apply Fc; dlia.
  - destruct Hfd as (_ & Ef & _). unfold same_files, s2, at_position in *. rewrite Ef in So, St |- *.
    cbn [open_files set_open_files set_rd fs_ticks] in So, St |- *. rewrite So.
    rewrite list_lookup_insert_eq by (by eapply lookup_lt_Some).
    cbn [open_files set_open_files set_rd fs_ticks f_inode f_flags f_in_use].
    rewrite list_insert_insert_eq, St. unfold pos. by rewrite Z.add_assoc.
  - done.
  - dlia.
  - lia.
  - intros j Hj. rewrite Erd. unfold d2, l'. rewrite Esz in Hj.
    rewrite (file_byte_store _ i i'); [|done|done|lia|lia|rewrite Hsub; dlia| |]; rewrite ?Hsub, ?Z2Nat.id by lia.
    + case_decide as Hin.
      * rewrite decide_True by lia. rewrite !list_lookup_total_alt, sub_lookup, decide_True by lia.
        do 2 f_equal. lia.
      * rewrite Hby by lia. case_decide; case_decide; (done || lia).
    + intros Hne E. apply (Fd (Z.to_nat (pos / 512)) (Z.to_nat (j / 512))); [done|dlia|dlia|done|].
      unfold block_of in E. congruence.
    + intros Eq Hout. apply Hold; [lia|done].
  - rewrite Ebl. done.
  - rewrite Ebits. done.
  - intros k Hk2 Hpr. rewrite Erd, Hd2, decide_False; [by apply Hfr|]. intros ->.
    destruct (Hpr ltac:(lia)) as [Hused Hnot].
    replace (67 + block_of i pos - 67) with (block_of i pos) in * by lia.
    destruct (Hbl _ Hk10) as [E|[_ E]]; fold (block_of i pos) in E; [|congruence].
    apply (Hnot _ Hk10). by rewrite <- E.
Qed.

(** Why a write stops: everything is written, the file has its largest size,
    or the disk is full. *)
Definition write_stopped (w : Z) (s1 : fs_t H) : Prop :=
  w = size \/ f_position f + w = 5120 \/ free_blocks (superblock s1) = 0.

(** The second half of a round, once the block for it is in the buffer. *)
Lemma exec_write_store w i b s1 l :
  writing w i b s1 -> w < size -> f_position f + w < 5120 -> block_of i (f_position f + w) <> 0 -> is_block l ->
  (forall j, 0 <= j < i_size i -> j / 512 = (f_position f + w) / 512 ->
     l !!! Z.to_nat (j mod 512) = file_byte (fs_rd s1) i j) ->
  exists n i' b' s2, 0 < n /\ n = chunk w size (f_position f + w) /\ writing (w + n) i' b' s2 /\
    exec (let block_data := mk_buf p (Bytes (splice l (Z.to_nat ((f_position f + w) mod 512))
                                       (sub src (Z.to_nat w) (Z.to_nat n)))) in
          let data_block := u32 (67 + block_of i (f_position f + w)) in
          write_block data_block block_data ;;
          let pos := u32 (f_position f + w + n) in
          set_position fd pos ;;
          let inode := if i_size i <? pos then Fs.set_size i pos else i in
          ret (inl (u32 (w + n), inode, block_data)) : M (fs_t H) (Z * fs_inode_t * buf + Z * fs_inode_t * buf)) s1 =
    (Val (inl (w + n, i', b')), s2).
Proof.
  intros Hwr Hlt Hp512 Hb0 Hl Hold. pose proof (writing_store w i b s1 l Hwr Hlt Hp512 Hb0 Hl Hold) as Hst.
  cbv zeta in Hst. pose proof (writing_fd _ _ _ _ Hwr) as Hfd1. pose proof (chunk_range w size (f_position f + w) Hlt) as Hn.
  set (pos := f_position f + w) in *. set (n := chunk w size pos) in *.
  destruct (fo_used _ _ (wr_file _ _ _ _ Hwr) (Z.to_nat (pos / 512)) ltac:(dlia) Hb0) as [Hbr _].
  fold (block_of i pos) in Hbr. destruct (wr_w _ _ _ _ Hwr) as [Hw _].
  eexists n, _, _, _. split; [lia|]. split; [done|]. split; [exact Hst|].
  rewrite !u32_small by (unfold is_u32; dlia). cbv zeta.
  rewrite exec_bind, exec_write_block_fs; [|apply (mt_disk _ _ (wr_mounted _ _ _ _ Hwr))|lia|done|].
  2: { rewrite length_splice; [apply Hl|]. rewrite length_sub by lia. destruct Hl as [-> _]. dlia. }
  cbv iota. rewrite exec_bind. erewrite exec_set_position by exact Hfd1. by rewrite exec_ret.
Qed.

(** What a round gives: more is written, or the loop ends. *)
Definition round_result w (res : Z * fs_inode_t * buf + Z * fs_inode_t * buf) (s2 : fs_t H) : Prop :=
  match res with
  | inl (w', i', b') => writing w' i' b' s2 /\
      (rounds_left w' size (f_position f + w') < rounds_left w size (f_position f + w))%nat
  | inr (w', i', b') => writing w' i' b' s2 /\ write_stopped w' s2
  end.

Lemma exec_write_round_go w i b s1 i1 b1 s2 l :
  writing w i b s1 -> w < size -> f_position f + w < 5120 ->
  exec (write_target i (Z.to_nat ((f_position f + w) / 512)) b) s1 = (Val (Some (i1, mk_buf p (Bytes l))), s2) ->
  writing w i1 b1 s2 -> block_of i1 (f_position f + w) <> 0 -> is_block l ->
  (forall j, 0 <= j < i_size i1 -> j / 512 = (f_position f + w) / 512 ->
     l !!! Z.to_nat (j mod 512) = file_byte (fs_rd s2) i1 j) ->
  exists res s3, exec (write_round fd src size (w, i, b)) s1 = (Val res, s3) /\ round_result w res s3.
Proof.
  intros Hwr Hlt Hp512 Et Hwr2 Hb0 Hl Hold. unfold write_round.
  rewrite (proj2 (Z.ltb_lt w size)) by done. cbn [negb].
  rewrite exec_bind, (exec_get_file _ _ _ (writing_fd _ _ _ _ Hwr)). cbv iota. cbn [f_position]. cbv zeta.
  unfold FS_BLOCK_SIZE, FS_DIRECT_BLOCKS. rewrite chunk_eq.
  destruct (wr_w _ _ _ _ Hwr) as [Hw _]. rewrite (proj2 (Z.leb_gt _ _)) by dlia.
  rewrite exec_bind, Et. cbv iota. cbn [bytes_of b_data b_ptr]. rewrite exec_bind, exec_defined_Some. cbv iota.
  pose proof (chunk_range w size (f_position f + w) Hlt) as Hn.
  rewrite (proj2 (Z.ltb_ge _ _)) by lia.
  destruct (exec_write_store w i1 b1 s2 l Hwr2 Hlt Hp512 Hb0 Hl Hold) as (n & i' & b' & s3 & Hn0 & -> & Hwr3 & E).
  exists (inl (w + chunk w size (f_position f + w), i', b')), s3. split; [exact E|]. split; [done|].
  rewrite Z.add_assoc. apply rounds_left_step; lia.
Qed.

Lemma exec_write_round w i b s1 :
  writing w i b s1 ->
  exists res s2, exec (write_round fd src size (w, i, b)) s1 = (Val res, s2) /\ round_result w res s2.
Proof.
  intros Hwr. pose proof (wr_w _ _ _ _ Hwr) as Hw. destruct (wr_buf _ _ _ _ Hwr) as [Hb Hbf].
  pose proof (writing_fd _ _ _ _ Hwr) as Hfd1. pose proof (wr_mounted _ _ _ _ Hwr) as Hm. set (pos := f_position f + w) in *.
  destruct (decide (w < size)) as [Hlt|Hge].
  2: { exists (inr (w, i, b)), s1. unfold write_round. rewrite (proj2 (Z.ltb_ge w size)) by lia. split; [by run|].
       split; [done|]. left. lia. }
  destruct (decide (pos = 5120)) as [Eend|Hend].
  { exists (inr (w, i, b)), s1. unfold write_round. rewrite (proj2 (Z.ltb_lt w size)) by lia. cbn [negb].
    rewrite exec_bind, (exec_get_file _ _ _ Hfd1). cbv iota. cbn [f_position]. rewrite Eend. split; [by run|].
    split; [done|]. right; left. exact Eend. }
  assert (Z.to_nat (pos / 512) < 10)%nat as Hk10 by (unfold pos in *; dlia).
  destruct (exec_write_target s1 B i (Z.to_nat (pos / 512)) b Hm (fo_zero _ _ (wr_file _ _ _ _ Hwr)))
    as [(E0 & Hfull & E)|[(E0 & E)|(E0 & nb & s2 & Hnb & Hfree & E & Hm2 & Hs2 & Hbits & Hdisk)]];
    [intros; by apply (fo_used _ _ (wr_file _ _ _ _ Hwr))|congruence|done|..].
  - exists (inr (w, i, b)), s1. split; [|split; [done|by right; right]]. unfold write_round.
    rewrite (proj2 (Z.ltb_lt w size)) by lia. cbn [negb].
    rewrite exec_bind, (exec_get_file _ _ _ Hfd1). cbv iota. cbn [f_position]. cbv zeta. unfold FS_BLOCK_SIZE, FS_DIRECT_BLOCKS.
    rewrite (proj2 (Z.leb_gt _ _)) by (unfold pos in *; dlia). by rewrite exec_bind, E.
  - rewrite Hb in E. apply (exec_write_round_go w i b s1 i b s1 _ Hwr Hlt ltac:(lia) E Hwr E0).
    + apply disk_block_ok, (mt_disk _ _ Hm).
    + intros j Hj Eq. unfold file_byte, block_of. by rewrite Eq.
  - rewrite Hb in E.
    pose proof (writing_new_block w i b s1 _ nb s2 Hwr Hk10 E0 Hnb Hfree Hm2 Hs2 Hbits Hdisk) as Hwr2.
    apply (exec_write_round_go w i b s1 _ _ s2 _ Hwr Hlt ltac:(lia) E Hwr2).
    + fold pos. unfold block_of. cbn [i_blocks set_block].
      rewrite list_lookup_total_insert_eq; [lia|]. rewrite (io_blocks _ (fo_inode _ _ (wr_file _ _ _ _ Hwr))). lia.
    + apply zero_block_ok.
    + intros j Hj Eq. exfalso. cbn [i_size set_block] in Hj.
      apply (fo_cover _ _ (wr_file _ _ _ _ Hwr) (Z.to_nat (pos / 512)) Hk10); [|done]. fold pos in Eq. dlia.
Qed.

Lemma exec_write_loop i b :
  writing 0 i b s -> f_position f <= 5120 ->
  exists w i' b' s', exec (iterate transfer_fuel (write_round fd src size) (0, i, b)) s = (Val (w, i', b'), s') /\
    writing w i' b' s' /\ write_stopped w s'.
Proof.
  intros Hwr Hp5.
  destruct (exec_iterate (fun st s1 => let '(w, i, b) := st in writing w i b s1)
    (fun st _ => let '(w, _, _) := st in rounds_left w size (f_position f + w))
    (fun st s1 => let '(w, i, b) := st in writing w i b s1 /\ write_stopped w s1) (write_round fd src size))
    with (n := transfer_fuel) (a := (0, i, b)) (s := s) as ([[w i'] b'] & s' & E & Hw & Hst).
  - intros [[w i1] b1] s1 HI. destruct (exec_write_round w i1 b1 s1 HI) as (res & s2 & E & Hres).
    exists res, s2. split; [done|]. by destruct res as [[[w' i'] b']|[[w' i'] b']].
  - done.
  - unfold rounds_left, transfer_fuel. destruct (0 <? size); dlia.
  - by exists w, i', b', s'.
Qed.

End writing.

(** The bytes of the file after [w] bytes were written. *)
Lemma writing_result s B fd f i0 src size p w i b s1 :
  0 <= f_position f <= i_size i0 -> size <= Z.of_nat (length src) ->
  writing s B fd f i0 src size p w i b s1 ->
  file_bytes (fs_rd s1) i =
  splice (file_bytes (fs_rd s) i0) (Z.to_nat (f_position f)) (take (Z.to_nat w) src).
Proof.
  intros Hpos Hsz [_ _ _ _ [Hw _] Es Hby _ _ _]. apply list_eq. intros k.
  assert (length (take (Z.to_nat w) src) = Z.to_nat w) as Hl by (rewrite length_take; lia).
  rewrite splice_lookup_end by (rewrite length_file_bytes; lia). rewrite Hl.
  destruct (decide (Z.of_nat k < i_size i)) as [Hk|Hk].
  - rewrite <- (Nat2Z.id k) at 1. rewrite file_bytes_lookup, Hby by lia. case_decide as Hin.
    + rewrite decide_True by lia. rewrite lookup_take_lt by lia. rewrite list_lookup_lookup_total_lt by lia.
      do 2 f_equal. lia.
    + rewrite decide_False by lia. rewrite <- (Nat2Z.id k) at 2. by rewrite file_bytes_lookup by lia.
  - rewrite decide_False by lia. rewrite !lookup_ge_None_2; [done|rewrite length_file_bytes; lia..].
Qed.

(** Blocks that do not change keep a file. *)
Lemma file_bytes_frame s i d d' :
  file_ok s i ->
  (forall k, (k < 10)%nat -> i_blocks i !!! k <> 0 ->
     disk_block d' (67 + i_blocks i !!! k) = disk_block d (67 + i_blocks i !!! k)) ->
  file_bytes d' i = file_bytes d i.
Proof.
  intros Hf Hd. pose proof (fo_size _ _ Hf). unfold file_bytes. apply list_fmap_ext. intros k j Hj.
  apply lookup_seqZ in Hj. unfold file_byte. f_equal. apply Hd; [dlia|]. apply (fo_cover _ _ Hf); dlia.
Qed.

(** Two inodes share no block. *)
Definition disjoint_files (i i2 : fs_inode_t) : Prop :=
  forall k k', (k < 10)%nat -> (k' < 10)%nat -> i_blocks i2 !!! k' <> 0 -> i_blocks i !!! k <> i_blocks i2 !!! k'.

Lemma inode_table_low n : 0 <= n < 384 -> inode_block n < 67.
Proof. unfold inode_block. intros. dlia. Qed.

(** What a write of [w] bytes leaves: the inode [i'] in the table, the blocks of
    the file, and everything else as it was. *)
Record write_effect s (B : blocks) fd f src w s' : Prop := {
  we_mounted : mounted s' B;
  we_file : file_ok s' (inode_at (fs_rd s') (f_inode f));
  we_bytes : file_bytes (fs_rd s') (inode_at (fs_rd s') (f_inode f)) =
    splice (file_bytes (fs_rd s) (inode_at (fs_rd s) (f_inode f)))
      (Z.to_nat (f_position f)) (take (Z.to_nat w) src);
  we_files : open_files s' = open_files (at_position s fd (f_position f + w));
  we_ticks : fs_ticks s' = fs_ticks s;
  we_inodes : forall m, 0 <= m < 384 -> m <> f_inode f -> inode_at (fs_rd s') m = inode_at (fs_rd s) m;
  we_other : forall i2, file_ok s i2 -> disjoint_files (inode_at (fs_rd s) (f_inode f)) i2 ->
    file_ok s' i2 /\ file_bytes (fs_rd s') i2 = file_bytes (fs_rd s) i2
}.

(** The write effect, from the end of the loop and the inode stored. *)
Lemma writing_effect s B h2 B' fd f src size p w i b s3 h5 now :
  let i0 := inode_at (fs_rd s) (f_inode f) in
  mounted s B -> 0 <= f_inode f < 384 -> 0 <= f_position f <= i_size i0 ->
  size <= Z.of_nat (length src) -> is_u32 now ->
  writing (set_heap h2 s) B' fd f i0 src size p w i b s3 -> alloc_rep h5 B ->
  write_effect s B fd f src w
    (set_heap h5 (set_rd (put_inode (fs_rd s3) (f_inode f) (set_modified i now)) s3)).
Proof.
  intros i0 Hm Hn Hpos Hsz Hnow Hwr Hr5. pose proof (writing_result _ _ _ _ _ _ _ _ _ _ _ _ Hpos Hsz Hwr) as Hres.
  destruct Hwr as [Hm3 Hf3 [So St] _ _ _ _ Hbl Hk Hfr]. set (n := f_inode f) in *. set (i' := set_modified i now).
  pose proof (mt_disk _ _ Hm3) as Hd3. assert (inode_ok i') as Hi' by (apply inode_ok_set_modified; [apply Hf3|done]).
  pose proof (inode_table_low n Hn) as Hlow. set (s' := set_heap h5 _).
  assert (forall k, k <> inode_block n -> disk_block (fs_rd s') k = disk_block (fs_rd s3) k) as Hdisk
    by (intros; by apply disk_block_put_inode).
  assert (inode_at (fs_rd s') n = i') as Ei.
  { cbn [fs_rd s' set_heap set_rd]. rewrite inode_at_put by (done || lia). by apply decide_True. }
  assert (dbits s' = dbits s3) as Ebits by (apply Hdisk; unfold inode_block; dlia).
  assert (file_ok s' i') as Hf'. { destruct Hf3. split; rewrite ?Ebits; done. }
  split.
  - apply mounted_set_heap with B'; [|done]. apply mounted_put_inode; [done|done|lia].
  - fold n. by rewrite Ei.
  - fold n. rewrite Ei. fold i0. cbn [fs_rd set_heap] in Hres. rewrite <- Hres.
    rewrite (file_bytes_frame s' i' (fs_rd s3)); [done|done|]. intros k Hk10 Hnz. apply Hdisk.
    destruct (fo_used _ _ Hf' k Hk10 Hnz). lia.
  - by rewrite at_position_set_heap in So.
  - rewrite at_position_set_heap in St. cbn in St |- *. rewrite St. unfold at_position.
    by destruct (open_files s !! Z.to_nat fd).
  - fold n. intros m Hm384 Hne. cbn [fs_rd s' set_heap set_rd]. rewrite inode_at_put by (done || lia).
    rewrite decide_False by done. unfold inode_at. rewrite Hfr; [done|..].
    + unfold inode_block. dlia.
    + pose proof (inode_table_low m Hm384). lia.
  - fold n. intros i2 Hf2 Hdj. assert (forall q, (q < 10)%nat -> i_blocks i2 !!! q <> 0 ->
      disk_block (fs_rd s') (67 + i_blocks i2 !!! q) = disk_block (fs_rd s) (67 + i_blocks i2 !!! q)) as Hsame.
    { intros q Hq Hnz. destruct (fo_used _ _ Hf2 q Hq Hnz) as [Hr Ht]. rewrite Hdisk by lia. apply Hfr; [lia|].
      intros _. replace (67 + i_blocks i2 !!! q - 67) with (i_blocks i2 !!! q) by lia. split; [done|].
      intros q' Hq'. by apply Hdj. }
    split; [|by apply (file_bytes_frame s)].
    destruct Hf2 as [Fi Fs Fu Fd Fc Fz]. split; rewrite ?Ebits; try done.
    + intros q Hq Hnz. destruct (Fu q Hq Hnz) as [Hr Ht]. split; [done|]. apply Hk; [lia|done].
    + apply Hk; [lia|done].
Qed.

Lemma exec_fs_write s B fd f src size :
  let i := inode_at (fs_rd s) (f_inode f) in
  mounted s B -> room 1 512 B -> fd_open s fd f -> Z.land (f_flags f) FS_OPEN_WRITE <> 0 ->
  0 <= f_inode f < 384 -> file_ok s i -> 0 <= f_position f <= i_size i ->
  0 <= size <= Z.of_nat (length src) -> Forall is_u8 src -> is_u32 (fs_ticks s) ->
  exists w s', exec (fs_write fd src size) s = (Val w, s') /\ 0 <= w <= size /\
    write_effect s B fd f src w s' /\ write_stopped f size w s'.
Proof.
  intros i Hm Hroom Hfd Hfl Hn Hi Hpos Hsz Hsrc Ht.
  destruct (room_1 B Hroom) as (p & B' & Et). pose proof Hm as [Hh Hd _ _ _ _ _ _].
  unfold fs_write. run. rewrite (fd_open_valid s fd f Hfd). cbn [negb]. rewrite (exec_get_file s fd f Hfd). cbv iota.
  rewrite (proj2 (Z.eqb_neq _ 0)) by done. rewrite exec_bind.
  destruct (exec_read_inode s B (f_inode f) Hh Hd ltac:(lia)) as (h1 & Hr1 & ->). rewrite Et. cbv iota. run.
  fold i. set (s1 := set_heap h1 s).
  pose proof (exec_kmalloc_buf s1 B FS_BLOCK_SIZE Hr1 request_512) as Hk. rewrite Et in Hk.
  destruct Hk as (h2 & E2 & Hr2 & Hpn). rewrite E2. cbv iota. rewrite (nonnull p Uninit Hpn).
  set (s2 := set_heap h2 s1).
  assert (writing s2 B' fd f i src size p 0 i (mk_buf p Uninit) s2) as Hwr.
  { split; rewrite ?Z.add_0_r; try done.
    - by apply mounted_set_heap with B; [apply mounted_set_heap with B|].
    - by apply file_ok_same_bits with s.
    - by rewrite (at_position_same s2 fd f Hfd).
    - pose proof (fo_size _ _ Hi). lia.
    - lia.
    - intros j Hj. by rewrite decide_False by lia.
    - intros k Hk. by left. }
  destruct (exec_write_loop s2 B' fd f i src size p Hfd Hpos Hsz Hsrc Hpn i _ Hwr)
    as (w & i3 & [p' d'] & s3 & E3 & Hwr3 & Hst); [pose proof (fo_size _ _ Hi); lia|].
  rewrite exec_bind, E3. cbv iota. destruct (wr_buf _ _ _ _ _ _ _ _ _ _ _ _ Hwr3) as [Ep _]. cbn in Ep. subst p'.
  destruct (exec_kfree_buf s3 h1 B B' p FS_BLOCK_SIZE d' Hr1 request_512 Et) as (h4 & E4 & Hr4).
  { apply (wr_mounted _ _ _ _ _ _ _ _ _ _ _ _ Hwr3). }
  rewrite exec_bind, E4. unfold timer_get_ticks. run. cbn [fs_ticks set_heap].
  assert (is_u32 (fs_ticks s3)) as Ht3.
  { destruct (wr_state _ _ _ _ _ _ _ _ _ _ _ _ Hwr3) as [_ ->]. unfold at_position.
    by destruct (open_files s2 !! Z.to_nat fd). }
  pose proof (wr_file _ _ _ _ _ _ _ _ _ _ _ _ Hwr3) as Hf3.
  destruct (exec_write_inode (set_heap h4 s3) B (f_inode f) (set_modified i3 (fs_ticks s3)) Hr4)
    as (h5 & Hr5 & E5); [apply (wr_mounted _ _ _ _ _ _ _ _ _ _ _ _ Hwr3)|lia|
      apply inode_ok_set_modified; [apply Hf3|done]|].
  rewrite E5, Et. run. destruct (wr_w _ _ _ _ _ _ _ _ _ _ _ _ Hwr3) as [Hw Hw5].
  rewrite s32_small by (unfold is_s32; lia). eexists w, _. split; [done|]. split; [done|]. split; [|exact Hst].
  exact (writing_effect s B h2 B' fd f src size p w i3 _ s3 h5 _ Hm Hn Hpos ltac:(lia) Ht3 Hwr3 Hr5).
Qed.

(** ** The theorems *)

(** C7: [fs_write] through a descriptor of a file in order.  It returns the
    number [w] of bytes written; the file now holds the first [w] bytes of the
    source from the position of the descriptor on, and its other bytes; the
    position moved by [w]; [w] is less than the size asked for only when the file
    has its largest size (10 blocks) or the disk is full.  The file system
    stays consistent, and every file that shares no block with this one
    keeps its inode and its bytes. *)
Theorem fs_write_spec s B fd f src size :
  let n := f_inode f in
  let i := inode_at (fs_rd s) n in
  let pos := f_position f in
  mounted s B -> room 1 512 B -> fd_open s fd f -> Z.land (f_flags f) FS_OPEN_WRITE <> 0 ->
  0 <= n < 384 -> file_ok s i -> 0 <= pos <= i_size i ->
  0 <= size <= Z.of_nat (length src) -> Forall is_u8 src -> is_u32 (fs_ticks s) ->
  exists w s', exec (fs_write fd src size) s = (Val w, s') /\ mounted s' B /\
    let i' := inode_at (fs_rd s') n in
    file_ok s' i' /\ fd_open s' fd (mk_file n (pos + w) (f_flags f) (f_in_use f)) /\
    file_bytes (fs_rd s') i' = splice (file_bytes (fs_rd s) i) (Z.to_nat pos) (take (Z.to_nat w) src) /\
    0 <= w <= size /\ (w = size \/ pos + w = 5120 \/ free_blocks (superblock s') = 0) /\
    (forall m, 0 <= m < 384 -> m <> n -> file_ok s (inode_at (fs_rd s) m) ->
       disjoint_files i (inode_at (fs_rd s) m) ->
       inode_at (fs_rd s') m = inode_at (fs_rd s) m /\
       file_bytes (fs_rd s') (inode_at (fs_rd s') m) = file_bytes (fs_rd s) (inode_at (fs_rd s) m)).
Proof.
  intros n i pos Hm Hroom Hfd Hfl Hn Hi Hpos Hsz Hsrc Ht.
  destruct (exec_fs_write s B fd f src size Hm Hroom Hfd Hfl Hn Hi Hpos Hsz Hsrc Ht)
    as (w & s' & E & Hw & [Hm' Hf' Hby Hof _ Hin Hot] & Hst).
  exists w, s'. cbv zeta. split_and!; [done|done|done| |done|lia|lia|exact Hst|].
  - pose proof (fd_open_at s fd f (pos + w) Hfd) as (Hr & Ef & Hu). split_and!; [lia..| |done]. by rewrite Hof.
  - intros m Hm384 Hne Hfm Hdj. rewrite Hin by done. split; [done|]. by apply Hot.
Qed.

(** C8: [fs_read] returns the bytes of the file from the position of the
    descriptor on, as many as were asked for and are there, and moves the
    position; the disk and every other descriptor stay as they are. *)
Theorem fs_read_spec s B fd f size :
  let i := inode_at (fs_rd s) (f_inode f) in
  let pos := f_position f in
  mounted s B -> room 1 512 B -> fd_open s fd f -> Z.land (f_flags f) FS_OPEN_READ <> 0 ->
  0 <= f_inode f < 512 -> file_ok s i -> 0 <= pos -> 0 <= size -> pos + size < 4294967296 ->
  exists bytes s', exec (fs_read fd size) s = (Val (Z.of_nat (length bytes), bytes), s') /\ mounted s' B /\
    bytes = take (Z.to_nat size) (drop (Z.to_nat pos) (file_bytes (fs_rd s) i)) /\
    fs_rd s' = fs_rd s /\ superblock s' = superblock s /\
    open_files s' = open_files (at_position s fd (pos + Z.of_nat (length bytes))).
Proof.
  intros i pos Hm Hroom Hfd Hfl Hn Hi Hp Hs Hov.
  destruct (exec_fs_read s B fd f size Hm Hroom Hfd Hfl Hn Hi Hp Hs Hov) as (h' & Hr & E). fold i pos in E.
  pose proof (fo_size _ _ Hi) as Hsz. set (n := readable i pos size) in *.
  assert (sub (file_bytes (fs_rd s) i) (Z.to_nat pos) (Z.to_nat n) =
    take (Z.to_nat size) (drop (Z.to_nat pos) (file_bytes (fs_rd s) i))) as Esub.
  { unfold sub. destruct (decide (pos + size <= i_size i)) as [Hle|Hgt].
    - do 2 f_equal. unfold n, readable. lia.
    - rewrite !take_ge; [done|rewrite length_drop, length_file_bytes; unfold n, readable; lia..]. }
  assert (Z.of_nat (length (take (Z.to_nat size) (drop (Z.to_nat pos) (file_bytes (fs_rd s) i)))) = n) as El.
  { rewrite length_take, length_drop, length_file_bytes. unfold n, readable. lia. }
  rewrite Esub in E. eexists _, _. rewrite El. split; [exact E|].
  destruct (at_position_proj s fd (pos + n)) as (_ & E1 & E2).
  split_and!; [|done|exact E1|exact E2|done].
  apply mounted_set_heap with B; [|done]. by apply mounted_at_position.
Qed.

(** What one descriptor writes, another one on the same file reads: after a
    write of [size] bytes that fits in the file and on the disk, a read
    of that many bytes at the same position gives them back. *)
Theorem fs_write_read s B fd f fd' f' src :
  let i := inode_at (fs_rd s) (f_inode f) in
  let size := Z.of_nat (length src) in
  mounted s B -> room 1 512 B -> fd_open s fd f -> Z.land (f_flags f) FS_OPEN_WRITE <> 0 ->
  fd_open s fd' f' -> Z.land (f_flags f') FS_OPEN_READ <> 0 -> fd' <> fd ->
  f_inode f' = f_inode f -> f_position f' = f_position f ->
  0 <= f_inode f < 384 -> file_ok s i -> 0 <= f_position f <= i_size i -> Forall is_u8 src ->
  is_u32 (fs_ticks s) ->
  exists w s1, exec (fs_write fd src size) s = (Val w, s1) /\
    (w = size \/ f_position f + w = 5120 \/ free_blocks (superblock s1) = 0) /\
    exists s2, exec (fs_read fd' w) s1 = (Val (w, take (Z.to_nat w) src), s2) /\ mounted s2 B.
Proof.
  intros i size Hm Hroom Hfd Hfl Hfd' Hfl' Hne En Ep Hn Hi Hpos Hsrc Ht.
  destruct (exec_fs_write s B fd f src size Hm Hroom Hfd Hfl Hn Hi Hpos ltac:(lia) Hsrc Ht)
    as (w & s1 & E & Hw & [Hm' Hf' Hby Hof _ _ _] & Hst).
  exists w, s1. split; [done|]. split; [exact Hst|]. pose proof (fo_size _ _ Hf') as Hsz'.
  assert (i_size (inode_at (fs_rd s1) (f_inode f)) = Z.max (i_size i) (f_position f + w)) as Es.
  { apply (f_equal length) in Hby. fold i in Hby. unfold splice in Hby.
    rewrite !length_app, length_take, length_drop, length_take, !length_file_bytes in Hby.
    pose proof (fo_size _ _ Hi). lia. }
  assert (fd_open s1 fd' f') as Hfd1.
  { destruct Hfd' as (Hr & Ef & Hu). split_and!; [lia..| |done]. rewrite Hof. unfold at_position.
    destruct Hfd as (Hr2 & -> & _). cbn [open_files set_open_files]. rewrite list_lookup_insert_ne by lia. done. }
  destruct (exec_fs_read s1 B fd' f' w Hm' Hroom Hfd1 Hfl') as (h' & Hr & E2);
    [rewrite En; lia|by rewrite En|lia|lia|lia|].
  rewrite En, Ep in E2. rewrite Hby in E2.
  assert (readable (inode_at (fs_rd s1) (f_inode f)) (f_position f) w = w) as Erd by (unfold readable; lia).
  rewrite Erd in E2. eexists. split.
  - rewrite E2. do 2 f_equal. f_equal. fold i.
    assert (length (take (Z.to_nat w) src) = Z.to_nat w) as El by (rewrite length_take; lia).
    rewrite <- El at 2. unfold sub, splice. rewrite drop_app_length' by (rewrite length_take, length_file_bytes; lia).
    apply take_app_length.
  - apply mounted_set_heap with B; [|done]. by apply mounted_at_position.
Qed.

End files.

(** ** A file on the disk of the booted system *)

Definition demo_file : fs_inode_t := mk_inode 7 0 0 0 0 0 (replicate 10 0) (replicate 4 0).

(** Inode 5 is a new file; descriptor 0 writes it, descriptor 1 reads it. *)
Definition demo_files : list fs_file_t :=
  mk_file 5 0 FS_OPEN_WRITE 1 :: mk_file 5 0 FS_OPEN_READ 1 :: replicate 14 (mk_file 0 0 0 0).
Definition with_demo {H} (s : fs_t H) : fs_t H :=
  mk_fs (fs_heap s) (put_inode (fs_rd s) 5 demo_file) (superblock s) (inode_bitmap s) (data_bitmap s)
    demo_files (fs_initialized s) 0.
Definition fs2 : fs_t heap := with_demo fs1.

Lemma demo_file_ok : inode_ok demo_file.
Proof. apply new_inode_ok; by unfold is_u32. Qed.

Lemma with_demo_ok `{Allocator H} (s : fs_t H) B :
  mounted s B -> fresh_fs s ->
  mounted (with_demo s) B /\ inode_at (fs_rd (with_demo s)) 5 = demo_file /\ file_ok (with_demo s) demo_file.
Proof.
  intros Hm (_ & _ & _ & Hd).
  assert (dbits (with_demo s) = bit0_block) as E2.
  { rewrite <- Hd. apply disk_block_put_inode; [apply (mt_disk _ _ Hm)|apply demo_file_ok|done]. }
  pose proof (mounted_set_open_files _ _ demo_files (mounted_put_inode s B 5 demo_file Hm demo_file_ok ltac:(lia)) eq_refl) as Hm2.
  split_and!.
  - destruct Hm2. split; done.
  - cbn [fs_rd with_demo]. rewrite inode_at_put; [done|apply (mt_disk _ _ Hm)|apply demo_file_ok|lia..].
  - assert (forall k, (k < 10)%nat -> i_blocks demo_file !!! k = 0) as Hz
      by (intros; by apply lookup_total_replicate_2).
    split; [apply demo_file_ok|cbn; lia|..].
    + intros k Hk Hne. by rewrite Hz in Hne.
    + intros k k' Hk Hk' _ Hne. by rewrite Hz in Hne.
    + intros k Hk Hlt. cbn in Hlt. lia.
    + by rewrite E2.
Qed.

Lemma fs2_ok : exists B, mounted fs2 B /\ room 1 512 B /\ inode_at (fs_rd fs2) 5 = demo_file /\
  file_ok fs2 demo_file.
Proof.
  destruct fs1_ok as (B & Hm & Hf & Hr). exists B.
  destruct (with_demo_ok fs1 B Hm Hf) as (H1 & H2 & H3).
  exact (conj H1 (conj (room_le 1 3 512 B ltac:(lia) Hr) (conj H2 H3))).
Qed.

Lemma fs2_fd0 : fd_open fs2 0 (mk_file 5 0 FS_OPEN_WRITE 1).
Proof. split_and!; [lia|lia|reflexivity|discriminate]. Qed.

Lemma fs2_fd1 : fd_open fs2 1 (mk_file 5 0 FS_OPEN_READ 1).
Proof. split_and!; [lia|lia|reflexivity|discriminate]. Qed.

Lemma demo_bytes : Forall is_u8 [104; 105].
Proof. repeat constructor; unfold is_u8; lia. Qed.

Lemma fs_write_spec_witness : exists w s', exec (fs_write 0 [104; 105] 2) fs2 = (Val w, s').
Proof.
  destruct fs2_ok as (B & Hm & Hr & Ei & Hi).
  destruct (fs_write_spec fs2 B 0 (mk_file 5 0 FS_OPEN_WRITE 1) [104; 105] 2) as (w & s' & E & _);
    cbn [f_inode f_position f_flags f_in_use]; rewrite ?Ei.
  - exact Hm.
  - exact Hr.
  - exact fs2_fd0.
  - discriminate.
  - lia.
  - exact Hi.
  - cbn; lia.
  - cbn; lia.
  - exact demo_bytes.
  - unfold is_u32. cbn. lia.
  - exists w, s'. exact E.
Defined.

Lemma fs_read_spec_witness : exists bytes s',
  exec (fs_read 1 100) fs2 = (Val (Z.of_nat (length bytes), bytes), s').
Proof.
  destruct fs2_ok as (B & Hm & Hr & Ei & Hi).
  destruct (fs_read_spec fs2 B 1 (mk_file 5 0 FS_OPEN_READ 1) 100) as (l & s' & E & _);
    cbn [f_inode f_position f_flags f_in_use]; rewrite ?Ei.
  - exact Hm.
  - exact Hr.
  - exact fs2_fd1.
  - discriminate.
  - lia.
  - exact Hi.
  - lia.
  - lia.
  - lia.
  - exists l, s'. exact E.
Defined.

Lemma fs_write_read_witness : exists w s1 s2, exec (fs_write 0 [104; 105] 2) fs2 = (Val w, s1) /\
  exec (fs_read 1 w) s1 = (Val (w, take (Z.to_nat w) [104; 105]), s2).
Proof.
  destruct fs2_ok as (B & Hm & Hr & Ei & Hi).
  destruct (fs_write_read fs2 B 0 (mk_file 5 0 FS_OPEN_WRITE 1) 1 (mk_file 5 0 FS_OPEN_READ 1) [104; 105])
    as (w & s1 & E & _ & s2 & E2 & _); cbn [f_inode f_position f_flags f_in_use]; rewrite ?Ei.
  - exact Hm.
  - exact Hr.
  - exact fs2_fd0.
  - discriminate.
  - exact fs2_fd1.
  - discriminate.
  - discriminate.
  - reflexivity.
  - reflexivity.
  - lia.
  - exact Hi.
  - cbn; lia.
  - exact demo_bytes.
  - unfold is_u32. cbn. lia.
  - exists w, s1, s2. split; [exact E|exact E2].
Defined.
