(* ===== verification/FsDir.v ===== *)
(** * WitFS: directories

    The root directory is a list of entries, a name and an inode number each,
    kept in 16 slots of 32 bytes per block.  [path_lookup] finds the first entry
    with a name, [fs_create] adds one, [fs_unlink] removes one. *)

From S2P Require Import Prelude Bits Mem Bytes CString Heap Alloc HeapAlloc RamDisk Fs FsDisk FsMount FsFile.

(** ** One block of entries *)

(** The C string an array starts with. *)
Fixpoint text (a : list Z) : list Z :=
  match a with
  | [] => []
  | ch :: r => if ch =? 0 then [] else ch :: text r
  end.

Lemma text_holds a t : 0 ∈ a -> holds (a ++ t) (text a).
Proof.
  induction a as [|ch a IH]; intros Hin; [by apply not_elem_of_nil in Hin|]. simpl.
  destruct (Z.eqb_spec ch 0) as [->|Hch]; [by exists (a ++ t)|].
  apply elem_of_cons in Hin as [E|Hin]; [congruence|]. apply holds_cons; auto.
Qed.

Lemma text_app s t : Forall (fun ch => ch <> 0) s -> text (s ++ 0 :: t) = s.
Proof.
  induction 1 as [|ch s Hch Hs IH]; [done|]. simpl. by rewrite (proj2 (Z.eqb_neq ch 0)), IH.
Qed.

(** The name field of slot [k], and the entry in it when the slot is in use. *)
Definition name_field (l : list Z) (k : nat) : list Z := sub l (32 * k + 4) 28.
Definition dirent (l : list Z) (k : nat) : option (list Z * Z) :=
  if entry_inode l k =? 0 then None else Some (text (name_field l k), entry_inode l k).
Definition block_entries (l : list Z) : list (list Z * Z) := omap (dirent l) (seq 0 16).

(** A block of a directory: every name in use is terminated in its field. *)
Definition dir_block (l : list Z) : Prop :=
  is_block l /\ forall k, (k < 16)%nat -> entry_inode l k <> 0 -> 0 ∈ name_field l k.

Lemma entry_name_holds l k :
  dir_block l -> (k < 16)%nat -> entry_inode l k <> 0 -> holds (entry_name l k) (text (name_field l k)).
Proof.
  intros [[Hl _] Hz] Hk Hne. unfold entry_name, DIRENT_SIZE.
  replace (drop (32 * k + 4) l) with (name_field l k ++ drop 28 (drop (32 * k + 4) l))
    by (unfold name_field, sub; apply take_drop). by apply text_holds, Hz.
Qed.

(** The inode of the first entry with the name. *)
Definition dir_lookup (es : list (list Z * Z)) (nm : list Z) : option Z :=
  first_some (fun e => if decide (fst e = nm) then Some (snd e) else None) es.

Lemma dir_lookup_cons e es nm :
  dir_lookup (e :: es) nm = if decide (fst e = nm) then Some (snd e) else dir_lookup es nm.
Proof. unfold dir_lookup, first_some at 1. by case_decide. Qed.

Lemma dir_lookup_app es1 es2 nm :
  dir_lookup (es1 ++ es2) nm = match dir_lookup es1 nm with Some n => Some n | None => dir_lookup es2 nm end.
Proof.
  induction es1 as [|e es1 IH]; [done|]. cbn [app]. rewrite !dir_lookup_cons. by case_decide.
Qed.

(** The loop over the slots of a block finds the entry [dir_lookup] finds. *)
Lemma find_entry_spec l name nm idx :
  dir_block l -> holds name nm -> (forall k, k ∈ idx -> (k < 16)%nat) ->
  exists r, find_entry l name idx = Some r /\
    match r with
    | Some k => k ∈ idx /\ dirent l k = Some (nm, entry_inode l k) /\
        dir_lookup (omap (dirent l) idx) nm = Some (entry_inode l k)
    | None => dir_lookup (omap (dirent l) idx) nm = None
    end.
Proof.
  intros Hl Hn. induction idx as [|k idx IH]; intros Hidx; [by exists None|].
  destruct IH as (r & E & Hr); [intros; apply Hidx; set_solver|]. cbn [find_entry omap list_omap].
  assert (dirent l k = if entry_inode l k =? 0 then None else Some (text (name_field l k), entry_inode l k)) as Ed by done.
  destruct (Z.eqb_spec (entry_inode l k) 0) as [E0|E0].
  { rewrite Ed. exists r. split; [done|]. destruct r; [|done]. destruct Hr as (? & ? & ?). split_and!; [by right|done..]. }
  rewrite Ed. destruct (strcmp_holds _ _ _ _ (entry_name_holds l k Hl (Hidx k ltac:(left)) E0) Hn) as (v & -> & Ev).
  simpl. rewrite Ev. rewrite dir_lookup_cons. cbn [fst snd]. case_bool_decide as Enm.
  - exists (Some k). split; [done|]. rewrite decide_True by done. rewrite Ed, Enm. split_and!; [left|done|done].
  - exists r. split; [done|]. rewrite decide_False by done. destruct r; [|done].
    destruct Hr as (? & ? & ?). split_and!; [by right|done..].
Qed.

Lemma omap_ext_in {A C} (g1 g2 : A -> option C) (l : list A) :
  (forall x, x ∈ l -> g1 x = g2 x) -> omap g1 l = omap g2 l.
Proof.
  induction l as [|x l IH]; intros Hx; [done|]. cbn [omap list_omap]. rewrite Hx by left.
  destruct (g2 x); [f_equal|]; apply IH; intros; apply Hx; by right.
Qed.

(** The entries before slot [j], the one in it, and the ones behind. *)
Lemma block_entries_split l j : (j < 16)%nat ->
  block_entries l = omap (dirent l) (seq 0 j) ++ option_list (dirent l j) ++ omap (dirent l) (seq (S j) (15 - j)).
Proof.
  intros Hj. unfold block_entries. replace 16%nat with (j + (1 + (15 - j)))%nat by lia.
  rewrite seq_app, omap_app. f_equal. rewrite Nat.add_0_l. cbn [seq Nat.add omap list_omap].
  by destruct (dirent l j).
Qed.

(** A block whose slot [j] alone changed. *)
Lemma block_entries_update l l' j :
  (j < 16)%nat -> (forall k, (k < 16)%nat -> k <> j -> dirent l' k = dirent l k) ->
  exists es1 es2, block_entries l = es1 ++ option_list (dirent l j) ++ es2 /\
    block_entries l' = es1 ++ option_list (dirent l' j) ++ es2.
Proof.
  intros Hj Hsame. rewrite !(block_entries_split _ j Hj).
  eexists _, _. split; [done|]. f_equal; [|f_equal]; apply omap_ext_in;
    intros k Hk%elem_of_seq; apply Hsame; lia.
Qed.

(** ** Changing a slot *)

(** The 28 bytes of a name: cut at 27 characters, and zeroes to the end. *)
Definition stored_name (nm : list Z) : list Z := take 27 nm.
Definition name_bytes (nm : list Z) : list Z :=
  stored_name nm ++ replicate (28 - length (stored_name nm)) 0.

Lemma length_name_bytes nm : length (name_bytes nm) = 28%nat.
Proof. unfold name_bytes, stored_name. rewrite length_app, length_replicate, length_take. lia. Qed.

Lemma splice_mid {A} (a b xs c : list A) off :
  off = length a -> length xs = length b -> splice (a ++ b ++ c) off xs = a ++ xs ++ c.
Proof.
  intros -> Hx. unfold splice. rewrite take_app_length. do 2 f_equal.
  rewrite Hx, <- length_app, app_assoc. by rewrite drop_app_length.
Qed.

(** A block around slot [j]: its 4 bytes of inode number and 28 of name. *)
Lemma slot_parts (l : list Z) j : length l = 512%nat -> (j < 16)%nat ->
  exists a w fl c, l = a ++ w ++ fl ++ c /\ length a = (32 * j)%nat /\ length w = 4%nat /\ length fl = 28%nat.
Proof.
  intros Hl Hj. exists (take (32 * j) l), (take 4 (drop (32 * j) l)),
    (take 28 (drop 4 (drop (32 * j) l))), (drop 28 (drop 4 (drop (32 * j) l))).
  rewrite !take_drop. rewrite !length_take, !length_drop. split_and!; [done|lia..].
Qed.

(** Writing an entry into a slot: the number and the name, and nothing else. *)
Lemma set_entry_eq l j n name nm :
  length l = 512%nat -> (j < 16)%nat -> holds name nm ->
  set_entry_name (set_entry_inode l j n) j name = Some (splice l (32 * j) (le32 n ++ name_bytes nm)).
Proof.
  intros Hl Hj Hn. destruct (slot_parts l j Hl Hj) as (a & w & fl & t & -> & Ha & Hw & Hf).
  unfold set_entry_inode, DIRENT_SIZE. rewrite splice_mid by done.
  assert (splice (a ++ w ++ fl ++ t) (32 * j) (le32 n ++ name_bytes nm) = a ++ le32 n ++ name_bytes nm ++ t) as ->.
  { rewrite (app_assoc w), splice_mid; [by rewrite <- !app_assoc|done|].
    rewrite !length_app, length_name_bytes, length_le32. lia. }
  unfold set_entry_name, entry_name, DIRENT_SIZE. rewrite (app_assoc a).
  assert (length (a ++ le32 n) = 32 * j + 4)%nat as Hal by (rewrite length_app, length_le32; lia).
  rewrite drop_app_length', take_app_length' by done. unfold FS_MAX_FILENAME.
  assert (27 = Z.of_nat 27) as -> by done. unfold name_bytes, stored_name.
  destruct (decide (length nm < 27)%nat) as [Hlt|Hge].
  - rewrite (strncpy_short nm 27 (fl ++ t)) by done. rewrite decide_True by (rewrite length_app; lia).
    cbn [option_bind mbind]. f_equal. rewrite (take_ge nm) by lia. rewrite drop_app_length' by done.
    replace (S 27 - length nm)%nat with (28 - length nm)%nat by lia.
    replace (28 - length nm)%nat with ((27 - length nm) + 1)%nat by lia.
    rewrite replicate_add. change (replicate 1 0) with [0].
    transitivity (splice (((a ++ le32 n) ++ nm ++ replicate (27 - length nm) 0) ++ [0] ++ t) (32 * j + 4 + 27) [0]).
    { f_equal. by rewrite <- !app_assoc. }
    rewrite splice_mid; [by rewrite <- !app_assoc| |done]. rewrite !length_app, length_replicate in *. lia.
  - rewrite (strncpy_truncates nm 27 (fl ++ t)) by (done || lia || (rewrite length_app; lia)).
    cbn [option_bind mbind]. f_equal. rewrite length_take, Nat.min_l by lia. change (replicate (28 - 27) 0) with [0].
    destruct (drop 27 fl) as [|x [|]] eqn:Ed; pose proof (f_equal length Ed) as El; rewrite length_drop in El; simpl in El; [lia| |lia].
    rewrite drop_app_le, Ed by lia.
    transitivity (splice (((a ++ le32 n) ++ take 27 nm) ++ [x] ++ t) (32 * j + 4 + 27) [0]).
    { f_equal. by rewrite <- !app_assoc. }
    rewrite splice_mid; [by rewrite <- !app_assoc| |done]. rewrite !length_app, length_take in *. lia.
Qed.

Lemma sub_mid {A} (a b c : list A) off n : off = length a -> n = length b -> sub (a ++ b ++ c) off n = b.
Proof. intros -> ->. unfold sub. by rewrite drop_app_length, take_app_length. Qed.

Lemma splice_slot_other l off xs k :
  (off + length xs <= length l)%nat -> (32 * k + 32 <= off \/ off + length xs <= 32 * k)%nat ->
  dirent (splice l off xs) k = dirent l k /\ name_field (splice l off xs) k = name_field l k /\
  entry_inode (splice l off xs) k = entry_inode l k.
Proof.
  intros Hl Hd. unfold dirent, entry_inode, word_at, name_field, DIRENT_SIZE.
  rewrite !sub_splice_other by lia. done.
Qed.

(** The entry written into slot [j]. *)
Lemma set_slot_dirent l j n nm :
  length l = 512%nat -> (j < 16)%nat -> is_u32 n -> Forall (fun ch => ch <> 0) nm ->
  let l' := splice l (32 * j) (le32 n ++ name_bytes nm) in
  entry_inode l' j = n /\ name_field l' j = name_bytes nm /\ text (name_bytes nm) = stored_name nm.
Proof.
  intros Hl Hj Hn Hz. cbv zeta. destruct (slot_parts l j Hl Hj) as (a & w & fl & t & -> & Ha & Hw & Hf).
  rewrite (app_assoc w), splice_mid, <- (app_assoc (le32 n)); [|done|].
  2: { rewrite !length_app, length_name_bytes, length_le32. lia. }
  split_and!.
  - unfold entry_inode, word_at, DIRENT_SIZE. rewrite sub_mid by (done || lia). by apply le_word_le32.
  - unfold name_field. rewrite (app_assoc a), sub_mid; [done| |by rewrite length_name_bytes].
    rewrite length_app, length_le32. lia.
  - unfold name_bytes. assert (exists m, (28 - length (stored_name nm) = S m)%nat) as [m ->].
    { exists (27 - length (stored_name nm))%nat. unfold stored_name. rewrite length_take. lia. }
    cbn [replicate]. apply text_app. by apply Forall_take.
Qed.

(** A free slot is filled: the entries of the block gain one. *)
Lemma block_entries_add l j n nm :
  is_block l -> dir_block l -> (j < 16)%nat -> entry_inode l j = 0 -> is_u32 n -> n <> 0 ->
  Forall (fun ch => ch <> 0) nm -> Forall is_u8 nm ->
  let l' := splice l (32 * j) (le32 n ++ name_bytes nm) in
  dir_block l' /\ exists es1 es2, block_entries l = es1 ++ es2 /\ block_entries l' = es1 ++ (stored_name nm, n) :: es2.
Proof.
  intros [Hl Hu] [_ Hz] Hj E0 Hn Hn0 Hnz Hnu l'.
  assert (length (le32 n ++ name_bytes nm) = 32%nat) as Hx by (rewrite length_app, length_le32, length_name_bytes; lia).
  destruct (set_slot_dirent l j n nm Hl Hj Hn Hnz) as (E1 & E2 & E3). fold l' in E1, E2.
  assert (forall k, (k < 16)%nat -> k <> j -> dirent l' k = dirent l k /\ name_field l' k = name_field l k /\
    entry_inode l' k = entry_inode l k) as Hoth.
  { intros k Hk Hne. apply splice_slot_other; rewrite Hx; lia. }
  split.
  - split.
    + apply splice_block; [done| |rewrite Hx; lia]. apply Forall_app. split; [apply le32_u8|]. unfold name_bytes, stored_name.
      apply Forall_app. split; [by apply Forall_take|]. apply Forall_replicate. unfold is_u8. lia.
    + intros k Hk Hne. destruct (decide (k = j)) as [->|Hkj].
      * rewrite E2. unfold name_bytes. apply elem_of_app. right. apply elem_of_replicate. split; [done|].
        unfold stored_name. rewrite length_take. lia.
      * destruct (Hoth k Hk Hkj) as (_ & -> & Ei). apply Hz; [done|congruence].
  - destruct (block_entries_update l l' j Hj) as (es1 & es2 & -> & ->); [intros; by apply Hoth|].
    exists es1, es2. unfold dirent. rewrite E0, E1, E2, E3, (proj2 (Z.eqb_neq n 0)) by done. done.
Qed.

(** A slot is cleared: the entries of the block lose one. *)
Lemma block_entries_remove l j e :
  dir_block l -> (j < 16)%nat -> dirent l j = Some e ->
  dir_block (set_entry_inode l j 0) /\
  exists es1 es2, block_entries l = es1 ++ e :: es2 /\ block_entries (set_entry_inode l j 0) = es1 ++ es2.
Proof.
  intros [[Hl Hu] Hz] Hj He. unfold set_entry_inode, DIRENT_SIZE. set (l' := splice _ _ _).
  assert (forall k, (k < 16)%nat -> k <> j -> dirent l' k = dirent l k /\ name_field l' k = name_field l k /\
    entry_inode l' k = entry_inode l k) as Hoth.
  { intros k Hk Hne. apply splice_slot_other; rewrite length_le32; lia. }
  assert (entry_inode l' j = 0) as E0.
  { unfold entry_inode, word_at, DIRENT_SIZE, l'. pose proof (sub_splice_same l (32 * j) (le32 0)) as E.
    rewrite length_le32 in E. by rewrite E by lia. }
  split.
  - split; [apply splice_block; [done|apply le32_u8|rewrite length_le32; lia]|].
    intros k Hk Hne. destruct (decide (k = j)) as [->|Hkj]; [done|].
    destruct (Hoth k Hk Hkj) as (_ & -> & Ei). apply Hz; [done|congruence].
  - destruct (block_entries_update l l' j Hj) as (es1 & es2 & -> & ->); [intros; by apply Hoth|].
    exists es1, es2. rewrite He. unfold dirent. by rewrite E0.
Qed.

(** ** The directory *)

(** The blocks in use: up to the first pointer that is 0. *)
Fixpoint live_blocks (bs : list Z) : list Z :=
  match bs with
  | [] => []
  | b :: r => if b =? 0 then [] else b :: live_blocks r
  end.

Section gather.
Context {E : Type} (g : Z -> list E).

(** What the blocks in use hold, one after the other. *)
Definition gather (bs : list Z) : list E := mjoin (g <$> live_blocks bs).

Lemma gather_cons b bs : b <> 0 -> gather (b :: bs) = g b ++ gather bs.
Proof. intros Hb. unfold gather. cbn [live_blocks]. by rewrite (proj2 (Z.eqb_neq b 0)). Qed.

Lemma gather_app pre b post : Forall (fun b => b <> 0) pre -> b <> 0 ->
  gather (pre ++ b :: post) = mjoin (g <$> pre) ++ g b ++ gather post.
Proof.
  intros Hp Hb. induction Hp as [|x pre Hx Hp IH]; cbn [app]; [by apply gather_cons|].
  rewrite gather_cons, IH by done. cbn. by rewrite <- app_assoc.
Qed.

Lemma gather_end pre post : Forall (fun b => b <> 0) pre -> gather (pre ++ 0 :: post) = mjoin (g <$> pre).
Proof. induction 1 as [|x pre Hx Hp IH]; cbn [app]; [done|]. by rewrite gather_cons, IH by done. Qed.

End gather.

Lemma gather_ext {E} (g1 g2 : Z -> list E) bs :
  (forall b, b ∈ live_blocks bs -> g1 b = g2 b) -> gather g1 bs = gather g2 bs.
Proof.
  intros Hg. unfold gather. f_equal. apply list_fmap_ext. intros k b Hb. apply Hg. by eapply list_elem_of_lookup_2.
Qed.

Definition entries_at (d : ramdisk_t) (b : Z) : list (list Z * Z) := block_entries (disk_block d (67 + b)).
Definition dir_entries (d : ramdisk_t) (i : fs_inode_t) : list (list Z * Z) := gather (entries_at d) (i_blocks i).

Section dirs.
Context {H : Type} `{Allocator H}.
Implicit Types s : fs_t H.

(** The blocks of a directory are data blocks in use, all different, without
    gaps, and hold terminated names. *)
Record dir_ok s (i : fs_inode_t) : Prop := {
  do_inode : inode_ok i;
  do_mode : Z.land (i_mode i) FS_TYPE_DIR <> 0;
  do_used : forall k, (k < 10)%nat -> i_blocks i !!! k <> 0 ->
    0 < i_blocks i !!! k < 1981 /\ bm_bit 8 (dbits s) (i_blocks i !!! k) = true;
  do_distinct : forall k k', (k < 10)%nat -> (k' < 10)%nat -> k <> k' ->
    i_blocks i !!! k <> 0 -> i_blocks i !!! k <> i_blocks i !!! k';
  do_gapless : forall k k', (k < k' < 10)%nat -> i_blocks i !!! k' <> 0 -> i_blocks i !!! k <> 0;
  do_blocks : forall k, (k < 10)%nat -> i_blocks i !!! k <> 0 ->
    dir_block (disk_block (fs_rd s) (67 + i_blocks i !!! k));
  do_zero : bm_bit 8 (dbits s) 0 = true
}.

(** A block of the directory, read into the buffer. *)
Lemma exec_read_dir_block s B i k data :
  mounted s B -> dir_ok s i -> (k < 10)%nat -> i_blocks i !!! k <> 0 -> b_ptr data <> 0 ->
  exec (read_block (u32 (FS_DATA_BLOCKS_START + i_blocks i !!! k)) data) s =
    (Val (0, mk_buf (b_ptr data) (Bytes (disk_block (fs_rd s) (67 + i_blocks i !!! k)))), s).
Proof.
  intros Hm Hi Hk Hne Hp. destruct (do_used _ _ Hi k Hk Hne) as [Hr _].
  unfold FS_DATA_BLOCKS_START. rewrite u32_small by (unfold is_u32; lia).
  apply exec_read_block_fs; [apply (mt_disk _ _ Hm)|lia|by apply Z.eqb_neq].
Qed.

Lemma slots_seq k : k ∈ seq 0 entries_per_block -> (k < 16)%nat.
Proof. intros Hk%elem_of_seq. unfold entries_per_block in Hk. lia. Qed.

Section lookup.
Context (s : fs_t H) (B B' : blocks) (h0 : H) (i : fs_inode_t) (name nm : list Z) (p : Z).
Hypothesis Hm : mounted s B'.
Hypothesis Hr0 : alloc_rep h0 B.
Hypothesis Et : take_block FS_BLOCK_SIZE B = Some (p, B').
Hypothesis Hi : dir_ok s i.
Hypothesis Hn : holds name nm.
Hypothesis Hp : p <> 0.

Lemma exec_lookup_loop n k data :
  (k + n = 10)%nat -> b_ptr data = p ->
  exists r s', exec (for_state (seq k n) (lookup_round i name) data) s = (Val r, s') /\
  match dir_lookup (gather (entries_at (fs_rd s)) (drop k (i_blocks i))) nm with
  | Some ino => r = inr (Some ino) /\ exists h', alloc_rep h' B /\ s' = set_heap h' s
  | None => s' = s /\ (r = inr None \/ exists d, r = inl d)
  end.
Proof.
  revert k data. induction n as [|n IH]; intros k data Hk Hb.
  { rewrite drop_ge by (rewrite (io_blocks _ (do_inode _ _ Hi)); lia). exists (inl data), s. split; [done|]. split; [done|]. right. by exists data. }
  assert (k < length (i_blocks i))%nat as Hlen by (rewrite (io_blocks _ (do_inode _ _ Hi)); lia).
  rewrite (drop_S (i_blocks i) (i_blocks i !!! k) k) by (by apply list_lookup_lookup_total_lt).
  cbn [seq]. unfold for_state; fold (@for_state (fs_t H) nat buf (option Z)). rewrite exec_bind. unfold lookup_round at 1.
  destruct (Z.eqb_spec (i_blocks i !!! k) 0) as [E0|E0].
  { run. eexists _, _. split; [done|]. rewrite E0. split; [done|by left]. }
  cbv zeta. rewrite exec_bind, (exec_read_dir_block s B') by (done || lia || congruence). cbv iota.
  rewrite exec_bind. cbn [bytes_of b_data]. rewrite exec_defined_Some. cbv iota.
  set (l := disk_block _ _). destruct (find_entry_spec l name nm (seq 0 entries_per_block)
    (do_blocks _ _ Hi k ltac:(lia) E0) Hn slots_seq) as (r & Er & Hr).
  rewrite exec_bind, Er, exec_defined_Some. cbv iota.
  rewrite gather_cons, dir_lookup_app by done. 
  unfold entries_per_block in Hr. fold (block_entries l) in Hr.
  assert (entries_at (fs_rd s) (i_blocks i !!! k) = block_entries l) as -> by reflexivity.
  destruct r as [j|].
  - destruct Hr as (_ & _ & ->). rewrite Hb. rewrite exec_bind.
    destruct (exec_kfree_buf s h0 B B' p FS_BLOCK_SIZE (Bytes l) Hr0 request_512 Et (mt_heap _ _ Hm)) as (h' & -> & Hr').
    cbv iota. rewrite !exec_ret. eexists _, _. split; [done|]. eauto.
  - rewrite Hr, exec_ret. cbv iota. apply IH; [lia|done].
Qed.

End lookup.

(** The path of a file in the root directory: the name [nm], perhaps after a
    slash. *)
Definition names (path nm : list Z) : Prop :=
  exists name, skip_slash path = Some name /\ holds name nm.

Lemma exec_path_lookup s B path nm :
  mounted s B -> room 1 512 B -> dir_ok s (inode_at (fs_rd s) 0) -> names path nm -> nm <> [] ->
  exists h', alloc_rep h' B /\
    exec (path_lookup (Some path)) s =
      (Val (dir_lookup (dir_entries (fs_rd s) (inode_at (fs_rd s) 0)) nm), set_heap h' s).
Proof.
  intros Hm Hroom Hi (name & Esk & Hn) Hne. destruct (room_1 B Hroom) as (p & B' & Et).
  pose proof Hm as [Hh Hd _ _ _ _ _ _]. set (i := inode_at (fs_rd s) 0) in *.
  unfold path_lookup. rewrite Esk, exec_bind, exec_defined_Some. cbv iota.
  destruct nm as [|ch nm]; [done|]. pose proof (holds_inv _ _ Hn) as (Hch & a' & -> & _).
  cbn [head]. rewrite exec_bind, exec_defined_Some. cbv iota. rewrite (proj2 (Z.eqb_neq ch 0)) by done.
  destruct (exec_read_inode s B 0 Hh Hd ltac:(lia)) as (h1 & Hr1 & E1). rewrite Et in E1. fold i in E1.
  rewrite exec_bind, E1. cbv iota. rewrite (proj2 (Z.eqb_neq _ 0)) by (apply (do_mode _ _ Hi)).
  set (s1 := set_heap h1 s).
  pose proof (exec_kmalloc_buf s1 B FS_BLOCK_SIZE Hr1 request_512) as Hk. rewrite Et in Hk.
  destruct Hk as (h2 & E2 & Hr2 & Hpn). rewrite exec_bind, E2. cbv iota. rewrite (nonnull p Uninit Hpn).
  set (s2 := set_heap h2 s1).
  assert (mounted s2 B') as Hm2 by (by apply mounted_set_heap with B; [apply mounted_set_heap with B|]).
  destruct (exec_lookup_loop s2 B B' h1 i (ch :: a') (ch :: nm) p Hm2 Hr1 Et) with (n := 10%nat) (k := 0%nat)
    (data := mk_buf p Uninit) as (r & s' & E3 & Hr); [by destruct Hi|done|done|done|done|].
  rewrite exec_bind. change FS_DIRECT_BLOCKS with 10%nat. rewrite E3. cbv iota. rewrite drop_0 in Hr.
  change (gather (entries_at (fs_rd s2)) (i_blocks i)) with (dir_entries (fs_rd s) i) in Hr.
  destruct (dir_lookup (dir_entries (fs_rd s) i) (ch :: nm)) as [ino|].
  - destruct Hr as (-> & h' & Hr' & ->). rewrite exec_ret. by exists h'.
  - destruct Hr as (-> & Hr).
    destruct (exec_kfree_buf s2 h1 B B' p FS_BLOCK_SIZE Uninit Hr1 request_512 Et Hr2) as (h4 & E4 & Hr4).
    exists h4. split; [done|]. destruct Hr as [->|[d ->]]; rewrite exec_bind, E4; by rewrite exec_ret.
Qed.

(** ** Adding and removing entries *)

(** What a change of the directory leaves: the entries are related by [R], and
    everything outside the directory is as it was. *)
Record dir_effect s (B : blocks) (R : list (list Z * Z) -> list (list Z * Z) -> Prop) s' : Prop := {
  de_mounted : mounted s' B;
  de_dir : dir_ok s' (inode_at (fs_rd s') 0);
  de_entries : R (dir_entries (fs_rd s) (inode_at (fs_rd s) 0)) (dir_entries (fs_rd s') (inode_at (fs_rd s') 0));
  de_files : same_files s s';
  de_ibits : ibits s' = ibits s;
  de_inodes : forall m, 0 < m < 384 -> inode_at (fs_rd s') m = inode_at (fs_rd s) m;
  de_kept : forall b, 0 <= b < 1981 -> bm_bit 8 (dbits s) b = true -> bm_bit 8 (dbits s') b = true;
  de_new : forall b, 0 <= b < 1981 -> bm_bit 8 (dbits s') b = true ->
    bm_bit 8 (dbits s) b = true \/ exists k, (k < 10)%nat /\ i_blocks (inode_at (fs_rd s') 0) !!! k = b;
  de_blocks : forall k, (k < 10)%nat -> i_blocks (inode_at (fs_rd s') 0) !!! k = i_blocks (inode_at (fs_rd s) 0) !!! k \/
    i_blocks (inode_at (fs_rd s) 0) !!! k = 0 /\ bm_bit 8 (dbits s) (i_blocks (inode_at (fs_rd s') 0) !!! k) = false;
  de_frame : forall b, 0 < b < 1981 -> bm_bit 8 (dbits s) b = true ->
    (forall k, (k < 10)%nat -> i_blocks (inode_at (fs_rd s) 0) !!! k <> b) ->
    disk_block (fs_rd s') (67 + b) = disk_block (fs_rd s) (67 + b)
}.

(** Block [k] of the directory, [b], is in use: it was there, or it is new. *)
Record prepared s (B : blocks) (i : fs_inode_t) (k : nat) (b : Z) (l : list Z) s1 : Prop := {
  pp_index : (k < 10)%nat;
  pp_before : forall q, (q < k)%nat -> i_blocks i !!! q <> 0;
  pp_range : 0 < b < 1981;
  pp_block : i_blocks i !!! k = b /\ l = disk_block (fs_rd s) (67 + b) \/
    i_blocks i !!! k = 0 /\ bm_bit 8 (dbits s) b = false /\ l = zero_block;
  pp_mounted : mounted s1 B;
  pp_files : same_files s s1;
  pp_bits : forall j, 0 <= j < 1981 -> bm_bit 8 (dbits s1) j = (b =? j) || bm_bit 8 (dbits s) j;
  pp_disk : forall q, q <> 2 -> disk_block (fs_rd s1) q = disk_block (fs_rd s) q
}.

Lemma zero_entry k : (k < 16)%nat -> entry_inode zero_block k = 0.
Proof. intros Hk. do 16 (destruct k as [|k]; [by vm_compute|]). lia. Qed.

Lemma zero_dir_block : dir_block zero_block.
Proof. split; [apply zero_block_ok|]. intros k Hk Hne. by rewrite zero_entry in Hne. Qed.

Lemma zero_entries : block_entries zero_block = [].
Proof. by vm_compute. Qed.

(** The blocks of the inode around block [k]. *)
Lemma blocks_parts (bs : list Z) k : length bs = 10%nat -> (k < 10)%nat ->
  bs = take k bs ++ bs !!! k :: drop (S k) bs.
Proof.
  intros Hl Hk. rewrite <- (take_drop k bs) at 1. f_equal. apply drop_S, list_lookup_lookup_total_lt. lia.
Qed.

Lemma live_elem bs x : x ∈ live_blocks bs -> x ∈ bs /\ x <> 0.
Proof.
  induction bs as [|b bs IH]; cbn [live_blocks]; [set_solver|].
  destruct (Z.eqb_spec b 0); [set_solver|]. rewrite !elem_of_cons. intros [->|Hx]; [by split; [left|]|].
  destruct (IH Hx). by split; [right|].
Qed.

Lemma elem_take_drop (bs : list Z) k x : length bs = 10%nat ->
  x ∈ take k bs \/ x ∈ drop (S k) bs -> exists q, (q < 10)%nat /\ q <> k /\ bs !!! q = x.
Proof.
  intros Hl [Hx|Hx]; apply list_elem_of_lookup in Hx as [q Hq].
  - apply lookup_take_Some in Hq as [Hq Hlt]. exists q. pose proof (lookup_lt_Some _ _ _ Hq).
    split_and!; [lia|lia|]. by apply list_lookup_total_correct.
  - rewrite lookup_drop in Hq. exists (S k + q)%nat. pose proof (lookup_lt_Some _ _ _ Hq).
    split_and!; [lia|lia|]. by apply list_lookup_total_correct.
Qed.

(** The entries of the directory around the block. *)
Lemma prepared_entries s B i k b l s1 :
  dir_ok s i -> prepared s B i k b l s1 ->
  dir_block l /\
  dir_entries (fs_rd s) i = mjoin (entries_at (fs_rd s) <$> take k (i_blocks i)) ++ block_entries l ++
    gather (entries_at (fs_rd s)) (drop (S k) (i_blocks i)).
Proof.
  intros Hi [Hk Hbef Hr Hb _ _ _ _]. pose proof (io_blocks _ (do_inode _ _ Hi)) as Hlen.
  assert (Forall (fun b => b <> 0) (take k (i_blocks i))) as Hpre.
  { apply Forall_lookup. intros q x Hq. apply lookup_take_Some in Hq as [Hq Hlt].
    apply list_lookup_total_correct in Hq as <-. by apply Hbef. }
  unfold dir_entries. rewrite (blocks_parts (i_blocks i) k Hlen Hk) at 1.
  destruct Hb as [[E ->]|(E & _ & ->)]; rewrite E.
  - split; [rewrite <- E; apply (do_blocks _ _ Hi); [done|lia]|]. by rewrite gather_app by (done || lia).
  - split; [apply zero_dir_block|]. rewrite gather_end, zero_entries by done. cbn [app].
    destruct (drop (S k) (i_blocks i)) as [|x r] eqn:Ed; [by rewrite app_nil_r|].
    assert (x = 0) as ->.
    { destruct (decide (x = 0)) as [|Hx]; [done|]. exfalso. apply (do_gapless _ _ Hi k (S k)); [|..|done].
      - pose proof (f_equal length Ed) as El. rewrite length_drop in El. simpl in El. lia.
      - pose proof (f_equal (fun l => l !! 0%nat) Ed) as El. rewrite lookup_drop, Nat.add_0_r in El.
        by rewrite (list_lookup_total_correct _ _ _ El). }
    by rewrite app_nil_r.
Qed.

(** The disk after the block and the directory's inode were written. *)
Definition dir_disk (d : ramdisk_t) (b : Z) (l : list Z) (i : fs_inode_t) : ramdisk_t :=
  put_inode (put_block d (67 + b) l) 0 i.

Lemma dir_disk_block d b l i q :
  disk_ok d -> is_block l -> inode_ok i -> q <> 3 ->
  disk_block (dir_disk d b l i) q = if decide (q = 67 + b) then l else disk_block d q.
Proof.
  intros Hd Hl Hi Hq. unfold dir_disk. rewrite disk_block_put_inode; [|by apply put_block_ok|done|done].
  apply disk_block_put, Hl.
Qed.

Lemma dir_disk_inode d b l i m :
  disk_ok d -> is_block l -> inode_ok i -> 0 < b -> 0 <= m < 384 ->
  inode_at (dir_disk d b l i) m = if decide (m = 0) then i else inode_at d m.
Proof.
  intros Hd Hl Hi Hb Hm. unfold dir_disk. rewrite inode_at_put by (by apply put_block_ok || done || lia).
  case_decide; [done|]. apply inode_at_put_block; [apply Hl|]. pose proof (inode_table_low m Hm). lia.
Qed.

Lemma prepared_mounted s B B' i k b l s1 l' i2 h' :
  dir_ok s i -> prepared s B' i k b l s1 -> dir_block l' -> inode_ok i2 ->
  i_blocks i2 = <[k := b]> (i_blocks i) -> i_mode i2 = i_mode i -> alloc_rep h' B ->
  let s' := set_heap h' (set_rd (dir_disk (fs_rd s1) b l' i2) s1) in
  mounted s' B /\ dir_ok s' i2.
Proof.
  intros Hi Hpp Hl' Hi2 Ebl Emo Hr' s'. pose proof Hpp as [Hk Hbef Hb Hor Hm1 _ Hbits Hdisk].
  pose proof (mt_disk _ _ Hm1) as Hd1. pose proof (io_blocks _ (do_inode _ _ Hi)) as Hlen.
  assert (forall q, (q < 10)%nat -> i_blocks i2 !!! q = if decide (q = k) then b else i_blocks i !!! q) as Hq.
  { intros q Hq. rewrite Ebl. case_decide as E; [subst; apply list_lookup_total_insert_eq; lia|].
    by apply list_lookup_total_insert_ne. }
  assert (forall q, q <> 3 -> disk_block (fs_rd s') q = if decide (q = 67 + b) then l' else disk_block (fs_rd s1) q) as Hd'.
  { intros q Hq3. apply dir_disk_block; [done|apply Hl'|done..]. }
  assert (dbits s' = dbits s1) as Ebits by (unfold dbits; rewrite Hd', decide_False by lia; done).
  destruct Hi as [Fi Fm Fu Fd Fg Fb Fz]. split.
  - apply mounted_set_heap with B'; [|done].
    assert (mounted (set_rd (put_block (fs_rd s1) (67 + b) l') s1) B') as Hm2 by (apply mounted_put_block; [done|apply Hl'|lia|lia]).
    exact (mounted_put_inode _ _ 0 i2 Hm2 Hi2 ltac:(lia)).
  - split; [done|by rewrite Emo|..].
    + intros q Hq10 Hne. rewrite Ebits. rewrite Hq in Hne |- * by done. case_decide.
      * split; [done|]. by rewrite Hbits, Z.eqb_refl by lia.
      * destruct (Fu q Hq10 Hne) as [Hr Ht]. split; [done|]. rewrite Hbits, Ht by lia. apply orb_true_r.
    + assert (forall q, (q < 10)%nat -> q <> k -> i_blocks i !!! q <> b) as Hnew.
      { intros q Hq10 Hne E. destruct Hor as [[E1 _]|(_ & Hfree & _)].
        - apply (Fd k q); [done|done|congruence|lia|congruence].
        - destruct (Fu q Hq10) as [_ Ht]; [lia|congruence]. }
      intros q q' Hq1 Hq2 Hne. rewrite (Hq q), (Hq q') by done.
      destruct (decide (q = k)), (decide (q' = k)); cbv iota; subst; intros Hn0.
      * done.
      * intros E. symmetry in E. by apply Hnew in E.
      * by apply Hnew.
      * by apply Fd.
    + intros q q' Hqq. rewrite (Hq q), (Hq q') by lia. intros Hn0. destruct (decide (q = k)) as [|Hqk]; [lia|].
      destruct (decide (q' = k)) as [->|]; [apply Hbef; lia|]. by apply (Fg q q').
    + intros q Hq10. rewrite Hq by done. intros Hne. rewrite Hd'; cycle 1.
      { destruct (decide (q = k)); [lia|]. destruct (Fu q Hq10 Hne). lia. }
      destruct (decide (q = k)); [by rewrite decide_True|]. case_decide; [done|].
      rewrite Hdisk by (destruct (Fu q Hq10 Hne); lia). by apply Fb.
    + rewrite Ebits, Hbits, Fz by lia. apply orb_true_r.
Qed.

(** Writing the block gives the effect on the directory. *)
Lemma prepared_effect s B B' k b l s1 l' i2 h' (R : list (list Z * Z) -> list (list Z * Z) -> Prop) :
  let i := inode_at (fs_rd s) 0 in
  dir_ok s i -> prepared s B' i k b l s1 -> dir_block l' -> inode_ok i2 ->
  i_blocks i2 = <[k := b]> (i_blocks i) -> i_mode i2 = i_mode i -> alloc_rep h' B ->
  (forall es1 es2, R (es1 ++ block_entries l ++ es2) (es1 ++ block_entries l' ++ es2)) ->
  dir_effect s B R (set_heap h' (set_rd (dir_disk (fs_rd s1) b l' i2) s1)).
Proof.
  intros i Hi Hpp Hl' Hi2 Ebl Emo Hr' HR. set (s' := set_heap h' _).
  destruct (prepared_mounted s B B' i k b l s1 l' i2 h' Hi Hpp Hl' Hi2 Ebl Emo Hr') as [Hm' Hdir'].
  destruct (prepared_entries s B' i k b l s1 Hi Hpp) as [_ Een].
  pose proof Hpp as [Hk Hbef Hb Hor Hm1 Hfl Hbits Hdisk]. pose proof (mt_disk _ _ Hm1) as Hd1.
  assert (inode_at (fs_rd s') 0 = i2) as Ei2.
  { cbn [fs_rd s' set_heap set_rd]. by rewrite dir_disk_inode by (done || apply Hl' || lia). }
  assert (forall q, q <> 3 -> disk_block (fs_rd s') q = if decide (q = 67 + b) then l' else disk_block (fs_rd s1) q) as Hd'.
  { intros q Hq3. apply dir_disk_block; [done|apply Hl'|done..]. }
  pose proof (io_blocks _ (do_inode _ _ Hi)) as Hlen.
  split.
  - done.
  - by rewrite Ei2.
  - rewrite Ei2. fold i. rewrite Een. unfold dir_entries. rewrite Ebl, insert_take_drop by lia.
    rewrite gather_app; [|apply Forall_lookup; intros q x Hq|lia].
    2: { apply lookup_take_Some in Hq as [Hq Hlt]. apply list_lookup_total_correct in Hq as <-. by apply Hbef. }
    assert (forall x, x ∈ take k (i_blocks i) \/ x ∈ drop (S k) (i_blocks i) -> x <> 0 ->
      entries_at (fs_rd s') x = entries_at (fs_rd s) x) as Hsame.
    { intros x Hx Hx0. destruct (elem_take_drop _ k x Hlen Hx) as (q & Hq10 & Hqk & <-).
      destruct (do_used _ _ Hi q Hq10 Hx0) as [Hr Ht]. unfold entries_at. rewrite Hd', decide_False, Hdisk; [done|lia| |lia].
      intros E. assert (i_blocks i !!! q = b) as Eb by lia. destruct Hor as [[E1 _]|(_ & Hfree & _)]; [|congruence].
      apply (do_distinct _ _ Hi k q); [done|done|congruence|lia|congruence]. }
    assert (entries_at (fs_rd s') b = block_entries l') as ->.
    { unfold entries_at. by rewrite Hd', decide_True by lia. }
    rewrite (gather_ext (entries_at (fs_rd s')) (entries_at (fs_rd s)) (drop (S k) (i_blocks i))).
    2: { intros x Hx. apply live_elem in Hx as [Hx Hx0]. by apply Hsame; [right|]. }
    rewrite (list_fmap_ext (entries_at (fs_rd s')) (entries_at (fs_rd s)) (take k (i_blocks i))); [apply HR|].
    intros q x Hq. apply Hsame; [left; by eapply list_elem_of_lookup_2|].
    apply lookup_take_Some in Hq as [Hq Hlt]. apply list_lookup_total_correct in Hq as <-. by apply Hbef.
  - done.
  - unfold ibits. rewrite Hd', decide_False, Hdisk by lia. done.
  - intros m Hm384. cbn [fs_rd s' set_heap set_rd]. rewrite dir_disk_inode by (done || apply Hl' || lia).
    rewrite decide_False by lia. unfold inode_at. rewrite Hdisk; [done|]. unfold inode_block. dlia.
  - intros x Hx Ht. unfold dbits. rewrite Hd', decide_False by lia. fold (dbits s1). rewrite Hbits, Ht by lia.
    apply orb_true_r.
  - intros x Hx. unfold dbits. rewrite Hd', decide_False by lia. fold (dbits s1). rewrite Hbits by lia.
    destruct (Z.eqb_spec b x) as [<-|]; [|by left]. intros _. right. exists k. split; [done|].
    rewrite Ei2, Ebl. apply list_lookup_total_insert_eq. lia.
  - intros q Hq. rewrite Ei2, Ebl. fold i. destruct (decide (q = k)) as [->|Hqk].
    + rewrite list_lookup_total_insert_eq by lia. destruct Hor as [[E1 _]|(E1 & Hfree & _)]; [by left|by right].
    + left. by apply list_lookup_total_insert_ne.
  - intros x Hx Ht Hno. rewrite Hd', decide_False; [apply Hdisk; lia| |lia]. intros E.
    assert (x = b) as -> by lia. destruct Hor as [[E1 _]|(_ & Hfree & _)]; [by apply (Hno k)|congruence].
Qed.

Lemma exec_dir_store {A} s1 B B' h0 p b l' i1 (r : A) :
  mounted s1 B' -> alloc_rep h0 B -> take_block FS_BLOCK_SIZE B = Some (p, B') -> room 1 512 B' -> p <> 0 ->
  0 < b < 1981 -> is_block l' -> inode_ok i1 -> is_u32 (fs_ticks s1) ->
  exists h', alloc_rep h' B /\
    exec (write_block (u32 (FS_DATA_BLOCKS_START + b)) (mk_buf p (Bytes l')) ;;
          let! now := timer_get_ticks in
          write_inode 0 (set_modified i1 now) ;;
          kfree_buf (mk_buf p (Bytes l')) ;;
          ret r) s1 =
    (Val r, set_heap h' (set_rd (dir_disk (fs_rd s1) b l' (set_modified i1 (fs_ticks s1))) s1)).
Proof.
  intros Hm Hr0 Et Hroom Hp Hb Hl Hi Ht. pose proof (mt_disk _ _ Hm) as Hd.
  destruct (room_1 B' Hroom) as (p2 & B2 & Et2).
  unfold FS_DATA_BLOCKS_START. rewrite u32_small by (unfold is_u32; lia).
  rewrite exec_bind, exec_write_block_fs by (done || lia || apply Hl). cbv iota. unfold timer_get_ticks.
  rewrite exec_bind, exec_gets. cbv iota. set (s2 := set_rd _ s1). change (fs_ticks s2) with (fs_ticks s1).
  destruct (exec_write_inode s2 B' 0 (set_modified i1 (fs_ticks s1)) (mt_heap _ _ Hm)) as (h2 & Hr2 & E2);
    [by apply put_block_ok|lia|by apply inode_ok_set_modified|]. rewrite Et2 in E2. rewrite exec_bind, E2. cbv iota.
  set (s3 := set_heap h2 _).
  destruct (exec_kfree_buf s3 h0 B B' p FS_BLOCK_SIZE (Bytes l') Hr0 request_512 Et Hr2) as (h4 & E4 & Hr4).
  rewrite exec_bind, E4. cbv iota. rewrite exec_ret. by exists h4.
Qed.

(** The first free slot of a block. *)
Lemma find_slot_spec l :
  match find_slot l (seq 0 entries_per_block) with
  | Some j => (j < 16)%nat /\ entry_inode l j = 0
  | None => True
  end.
Proof.
  destruct (find_slot l _) as [j|] eqn:E; [|done]. unfold find_slot in E.
  apply first_some_Some in E as (j' & Hj & E). destruct (Z.eqb_spec (entry_inode l j') 0); [|done].
  injection E as ->. split; [|done]. by apply slots_seq.
Qed.

Section add.
Context (s : fs_t H) (B B' : blocks) (h0 : H) (name nm : list Z) (ino p : Z).
Let i := inode_at (fs_rd s) 0.
Hypothesis Hm : mounted s B'.
Hypothesis Hr0 : alloc_rep h0 B.
Hypothesis Et : take_block FS_BLOCK_SIZE B = Some (p, B').
Hypothesis Hroom : room 1 512 B'.
Hypothesis Hi : dir_ok s i.
Hypothesis Hn : holds name nm.
Hypothesis Hnu : Forall is_u8 nm.
Hypothesis Hino : 0 < ino < 4294967296.
Hypothesis Hp : p <> 0.
Hypothesis Ht : is_u32 (fs_ticks s).

Definition entry_added (es es' : list (list Z * Z)) : Prop :=
  exists es1 es2, es = es1 ++ es2 /\ es' = es1 ++ (stored_name nm, ino) :: es2.

(** Adding is a success, or it fails without a trace: the disk or the directory
    is full. *)
Definition add_result (r : fs_inode_t * buf + Z) s' : Prop :=
  match r with
  | inr rc => (rc = 0 /\ dir_effect s B entry_added s') \/
      (rc = -1 /\ free_blocks (superblock s) = 0 /\ exists h', alloc_rep h' B /\ s' = set_heap h' s)
  | inl _ => s' = s
  end.

(** The block is in the buffer and has a free slot. *)
Lemma exec_add_found k b l s1 i1 j :
  prepared s B' i k b l s1 -> i1 = set_block i k b -> find_slot l (seq 0 entries_per_block) = Some j ->
  exists s', exec (let! l := defined (set_entry_name (set_entry_inode l j ino) j name) in
     let data := mk_buf p (Bytes l) in
     let data_block := u32 (FS_DATA_BLOCKS_START + i_blocks i1 !!! k) in
     write_block data_block data ;;
     let dir_inode := Fs.set_size i1 (u32 (i_size i1 + Z.of_nat DIRENT_SIZE)) in
     let! now := timer_get_ticks in
     let dir_inode := set_modified dir_inode now in
     write_inode 0 dir_inode ;;
     kfree_buf data ;;
     ret (inr 0)) s1 = (Val (inr 0 : fs_inode_t * buf + Z), s') /\ dir_effect s B entry_added s'.
Proof.
  intros Hpp -> Hslot. destruct (prepared_entries s B' i k b l s1 Hi Hpp) as [Hdl _].
  pose proof (find_slot_spec l) as Hs. rewrite Hslot in Hs. destruct Hs as [Hj E0].
  pose proof (do_inode _ _ Hi) as Hio. pose proof Hpp as [Hk _ Hb _ Hm1 [Hf1 Hf2] _ _].
  assert (exists t, name = nm ++ 0 :: t /\ Forall (fun ch => ch <> 0) nm) as (_ & _ & Hnz) by exact Hn.
  destruct (block_entries_add l j ino nm (proj1 Hdl) Hdl Hj E0 ltac:(unfold is_u32; lia) ltac:(lia) Hnz Hnu)
    as (Hdl' & es1 & es2 & El & El').
  rewrite (set_entry_eq l j ino name nm) by (done || apply Hdl). rewrite exec_bind, exec_defined_Some. cbv iota.
  set (l' := splice _ _ _) in *.
  cbv zeta. cbn [i_blocks i_size set_block]. rewrite list_lookup_total_insert_eq by (rewrite (io_blocks _ Hio); lia).
  set (i2 := Fs.set_size _ _).
  assert (inode_ok i2) as Hi2.
  { apply inode_ok_set_size; [|apply u32_range]. apply inode_ok_set_block; [done|unfold is_u32; lia]. }
  destruct (exec_dir_store s1 B B' h0 p b l' i2 (inr 0 : fs_inode_t * buf + Z) Hm1 Hr0 Et Hroom Hp Hb (proj1 Hdl') Hi2)
    as (h' & Hr' & E); [by rewrite Hf2|].
  eexists. split; [exact E|]. apply (prepared_effect s B B' k b l s1 l' _ h'); try done.
  - apply inode_ok_set_modified; [done|by rewrite Hf2].
  - intros e1 e2. rewrite El, El'. exists (e1 ++ es1), (es2 ++ e2). by rewrite <- !app_assoc.
Qed.

Lemma exec_add_round k data :
  (k < 10)%nat -> (forall q, (q < k)%nat -> i_blocks i !!! q <> 0) -> b_ptr data = p -> b_data data <> Freed ->
  exists r s', exec (add_entry_round 0 name ino k (i, data)) s = (Val r, s') /\ add_result r s' /\
    match r with
    | inl (i', data') => i' = i /\ b_ptr data' = p /\ b_data data' <> Freed /\ i_blocks i !!! k <> 0
    | inr _ => True
    end.
Proof.
  intros Hk Hbef Hb Hbf. unfold add_entry_round. change (@add_entry_block H i k data) with (@write_target H i k data).
  rewrite exec_bind.
  destruct (exec_write_target s B' i k data Hm (do_zero _ _ Hi))
    as [(E0 & Hfull & E)|[(E0 & E)|(E0 & nb & s1 & Hnb & Hfree & E & Hm1 & Hs1 & Hbits & Hdisk)]];
    [intros; by apply (do_used _ _ Hi)|congruence|done|..]; rewrite E; cbv iota.
  - destruct (exec_kfree_buf s h0 B B' p FS_BLOCK_SIZE (b_data data) Hr0 request_512 Et (mt_heap _ _ Hm)) as (h' & E' & Hr').
    assert (mk_buf p (b_data data) = data) as Ed by (rewrite <- Hb; by destruct data). rewrite Ed in E'.
    rewrite exec_bind, E'. cbv iota. rewrite exec_ret. eexists _, _. split; [done|]. split; [|done].
    right. split_and!; [done|done|]. by exists h'.
  - cbn [bytes_of b_data b_ptr]. rewrite exec_bind, exec_defined_Some. cbv iota. set (l := disk_block _ _).
    destruct (do_used _ _ Hi k Hk E0) as [Hr Hbt].
    destruct (find_slot l (seq 0 entries_per_block)) as [j|] eqn:Es.
    + destruct (exec_add_found k (i_blocks i !!! k) l s (set_block i k (i_blocks i !!! k)) j) as (s' & E' & He); [|done|done|].
      { split; [done|done|done|by left|done|done| |done]. intros q Hq.
        destruct (Z.eqb_spec (i_blocks i !!! k) q) as [<-|]; [|done]. by rewrite Hbt. }
      assert (set_block i k (i_blocks i !!! k) = i) as Eid.
      { unfold set_block. rewrite list_insert_id by (apply list_lookup_lookup_total_lt; rewrite (io_blocks _ (do_inode _ _ Hi)); lia).
        by destruct i. }
      rewrite Eid in E'. rewrite Hb. eexists _, _. split; [exact E'|]. split; [|done]. by left.
    + rewrite exec_ret. eexists _, _. split; [done|]. split; [done|]. cbn [b_ptr b_data]. done.
  - cbn [bytes_of b_data b_ptr]. rewrite exec_bind, exec_defined_Some. cbv iota.
    assert (find_slot zero_block (seq 0 entries_per_block) = Some 0%nat) as Es by (by vm_compute). rewrite Es.
    destruct (exec_add_found k nb zero_block s1 (set_block i k nb) 0) as (s' & E' & He); [|done|done|].
    { split; try done. by right. }
    rewrite Hb. eexists _, _. split; [exact E'|]. split; [|done]. by left.
Qed.

Lemma exec_add_loop n k data :
  (k + n = 10)%nat -> (forall q, (q < k)%nat -> i_blocks i !!! q <> 0) -> b_ptr data = p -> b_data data <> Freed ->
  exists r s', exec (for_state (seq k n) (add_entry_round 0 name ino) (i, data)) s = (Val r, s') /\ add_result r s' /\
    match r with inl _ => forall q, (q < 10)%nat -> i_blocks i !!! q <> 0 | inr _ => True end.
Proof.
  revert k data. induction n as [|n IH]; intros k data Hk Hbef Hb Hbf.
  { exists (inl (i, data)), s. split; [done|]. split; [done|]. intros q Hq. apply Hbef. lia. }
  cbn [seq]. unfold for_state; fold (@for_state (fs_t H) nat (fs_inode_t * buf) Z). rewrite exec_bind.
  destruct (exec_add_round k data) as (r & s' & E & Hres & Hr); [lia|done..|]. rewrite E. cbv iota.
  destruct r as [[i' data']|rc]; [|exists (inr rc), s'; by rewrite exec_ret].
  destruct Hr as (-> & Hb' & Hbf' & Hnz). cbn in Hres. subst s'. apply IH; [lia| |done|done].
  intros q Hq. destruct (decide (q = k)) as [->|]; [done|]. apply Hbef. lia.
Qed.

End add.

Lemma dir_effect_heap h s B R s' : dir_effect (set_heap h s) B R s' -> dir_effect s B R s'.
Proof. intros []. by split. Qed.

Lemma dir_ok_heap h s i : dir_ok s i -> dir_ok (set_heap h s) i.
Proof. intros []. by split. Qed.

Lemma room_2 B : room 2 512 B -> exists p B', take_block FS_BLOCK_SIZE B = Some (p, B') /\ room 1 512 B'.
Proof.
  cbn [room]. fold FS_BLOCK_SIZE. destruct (take_block FS_BLOCK_SIZE B) as [[p B']|]; [|done]. eauto.
Qed.

(** The directory's inode and a buffer: how every change of it begins. *)
Lemma exec_dir_open s B p B' :
  mounted s B -> take_block FS_BLOCK_SIZE B = Some (p, B') ->
  exists h1 h2, alloc_rep h1 B /\ p <> 0 /\ mounted (set_heap h2 (set_heap h1 s)) B' /\
    exec (read_inode 0) s = (Val (Some (inode_at (fs_rd s) 0)), set_heap h1 s) /\
    exec (kmalloc_buf FS_BLOCK_SIZE) (set_heap h1 s) = (Val (mk_buf p Uninit), set_heap h2 (set_heap h1 s)).
Proof.
  intros Hm Et. pose proof Hm as [Hh Hd _ _ _ _ _ _].
  destruct (exec_read_inode s B 0 Hh Hd ltac:(lia)) as (h1 & Hr1 & E1). rewrite Et in E1.
  pose proof (exec_kmalloc_buf (set_heap h1 s) B FS_BLOCK_SIZE Hr1 request_512) as Hk. rewrite Et in Hk.
  destruct Hk as (h2 & E2 & Hr2 & Hpn). exists h1, h2. split_and!; [done|done| |done|done].
  by apply mounted_set_heap with B; [apply mounted_set_heap with B|].
Qed.

Lemma exec_dir_add_entry s B name nm ino :
  let i := inode_at (fs_rd s) 0 in
  mounted s B -> room 2 512 B -> dir_ok s i -> holds name nm -> Forall is_u8 nm -> 0 < ino < 4294967296 ->
  is_u32 (fs_ticks s) ->
  exists rc s', exec (dir_add_entry 0 name ino) s = (Val rc, s') /\
    ((rc = 0 /\ dir_effect s B (entry_added nm ino) s') \/
     (rc = -1 /\ (free_blocks (superblock s) = 0 \/ forall q, (q < 10)%nat -> i_blocks i !!! q <> 0) /\
      exists h', alloc_rep h' B /\ s' = set_heap h' s)).
Proof.
  intros i Hm Hroom Hi Hn Hnu Hino Ht. destruct (room_2 B Hroom) as (p & B' & Et & Hroom').
  destruct (exec_dir_open s B p B' Hm Et) as (h1 & h2 & Hr1 & Hp & Hm2 & E1 & E2).
  unfold dir_add_entry. rewrite exec_bind, E1. cbv iota. fold i.
  rewrite (proj2 (Z.eqb_neq _ 0)) by (apply (do_mode _ _ Hi)).
  rewrite exec_bind, E2. cbv iota. rewrite (nonnull p Uninit Hp). set (s2 := set_heap h2 _) in *.
  assert (dir_ok s2 i) as Hi2 by (by apply dir_ok_heap, dir_ok_heap).
  destruct (exec_add_loop s2 B B' h1 name nm ino p Hm2 Hr1 Et Hroom' Hi2 Hn Hnu Hino Hp Ht 10 0 (mk_buf p Uninit))
    as (r & s' & E & Hres & Hfull); [done|lia|done|done|].
  change FS_DIRECT_BLOCKS with 10%nat. rewrite exec_bind. change (inode_at (fs_rd s2) 0) with i in E. rewrite E. cbv iota.
  destruct r as [st|rc].
  - cbn in Hres. subst s'.
    destruct (exec_kfree_buf s2 h1 B B' p FS_BLOCK_SIZE Uninit Hr1 request_512 Et (mt_heap _ _ Hm2)) as (h4 & E4 & Hr4).
    rewrite exec_bind, E4. cbv iota. rewrite exec_ret. eexists _, _. split; [done|]. right. split_and!; [done|by right|].
    by exists h4.
  - rewrite exec_ret. eexists _, _. split; [done|]. destruct Hres as [[-> He]|(-> & Hf & h' & Hr' & ->)].
    + left. split; [done|]. by apply (dir_effect_heap h1), (dir_effect_heap h2).
    + right. split_and!; [done|by left|]. by exists h'.
Qed.

Section remove.
Context (s : fs_t H) (B B' : blocks) (h0 : H) (name nm : list Z) (p : Z).
Let i := inode_at (fs_rd s) 0.
Hypothesis Hm : mounted s B'.
Hypothesis Hr0 : alloc_rep h0 B.
Hypothesis Et : take_block FS_BLOCK_SIZE B = Some (p, B').
Hypothesis Hroom : room 1 512 B'.
Hypothesis Hi : dir_ok s i.
Hypothesis Hn : holds name nm.
Hypothesis Hp : p <> 0.
Hypothesis Ht : is_u32 (fs_ticks s).

Definition entry_removed (es es' : list (list Z * Z)) : Prop :=
  exists es1 es2 n, es = es1 ++ (nm, n) :: es2 /\ es' = es1 ++ es2.

(** The entry is in slot [j] of block [k]. *)
Lemma exec_remove_found k j e :
  (k < 10)%nat -> (forall q, (q < k)%nat -> i_blocks i !!! q <> 0) -> i_blocks i !!! k <> 0 -> (j < 16)%nat ->
  let l := disk_block (fs_rd s) (67 + i_blocks i !!! k) in
  dirent l j = Some (nm, e) ->
  exists s', exec (write_block (u32 (FS_DATA_BLOCKS_START + i_blocks i !!! k)) (mk_buf p (Bytes (set_entry_inode l j 0))) ;;
     let dir_inode := Fs.set_size i (u32 (i_size i - Z.of_nat DIRENT_SIZE)) in
     let! now := timer_get_ticks in
     let dir_inode := set_modified dir_inode now in
     write_inode 0 dir_inode ;;
     kfree_buf (mk_buf p (Bytes (set_entry_inode l j 0))) ;;
     ret (inr (Some 0))) s = (Val (inr (Some 0) : buf + option Z), s') /\ dir_effect s B entry_removed s' /\
     dbits s' = dbits s.
Proof.
  intros Hk Hbef Hne Hj l Hd. destruct (do_used _ _ Hi k Hk Hne) as [Hb Hbt]. pose proof (do_inode _ _ Hi) as Hio.
  destruct (block_entries_remove l j _ (do_blocks _ _ Hi k Hk Hne) Hj Hd) as (Hdl' & es1 & es2 & El & El').
  cbv zeta. set (i2 := Fs.set_size _ _). assert (inode_ok i2) as Hi2 by (apply inode_ok_set_size; [done|apply u32_range]).
  destruct (exec_dir_store s B B' h0 p (i_blocks i !!! k) (set_entry_inode l j 0) i2 (inr (Some 0) : buf + option Z)
    Hm Hr0 Et Hroom Hp Hb (proj1 Hdl') Hi2 Ht) as (h' & Hr' & E).
  eexists. split; [exact E|]. split.
  2: { unfold dbits. cbn [fs_rd set_heap set_rd]. rewrite dir_disk_block; [by rewrite decide_False by lia| |apply Hdl'| |done].
       - apply (mt_disk _ _ Hm).
       - by apply inode_ok_set_modified. }
  apply (prepared_effect s B B' k (i_blocks i !!! k) l s (set_entry_inode l j 0) _ h'); try done.
  - split; try done; [by left|]. intros q Hq. destruct (Z.eqb_spec (i_blocks i !!! k) q) as [<-|]; [|done]. by rewrite Hbt.
  - by apply inode_ok_set_modified.
  - change (i_blocks (set_modified i2 (fs_ticks s))) with (i_blocks i). fold i. rewrite list_insert_id; [done|]. apply list_lookup_lookup_total_lt. rewrite (io_blocks _ Hio). lia.
  - intros e1 e2. rewrite El, El'. exists (e1 ++ es1), (es2 ++ e2), e. by rewrite <- !app_assoc.
Qed.

Lemma exec_remove_loop n k data :
  (k + n = 10)%nat -> (forall q, (q < k)%nat -> i_blocks i !!! q <> 0) -> b_ptr data = p ->
  dir_lookup (gather (entries_at (fs_rd s)) (drop k (i_blocks i))) nm <> None ->
  exists s', exec (for_state (seq k n) (remove_entry_round 0 i name) data) s = (Val (inr (Some 0)), s') /\
    dir_effect s B entry_removed s' /\ dbits s' = dbits s.
Proof.
  revert k data. induction n as [|n IH]; intros k data Hk Hbef Hb Hlk.
  { rewrite drop_ge in Hlk by (rewrite (io_blocks _ (do_inode _ _ Hi)); lia). done. }
  assert (k < length (i_blocks i))%nat as Hlen by (rewrite (io_blocks _ (do_inode _ _ Hi)); lia).
  rewrite (drop_S (i_blocks i) (i_blocks i !!! k) k) in Hlk by (by apply list_lookup_lookup_total_lt).
  cbn [seq]. unfold for_state; fold (@for_state (fs_t H) nat buf (option Z)). rewrite exec_bind. unfold remove_entry_round at 1.
  destruct (Z.eqb_spec (i_blocks i !!! k) 0) as [E0|E0]; [by rewrite E0 in Hlk|].
  cbv zeta. rewrite exec_bind, (exec_read_dir_block s B') by (done || lia || congruence). cbv iota.
  rewrite exec_bind. cbn [bytes_of b_data b_ptr]. rewrite exec_defined_Some. cbv iota.
  set (l := disk_block _ _). destruct (find_entry_spec l name nm (seq 0 entries_per_block)
    (do_blocks _ _ Hi k ltac:(lia) E0) Hn slots_seq) as (r & Er & Hr).
  rewrite exec_bind, Er, exec_defined_Some. cbv iota.
  rewrite gather_cons, dir_lookup_app in Hlk by done. unfold entries_per_block in Hr. fold (block_entries l) in Hr.
  assert (entries_at (fs_rd s) (i_blocks i !!! k) = block_entries l) as El by reflexivity. rewrite El in Hlk.
  destruct r as [j|].
  - destruct Hr as (Hj & Hd & _). rewrite Hb.
    destruct (exec_remove_found k j (entry_inode l j)) as (s' & E & He); [lia|done|done|by apply slots_seq|done|].
    exists s'. fold l in E. cbv zeta in E. rewrite E. split; [|done]. by rewrite exec_ret.
  - rewrite exec_ret. cbv iota. rewrite Hr in Hlk. apply IH; [lia| |done|done].
    intros q Hq. destruct (decide (q = k)) as [->|]; [done|]. apply Hbef. lia.
Qed.

End remove.

Lemma exec_dir_remove_entry s B name nm :
  let i := inode_at (fs_rd s) 0 in
  mounted s B -> room 2 512 B -> dir_ok s i -> holds name nm -> is_u32 (fs_ticks s) ->
  dir_lookup (dir_entries (fs_rd s) i) nm <> None ->
  exists s', exec (dir_remove_entry 0 name) s = (Val 0, s') /\ dir_effect s B (entry_removed nm) s' /\
    dbits s' = dbits s.
Proof.
  intros i Hm Hroom Hi Hn Ht Hlk. destruct (room_2 B Hroom) as (p & B' & Et & Hroom').
  destruct (exec_dir_open s B p B' Hm Et) as (h1 & h2 & Hr1 & Hp & Hm2 & E1 & E2).
  unfold dir_remove_entry. rewrite exec_bind, E1. cbv iota. fold i.
  rewrite exec_bind, E2. cbv iota. rewrite (nonnull p Uninit Hp). set (s2 := set_heap h2 _) in *.
  assert (dir_ok s2 i) as Hi2 by (by apply dir_ok_heap, dir_ok_heap).
  destruct (exec_remove_loop s2 B B' h1 name nm p Hm2 Hr1 Et Hroom' Hi2 Hn Hp Ht 10 0 (mk_buf p Uninit))
    as (s' & E & He & Eb); [done|lia|done|by rewrite drop_0|].
  change FS_DIRECT_BLOCKS with 10%nat. rewrite exec_bind. change (inode_at (fs_rd s2) 0) with i in E. rewrite E. cbv iota.
  rewrite exec_ret. exists s'. split; [done|]. split; [|done]. by apply (dir_effect_heap h1), (dir_effect_heap h2).
Qed.

End dirs.
