(* ===== verification/FsNames.v ===== *)
(** * WitFS: creating, finding and removing files by name *)

From S2P Require Import Prelude Bits Mem Bytes CString Heap Alloc HeapAlloc RamDisk Fs FsDisk FsMount FsFile FsDir.

Section names.
Context {H : Type} `{Allocator H}.
Implicit Types s : fs_t H.

(** A directory whose blocks stay in use and unchanged. *)
Lemma dir_frame s s' i :
  dir_ok s i ->
  (forall k, (k < 10)%nat -> i_blocks i !!! k <> 0 ->
     disk_block (fs_rd s') (67 + i_blocks i !!! k) = disk_block (fs_rd s) (67 + i_blocks i !!! k) /\
     bm_bit 8 (dbits s') (i_blocks i !!! k) = true) ->
  bm_bit 8 (dbits s') 0 = true ->
  dir_ok s' i /\ dir_entries (fs_rd s') i = dir_entries (fs_rd s) i.
Proof.
  intros Hi Hk Hz. pose proof (io_blocks _ (do_inode _ _ Hi)) as Hlen. split.
  - destruct Hi as [Fi Fm Fu Fd Fg Fb Fz]. split; try done.
    + intros k Hk10 Hne. destruct (Fu k Hk10 Hne), (Hk k Hk10 Hne). done.
    + intros k Hk10 Hne. destruct (Hk k Hk10 Hne) as [-> _]. by apply Fb.
  - apply gather_ext. intros b Hb. apply live_elem in Hb as [Hb Hne]. apply list_elem_of_lookup in Hb as [k Hlk].
    pose proof (lookup_lt_Some _ _ _ Hlk). apply list_lookup_total_correct in Hlk as <-.
    unfold entries_at. by destruct (Hk k ltac:(lia) Hne) as [-> _].
Qed.

(** A new inode number: the lowest free one. *)
Lemma alloc_inode_step s B m :
  mounted s B -> 0 <= m < 384 -> bm_bit 8 (ibits s) m = false ->
  exists n s', exec alloc_inode s = (Val n, s') /\ mounted s' B /\ 0 <= n < 384 /\ bm_bit 8 (ibits s) n = false /\
    (forall j, 0 <= j < 512 -> bm_bit 8 (ibits s') j = (n =? j) || bm_bit 8 (ibits s) j) /\
    same_files s s' /\ free_blocks (superblock s') = free_blocks (superblock s) /\
    (forall k, k <> 1 -> disk_block (fs_rd s') k = disk_block (fs_rd s) k).
Proof.
  intros Hm Hm384 Hfree. pose proof (bits_block (fs_rd s) 1 (mt_disk _ _ Hm)) as Hbl. fold (ibits s) in Hbl.
  pose proof (exec_alloc_inode s B Hm) as E.
  destruct (first_free_spec (ibits s) 512 ltac:(unfold NONE; lia)) as [[_ Hall]|(Hr & Hf & Hmin)].
  { rewrite Hall in Hfree by lia. done. }
  set (n := first_free _ _) in *. rewrite (proj2 (Z.eqb_neq n NONE)) in E by (unfold NONE; lia).
  assert (n <= m) as Hle. { destruct (Z.le_gt_cases n m); [done|]. rewrite Hmin in Hfree by lia. done. }
  assert (is_block (bm_set 8 (ibits s) n)) as Hbl2 by (apply bm_set_block; [done|lia]).
  assert (ibits (with_ibits s (bm_set 8 (ibits s) n) (-1)) = bm_set 8 (ibits s) n) as Eb.
  { unfold ibits at 1, with_ibits. cbn [fs_rd set_rd]. by rewrite disk_block_put, decide_True by (done || apply Hbl2). }
  exists n. eexists. split; [exact E|]. split_and!; [|lia|lia|done| |done|done|].
  - apply mounted_with_ibits; [done|done|]. rewrite cnt_bm_set; [lia|lia| |lia|done]. destruct Hbl as [-> _]. lia.
  - intros j Hj. rewrite Eb. apply bm_bit_set; [lia|apply bits_in_map; [done|lia]..].
  - intros k Hk. unfold with_ibits. cbn [fs_rd set_rd]. by rewrite disk_block_put, decide_False by (done || apply Hbl2).
Qed.

(** An inode number given back. *)
Lemma free_inode_step s B n :
  mounted s B -> 0 <= n < 512 -> bm_bit 8 (ibits s) n = true ->
  exists s', exec (free_inode n) s = (Val tt, s') /\ mounted s' B /\
    (forall j, 0 <= j < 512 -> bm_bit 8 (ibits s') j = negb (n =? j) && bm_bit 8 (ibits s) j) /\
    same_files s s' /\ free_blocks (superblock s') = free_blocks (superblock s) /\
    (forall k, k <> 1 -> disk_block (fs_rd s') k = disk_block (fs_rd s) k).
Proof.
  intros Hm Hn Hused. pose proof (bits_block (fs_rd s) 1 (mt_disk _ _ Hm)) as Hbl. fold (ibits s) in Hbl.
  assert (is_block (bm_clear 8 (ibits s) n)) as Hbl2 by (apply bm_clear_block; [done|lia]).
  assert (ibits (with_ibits s (bm_clear 8 (ibits s) n) 1) = bm_clear 8 (ibits s) n) as Eb.
  { unfold ibits at 1, with_ibits. cbn [fs_rd set_rd]. by rewrite disk_block_put, decide_True by (done || apply Hbl2). }
  eexists. split; [apply (exec_free_inode s B n Hm); lia|]. split_and!; [| |done|done|].
  - apply mounted_with_ibits; [done|done|]. rewrite cnt_bm_clear; [lia|lia| |lia|done]. destruct Hbl as [-> _]. lia.
  - intros j Hj. rewrite Eb. apply bm_bit_clear; [lia|apply bits_in_map; [done|lia]..].
  - intros k Hk. unfold with_ibits. cbn [fs_rd set_rd]. by rewrite disk_block_put, decide_False by (done || apply Hbl2).
Qed.

(** A file whose blocks stay in use and unchanged. *)
Lemma file_keep s s' i :
  file_ok s i ->
  (forall k, (k < 10)%nat -> i_blocks i !!! k <> 0 ->
     disk_block (fs_rd s') (67 + i_blocks i !!! k) = disk_block (fs_rd s) (67 + i_blocks i !!! k) /\
     bm_bit 8 (dbits s') (i_blocks i !!! k) = true) ->
  bm_bit 8 (dbits s') 0 = true ->
  file_ok s' i /\ file_bytes (fs_rd s') i = file_bytes (fs_rd s) i.
Proof.
  intros Hi Hk Hz. split; [|by apply (file_bytes_frame s i); [|apply Hk]].
  destruct Hi as [Fi Fs Fu Fd Fc Fz]. split; try done.
  intros k Hk10 Hne. destruct (Fu k Hk10 Hne), (Hk k Hk10 Hne). done.
Qed.

(** ** fs_create *)

Definition new_file (now : Z) : fs_inode_t :=
  mk_inode (Z.lor FS_TYPE_FILE FS_PERM_DEFAULT) 0 0 0 now now (replicate 10 0) (replicate 4 0).

Lemma new_file_ok s now : is_u32 now -> bm_bit 8 (dbits s) 0 = true -> file_ok s (new_file now).
Proof.
  intros Ht Hz. assert (forall k, (k < 10)%nat -> i_blocks (new_file now) !!! k = 0) as Hb
    by (intros; by apply lookup_total_replicate_2).
  split; [by apply new_inode_ok|cbn; lia|..|done].
  - intros k Hk Hne. by rewrite Hb in Hne.
  - intros k k' Hk Hk' _ Hne. by rewrite Hb in Hne.
  - intros k Hk Hlt. cbn in Hlt. lia.
Qed.

(** What a new entry changes for a reader of the directory. *)
Lemma entry_added_lookup nm n es es' nm' :
  (length nm <= 27)%nat -> entry_added nm n es es' -> dir_lookup es nm = None ->
  dir_lookup es' nm' = if decide (nm' = nm) then Some n else dir_lookup es nm'.
Proof.
  intros Hlen (es1 & es2 & -> & ->) Hnone. unfold stored_name. rewrite take_ge by lia.
  rewrite dir_lookup_app in Hnone |- *. rewrite dir_lookup_cons. cbn [fst snd]. case_decide as E.
  - subst nm'. rewrite decide_True by done. destruct (dir_lookup es1 nm); [done|]. done.
  - rewrite decide_False by congruence. by rewrite dir_lookup_app.
Qed.

(** The state of the file system after [fs_create] made the file [n]. *)
Record created s (B : blocks) nm n s' : Prop := {
  cr_mounted : mounted s' B;
  cr_dir : dir_ok s' (inode_at (fs_rd s') 0);
  cr_number : 0 < n < 384 /\ bm_bit 8 (ibits s) n = false;
  cr_ibits : forall m, 0 <= m < 512 -> bm_bit 8 (ibits s') m = (n =? m) || bm_bit 8 (ibits s) m;
  cr_entries : entry_added nm n (dir_entries (fs_rd s) (inode_at (fs_rd s) 0))
    (dir_entries (fs_rd s') (inode_at (fs_rd s') 0));
  cr_inode : inode_at (fs_rd s') n = new_file (fs_ticks s);
  cr_file : file_ok s' (new_file (fs_ticks s));
  cr_others : forall m, 0 < m < 384 -> m <> n -> inode_at (fs_rd s') m = inode_at (fs_rd s) m;
  cr_bytes : forall i2, file_ok s i2 -> disjoint_files (inode_at (fs_rd s) 0) i2 ->
    file_ok s' i2 /\ file_bytes (fs_rd s') i2 = file_bytes (fs_rd s) i2;
  cr_files : same_files s s';
  cr_kept : forall b, 0 <= b < 1981 -> bm_bit 8 (dbits s) b = true -> bm_bit 8 (dbits s') b = true;
  cr_new : forall b, 0 <= b < 1981 -> bm_bit 8 (dbits s') b = true ->
    bm_bit 8 (dbits s) b = true \/ exists k, (k < 10)%nat /\ i_blocks (inode_at (fs_rd s') 0) !!! k = b;
  cr_blocks : forall k, (k < 10)%nat -> i_blocks (inode_at (fs_rd s') 0) !!! k = i_blocks (inode_at (fs_rd s) 0) !!! k \/
    i_blocks (inode_at (fs_rd s) 0) !!! k = 0 /\ bm_bit 8 (dbits s) (i_blocks (inode_at (fs_rd s') 0) !!! k) = false
}.

(** What a failed [fs_create] leaves: the disk or the directory is full, the
    inode number was given back, and only the bytes of that unused inode, and
    of the bitmap's block, were written. *)
Record not_created s (B : blocks) s' : Prop := {
  nc_why : free_blocks (superblock s) = 0 \/ forall q, (q < 10)%nat -> i_blocks (inode_at (fs_rd s) 0) !!! q <> 0;
  nc_mounted : mounted s' B;
  nc_root : inode_at (fs_rd s') 0 = inode_at (fs_rd s) 0;
  nc_dir : dir_ok s' (inode_at (fs_rd s) 0);
  nc_entries : dir_entries (fs_rd s') (inode_at (fs_rd s) 0) = dir_entries (fs_rd s) (inode_at (fs_rd s) 0);
  nc_files : same_files s s';
  nc_ibits : forall j, 0 <= j < 512 -> bm_bit 8 (ibits s') j = bm_bit 8 (ibits s) j;
  nc_dbits : dbits s' = dbits s;
  nc_inodes : forall m, 0 <= m < 384 -> bm_bit 8 (ibits s) m = true -> inode_at (fs_rd s') m = inode_at (fs_rd s) m;
  nc_bytes : forall i2, file_ok s i2 -> file_ok s' i2 /\ file_bytes (fs_rd s') i2 = file_bytes (fs_rd s) i2
}.

(** The inode [n] is taken and written, the directory not yet changed. *)
Record inode_taken s (B : blocks) n s3 : Prop := {
  it_mounted : mounted s3 B;
  it_number : 0 < n < 384 /\ bm_bit 8 (ibits s) n = false;
  it_ibits : forall j, 0 <= j < 512 -> bm_bit 8 (ibits s3) j = (n =? j) || bm_bit 8 (ibits s) j;
  it_files : same_files s s3;
  it_free : free_blocks (superblock s3) = free_blocks (superblock s);
  it_disk : forall k, k = 2 \/ 67 <= k -> disk_block (fs_rd s3) k = disk_block (fs_rd s) k;
  it_inode : forall m, 0 <= m < 384 -> inode_at (fs_rd s3) m =
    if decide (m = n) then new_file (fs_ticks s) else inode_at (fs_rd s) m
}.

Lemma exec_take_inode s B m :
  mounted s B -> room 1 512 B -> is_u32 (fs_ticks s) -> bm_bit 8 (ibits s) 0 = true ->
  0 <= m < 384 -> bm_bit 8 (ibits s) m = false ->
  exists n s2 s3, exec alloc_inode s = (Val n, s2) /\ fs_ticks s2 = fs_ticks s /\
    exec (write_inode n (new_file (fs_ticks s))) s2 = (Val 0, s3) /\ inode_taken s B n s3.
Proof.
  intros Hm Hroom Ht Hroot Hm384 Hmfree. destruct (room_1 B Hroom) as (p & B' & Et).
  destruct (alloc_inode_step s B m Hm Hm384 Hmfree) as (n & s2 & E2 & Hm2 & Hn & Hnfree & Hib2 & [Ho2 Ht2] & Hfb2 & Hdk2).
  assert (n <> 0) as Hn0 by (intros ->; congruence). pose proof (inode_table_low n Hn) as Hlow.
  assert (inode_ok (new_file (fs_ticks s))) as Hnew by (by apply new_inode_ok).
  pose proof (mt_disk _ _ Hm2) as Hd2.
  destruct (exec_write_inode s2 B n (new_file (fs_ticks s)) (mt_heap _ _ Hm2) Hd2 ltac:(lia) Hnew) as (h3 & Hr3 & E3).
  rewrite Et in E3. exists n, s2. eexists. split_and!; [done|done|exact E3|].
  assert (3 <= inode_block n) as Hge by (unfold inode_block; dlia).
  split.
  - apply mounted_set_heap with B; [|done]. apply mounted_put_inode; [done|done|lia].
  - split; [lia|done].
  - intros j Hj. unfold ibits at 1. cbn [fs_rd set_heap set_rd].
    rewrite disk_block_put_inode by (done || lia). by apply Hib2.
  - by split.
  - done.
  - intros k Hk. cbn [fs_rd set_heap set_rd]. rewrite disk_block_put_inode by (done || lia). apply Hdk2. lia.
  - intros q Hq. cbn [fs_rd set_heap set_rd]. rewrite inode_at_put by (done || lia). case_decide; [done|].
    unfold inode_at. rewrite Hdk2; [done|]. unfold inode_block. dlia.
Qed.

(** The rest of [fs_create]: the entry, or the inode given back. *)
Lemma exec_create_entry s B name nm n s3 (rest : M (fs_t H) unit) :
  let i := inode_at (fs_rd s) 0 in
  inode_taken s B n s3 -> room 2 512 B -> dir_ok s i -> holds name nm -> Forall is_u8 nm -> is_u32 (fs_ticks s) ->
  (forall s, exec rest s = (Val tt, s)) ->
  exists rc s', exec (let! rc := dir_add_entry 0 name n in
      if rc <? 0 then free_inode n ;; rest ;; ret (-1) else ret 0) s3 = (Val rc, s') /\
    ((rc = 0 /\ created s B nm n s') \/
     (rc = -1 /\ not_created s B s')).
Proof.
  intros i [Hm3 [Hn Hnfree] Hib3 [Ho3 Ht3] Hfb3 Hdk3 Hin3] Hroom Hi Hnm Hnu Ht Hrest.
  assert (forall s', dbits s' = dbits s -> (forall k, 67 <= k -> disk_block (fs_rd s') k = disk_block (fs_rd s) k) ->
    dir_ok s' i /\ dir_entries (fs_rd s') i = dir_entries (fs_rd s) i) as Hkeep.
  { intros s' Eb Ed. apply dir_frame; [done| |rewrite Eb; apply (do_zero _ _ Hi)]. intros k Hk Hne.
    destruct (do_used _ _ Hi k Hk Hne). rewrite Eb, Ed by lia. done. }
  assert (inode_at (fs_rd s3) 0 = i) as Ei by (rewrite Hin3, decide_False by lia; done).
  destruct (Hkeep s3) as [Hi3 Een]; [apply Hdk3; lia|intros; apply Hdk3; lia|].
  destruct (exec_dir_add_entry s3 B name nm n) as (rc & s4 & E4 & Hres); try (done || lia || by rewrite ?Ei, ?Ht3).
  rewrite exec_bind, E4. cbv iota. destruct Hres as [[-> He]|(-> & Hwhy & h' & Hr' & ->)].
  - cbn [Z.ltb Z.compare]. rewrite exec_ret. eexists _, _. split; [done|]. left. split; [done|].
    destruct He as [Hm4 Hd4 Hen4 [Ho4 Ht4] Hib4 Hin4 Hk4 Hnw4 Hbl4 Hfr4]. assert (dbits s3 = dbits s) as Eb3 by (apply Hdk3; lia).
    rewrite Ei, Eb3 in *. split; try done.
    + intros j Hj. rewrite Hib4. by apply Hib3.
    + rewrite Een in Hen4. done.
    + rewrite Hin4, Hin3, decide_True by lia. done.
    + apply new_file_ok; [done|]. apply (do_zero _ _ Hd4).
    + intros m Hm384 Hne. by rewrite Hin4, Hin3, decide_False by lia.
    + intros i2 Hf2 Hdj. apply file_keep; [done| |apply (do_zero _ _ Hd4)]. intros k Hk Hne.
      destruct (fo_used _ _ Hf2 k Hk Hne) as [Hr Hbt]. split; [|apply Hk4; [lia|done]].
      rewrite Hfr4, Hdk3 by (done || lia || (intros q Hq; by apply Hdj)). done.
    + split; congruence.
  - destruct (free_inode_step (set_heap h' s3) B n) as (s5 & E5 & Hm5 & Hib5 & [Ho5 Ht5] & _ & Hdk5).
    { by apply mounted_set_heap with B. } { lia. }
    { change (ibits (set_heap h' s3)) with (ibits s3). by rewrite Hib3, Z.eqb_refl by lia. }
    cbn [Z.ltb Z.compare]. rewrite exec_bind, E5. cbv iota. rewrite exec_bind, Hrest. cbv iota. rewrite exec_ret.
    eexists _, _. split; [done|]. right.
    destruct (Hkeep s5) as [Hi5 Een5].
    { unfold dbits. rewrite Hdk5 by lia. apply Hdk3. lia. } { intros k Hk. rewrite Hdk5 by lia. apply Hdk3. lia. }
    split; [done|]. assert (dbits s5 = dbits s) as Eb5 by (unfold dbits; rewrite Hdk5 by lia; apply Hdk3; lia).
    assert (forall q, 0 <= q < 384 -> q <> n -> inode_at (fs_rd s5) q = inode_at (fs_rd s) q) as Hin5.
    { intros q Hq Hqn. transitivity (inode_at (fs_rd s3) q); [|by rewrite Hin3, decide_False by lia].
      unfold inode_at. rewrite Hdk5; [done|]. unfold inode_block. dlia. }
    split; [by rewrite Hfb3, Ei in Hwhy|done|apply Hin5; lia|done|done|split; [rewrite Ho5; exact Ho3|rewrite Ht5; exact Ht3]| |done| |].
    + intros j Hj. rewrite Hib5 by done. change (ibits (set_heap h' s3)) with (ibits s3). rewrite Hib3 by done.
      destruct (Z.eqb_spec n j) as [<-|]; [by rewrite Hnfree|done].
    + intros q Hq Hu. apply Hin5; [done|congruence].
    + intros i2 Hf2. apply file_keep; [done| |rewrite Eb5; apply (do_zero _ _ Hi)]. intros k Hk Hne.
      destruct (fo_used _ _ Hf2 k Hk Hne) as [Hr Hbt]. rewrite Eb5. split; [|done]. rewrite Hdk5 by lia. apply Hdk3. lia.
Qed.

(** [fs_create] of a file, after the name was not found. *)
Lemma exec_fs_create s B path nm m :
  let i := inode_at (fs_rd s) 0 in
  mounted s B -> room 2 512 B -> dir_ok s i -> names path nm -> nm <> [] -> Forall is_u8 nm ->
  is_u32 (fs_ticks s) -> bm_bit 8 (ibits s) 0 = true -> 0 <= m < 384 -> bm_bit 8 (ibits s) m = false ->
  dir_lookup (dir_entries (fs_rd s) i) nm = None ->
  exists rc s', exec (fs_create (Some path) FS_TYPE_FILE) s = (Val rc, s') /\
    ((rc = 0 /\ exists n, created s B nm n s') \/
     (rc = -1 /\ not_created s B s')).
Proof.
  intros i Hm Hroom Hi Hnames Hne Hnu Ht Hroot Hm384 Hmfree Hnone.
  pose proof (room_le 1 2 512 B ltac:(lia) Hroom) as Hroom1.
  destruct (exec_path_lookup s B path nm Hm Hroom1 Hi Hnames Hne) as (h1 & Hr1 & E1).
  destruct Hnames as (name & Esk & Hn). unfold fs_create.
  rewrite exec_bind, exec_gets. cbv iota. rewrite (mt_up _ _ Hm). cbn [Z.eqb]. cbv iota.
  rewrite exec_bind, Esk, exec_defined_Some. cbv iota. rewrite exec_bind, E1. cbv iota. fold i. rewrite Hnone. cbv iota.
  set (s1 := set_heap h1 s). assert (mounted s1 B) as Hm1 by (by apply mounted_set_heap with B).
  destruct (exec_take_inode s1 B m Hm1 Hroom1 Ht Hroot Hm384 Hmfree) as (n & s2 & s3 & E2 & Ht2 & E3 & Htk).
  pose proof (it_number _ _ _ _ Htk) as [Hn384 _].
  rewrite exec_bind, E2. cbv iota. rewrite (proj2 (Z.eqb_neq n NONE)) by (unfold NONE; lia).
  unfold timer_get_ticks. rewrite exec_bind, exec_gets. cbv iota. rewrite Ht2.
  fold (new_file (fs_ticks s1)). cbn [Z.eqb FS_TYPE_FILE FS_TYPE_DIR Pos.eqb].
  rewrite exec_bind, exec_ret. cbv iota. rewrite exec_bind, E3. cbv iota. cbn [andb].
  destruct (exec_create_entry s1 B name nm n s3 (ret tt) Htk Hroom (dir_ok_heap h1 s i Hi) Hn Hnu Ht) as (rc & s' & E & Hres).
  { intros. apply exec_ret. }
  exists rc, s'. split; [exact E|]. destruct Hres as [[-> Hc]|[-> Hf]]; [left; split; [done|]; exists n|right; split; [done|]].
  - destruct Hc as [? ? ? ? ? ? ? ? Hby ? ? ? ?]. split; try done. intros i2 Hf2. apply Hby. by apply file_ok_same_bits with s.
  - destruct Hf as [? ? ? ? ? ? ? ? ? Hby]. split; try done. intros i2 Hf2. apply Hby. by apply file_ok_same_bits with s.
Qed.

(** ** fs_unlink *)

Lemma free_block_step s B b :
  mounted s B -> 0 <= b < 1981 -> bm_bit 8 (dbits s) b = true ->
  exists s', exec (free_data_block b) s = (Val tt, s') /\ mounted s' B /\
    (forall j, 0 <= j < 1981 -> bm_bit 8 (dbits s') j = negb (b =? j) && bm_bit 8 (dbits s) j) /\
    same_files s s' /\
    (forall k, k <> 2 -> disk_block (fs_rd s') k = disk_block (fs_rd s) k).
Proof.
  intros Hm Hn Hused. pose proof (bits_block (fs_rd s) 2 (mt_disk _ _ Hm)) as Hbl. fold (dbits s) in Hbl.
  assert (is_block (bm_clear 8 (dbits s) b)) as Hbl2 by (apply bm_clear_block; [done|lia]).
  assert (dbits (with_dbits s (bm_clear 8 (dbits s) b) 1) = bm_clear 8 (dbits s) b) as Eb.
  { unfold dbits at 1, with_dbits. cbn [fs_rd set_rd]. by rewrite disk_block_put, decide_True by (done || apply Hbl2). }
  eexists. split; [apply (exec_free_data_block s B b Hm); lia|]. split_and!; [| |done|].
  - apply mounted_with_dbits; [done|done|]. rewrite cnt_bm_clear; [lia|lia| |lia|done]. destruct Hbl as [-> _]. lia.
  - intros j Hj. rewrite Eb. apply bm_bit_clear; [lia|apply bits_in_map; [done|lia]..].
  - intros k Hk. unfold with_dbits. cbn [fs_rd set_rd]. by rewrite disk_block_put, decide_False by (done || apply Hbl2).
Qed.

Lemma exec_free_all_blocks bs s B :
  mounted s B -> NoDup (live_blocks bs) ->
  (forall b, b ∈ live_blocks bs -> 0 <= b < 1981 /\ bm_bit 8 (dbits s) b = true) ->
  exists s', exec (free_all_blocks bs) s = (Val tt, s') /\ mounted s' B /\
    (forall j, 0 <= j < 1981 -> bm_bit 8 (dbits s') j = negb (bool_decide (j ∈ live_blocks bs)) && bm_bit 8 (dbits s) j) /\
    same_files s s' /\
    (forall k, k <> 2 -> disk_block (fs_rd s') k = disk_block (fs_rd s) k).
Proof.
  revert s. induction bs as [|b bs IH]; intros s Hm Hnd Hb.
  { exists s. split; [done|]. split_and!; done. }
  cbn [free_all_blocks live_blocks] in *. destruct (Z.eqb_spec b 0) as [|Hb0].
  { exists s. split; [done|]. split_and!; done. }
  inversion_clear Hnd as [|? ? Hnin Hnd2]. destruct (Hb b ltac:(left)) as [Hr Ht].
  destruct (free_block_step s B b Hm Hr Ht) as (s1 & E1 & Hm1 & Hb1 & [Ho1 Ht1] & Hd1).
  destruct (IH s1 Hm1 Hnd2) as (s2 & E2 & Hm2 & Hb2 & [Ho2 Ht2] & Hd2).
  { intros x Hx. destruct (Hb x ltac:(by right)) as [Hrx Htx]. split; [done|].
    rewrite Hb1, Htx by done. destruct (Z.eqb_spec b x); [congruence|done]. }
  exists s2. rewrite exec_bind, E1. cbv iota. split_and!; [done|done| |split; congruence|].
  - intros j Hj. rewrite Hb2, Hb1 by done. destruct (Z.eqb_spec b j) as [->|Hbj].
    + rewrite (bool_decide_true (j ∈ j :: _)) by left. by rewrite andb_false_r.
    + cbn [negb andb]. f_equal. f_equal. apply bool_decide_ext. rewrite elem_of_cons. split; [auto|intros [|]; done].
  - intros k Hk. by rewrite Hd2, Hd1.
Qed.

Lemma live_nodup s i : file_ok s i -> NoDup (live_blocks (i_blocks i)).
Proof.
  intros Hi. pose proof (io_blocks _ (fo_inode _ _ Hi)) as Hlen.
  assert (forall k k' x, i_blocks i !! k = Some x -> i_blocks i !! k' = Some x -> x <> 0 -> k = k') as Hd.
  { intros k k' x E1 E2 Hx. destruct (decide (k = k')) as [|Hne]; [done|]. exfalso.
    pose proof (lookup_lt_Some _ _ _ E1). pose proof (lookup_lt_Some _ _ _ E2).
    apply list_lookup_total_correct in E1. apply list_lookup_total_correct in E2.
    apply (fo_distinct _ _ Hi k k'); [lia|lia|done|congruence|congruence]. }
  clear Hlen. induction (i_blocks i) as [|b bs IH]; cbn [live_blocks]; [apply NoDup_nil_2|].
  destruct (Z.eqb_spec b 0) as [|Hb]; [apply NoDup_nil_2|]. constructor.
  - intros Hin. apply live_elem in Hin as [Hin _]. apply list_elem_of_lookup in Hin as [k Hk].
    discriminate (Hd 0%nat (S k) b eq_refl Hk Hb).
  - apply IH. intros k k' x E1 E2 Hx. pose proof (Hd (S k) (S k') x E1 E2 Hx). lia.
Qed.

(** What a removed entry changes for a reader of the directory. *)
Lemma entry_removed_lookup nm es es' nm' :
  entry_removed nm es es' -> NoDup es.*1 ->
  dir_lookup es' nm' = if decide (nm' = nm) then None else dir_lookup es nm'.
Proof.
  intros (es1 & es2 & n & -> & ->) Hnd. rewrite !dir_lookup_app, dir_lookup_cons. cbn [fst snd].
  rewrite fmap_app, fmap_cons in Hnd. apply list.NoDup_app in Hnd as (_ & Hd & Hnd).
  case_decide as E; [|by rewrite decide_False by congruence]. subst nm'.
  assert (forall l, nm ∉ l.*1 -> dir_lookup l nm = None) as Hno.
  { intros l. induction l as [|e l IH]; [done|]. rewrite fmap_cons, not_elem_of_cons. intros [Hne Hl].
    rewrite dir_lookup_cons, decide_False by congruence. by apply IH. }
  rewrite !Hno; [done| |].
  - inversion_clear Hnd as [|? ? Hnin _]. done.
  - intros Hin. apply (Hd nm Hin). left.
Qed.

(** What [fs_unlink] of the file [n] leaves. *)
Record unlinked s (B : blocks) nm n s' : Prop := {
  ul_mounted : mounted s' B;
  ul_dir : dir_ok s' (inode_at (fs_rd s') 0);
  ul_entries : entry_removed nm (dir_entries (fs_rd s) (inode_at (fs_rd s) 0))
    (dir_entries (fs_rd s') (inode_at (fs_rd s') 0));
  ul_ibits : forall m, 0 <= m < 512 -> bm_bit 8 (ibits s') m = negb (n =? m) && bm_bit 8 (ibits s) m;
  ul_dbits : forall b, 0 <= b < 1981 -> bm_bit 8 (dbits s') b =
    negb (bool_decide (b ∈ live_blocks (i_blocks (inode_at (fs_rd s) n)))) && bm_bit 8 (dbits s) b;
  ul_others : forall m, 0 < m < 384 -> inode_at (fs_rd s') m = inode_at (fs_rd s) m;
  ul_bytes : forall i2, file_ok s i2 -> disjoint_files (inode_at (fs_rd s) 0) i2 ->
    disjoint_files (inode_at (fs_rd s) n) i2 ->
    file_ok s' i2 /\ file_bytes (fs_rd s') i2 = file_bytes (fs_rd s) i2;
  ul_blocks : forall k, (k < 10)%nat -> i_blocks (inode_at (fs_rd s) 0) !!! k <> 0 ->
    i_blocks (inode_at (fs_rd s') 0) !!! k = i_blocks (inode_at (fs_rd s) 0) !!! k
}.

(** The live blocks of a file are none of another's. *)
Lemma live_disjoint i i2 k : inode_ok i -> disjoint_files i i2 -> (k < 10)%nat -> i_blocks i2 !!! k <> 0 ->
  i_blocks i2 !!! k ∉ live_blocks (i_blocks i).
Proof.
  intros Hi Hd Hk Hne Hin. apply live_elem in Hin as [Hin _]. apply list_elem_of_lookup in Hin as [q Hq].
  pose proof (lookup_lt_Some _ _ _ Hq). rewrite (io_blocks _ Hi) in *. apply list_lookup_total_correct in Hq.
  by apply (Hd q k).
Qed.

(** The two bitmaps after the blocks and the inode were given back. *)
Lemma exec_release s B n :
  mounted s B -> 0 < n < 384 -> bm_bit 8 (ibits s) n = true -> file_ok s (inode_at (fs_rd s) n) ->
  exists s1 s2, exec (free_all_blocks (i_blocks (inode_at (fs_rd s) n))) s = (Val tt, s1) /\
    exec (free_inode n) s1 = (Val tt, s2) /\ mounted s2 B /\ same_files s s2 /\
    (forall m, 0 <= m < 512 -> bm_bit 8 (ibits s2) m = negb (n =? m) && bm_bit 8 (ibits s) m) /\
    (forall b, 0 <= b < 1981 -> bm_bit 8 (dbits s2) b =
       negb (bool_decide (b ∈ live_blocks (i_blocks (inode_at (fs_rd s) n)))) && bm_bit 8 (dbits s) b) /\
    (forall k, 2 < k -> disk_block (fs_rd s2) k = disk_block (fs_rd s) k).
Proof.
  intros Hm Hn Hused Hf. pose proof (io_blocks _ (fo_inode _ _ Hf)) as Hlen. set (i := inode_at (fs_rd s) n) in *.
  destruct (exec_free_all_blocks (i_blocks i) s B Hm (live_nodup s i Hf)) as (s1 & E1 & Hm1 & Hb1 & [Ho1 Ht1] & Hd1).
  { intros b Hb. apply live_elem in Hb as [Hb Hne]. apply list_elem_of_lookup in Hb as [k Hk].
    pose proof (lookup_lt_Some _ _ _ Hk). apply list_lookup_total_correct in Hk as <-.
    destruct (fo_used _ _ Hf k ltac:(lia) Hne). split; [lia|done]. }
  assert (ibits s1 = ibits s) as Ei1 by (apply Hd1; lia).
  destruct (free_inode_step s1 B n Hm1) as (s2 & E2 & Hm2 & Hi2 & [Ho2 Ht2] & _ & Hd2); [lia|by rewrite Ei1|].
  exists s1, s2. split_and!; [done|done|done|split; congruence| | |].
  - intros m Hm512. by rewrite Hi2, Ei1.
  - intros b Hb. unfold dbits at 1. rewrite Hd2 by lia. by apply Hb1.
  - intros k Hk. by rewrite Hd2, Hd1 by lia.
Qed.

Lemma exec_fs_unlink s B path nm n :
  let i := inode_at (fs_rd s) 0 in
  mounted s B -> room 2 512 B -> dir_ok s i -> names path nm -> nm <> [] -> is_u32 (fs_ticks s) ->
  dir_lookup (dir_entries (fs_rd s) i) nm = Some n -> 0 < n < 384 -> bm_bit 8 (ibits s) n = true ->
  file_ok s (inode_at (fs_rd s) n) -> disjoint_files (inode_at (fs_rd s) n) i ->
  exists s', exec (fs_unlink (Some path)) s = (Val 0, s') /\ unlinked s B nm n s'.
Proof.
  intros i Hm Hroom Hi Hnames Hne Ht Hlk Hn Hused Hf Hdj.
  pose proof (room_le 1 2 512 B ltac:(lia) Hroom) as Hroom1. destruct (room_1 B Hroom1) as (p & B' & Et).
  destruct (exec_path_lookup s B path nm Hm Hroom1 Hi Hnames Hne) as (h1 & Hr1 & E1).
  destruct Hnames as (name & Esk & Hnm). unfold fs_unlink.
  rewrite exec_bind, exec_gets. cbv iota. rewrite (mt_up _ _ Hm). cbn [Z.eqb]. cbv iota.
  rewrite exec_bind, E1. cbv iota. fold i. rewrite Hlk. cbv iota.
  destruct (exec_read_inode (set_heap h1 s) B n Hr1 (mt_disk _ _ Hm) ltac:(lia)) as (h2 & Hr2 & E2). rewrite Et in E2.
  rewrite exec_bind, E2. cbv iota. set (s1 := set_heap h2 _).
  assert (mounted s1 B) as Hm1 by (by apply mounted_set_heap with B; [apply mounted_set_heap with B|]).
  destruct (exec_release s1 B n Hm1 Hn Hused) as (s2 & s3 & E3 & E4 & Hm3 & [Ho3 Ht3] & Hib3 & Hdb3 & Hdk3);
    [by apply file_ok_same_bits with s|].
  change (inode_at (fs_rd (set_heap h1 s)) n) with (inode_at (fs_rd s1) n).
  rewrite exec_bind, E3. cbv iota. rewrite exec_bind, E4. cbv iota.
  rewrite exec_bind, exec_defined_Some. cbv iota. rewrite exec_bind, Esk, exec_defined_Some. cbv iota.
  assert (inode_ok (inode_at (fs_rd s) n)) as Hin by apply Hf.
  assert (forall q, 0 <= q < 384 -> inode_at (fs_rd s3) q = inode_at (fs_rd s) q) as Hin3.
  { intros q Hq. unfold inode_at. rewrite Hdk3; [done|]. unfold inode_block. dlia. }
  assert (bm_bit 8 (dbits s3) 0 = true) as Hz3.
  { rewrite Hdb3 by lia. change (dbits s1) with (dbits s). rewrite (do_zero _ _ Hi), bool_decide_false; [done|].
    intros Hx. apply live_elem in Hx as [_ Hx]. done. }
  destruct (dir_frame s s3 i Hi) as [Hi3 Een3]; [|done|].
  { intros k Hk Hne0. destruct (do_used _ _ Hi k Hk Hne0) as [Hr Hbt]. split; [apply Hdk3; lia|].
    rewrite Hdb3 by lia. change (dbits s1) with (dbits s). rewrite Hbt, bool_decide_false; [done|]. by apply live_disjoint. }
  destruct (exec_dir_remove_entry s3 B name nm) as (s4 & E5 & He & Eb4); try done.
  { by rewrite Hin3 by lia. } { by rewrite Ht3. } { rewrite Hin3 by lia. fold i. by rewrite Een3, Hlk. }
  rewrite exec_bind, E5. cbv iota. rewrite exec_ret. exists s4. split; [done|].
  destruct He as [Hm4 Hd4 Hen4 _ Hib4 Hin4 Hk4 _ Hbl4 Hfr4]. rewrite (Hin3 0) in Hen4, Hbl4, Hfr4 by lia. fold i in Hen4, Hbl4, Hfr4.
  split; try done.
  - fold i. by rewrite Een3 in Hen4.
  - intros m Hm512. rewrite Hib4. by apply Hib3.
  - intros b Hb. rewrite Eb4. by apply Hdb3.
  - intros m Hm384. rewrite Hin4, Hin3 by lia. done.
  - intros i2 Hf2 Hd1 Hd2. apply file_keep; [done| |by rewrite Eb4]. intros k Hk Hne0.
    destruct (fo_used _ _ Hf2 k Hk Hne0) as [Hr Hbt].
    assert (bm_bit 8 (dbits s3) (i_blocks i2 !!! k) = true) as Hbt3.
    { rewrite Hdb3 by lia. change (dbits s1) with (dbits s). rewrite Hbt, bool_decide_false; [done|]. by apply live_disjoint. }
    rewrite Eb4. split; [|done]. rewrite Hfr4, Hdk3; [done|lia|lia|done|]. intros q Hq. by apply Hd1.
  - intros k Hk Hne0. by destruct (Hbl4 k Hk) as [|[? _]].
Qed.

(** ** The theorems *)

(** C11: [path_lookup] reads the root directory as a list of entries: the empty
    name succeeds with the inode of the root, number 0, any other name with the
    inode of the first entry that has it; a name without an entry fails, the
    result -1 of the C function.  Nothing on the disk or in the open files
    changes. *)
Theorem path_lookup_spec s B path nm :
  mounted s B -> room 1 512 B -> dir_ok s (inode_at (fs_rd s) 0) -> names path nm ->
  exists s', exec (path_lookup (Some path)) s =
      (Val (if decide (nm = []) then Some 0
            else dir_lookup (dir_entries (fs_rd s) (inode_at (fs_rd s) 0)) nm), s') /\
    mounted s' B /\ fs_rd s' = fs_rd s /\ same_files s s'.
Proof.
  intros Hm Hroom Hi Hn. case_decide as Enm.
  - subst nm. destruct Hn as (name & Esk & (t & -> & _)). exists s. unfold path_lookup.
    rewrite Esk, exec_bind, exec_defined_Some. cbv iota. cbn [head app]. rewrite exec_bind, exec_defined_Some. cbv iota.
    by split_and!.
  - destruct (exec_path_lookup s B path nm Hm Hroom Hi Hn Enm) as (h' & Hr & E). eexists. split; [exact E|].
    split_and!; [by apply mounted_set_heap with B|done|done].
Qed.

(** C9: [fs_create] with type FS_TYPE_FILE of a name, of at most 27 characters,
    that is not in the directory, with an inode number below 384 free.  On success
    the entries of the directory are the old ones with exactly one new one among
    them, the name with a new inode, an empty file; exactly that inode number
    became used, every data block in use stays so and a block that became used is
    one of the directory's, and every other file keeps its inode and bytes.  It
    fails only when the disk or the directory is full, and then the entries, the
    two bitmaps, and the inode and the bytes of every file are what they were. *)
Theorem fs_create_spec s B path nm m :
  let es := dir_entries (fs_rd s) (inode_at (fs_rd s) 0) in
  mounted s B -> room 2 512 B -> dir_ok s (inode_at (fs_rd s) 0) -> names path nm -> nm <> [] ->
  (length nm <= 27)%nat -> Forall is_u8 nm -> is_u32 (fs_ticks s) ->
  bm_bit 8 (ibits s) 0 = true -> 0 <= m < 384 -> bm_bit 8 (ibits s) m = false -> dir_lookup es nm = None ->
  exists rc s', exec (fs_create (Some path) FS_TYPE_FILE) s = (Val rc, s') /\ mounted s' B /\
    let es' := dir_entries (fs_rd s') (inode_at (fs_rd s') 0) in
    dir_ok s' (inode_at (fs_rd s') 0) /\
    ((rc = 0 /\ exists n, 0 < n < 384 /\ bm_bit 8 (ibits s) n = false /\
        (forall j, 0 <= j < 512 -> bm_bit 8 (ibits s') j = (n =? j) || bm_bit 8 (ibits s) j) /\
        (exists es1 es2, es = es1 ++ es2 /\ es' = es1 ++ (nm, n) :: es2) /\
        (forall nm', dir_lookup es' nm' = if decide (nm' = nm) then Some n else dir_lookup es nm') /\
        file_ok s' (inode_at (fs_rd s') n) /\ file_bytes (fs_rd s') (inode_at (fs_rd s') n) = [] /\
        (forall b, 0 <= b < 1981 -> bm_bit 8 (dbits s) b = true -> bm_bit 8 (dbits s') b = true) /\
        (forall b, 0 <= b < 1981 -> bm_bit 8 (dbits s) b = false -> bm_bit 8 (dbits s') b = true ->
           exists k, (k < 10)%nat /\ i_blocks (inode_at (fs_rd s') 0) !!! k = b) /\
        (forall q, 0 < q < 384 -> q <> n -> inode_at (fs_rd s') q = inode_at (fs_rd s) q /\
           (file_ok s (inode_at (fs_rd s) q) -> disjoint_files (inode_at (fs_rd s) 0) (inode_at (fs_rd s) q) ->
            file_bytes (fs_rd s') (inode_at (fs_rd s') q) = file_bytes (fs_rd s) (inode_at (fs_rd s) q)))) \/
     (rc = -1 /\ (free_blocks (superblock s) = 0 \/
        forall q, (q < 10)%nat -> i_blocks (inode_at (fs_rd s) 0) !!! q <> 0) /\
      es' = es /\ (forall j, 0 <= j < 512 -> bm_bit 8 (ibits s') j = bm_bit 8 (ibits s) j) /\ dbits s' = dbits s /\
      forall q, 0 < q < 384 -> bm_bit 8 (ibits s) q = true -> inode_at (fs_rd s') q = inode_at (fs_rd s) q /\
        (file_ok s (inode_at (fs_rd s) q) ->
         file_bytes (fs_rd s') (inode_at (fs_rd s') q) = file_bytes (fs_rd s) (inode_at (fs_rd s) q)))).
Proof.
  intros es Hm Hroom Hi Hn Hne Hlen Hnu Ht Hroot Hm384 Hfree Hnone.
  destruct (exec_fs_create s B path nm m Hm Hroom Hi Hn Hne Hnu Ht Hroot Hm384 Hfree Hnone)
    as (rc & s' & E & [[-> (n & Hc)]|(-> & [Hwhy Hm' Ei Hi' Een _ Hib Hdb Hin Hby])]); eexists _, s'; (split; [exact E|]).
  - destruct Hc as [Hm' Hd' [Hn384 Hnf] Hib Hen Hin Hf Hoth Hby _ Hkept Hnew _]. split; [done|]. cbv zeta. split; [done|].
    left. split; [done|]. exists n. rewrite Hin. split_and!; try done; try lia.
    + destruct Hen as (es1 & es2 & E1 & E2). exists es1, es2. unfold stored_name in E2. by rewrite take_ge in E2 by lia.
    + intros nm'. by apply entry_added_lookup.
    + intros b Hb Hfr Hu. destruct (Hnew b Hb Hu); [congruence|done].
    + intros q Hq Hqn. rewrite Hoth by done. split; [done|]. intros Hfq Hdj. by apply Hby.
  - split; [done|]. cbv zeta. rewrite Ei. split; [done|]. right. split_and!; try done.
    intros q Hq Hu. rewrite Hin by (done || lia). split; [done|]. apply Hby.
Qed.

(** C10: [fs_unlink] of a file, with all names of the directory different: the name
    leads nowhere any more, every other name leads where it did, the inode
    number and the blocks of the file are free and nothing else is, and the
    other files keep their inodes and bytes. *)
Theorem fs_unlink_spec s B path nm n :
  let es := dir_entries (fs_rd s) (inode_at (fs_rd s) 0) in
  mounted s B -> room 2 512 B -> dir_ok s (inode_at (fs_rd s) 0) -> names path nm -> nm <> [] -> is_u32 (fs_ticks s) ->
  NoDup es.*1 -> dir_lookup es nm = Some n -> 0 < n < 384 -> bm_bit 8 (ibits s) n = true ->
  file_ok s (inode_at (fs_rd s) n) -> disjoint_files (inode_at (fs_rd s) n) (inode_at (fs_rd s) 0) ->
  exists s', exec (fs_unlink (Some path)) s = (Val 0, s') /\ mounted s' B /\
    let es' := dir_entries (fs_rd s') (inode_at (fs_rd s') 0) in
    dir_ok s' (inode_at (fs_rd s') 0) /\
    (forall nm', dir_lookup es' nm' = if decide (nm' = nm) then None else dir_lookup es nm') /\
    (forall j, 0 <= j < 512 -> bm_bit 8 (ibits s') j = negb (n =? j) && bm_bit 8 (ibits s) j) /\
    (forall b, 0 <= b < 1981 -> bm_bit 8 (dbits s') b =
       negb (bool_decide (b ∈ live_blocks (i_blocks (inode_at (fs_rd s) n)))) && bm_bit 8 (dbits s) b) /\
    (forall q, 0 < q < 384 -> q <> n -> file_ok s (inode_at (fs_rd s) q) ->
       disjoint_files (inode_at (fs_rd s) 0) (inode_at (fs_rd s) q) ->
       disjoint_files (inode_at (fs_rd s) n) (inode_at (fs_rd s) q) ->
       file_bytes (fs_rd s') (inode_at (fs_rd s') q) = file_bytes (fs_rd s) (inode_at (fs_rd s) q)).
Proof.
  intros es Hm Hroom Hi Hn Hne Ht Hnd Hlk Hn384 Hused Hf Hdj.
  destruct (exec_fs_unlink s B path nm n Hm Hroom Hi Hn Hne Ht Hlk Hn384 Hused Hf Hdj)
    as (s' & E & [Hm' Hd' Hen Hib Hdb Hoth Hby _]).
  exists s'. split; [done|]. split; [done|]. cbv zeta. split_and!; [done| |done|done|].
  - intros nm'. by apply entry_removed_lookup.
  - intros q Hq Hqn Hfq Hdj1 Hdj2. rewrite Hoth by done. by apply Hby.
Qed.

End names.

(** ** Files on the disk of the booted system *)

Definition demo_path : list Z := c "/hi" ++ [0].

Lemma demo_names : names demo_path (c "hi").
Proof. exists (c "hi" ++ [0]). split; [reflexivity|]. exists []. split; [reflexivity|]. repeat constructor; discriminate. Qed.

Lemma demo_name_u8 : Forall is_u8 (c "hi").
Proof. repeat constructor; unfold is_u8; lia. Qed.

(** A file system that was just formatted has an empty directory. *)
Lemma fresh_dir `{Allocator H} (s : fs_t H) B :
  mounted s B -> fresh_fs s -> is_u32 (fs_ticks s) ->
  dir_ok s (inode_at (fs_rd s) 0) /\ dir_entries (fs_rd s) (inode_at (fs_rd s) 0) = [] /\
  bm_bit 8 (ibits s) 0 = true /\ bm_bit 8 (ibits s) 1 = false /\
  (forall q, (q < 10)%nat -> i_blocks (inode_at (fs_rd s) 0) !!! q = 0) /\ free_blocks (superblock s) = 1980.
Proof.
  intros Hm (Hsb & Hroot & Hib & Hdb) Ht. rewrite Hroot, Hib, Hsb.
  assert (forall q, (q < 10)%nat -> i_blocks (new_root (fs_ticks s)) !!! q = 0) as Hz
    by (intros; by apply lookup_total_replicate_2).
  split_and!; try done. split; [by apply new_inode_ok|done|..].
  - intros k Hk Hne. by rewrite Hz in Hne.
  - intros k k' Hk Hk' _ Hne. by rewrite Hz in Hne.
  - intros k k' Hk Hne. rewrite Hz in Hne by lia. done.
  - intros k Hk Hne. by rewrite Hz in Hne.
  - by rewrite Hdb.
Qed.

(** The booted file system, at tick 0. *)
Definition at_tick0 {H} (s : fs_t H) : fs_t H :=
  mk_fs (fs_heap s) (put_inode (fs_rd s) 0 (new_root 0)) (superblock s) (inode_bitmap s) (data_bitmap s)
    (open_files s) (fs_initialized s) 0.
Definition fs3 : fs_t heap := at_tick0 fs1.

Lemma at_tick0_ok `{Allocator H} (s : fs_t H) B :
  mounted s B -> fresh_fs s -> mounted (at_tick0 s) B /\ fresh_fs (at_tick0 s).
Proof.
  intros Hm (Hsb & Hroot & Hib & Hdb). pose proof (mt_disk _ _ Hm) as Hd.
  assert (inode_ok (new_root 0)) as Hr by (apply new_inode_ok; by unfold is_u32).
  pose proof (mounted_put_inode s B 0 (new_root 0) Hm Hr ltac:(lia)) as Hm2.
  split; [destruct Hm2; by split|]. split_and!; [done| | |].
  - cbn [fs_rd at_tick0 fs_ticks]. rewrite inode_at_put by (done || lia). done.
  - rewrite <- Hib. by apply disk_block_put_inode.
  - rewrite <- Hdb. by apply disk_block_put_inode.
Qed.

Lemma fs3_ok : exists B, mounted fs3 B /\ fresh_fs fs3 /\ room 2 512 B /\ is_u32 (fs_ticks fs3).
Proof.
  destruct fs1_ok as (B & Hm & Hf & Hr). exists B. destruct (at_tick0_ok fs1 B Hm Hf) as [H1 H2].
  assert (is_u32 0) as H3 by (unfold is_u32; lia).
  exact (conj H1 (conj H2 (conj (room_le 2 3 512 B ltac:(lia) Hr) H3))).
Qed.

Lemma path_lookup_spec_witness : exists s', exec (path_lookup (Some demo_path)) fs3 = (Val None, s').
Proof.
  destruct fs3_ok as (B & Hm & Hf & Hr & Ht). destruct (fresh_dir fs3 B Hm Hf Ht) as (Hd & He & _).
  destruct (path_lookup_spec fs3 B demo_path (c "hi") Hm (room_le 1 2 512 B ltac:(lia) Hr) Hd demo_names) as (s' & E & _).
  rewrite He in E. exists s'. exact E.
Defined.

Lemma fs_create_spec_witness : exists n s', exec (fs_create (Some demo_path) FS_TYPE_FILE) fs3 = (Val 0, s') /\
  dir_lookup (dir_entries (fs_rd s') (inode_at (fs_rd s') 0)) (c "hi") = Some n.
Proof.
  destruct fs3_ok as (B & Hm & Hf & Hr & Ht).
  destruct (fresh_dir fs3 B Hm Hf Ht) as (Hd & He & Hi0 & Hi1 & Hb & Hfb).
  destruct (fs_create_spec fs3 B demo_path (c "hi") 1 Hm Hr Hd demo_names) as (rc & s' & E & _ & _ & Hres).
  - discriminate.
  - cbn; lia.
  - exact demo_name_u8.
  - exact Ht.
  - exact Hi0.
  - lia.
  - exact Hi1.
  - rewrite He. reflexivity.
  - destruct Hres as [[-> (n & _ & _ & _ & _ & Hl & _)]|(_ & [Hx|Hx] & _)].
    + exists n, s'. split; [exact E|]. rewrite Hl. reflexivity.
    + rewrite Hfb in Hx. discriminate Hx.
    + exfalso. apply (Hx 0%nat); [lia|apply Hb; lia].
Defined.

(** The file created above, in a state where it can be removed. *)
Lemma demo_created : exists B n s, mounted s B /\ room 2 512 B /\ is_u32 (fs_ticks s) /\ created fs3 B (c "hi") n s /\
  dir_entries (fs_rd s) (inode_at (fs_rd s) 0) = [(c "hi", n)].
Proof.
  destruct fs3_ok as (B & Hm & Hf & Hr & Ht).
  destruct (fresh_dir fs3 B Hm Hf Ht) as (Hd & He & Hi0 & Hi1 & Hb & Hfb).
  destruct (exec_fs_create fs3 B demo_path (c "hi") 1 Hm Hr Hd demo_names) as (rc & s' & E & Hres).
  - discriminate.
  - exact demo_name_u8.
  - exact Ht.
  - exact Hi0.
  - lia.
  - exact Hi1.
  - rewrite He. reflexivity.
  - destruct Hres as [[_ (n & Hc)]|(_ & [[Hx|Hx] _ _ _ _ _ _ _ _ _])].
    + exists B, n, s'. pose proof (cr_entries _ _ _ _ _ Hc) as (es1 & es2 & E1 & E2). rewrite He in E1.
      symmetry in E1. apply app_eq_nil in E1 as [-> ->].
      split; [exact (cr_mounted _ _ _ _ _ Hc)|]. split; [exact Hr|].
      split; [destruct (cr_files _ _ _ _ _ Hc) as [_ ->]; exact Ht|]. split; [exact Hc|exact E2].
    + rewrite Hfb in Hx. discriminate Hx.
    + exfalso. apply (Hx 0%nat); [lia|apply Hb; lia].
Qed.

Lemma fs_unlink_spec_witness : exists (s s' : fs_t heap), exec (fs_unlink (Some demo_path)) s = (Val 0, s').
Proof.
  destruct demo_created as (B & n & s & Hm & Hr & Ht & [_ Hd [Hn _] Hib _ Hin Hf _ _ _ _ _ _] & He).
  destruct (fs_unlink_spec s B demo_path (c "hi") n Hm Hr Hd demo_names) as (s' & E & _).
  - discriminate.
  - exact Ht.
  - rewrite He. apply NoDup_singleton.
  - rewrite He. reflexivity.
  - exact Hn.
  - rewrite Hib, Z.eqb_refl by lia. reflexivity.
  - rewrite Hin. exact Hf.
  - rewrite Hin. intros k k' Hk Hk' Hne E0. apply Hne. rewrite <- E0. by apply lookup_total_replicate_2.
  - exists s, s'. exact E.
Defined.
