(* ===== verification/Process.v ===== *)
(** * process.c: processes, the scheduler and message passing

    Process control blocks and message queues live at the addresses [kmalloc]
    gave them; [procs] and [queues] are what the kernel finds there, shared by
    every pointer to them (the process table, [current_process] and
    [idle_process] all hold the same addresses).  A context switch leaves the
    caller: it is the outcome [Stopped Switched]. *)

From S2P Require Import Prelude CString Alloc.

Definition PROCESS_STATE_READY := 0.
Definition PROCESS_STATE_RUNNING := 1.
Definition PROCESS_STATE_BLOCKED := 2.
Definition PROCESS_STATE_TERMINATED := 3.
Definition MAX_PROCESSES := 16.
Definition MAX_MESSAGE_SIZE := 256.
Definition MESSAGE_QUEUE_SIZE := 8.
Definition SIZEOF_PROCESS := 144.
Definition SIZEOF_QUEUE := 2124.
Definition PAGE_SIZE := 4096.
Definition USER_CODE_BASE := 1073741824.      (* 0x40000000 *)
Definition USER_STACK_BASE := 2147483648.     (* 0x80000000 *)

Record ipc_message_t : Type := mk_msg { m_sender : Z; m_data : list Z; m_length : Z }.

Record message_queue_t : Type := mk_queue {
  q_messages : list ipc_message_t; q_head : Z; q_tail : Z; q_count : Z
}.

Record cpu_state_t : Type := mk_cpu {
  eip : Z; esp : Z; ebp : Z; eflags : Z; cs : Z; ds : Z; es : Z; fs : Z; gs : Z; ss : Z;
  other_regs : list Z              (* eax, ebx, ecx, edx, esi, edi, cr3 *)
}.

Record process_t : Type := mk_process {
  pid : Z; name : list Z; state : Z; cpu_state : cpu_state_t;
  stack_base : Z; stack_size : Z; user_stack : Z; kernel_stack : Z;
  is_user_mode : Z; priority : Z; time_slice : Z; total_time : Z; wake_time : Z;
  msg_queue : Z; page_directory : Z; next : Z
}.

(** What paging.c and pmm.c provide to the process manager. *)
Class MemoryOps (P : Type) : Type := {
  paging_get_directory : M P Z;
  paging_create_user_directory : M P Z;
  paging_free_directory : Z -> M P unit;
  paging_switch_directory : Z -> M P unit;
  paging_map_user_code : Z -> Z -> Z -> Z -> M P unit;
  pmm_alloc_page : M P Z;
  copy_page : Z -> Z -> Z -> M P unit           (* memcpy(dest, src, size) *)
}.

(** Loading a page directory always comes back. *)
Class MemoryLaws (P : Type) `{MemoryOps P} : Prop := {
  switch_law dir m : exists m', exec (paging_switch_directory dir) m = (Val tt, m')
}.

Record kernel (H P : Type) : Type := mk_kernel {
  k_heap : H;
  k_mm : P;
  procs : gmap Z process_t;
  queues : gmap Z message_queue_t;
  stack_words : gmap Z Z;              (* the words stored on new stacks *)
  process_table : list Z;
  process_count_val : Z;
  next_pid : Z;
  current_process : Z;
  idle_process : Z;
  tss_esp0 : Z;                        (* set by tss_set_kernel_stack *)
  k_ticks : Z                          (* what timer_get_ticks() returns *)
}.
Arguments mk_kernel {H P}. Arguments k_heap {H P}. Arguments k_mm {H P}. Arguments procs {H P}.
Arguments queues {H P}. Arguments stack_words {H P}. Arguments process_table {H P}.
Arguments process_count_val {H P}. Arguments next_pid {H P}. Arguments current_process {H P}.
Arguments idle_process {H P}. Arguments tss_esp0 {H P}. Arguments k_ticks {H P}.

(** ** Fields of a process control block *)

Definition set_state (v : Z) (p : process_t) : process_t :=
  mk_process (pid p) (name p) v (cpu_state p) (stack_base p) (stack_size p) (user_stack p)
    (kernel_stack p) (is_user_mode p) (priority p) (time_slice p) (total_time p) (wake_time p)
    (msg_queue p) (page_directory p) (next p).
Definition set_priority (v : Z) (p : process_t) : process_t :=
  mk_process (pid p) (name p) (state p) (cpu_state p) (stack_base p) (stack_size p) (user_stack p)
    (kernel_stack p) (is_user_mode p) v (time_slice p) (total_time p) (wake_time p)
    (msg_queue p) (page_directory p) (next p).
Definition set_wake_time (v : Z) (p : process_t) : process_t :=
  mk_process (pid p) (name p) (state p) (cpu_state p) (stack_base p) (stack_size p) (user_stack p)
    (kernel_stack p) (is_user_mode p) (priority p) (time_slice p) (total_time p) v
    (msg_queue p) (page_directory p) (next p).
Definition set_user (um us pd : Z) (p : process_t) : process_t :=
  mk_process (pid p) (name p) (state p) (cpu_state p) (stack_base p) (stack_size p) us
    (kernel_stack p) um (priority p) (time_slice p) (total_time p) (wake_time p)
    (msg_queue p) pd (next p).
Definition set_cpu (st : cpu_state_t) (p : process_t) : process_t :=
  mk_process (pid p) (name p) (state p) st (stack_base p) (stack_size p) (user_stack p)
    (kernel_stack p) (is_user_mode p) (priority p) (time_slice p) (total_time p) (wake_time p)
    (msg_queue p) (page_directory p) (next p).

(** The register image of a new process: kernel segments, interrupts on. *)
Definition entry_cpu (entry stack : Z) (regs : list Z) : cpu_state_t :=
  mk_cpu entry stack stack 514 8 16 16 16 16 16 regs.
Definition user_cpu (st : cpu_state_t) (entry : Z) : cpu_state_t :=
  mk_cpu entry (esp st) (ebp st) (eflags st) 27 35 35 35 35 35 (other_regs st).

Definition err_color : Z := MAKE_COLOR COLOR_RED COLOR_BLACK.

Section process.
Context {H P : Type} `{KmallocOps H} `{MemoryOps P}.
(** The bytes a fresh block holds: [kmalloc] does not clear them. *)
Context (junk_pcb : Z -> process_t) (junk_queue : Z -> message_queue_t).
(** Addresses of the functions [idle_task] and [user_mode_entry_wrapper]. *)
Context (idle_task user_mode_entry_wrapper : Z).
Abbreviation K := (kernel H P).

Definition set_k_heap (h : H) (k : K) : K :=
  mk_kernel h (k_mm k) (procs k) (queues k) (stack_words k) (process_table k) (process_count_val k)
    (next_pid k) (current_process k) (idle_process k) (tss_esp0 k) (k_ticks k).
Definition set_mm (m : P) (k : K) : K :=
  mk_kernel (k_heap k) m (procs k) (queues k) (stack_words k) (process_table k) (process_count_val k)
    (next_pid k) (current_process k) (idle_process k) (tss_esp0 k) (k_ticks k).
Definition set_procs (m : gmap Z process_t) (k : K) : K :=
  mk_kernel (k_heap k) (k_mm k) m (queues k) (stack_words k) (process_table k) (process_count_val k)
    (next_pid k) (current_process k) (idle_process k) (tss_esp0 k) (k_ticks k).
Definition set_queues (m : gmap Z message_queue_t) (k : K) : K :=
  mk_kernel (k_heap k) (k_mm k) (procs k) m (stack_words k) (process_table k) (process_count_val k)
    (next_pid k) (current_process k) (idle_process k) (tss_esp0 k) (k_ticks k).
Definition set_stack_words (m : gmap Z Z) (k : K) : K :=
  mk_kernel (k_heap k) (k_mm k) (procs k) (queues k) m (process_table k) (process_count_val k)
    (next_pid k) (current_process k) (idle_process k) (tss_esp0 k) (k_ticks k).
Definition set_table (t : list Z) (n : Z) (k : K) : K :=
  mk_kernel (k_heap k) (k_mm k) (procs k) (queues k) (stack_words k) t n
    (next_pid k) (current_process k) (idle_process k) (tss_esp0 k) (k_ticks k).
Definition set_next_pid (n : Z) (k : K) : K :=
  mk_kernel (k_heap k) (k_mm k) (procs k) (queues k) (stack_words k) (process_table k) (process_count_val k)
    n (current_process k) (idle_process k) (tss_esp0 k) (k_ticks k).
Definition set_current (p : Z) (k : K) : K :=
  mk_kernel (k_heap k) (k_mm k) (procs k) (queues k) (stack_words k) (process_table k) (process_count_val k)
    (next_pid k) p (idle_process k) (tss_esp0 k) (k_ticks k).
Definition set_idle (p : Z) (k : K) : K :=
  mk_kernel (k_heap k) (k_mm k) (procs k) (queues k) (stack_words k) (process_table k) (process_count_val k)
    (next_pid k) (current_process k) p (tss_esp0 k) (k_ticks k).

Definition on_heap {A} (m : M H A) : M K A := zoom k_heap set_k_heap m.
Definition on_mm {A} (m : M P A) : M K A := zoom k_mm set_mm m.

(** [p->field] and [p->field = v]: undefined unless [p] points to a live block. *)
Definition load_pcb (p : Z) : M K process_t := let! k := get in defined (procs k !! p).
Definition store_pcb (p : Z) (v : process_t) : M K unit :=
  load_pcb p ;; modify (fun k => set_procs (<[p := v]> (procs k)) k).
Definition update_pcb (p : Z) (f : process_t -> process_t) : M K unit :=
  let! v := load_pcb p in store_pcb p (f v).
Definition load_queue (q : Z) : M K message_queue_t := let! k := get in defined (queues k !! q).
Definition store_queue (q : Z) (v : message_queue_t) : M K unit :=
  load_queue q ;; modify (fun k => set_queues (<[q := v]> (queues k)) k).

(** A block allocated for a control block or a queue. *)
Definition new_pcb : M K Z :=
  let! p := on_heap (kmalloc SIZEOF_PROCESS) in
  if p =? 0 then ret 0 else
  modify (fun k => set_procs (<[p := junk_pcb p]> (procs k)) k) ;; ret p.
Definition new_queue : M K Z :=
  let! q := on_heap (kmalloc SIZEOF_QUEUE) in
  if q =? 0 then ret 0 else
  modify (fun k => set_queues (<[q := junk_queue q]> (queues k)) k) ;; ret q.
Definition free_pcb (p : Z) : M K unit :=
  on_heap (kfree p) ;; modify (fun k => set_procs (delete p (procs k)) k).
Definition free_queue (q : Z) : M K unit :=
  on_heap (kfree q) ;; modify (fun k => set_queues (delete q (queues k)) k).

(** [*a = v] for a word of the stack allocated at [base] with [size] bytes:
    undefined unless all four bytes lie in that block. *)
Definition push_word (base size a v : Z) : M K unit :=
  if negb (base =? 0) && (base <=? a) && (a + 4 <=? base + size) then
    modify (fun k => set_stack_words (<[a := v]> (stack_words k)) k)
  else stop_with Undefined.

Definition table_indices : list nat := seq 0 16.

(** [process_table[i] && process_table[i]->pid == pid] *)
Definition slot_has_pid (pid0 : Z) (i : nat) : M K bool :=
  let! k := get in
  let p := process_table k !!! i in
  if p =? 0 then ret false else
  let! v := load_pcb p in ret (pid v =? pid0).

Definition process_get (pid0 : Z) : M K Z :=
  let! r := for_find table_indices (fun i =>
    let! b := slot_has_pid pid0 i in
    if b then let! k := get in ret (Some (process_table k !!! i)) else ret None) in
  ret (default 0 r).

Definition process_current : M K Z := gets current_process.
Definition process_count : M K Z := gets process_count_val.
Definition process_get_table : M K (list Z) := gets process_table.
Definition process_list : M K Z := ret 0.

(** ** Initialisation and creation *)

Definition process_init : M K unit :=
  modify (fun k => set_table (replicate 16 0) (process_count_val k) k) ;;
  screen_write_color (c "[PROCESS] ") (MAKE_COLOR COLOR_GREEN COLOR_BLACK) ;;
  screen_write (c "Process management initialized\n") ;;
  let! p := new_pcb in
  modify (set_idle p) ;;
  if p =? 0 then
    kprintf_color err_color (c "[PROCESS ERROR] Failed to allocate idle process\n") []
  else
  let! v := load_pcb p in
  let! nm := defined (strcpy (name v) (c "idle" ++ [0])) in
  let! dir := on_mm paging_get_directory in
  store_pcb p (mk_process 0 nm PROCESS_STATE_READY (cpu_state v) (stack_base v) (stack_size v)
    (user_stack v) (kernel_stack v) (is_user_mode v) 0 10 0 (wake_time v) (msg_queue v) dir 0) ;;
  let! base := on_heap (kmalloc 4096) in
  let stack := u32 (u32 (base + 4096) - 4) in
  push_word base 4096 stack idle_task ;;
  update_pcb p (fun v => mk_process (pid v) (name v) (state v)
    (entry_cpu idle_task stack (other_regs (cpu_state v))) base 4096
    (user_stack v) (kernel_stack v) (is_user_mode v) (priority v) (time_slice v) (total_time v)
    (wake_time v) (msg_queue v) (page_directory v) (next v)) ;;
  modify (fun k => set_table (<[0%nat := p]> (process_table k)) 1 k) ;;
  modify (set_current p) ;;
  kprintf (c "          Idle process created (PID 0)\n") [].

Definition process_create (name0 : list Z) (entry_point stack_size0 : Z) : M K Z :=
  let! k := get in
  if MAX_PROCESSES <=? process_count_val k then
    kprintf_color err_color (c "[PROCESS ERROR] Process table full\n") [] ;; ret 0
  else
  let! p := new_pcb in
  if p =? 0 then
    kprintf_color err_color (c "[PROCESS ERROR] Failed to allocate PCB\n") [] ;; ret 0
  else
  let! base := on_heap (kmalloc stack_size0) in
  if base =? 0 then
    kprintf_color err_color (c "[PROCESS ERROR] Failed to allocate stack\n") [] ;;
    free_pcb p ;; ret 0
  else
  let! new_pid := gets next_pid in
  modify (set_next_pid (u32 (new_pid + 1))) ;;
  let! v := load_pcb p in
  let! nm := defined (strncpy (name v) name0 31) in
  let nm := <[31%nat := 0]> nm in
  store_pcb p (mk_process new_pid nm PROCESS_STATE_READY (cpu_state v) base stack_size0 0
    (u32 (base + stack_size0)) 0 5 10 0 0 (msg_queue v) (page_directory v) 0) ;;
  let! q := new_queue in
  if q =? 0 then
    kprintf_color err_color (c "[PROCESS ERROR] Failed to allocate message queue\n") [] ;;
    on_heap (kfree base) ;; free_pcb p ;; ret 0
  else
  (let! mq := load_queue q in store_queue q (mk_queue (q_messages mq) 0 0 0)) ;;
  let! dir := on_mm paging_get_directory in
  let stack := u32 (u32 (base + stack_size0) - 4) in
  push_word base stack_size0 stack entry_point ;;
  update_pcb p (fun v => mk_process (pid v) (name v) (state v)
    (entry_cpu entry_point stack (other_regs (cpu_state v))) (stack_base v) (stack_size v)
    (user_stack v) (kernel_stack v) (is_user_mode v) (priority v) (time_slice v) (total_time v)
    (wake_time v) q dir (next v)) ;;
  let! r := for_find table_indices (fun i =>
    let! k := get in
    if process_table k !!! i =? 0 then
      modify (fun k => set_table (<[i := p]> (process_table k)) (s32 (process_count_val k + 1)) k) ;;
      kprintf (c "[PROCESS] Created process '%s' (PID %d)\n") [AStr (cstring name0); AInt new_pid] ;;
      ret (Some new_pid)
    else ret None) in
  match r with
  | Some n => ret n
  | None => on_heap (kfree base) ;; free_pcb p ;; ret 0
  end.

Definition clamp_priority (priority0 : Z) : Z := if 255 <? priority0 then 255 else priority0.

Definition process_create_with_priority (name0 : list Z) (entry_point stack_size0 priority0 : Z) : M K Z :=
  let! pid0 := process_create name0 entry_point stack_size0 in
  (if 0 <? pid0 then
     let! p := process_get pid0 in
     if p =? 0 then ret tt else update_pcb p (set_priority (clamp_priority priority0))
   else ret tt) ;;
  ret pid0.

Definition process_set_priority (pid0 priority0 : Z) : M K Z :=
  let! p := process_get pid0 in
  if p =? 0 then ret (-1) else
  update_pcb p (set_priority (clamp_priority priority0)) ;;
  ret 0.

Definition process_get_priority (pid0 : Z) : M K Z :=
  let! p := process_get pid0 in
  if p =? 0 then ret (-1) else
  let! v := load_pcb p in
  ret (s32 (priority v)).

(** ** The scheduler *)

(** The inner loop: the index of [current_process], where the [break] is. *)
Definition current_index (table : list Z) (current : Z) : option nat :=
  fst <$> list_find (fun p => p = current) table.

(** One round of the search: the candidate so far and its priority. *)
Definition pick_round (i : nat) (st : Z * Z) : M K (Z * Z + unit) :=
  let '(next_process, highest_priority) := st in
  let! k := get in
  let p := process_table k !!! i in
  if p =? 0 then ret (inl st) else
  let! v := load_pcb p in
  if negb (state v =? PROCESS_STATE_READY) then ret (inl st) else
  if (next_process =? 0) || (highest_priority <? priority v) then ret (inl (p, priority v)) else
  if priority v =? highest_priority then
    if current_process k =? 0 then ret (inl st) else
    match current_index (process_table k) (current_process k) with
    | Some j => if (j <? i)%nat then ret (inl (p, highest_priority)) else ret (inl st)
    | None => ret (inl st)
    end
  else ret (inl st).

Definition process_schedule : M K unit :=
  let! n := gets process_count_val in
  if n =? 0 then ret tt else
  let! cur := gets current_process in
  (if cur =? 0 then ret tt else
   let! v := load_pcb cur in
   if state v =? PROCESS_STATE_RUNNING then update_pcb cur (set_state PROCESS_STATE_READY) else ret tt) ;;
  let! r := for_state table_indices pick_round (0, 0) in
  let next_process := match r with inl (p, _) => p | inr _ => 0 end in
  let! idle := gets idle_process in
  let next_process := if next_process =? 0 then idle else next_process in
  if negb (next_process =? cur) then
    modify (set_current next_process) ;;
    update_pcb next_process (set_state PROCESS_STATE_RUNNING) ;;
    let! v := load_pcb next_process in
    modify (fun k => mk_kernel (k_heap k) (k_mm k) (procs k) (queues k) (stack_words k) (process_table k)
      (process_count_val k) (next_pid k) (current_process k) (idle_process k) (kernel_stack v) (k_ticks k)) ;;
    (if page_directory v =? 0 then ret tt else on_mm (paging_switch_directory (page_directory v))) ;;
    stop_with Switched
  else
    update_pcb next_process (set_state PROCESS_STATE_RUNNING).

Definition process_yield : M K unit := process_schedule.

(** ** Termination, sleeping and waking *)

Definition process_kill (pid0 : Z) : M K unit :=
  if pid0 =? 0 then
    kprintf_color err_color (c "[PROCESS ERROR] Cannot kill idle process\n") []
  else
  let! r := for_find table_indices (fun i =>
    let! b := slot_has_pid pid0 i in
    if negb b then ret None else
    let! k := get in
    let p := process_table k !!! i in
    (if p =? current_process k then
       update_pcb p (set_state PROCESS_STATE_TERMINATED) ;; process_schedule
     else ret tt) ;;
    let! v := load_pcb p in
    on_heap (kfree (stack_base v)) ;;
    (if msg_queue v =? 0 then ret tt else free_queue (msg_queue v)) ;;
    (if negb (is_user_mode v =? 0) && negb (page_directory v =? 0)
     then on_mm (paging_free_directory (page_directory v)) else ret tt) ;;
    free_pcb p ;;
    modify (fun k => set_table (<[i := 0]> (process_table k)) (s32 (process_count_val k - 1)) k) ;;
    kprintf (c "[PROCESS] Killed process PID %d\n") [AInt pid0] ;;
    ret (Some tt)) in
  match r with
  | Some _ => ret tt
  | None => kprintf_color err_color (c "[PROCESS ERROR] Process PID %d not found\n") [AInt pid0]
  end.

Definition process_exit : M K unit :=
  let! cur := gets current_process in
  if cur =? 0 then ret tt else
  let! v := load_pcb cur in
  if pid v =? 0 then ret tt else
  process_kill (pid v) ;;
  stop_with Halted.

Definition process_sleep (ms : Z) : M K unit :=
  let! cur := gets current_process in
  if cur =? 0 then ret tt else
  let! v := load_pcb cur in
  if pid v =? 0 then ret tt else
  let! now := gets k_ticks in
  update_pcb cur (fun v => set_state PROCESS_STATE_BLOCKED (set_wake_time (u32 (now + ms)) v)) ;;
  process_schedule.

Definition process_wake (pid0 : Z) : M K Z :=
  let! p := process_get pid0 in
  if p =? 0 then ret (-1) else
  let! v := load_pcb p in
  if state v =? PROCESS_STATE_BLOCKED then
    update_pcb p (fun v => set_wake_time 0 (set_state PROCESS_STATE_READY v)) ;; ret 0
  else ret (-2).

Definition process_check_sleeping : M K unit :=
  let! current_ticks := gets k_ticks in
  for_each table_indices (fun i =>
    let! k := get in
    let p := process_table k !!! i in
    if p =? 0 then ret tt else
    let! v := load_pcb p in
    if (state v =? PROCESS_STATE_BLOCKED) && (0 <? wake_time v) && (wake_time v <=? current_ticks) then
      update_pcb p (fun v => set_wake_time 0 (set_state PROCESS_STATE_READY v))
    else ret tt).

(** ** Messages *)

(** [message] is the array the pointer points to; [None] is NULL. *)
Definition process_send_message (target_pid : Z) (message : option (list Z)) (length0 : Z) : M K Z :=
  match message with
  | None => ret (-1)
  | Some msg =>
      if (length0 =? 0) || (MAX_MESSAGE_SIZE <? length0) then ret (-1) else
      let! p := process_get target_pid in
      if p =? 0 then ret (-2) else
      let! v := load_pcb p in
      if msg_queue v =? 0 then ret (-2) else
      let! q := load_queue (msg_queue v) in
      if MESSAGE_QUEUE_SIZE <=? q_count q then ret (-3) else
      let! k := get in
      let! sender := (if current_process k =? 0 then ret 0
                      else let! cv := load_pcb (current_process k) in ret (pid cv)) in
      let tail := q_tail q in
      let! old := defined (q_messages q !! Z.to_nat tail) in
      let len := if MAX_MESSAGE_SIZE <? length0 then MAX_MESSAGE_SIZE else length0 in
      let! data := defined (memcpy (m_data old) msg len) in
      store_queue (msg_queue v)
        (mk_queue (<[Z.to_nat tail := mk_msg sender data len]> (q_messages q)) (q_head q)
           (u32 (tail + 1) mod MESSAGE_QUEUE_SIZE) (u32 (q_count q + 1))) ;;
      (if (state v =? PROCESS_STATE_BLOCKED) && (wake_time v =? 0)
       then update_pcb p (set_state PROCESS_STATE_READY) else ret tt) ;;
      ret 0
  end.

(** The code returned, the sender stored at [*sender] and the buffer's array
    after the call; [buffer] is [None] for NULL. *)
Definition process_receive_message (buffer : option (list Z)) (max_length : Z)
    : M K (Z * option (Z * list Z)) :=
  let! k := get in
  if current_process k =? 0 then ret (-1, None) else
  let! v := load_pcb (current_process k) in
  if msg_queue v =? 0 then ret (-1, None) else
  match buffer with
  | None => ret (-2, None)
  | Some b =>
      if max_length =? 0 then ret (-2, None) else
      let! q := load_queue (msg_queue v) in
      if q_count q =? 0 then ret (-3, None) else
      let head := q_head q in
      let! msg := defined (q_messages q !! Z.to_nat head) in
      let copy_length := if m_length msg <? max_length then m_length msg else max_length in
      let! b' := defined (memcpy b (m_data msg) copy_length) in
      store_queue (msg_queue v)
        (mk_queue (q_messages q) (u32 (head + 1) mod MESSAGE_QUEUE_SIZE) (q_tail q)
           (u32 (q_count q - 1))) ;;
      ret (s32 copy_length, Some (m_sender msg, b'))
  end.

Definition process_has_messages : M K Z :=
  let! k := get in
  if current_process k =? 0 then ret 0 else
  let! v := load_pcb (current_process k) in
  if msg_queue v =? 0 then ret 0 else
  let! q := load_queue (msg_queue v) in
  ret (s32 (q_count q)).

(** ** User mode *)

Definition process_create_user_mode (name0 : list Z) (entry_point stack_size0 priority0 : Z) : M K Z :=
  let! pid0 := process_create name0 user_mode_entry_wrapper stack_size0 in
  if pid0 =? 0 then ret 0 else
  let! p := process_get pid0 in
  if p =? 0 then ret 0 else
  update_pcb p (fun v => set_user 1 (user_stack v) (page_directory v) v) ;;
  let! stack_physical := on_mm pmm_alloc_page in
  if stack_physical =? 0 then
    kprintf_color err_color (c "[PROCESS ERROR] Failed to allocate user stack page\n") [] ;;
    process_kill pid0 ;; ret 0
  else
  let! dir := on_mm paging_create_user_directory in
  update_pcb p (fun v => set_user (is_user_mode v) (user_stack v) dir v) ;;
  if dir =? 0 then
    kprintf_color err_color (c "[PROCESS ERROR] Failed to create page directory\n") [] ;;
    process_kill pid0 ;; ret 0
  else
  let! code_physical := on_mm pmm_alloc_page in
  if code_physical =? 0 then
    kprintf_color err_color (c "[PROCESS ERROR] Failed to allocate user code page\n") [] ;;
    process_kill pid0 ;; ret 0
  else
  on_mm (copy_page code_physical entry_point PAGE_SIZE) ;;
  on_mm (paging_map_user_code dir USER_CODE_BASE code_physical PAGE_SIZE) ;;
  on_mm (paging_map_user_code dir (USER_STACK_BASE - PAGE_SIZE) stack_physical PAGE_SIZE) ;;
  update_pcb p (fun v => set_user (is_user_mode v) USER_STACK_BASE (page_directory v) v) ;;
  kprintf (c "[USERMODE] Mapped user code: virt=0x%x, phys=0x%x\n") [AInt USER_CODE_BASE; AInt code_physical] ;;
  kprintf (c "[USERMODE] Mapped user stack: virt=0x%x, phys=0x%x\n")
    [AInt (USER_STACK_BASE - PAGE_SIZE); AInt stack_physical] ;;
  update_pcb p (fun v => set_cpu (user_cpu (cpu_state v) USER_CODE_BASE)
                           (set_priority (clamp_priority priority0) v)) ;;
  kprintf (c "[PROCESS] Created user mode process '%s' (PID %d, Ring 3)\n")
    [AStr (cstring name0); AInt pid0] ;;
  ret pid0.

(** What runs at [user_mode_entry_wrapper]; [enter_usermode] of usermode.asm
    returns to Ring 3 and does not come back. *)
Definition user_mode_entry : M K unit :=
  let! proc := gets current_process in
  let! um := (if proc =? 0 then ret 0 else let! v := load_pcb proc in ret (is_user_mode v)) in
  if um =? 0 then
    kprintf_color err_color (c "[PROCESS ERROR] Invalid user mode process\n") [] ;; process_exit
  else
  let! v := load_pcb proc in
  let entry_point := eip (cpu_state v) in
  kprintf (c "[USERMODE] Switching to Ring 3: entry=0x%x, stack=0x%x\n") [AInt entry_point; AInt (user_stack v)] ;;
  stop_with (UserMode entry_point (user_stack v)).

End process.
