(* ===== verification/Sched.v ===== *)
(** * The scheduler's choice

    What [process_schedule] picks: a ready process of the highest priority, and
    which one among several. *)

From S2P Require Import Prelude CString Alloc Process.

Section sched.
Context {H P : Type} `{KmallocOps H} `{MemoryOps P}.
Implicit Types k : kernel H P.

(** The table holds 16 pointers, each NULL or to a live control block. *)
Record table_ok k : Prop := {
  tb_length : length (process_table k) = 16%nat;
  tb_live i p : process_table k !! i = Some p -> p <> 0 -> is_Some (procs k !! p)
}.

Lemma table_slot k i : table_ok k -> (i < 16)%nat ->
  process_table k !!! i = 0 \/ exists v, procs k !! (process_table k !!! i) = Some v.
Proof.
  intros [Hl Hv] Hi. destruct (decide (process_table k !!! i = 0)) as [|Hne]; [by left|right].
  apply (Hv i); [|done]. apply list_lookup_lookup_total_lt. lia.
Qed.

(** ** process_get *)

(** The process in slot [i], when there is one. *)
Definition slot k (i : nat) : option process_t :=
  let p := process_table k !!! i in if p =? 0 then None else procs k !! p.

Definition lookup_pid k (pid0 : Z) : Z :=
  default 0 (first_some (fun i =>
    match slot k i with
    | Some v => if pid v =? pid0 then Some (process_table k !!! i) else None
    | None => None
    end) table_indices).

Lemma exec_load_pcb k p v : procs k !! p = Some v -> exec (load_pcb p) k = (Val v, k).
Proof. intros E. unfold load_pcb. run. by rewrite E. Qed.

Lemma exec_store_pcb k p v w :
  procs k !! p = Some v -> exec (store_pcb p w) k = (Val tt, set_procs (<[p := w]> (procs k)) k).
Proof. intros E. unfold store_pcb. run. rewrite (exec_load_pcb k p v E). by run. Qed.

Lemma exec_update_pcb k p v f :
  procs k !! p = Some v -> exec (update_pcb p f) k = (Val tt, set_procs (<[p := f v]> (procs k)) k).
Proof.
  intros E. unfold update_pcb. run. rewrite (exec_load_pcb k p v E). by apply (exec_store_pcb k p v).
Qed.

(** The entry word of a new stack: the last four bytes of its block.  A stack of
    fewer than four bytes has no room for it. *)
Lemma exec_push_word k base size v : 0 < base -> 4 <= size -> base + size < 4294967296 ->
  exec (push_word base size (u32 (u32 (base + size) - 4)) v) k =
  (Val tt, set_stack_words (<[u32 (u32 (base + size) - 4) := v]> (stack_words k)) k).
Proof.
  intros Hb Hs Ht. unfold push_word. rewrite (u32_small (base + size)), (u32_small (base + size - 4)) by (unfold is_u32; lia).
  rewrite (proj2 (Z.eqb_neq base 0)), !(proj2 (Z.leb_le _ _)) by lia. cbn [negb andb]. by run.
Qed.

Lemma push_word_short k base size v : 4 <= base -> 0 <= size < 4 -> base + size < 4294967296 ->
  exec (push_word base size (u32 (u32 (base + size) - 4)) v) k = (Stopped Undefined, k).
Proof.
  intros Hb Hs Ht. unfold push_word. rewrite (u32_small (base + size)), (u32_small (base + size - 4)) by (unfold is_u32; lia).
  rewrite (proj2 (Z.leb_gt base _)) by lia. by rewrite andb_false_r.
Qed.

Lemma exec_slot_has_pid k i pid0 : table_ok k -> (i < 16)%nat ->
  exec (slot_has_pid pid0 i) k =
  (Val (match slot k i with Some v => pid v =? pid0 | None => false end), k).
Proof.
  intros Ht Hi. unfold slot_has_pid, slot. run.
  destruct (table_slot k i Ht Hi) as [E|[v E]].
  - by rewrite E.
  - destruct (_ =? 0); [done|]. rewrite (exec_load_pcb k _ v E), E. done.
Qed.

Lemma elem_of_table i : i ∈ table_indices <-> (i < 16)%nat.
Proof. unfold table_indices. rewrite elem_of_seq. lia. Qed.

Lemma exec_process_get k pid0 : table_ok k -> exec (process_get pid0) k = (Val (lookup_pid k pid0), k).
Proof.
  intros Ht. unfold process_get. rewrite exec_bind.
  erewrite exec_for_find_pure; [by run|]. intros i Hi%elem_of_table. cbv beta.
  rewrite exec_bind, (exec_slot_has_pid k i pid0 Ht Hi).
  destruct (slot k i) as [v|]; [|done]. destruct (pid v =? pid0); by run.
Qed.

(** The process found has the pid asked for, and its block is live. *)
Lemma lookup_pid_found k pid0 : table_ok k -> lookup_pid k pid0 <> 0 ->
  exists i v, (i < 16)%nat /\ process_table k !!! i = lookup_pid k pid0 /\
    procs k !! lookup_pid k pid0 = Some v /\ pid v = pid0.
Proof.
  intros Ht. unfold lookup_pid. destruct (first_some _ _) as [p|] eqn:E; [|done]. cbn [default]. intros Hp.
  apply first_some_Some in E as (i & Hi%elem_of_table & E). destruct (slot k i) as [v|] eqn:Es; [|done].
  destruct (Z.eqb_spec (pid v) pid0) as [Hpid|]; [|done]. injection E as Ep.
  exists i, v. split_and!; [done|done| |done]. unfold slot in Es. rewrite Ep in Es.
  by rewrite (proj2 (Z.eqb_neq p 0) Hp) in Es.
Qed.

(** ** The search for the next process *)

(** A ready process in slot [i]: its address and priority. *)
Definition candidate k (i : nat) : option (Z * Z) :=
  match slot k i with
  | Some v => if state v =? PROCESS_STATE_READY then Some (process_table k !!! i, priority v) else None
  | None => None
  end.

Definition pick (cand : nat -> option (Z * Z)) (j : option nat) (i : nat) (st : Z * Z) : Z * Z :=
  match cand i with
  | None => st
  | Some (p, pr) =>
      if (fst st =? 0) || (snd st <? pr) then (p, pr)
      else if pr =? snd st then
        match j with Some j => if (j <? i)%nat then (p, snd st) else st | None => st end
      else st
  end.

Definition cur_index k : option nat :=
  if current_process k =? 0 then None else current_index (process_table k) (current_process k).

Lemma exec_pick_round k i st : table_ok k -> (i < 16)%nat ->
  exec (pick_round i st) k = (Val (inl (pick (candidate k) (cur_index k) i st)), k).
Proof.
  intros Ht Hi. destruct st as [np hp]. unfold pick_round, pick, candidate, slot, cur_index. run.
  destruct (table_slot k i Ht Hi) as [E|[v E]].
  - by rewrite E.
  - destruct (_ =? 0); [done|]. rewrite (exec_load_pcb k _ v E), E. cbv iota.
    destruct (state v =? PROCESS_STATE_READY); [|done]. cbn [negb fst snd].
    destruct ((np =? 0) || (hp <? priority v)); [done|]. destruct (priority v =? hp); [|done].
    destruct (current_process k =? 0); [done|].
    destruct (current_index _ _) as [j|]; [|done]. by destruct (j <? i)%nat.
Qed.

Definition chosen_pair k : Z * Z :=
  foldl (fun st i => pick (candidate k) (cur_index k) i st) (0, 0) table_indices.

Lemma exec_pick k : table_ok k ->
  exec (for_state table_indices pick_round (0, 0)) k = (Val (inl (chosen_pair k)), k).
Proof.
  intros Ht. apply exec_for_state_pure. intros i st Hi%elem_of_table. by apply exec_pick_round.
Qed.

(** Among candidates of equal priority, with the current process in slot [j],
    slot [i] goes before slot [i']. *)
Definition prefers (j : option nat) (i i' : nat) : Prop :=
  match j with
  | Some j => (j < i /\ i' < i)%nat \/ (i <= j /\ i < i' <= j)%nat
  | None => (i < i')%nat
  end.

(** [st] is the best of the candidates below [n]. *)
Definition best (cand : nat -> option (Z * Z)) (j : option nat) (n : nat) (st : Z * Z) : Prop :=
  (st = (0, 0) /\ forall i, (i < n)%nat -> cand i = None) \/
  (exists i, (i < n)%nat /\ cand i = Some st /\ fst st <> 0 /\
     forall i' st', (i' < n)%nat -> cand i' = Some st' ->
       snd st' <= snd st /\ (snd st' = snd st -> i' = i \/ prefers j i i')).

Lemma best_step cand j n st :
  (forall p pr, cand n = Some (p, pr) -> p <> 0) ->
  best cand j n st -> best cand j (S n) (pick cand j n st).
Proof.
  intros Hnz Hb. unfold pick. destruct (cand n) as [[p pr]|] eqn:Ec.
  2: { destruct Hb as [[-> Hno]|(i & Hi & Ei & Hp & Hmax)]; [left|right].
       - split; [done|]. intros i Hi. destruct (decide (i = n)) as [->|]; [done|apply Hno; lia].
       - exists i. split_and!; [lia|done|done|]. intros i' st' Hi' E'.
         destruct (decide (i' = n)) as [->|]; [congruence|]. apply Hmax; [lia|done]. }
  specialize (Hnz p pr eq_refl). right.
  destruct Hb as [[-> Hno]|(i & Hi & Ei & Hp & Hmax)].
  - exists n. cbn [fst snd Z.eqb orb]. split_and!; [lia|done|done|]. intros i' st' Hi' E'.
    destruct (decide (i' = n)) as [->|]; [|rewrite Hno in E' by lia; done].
    rewrite Ec in E'. injection E' as <-. cbn [snd]. split; [lia|by left].
  - rewrite (proj2 (Z.eqb_neq (fst st) 0) Hp). cbn [orb].
    destruct (Z.ltb_spec (snd st) pr) as [Hlt|Hge].
    { exists n. split_and!; [lia|done|done|]. intros i' st' Hi' E'.
      destruct (decide (i' = n)) as [->|].
      - rewrite Ec in E'. injection E' as <-. cbn [snd]. split; [lia|by left].
      - destruct (Hmax i' st') as [? _]; [lia|done|]. cbn [snd]. split; [lia|lia]. }
    destruct (Z.eqb_spec pr (snd st)) as [Heq|Hne].
    2: { exists i. split_and!; [lia|done|done|]. intros i' st' Hi' E'.
         destruct (decide (i' = n)) as [->|]; [|apply Hmax; [lia|done]].
         rewrite Ec in E'. injection E' as <-. cbn [snd]. split; lia. }
    subst pr. destruct j as [j|].
    + destruct (Nat.ltb_spec j n) as [Hjn|Hjn].
      * exists n. split_and!; [lia|by rewrite Ec|done|]. intros i' st' Hi' E'. cbn [snd].
        destruct (decide (i' = n)) as [->|].
        -- rewrite Ec in E'. injection E' as <-. cbn [snd]. split; [lia|by left].
        -- destruct (Hmax i' st') as [? _]; [lia|done|]. split; [lia|]. right. left. lia.
      * exists i. split_and!; [lia|done|done|]. intros i' st' Hi' E'.
        destruct (decide (i' = n)) as [->|]; [|apply Hmax; [lia|done]].
        rewrite Ec in E'. injection E' as <-. cbn [snd]. split; [lia|]. right. right. lia.
    + exists i. split_and!; [lia|done|done|]. intros i' st' Hi' E'.
      destruct (decide (i' = n)) as [->|]; [|apply Hmax; [lia|done]].
      rewrite Ec in E'. injection E' as <-. cbn [snd]. split; [lia|]. right. simpl. lia.
Qed.

Lemma chosen_best k : best (candidate k) (cur_index k) 16 (chosen_pair k).
Proof.
  unfold chosen_pair, table_indices. generalize 16%nat as n. intros n. induction n as [|n IH].
  - left. split; [done|lia].
  - rewrite seq_S, foldl_app. simpl. apply best_step; [|done].
    intros p pr. unfold candidate, slot. destruct (Z.eqb_spec (process_table k !!! n) 0) as [|Hne]; [done|].
    destruct (procs k !! _) as [v|]; [|done]. destruct (state v =? _); [|done]. by intros [= <- _].
Qed.

(** ** process_schedule *)

(** Slot [i] holds a process of priority [pr] that can run: it is ready, or it is
    the one running now. *)
Definition runnable k (i : nat) (pr : Z) : Prop :=
  exists v, slot k i = Some v /\ priority v = pr /\
    (state v = PROCESS_STATE_READY \/
     (state v = PROCESS_STATE_RUNNING /\ process_table k !!! i = current_process k)).

(** The kernel after "if (current->state == RUNNING) current->state = READY". *)
Definition preempted k (vc : process_t) : kernel H P :=
  if state vc =? PROCESS_STATE_RUNNING
  then set_procs (<[current_process k := set_state PROCESS_STATE_READY vc]> (procs k)) k else k.

Lemma preempted_table k vc : process_table (preempted k vc) = process_table k /\
  current_process (preempted k vc) = current_process k /\ idle_process (preempted k vc) = idle_process k.
Proof. unfold preempted. by destruct (state vc =? _). Qed.

Lemma preempted_count k vc : process_count_val (preempted k vc) = process_count_val k.
Proof. unfold preempted. by destruct (state vc =? _). Qed.

Lemma preempted_ticks k vc : k_ticks (preempted k vc) = k_ticks k.
Proof. unfold preempted. by destruct (state vc =? _). Qed.

Lemma preempted_candidate k vc i st :
  procs k !! current_process k = Some vc -> current_process k <> 0 ->
  candidate (preempted k vc) i = Some st <-> fst st = process_table k !!! i /\ runnable k i (snd st).
Proof.
  intros Ec Hc. destruct st as [p pr]. cbn [fst snd]. unfold candidate, runnable, slot.
  destruct (preempted_table k vc) as (-> & _ & _).
  destruct (Z.eqb_spec (process_table k !!! i) 0) as [E0|E0].
  { split; [done|]. by intros (_ & v & ? & _). }
  unfold preempted. destruct (Z.eqb_spec (state vc) PROCESS_STATE_RUNNING) as [Hrun|Hrun]; cbn [procs set_procs].
  - destruct (decide (process_table k !!! i = current_process k)) as [Ei|Ei].
    + rewrite Ei, lookup_insert_eq, Ec. cbn. split.
      * intros [= <- <-]. split; [done|]. exists vc. split_and!; [done|done|by right].
      * intros (-> & v & [= <-] & <- & _). done.
    + rewrite lookup_insert_ne by done. destruct (procs k !! (process_table k !!! i)) as [v|].
      * destruct (Z.eqb_spec (state v) PROCESS_STATE_READY) as [Es|Es]; split.
        -- intros [= <- <-]. split; [done|]. exists v. auto.
        -- by intros (-> & v' & [= <-] & <- & _).
        -- done.
        -- by intros (_ & v' & [= <-] & _ & [?|[_ ?]]).
      * split; [done|]. by intros (_ & v & ? & _).
  - destruct (procs k !! (process_table k !!! i)) as [v|] eqn:Ev.
    + destruct (Z.eqb_spec (state v) PROCESS_STATE_READY) as [Es|Es]; split.
      * intros [= <- <-]. split; [done|]. exists v. auto.
      * by intros (-> & v' & [= <-] & <- & _).
      * done.
      * intros (_ & v' & [= <-] & _ & [?|[Hr Hcur]]); [done|]. rewrite Hcur, Ec in Ev. congruence.
    + split; [done|]. by intros (_ & v & ? & _).
Qed.

Lemma preempted_ok k vc :
  table_ok k -> procs k !! current_process k = Some vc -> table_ok (preempted k vc).
Proof.
  intros [Hl Hv] Ec. unfold preempted. destruct (state vc =? _); [|done].
  split; cbn [process_table procs set_procs]; [done|]. intros i p Hi Hp.
  destruct (decide (p = current_process k)) as [->|]; [by rewrite lookup_insert_eq|].
  rewrite lookup_insert_ne by done. by apply (Hv i).
Qed.

(** Past the search: the process [p] is made current and runs. *)
Lemma exec_process_schedule k vc `{!MemoryLaws P} :
  table_ok k -> process_count_val k <> 0 -> current_process k <> 0 ->
  procs k !! current_process k = Some vc ->
  forall p v, (if fst (chosen_pair (preempted k vc)) =? 0 then idle_process k
               else fst (chosen_pair (preempted k vc))) = p ->
  procs (preempted k vc) !! p = Some v ->
  exists k', exec process_schedule k =
      (if p =? current_process k then Val tt else Stopped Switched, k') /\
    current_process k' = p /\ procs k' = <[p := set_state PROCESS_STATE_RUNNING v]> (procs (preempted k vc)) /\
    process_table k' = process_table k /\ process_count_val k' = process_count_val k /\
    (p <> current_process k -> tss_esp0 k' = kernel_stack v) /\
    idle_process k' = idle_process k /\ k_ticks k' = k_ticks k.
Proof.
  intros Ht Hn Hc Ec p v Hp Ev. pose proof (preempted_ok k vc Ht Ec) as Ht1.
  destruct (preempted_table k vc) as (Etab & Ecur & Eidle).
  unfold process_schedule. run. rewrite (proj2 (Z.eqb_neq _ 0) Hn), (proj2 (Z.eqb_neq _ 0) Hc).
  rewrite (exec_load_pcb k _ vc Ec). cbv iota.
  assert (forall m, m = exec (update_pcb (current_process k) (set_state PROCESS_STATE_READY)) k ->
    (if state vc =? PROCESS_STATE_RUNNING then m else (Val tt, k)) = (Val tt, preempted k vc)) as Hpre.
  { intros m ->. unfold preempted. destruct (state vc =? _); [|done]. by apply exec_update_pcb. }
  rewrite exec_if, exec_ret, (Hpre _ eq_refl). cbv iota. run. rewrite (exec_pick _ Ht1). cbv iota. run.
  destruct (chosen_pair (preempted k vc)) as [cp cpr]. cbn [fst] in Hp.
  rewrite Eidle, Hp. destruct (Z.eqb_spec p (current_process k)) as [Epc|Epc]; cbn [negb].
  - rewrite (exec_update_pcb _ _ v) by done. eexists. split; [done|]. cbn.
    split_and!; [by rewrite Ecur|done|done|apply preempted_count|intros; congruence|done|apply preempted_ticks].
  - run. rewrite (exec_update_pcb _ _ v) by done. run.
    erewrite exec_load_pcb by (cbn; apply lookup_insert_eq). run. cbn [page_directory set_state].
    destruct (page_directory v =? 0); run.
    + eexists. split; [done|]. split_and!; [done|done|done|apply preempted_count|done|done|apply preempted_ticks].
    + unfold on_mm. run. destruct (switch_law (page_directory v)
        (k_mm (set_procs (<[p := set_state PROCESS_STATE_RUNNING v]> (procs (preempted k vc))) (set_current p (preempted k vc)))))
        as (m' & Em). cbn [k_mm set_procs set_current] in *. rewrite Em.
      eexists. split; [done|]. split_and!; [done|done|done|apply preempted_count|done|done|apply preempted_ticks].
Qed.

(** The choice among the runnable processes, in terms of the table. *)
Lemma schedule_choice k vc j `{!MemoryLaws P} :
  table_ok k -> process_count_val k <> 0 -> current_process k <> 0 ->
  procs k !! current_process k = Some vc ->
  current_index (process_table k) (current_process k) = Some j ->
  (exists i pr, (i < 16)%nat /\ runnable k i pr) ->
  exists i pr k' v, (i < 16)%nat /\ runnable k i pr /\
    exec process_schedule k =
      (if process_table k !!! i =? current_process k then Val tt else Stopped Switched, k') /\
    current_process k' = process_table k !!! i /\ process_table k' = process_table k /\
    procs k' !! current_process k' = Some v /\ state v = PROCESS_STATE_RUNNING /\
    (process_table k !!! i <> current_process k -> tss_esp0 k' = kernel_stack v) /\
    (forall i' pr', (i' < 16)%nat -> runnable k i' pr' ->
       pr' <= pr /\ (pr' = pr -> i' = i \/ prefers (Some j) i i')) /\
    process_count_val k' = process_count_val k /\
    (forall p w, p <> current_process k' -> procs (preempted k vc) !! p = Some w -> procs k' !! p = Some w).
Proof.
  intros Ht Hn Hc Ec Hj Hex. pose proof (chosen_best (preempted k vc)) as Hb.
  destruct (preempted_table k vc) as (Etab & Ecur & Eidle).
  assert (cur_index (preempted k vc) = Some j) as Ej.
  { unfold cur_index. by rewrite Ecur, Etab, (proj2 (Z.eqb_neq _ 0) Hc). }
  rewrite Ej in Hb. destruct Hb as [[_ Hno]|(i & Hi & Ei & Hp & Hmax)].
  { destruct Hex as (i & pr & Hi & Hr). specialize (Hno i Hi).
    rewrite (proj2 (preempted_candidate k vc i (process_table k !!! i, pr) Ec Hc)) in Hno; done. }
  pose proof (proj1 (preempted_candidate k vc i _ Ec Hc) Ei) as [Ep Hrun].
  assert (exists v, procs (preempted k vc) !! fst (chosen_pair (preempted k vc)) = Some v) as [v Ev].
  { unfold candidate, slot in Ei. rewrite Etab, <- Ep in Ei. rewrite (proj2 (Z.eqb_neq _ 0) Hp) in Ei.
    destruct (procs (preempted k vc) !! _) as [v|]; [by exists v|done]. }
  destruct (exec_process_schedule k vc Ht Hn Hc Ec _ v eq_refl) as (k' & E & Hcur & Hprocs & Htab & Hcount & Htss & _ & _).
  { by rewrite (proj2 (Z.eqb_neq _ 0) Hp). }
  rewrite (proj2 (Z.eqb_neq _ 0) Hp), Ep in *.
  exists i, (snd (chosen_pair (preempted k vc))), k', (set_state PROCESS_STATE_RUNNING v).
  split_and!; [done|done|done|done|done| |done|done| |done|].
  - by rewrite Hprocs, Hcur, lookup_insert_eq.
  - intros i' pr' Hi' Hr'.
    destruct (Hmax i' (process_table k !!! i', pr') Hi') as [Hle Heq]; [by apply preempted_candidate|].
    cbn [snd] in *. split; [done|]. intros Epr. apply Heq. by rewrite Epr.
  - intros p w Hpk Hw. rewrite Hprocs, Hcur in *. by rewrite lookup_insert_ne by congruence.
Qed.

(** ** The theorems *)

(** C4: [process_schedule] leaves a runnable process of the highest priority
    running; it returns when that is the process running already and switches
    otherwise, with the kernel stack of the new process in the TSS; the table is
    not changed.  Among the runnable processes of that priority it takes the last
    one of the table when there is one after the current process, and
    the first one otherwise. *)
Theorem schedule_picks_highest k vc j `{!MemoryLaws P} :
  table_ok k -> process_count_val k <> 0 -> current_process k <> 0 ->
  procs k !! current_process k = Some vc ->
  current_index (process_table k) (current_process k) = Some j ->
  (exists i pr, (i < 16)%nat /\ runnable k i pr) ->
  exists i pr k' v, (i < 16)%nat /\ runnable k i pr /\
    exec process_schedule k =
      (if process_table k !!! i =? current_process k then Val tt else Stopped Switched, k') /\
    current_process k' = process_table k !!! i /\ process_table k' = process_table k /\
    procs k' !! current_process k' = Some v /\ state v = PROCESS_STATE_RUNNING /\
    (process_table k !!! i <> current_process k -> tss_esp0 k' = kernel_stack v) /\
    (forall i' pr', (i' < 16)%nat -> runnable k i' pr' ->
       pr' <= pr /\ (pr' = pr -> i' = i \/ (j < i /\ i' < i)%nat \/ (i <= j /\ i < i' <= j)%nat)).
Proof.
  intros Ht Hn Hc Ec Hj Hex.
  destruct (schedule_choice k vc j Ht Hn Hc Ec Hj Hex)
    as (i & pr & k' & v & H1' & H2' & H3' & H4' & H5' & H6' & H7' & H8' & H9' & _).
  by exists i, pr, k', v.
Qed.

(** The tie-break is not a round robin.  While three processes of one
    priority can run in the slots [a < b < c], [process_schedule] never picks the
    middle one, whatever process is current: it starves. *)
Theorem schedule_starves_middle k vc j a b d pr `{!MemoryLaws P} :
  table_ok k -> process_count_val k <> 0 -> current_process k <> 0 ->
  procs k !! current_process k = Some vc ->
  current_index (process_table k) (current_process k) = Some j ->
  (forall i i', (i < 16)%nat -> (i' < 16)%nat ->
     process_table k !!! i = process_table k !!! i' -> process_table k !!! i <> 0 -> i = i') ->
  (a < b < d)%nat -> (d < 16)%nat ->
  runnable k a pr -> runnable k b pr -> runnable k d pr ->
  current_process (snd (exec process_schedule k)) <> process_table k !!! b.
Proof.
  intros Ht Hn Hc Ec Hj Hnd Hab Hd Ra Rb Rd.
  destruct (schedule_choice k vc j Ht Hn Hc Ec Hj) as (i & pr' & k' & v & Hi & Hri & E & Hcur & _ & _ & _ & _ & Hmax & _).
  { exists b, pr. split; [lia|done]. }
  rewrite E. cbn [snd]. rewrite Hcur. intros Heq.
  assert (i = b) as ->.
  { apply Hnd; [lia|lia|done|]. destruct Hri as (w & Ew & _). unfold slot in Ew.
    by destruct (Z.eqb_spec (process_table k !!! i) 0). }
  assert (pr' = pr) as ->.
  { destruct Hri as (v1 & E1 & <- & _), Rb as (v2 & E2 & <- & _). congruence. }
  destruct (Hmax a pr ltac:(lia) Ra) as [_ Ha]. destruct (Hmax d pr ltac:(lia) Rd) as [_ Hdd].
  destruct (Ha eq_refl) as [?|[?|?]], (Hdd eq_refl) as [?|[?|?]]; lia.
Qed.

Lemma preempted_other k vc : state vc <> PROCESS_STATE_RUNNING -> preempted k vc = k.
Proof. intros Hs. unfold preempted. by rewrite (proj2 (Z.eqb_neq _ _) Hs). Qed.

(** A search stops at the first slot its test accepts. *)
Lemma for_find_at {B} (f : nat -> M (kernel H P) (option B)) k i :
  (i < 16)%nat -> (forall i', (i' < i)%nat -> exec (f i') k = (Val None, k)) ->
  (forall w k', exec (f i) k = (Stopped w, k') -> exec (for_find table_indices f) k = (Stopped w, k')) /\
  (forall b k', exec (f i) k = (Val (Some b), k') -> exec (for_find table_indices f) k = (Val (Some b), k')).
Proof.
  intros Hi Hpre.
  assert (table_indices = seq 0 i ++ i :: seq (S i) (15 - i)) as ->.
  { unfold table_indices. replace 16%nat with (i + S (15 - i))%nat by lia. by rewrite seq_app. }
  rewrite exec_for_find_app.
  rewrite (exec_for_find_pure f (fun _ => None)) by (intros x [_ Hx]%elem_of_seq; apply Hpre; lia).
  rewrite (proj2 (first_some_None _ _)) by done.
  split; intros ? k' E; cbn [for_find]; unfold for_find; by rewrite exec_bind, E.
Qed.

(** a process that terminates itself ([process_exit], or [process_kill] of
    the current process) is marked terminated and switched away from before
    anything is freed: its control block stays in the process table, and the
    number of processes does not go down. *)
Theorem kill_current_keeps_slot k vc i `{!MemoryLaws P} :
  table_ok k -> process_count_val k <> 0 -> current_process k <> 0 ->
  procs k !! current_process k = Some vc -> pid vc <> 0 ->
  (i < 16)%nat -> process_table k !!! i = current_process k ->
  (forall i' v, (i' < i)%nat -> slot k i' = Some v -> pid v <> pid vc) ->
  (exists i' pr, (i' < 16)%nat /\ runnable k i' pr /\ process_table k !!! i' <> current_process k) ->
  exists k' w, exec (process_kill (pid vc)) k = (Stopped Switched, k') /\
    process_table k' = process_table k /\ process_count_val k' = process_count_val k /\
    procs k' !! current_process k = Some w /\ state w = PROCESS_STATE_TERMINATED.
Proof.
  intros Ht Hn Hc Ec Hpid Hi Eti Hfirst (i2 & pr2 & Hi2 & Hr2 & Hne2).
  set (v1 := set_state PROCESS_STATE_TERMINATED vc).
  set (k1 := set_procs (<[current_process k := v1]> (procs k)) k).
  assert (table_ok k1) as Ht1.
  { destruct Ht as [Hl Hv]. split; [done|]. intros i' p Hp Hp0. cbn.
    destruct (decide (p = current_process k)) as [->|]; [by rewrite lookup_insert_eq|].
    rewrite lookup_insert_ne by done. by apply (Hv i'). }
  assert (procs k1 !! current_process k1 = Some v1) as Ec1 by apply lookup_insert_eq.
  assert (exists j, current_index (process_table k1) (current_process k1) = Some j) as [j Hj].
  { unfold current_index. destruct (list_find _ _) as [[j x]|] eqn:E; [by exists j|]. exfalso.
    apply list_find_None, (proj1 (Forall_lookup _ _)) with (i := i) (x := current_process k) in E; [done|].
    cbn. rewrite <- Eti. apply list_lookup_lookup_total_lt. rewrite (tb_length k Ht). lia. }
  assert (runnable k1 i2 pr2) as Hr1.
  { destruct Hr2 as (v2 & Es & Epr & Hst). exists v2. unfold slot in *. cbn.
    destruct (process_table k !!! i2 =? 0); [done|]. rewrite lookup_insert_ne by done. auto. }
  destruct (schedule_choice k1 v1 j Ht1 Hn Hc Ec1 Hj) as
    (i3 & pr3 & k' & w & Hi3 & Hr3 & E & Hcur & Htab & _ & _ & _ & _ & Hcount & Hkeep); [by exists i2, pr2|].
  assert (process_table k1 !!! i3 <> current_process k1) as Hne3.
  { intros Heq. destruct Hr3 as (v3 & Es3 & _ & Hst3). unfold slot in Es3. rewrite Heq in Es3.
    destruct (current_process k1 =? 0); [done|]. rewrite Ec1 in Es3. injection Es3 as <-.
    destruct Hst3 as [Hst3|[Hst3 _]]; discriminate. }
  rewrite (proj2 (Z.eqb_neq _ _) Hne3) in E.
  exists k', v1. unfold process_kill. rewrite (proj2 (Z.eqb_neq _ 0) Hpid).
  split; [|split_and!; [done|done| |done]].
  - rewrite exec_bind. set (f := fun i0 : nat => _).
    destruct (for_find_at f k i Hi) as [Hstop _].
    { intros i' Hi'. unfold f. rewrite exec_bind, exec_slot_has_pid by (done || lia).
      destruct (slot k i') as [v'|] eqn:Es; [|done].
      by rewrite (proj2 (Z.eqb_neq _ _) (Hfirst i' v' Hi' Es)). }
    rewrite (Hstop Switched k'); [done|]. unfold f. rewrite exec_bind, exec_slot_has_pid by (done || lia).
    unfold slot. rewrite Eti, (proj2 (Z.eqb_neq _ 0) Hc), Ec, Z.eqb_refl. cbn [negb].
    rewrite exec_bind, exec_get, Eti, Z.eqb_refl, exec_bind, exec_bind.
    rewrite (exec_update_pcb k _ vc) by done. fold v1 k1. by rewrite E.
  - apply Hkeep; [rewrite Hcur; intros Heq; by apply Hne3|].
    by rewrite preempted_other.
Qed.

End sched.

(** ** The theorems at work *)

#[export] Instance no_heap : KmallocOps unit := {| kmalloc _ := ret 0; kfree _ := ret tt |}.
#[export] Instance no_memory : MemoryOps unit := {|
  paging_get_directory := ret 0; paging_create_user_directory := ret 0;
  paging_free_directory _ := ret tt; paging_switch_directory _ := ret tt;
  paging_map_user_code _ _ _ _ := ret tt; pmm_alloc_page := ret 0; copy_page _ _ _ := ret tt
|}.
#[export] Instance no_memory_laws : MemoryLaws unit.
Proof. split. intros dir m. by exists m. Qed.

Definition demo_pcb (id addr prio q : Z) : process_t :=
  mk_process id (replicate 32 0) (if id =? 1 then PROCESS_STATE_RUNNING else PROCESS_STATE_READY)
    (entry_cpu 0 0 []) addr 4096 0 (addr + 4096) 0 prio 10 0 0 q 4096 0.

(** The idle process and three processes of priority 5, the first one running. *)
Definition demo : kernel unit unit :=
  mk_kernel tt tt
    {[ 100 := demo_pcb 0 100 0 0; 200 := demo_pcb 1 200 5 900;
       300 := demo_pcb 2 300 5 0; 400 := demo_pcb 3 400 5 0 ]}
    ∅ ∅ ([100; 200; 300; 400] ++ replicate 12 0) 4 4 200 100 0 0.

Lemma demo_ok : table_ok demo.
Proof.
  split; [done|]. intros i p Hi Hp. do 4 (destruct i as [|i]; [injection Hi as <-; by eexists|]).
  exfalso. apply Hp. change (replicate 12 0 !! i = Some p) in Hi. by apply lookup_replicate in Hi as [-> _].
Qed.

Lemma demo_runnable i v :
  slot demo i = Some v -> (state v = PROCESS_STATE_READY \/
    (state v = PROCESS_STATE_RUNNING /\ process_table demo !!! i = current_process demo)) ->
  runnable demo i (priority v).
Proof. intros E Hs. by exists v. Qed.

Lemma schedule_picks_highest_witness : exists i k',
  exec process_schedule demo =
    (if process_table demo !!! i =? current_process demo then Val tt else Stopped Switched, k') /\
  current_process k' = process_table demo !!! i.
Proof.
  destruct (schedule_picks_highest demo (demo_pcb 1 200 5 900) 1 demo_ok)
    as (i & pr & k' & v & _ & _ & E & Hc & _).
  1-4: done.
  - exists 2%nat, 5. split; [lia|]. apply (demo_runnable 2 (demo_pcb 2 300 5 0)); [done|by left].
  - exists i, k'. split; [exact E|exact Hc].
Defined.

Lemma schedule_starves_middle_witness : current_process (snd (exec process_schedule demo)) <> 300.
Proof.
  apply (schedule_starves_middle demo (demo_pcb 1 200 5 900) 1 1 2 3 5 demo_ok).
  1-4: done.
  - intros i i' Hi Hi' E Hne.
    do 4 (destruct i as [|i]; [do 4 (destruct i' as [|i']; [done || by cbn in E|]);
      do 12 (destruct i' as [|i']; [by cbn in E|]); lia|]).
    do 12 (destruct i as [|i]; [by cbn in Hne|]). lia.
  - lia.
  - lia.
  - apply (demo_runnable 1 (demo_pcb 1 200 5 900)); [done|by right].
  - apply (demo_runnable 2 (demo_pcb 2 300 5 0)); [done|by left].
  - apply (demo_runnable 3 (demo_pcb 3 400 5 0)); [done|by left].
Defined.

Lemma kill_current_keeps_slot_witness : exists k' w,
  exec (process_kill 1) demo = (Stopped Switched, k') /\
  process_table k' = process_table demo /\ process_count_val k' = 4 /\
  procs k' !! 200 = Some w /\ state w = PROCESS_STATE_TERMINATED.
Proof.
  apply (kill_current_keeps_slot demo (demo_pcb 1 200 5 900) 1 demo_ok).
  1-4: done.
  - lia.
  - done.
  - intros i' v Hi' E. destruct i' as [|i']; [|lia]. injection E as <-. done.
  - exists 2%nat, 5. split_and!; [lia| |done].
    apply (demo_runnable 2 (demo_pcb 2 300 5 0)); [done|by left].
Defined.
