(* ===== verification/Ipc.v ===== *)
(** * Message passing: a bounded first-in first-out queue

    The ring buffer of eight messages that [process_send_message] and
    [process_receive_message] work on represents the list of the messages sent
    and not yet received. *)

From S2P Require Import Prelude CString Alloc Process Sched.

(** ** The ring buffer *)

Record queue_ok (q : message_queue_t) : Prop := {
  qo_slots : length (q_messages q) = 8%nat;
  qo_data : Forall (fun m => length (m_data m) = 256%nat /\ 0 <= m_length m <= 256) (q_messages q);
  qo_head : 0 <= q_head q < 8;
  qo_count : 0 <= q_count q <= 8;
  qo_tail : q_tail q = (q_head q + q_count q) mod 8
}.

(** A message as the receiver sees it: the sender and the bytes. *)
Definition view (m : ipc_message_t) : Z * list Z := (m_sender m, take (Z.to_nat (m_length m)) (m_data m)).

Definition nth_msg (q : message_queue_t) (i : Z) : ipc_message_t :=
  default (mk_msg 0 [] 0) (q_messages q !! Z.to_nat ((q_head q + i) mod 8)).

(** The queue, oldest message first. *)
Definition contents (q : message_queue_t) : list (Z * list Z) :=
  (fun i => view (nth_msg q i)) <$> seqZ 0 (q_count q).

Lemma length_contents q : queue_ok q -> length (contents q) = Z.to_nat (q_count q).
Proof. intros _. unfold contents. by rewrite length_fmap, length_seqZ. Qed.

Lemma memcpy_eq len dest src :
  0 <= len <= Z.of_nat (length dest) -> len <= Z.of_nat (length src) ->
  memcpy dest src len = Some (take (Z.to_nat len) src ++ drop (Z.to_nat len) dest).
Proof.
  intros Hd Hs. unfold memcpy. assert (Z.to_nat len <= length dest)%nat as Hd' by lia.
  assert (Z.to_nat len <= length src)%nat as Hs' by lia. clear Hd Hs. revert dest src Hd' Hs'.
  induction (Z.to_nat len) as [|n IH]; intros dest src Hd Hs; [done|].
  destruct dest as [|d dest], src as [|x src]; simpl in *; try lia. by rewrite IH by lia.
Qed.

(** What a send stores. *)
Definition enqueue (q : message_queue_t) (m : ipc_message_t) : message_queue_t :=
  mk_queue (<[Z.to_nat (q_tail q) := m]> (q_messages q)) (q_head q)
    (u32 (q_tail q + 1) mod 8) (u32 (q_count q + 1)).

Definition dequeue (q : message_queue_t) : message_queue_t :=
  mk_queue (q_messages q) (u32 (q_head q + 1) mod 8) (q_tail q) (u32 (q_count q - 1)).

Lemma enqueue_ok q m :
  queue_ok q -> q_count q < 8 -> length (m_data m) = 256%nat -> 0 <= m_length m <= 256 ->
  queue_ok (enqueue q m) /\ contents (enqueue q m) = contents q ++ [view m].
Proof.
  intros [Hs Hd Hh Hc Ht] Hlt Hm Hml.
  assert (0 <= q_tail q < 8) as Htl by (rewrite Ht; apply Z.mod_pos_bound; lia).
  assert (u32 (q_count q + 1) = q_count q + 1) as Ec by (apply u32_small; unfold is_u32; lia).
  assert (u32 (q_tail q + 1) = q_tail q + 1) as Et by (apply u32_small; unfold is_u32; lia).
  unfold enqueue. rewrite Ec, Et. split.
  - split; cbn [q_messages q_head q_tail q_count].
    + by rewrite length_insert.
    + by apply Forall_insert.
    + done.
    + lia.
    + rewrite Ht. dlia.
  - unfold contents. cbn [q_count]. rewrite seqZ_app by lia. rewrite fmap_app. f_equal.
    + apply list_fmap_ext. intros i x Hx. apply lookup_seqZ in Hx as [-> Hi]. f_equal.
      unfold nth_msg. cbn [q_messages q_head]. rewrite list_lookup_insert_ne; [done|].
      rewrite Ht. intros Heq.
      pose proof (Z.mod_pos_bound (q_head q + q_count q) 8 ltac:(lia)).
      pose proof (Z.mod_pos_bound (q_head q + (0 + Z.of_nat i)) 8 ltac:(lia)).
      assert ((q_head q + q_count q) mod 8 = (q_head q + (0 + Z.of_nat i)) mod 8) by lia. dlia.
    + unfold seqZ. cbn [Z.to_nat]. simpl. unfold nth_msg. cbn [q_messages q_head].
      replace (q_head q + (Z.of_nat 0 + (0 + q_count q))) with (q_head q + q_count q) by lia.
      rewrite <- Ht, list_lookup_insert_eq by lia. done.
Qed.

Lemma dequeue_ok q :
  queue_ok q -> 0 < q_count q ->
  queue_ok (dequeue q) /\ contents q = view (nth_msg q 0) :: contents (dequeue q).
Proof.
  intros [Hs Hd Hh Hc Ht] Hpos.
  assert (u32 (q_count q - 1) = q_count q - 1) as Ec by (apply u32_small; unfold is_u32; lia).
  assert (u32 (q_head q + 1) = q_head q + 1) as Eh by (apply u32_small; unfold is_u32; lia).
  unfold dequeue. rewrite Ec, Eh. split.
  - split; cbn [q_messages q_head q_tail q_count]; [done|done| |lia|].
    + apply Z.mod_pos_bound. lia.
    + rewrite Ht. dlia.
  - unfold contents. cbn [q_count]. rewrite seqZ_cons by lia. cbn [fmap list_fmap]. f_equal.
    replace (Z.pred (q_count q)) with (q_count q - 1) by lia.
    apply list_eq. intros i. rewrite !list_lookup_fmap.
    destruct (decide (Z.of_nat i < q_count q - 1)) as [Hi|Hi].
    + rewrite !lookup_seqZ_lt by lia. cbn [fmap option_fmap option_map]. do 2 f_equal.
      unfold nth_msg. cbn [q_messages q_head]. do 3 f_equal. dlia.
    + rewrite !lookup_seqZ_ge by lia. done.
Qed.

Lemma nth_msg_slot q i : queue_ok q -> q_messages q !! Z.to_nat ((q_head q + i) mod 8) = Some (nth_msg q i) /\
  length (m_data (nth_msg q i)) = 256%nat /\ 0 <= m_length (nth_msg q i) <= 256.
Proof.
  intros [Hs Hd Hh Hc Ht]. pose proof (Z.mod_pos_bound (q_head q + i) 8 ltac:(lia)).
  destruct (lookup_lt_is_Some_2 (q_messages q) (Z.to_nat ((q_head q + i) mod 8)) ltac:(lia)) as [m E].
  unfold nth_msg. rewrite E. cbn. split; [done|]. exact (proj1 (Forall_lookup _ _) Hd _ _ E).
Qed.

Section ipc.
Context {H P : Type} `{KmallocOps H} `{MemoryOps P}.
Implicit Types k : kernel H P.

Lemma exec_load_queue k a q : queues k !! a = Some q -> exec (load_queue a) k = (Val q, k).
Proof. intros E. unfold load_queue. run. by rewrite E. Qed.

Lemma exec_store_queue k a q w :
  queues k !! a = Some q -> exec (store_queue a w) k = (Val tt, set_queues (<[a := w]> (queues k)) k).
Proof. intros E. unfold store_queue. run. rewrite (exec_load_queue k a q E). by run. Qed.

(** The pid a message is sent from. *)
Definition sender_pid k : Z :=
  if current_process k =? 0 then 0 else default 0 (pid <$> procs k !! current_process k).

(** The process [v] at [p] after a message arrived. *)
Definition woken (v : process_t) : process_t :=
  if (state v =? PROCESS_STATE_BLOCKED) && (wake_time v =? 0) then set_state PROCESS_STATE_READY v else v.

Lemma exec_send k target p v q msg len :
  table_ok k -> lookup_pid k target = p -> p <> 0 -> procs k !! p = Some v ->
  msg_queue v <> 0 -> queues k !! msg_queue v = Some q -> queue_ok q -> q_count q < 8 ->
  (current_process k = 0 \/ is_Some (procs k !! current_process k)) ->
  0 < len <= 256 -> len <= Z.of_nat (length msg) ->
  exists k' q', exec (process_send_message target (Some msg) len) k = (Val 0, k') /\
    queues k' = <[msg_queue v := q']> (queues k) /\ queue_ok q' /\
    contents q' = contents q ++ [(sender_pid k, take (Z.to_nat len) msg)] /\
    procs k' !! p = Some (woken v) /\ (forall p', p' <> p -> procs k' !! p' = procs k !! p') /\
    process_table k' = process_table k /\ k' = set_procs (procs k') (set_queues (queues k') k).
Proof.
  intros Ht Hp Hp0 Ev Hq Eq Hok Hlt Hcur Hlen Hmsg.
  pose proof (nth_msg_slot q (q_count q) Hok) as (Eold & Hold & _). rewrite <- (qo_tail q Hok) in Eold.
  unfold process_send_message, MAX_MESSAGE_SIZE, MESSAGE_QUEUE_SIZE.
  rewrite (proj2 (Z.eqb_neq len 0)), (proj2 (Z.ltb_ge 256 len)) by lia. cbn [orb].
  rewrite exec_bind, exec_process_get, Hp by done. cbv iota. rewrite (proj2 (Z.eqb_neq p 0) Hp0).
  rewrite exec_bind, (exec_load_pcb k p v Ev). cbv iota. rewrite (proj2 (Z.eqb_neq _ 0) Hq).
  rewrite exec_bind, (exec_load_queue k _ q Eq). cbv iota. rewrite (proj2 (Z.leb_gt 8 _)) by lia.
  rewrite exec_bind, exec_get, exec_bind. cbv beta iota.
  assert (exec (if current_process k =? 0 then ret 0
    else let! cv := load_pcb (current_process k) in ret (pid cv)) k = (Val (sender_pid k), k)) as ->.
  { unfold sender_pid. destruct (Z.eqb_spec (current_process k) 0) as [|Hne]; [done|].
    destruct Hcur as [?|[cv Ecv]]; [done|]. rewrite exec_bind, (exec_load_pcb k _ cv Ecv), Ecv. done. }
  cbv iota zeta. rewrite exec_bind, Eold, exec_defined_Some, exec_bind. cbv iota.
  rewrite memcpy_eq by lia.
  rewrite exec_defined_Some, exec_bind, (exec_store_queue k _ q _ Eq). cbv iota.
  set (data := take (Z.to_nat len) msg ++ drop (Z.to_nat len) (m_data (nth_msg q (q_count q)))).
  assert (length data = 256%nat) as Hdl.
  { unfold data. rewrite length_app, length_take, length_drop, Hold. lia. }
  destruct (enqueue_ok q (mk_msg (sender_pid k) data len) Hok Hlt Hdl ltac:(cbn; lia)) as [Hok' Hcont].
  fold (enqueue q (mk_msg (sender_pid k) data len)).
  assert (view (mk_msg (sender_pid k) data len) = (sender_pid k, take (Z.to_nat len) msg)) as Hview.
  { unfold view, data. cbn. f_equal. rewrite take_app_length' by (rewrite length_take; lia). done. }
  rewrite Hview in Hcont. rewrite exec_bind. unfold woken.
  destruct ((state v =? PROCESS_STATE_BLOCKED) && (wake_time v =? 0)).
  - rewrite (exec_update_pcb _ p v) by done. cbv iota. rewrite exec_ret. eexists _, _. split; [done|].
    split_and!; [done|done|done|by apply lookup_insert_eq| |done|done].
    intros p' Hne. by apply lookup_insert_ne.
  - rewrite exec_ret. cbv iota. rewrite exec_ret. eexists _, _. split; [done|]. split_and!; done.
Qed.

(** C25: a successful send appends one message - the sender's pid and the bytes -
    to the end of the target's queue, leaves every other queue and process
    alone, and makes a target that is blocked with [wake_time] 0 ready; a target
    that sleeps, blocked with a time to wake at, stays as it is. *)
Theorem send_appends k target p v q msg len :
  table_ok k -> lookup_pid k target = p -> p <> 0 -> procs k !! p = Some v ->
  msg_queue v <> 0 -> queues k !! msg_queue v = Some q -> queue_ok q -> q_count q < 8 ->
  (current_process k = 0 \/ is_Some (procs k !! current_process k)) ->
  0 < len <= 256 -> len <= Z.of_nat (length msg) ->
  exists k' q', exec (process_send_message target (Some msg) len) k = (Val 0, k') /\
    queues k' = <[msg_queue v := q']> (queues k) /\ queue_ok q' /\
    contents q' = contents q ++ [(sender_pid k, take (Z.to_nat len) msg)] /\
    procs k' !! p = Some (woken v) /\ (forall p', p' <> p -> procs k' !! p' = procs k !! p') /\
    process_table k' = process_table k.
Proof.
  intros Ht Hp Hp0 Ev Hq Eq Hok Hlt Hcur Hlen Hmsg.
  destruct (exec_send k target p v q msg len Ht Hp Hp0 Ev Hq Eq Hok Hlt Hcur Hlen Hmsg)
    as (k' & q' & E & Hqs & Hok' & Hc & Hv & Ho & Htab & _). by exists k', q'.
Qed.

Lemma exec_receive k v q b max :
  current_process k <> 0 -> procs k !! current_process k = Some v -> msg_queue v <> 0 ->
  queues k !! msg_queue v = Some q -> queue_ok q -> 0 < max <= Z.of_nat (length b) ->
  match contents q with
  | [] => exec (process_receive_message (Some b) max) k = (Val (-3, None), k)
  | (sender, bytes) :: rest =>
      let n := Z.min (Z.of_nat (length bytes)) max in
      exists q', exec (process_receive_message (Some b) max) k =
        (Val (n, Some (sender, take (Z.to_nat n) bytes ++ drop (Z.to_nat n) b)),
         set_queues (<[msg_queue v := q']> (queues k)) k) /\
        queue_ok q' /\ contents q' = rest
  end.
Proof.
  intros Hc Ev Hq Eq Hok Hmax. pose proof (length_contents q Hok) as Hlen. pose proof (qo_count q Hok) as Hcnt.
  unfold process_receive_message. rewrite exec_bind, exec_get. cbv beta iota.
  rewrite (proj2 (Z.eqb_neq _ 0) Hc), exec_bind, (exec_load_pcb k _ v Ev). cbv iota.
  rewrite (proj2 (Z.eqb_neq _ 0) Hq), (proj2 (Z.eqb_neq max 0)) by lia.
  rewrite exec_bind, (exec_load_queue k _ q Eq). cbv iota.
  destruct (Z.eqb_spec (q_count q) 0) as [E0|E0].
  { rewrite E0 in Hlen. by destruct (contents q). }
  destruct (dequeue_ok q Hok ltac:(lia)) as [Hok' ->].
  pose proof (nth_msg_slot q 0 Hok) as (Em & Hd & Hl). set (m := nth_msg q 0) in *.
  rewrite Z.add_0_r, Z.mod_small in Em by apply (qo_head q Hok).
  unfold view. cbv zeta. rewrite exec_bind, Em, exec_defined_Some. cbv iota.
  assert (length (take (Z.to_nat (m_length m)) (m_data m)) = Z.to_nat (m_length m)) as Ebl.
  { rewrite length_take, Hd. lia. }
  rewrite Ebl. replace (Z.of_nat (Z.to_nat (m_length m))) with (m_length m) by lia.
  assert ((if m_length m <? max then m_length m else max) = Z.min (m_length m) max) as ->.
  { destruct (Z.ltb_spec (m_length m) max); lia. }
  set (n := Z.min (m_length m) max). exists (dequeue q). split_and!; [|done|done].
  rewrite exec_bind. rewrite memcpy_eq by lia. rewrite exec_defined_Some, exec_bind. cbv iota.
  rewrite (exec_store_queue k _ q _ Eq). fold (dequeue q). cbv iota. rewrite exec_ret.
  rewrite s32_small by (unfold is_s32; lia). rewrite take_take, Nat.min_l by lia. done.
Qed.

(** C26: messages arrive in the order they were sent.  A receive by the current
    process takes the oldest message off the queue - at most [max_length] bytes
    of it - or returns -3 and changes nothing when the queue is empty. *)
Theorem receive_takes_oldest k v q b max :
  current_process k <> 0 -> procs k !! current_process k = Some v -> msg_queue v <> 0 ->
  queues k !! msg_queue v = Some q -> queue_ok q -> 0 < max <= Z.of_nat (length b) ->
  match contents q with
  | [] => exec (process_receive_message (Some b) max) k = (Val (-3, None), k)
  | (sender, bytes) :: rest =>
      let n := Z.min (Z.of_nat (length bytes)) max in
      exists q', exec (process_receive_message (Some b) max) k =
        (Val (n, Some (sender, take (Z.to_nat n) bytes ++ drop (Z.to_nat n) b)),
         set_queues (<[msg_queue v := q']> (queues k)) k) /\
        queue_ok q' /\ contents q' = rest
  end.
Proof. apply exec_receive. Qed.

End ipc.

(** ** The theorems at work *)

Definition empty_queue : message_queue_t := mk_queue (replicate 8 (mk_msg 0 (replicate 256 0) 0)) 6 6 0.

Lemma empty_queue_ok : queue_ok empty_queue.
Proof.
  split; [done| |cbn; lia|cbn; lia|done].
  apply Forall_replicate. cbn -[replicate]. rewrite length_replicate. lia.
Qed.

(** [demo] of the scheduler with a queue for the process in slot 1. *)
Definition demo_ipc : kernel unit unit := set_queues {[ 900 := empty_queue ]} demo.

Lemma demo_ipc_ok : table_ok demo_ipc.
Proof. destruct demo_ok as [Hl Hv]. by split. Qed.

Lemma send_appends_witness : exists k' q',
  exec (process_send_message 1 (Some [104; 105]) 2) demo_ipc = (Val 0, k') /\
  queues k' !! 900 = Some q' /\ contents q' = [(1, [104; 105])].
Proof.
  destruct (send_appends demo_ipc 1 200 (demo_pcb 1 200 5 900) empty_queue [104; 105] 2 demo_ipc_ok)
    as (k' & q' & E & Eq & _ & Hc & _).
  1-5: first [reflexivity | discriminate].
  1: exact empty_queue_ok.
  1: (cbn; lia).
  1: by right.
  1-2: (cbn; lia).
  exists k', q'. split; [exact E|]. rewrite Eq. split; [done|]. rewrite Hc. done.
Defined.

Lemma receive_takes_oldest_witness :
  exec (process_receive_message (Some (replicate 10 0)) 10) demo_ipc = (Val (-3, None), demo_ipc).
Proof.
  apply (receive_takes_oldest demo_ipc (demo_pcb 1 200 5 900) empty_queue (replicate 10 0) 10).
  1-4: first [reflexivity | discriminate].
  1: exact empty_queue_ok.
  cbn. lia.
Defined.
