(* ===== verification/Screen.v ===== *)
(** * screen.c: the VGA text screen

    The 80 x 25 cells of video memory, the cursor and the current colour.  A
    store outside video memory would be undefined behaviour; the theorems say
    that none happens and that the cursor never leaves the screen. *)

From S2P Require Import Prelude.

Definition SCREEN_WIDTH := 80.
Definition SCREEN_HEIGHT := 25.
Definition VGA_CTRL_REGISTER := 980.       (* 0x3D4 *)
Definition VGA_DATA_REGISTER := 981.       (* 0x3D5 *)
Definition VGA_CURSOR_HIGH := 14.
Definition VGA_CURSOR_LOW := 15.

Record screen : Type := mk_screen {
  cursor_row : Z;
  cursor_col : Z;
  current_color : Z;
  video_memory : list Z
}.

Definition set_cursor_pos (row col : Z) : M screen unit :=
  modify (fun s => mk_screen row col (current_color s) (video_memory s)).
Definition set_color_field (color : Z) : M screen unit :=
  modify (fun s => mk_screen (cursor_row s) (cursor_col s) color (video_memory s)).

(** [video_memory[pos] = v] *)
Definition store_cell (pos v : Z) : M screen unit :=
  let! s := get in
  if (0 <=? pos) && (pos <? Z.of_nat (length (video_memory s))) then
    modify (fun s => mk_screen (cursor_row s) (cursor_col s) (current_color s)
                       (<[Z.to_nat pos := u16 v]> (video_memory s)))
  else stop_with Undefined.

Definition load_cell (pos : Z) : M screen Z :=
  let! s := get in
  if (0 <=? pos) && (pos <? Z.of_nat (length (video_memory s)))
  then ret (video_memory s !!! Z.to_nat pos) else stop_with Undefined.

(** [(color << 8) | c] for a signed [char] [c]. *)
Definition cell (color ch : Z) : Z := Z.lor (Z.shiftl color 8) (s8 ch).

Definition screen_update_cursor : M screen unit :=
  let! s := get in
  let position := u16 (cursor_row s * SCREEN_WIDTH + cursor_col s) in
  outb VGA_CTRL_REGISTER VGA_CURSOR_HIGH ;;
  outb VGA_DATA_REGISTER (Z.land (Z.shiftr position 8) 255) ;;
  outb VGA_CTRL_REGISTER VGA_CURSOR_LOW ;;
  outb VGA_DATA_REGISTER (Z.land position 255).

Definition fill_screen (blank : Z) : M screen unit :=
  for_each (seqZ 0 (SCREEN_WIDTH * SCREEN_HEIGHT)) (fun i => store_cell i blank).

Definition screen_init : M screen unit :=
  set_cursor_pos 0 0 ;;
  set_color_field DEFAULT_COLOR ;;
  fill_screen (cell DEFAULT_COLOR 32) ;;
  set_cursor_pos 0 0 ;;
  screen_update_cursor.

Definition screen_scroll : M screen unit :=
  for_each (seqZ 0 (SCREEN_HEIGHT - 1)) (fun row =>
    for_each (seqZ 0 SCREEN_WIDTH) (fun col =>
      let! v := load_cell ((row + 1) * SCREEN_WIDTH + col) in
      store_cell (row * SCREEN_WIDTH + col) v)) ;;
  let! s := get in
  let blank := cell (current_color s) 32 in
  for_each (seqZ 0 SCREEN_WIDTH) (fun col =>
    store_cell ((SCREEN_HEIGHT - 1) * SCREEN_WIDTH + col) blank) ;;
  set_cursor_pos (SCREEN_HEIGHT - 1) 0.

Definition screen_clear : M screen unit :=
  let! s := get in
  fill_screen (cell (current_color s) 32) ;;
  set_cursor_pos 0 0 ;;
  screen_update_cursor.

(** The branches of [screen_putchar_internal]: what the character itself does. *)
Definition place_char (ch : Z) : M screen unit :=
  let! s := get in
  let row := cursor_row s in
  let col := cursor_col s in
  if ch =? 10 then set_cursor_pos (row + 1) 0
  else if ch =? 13 then set_cursor_pos row 0
  else if ch =? 9 then set_cursor_pos row (Z.land (col + 4) (Z.lnot 3))
  else if ch =? 8 then
    if 0 <? col then
      set_cursor_pos row (col - 1) ;;
      store_cell (row * SCREEN_WIDTH + (col - 1)) (cell (current_color s) 32)
    else if 0 <? row then set_cursor_pos (row - 1) (SCREEN_WIDTH - 1)
    else ret tt
  else
    store_cell (row * SCREEN_WIDTH + col) (cell (current_color s) ch) ;;
    set_cursor_pos row (col + 1).

(** Its end: the line wrap and the scrolling. *)
Definition wrap_and_scroll : M screen unit :=
  (let! s := get in
   if SCREEN_WIDTH <=? cursor_col s then set_cursor_pos (cursor_row s + 1) 0 else ret tt) ;;
  (let! s := get in
   if SCREEN_HEIGHT <=? cursor_row s then screen_scroll else ret tt).

Definition screen_putchar_internal (ch : Z) : M screen unit := place_char ch ;; wrap_and_scroll.

Definition screen_putchar_internal_for_kprintf (ch : Z) : M screen unit := screen_putchar_internal ch.

Definition screen_putchar (ch : Z) : M screen unit :=
  screen_putchar_internal ch ;; screen_update_cursor.

(** The characters of a string, up to its terminator. *)
Definition put_chars (str : list Z) : M screen unit := for_each str screen_putchar_internal.

(** [None] is NULL; [Some l] a string of the characters [l]. *)
Definition screen_write (str : option (list Z)) : M screen unit :=
  match str with
  | None => ret tt
  | Some l => put_chars l ;; screen_update_cursor
  end.

Definition screen_write_color (str : option (list Z)) (color : Z) : M screen unit :=
  match str with
  | None => ret tt
  | Some l =>
      let! old_color := gets current_color in
      set_color_field color ;;
      put_chars l ;;
      set_color_field old_color ;;
      screen_update_cursor
  end.

(** The digits of [num] in [buffer[9]] down to [buffer[2]]: [n] of them. *)
Fixpoint hex_digits (n : nat) (num : Z) : list Z :=
  match n with
  | O => []
  | S n' =>
      let d := Z.land num 15 in
      hex_digits n' (Z.shiftr num 4) ++ [if d <? 10 then 48 + d else 65 + (d - 10)]
  end.

Definition screen_write_hex (num : Z) : M screen unit :=
  put_chars ([48; 120] ++ hex_digits 8 num) ;; screen_update_cursor.

(** The loop [while (num > 0)]: the digits, most significant first.  Ten are
    enough for 32 bits. *)
Fixpoint dec_digits (fuel : nat) (num : Z) : list Z :=
  match fuel with
  | O => []
  | S f => if 0 <? num then dec_digits f (num / 10) ++ [48 + num mod 10] else []
  end.

Definition screen_write_dec (num : Z) : M screen unit :=
  if num =? 0 then screen_putchar_internal 48 ;; screen_update_cursor
  else put_chars (dec_digits 11 num) ;; screen_update_cursor.

Definition screen_set_color (color : Z) : M screen unit := set_color_field (u8 color).
Definition screen_get_color : M screen Z := gets current_color.
Definition screen_get_cursor_row : M screen Z := gets cursor_row.
Definition screen_get_cursor_col : M screen Z := gets cursor_col.

Definition screen_set_cursor (row col : Z) : M screen unit :=
  if (0 <=? row) && (row <? SCREEN_HEIGHT) && (0 <=? col) && (col <? SCREEN_WIDTH) then
    set_cursor_pos row col ;; screen_update_cursor
  else ret tt.

(** ** The screen's invariant *)

Definition is_cell (v : Z) : Prop := 0 <= v < 65536.

(** The 2000 cells of video memory, 16 bits each. *)
Definition cells_ok (l : list Z) : Prop := length l = 2000%nat /\ Forall is_cell l.

Record screen_ok (s : screen) : Prop := {
  so_row : 0 <= cursor_row s < 25;
  so_col : 0 <= cursor_col s < 80;
  so_color : is_u8 (current_color s);
  so_cells : cells_ok (video_memory s)
}.

Definition with_cells (s : screen) (l : list Z) : screen :=
  mk_screen (cursor_row s) (cursor_col s) (current_color s) l.

Lemma insert_cells_ok l pos v : cells_ok l -> cells_ok (<[pos := u16 v]> l).
Proof.
  intros [Hl Hf]. split; [by rewrite length_insert|]. apply Forall_insert; [done|].
  apply Z.mod_pos_bound. lia.
Qed.

Lemma exec_store_cell s pos v :
  cells_ok (video_memory s) -> 0 <= pos < 2000 ->
  exec (store_cell pos v) s = (Val tt, with_cells s (<[Z.to_nat pos := u16 v]> (video_memory s))).
Proof.
  intros [Hs _] Hp. unfold store_cell. run.
  rewrite Hs, (proj2 (Z.leb_le 0 pos)), (proj2 (Z.ltb_lt pos _)) by lia. by run.
Qed.

Lemma exec_load_cell s pos :
  cells_ok (video_memory s) -> 0 <= pos < 2000 ->
  exec (load_cell pos) s = (Val (video_memory s !!! Z.to_nat pos), s).
Proof.
  intros [Hs _] Hp. unfold load_cell. run.
  rewrite Hs, (proj2 (Z.leb_le 0 pos)), (proj2 (Z.ltb_lt pos _)) by lia. by run.
Qed.

Lemma cell_at l i : cells_ok l -> (i < 2000)%nat -> is_cell (l !!! i).
Proof.
  intros [Hl Hf] Hi. eapply (proj1 (Forall_lookup _ _) Hf). apply list_lookup_lookup_total_lt. lia.
Qed.

(** One row of the scroll: row [row] becomes row [row + 1]. *)
Lemma exec_scroll_row s row :
  cells_ok (video_memory s) -> 0 <= row < 24 ->
  exists l, exec (for_each (seqZ 0 SCREEN_WIDTH) (fun col =>
      let! v := load_cell ((row + 1) * SCREEN_WIDTH + col) in
      store_cell (row * SCREEN_WIDTH + col) v)) s = (Val tt, with_cells s l) /\ cells_ok l /\
    (forall i, (i < 2000)%nat ->
       l !!! i = video_memory s !!! (if decide (row * 80 <= Z.of_nat i < row * 80 + 80) then (i + 80)%nat else i)).
Proof.
  intros Hs Hr. unfold SCREEN_WIDTH in *.
  destruct (exec_for_each_seqZ (fun n st => exists l, st = with_cells s l /\ cells_ok l /\
     (forall i, (i < 2000)%nat -> l !!! i =
       video_memory s !!! (if decide (row * 80 <= Z.of_nat i < row * 80 + n) then (i + 80)%nat else i)))
    (fun col => let! v := load_cell ((row + 1) * 80 + col) in store_cell (row * 80 + col) v) 80 s)
    as (s' & E & l & -> & Hl & Hc); [lia| | |by exists l].
  - exists (video_memory s). split_and!; [by destruct s|done|].
    intros i Hi. by rewrite decide_False by lia.
  - intros n st Hn (l & -> & Hl & Hi). rewrite exec_bind, exec_load_cell by (done || lia). cbv iota.
    rewrite exec_store_cell by (done || lia). eexists. split; [done|]. cbn [video_memory with_cells].
    eexists. split; [done|]. split; [by apply insert_cells_ok|].
    pose proof (cell_at l (Z.to_nat ((row + 1) * 80 + n)) Hl ltac:(lia)) as Hv. destruct Hl as [Hl _].
    intros i Hlt. destruct (decide (i = Z.to_nat (row * 80 + n))) as [->|Hne].
    + rewrite list_lookup_total_insert_eq by lia. rewrite decide_True by lia. rewrite u16_small by done.
      rewrite Hi by lia. rewrite decide_False by lia. f_equal. lia.
    + rewrite list_lookup_total_insert_ne, Hi by done. f_equal.
      destruct (decide (row * 80 <= Z.of_nat i < row * 80 + n)) as [Hd|Hd].
      * by rewrite decide_True by lia.
      * by rewrite decide_False by lia.
Qed.

(** A loop that fills [n] cells from [pos] on. *)
Lemma exec_fill s pos n v :
  cells_ok (video_memory s) -> 0 <= pos -> 0 <= n -> pos + n <= 2000 ->
  exists l, exec (for_each (seqZ 0 n) (fun i => store_cell (pos + i) v)) s = (Val tt, with_cells s l) /\
    cells_ok l /\
    (forall i, (i < 2000)%nat ->
       l !!! i = if decide (pos <= Z.of_nat i < pos + n) then u16 v else video_memory s !!! i).
Proof.
  intros Hs Hp Hn Hle.
  destruct (exec_for_each_seqZ (fun m st => exists l, st = with_cells s l /\ cells_ok l /\
     (forall i, (i < 2000)%nat -> l !!! i =
       if decide (pos <= Z.of_nat i < pos + m) then u16 v else video_memory s !!! i))
    (fun i => store_cell (pos + i) v) n s) as (s' & E & l & -> & Hl & Hc); [lia| | |by exists l].
  - exists (video_memory s). split_and!; [by destruct s|done|].
    intros i Hi. by rewrite decide_False by lia.
  - intros m st Hm (l & -> & Hl & Hi). rewrite exec_store_cell by (done || lia).
    eexists. split; [done|]. eexists. split; [done|]. cbn [video_memory with_cells].
    split; [by apply insert_cells_ok|]. destruct Hl as [Hl _].
    intros i Hlt. destruct (decide (i = Z.to_nat (pos + m))) as [->|Hne].
    + rewrite list_lookup_total_insert_eq by lia. by rewrite decide_True by lia.
    + rewrite list_lookup_total_insert_ne, Hi by done.
      destruct (decide (pos <= Z.of_nat i < pos + m)) as [Hd|Hd].
      * by rewrite decide_True by lia.
      * by rewrite decide_False by lia.
Qed.

(** The whole scroll. *)
Lemma exec_screen_scroll s :
  cells_ok (video_memory s) ->
  exists l, exec screen_scroll s = (Val tt, mk_screen 24 0 (current_color s) l) /\ cells_ok l /\
    (forall i, (i < 2000)%nat ->
       l !!! i = if decide (i < 1920)%nat then video_memory s !!! (i + 80)%nat
                 else u16 (cell (current_color s) 32)).
Proof.
  intros Hs. unfold screen_scroll. change (SCREEN_HEIGHT - 1) with 24. rewrite exec_bind.
  destruct (exec_for_each_seqZ (fun n st => exists l, st = with_cells s l /\ cells_ok l /\
     (forall i, (i < 2000)%nat -> l !!! i =
       video_memory s !!! (if decide (Z.of_nat i < 80 * n) then (i + 80)%nat else i)))
    (fun row => for_each (seqZ 0 SCREEN_WIDTH) (fun col =>
      let! v := load_cell ((row + 1) * SCREEN_WIDTH + col) in
      store_cell (row * SCREEN_WIDTH + col) v)) 24 s) as (s' & -> & l & -> & Hl & Hc); [lia| | |].
  - exists (video_memory s). split_and!; [by destruct s|done|].
    intros i Hi. by rewrite decide_False by lia.
  - intros n st Hn (l & -> & Hl & Hi).
    destruct (exec_scroll_row (with_cells s l) n Hl ltac:(lia)) as (l' & -> & Hl' & Hi').
    eexists. split; [done|]. exists l'. split_and!; [done|done|]. intros i Hlt. rewrite Hi' by done.
    cbn [video_memory with_cells]. destruct (decide (n * 80 <= Z.of_nat i < n * 80 + 80)) as [Hd|Hd].
    + rewrite Hi by lia. rewrite decide_False by lia. by rewrite decide_True by lia.
    + rewrite Hi by lia. destruct (decide (Z.of_nat i < 80 * n)).
      * by rewrite decide_True by lia.
      * by rewrite decide_False by lia.
  - cbv iota. rewrite exec_bind, exec_get, exec_bind. cbv beta iota zeta.
    destruct (exec_fill (with_cells s l) (24 * 80) 80 (cell (current_color s) 32) Hl) as (l2 & E & Hl2 & Hi2);
      [lia..|].
    change SCREEN_WIDTH with 80. cbn [current_color with_cells]. rewrite E. cbv iota.
    exists l2. split_and!; [done|done|]. intros i Hlt. rewrite Hi2 by done.
    destruct (decide (i < 1920)%nat) as [Hd|Hd].
    + rewrite decide_False by lia. cbn [video_memory with_cells]. rewrite Hc by done.
      by rewrite decide_True by lia.
    + by rewrite decide_True by lia.
Qed.

Lemma exec_place_char s ch :
  screen_ok s ->
  exists row col l, exec (place_char ch) s = (Val tt, mk_screen row col (current_color s) l) /\ cells_ok l /\
    (0 <= row < 25 /\ 0 <= col <= 80 \/ row = cursor_row s + 1 /\ col = 0) /\
    (32 <= ch < 256 -> row = cursor_row s /\ col = cursor_col s + 1 /\
       l = <[Z.to_nat (cursor_row s * 80 + cursor_col s) := u16 (cell (current_color s) ch)]> (video_memory s)).
Proof.
  intros [Hr Hc Hcol Hl]. unfold place_char, set_cursor_pos, SCREEN_WIDTH. rewrite exec_bind, exec_get. cbv beta iota zeta.
  destruct (Z.eqb_spec ch 10) as [->|H10].
  { eexists _, _, _. split; [done|]. split_and!; [done|by right|lia..]. }
  destruct (Z.eqb_spec ch 13) as [->|H13].
  { eexists _, _, _. split; [done|]. split_and!; [done|left; lia|lia..]. }
  destruct (Z.eqb_spec ch 9) as [->|H9].
  { assert (Z.land (cursor_col s + 4) (Z.lnot 3) = 4 * ((cursor_col s + 4) / 4)) as ->.
    { change 3 with (Z.ones 2). rewrite <- Z.ldiff_land, Z.ldiff_ones_r by lia.
      rewrite Z.shiftl_mul_pow2, Z.shiftr_div_pow2 by lia. change (2 ^ 2) with 4. lia. }
    eexists _, _, _. split; [done|]. split_and!; [done|left; dlia|lia..]. }
  destruct (Z.eqb_spec ch 8) as [->|H8].
  { destruct (Z.ltb_spec 0 (cursor_col s)) as [Hpos|Hz].
    - rewrite exec_bind, exec_modify. cbv iota. rewrite exec_store_cell by (done || cbn; lia).
      eexists _, _, _. split; [done|]. split_and!; [by apply insert_cells_ok|left; cbn; lia|lia..].
    - destruct (Z.ltb_spec 0 (cursor_row s)) as [Hrp|Hrz].
      + eexists _, _, _. split; [done|]. split_and!; [done|left; lia|lia..].
      + exists (cursor_row s), (cursor_col s), (video_memory s). destruct s.
        split; [done|]. split_and!; [done|left; cbn in *; lia|lia..]. }
  rewrite exec_bind, exec_store_cell by (done || lia). cbv iota. rewrite exec_modify.
  eexists _, _, _. split; [done|]. split_and!; [by apply insert_cells_ok|left; cbn; lia|done].
Qed.

Lemma exec_wrap_and_scroll row col color l :
  is_u8 color -> cells_ok l -> 0 <= row < 25 /\ 0 <= col <= 80 \/ row = 25 /\ col = 0 ->
  exists s', exec wrap_and_scroll (mk_screen row col color l) = (Val tt, s') /\ screen_ok s' /\
    current_color s' = color /\ (row < 25 -> col < 80 -> s' = mk_screen row col color l).
Proof.
  intros Hcol Hl Hrc. unfold wrap_and_scroll, SCREEN_WIDTH, SCREEN_HEIGHT, set_cursor_pos.
  rewrite exec_bind, exec_bind, exec_get. cbv beta iota. cbn [cursor_col cursor_row].
  destruct (Z.leb_spec 80 col) as [Hw|Hw].
  - rewrite exec_modify. cbv iota. rewrite exec_bind, exec_get. cbv beta iota. cbn [cursor_row current_color video_memory].
    destruct (Z.leb_spec 25 (row + 1)) as [H25|H25].
    + destruct (exec_screen_scroll (mk_screen (row + 1) 0 color l) Hl) as (l2 & -> & Hl2 & _).
      eexists. split; [done|]. split; [split; cbn; try done; lia|]. split; [done|lia].
    + eexists. split; [done|]. split; [split; cbn; try done; lia|]. split; [done|lia].
  - rewrite exec_ret. cbv iota. rewrite exec_bind, exec_get. cbv beta iota. cbn [cursor_row].
    destruct (Z.leb_spec 25 row) as [H25|H25].
    + destruct (exec_screen_scroll (mk_screen row col color l) Hl) as (l2 & -> & Hl2 & _).
      eexists. split; [done|]. split; [split; cbn; try done; lia|]. split; [done|lia].
    + eexists. split; [done|]. split; [split; cbn; try done; lia|]. done.
Qed.

Lemma exec_putchar s ch :
  screen_ok s ->
  exists s', exec (screen_putchar_internal ch) s = (Val tt, s') /\ screen_ok s' /\
    current_color s' = current_color s /\
    (32 <= ch < 256 -> cursor_col s + 1 < 80 ->
       s' = mk_screen (cursor_row s) (cursor_col s + 1) (current_color s)
              (<[Z.to_nat (cursor_row s * 80 + cursor_col s) := u16 (cell (current_color s) ch)]> (video_memory s))).
Proof.
  intros Hs. pose proof Hs as [Hr Hc Hcol Hl]. unfold screen_putchar_internal. rewrite exec_bind.
  destruct (exec_place_char s ch Hs) as (row & col & l & -> & Hl' & Hrc & Hprint). cbv iota.
  destruct (exec_wrap_and_scroll row col (current_color s) l Hcol Hl' ltac:(lia)) as (s' & E & Hok & Hcc & Hsame).
  exists s'. split_and!; [done|done|done|]. intros Hch Hlt.
  destruct (Hprint Hch) as (-> & -> & ->). apply Hsame; lia.
Qed.

Lemma exec_put_chars str s :
  screen_ok s -> exists s', exec (put_chars str) s = (Val tt, s') /\ screen_ok s' /\
    current_color s' = current_color s.
Proof.
  intros Hs. unfold put_chars.
  destruct (exec_for_each_inv (fun s' => screen_ok s' /\ current_color s' = current_color s)
    screen_putchar_internal str s) as (s' & E & Hok & Hc); [done| |by exists s'].
  intros x s1 _ [Hok1 Hc1]. destruct (exec_putchar s1 x Hok1) as (s2 & E & Hok2 & Hc2 & _).
  exists s2. split_and!; [done|done|congruence].
Qed.

Lemma exec_update_cursor s : exec screen_update_cursor s = (Val tt, s).
Proof. unfold screen_update_cursor. by run. Qed.

(** ** The theorems *)

(** One call of the driver, with any arguments. *)
Inductive screen_call : Type :=
| Init | Clear | Scroll | Putchar (ch : Z) | Write (str : option (list Z))
| WriteColor (str : option (list Z)) (color : Z) | WriteHex (n : Z) | WriteDec (n : Z)
| SetColor (color : Z) | SetCursor (row col : Z).

Definition screen_run (k : screen_call) : M screen unit :=
  match k with
  | Init => screen_init | Clear => screen_clear | Scroll => screen_scroll
  | Putchar ch => screen_putchar ch | Write str => screen_write str
  | WriteColor str color => screen_write_color str (u8 color)
  | WriteHex n => screen_write_hex n | WriteDec n => screen_write_dec n
  | SetColor color => screen_set_color color | SetCursor row col => screen_set_cursor row col
  end.

Lemma exec_fill_screen s v : cells_ok (video_memory s) ->
  exists l, exec (fill_screen v) s = (Val tt, with_cells s l) /\ cells_ok l.
Proof.
  intros Hl. unfold fill_screen. change (SCREEN_WIDTH * SCREEN_HEIGHT) with 2000.
  destruct (exec_fill s 0 2000 v Hl) as (l & E & Hok & _); [lia..|]. by exists l.
Qed.

Lemma screen_run_ok k s : screen_ok s -> exists s', exec (screen_run k) s = (Val tt, s') /\ screen_ok s'.
Proof.
  intros Hs. pose proof Hs as [Hr Hc Hcol Hl].
  destruct k as [| | |ch|str|str color|n|n|color|row col]; cbn [screen_run].
  - unfold screen_init, set_cursor_pos, set_color_field. run.
    edestruct (exec_fill_screen (mk_screen 0 0 DEFAULT_COLOR (video_memory s))) as (l & E & Hok); [done|].
    cbn [cursor_row cursor_col current_color video_memory] in *. rewrite E. run.
    rewrite exec_update_cursor. eexists. split; [done|]. split; cbn; try done; unfold is_u8; vm_compute; lia.
  - unfold screen_clear, set_cursor_pos. run.
    destruct (exec_fill_screen s (cell (current_color s) 32) Hl) as (l & -> & Hok). run.
    rewrite exec_update_cursor. eexists. split; [done|]. split; cbn; try done; lia.
  - destruct (exec_screen_scroll s Hl) as (l & -> & Hok & _). eexists. split; [done|]. split; cbn; try done; lia.
  - unfold screen_putchar. run. destruct (exec_putchar s ch Hs) as (s' & -> & Hok & _ & _).
    rewrite exec_update_cursor. by exists s'.
  - destruct str as [l|]; [|by exists s]. unfold screen_write. run.
    destruct (exec_put_chars l s Hs) as (s' & -> & Hok & _). rewrite exec_update_cursor. by exists s'.
  - destruct str as [l|]; [|by exists s]. unfold screen_write_color, set_color_field. run.
    edestruct (exec_put_chars l (mk_screen (cursor_row s) (cursor_col s) (u8 color) (video_memory s)))
      as (s' & -> & [Hr' Hc' _ Hl'] & _); [split; try done; apply u8_range|]. run.
    rewrite exec_update_cursor. eexists. split; [done|]. by split.
  - unfold screen_write_hex. run.
    destruct (exec_put_chars ([48; 120] ++ hex_digits 8 n) s Hs) as (s' & -> & Hok & _).
    rewrite exec_update_cursor. by exists s'.
  - unfold screen_write_dec. destruct (n =? 0); run.
    + destruct (exec_putchar s 48 Hs) as (s' & -> & Hok & _ & _). rewrite exec_update_cursor. by exists s'.
    + destruct (exec_put_chars (dec_digits 11 n) s Hs) as (s' & -> & Hok & _). rewrite exec_update_cursor. by exists s'.
  - eexists. split; [done|]. split; try done. apply u8_range.
  - unfold screen_set_cursor, SCREEN_HEIGHT, SCREEN_WIDTH, set_cursor_pos.
    destruct ((0 <=? row) && (row <? 25) && (0 <=? col) && (col <? 80)) eqn:E; [|by exists s].
    run. rewrite exec_update_cursor. eexists. split; [done|]. split; cbn; try done; lia.
Qed.

(** C33: whatever calls the kernel makes of the screen driver, with whatever
    characters, colours and positions, the driver returns, never writes outside
    the 2000 cells of video memory, and leaves the cursor on the screen. *)
Theorem screen_calls_safe ks s :
  screen_ok s -> exists s', exec (for_each ks screen_run) s = (Val tt, s') /\ screen_ok s'.
Proof.
  intros Hs. apply (exec_for_each_inv screen_ok screen_run ks s Hs).
  intros k s1 _ Hs1. by apply screen_run_ok.
Qed.

Definition screen0 : screen := mk_screen 0 0 7 (replicate 2000 0).

Lemma screen0_ok : screen_ok screen0.
Proof.
  split; [cbn; lia|cbn; lia|unfold is_u8; cbn; lia|].
  split; [apply length_replicate|]. apply Forall_replicate. unfold is_cell. lia.
Qed.

Lemma screen_calls_safe_witness : exists s',
  exec (for_each [Init; WriteColor (Some [65; 10; 9; 8; 200]) 300; Scroll; SetCursor 90 3] screen_run) screen0
    = (Val tt, s') /\ screen_ok s'.
Proof. apply (screen_calls_safe _ screen0 screen0_ok). Defined.

(** scrolling moves every line one up, clears the last one in the current
    colour and puts the cursor at its start. *)
Theorem screen_scroll_lines s :
  screen_ok s ->
  exists s', exec screen_scroll s = (Val tt, s') /\ cursor_row s' = 24 /\ cursor_col s' = 0 /\
    (forall row col, 0 <= row < 24 -> 0 <= col < 80 ->
       video_memory s' !!! Z.to_nat (row * 80 + col) = video_memory s !!! Z.to_nat ((row + 1) * 80 + col)) /\
    (forall col, 0 <= col < 80 ->
       video_memory s' !!! Z.to_nat (24 * 80 + col) = u16 (cell (current_color s) 32)).
Proof.
  intros [_ _ _ Hl]. destruct (exec_screen_scroll s Hl) as (l & E & _ & Hi).
  eexists. split; [exact E|]. split_and!; [done|done| |]; cbn [video_memory].
  - intros row col Hr Hc. rewrite Hi, decide_True by lia. f_equal. lia.
  - intros col Hc. by rewrite Hi, decide_False by lia.
Qed.

Lemma screen_scroll_lines_witness : exists s',
  exec screen_scroll screen0 = (Val tt, s') /\ cursor_row s' = 24.
Proof.
  destruct (screen_scroll_lines screen0 screen0_ok) as (s' & E & Hr & _).
  exists s'. split; [exact E|exact Hr].
Defined.

(** text of printable characters that fits on the current line is on the
    screen at the cursor, character by character in the current colour; the
    cursor is behind it and no other cell changes. *)
Theorem screen_write_text s str :
  screen_ok s -> Forall (fun ch => 32 <= ch < 256) str ->
  cursor_col s + Z.of_nat (length str) < 80 ->
  exists s', exec (screen_write (Some str)) s = (Val tt, s') /\
    cursor_row s' = cursor_row s /\ cursor_col s' = cursor_col s + Z.of_nat (length str) /\
    (forall i, (i < 2000)%nat ->
       let k := Z.of_nat i - (cursor_row s * 80 + cursor_col s) in
       video_memory s' !!! i =
         match str !! Z.to_nat k with
         | Some ch => if 0 <=? k then u16 (cell (current_color s) ch) else video_memory s !!! i
         | None => video_memory s !!! i
         end).
Proof.
  intros Hs Hstr Hlen. unfold screen_write. rewrite exec_bind.
  assert (exists s', exec (put_chars str) s = (Val tt, s') /\
    cursor_row s' = cursor_row s /\ cursor_col s' = cursor_col s + Z.of_nat (length str) /\
    (forall i, (i < 2000)%nat ->
       let k := Z.of_nat i - (cursor_row s * 80 + cursor_col s) in
       video_memory s' !!! i =
         match str !! Z.to_nat k with
         | Some ch => if 0 <=? k then u16 (cell (current_color s) ch) else video_memory s !!! i
         | None => video_memory s !!! i
         end)) as (s' & -> & Hr & Hc & Hi).
  2: { rewrite exec_update_cursor. by exists s'. }
  revert s Hs Hlen. induction Hstr as [|ch str Hch Hstr IH]; intros s Hs Hlen.
  - exists s. split_and!; [done|done|simpl; lia|]. done.
  - simpl length in Hlen. unfold put_chars. cbn [for_each]. unfold for_each; fold (@for_each screen Z).
    rewrite exec_bind. destruct (exec_putchar s ch Hs) as (s1 & -> & Hok1 & Hc1 & Hs1). cbv iota.
    specialize (Hs1 Hch ltac:(lia)). destruct (IH s1 Hok1) as (s' & E & Hr & Hc & Hi).
    { rewrite Hs1. cbn [cursor_col]. lia. }
    exists s'. split; [exact E|]. rewrite Hr, Hc, Hs1. cbn [cursor_row cursor_col]. split_and!; [done|simpl; lia|].
    intros i Hlt. cbv zeta. rewrite Hi by done. rewrite Hs1. cbn [cursor_row cursor_col current_color video_memory].
    pose proof Hs as [Hrow Hcol _ [Hl _]].
    destruct (decide (i = Z.to_nat (cursor_row s * 80 + cursor_col s))) as [->|Hne].
    + rewrite list_lookup_total_insert_eq by lia.
      replace (Z.of_nat (Z.to_nat (cursor_row s * 80 + cursor_col s)) - (cursor_row s * 80 + cursor_col s)) with 0 by lia.
      destruct (str !! _) as [ch'|]; [|done].
      rewrite (proj2 (Z.leb_gt _ _)) by lia. done.
    + rewrite list_lookup_total_insert_ne by done.
      set (k := Z.of_nat i - (cursor_row s * 80 + cursor_col s)).
      replace (Z.of_nat i - (cursor_row s * 80 + (cursor_col s + 1))) with (k - 1) by lia.
      destruct (Z.leb_spec 0 k) as [Hk|Hk].
      * replace (Z.to_nat k) with (S (Z.to_nat (k - 1))) by lia. cbn [lookup list_lookup].
        rewrite (proj2 (Z.leb_le 0 (k - 1))) by lia. done.
      * rewrite (proj2 (Z.leb_gt 0 (k - 1))) by lia. by destruct (str !! _), ((ch :: str) !! _).
Qed.

Lemma screen_write_text_witness : exists s',
  exec (screen_write (Some [72; 105])) screen0 = (Val tt, s') /\ cursor_col s' = 2.
Proof.
  destruct (screen_write_text screen0 [72; 105] screen0_ok) as (s' & E & _ & Hc & _).
  - repeat constructor; lia.
  - cbn. lia.
  - exists s'. split; [exact E|exact Hc].
Defined.
