(* ===== verification/Kprintf.v ===== *)
(** * kprintf.c: formatted output *)

From S2P Require Import Prelude CString Screen.

(** The digits of [value], least significant first, as the loop stores them in
    [temp]; 32 of them fit. *)
Fixpoint utoa_loop (fuel : nat) (value base : Z) (uppercase : bool) : option (list Z) :=
  match fuel with
  | O => None
  | S f =>
      if 0 <? value then
        let d := value mod base in
        let ch := if d <? 10 then 48 + d else (if uppercase then 65 else 97) + (d - 10) in
        cons ch <$> utoa_loop f (value / base) base uppercase
      else Some []
  end.

(** The string [utoa] leaves, without its terminator. *)
Definition utoa (value base : Z) (uppercase : bool) : option (list Z) :=
  if value =? 0 then Some [48] else @rev Z <$> utoa_loop 33 value base uppercase.

(** [-value] of the least [int32_t] overflows. *)
Definition itoa_signed (value : Z) : option (list Z) :=
  if value <? 0 then
    if value =? -2147483648 then None else cons 45 <$> utoa (- value) 10 false
  else utoa value 10 false.

Definition pop_int (args : list arg) : option (Z * list arg) :=
  match args with AInt v :: r => Some (v, r) | _ => None end.
Definition pop_str (args : list arg) : option (option (list Z) * list arg) :=
  match args with AStr s :: r => Some (s, r) | _ => None end.

(** One conversion: the characters it prints and the arguments left. *)
Definition convert (f : Z) (args : list arg) : option (list Z * list arg) :=
  if (f =? 100) || (f =? 105) then                                   (* d, i *)
    '(v, r) ← pop_int args; t ← itoa_signed (s32 v); Some (t, r)
  else if f =? 117 then                                              (* u *)
    '(v, r) ← pop_int args; t ← utoa (u32 v) 10 false; Some (t, r)
  else if f =? 120 then                                              (* x *)
    '(v, r) ← pop_int args; t ← utoa (u32 v) 16 false; Some (t, r)
  else if f =? 88 then                                               (* X *)
    '(v, r) ← pop_int args; t ← utoa (u32 v) 16 true; Some (t, r)
  else if f =? 112 then                                              (* p *)
    '(v, r) ← pop_int args; t ← utoa (u32 v) 16 false; Some ([48; 120] ++ t, r)
  else if f =? 99 then                                               (* c *)
    '(v, r) ← pop_int args; Some ([u8 v], r)
  else if f =? 115 then                                              (* s *)
    '(s, r) ← pop_str args; Some (default (c "(null)") s, r)
  else if f =? 37 then Some ([37], args)                             (* % *)
  else Some ([37; f], args).

(** The loop over the format: an array of characters up to the terminator. *)
Fixpoint kprintf_loop (format : list Z) (args : list arg) : M screen unit :=
  match format with
  | [] => stop_with Undefined
  | ch :: rest =>
      if ch =? 0 then ret tt else
      if ch =? 37 then
        match rest with
        | [] => stop_with Undefined
        | f :: rest' =>
            let! ' (text, args') := defined (convert f args) in
            for_each text screen_putchar_internal_for_kprintf ;;
            kprintf_loop rest' args'
        end
      else
        screen_putchar_internal_for_kprintf ch ;;
        kprintf_loop rest args
  end.

Definition kprintf_internal (color : Z) (use_color : bool) (format : list Z) (args : list arg)
    : M screen unit :=
  let! old_color := (if use_color then
    let! o := screen_get_color in screen_set_color color ;; ret o else ret 0) in
  kprintf_loop format args ;;
  (if use_color then screen_set_color old_color else ret tt) ;;
  screen_update_cursor.

Definition kprintf (format : list Z) (args : list arg) : M screen unit :=
  kprintf_internal 0 false format args.
Definition kprintf_color (color : Z) (format : list Z) (args : list arg) : M screen unit :=
  kprintf_internal color true format args.

(** What the calls the other components record do to the screen. *)
Definition render (e : event) : M screen unit :=
  match e with
  | EvWrite s => screen_write (Some s)
  | EvWriteColor s color => screen_write_color (Some s) color
  | EvDec n => screen_write_dec n
  | EvHex n => screen_write_hex n
  | EvClear => screen_clear
  | EvPrintf fmt args => kprintf (fmt ++ [0]) args
  | EvPrintfColor color fmt args => kprintf_color color (fmt ++ [0]) args
  | EvOutb port val => outb port val
  end.

(** ** The text a format stands for *)

Fixpoint format_text (format : list Z) (args : list arg) : option (list Z) :=
  match format with
  | [] => None
  | ch :: rest =>
      if ch =? 0 then Some [] else
      if ch =? 37 then
        match rest with
        | [] => None
        | f :: rest' =>
            '(text, args') ← convert f args;
            app text <$> format_text rest' args'
        end
      else cons ch <$> format_text rest args
  end.

(** The value of a digit, and of a string of digits. *)
Definition digit_value (ch : Z) : Z :=
  if ch <? 58 then ch - 48 else if ch <? 97 then ch - 65 + 10 else ch - 97 + 10.

Definition base_value (base : Z) (l : list Z) : Z :=
  fold_left (fun v ch => v * base + digit_value ch) l 0.

Lemma base_value_snoc base l ch : base_value base (l ++ [ch]) = base_value base l * base + digit_value ch.
Proof. unfold base_value. by rewrite fold_left_app. Qed.

Lemma digit_value_char d (uppercase : bool) : 0 <= d < 16 ->
  digit_value (if d <? 10 then 48 + d else (if uppercase then 65 else 97) + (d - 10)) = d.
Proof.
  intros Hd. unfold digit_value. destruct (Z.ltb_spec d 10).
  - rewrite (proj2 (Z.ltb_lt _ 58)) by lia. lia.
  - destruct uppercase.
    + rewrite (proj2 (Z.ltb_ge _ 58)), (proj2 (Z.ltb_lt _ 97)) by lia. lia.
    + rewrite (proj2 (Z.ltb_ge _ 58)), (proj2 (Z.ltb_ge _ 97)) by lia. lia.
Qed.

Lemma utoa_loop_value fuel value base up :
  2 <= base <= 16 -> 0 <= value < 2 ^ Z.of_nat fuel ->
  exists l, utoa_loop (S fuel) value base up = Some l /\ base_value base (rev l) = value /\
    (value <> 0 -> exists ch l', rev l = ch :: l' /\ ch <> 48) /\ (length l <= fuel)%nat.
Proof.
  intros Hb. revert value. induction fuel as [|fuel IH]; intros value Hv.
  { change (2 ^ Z.of_nat 0) with 1 in Hv. assert (value = 0) as -> by lia. by exists []. }
  rewrite Nat2Z.inj_succ, Z.pow_succ_r in Hv by lia. remember (S fuel) as m. cbn [utoa_loop]. subst m.
  destruct (Z.ltb_spec 0 value) as [Hpos|Hz]; [|exists []; split_and!; [done|cbn; lia|lia|cbn; lia]].
  pose proof (Z.mod_pos_bound value base ltac:(lia)) as Hm.
  pose proof (Z.div_mod value base ltac:(lia)) as Hdm.
  assert (0 <= value / base < 2 ^ Z.of_nat fuel) as Hq.
  { split; [apply Z.div_pos; lia|]. apply Z.div_lt_upper_bound; [lia|]. nia. }
  destruct (IH _ Hq) as (l & E & Hval & Hhead & Hlen). rewrite E. cbn [fmap option_fmap option_map].
  eexists. split; [done|]. cbn [rev]. rewrite base_value_snoc, Hval, digit_value_char by lia.
  split_and!; [lia| |simpl; lia]. intros _. destruct (decide (value / base = 0)) as [E0|E0].
  - assert (l = []) as -> by (rewrite E0 in E; by injection E as <-). simpl. eexists _, _. split; [done|].
    destruct (Z.ltb_spec (value mod base) 10); [lia|]. destruct up; lia.
  - destruct (Hhead E0) as (ch & l' & -> & Hch). by eexists _, _.
Qed.

(** ** The theorems *)

(** The text [utoa] makes of a 32-bit number in base 2 to 16 has the value of
    the number, at most 32 digits and no leading zero. *)
Theorem utoa_value value base uppercase :
  2 <= base <= 16 -> is_u32 value ->
  exists l, utoa value base uppercase = Some l /\ base_value base l = value /\
    (length l <= 32)%nat /\ (value <> 0 -> exists ch l', l = ch :: l' /\ ch <> 48).
Proof.
  intros Hb Hv. unfold utoa. destruct (Z.eqb_spec value 0) as [->|Hne].
  { exists [48]. split_and!; [done|done|simpl; lia|done]. }
  destruct (utoa_loop_value 32 value base uppercase Hb Hv) as (l & E & Hval & Hhead & Hlen).
  rewrite E. exists (rev l). split_and!; [done|done|by rewrite length_rev|done].
Qed.

Lemma utoa_value_witness : exists l, utoa 48879 16 false = Some l /\ base_value 16 l = 48879.
Proof.
  destruct (utoa_value 48879 16 false ltac:(lia) ltac:(unfold is_u32; lia)) as (l & E & Hv & _).
  exists l. split; [exact E|exact Hv].
Defined.

Lemma exec_kprintf_loop format : forall args text,
  format_text format args = Some text -> forall s,
  exec (kprintf_loop format args) s = exec (put_chars text) s.
Proof.
  assert (forall n, forall format args text, (length format <= n)%nat ->
    format_text format args = Some text -> forall s,
    exec (kprintf_loop format args) s = exec (put_chars text) s) as Hn.
  2: { intros args text E s. by apply (Hn (length format)). }
  clear format. induction n as [|n IH]; intros format args text Hlen E s.
  { by destruct format; [|simpl in Hlen; lia]. }
  destruct format as [|ch rest]; [done|]. cbn [format_text kprintf_loop] in *.
  destruct (ch =? 0); [by injection E as <-|]. destruct (ch =? 37).
  - destruct rest as [|f rest]; [done|]. destruct (convert f args) as [[t args']|]; [|done]. cbn in E.
    destruct (format_text rest args') as [t'|] eqn:Et; [|done]. injection E as <-.
    rewrite exec_bind, exec_defined_Some. cbv beta iota. unfold put_chars. rewrite exec_for_each_app, exec_bind.
    change (for_each t screen_putchar_internal_for_kprintf) with (for_each t screen_putchar_internal).
    destruct (exec (for_each t screen_putchar_internal) s) as [[[]|w] s1]; [|done].
    by apply (IH rest args' t'); [simpl in Hlen; lia|].
  - destruct (format_text rest args) as [t'|] eqn:Et; [|done]. injection E as <-.
    unfold put_chars, for_each; fold (@for_each screen Z). rewrite !exec_bind.
    unfold screen_putchar_internal_for_kprintf.
    destruct (exec (screen_putchar_internal ch) s) as [[[]|w] s1]; [|done].
    apply (IH rest args t'); [simpl in Hlen; lia|done].
Qed.

(** Whenever a format and its arguments stand for a text, [kprintf] does
    to the screen exactly what [screen_write] of that text does, and
    [kprintf_color] what [screen_write_color] does: the colour is restored. *)
Theorem kprintf_writes_text format args text color s :
  format_text format args = Some text -> is_u8 color -> screen_ok s ->
  exec (kprintf format args) s = exec (screen_write (Some text)) s /\
  exec (kprintf_color color format args) s = exec (screen_write_color (Some text) color) s.
Proof.
  intros E Hcol Hs. pose proof Hs as [_ _ Hcs _]. unfold kprintf, kprintf_color, kprintf_internal. split.
  - rewrite exec_bind, exec_ret. cbv iota. unfold screen_write.
    rewrite !exec_bind, (exec_kprintf_loop _ _ _ E). destruct (exec (put_chars text) s) as [[[]|w] s1]; [|done].
    by run.
  - unfold screen_write_color, screen_get_color, screen_set_color. run. rewrite u8_small by done.
    unfold set_color_field. run. rewrite (exec_kprintf_loop _ _ _ E).
    destruct (exec (put_chars text) _) as [[[]|w] s1]; [|done]. by rewrite u8_small.
Qed.

Lemma kprintf_writes_text_witness :
  exec (kprintf (c "%d:%x" ++ [0]) [AInt (-7); AInt 255]) screen0 =
    exec (screen_write (Some (c "-7:ff"))) screen0 /\
  exec (kprintf_color 12 (c "%d:%x" ++ [0]) [AInt (-7); AInt 255]) screen0 =
    exec (screen_write_color (Some (c "-7:ff")) 12) screen0.
Proof.
  apply (kprintf_writes_text (c "%d:%x" ++ [0]) [AInt (-7); AInt 255] (c "-7:ff") 12 screen0).
  - reflexivity.
  - unfold is_u8. lia.
  - exact screen0_ok.
Defined.

(** width, precision and alignment are not supported: such a specifier is
    printed as it stands and its argument is not consumed, so the arguments of
    the following conversions are off by one. *)
Theorem kprintf_unknown_specifier f rest args :
  f ∉ [100; 105; 117; 120; 88; 112; 99; 115; 37] ->
  format_text (37 :: f :: rest) args = app [37; f] <$> format_text rest args.
Proof.
  intros Hf. rewrite !not_elem_of_cons in Hf. destruct_and! Hf. cbn [format_text Z.eqb]. unfold convert.
  by repeat match goal with H : f <> ?x |- _ => rewrite (proj2 (Z.eqb_neq f x) H); clear H end.
Qed.

Lemma kprintf_unknown_specifier_witness :
  format_text (c "%5d %d" ++ [0]) [AInt 1; AInt 2] = Some (c "%5d 1").
Proof.
  change (c "%5d %d" ++ [0]) with (37 :: 53 :: (c "d %d" ++ [0])).
  rewrite (kprintf_unknown_specifier 53 (c "d %d" ++ [0]) [AInt 1; AInt 2]); [reflexivity|].
  intros Hin. rewrite !elem_of_cons in Hin. destruct_or! Hin; try done. by apply not_elem_of_nil in Hin.
Defined.
