(* ===== verification/Console.v ===== *)
(** * The screen behind the components

    The other components record what they write; [shown] runs one of them next
    to the screen, where its output appears.  This file shows that well-formed
    output never harms: when every event a program puts out can be printed, it
    does with the screen what it does alone, and the screen stays in order. *)

From S2P Require Import Prelude Screen Kprintf.

(** A component next to the screen: its output is shown there. *)
Definition on_screen {T A} (m : M screen A) : M (T * screen) A := zoom snd (fun t s => (fst s, t)) m.

Definition shown {T A} (m : M T A) : M (T * screen) A := fun s =>
  let '(r, s', o) := m (fst s) in
  match for_each o render (snd s) with
  | (Val _, t, o') => (r, (s', t), o')
  | (Stopped w, t, o') => (Stopped w, (s', t), o')
  end.

(** ** Events that can be printed *)

Definition printable (e : event) : Prop :=
  match e with
  | EvWriteColor _ color => is_u8 color
  | EvPrintf fmt args => is_Some (format_text (fmt ++ [0]) args)
  | EvPrintfColor color fmt args => is_u8 color /\ is_Some (format_text (fmt ++ [0]) args)
  | _ => True
  end.

Lemma exec_render e t : printable e -> screen_ok t -> exists t', exec (render e) t = (Val tt, t') /\ screen_ok t'.
Proof.
  intros He Ht. destruct e as [s|s color|n|n| |fmt args|color fmt args|port val]; cbn [render printable] in *.
  - exact (screen_run_ok (Write (Some s)) t Ht).
  - pose proof (screen_run_ok (WriteColor (Some s) color) t Ht) as Hr. cbn [screen_run] in Hr. by rewrite u8_small in Hr.
  - exact (screen_run_ok (WriteDec n) t Ht).
  - exact (screen_run_ok (WriteHex n) t Ht).
  - exact (screen_run_ok Clear t Ht).
  - destruct He as [x Hx]. rewrite (proj1 (kprintf_writes_text _ _ x 0 t Hx ltac:(unfold is_u8; lia) Ht)). exact (screen_run_ok (Write (Some x)) t Ht).
  - destruct He as [Hc [x Hx]]. rewrite (proj2 (kprintf_writes_text _ _ x color t Hx Hc Ht)).
    pose proof (screen_run_ok (WriteColor (Some x) color) t Ht) as Hr. cbn [screen_run] in Hr. by rewrite u8_small in Hr.
  - exists t. by rewrite exec_outb.
Qed.

Lemma exec_render_all o t : Forall printable o -> screen_ok t -> exists t', exec (for_each o render) t = (Val tt, t') /\ screen_ok t'.
Proof.
  intros Ho Ht. apply (exec_for_each_inv screen_ok render o t Ht). intros e t1 He. apply exec_render. by eapply list.Forall_forall in Ho.
Qed.

(** ** Formats *)

Lemma utoa_total v base up : base = 10 \/ base = 16 -> is_Some (utoa (u32 v) base up).
Proof. intros Hb. destruct (utoa_value (u32 v) base up) as (t & -> & _); [lia|apply u32_range|]. by exists t. Qed.

Lemma itoa_total v : s32 v <> -2147483648 -> is_Some (itoa_signed (s32 v)).
Proof.
  intros Hv. assert (-2147483648 <= s32 v < 2147483648) as Hr.
  { unfold s32. pose proof (Z.mod_pos_bound (v + 2147483648) 4294967296 ltac:(lia)). lia. }
  unfold itoa_signed.
  assert (forall n, is_u32 n -> is_Some (utoa n 10 false)) as Hu.
  { intros n Hn. destruct (utoa_value n 10 false ltac:(lia) Hn) as (t & -> & _). by exists t. }
  destruct (Z.ltb_spec (s32 v) 0); [|apply Hu; unfold is_u32; lia].
  rewrite (proj2 (Z.eqb_neq _ _) Hv). apply fmap_is_Some, Hu. unfold is_u32. lia.
Qed.

(** A format every conversion of which finds an argument of its kind; the least
    [int] cannot be printed. *)
Fixpoint format_ok (format : list Z) (args : list arg) : bool :=
  match format with
  | [] => true
  | ch :: rest =>
      if ch =? 0 then true else
      if ch =? 37 then
        match rest with
        | [] => false
        | f :: rest' =>
            if (f =? 100) || (f =? 105) then
              match args with AInt v :: r => negb (s32 v =? -2147483648) && format_ok rest' r | _ => false end
            else if (f =? 117) || (f =? 120) || (f =? 88) || (f =? 112) || (f =? 99) then
              match args with AInt _ :: r => format_ok rest' r | _ => false end
            else if f =? 115 then
              match args with AStr _ :: r => format_ok rest' r | _ => false end
            else format_ok rest' args
        end
      else format_ok rest args
  end.

Lemma format_ok_text n : forall fmt args, (length fmt <= n)%nat -> format_ok fmt args = true -> is_Some (format_text (fmt ++ [0]) args).
Proof.
  induction n as [|n IH]; intros [|ch fmt] args Hl Hok; cbn [length] in Hl; [by exists []|lia|by exists []|].
  cbn [format_ok format_text app] in *. destruct (ch =? 0); [by eexists|].
  destruct (ch =? 37); [|by apply fmap_is_Some, IH; [lia|]].
  destruct fmt as [|f fmt]; [done|]. cbn [length app] in *.
  assert (forall r, format_ok fmt r = true -> is_Some (format_text (fmt ++ [0]) r)) as Hr by (intros r; apply IH; lia).
  unfold convert, pop_int, pop_str.
  destruct ((f =? 100) || (f =? 105)).
  { destruct args as [|[v|] args]; try done. apply andb_prop in Hok as [Hv Hok]. cbn.
    destruct (itoa_total v) as [t ->]; [by apply negb_true_iff, Z.eqb_neq in Hv|]. by apply fmap_is_Some, Hr. }
  destruct (f =? 117), (f =? 120), (f =? 88), (f =? 112), (f =? 99), (f =? 115); cbn [orb] in Hok;
    try (destruct args as [|[v|v] args]; try done; cbn;
      try (match goal with |- context [utoa (u32 ?v) ?b ?u] => destruct (utoa_total v b u) as [t ->]; [lia|] end);
      by apply fmap_is_Some, Hr).
  destruct (f =? 37); by apply fmap_is_Some, Hr.
Qed.

(** ** Programs whose output can be printed *)

Definition prints {S A} (m : M S A) : Prop := forall s, Forall printable (output m s).

Section prints.
Context {S : Type}.

Lemma prints_silent {A} (m : M S A) : silent m -> prints m.
Proof. intros Hm s. by rewrite Hm. Qed.

Lemma prints_bind {A B} (m : M S A) (f : A -> M S B) : prints m -> (forall a, prints (f a)) -> prints (bind m f).
Proof. intros Hm Hf s. rewrite output_bind. apply Forall_app. split; [apply Hm|]. destruct (exec m s) as [[a|w] s']; [apply Hf|done]. Qed.

Lemma prints_emit e : printable e -> prints (S := S) (emit e).
Proof. intros He s. by repeat constructor. Qed.

Lemma prints_for_each {A} (l : list A) (f : A -> M S unit) : (forall x, prints (f x)) -> prints (for_each l f).
Proof. intros Hf. induction l; [by apply prints_silent|]. by apply prints_bind. Qed.

Lemma prints_for_find {A B} (l : list A) (f : A -> M S (option B)) : (forall x, prints (f x)) -> prints (for_find l f).
Proof. intros Hf. induction l as [|x l IH]; [by apply prints_silent|]. apply prints_bind; [apply Hf|]. intros [b|]; [by apply prints_silent|apply IH]. Qed.

Lemma prints_for_state {A L B} (l : list A) (f : A -> L -> M S (L + B)) loc :
  (forall x y, prints (f x y)) -> prints (for_state l f loc).
Proof.
  intros Hf. revert loc. induction l as [|x l IH]; intros loc; [by apply prints_silent|].
  apply prints_bind; [apply Hf|]. intros [y|b]; [apply IH|by apply prints_silent].
Qed.

Lemma prints_iterate {A B} n (f : A -> M S (A + B)) a : (forall x, prints (f x)) -> prints (iterate n f a).
Proof.
  intros Hf. revert a. induction n as [|n IH]; intros a; [by apply prints_silent|].
  apply prints_bind; [apply Hf|]. intros [y|b]; [apply IH|by apply prints_silent].
Qed.

Lemma prints_zoom {T A} (g : S -> T) (p : T -> S -> S) (m : M T A) : prints m -> prints (zoom g p m).
Proof. intros Hm s. specialize (Hm (g s)). unfold output, zoom in *. by destruct (m (g s)) as [[r t] o]. Qed.

Lemma prints_kprintf fmt args : format_ok fmt args = true -> prints (S := S) (Prelude.kprintf fmt args).
Proof. intros Hf. apply prints_emit. by apply (format_ok_text (length fmt)). Qed.

Lemma prints_kprintf_color color fmt args : is_u8 color -> format_ok fmt args = true -> prints (S := S) (Prelude.kprintf_color color fmt args).
Proof. intros Hc Hf. apply prints_emit. split; [done|]. by apply (format_ok_text (length fmt)). Qed.

Lemma prints_write_color l color : is_u8 color -> prints (S := S) (Prelude.screen_write_color l color).
Proof. intros Hc. by apply prints_emit. Qed.

End prints.

Create HintDb prints.

(** Walk through a program; colours and formats are literals. *)
Ltac printing_step :=
  match goal with
  | |- forall _, _ => intros
  | |- prints (bind _ _) => apply prints_bind
  | |- prints (for_each _ _) => apply prints_for_each
  | |- prints (for_find _ _) => apply prints_for_find
  | |- prints (for_state _ _ _) => apply prints_for_state
  | |- prints (iterate _ _ _) => apply prints_iterate
  | |- prints (zoom _ _ _) => apply prints_zoom
  | |- prints (Prelude.kprintf _ _) => apply prints_kprintf; vm_compute; reflexivity
  | |- prints (Prelude.kprintf_color _ _ _) =>
      apply prints_kprintf_color; [unfold is_u8; vm_compute; split; congruence|vm_compute; reflexivity]
  | |- prints (Prelude.screen_write_color _ _) => apply prints_write_color; unfold is_u8; vm_compute; split; congruence
  | |- prints (Prelude.screen_write _) => apply prints_emit; exact I
  | |- prints (Prelude.screen_write_dec _) => apply prints_emit; exact I
  | |- prints (Prelude.screen_write_hex _) => apply prints_emit; exact I
  | |- prints (outb _ _) => apply prints_emit; exact I
  | |- prints (ret _) => apply prints_silent, silent_ret
  | |- prints get => apply prints_silent, silent_get
  | |- prints (gets _) => apply prints_silent, silent_gets
  | |- prints (modify _) => apply prints_silent, silent_modify
  | |- prints (stop_with _) => apply prints_silent, silent_stop
  | |- prints (defined _) => apply prints_silent, silent_defined
  | |- prints (match ?x with _ => _ end) => destruct x
  | |- prints _ => progress cbv zeta
  | |- prints _ => solve [eauto with prints nocore]
  end.
Ltac printing := repeat printing_step.

(** A program whose output can be printed does the same with the screen as
    alone. *)
Lemma exec_shown {T A} (m : M T A) s t : prints m -> screen_ok t ->
  exists t', exec (shown m) (s, t) = (fst (exec m s), (snd (exec m s), t')) /\ screen_ok t'.
Proof.
  intros Hm Ht. specialize (Hm s). unfold shown, exec, output in *. cbn [fst snd]. destruct (m s) as [[r s'] o]. cbn [fst snd] in *.
  destruct (exec_render_all o t Hm Ht) as (t' & E & Hok). unfold exec in E. destruct (for_each o render t) as [[r' t1] o']. cbn in E.
  injection E as -> ->. by exists t'.
Qed.
