(* ===== verification/Keyboard.v ===== *)
(** * keyboard.c: the keyboard driver and the line editor *)

From S2P Require Import Prelude CString Screen.

Definition KEYBOARD_BUFFER_SIZE := 256.
Definition KEY_LSHIFT := 42.
Definition KEY_RSHIFT := 54.
Definition KEY_LCTRL := 29.
Definition KEY_CAPS := 58.
Definition KEY_UP := 72.
Definition KEY_DOWN := 80.
Definition KEY_LEFT := 75.
Definition KEY_RIGHT := 77.
Definition KEY_HOME := 71.
Definition KEY_END := 79.
Definition KEY_DELETE := 83.
Definition SPECIAL_KEY_UP := 1.
Definition SPECIAL_KEY_DOWN := 2.
Definition SPECIAL_KEY_LEFT := 3.
Definition SPECIAL_KEY_RIGHT := 4.
Definition SPECIAL_KEY_HOME := 5.
Definition SPECIAL_KEY_END := 6.
Definition SPECIAL_KEY_DELETE := 7.

Record keyboard : Type := mk_keyboard {
  shift_pressed : bool;
  caps_lock : bool;
  ctrl_pressed : bool;
  extended_key : bool;
  keyboard_buffer : list Z;
  buffer_read_pos : Z;
  buffer_write_pos : Z
}.

Definition scancode_to_ascii_lower : list Z :=
  [0; 0] ++ c "1234567890-=" ++ [8; 9] ++ c "qwertyuiop[]" ++ [10; 0] ++ c "asdfghjkl;" ++ [39; 96; 0; 92]
  ++ c "zxcvbnm,./" ++ [0; 42; 0; 32].
Definition scancode_to_ascii_upper : list Z :=
  [0; 0] ++ c "!@#$%^&*()_+" ++ [8; 9] ++ c "QWERTYUIOP{}" ++ [10; 0] ++ c "ASDFGHJKL:" ++ [34; 126; 0; 124]
  ++ c "ZXCVBNM<>?" ++ [0; 42; 0; 32].

(** [a[i] = v;], nothing outside the array. *)
Definition store_at (a : list Z) (i : nat) (v : Z) : option (list Z) :=
  if (i <? length a)%nat then Some (<[i := v]> a) else None.

Lemma store_at_in a i v : (i < length a)%nat -> store_at a i v = Some (<[i := v]> a).
Proof. intros Hi. unfold store_at. by rewrite (proj2 (Nat.ltb_lt _ _) Hi). Qed.

Definition set_flags (shift caps ctrl ext : bool) : M keyboard unit :=
  modify (fun k => mk_keyboard shift caps ctrl ext (keyboard_buffer k) (buffer_read_pos k) (buffer_write_pos k)).

Definition keyboard_buffer_add (ch : Z) : M keyboard unit :=
  let! k := get in
  let next_pos := Z.rem (buffer_write_pos k + 1) KEYBOARD_BUFFER_SIZE in
  if negb (next_pos =? buffer_read_pos k) then
    let! buffer := defined (store_at (keyboard_buffer k) (Z.to_nat (buffer_write_pos k)) ch) in
    modify (fun k => mk_keyboard (shift_pressed k) (caps_lock k) (ctrl_pressed k) (extended_key k)
      buffer (buffer_read_pos k) next_pos)
  else ret tt.

Definition keyboard_getchar : M keyboard Z :=
  let! k := get in
  if buffer_read_pos k =? buffer_write_pos k then ret 0 else
  let! ch := defined (keyboard_buffer k !! Z.to_nat (buffer_read_pos k)) in
  modify (fun k => mk_keyboard (shift_pressed k) (caps_lock k) (ctrl_pressed k) (extended_key k)
    (keyboard_buffer k) (Z.rem (buffer_read_pos k + 1) KEYBOARD_BUFFER_SIZE) (buffer_write_pos k)) ;;
  ret ch.

Definition keyboard_has_input : M keyboard bool :=
  gets (fun k => negb (buffer_read_pos k =? buffer_write_pos k)).

Definition special_key (scancode : Z) : Z :=
  if scancode =? KEY_LEFT then SPECIAL_KEY_LEFT
  else if scancode =? KEY_RIGHT then SPECIAL_KEY_RIGHT
  else if scancode =? KEY_UP then SPECIAL_KEY_UP
  else if scancode =? KEY_DOWN then SPECIAL_KEY_DOWN
  else if scancode =? KEY_HOME then SPECIAL_KEY_HOME
  else if scancode =? KEY_END then SPECIAL_KEY_END
  else if scancode =? KEY_DELETE then SPECIAL_KEY_DELETE
  else 0.

(** [scancode] is the byte read from the data port. *)
Definition keyboard_handler (scancode : Z) : M keyboard unit :=
  let! k := get in
  let shift := shift_pressed k in
  let caps := caps_lock k in
  let ctrl := ctrl_pressed k in
  if scancode =? 224 then set_flags shift caps ctrl true else
  if negb (Z.land scancode 128 =? 0) then
    let scancode := Z.land scancode 127 in
    if (scancode =? KEY_LSHIFT) || (scancode =? KEY_RSHIFT) then set_flags false caps ctrl false
    else if scancode =? KEY_LCTRL then set_flags shift caps false false
    else set_flags shift caps ctrl false
  else if extended_key k then
    set_flags shift caps ctrl false ;;
    (if negb (special_key scancode =? 0) then keyboard_buffer_add (special_key scancode) else ret tt)
  else if (scancode =? KEY_LSHIFT) || (scancode =? KEY_RSHIFT) then set_flags true caps ctrl (extended_key k)
  else if scancode =? KEY_CAPS then set_flags shift (negb caps) ctrl (extended_key k)
  else if scancode =? KEY_LCTRL then set_flags shift caps true (extended_key k)
  else
    let ascii :=
      if scancode <? Z.of_nat (length scancode_to_ascii_lower) then
        if xorb shift caps && (scancode <? Z.of_nat (length scancode_to_ascii_upper))
        then scancode_to_ascii_upper !!! Z.to_nat scancode
        else scancode_to_ascii_lower !!! Z.to_nat scancode
      else 0 in
    if negb (ascii =? 0) then keyboard_buffer_add ascii else ret tt.

Definition keyboard_init : M keyboard unit :=
  modify (fun k => mk_keyboard false false false (extended_key k) (keyboard_buffer k) 0 0) ;;
  Prelude.screen_write_color (c "[KEYBOARD] ") (MAKE_COLOR COLOR_GREEN COLOR_BLACK) ;;
  Prelude.screen_write (c "Keyboard driver initialized\n").

(** ** The line editor *)

(** [for (i = from; i < from + n; i++) buffer[i] = buffer[i + 1];]  An access
    outside the array, here and in what follows, has no result. *)
Fixpoint shift_left (buffer : list Z) (from n : nat) : option (list Z) :=
  match n with
  | O => Some buffer
  | S n' => v ← buffer !! S from; b ← store_at buffer from v; shift_left b (S from) n'
  end.

(** [for (i = to + n; i > to; i--) buffer[i] = buffer[i - 1];] *)
Fixpoint shift_right (buffer : list Z) (n to : nat) : option (list Z) :=
  match n with
  | O => Some buffer
  | S n' => v ← buffer !! (to + n')%nat; b ← store_at buffer (to + n)%nat v; shift_right b n' to
  end.

(** Room for a character at the cursor, and the character. *)
Definition insert_at (buffer : list Z) (length0 cursor : nat) (ch : Z) : option (list Z) :=
  b ← (if (cursor <? length0)%nat then shift_right buffer (length0 - cursor) cursor else Some buffer);
  store_at b cursor ch.

(** [for (i = 0; i < n; i++) screen_putchar(buffer[i]);] *)
Definition put_line (buffer : list Z) (n : nat) : M screen unit :=
  for_each (seq 0 n) (fun i => let! ch := defined (buffer !! i) in screen_putchar ch).

(** Redrawing: the line from its start, then [tail]. *)
Definition redraw (start_row start_col : Z) (buffer : list Z) (length0 : nat) (tail : list Z) (cursor : nat)
    : M screen unit :=
  screen_set_cursor start_row start_col ;;
  put_line buffer length0 ;;
  for_each tail screen_putchar ;;
  screen_set_cursor start_row (start_col + Z.of_nat cursor).

(** One character of input: the buffer, the length and the cursor after it. *)
Definition edit_round (start_row start_col max_length : Z) (ch : Z) (st : list Z * nat * nat)
    : M screen (list Z * nat * nat) :=
  let '(buffer, length0, cursor) := st in
  if ch =? 8 then
    if (0 <? cursor)%nat then
      let! buffer := defined (shift_left buffer (cursor - 1) (length0 - cursor)) in
      redraw start_row start_col buffer (length0 - 1) [32] (cursor - 1) ;;
      ret (buffer, (length0 - 1)%nat, (cursor - 1)%nat)
    else ret st
  else if ch =? SPECIAL_KEY_LEFT then
    if (0 <? cursor)%nat then
      screen_set_cursor start_row (start_col + Z.of_nat (cursor - 1)) ;; ret (buffer, length0, (cursor - 1)%nat)
    else ret st
  else if ch =? SPECIAL_KEY_RIGHT then
    if (cursor <? length0)%nat then
      screen_set_cursor start_row (start_col + Z.of_nat (cursor + 1)) ;; ret (buffer, length0, (cursor + 1)%nat)
    else ret st
  else if ch =? SPECIAL_KEY_HOME then
    screen_set_cursor start_row start_col ;; ret (buffer, length0, 0%nat)
  else if ch =? SPECIAL_KEY_END then
    screen_set_cursor start_row (start_col + Z.of_nat length0) ;; ret (buffer, length0, length0)
  else if ch =? SPECIAL_KEY_DELETE then
    if (cursor <? length0)%nat then
      let! buffer := defined (shift_left buffer cursor (length0 - 1 - cursor)) in
      redraw start_row start_col buffer (length0 - 1) [32] cursor ;;
      ret (buffer, (length0 - 1)%nat, cursor)
    else ret st
  else if (32 <=? ch) && (ch <? 127) && (Z.of_nat length0 <? max_length - 1) then
    let! buffer := defined (insert_at buffer length0 cursor ch) in
    redraw start_row start_col buffer (length0 + 1) [] (cursor + 1) ;;
    ret (buffer, (length0 + 1)%nat, (cursor + 1)%nat)
  else ret st.

(** [input] are the characters [keyboard_getchar] delivers; without more input
    the CPU waits for an interrupt.  The result is the buffer and what is left of
    the input. *)
Fixpoint get_line_loop (start_row start_col max_length : Z) (input : list Z) (st : list Z * nat * nat)
    : M screen (list Z * list Z) :=
  match input with
  | [] => stop_with Halted
  | ch :: rest =>
      if ch =? 10 then
        let '(buffer, length0, _) := st in
        let! buffer := defined (store_at buffer length0 0) in
        screen_putchar 10 ;;
        ret (buffer, rest)
      else
        let! st' := edit_round start_row start_col max_length ch st in
        get_line_loop start_row start_col max_length rest st'
  end.

Definition keyboard_get_line (input : list Z) (buffer : list Z) (max_length : Z) : M screen (list Z * list Z) :=
  let! start_col := screen_get_cursor_col in
  let! start_row := screen_get_cursor_row in
  get_line_loop start_row start_col max_length input (buffer, 0%nat, 0%nat).

(** ** The ring buffer is a queue *)

Record keyboard_ok (k : keyboard) : Prop := {
  ko_length : length (keyboard_buffer k) = 256%nat;
  ko_read : 0 <= buffer_read_pos k < 256;
  ko_write : 0 <= buffer_write_pos k < 256
}.

Definition pending_count (k : keyboard) : Z := (buffer_write_pos k - buffer_read_pos k) mod 256.

(** The characters waiting to be read, oldest first. *)
Definition pending (k : keyboard) : list Z :=
  (fun i => keyboard_buffer k !!! Z.to_nat ((buffer_read_pos k + i) mod 256)) <$> seqZ 0 (pending_count k).

Lemma pending_length k : length (pending k) = Z.to_nat (pending_count k).
Proof. unfold pending. by rewrite length_fmap, length_seqZ. Qed.

Lemma exec_buffer_add k ch :
  keyboard_ok k ->
  exists k', exec (keyboard_buffer_add ch) k = (Val tt, k') /\ keyboard_ok k' /\
    pending k' = (if decide (length (pending k) < 255)%nat then pending k ++ [ch] else pending k) /\
    shift_pressed k' = shift_pressed k /\ caps_lock k' = caps_lock k /\
    ctrl_pressed k' = ctrl_pressed k /\ extended_key k' = extended_key k.
Proof.
  intros [Hl Hr Hw]. unfold keyboard_buffer_add, KEYBOARD_BUFFER_SIZE. run.
  rewrite Z.rem_mod_nonneg by lia.
  pose proof (Z.mod_pos_bound (buffer_write_pos k - buffer_read_pos k) 256 ltac:(lia)) as Hp.
  assert (length (pending k) = Z.to_nat ((buffer_write_pos k - buffer_read_pos k) mod 256)) as Hlen by apply pending_length.
  destruct (Z.eqb_spec ((buffer_write_pos k + 1) mod 256) (buffer_read_pos k)) as [Hfull|Hroom]; cbn [negb].
  - rewrite decide_False by (rewrite Hlen; dlia). exists k. by split_and!.
  - rewrite decide_True by (rewrite Hlen; dlia). rewrite store_at_in by lia. run. eexists. split; [done|]. split.
    + split; cbn; [by rewrite length_insert|lia|apply Z.mod_pos_bound; lia].
    + split_and!; [|done..]. unfold pending, pending_count.
      cbn [keyboard_buffer buffer_read_pos buffer_write_pos].
      assert (((buffer_write_pos k + 1) mod 256 - buffer_read_pos k) mod 256 =
        (buffer_write_pos k - buffer_read_pos k) mod 256 + 1) as -> by dlia.
      rewrite seqZ_app, fmap_app by lia. f_equal.
      * apply list_fmap_ext. intros i x Hx. apply lookup_seqZ in Hx as [-> Hi].
        rewrite list_lookup_total_insert_ne; [done|].
        pose proof (Z.mod_pos_bound (buffer_read_pos k + (0 + Z.of_nat i)) 256 ltac:(lia)). dlia.
      * unfold seqZ. cbn [Z.to_nat]. simpl. f_equal.
        replace (Z.to_nat ((buffer_read_pos k + (Z.of_nat 0 + (0 + (buffer_write_pos k - buffer_read_pos k) mod 256))) mod 256))
          with (Z.to_nat (buffer_write_pos k)) by dlia.
        apply list_lookup_total_insert_eq. lia.
Qed.

Lemma exec_getchar k :
  keyboard_ok k ->
  match pending k with
  | [] => exec keyboard_getchar k = (Val 0, k)
  | ch :: rest => exists k', exec keyboard_getchar k = (Val ch, k') /\ keyboard_ok k' /\ pending k' = rest
  end.
Proof.
  intros [Hl Hr Hw]. pose proof (pending_length k) as Hlen. unfold pending_count in Hlen.
  pose proof (Z.mod_pos_bound (buffer_write_pos k - buffer_read_pos k) 256 ltac:(lia)) as Hp.
  unfold keyboard_getchar, KEYBOARD_BUFFER_SIZE. rewrite exec_bind, exec_get. cbv beta iota.
  destruct (Z.eqb_spec (buffer_read_pos k) (buffer_write_pos k)) as [E|E].
  - rewrite E, Z.sub_diag in Hlen. by destruct (pending k).
  - assert (0 < (buffer_write_pos k - buffer_read_pos k) mod 256) as Hpos by dlia.
    unfold pending, pending_count. rewrite seqZ_cons by lia. cbn [fmap list_fmap].
    rewrite Z.add_0_r, (Z.mod_small (buffer_read_pos k)) by lia.
    rewrite (list_lookup_lookup_total_lt (keyboard_buffer k) (Z.to_nat (buffer_read_pos k))) by lia. run.
    rewrite Z.rem_mod_nonneg by lia. eexists. split; [done|]. split.
    + split; cbn; [done|apply Z.mod_pos_bound; lia|lia].
    + cbn [buffer_write_pos buffer_read_pos keyboard_buffer].
      assert ((buffer_write_pos k - (buffer_read_pos k + 1) mod 256) mod 256 =
        Z.pred ((buffer_write_pos k - buffer_read_pos k) mod 256)) as -> by dlia.
      apply list_eq. intros i. rewrite !list_lookup_fmap.
      destruct (decide (Z.of_nat i < Z.pred ((buffer_write_pos k - buffer_read_pos k) mod 256))) as [Hi|Hi].
      * rewrite !lookup_seqZ_lt by lia. cbn [fmap option_fmap option_map]. do 3 f_equal. dlia.
      * by rewrite !lookup_seqZ_ge by lia.
Qed.

(** ** The line editor edits a line of text *)

(** What a key does to a line and the cursor in it. *)
Definition edit (max : Z) (lc : list Z * nat) (ch : Z) : list Z * nat :=
  let '(line, cur) := lc in
  if ch =? 8 then
    if (0 <? cur)%nat then (take (cur - 1) line ++ drop cur line, (cur - 1)%nat) else lc
  else if ch =? SPECIAL_KEY_LEFT then (line, (cur - 1)%nat)
  else if ch =? SPECIAL_KEY_RIGHT then (line, Nat.min (cur + 1) (length line))
  else if ch =? SPECIAL_KEY_HOME then (line, 0%nat)
  else if ch =? SPECIAL_KEY_END then (line, length line)
  else if ch =? SPECIAL_KEY_DELETE then (take cur line ++ drop (S cur) line, cur)
  else if (32 <=? ch) && (ch <? 127) && (Z.of_nat (length line) <? max - 1) then
    (take cur line ++ ch :: drop cur line, (cur + 1)%nat)
  else lc.

Lemma shift_left_lookup n : forall (b : list Z) from, (from + n < length b)%nat ->
  exists b', shift_left b from n = Some b' /\ length b' = length b /\
    forall i, b' !!! i = if decide (from <= i < from + n)%nat then b !!! S i else b !!! i.
Proof.
  induction n as [|n IH]; intros b from Hn; cbn [shift_left].
  - exists b. split_and!; [done|done|]. intros i. by rewrite decide_False by lia.
  - rewrite (list_lookup_lookup_total_lt b (S from)) by lia. cbn [mbind option_bind]. rewrite store_at_in by lia. cbn [mbind option_bind].
    destruct (IH (<[from := b !!! S from]> b) (S from)) as (b' & E & Hl & Hi); [rewrite length_insert; lia|].
    rewrite length_insert in Hl. exists b'. split_and!; [done|done|]. intros i. rewrite Hi.
    destruct (decide (i = from)) as [->|Hne].
    + rewrite decide_False by lia. rewrite decide_True by lia. apply list_lookup_total_insert_eq. lia.
    + destruct (decide (S from <= i < S from + n)%nat).
      * rewrite decide_True by lia. by rewrite list_lookup_total_insert_ne by lia.
      * rewrite decide_False by lia. by rewrite list_lookup_total_insert_ne by lia.
Qed.

Lemma shift_right_lookup n : forall b to, (to + n < length b)%nat ->
  exists b', shift_right b n to = Some b' /\ length b' = length b /\
    forall i, b' !!! i = if decide (to < i <= to + n)%nat then b !!! (i - 1)%nat else b !!! i.
Proof.
  induction n as [|n IH]; intros b to Hn; cbn [shift_right].
  - exists b. split_and!; [done|done|]. intros i. by rewrite decide_False by lia.
  - rewrite (list_lookup_lookup_total_lt b (to + n)) by lia. cbn [mbind option_bind]. rewrite store_at_in by lia. cbn [mbind option_bind].
    destruct (IH (<[(to + S n)%nat := b !!! (to + n)%nat]> b) to) as (b' & E & Hl & Hi); [rewrite length_insert; lia|].
    rewrite length_insert in Hl. exists b'. split_and!; [done|done|]. intros i. rewrite Hi.
    destruct (decide (i = to + S n)%nat) as [->|Hne].
    + rewrite decide_False by lia. rewrite decide_True by lia.
      rewrite list_lookup_total_insert_eq by lia. f_equal. lia.
    + destruct (decide (to < i <= to + n)%nat).
      * rewrite decide_True by lia. by rewrite list_lookup_total_insert_ne by lia.
      * rewrite decide_False by lia. by rewrite list_lookup_total_insert_ne by done.
Qed.

(** Two arrays that agree on the first [n] elements. *)
Lemma take_eq (l1 l2 : list Z) n :
  (n <= length l1)%nat -> (n <= length l2)%nat -> (forall i, (i < n)%nat -> l1 !!! i = l2 !!! i) ->
  take n l1 = take n l2.
Proof.
  intros H1 H2 H. apply list_eq. intros i. destruct (decide (i < n)%nat) as [Hi|Hi].
  - rewrite !lookup_take_lt by done. rewrite !list_lookup_lookup_total_lt by lia. by rewrite H.
  - by rewrite !lookup_take_ge by lia.
Qed.

(** Removing the character at [from] from the line of [n + 1] characters. *)
Lemma shift_left_line b from n :
  (from <= n)%nat -> (n < length b)%nat ->
  exists b', shift_left b from (n - from) = Some b' /\ length b' = length b /\
    take n b' = take from b ++ drop (S from) (take (S n) b).
Proof.
  intros Hf Hn. destruct (shift_left_lookup (n - from) b from ltac:(lia)) as (b' & E & Hl & Hs). exists b'. split; [done|]. split; [done|].
  assert (length (take from b ++ drop (S from) (take (S n) b)) = n) as Hlen.
  { rewrite length_app, length_drop, !length_take. lia. }
  rewrite <- (take_ge (take from b ++ drop (S from) (take (S n) b)) n) by lia.
  apply take_eq; [lia|lia|]. intros i Hi. rewrite Hs.
  destruct (decide (i < from)%nat) as [Hlt|Hge].
  - rewrite decide_False by lia. rewrite lookup_total_app_l by (rewrite length_take; lia).
    symmetry. by apply lookup_total_take_lt.
  - rewrite decide_True by lia. rewrite lookup_total_app_r by (rewrite length_take; lia).
    rewrite length_take, lookup_total_drop, lookup_total_take_lt by lia. f_equal. lia.
Qed.

(** Inserting a character at [cur] in the line of [n] characters. *)
Lemma insert_line b cur n ch :
  (cur <= n)%nat -> (n < length b)%nat ->
  exists b', insert_at b n cur ch = Some b' /\ length b' = length b /\ take (n + 1) b' = take cur b ++ ch :: drop cur (take n b).
Proof.
  intros Hc Hn. unfold insert_at.
  assert (exists b0, (if (cur <? n)%nat then shift_right b (n - cur) cur else Some b) = Some b0 /\ length b0 = length b /\
    forall i, b0 !!! i = if decide (cur < i <= n)%nat then b !!! (i - 1)%nat else b !!! i) as (b0 & -> & Hl0 & H0).
  { destruct (Nat.ltb_spec cur n).
    - destruct (shift_right_lookup (n - cur) b cur ltac:(lia)) as (b' & E & Hl & Hs). exists b'. split_and!; [done|done|].
      intros i. rewrite Hs. by replace (cur + (n - cur))%nat with n by lia.
    - exists b. split_and!; [done|done|]. intros i. by rewrite decide_False by lia. }
  cbn [mbind option_bind]. rewrite store_at_in by lia. eexists. split; [done|]. rewrite length_insert. split; [done|].
  assert (length (take cur b ++ ch :: drop cur (take n b)) = (n + 1)%nat) as Hlen.
  { rewrite length_app. simpl. rewrite length_drop, !length_take. lia. }
  rewrite <- (take_ge (take cur b ++ ch :: drop cur (take n b)) (n + 1)) by lia.
  apply take_eq; [rewrite length_insert; lia|lia|]. intros i Hi.
  destruct (decide (i = cur)) as [->|Hne].
  - rewrite list_lookup_total_insert_eq by lia. rewrite lookup_total_app_r by (rewrite length_take; lia).
    rewrite length_take, Nat.min_l, Nat.sub_diag by lia. done.
  - rewrite list_lookup_total_insert_ne, H0 by done. destruct (decide (i < cur)%nat) as [Hlt|Hge].
    + rewrite decide_False by lia. rewrite lookup_total_app_l by (rewrite length_take; lia).
      symmetry. by apply lookup_total_take_lt.
    + rewrite decide_True by lia. rewrite lookup_total_app_r by (rewrite length_take; lia).
      rewrite length_take, Nat.min_l by lia. replace (i - cur)%nat with (S (i - cur - 1)) by lia.
      change ((ch :: drop cur (take n b)) !!! S (i - cur - 1)) with (drop cur (take n b) !!! (i - cur - 1)%nat).
      rewrite lookup_total_drop, lookup_total_take_lt by lia. f_equal. lia.
Qed.

(** The editor's variables stand for a line and a cursor in it. *)
Definition line_rep (max : Z) (b0 : list Z) (st : list Z * nat * nat) (lc : list Z * nat) : Prop :=
  let '(buffer, length0, cursor) := st in
  length buffer = length b0 /\ lc = (take length0 buffer, cursor) /\ (cursor <= length0)%nat /\
  Z.of_nat length0 <= max - 1 /\ max <= Z.of_nat (length b0).

Lemma exec_put_line b n s : (n <= length b)%nat -> screen_ok s ->
  exists s', exec (put_line b n) s = (Val tt, s') /\ screen_ok s'.
Proof.
  intros Hn Hs. apply (exec_for_each_inv screen_ok); [done|]. intros i s1 Hi H1. apply elem_of_seq in Hi.
  rewrite (list_lookup_lookup_total_lt b i) by lia. rewrite exec_bind, exec_defined_Some. exact (screen_run_ok (Putchar (b !!! i)) s1 H1).
Qed.

Lemma exec_redraw r col b n t cur s : (n <= length b)%nat -> screen_ok s ->
  exists s', exec (redraw r col b n t cur) s = (Val tt, s') /\ screen_ok s'.
Proof.
  intros Hn Hs. unfold redraw. rewrite exec_bind.
  destruct (screen_run_ok (SetCursor r col) s Hs) as (s1 & E1 & H1). cbn [screen_run] in E1.
  rewrite E1. cbv iota. rewrite exec_bind. destruct (exec_put_line b n s1 Hn H1) as (s2 & -> & H2). cbv iota. rewrite exec_bind.
  destruct (exec_for_each_inv screen_ok screen_putchar t s2 H2) as (s3 & E3 & H3).
  { intros ch s3 _ H3. exact (screen_run_ok (Putchar ch) s3 H3). }
  rewrite E3. cbv iota. exact (screen_run_ok (SetCursor r (col + Z.of_nat cur)) s3 H3).
Qed.

Lemma exec_set_cursor r col s : screen_ok s ->
  exists s', exec (screen_set_cursor r col) s = (Val tt, s') /\ screen_ok s'.
Proof. intros Hs. exact (screen_run_ok (SetCursor r col) s Hs). Qed.

Lemma edit_round_refines r col max b0 ch st lc s :
  line_rep max b0 st lc -> screen_ok s ->
  exists st' s', exec (edit_round r col max ch st) s = (Val st', s') /\ screen_ok s' /\
    line_rep max b0 st' (edit max lc ch).
Proof.
  destruct st as [[b n] cur]. intros (Hb & -> & Hc & Hn & Hm) Hs. unfold edit_round, edit.
  assert (length (take n b) = n) as Htn by (rewrite length_take; lia). rewrite Htn.
  destruct (ch =? 8).
  { destruct (Nat.ltb_spec 0 cur) as [Hpos|Hz]; [|by eexists _, _].
    destruct (shift_left_line b (cur - 1) (n - 1) ltac:(lia) ltac:(lia)) as (b' & E & Hl & Ht).
    replace (n - 1 - (cur - 1))%nat with (n - cur)%nat in E by lia. rewrite E, exec_bind, exec_defined_Some. cbv iota.
    rewrite exec_bind. destruct (exec_redraw r col b' (n - 1) [32] (cur - 1) s ltac:(lia) Hs) as (s' & -> & Hs').
    eexists _, _. split; [done|]. split; [done|].
    split_and!; [lia| |lia|lia|lia]. f_equal. rewrite Ht.
    replace (S (n - 1)) with n by lia. replace (S (cur - 1)) with cur by lia.
    rewrite take_take. by replace (Nat.min (cur - 1) n) with (cur - 1)%nat by lia. }
  destruct (ch =? SPECIAL_KEY_LEFT).
  { destruct (Nat.ltb_spec 0 cur) as [Hpos|Hz].
    - rewrite exec_bind. destruct (exec_set_cursor r (col + Z.of_nat (cur - 1)) s Hs) as (s' & -> & Hs').
      eexists _, _. split; [done|]. split; [done|]. split_and!; (done || lia).
    - eexists _, _. split; [done|]. split; [done|]. split_and!; try done; f_equal; lia. }
  destruct (ch =? SPECIAL_KEY_RIGHT).
  { destruct (Nat.ltb_spec cur n) as [Hpos|Hz].
    - rewrite exec_bind. destruct (exec_set_cursor r (col + Z.of_nat (cur + 1)) s Hs) as (s' & -> & Hs').
      eexists _, _. split; [done|]. split; [done|]. split_and!; try done; [f_equal; lia|lia].
    - eexists _, _. split; [done|]. split; [done|]. split_and!; try done; [f_equal; lia]. }
  destruct (ch =? SPECIAL_KEY_HOME).
  { rewrite exec_bind. destruct (exec_set_cursor r col s Hs) as (s' & -> & Hs').
    eexists _, _. split; [done|]. split; [done|]. split_and!; (done || lia). }
  destruct (ch =? SPECIAL_KEY_END).
  { rewrite exec_bind. destruct (exec_set_cursor r (col + Z.of_nat n) s Hs) as (s' & -> & Hs').
    eexists _, _. split; [done|]. split; [done|]. split_and!; (done || lia). }
  destruct (ch =? SPECIAL_KEY_DELETE).
  { destruct (Nat.ltb_spec cur n) as [Hpos|Hz].
    - destruct (shift_left_line b cur (n - 1) ltac:(lia) ltac:(lia)) as (b' & E & Hl & Ht). rewrite E, exec_bind, exec_defined_Some. cbv iota.
      rewrite exec_bind. destruct (exec_redraw r col b' (n - 1) [32] cur s ltac:(lia) Hs) as (s' & -> & Hs').
      eexists _, _. split; [done|]. split; [done|].
      split_and!; [lia| |lia|lia|lia]. f_equal. rewrite Ht. replace (S (n - 1)) with n by lia.
      rewrite take_take. by replace (Nat.min cur n) with cur by lia.
    - eexists _, _. split; [done|]. split; [done|]. split_and!; try done.
      f_equal. rewrite drop_ge, app_nil_r, take_take by lia. by replace (Nat.min cur n) with n by lia. }
  destruct ((32 <=? ch) && (ch <? 127) && (Z.of_nat n <? max - 1)) eqn:E; [|by eexists _, _].
  destruct (insert_line b cur n ch ltac:(lia) ltac:(lia)) as (b' & Eb & Hl & Ht). rewrite Eb, exec_bind, exec_defined_Some. cbv iota.
  rewrite exec_bind. destruct (exec_redraw r col b' (n + 1) [] (cur + 1) s ltac:(lia) Hs) as (s' & -> & Hs').
  eexists _, _. split; [done|]. split; [done|].
  split_and!; [lia| |lia|lia|lia]. f_equal. rewrite Ht, take_take.
  by replace (Nat.min cur n) with cur by lia.
Qed.

Lemma get_line_refines r col max b0 input : forall rest st lc s,
  Forall (fun ch => ch <> 10) input -> line_rep max b0 st lc -> screen_ok s ->
  exists b n s', exec (get_line_loop r col max (input ++ 10 :: rest) st) s = (Val (<[n := 0]> b, rest), s') /\
    screen_ok s' /\ length b = length b0 /\ (n < length b)%nat /\ Z.of_nat n <= max - 1 /\
    take n b = fst (foldl (edit max) lc input).
Proof.
  induction input as [|ch input IH]; intros rest st lc s Hin Hrep Hs; cbn [app get_line_loop foldl].
  - destruct st as [[b n] cur]. destruct Hrep as (Hb & -> & Hc & Hn & Hm).
    rewrite Z.eqb_refl, store_at_in, exec_bind, exec_defined_Some by lia. cbv iota. rewrite exec_bind.
    destruct (screen_run_ok (Putchar 10) s Hs) as (s' & E & Hs'). cbn [screen_run] in E. rewrite E. cbv iota. exists b, n, s'. split_and!; (done || lia).
  - inversion Hin as [|? ? Hch Hin']; subst. rewrite (proj2 (Z.eqb_neq ch 10) Hch), exec_bind.
    destruct (edit_round_refines r col max b0 ch st lc s Hrep Hs) as (st' & s' & -> & Hs' & Hrep'). cbv iota.
    by apply IH.
Qed.

Lemma edit_chars max lc ch :
  (ch <> 0 -> Forall (fun x => x <> 0) (fst lc) -> Forall (fun x => x <> 0) (fst (edit max lc ch))).
Proof.
  intros Hch Hl. destruct lc as [line cur]. unfold edit. cbn [fst] in *.
  repeat case_match; cbn [fst]; try done;
    rewrite ?Forall_app, ?Forall_cons; auto using Forall_take, Forall_drop.
Qed.

(** ** The theorems *)

(** The keyboard buffer is a queue of at most 255 characters: a character
    added is delivered after all the earlier ones; when the buffer is full it
    is dropped and nothing else changes. *)
Theorem keyboard_buffer_fifo k ch :
  keyboard_ok k ->
  exists k', exec (keyboard_buffer_add ch) k = (Val tt, k') /\ keyboard_ok k' /\
    pending k' = (if decide (length (pending k) < 255)%nat then pending k ++ [ch] else pending k) /\
    match pending k' with
    | [] => exec keyboard_getchar k' = (Val 0, k')
    | first :: rest => exists k2, exec keyboard_getchar k' = (Val first, k2) /\ keyboard_ok k2 /\ pending k2 = rest
    end.
Proof.
  intros Hk. destruct (exec_buffer_add k ch Hk) as (k' & E & Hk' & Hp & _).
  exists k'. split_and!; [done|done|done|]. by apply exec_getchar.
Qed.

Definition keyboard0 : keyboard := mk_keyboard false false false false (replicate 256 0) 255 255.

Lemma keyboard0_ok : keyboard_ok keyboard0.
Proof. split; [apply length_replicate|cbn; lia|cbn; lia]. Qed.

Lemma keyboard_buffer_fifo_witness : exists k',
  exec (keyboard_buffer_add 65) keyboard0 = (Val tt, k') /\ pending k' = [65].
Proof.
  destruct (keyboard_buffer_fifo keyboard0 65 keyboard0_ok) as (k' & E & _ & Hp & _).
  exists k'. split; [exact E|exact Hp].
Defined.

(** [keyboard_get_line] is an editor: whatever keys are pressed before Enter,
    it returns, the buffer holds - terminated, inside its [max_length] bytes - the
    line that the keys make by inserting and deleting at the cursor, and the
    characters after Enter are left for the next call. *)
Theorem get_line_edits input rest buffer max s :
  Forall (fun ch => ch <> 10 /\ ch <> 0) input -> 0 < max <= Z.of_nat (length buffer) -> screen_ok s ->
  exists b s', exec (keyboard_get_line (input ++ 10 :: rest) buffer max) s = (Val (b, rest), s') /\
    screen_ok s' /\ length b = length buffer /\
    holds b (fst (foldl (edit max) ([], 0%nat) input)) /\
    Z.of_nat (length (fst (foldl (edit max) ([], 0%nat) input))) < max.
Proof.
  intros Hin Hmax Hs. unfold keyboard_get_line, screen_get_cursor_col, screen_get_cursor_row. run.
  assert (Forall (fun ch => ch <> 10) input /\ Forall (fun ch => ch <> 0) input) as [H10 H0].
  { split; eapply Forall_impl; [| exact Hin| |exact Hin]; simpl; tauto. }
  destruct (get_line_refines (cursor_row s) (cursor_col s) max buffer input rest (buffer, 0%nat, 0%nat) ([], 0%nat) s)
    as (b & n & s' & E & Hs' & Hl & Hn & Hnm & Ht); [done| |done|].
  { split_and!; (done || lia). }
  exists (<[n := 0]> b), s'. rewrite <- Ht. split_and!; [exact E|done|by rewrite length_insert| |].
  - exists (drop (S n) b). split.
    + by apply insert_take_drop.
    + rewrite Ht. assert (Forall (fun x => x <> 0) (fst ((@nil Z), 0%nat))) as Hnil by constructor.
      revert Hnil. generalize (@nil Z, 0%nat). clear -H0. induction H0 as [|ch input Hch H0 IH]; intros lc Hlc; [done|].
      cbn [foldl]. apply IH. by apply edit_chars.
  - rewrite length_take. lia.
Qed.

Lemma get_line_edits_witness : exists b s',
  exec (keyboard_get_line ([104; 106; 8; 105; 3; 3; 111; 7] ++ 10 :: [120]) (replicate 16 1) 16) screen0
    = (Val (b, [120]), s') /\ holds b (fst (foldl (edit 16) ([], 0%nat) [104; 106; 8; 105; 3; 3; 111; 7])).
Proof.
  destruct (get_line_edits [104; 106; 8; 105; 3; 3; 111; 7] [120] (replicate 16 1) 16 screen0)
    as (b & s' & E & _ & _ & Hh & _).
  - by repeat constructor.
  - cbn. lia.
  - exact screen0_ok.
  - exists b, s'. split; [exact E|exact Hh].
Defined.

(** The handler only changed the modifier flags. *)
Ltac flags_only := eexists; split; [done|]; split_and!; [by split|by left|done].

(** The interrupt handler, on any byte from the keyboard and in any state of
    the modifier keys, returns with the buffer in order; it adds at most one
    character, at the end, and none at all for the release of a key. *)
Theorem keyboard_handler_safe k scancode :
  keyboard_ok k ->
  exists k', exec (keyboard_handler scancode) k = (Val tt, k') /\ keyboard_ok k' /\
    (pending k' = pending k \/ exists ch, ch <> 0 /\ pending k' = pending k ++ [ch]) /\
    (Z.land scancode 128 <> 0 -> pending k' = pending k).
Proof.
  intros Hk. pose proof Hk as [Hl Hr Hw]. unfold keyboard_handler, set_flags. rewrite exec_bind, exec_get. cbv beta iota zeta.
  assert (forall k1 ch, keyboard_ok k1 -> pending k1 = pending k -> ch <> 0 ->
    exists k', exec (keyboard_buffer_add ch) k1 = (Val tt, k') /\ keyboard_ok k' /\
    (pending k' = pending k \/ exists ch, ch <> 0 /\ pending k' = pending k ++ [ch])) as Hadd.
  { intros k1 ch Hk1 Hp Hch. destruct (exec_buffer_add k1 ch Hk1) as (k' & E & Hk' & Hp' & _).
    exists k'. split_and!; [done|done|]. rewrite Hp in Hp'. case_decide; [right; by exists ch|by left]. }
  destruct (scancode =? 224); [flags_only|].
  destruct (Z.eqb_spec (Z.land scancode 128) 0) as [H0|H0]; cbn [negb].
  2: { repeat case_match; flags_only. }
  destruct (extended_key k).
  { rewrite exec_bind, exec_modify. cbv iota. destruct (Z.eqb_spec (special_key scancode) 0) as [Hz|Hz]; cbn [negb].
    - flags_only.
    - edestruct Hadd as (k' & E & Hk' & Hp'); [| |exact Hz|exists k'; by split_and!]; [by split|done]. }
  destruct ((scancode =? KEY_LSHIFT) || (scancode =? KEY_RSHIFT));
    [flags_only|].
  destruct (scancode =? KEY_CAPS); [flags_only|].
  destruct (scancode =? KEY_LCTRL); [flags_only|].
  match goal with |- context [negb (?a =? 0)] => set (ascii := a) end.
  destruct (Z.eqb_spec ascii 0) as [Hz|Hz]; cbn [negb].
  - exists k. split; [done|]. split_and!; [done|by left|done].
  - destruct (Hadd k ascii Hk eq_refl Hz) as (k' & E & Hk' & Hp'). exists k'. by split_and!.
Qed.

Lemma keyboard_handler_safe_witness : exists k',
  exec (keyboard_handler 30) keyboard0 = (Val tt, k') /\ keyboard_ok k'.
Proof.
  destruct (keyboard_handler_safe keyboard0 30 keyboard0_ok) as (k' & E & Hk & _).
  exists k'. split; [exact E|exact Hk].
Defined.
