(* ===== verification/Paging.v ===== *)
(** * paging.c: page directories and page tables

    The page tables live in physical memory as 32-bit entries, 1024 to a page.
    The kernel reaches physical memory at its own addresses: the first 16 MB are
    mapped one to one in every directory, which is what [paging_init] and
    [paging_create_user_directory] are shown to do.  The state has the memory,
    the page allocator, the registers CR0 and CR3, and the translations the CPU
    may have cached; a cached one goes away when its page is flushed or CR3 is
    loaded. *)

From S2P Require Import Prelude Bits CString Mem Pmm Alloc Process.

Definition PAGE_PRESENT := 1.
Definition PAGE_WRITE := 2.
Definition PAGE_USER := 4.
Definition PAGE_KERNEL := Z.lor PAGE_PRESENT PAGE_WRITE.
Definition PAGE_USER_MODE := Z.lor (Z.lor PAGE_PRESENT PAGE_WRITE) PAGE_USER.
Definition PAGE_DIRECTORY_ENTRIES := 1024.
Definition PAGE_TABLE_ENTRIES := 1024.
Definition USER_CODE_BASE := 1073741824.     (* 0x40000000 *)
Definition USER_STACK_BASE := 2147483648.    (* 0x80000000 *)
Definition PAGE_MASK := 4294963200.          (* 0xFFFFF000 *)

Record mm : Type := mk_mm {
  mm_mem : mem;
  mm_pmm : pmm;
  current_directory : Z;
  cr0 : Z;
  cr3 : Z;
  tlb : Z -> option Z            (* by page number: a cached page table entry *)
}.

Definition set_mem (f : mem -> mem) (m : mm) : mm :=
  mk_mm (f (mm_mem m)) (mm_pmm m) (current_directory m) (cr0 m) (cr3 m) (tlb m).
Definition set_pmm (p : pmm) (m : mm) : mm :=
  mk_mm (mm_mem m) p (current_directory m) (cr0 m) (cr3 m) (tlb m).
Definition set_current (d : Z) (m : mm) : mm :=
  mk_mm (mm_mem m) (mm_pmm m) d (cr0 m) (cr3 m) (tlb m).
Definition set_cr0 (v : Z) (m : mm) : mm :=
  mk_mm (mm_mem m) (mm_pmm m) (current_directory m) v (cr3 m) (tlb m).
(** Loading CR3 empties the cache: no page is global. *)
Definition set_cr3 (v : Z) (m : mm) : mm :=
  mk_mm (mm_mem m) (mm_pmm m) (current_directory m) (cr0 m) v (fun _ => None).
Definition set_tlb (t : Z -> option Z) (m : mm) : mm :=
  mk_mm (mm_mem m) (mm_pmm m) (current_directory m) (cr0 m) (cr3 m) t.

(** ** Addresses and entries *)

Definition get_page_dir_index (virtual_addr : Z) : Z := Z.shiftr virtual_addr 22.
Definition get_page_table_index (virtual_addr : Z) : Z := Z.land (Z.shiftr virtual_addr 12) 1023.
Definition get_page_offset (virtual_addr : Z) : Z := Z.land virtual_addr 4095.

Definition make_pde (page_table_addr flags : Z) : Z :=
  Z.lor (Z.land page_table_addr PAGE_MASK) (Z.land flags 4095).
Definition make_pte (physical_addr flags : Z) : Z :=
  Z.lor (Z.land physical_addr PAGE_MASK) (Z.land flags 4095).

(** [table->entries[i]]; a NULL pointer is undefined behaviour. *)
Definition read_entry (table i : Z) : M mm Z :=
  if table =? 0 then stop_with Undefined else gets (fun m => load32 (mm_mem m) (table + 4 * i)).
Definition write_entry (table i v : Z) : M mm unit :=
  if table =? 0 then stop_with Undefined else modify (set_mem (fun m => store32 m (table + 4 * i) v)).
Definition clear_table (table : Z) : M mm unit :=
  modify (set_mem (fun m => fill_bytes 4096 m table 0)).

Definition on_pmm {A} (m : M pmm A) : M mm A := zoom mm_pmm set_pmm m.

(** ** The CPU *)

Definition load_page_directory (dir : Z) : M mm unit := modify (set_cr3 dir).
Definition paging_enable : M mm unit := modify (fun m => set_cr0 (Z.lor (cr0 m) 2147483648) m).
Definition paging_disable : M mm unit := modify (fun m => set_cr0 (Z.land (cr0 m) 2147483647) m).
Definition paging_flush_tlb_entry (virtual_addr : Z) : M mm unit :=
  modify (fun m => set_tlb (fun pg => if pg =? virtual_addr / 4096 then None else tlb m pg) m).
Definition paging_flush_tlb : M mm unit :=
  let! v := gets cr3 in modify (set_cr3 v).

(** ** Mapping *)

(** The page table of a directory entry: the one it has, or a new one; [None]
    when there is no page for it. *)
Definition table_for (dir pd_index : Z) : M mm (option Z) :=
  let! pde := read_entry dir pd_index in
  if Z.land pde PAGE_PRESENT =? 0 then
    let! pt_physical := on_pmm Pmm.pmm_alloc_page in
    if pt_physical =? 0 then
      kprintf_color (MAKE_COLOR COLOR_RED COLOR_BLACK) (c "[PAGING ERROR] Failed to allocate page table\n") [] ;;
      ret None
    else
    clear_table pt_physical ;;
    write_entry dir pd_index (make_pde pt_physical (Z.lor PAGE_PRESENT PAGE_WRITE)) ;;
    ret (Some pt_physical)
  else ret (Some (Z.land pde PAGE_MASK)).

Definition paging_map_page (virtual_addr physical_addr flags : Z) : M mm unit :=
  let pd_index := get_page_dir_index virtual_addr in
  let pt_index := get_page_table_index virtual_addr in
  let! dir := gets current_directory in
  let! t := table_for dir pd_index in
  match t with
  | None => ret tt
  | Some page_table =>
      write_entry page_table pt_index (make_pte physical_addr flags) ;;
      paging_flush_tlb_entry virtual_addr
  end.

Definition paging_unmap_page (virtual_addr : Z) : M mm unit :=
  let pd_index := get_page_dir_index virtual_addr in
  let pt_index := get_page_table_index virtual_addr in
  let! dir := gets current_directory in
  let! pde := read_entry dir pd_index in
  if Z.land pde PAGE_PRESENT =? 0 then ret tt else
  write_entry (Z.land pde PAGE_MASK) pt_index 0 ;;
  paging_flush_tlb_entry virtual_addr.

Definition paging_get_physical_address (virtual_addr : Z) : M mm Z :=
  let pd_index := get_page_dir_index virtual_addr in
  let pt_index := get_page_table_index virtual_addr in
  let offset := get_page_offset virtual_addr in
  let! dir := gets current_directory in
  let! pde := read_entry dir pd_index in
  if Z.land pde PAGE_PRESENT =? 0 then ret 0 else
  let! pte := read_entry (Z.land pde PAGE_MASK) pt_index in
  if Z.land pte PAGE_PRESENT =? 0 then ret 0 else
  ret (Z.lor (Z.land pte PAGE_MASK) offset).

Definition paging_get_directory : M mm Z := gets current_directory.

Definition paging_switch_directory (dir : Z) : M mm unit :=
  modify (set_current dir) ;;
  load_page_directory dir ;;
  paging_flush_tlb.

(** The pages of a mapping, in order. *)
Definition paging_map_user_code (dir virtual_addr physical_addr size : Z) : M mm unit :=
  let! old_dir := gets current_directory in
  modify (set_current dir) ;;
  let num_pages := u32 (size + PAGE_SIZE - 1) / PAGE_SIZE in
  for_each (seqZ 0 num_pages) (fun i =>
    paging_map_page (u32 (virtual_addr + u32 (i * PAGE_SIZE))) (u32 (physical_addr + u32 (i * PAGE_SIZE)))
      PAGE_USER_MODE) ;;
  modify (set_current old_dir).

(** ** Directories *)

Section directories.
(** The addresses the linker gave to the two static tables. *)
Variables kernel_directory early_page_tables : Z.

Definition init_round (i : Z) (pt_count : Z) : M mm (Z + unit) :=
  let addr := i * PAGE_SIZE in
  let pd_index := get_page_dir_index addr in
  let pt_index := get_page_table_index addr in
  let! pde := read_entry kernel_directory pd_index in
  let! pt_count :=
    if Z.land pde PAGE_PRESENT =? 0 then
      if 16 <=? pt_count then stop_with Undefined else
      write_entry kernel_directory pd_index (make_pde (early_page_tables + pt_count * 4096) PAGE_KERNEL) ;;
      ret (pt_count + 1)
    else ret pt_count in
  let! pde := read_entry kernel_directory pd_index in
  write_entry (Z.land pde PAGE_MASK) pt_index (make_pte addr PAGE_KERNEL) ;;
  ret (inl pt_count).

Definition paging_init : M mm unit :=
  screen_write_color (c "[PAGING] ") (MAKE_COLOR COLOR_GREEN COLOR_BLACK) ;;
  screen_write (c "Initializing virtual memory...\n") ;;
  clear_table kernel_directory ;;
  kprintf (c "         Identity mapping first 16 MB...\n") [] ;;
  modify (set_mem (fun m => fill_bytes (16 * 4096) m early_page_tables 0)) ;;
  for_state (seqZ 0 (16 * 1024 * 1024 / PAGE_SIZE)) init_round 0 ;;
  modify (set_current kernel_directory) ;;
  load_page_directory kernel_directory ;;
  paging_enable ;;
  kprintf_color (MAKE_COLOR COLOR_GREEN COLOR_BLACK) (c "         Paging enabled! Virtual memory active.\n") [].

Definition paging_create_user_directory : M mm Z :=
  let! dir := on_pmm Pmm.pmm_alloc_page in
  if dir =? 0 then ret 0 else
  clear_table dir ;;
  for_each (seqZ 0 4) (fun i =>
    let! e := read_entry kernel_directory i in write_entry dir i e) ;;
  ret dir.

Definition paging_clone_directory (src : Z) : M mm Z := paging_create_user_directory.

End directories.

Definition free_table (pt : Z) : M mm unit :=
  for_each (seqZ 0 PAGE_TABLE_ENTRIES) (fun j =>
    let! pte := read_entry pt j in
    if Z.land pte PAGE_PRESENT =? 0 then ret tt else on_pmm (pmm_free_page (Z.land pte PAGE_MASK))).

Definition paging_free_directory (dir : Z) : M mm unit :=
  if dir =? 0 then ret tt else
  for_each (seqZ 4 (PAGE_DIRECTORY_ENTRIES - 4)) (fun i =>
    let! pde := read_entry dir i in
    if Z.land pde PAGE_PRESENT =? 0 then ret tt else
    let pt := Z.land pde PAGE_MASK in
    free_table pt ;;
    on_pmm (pmm_free_page pt)) ;;
  on_pmm (pmm_free_page dir).

(** ** Page faults *)

(** Whether demand paging may serve the address. *)
Definition user_region (faulting_address : Z) : bool :=
  let stack_limit := USER_STACK_BASE - 1024 * 1024 in
  let is_stack := (stack_limit <=? faulting_address) && (faulting_address <? USER_STACK_BASE) in
  let is_heap := (USER_CODE_BASE + 256 * 1024 <=? faulting_address) && (faulting_address <? USER_STACK_BASE) in
  is_stack || is_heap.

(** The report of a fault that demand paging did not serve. *)
Definition fault_report (faulting_address error_code : Z) (proc : option process_t) : M mm unit :=
  let bit k := negb (Z.land error_code k =? 0) in
  screen_write_color (c "\n\n=== PAGE FAULT ===\n") (MAKE_COLOR COLOR_RED COLOR_BLACK) ;;
  kprintf_color (MAKE_COLOR COLOR_YELLOW COLOR_BLACK) (c "Fault Address: 0x%x\n") [AInt faulting_address] ;;
  kprintf (c "Error Code:    0x%x\n\n") [AInt error_code] ;;
  kprintf_color (MAKE_COLOR COLOR_CYAN COLOR_BLACK) (c "Fault Details:\n") [] ;;
  kprintf (if bit 1 then c "  - Page protection violation\n" else c "  - Page not present\n") [] ;;
  kprintf (if bit 2 then c "  - Write access\n"
           else if bit 16 then c "  - Instruction fetch\n" else c "  - Read access\n") [] ;;
  kprintf (if bit 4 then c "  - User mode (Ring 3)\n" else c "  - Kernel mode (Ring 0)\n") [] ;;
  (if bit 8 then kprintf (c "  - Reserved bit violation\n") [] else ret tt) ;;
  kprintf (c "\nPage Directory Index: %d\n") [AInt (Z.shiftr faulting_address 22)] ;;
  kprintf (c "Page Table Index:     %d\n") [AInt (Z.land (Z.shiftr faulting_address 12) 1023)] ;;
  match proc with
  | None => ret tt
  | Some v =>
      kprintf_color (MAKE_COLOR COLOR_MAGENTA COLOR_BLACK) (c "\nCurrent Process:\n") [] ;;
      kprintf (c "  PID:  %d\n") [AInt (pid v)] ;;
      kprintf (c "  Name: %s\n") [AStr (cstring (name v))] ;;
      kprintf (c "  Mode: %s\n")
        [AStr (Some (if is_user_mode v =? 0 then c "Kernel (Ring 0)" else c "User (Ring 3)"))]
  end ;;
  kprintf_color (MAKE_COLOR COLOR_RED COLOR_BLACK) (c "\nSystem halted.\n") [] ;;
  stop_with Halted.

(** [faulting_address] is CR2, [proc] what [process_current()] points to. *)
Definition page_fault_handler (faulting_address : Z) (proc : option process_t) (error_code : Z) : M mm unit :=
  let present := negb (Z.land error_code 1 =? 0) in
  let reserved := negb (Z.land error_code 8 =? 0) in
  match proc with
  | Some v =>
      if negb present && negb reserved && negb (is_user_mode v =? 0) && user_region faulting_address then
        let! page_physical := on_pmm Pmm.pmm_alloc_page in
        if page_physical =? 0 then fault_report faulting_address error_code proc else
        let page_addr := Z.land faulting_address PAGE_MASK in
        paging_map_user_code (page_directory v) page_addr page_physical PAGE_SIZE ;;
        kprintf_color (MAKE_COLOR COLOR_GREEN COLOR_BLACK)
          (c "[DEMAND PAGING] Allocated page at 0x%x (phys: 0x%x)\n") [AInt page_addr; AInt page_physical]
      else fault_report faulting_address error_code proc
  | None => fault_report faulting_address error_code proc
  end.
