(* ===== verification/PagingWalk.v ===== *)
(** * What the page tables mean

    The walk of the tables as a function, and what mapping, unmapping, the boot
    mapping and demand paging do to it. *)

From S2P Require Import Prelude Bits CString Mem Pmm Alloc Process Paging.

(** ** Entries *)

Lemma mask_div x : is_u32 x -> Z.land x PAGE_MASK = x / 4096 * 4096.
Proof.
  intros Hx. assert (x / 4096 * 4096 = Z.shiftl (Z.shiftr x 12) 12) as ->
    by (rewrite Z.shiftl_mul_pow2, Z.shiftr_div_pow2 by lia; done).
  apply Z.bits_inj'. intros n Hn. rewrite Z.land_spec. rewrite Z.shiftl_spec by done.
  destruct (decide (n < 12)) as [Hlt|Hge].
  - rewrite (Z.testbit_neg_r _ (n - 12)) by lia.
    assert (Z.testbit PAGE_MASK n = false) as ->; [|apply andb_false_r].
    change PAGE_MASK with (Z.shiftl (Z.ones 20) 12). rewrite Z.shiftl_spec by lia. apply Z.testbit_neg_r. lia.
  - rewrite Z.shiftr_spec by lia. replace (n - 12 + 12) with n by lia.
    destruct (decide (n < 32)) as [H32|H32].
    + assert (Z.testbit PAGE_MASK n = true) as ->; [|apply andb_true_r].
      change PAGE_MASK with (Z.shiftl (Z.ones 20) 12). rewrite Z.shiftl_spec by lia. apply Z.ones_spec_low. lia.
    + rewrite (word_high_bits x 32 n) by (unfold is_u32 in Hx; lia). done.
Qed.

Lemma low12 x : Z.land x 4095 = x mod 4096.
Proof. apply (Z.land_ones x 12). lia. Qed.

(** An entry is a page number and twelve bits of flags. *)
Lemma make_entry a flags : is_u32 a -> make_pte a flags = a / 4096 * 4096 + flags mod 4096.
Proof.
  intros Ha. unfold make_pte. rewrite mask_div, low12 by done.
  symmetry. apply Z.add_nocarry_lor. apply Z.bits_inj'. intros n Hn. rewrite Z.land_spec, Z.bits_0.
  destruct (decide (n < 12)) as [Hlt|Hge].
  - change 4096 with (2 ^ 12) at 2. rewrite Z.mul_pow2_bits_low by lia. done.
  - change 4096 with (2 ^ 12) at 3. rewrite Z.mod_pow2_bits_high by lia. apply andb_false_r.
Qed.

Definition present (e : Z) : bool := negb (Z.land e PAGE_PRESENT =? 0).

Lemma present_mod e : present e = (e mod 2 =? 1).
Proof.
  unfold present, PAGE_PRESENT. change 1 with (Z.ones 1) at 1. rewrite Z.land_ones by lia. change (2 ^ 1) with 2.
  pose proof (Z.mod_pos_bound e 2 ltac:(lia)). destruct (Z.eqb_spec (e mod 2) 0), (Z.eqb_spec (e mod 2) 1); (done || lia).
Qed.

Lemma entry_parts pg flags : 0 <= pg < 1048576 ->
  make_pte (pg * 4096) flags / 4096 = pg /\ present (make_pte (pg * 4096) flags) = present flags /\
  is_u32 (make_pte (pg * 4096) flags).
Proof.
  intros Hp. rewrite make_entry, !present_mod by (unfold is_u32; lia). rewrite Z.div_mul by lia.
  unfold is_u32. split_and!; [dlia|f_equal; dlia|dlia|dlia].
Qed.

Lemma indices v :
  get_page_dir_index v = v / 4194304 /\ get_page_table_index v = v / 4096 mod 1024 /\ get_page_offset v = v mod 4096.
Proof.
  unfold get_page_dir_index, get_page_table_index, get_page_offset.
  rewrite !Z.shiftr_div_pow2 by lia. split_and!; [done| |apply low12].
  apply (Z.land_ones _ 10). lia.
Qed.

(** ** Tables in memory *)

(** Entry [i] of the table in page [pg]. *)
Definition ent (m : mem) (pg i : Z) : Z := load32 m (pg * 4096 + 4 * i).

Lemma ent_store m pg i v pg' j : 0 <= i < 1024 -> 0 <= j < 1024 -> is_u32 v ->
  ent (store32 m (pg * 4096 + 4 * i) v) pg' j = if decide (pg' = pg /\ j = i) then v else ent m pg' j.
Proof.
  intros Hi Hj Hv. unfold ent. case_decide as E.
  - destruct E as [-> ->]. by apply load_store_same.
  - apply load_store_other. destruct (decide (pg' = pg)); [subst|]; lia.
Qed.

Lemma ent_clear m pg pg' j : 0 <= j < 1024 ->
  ent (fill_bytes 4096 m (pg * 4096) 0) pg' j = if decide (pg' = pg) then 0 else ent m pg' j.
Proof.
  intros Hj. unfold ent. case_decide as E.
  - subst. unfold load32. rewrite !fill_bytes_spec.
    rewrite !(proj2 (Z.leb_le (pg * 4096) _)), !(proj2 (Z.ltb_lt _ _)) by lia. done.
  - apply load32_ext. intros x Hx. rewrite fill_bytes_spec.
    destruct (Z.leb_spec (pg * 4096) x), (Z.ltb_spec x (pg * 4096 + Z.of_nat 4096)); simpl; (done || lia).
Qed.

Lemma ent_range m pg i : is_u32 (ent m pg i).
Proof. apply load32_range. Qed.

(** ** The walk *)

(** The page table entry the directory in page [d] has for the page [vp]. *)
Definition walk (m : mem) (d vp : Z) : option Z :=
  let pde := ent m d (vp / 1024) in
  if present pde then
    let pte := ent m (pde / 4096) (vp mod 1024) in
    if present pte then Some pte else None
  else None.

(** The physical address of a virtual one. *)
Definition translate (m : mem) (d v : Z) : option Z :=
  pte ← walk m d (v / 4096); Some (pte / 4096 * 4096 + v mod 4096).

(** A directory in order: it and its tables are pages in use, all different. *)
Record dir_wf (m : mm) (d : Z) : Prop := {
  dw_dir : 0 < d < 4096 /\ page_used (mm_pmm m) d = true;
  dw_table : forall i, 0 <= i < 1024 -> present (ent (mm_mem m) d i) = true ->
    let t := ent (mm_mem m) d i / 4096 in
    0 < t < 4096 /\ page_used (mm_pmm m) t = true /\ t <> d;
  dw_distinct : forall i j, 0 <= i < 1024 -> 0 <= j < 1024 -> i <> j ->
    present (ent (mm_mem m) d i) = true -> present (ent (mm_mem m) d j) = true ->
    ent (mm_mem m) d i / 4096 <> ent (mm_mem m) d j / 4096
}.

(** It only speaks of the memory and of the allocator. *)
Lemma dir_wf_ext m m' d : mm_mem m' = mm_mem m -> mm_pmm m' = mm_pmm m -> dir_wf m d -> dir_wf m' d.
Proof. intros Em Ep [? ? ?]. by split; rewrite ?Em, ?Ep. Qed.

Lemma exec_read_entry m pg i : 0 < pg -> exec (read_entry (pg * 4096) i) m = (Val (ent (mm_mem m) pg i), m).
Proof. intros Hp. unfold read_entry. rewrite (proj2 (Z.eqb_neq (pg * 4096) 0)) by lia. done. Qed.

Lemma exec_write_entry m pg i v : 0 < pg ->
  exec (write_entry (pg * 4096) i v) m = (Val tt, set_mem (fun mm => store32 mm (pg * 4096 + 4 * i) v) m).
Proof. intros Hp. unfold write_entry. rewrite (proj2 (Z.eqb_neq (pg * 4096) 0)) by lia. done. Qed.

(** [paging_get_physical_address] is the walk. *)
Lemma exec_get_physical m d v :
  dir_wf m d -> current_directory m = d * 4096 -> is_u32 v ->
  exec (paging_get_physical_address v) m = (Val (default 0 (translate (mm_mem m) d v)), m).
Proof.
  intros [[Hd _] Ht _] Hc Hv. unfold paging_get_physical_address. destruct (indices v) as (-> & -> & ->).
  cbv zeta. rewrite exec_bind, exec_gets. cbv iota. rewrite Hc, exec_bind, exec_read_entry by lia. cbv iota.
  assert (v / 4194304 = v / 4096 / 1024) as Ei by dlia. assert (0 <= v / 4096 / 1024 < 1024) as Hi by (unfold is_u32 in Hv; dlia).
  unfold translate, walk. rewrite <- Ei in *. pose proof (ent_range (mm_mem m) d (v / 4194304)) as Hr.
  destruct (present (ent (mm_mem m) d (v / 4194304))) eqn:Ep.
  2: { unfold present in Ep. apply negb_false_iff in Ep. by rewrite Ep. }
  destruct (Ht _ Hi Ep) as ((Ht0 & _) & _ & _). unfold present in Ep. apply negb_true_iff in Ep. rewrite Ep.
  rewrite mask_div, exec_bind, exec_read_entry by done. cbv iota.
  set (pte := ent _ _ _). pose proof (ent_range (mm_mem m) (ent (mm_mem m) d (v / 4194304) / 4096) (v / 4096 mod 1024)) as Hr2.
  fold pte in Hr2. destruct (present pte) eqn:Ep2; unfold present in Ep2.
  - apply negb_true_iff in Ep2. rewrite Ep2. rewrite exec_ret. cbn [mbind option_bind default].
    do 2 f_equal. pose proof (make_entry pte v Hr2) as E. unfold make_pte in E. rewrite low12 in E. rewrite E. done.
  - apply negb_false_iff in Ep2. by rewrite Ep2.
Qed.

(** ** Mapping a page *)

Lemma page_bounds i : is_page i <-> 0 <= i < 4096.
Proof. unfold is_page. by rewrite total_pages. Qed.

Lemma free_page_high s i : pmm_wf s -> is_page i -> page_used s i = false -> 512 <= i.
Proof. intros Hw Hi Hf. pose proof (free_above_kernel s i Hw Hi Hf) as Hk. exact Hk. Qed.

(** The registers are the same, and the pages in use but [d] and [t] hold what
    they held. *)
Definition same_regs (m m' : mm) : Prop :=
  current_directory m' = current_directory m /\ cr0 m' = cr0 m /\ cr3 m' = cr3 m.

(** Directory [d] has table [t] at index [i]; nothing else a walk sees changed. *)
Record ready (m : mm) (d i t : Z) (m1 : mm) : Prop := {
  rd_pmm : pmm_wf (mm_pmm m1);
  rd_dir : dir_wf m1 d;
  rd_entry : present (ent (mm_mem m1) d i) = true /\ ent (mm_mem m1) d i / 4096 = t;
  rd_walk : forall vp, 0 <= vp < 1048576 -> walk (mm_mem m1) d vp = walk (mm_mem m) d vp;
  rd_regs : same_regs m m1;
  rd_tlb : tlb m1 = tlb m;
  rd_used : forall q, is_page q -> page_used (mm_pmm m) q = true -> page_used (mm_pmm m1) q = true;
  rd_frame : forall q j, is_page q -> page_used (mm_pmm m) q = true -> q <> d -> 0 <= j < 1024 ->
    ent (mm_mem m1) q j = ent (mm_mem m) q j;
  rd_tables : forall j, 0 <= j < 1024 -> present (ent (mm_mem m1) d j) = true ->
    ent (mm_mem m1) d j = ent (mm_mem m) d j \/ page_used (mm_pmm m) (ent (mm_mem m1) d j / 4096) = false;
  rd_keep : forall j, 0 <= j < 1024 -> present (ent (mm_mem m) d j) = true -> ent (mm_mem m1) d j = ent (mm_mem m) d j;
  rd_new : forall q, is_page q -> page_used (mm_pmm m1) q = true -> page_used (mm_pmm m) q = true \/ q = t;
  rd_count : used_pages (mm_pmm m1) <= used_pages (mm_pmm m) + 1;
  rd_table : page_used (mm_pmm m) t = false \/ present (ent (mm_mem m) d i) = true /\ ent (mm_mem m) d i / 4096 = t
}.

Lemma ready_same m d i :
  pmm_wf (mm_pmm m) -> dir_wf m d -> present (ent (mm_mem m) d i) = true -> ready m d i (ent (mm_mem m) d i / 4096) m.
Proof. intros Hp Hd He. split; try done; [by left|by left|lia|by right]. Qed.

(** The memory after page [k] became the empty table of entry [i]. *)
Lemma ready_new m d i k m1 :
  pmm_wf (mm_pmm m) -> dir_wf m d -> 0 <= i < 1024 -> present (ent (mm_mem m) d i) = false ->
  is_page k -> page_used (mm_pmm m) k = false ->
  mm_pmm m1 = take_page k (mm_pmm m) -> same_regs m m1 -> tlb m1 = tlb m ->
  (forall pg j, 0 <= j < 1024 -> ent (mm_mem m1) pg j =
     if decide (pg = d /\ j = i) then make_pde (k * 4096) (Z.lor PAGE_PRESENT PAGE_WRITE)
     else if decide (pg = k) then 0 else ent (mm_mem m) pg j) ->
  ready m d i k m1.
Proof.
  intros Hp [[Hd Hdu] Ht Hdis] Hi Hnp Hk Hkf Hpm Hregs Htlb Hent.
  pose proof (free_page_high _ _ Hp Hk Hkf) as Hk512. pose proof (proj1 (page_bounds k) Hk) as Hk2.
  destruct (entry_parts k (Z.lor PAGE_PRESENT PAGE_WRITE) ltac:(lia)) as (E1 & E2 & _). change make_pte with make_pde in *.
  assert (k <> d) as Hkd by congruence.
  assert (forall q, is_page q -> page_used (mm_pmm m1) q = (k =? q) || page_used (mm_pmm m) q) as Hused.
  { intros q Hq. rewrite Hpm. apply page_used_take; (done || apply Hp). }
  assert (forall j, 0 <= j < 1024 -> ent (mm_mem m1) d j = if decide (j = i)
    then make_pde (k * 4096) (Z.lor PAGE_PRESENT PAGE_WRITE) else ent (mm_mem m) d j) as Hdir.
  { intros j Hj. rewrite Hent by done. destruct (decide (j = i)) as [->|].
    - by rewrite decide_True.
    - rewrite decide_False by (intros [_ ?]; done). by rewrite decide_False. }
  assert (forall j, 0 <= j < 1024 -> present (ent (mm_mem m) d j) = true -> ent (mm_mem m) d j / 4096 <> k) as Hnk.
  { intros j Hj Hpj E. destruct (Ht j Hj Hpj) as (_ & Hu & _). congruence. }
  split; try done.
  - rewrite Hpm. by apply take_page_wf.
  - split.
    + split; [done|]. rewrite Hused by (apply page_bounds; lia). by rewrite Hdu, orb_true_r.
    + intros j Hj. rewrite Hdir by done. case_decide as Ej; cbv zeta.
      * intros _. rewrite E1. split_and!; [lia|lia| |done]. by rewrite Hused, Z.eqb_refl.
      * intros Hpj. destruct (Ht j Hj Hpj) as (Hr & Hu & Hne). split_and!; [lia|lia| |done].
        rewrite Hused by (apply page_bounds; lia). by rewrite Hu, orb_true_r.
    + intros a b Ha Hb Hab. rewrite !Hdir by done. case_decide; case_decide; subst; intros Hpa Hpb; rewrite ?E1.
      * done.
      * intros E. by apply (Hnk b Hb Hpb).
      * by apply Hnk.
      * by apply Hdis.
  - rewrite Hdir, decide_True by done. rewrite E1, E2. done.
  - intros vp Hvp. unfold walk. assert (0 <= vp / 1024 < 1024) as Hv1 by dlia.
    pose proof (Z.mod_pos_bound vp 1024 ltac:(lia)) as Hv2. rewrite Hdir by done. case_decide as Ev.
    + rewrite E1, E2, Ev, Hnp. rewrite Hent by done. rewrite decide_False by (intros [? _]; done).
      by rewrite decide_True.
    + destruct (present (ent (mm_mem m) d (vp / 1024))) eqn:Epr; [|done].
      destruct (Ht _ Hv1 Epr) as (_ & _ & Hne). rewrite Hent by done. rewrite decide_False by (intros [? _]; done).
      rewrite decide_False by (by apply Hnk). done.
  - intros q Hq Hu. by rewrite Hused, Hu, orb_true_r.
  - intros q j Hq Hu Hqd Hj. rewrite Hent by done. rewrite decide_False by (intros [? _]; done).
    rewrite decide_False by congruence. done.
  - intros j Hj. rewrite Hdir by done. case_decide; [|by left]. rewrite E1. by right.
  - intros j Hj Hpj. rewrite Hdir by done. rewrite decide_False by congruence. done.
  - intros q Hq. rewrite Hused by done. destruct (Z.eqb_spec k q) as [->|]; [by right|by left].
  - rewrite Hpm. cbn [take_page used_pages]. pose proof (used_pages_range _ Hp). rewrite u32_small by (unfold is_u32; lia). lia.
  - by left.
Qed.

Lemma exec_table_for m d i :
  pmm_wf (mm_pmm m) -> dir_wf m d -> 0 <= i < 1024 ->
  (present (ent (mm_mem m) d i) = false /\ (forall q, is_page q -> page_used (mm_pmm m) q = true) /\
   exec (table_for (d * 4096) i) m = (Val None, m)) \/
  exists t m1, 0 < t /\ exec (table_for (d * 4096) i) m = (Val (Some (t * 4096)), m1) /\ ready m d i t m1.
Proof.
  intros Hp Hd Hi. pose proof Hd as [[Hd0 _] Ht _]. unfold table_for.
  rewrite exec_bind, exec_read_entry by lia. cbv iota. fold (present (ent (mm_mem m) d i)).
  destruct (present (ent (mm_mem m) d i)) eqn:Ep; unfold present in Ep.
  - right. exists (ent (mm_mem m) d i / 4096), m. apply negb_true_iff in Ep. rewrite Ep. rewrite exec_ret.
    assert (present (ent (mm_mem m) d i) = true) as Ep' by (unfold present; by rewrite Ep).
    rewrite mask_div by apply ent_range. split_and!; [by apply Ht|done|by apply ready_same].
  - apply negb_false_iff in Ep. rewrite Ep. assert (present (ent (mm_mem m) d i) = false) as Ep' by (unfold present; by rewrite Ep).
    unfold on_pmm. rewrite exec_bind, exec_zoom.
    destruct (exec_pmm_alloc_page (mm_pmm m) Hp) as [(k & Hk & Hf & _ & ->)|[Hall ->]]; cbv iota.
    + right. pose proof (free_page_high _ _ Hp Hk Hf) as Hk512. unfold Pmm.PAGE_SIZE.
      rewrite (proj2 (Z.eqb_neq (k * 4096) 0)) by lia. unfold clear_table. rewrite exec_bind, exec_modify. cbv iota.
      rewrite exec_bind, exec_write_entry by lia. cbv iota. rewrite exec_ret. exists k. eexists.
      split; [lia|]. split; [done|]. pose proof (proj1 (page_bounds k) Hk) as Hk2.
      apply ready_new; try done. intros pg j Hj. cbn [mm_mem set_mem set_pmm].
      rewrite ent_store by (done || apply (entry_parts k); lia). case_decide; [done|]. by apply ent_clear.
    + left. cbn [Z.eqb]. run. split_and!; [done|done|]. by destruct m.
Qed.

(** Directory [d] has the entry [pte] for the page [vp], and every other page is
    mapped as before; no page in use outside the directory and the table of
    [vp] changed. *)
Record mapped (m : mm) (d vp pte : Z) (m' : mm) : Prop := {
  mp_pmm : pmm_wf (mm_pmm m');
  mp_dir : dir_wf m' d;
  mp_walk : forall vp', 0 <= vp' < 1048576 -> walk (mm_mem m') d vp' =
    if decide (vp' = vp) then (if present pte then Some pte else None) else walk (mm_mem m) d vp';
  mp_regs : same_regs m m';
  mp_tlb : forall pg, tlb m' pg = if pg =? vp then None else tlb m pg;
  mp_used : forall q, is_page q -> page_used (mm_pmm m) q = true -> page_used (mm_pmm m') q = true;
  mp_tables : forall j, 0 <= j < 1024 -> present (ent (mm_mem m') d j) = true ->
    ent (mm_mem m') d j = ent (mm_mem m) d j \/ page_used (mm_pmm m) (ent (mm_mem m') d j / 4096) = false;
  mp_keep : forall j, 0 <= j < 1024 -> present (ent (mm_mem m) d j) = true -> ent (mm_mem m') d j = ent (mm_mem m) d j;
  mp_new : forall q, is_page q -> page_used (mm_pmm m') q = true ->
    page_used (mm_pmm m) q = true \/
    present (ent (mm_mem m') d (vp / 1024)) = true /\ q = ent (mm_mem m') d (vp / 1024) / 4096;
  mp_count : used_pages (mm_pmm m') <= used_pages (mm_pmm m) + 1;
  mp_frame : forall q j, is_page q -> page_used (mm_pmm m) q = true -> q <> d -> 0 <= j < 1024 ->
    (present (ent (mm_mem m) d (vp / 1024)) = true -> q <> ent (mm_mem m) d (vp / 1024) / 4096) ->
    ent (mm_mem m') q j = ent (mm_mem m) q j
}.

(** The entry is stored and the page flushed. *)
Lemma ready_mapped m d vp t m1 pte :
  ready m d (vp / 1024) t m1 -> 0 <= vp < 1048576 -> is_u32 pte ->
  mapped m d vp pte (set_tlb (fun pg => if pg =? vp then None else tlb m1 pg)
    (set_mem (fun mm => store32 mm (t * 4096 + 4 * (vp mod 1024)) pte) m1)).
Proof.
  intros [Hp Hd [He Et] Hw Hregs Htlb Hu Hfr Htabs Hkeep Hnew Hcnt Htab] Hvp Hpte. set (m' := set_tlb _ _).
  assert (0 <= vp / 1024 < 1024) as Hi by dlia. pose proof (Z.mod_pos_bound vp 1024 ltac:(lia)) as Hmod.
  pose proof Hd as [Hd0 Ht Hdis]. destruct (Ht _ Hi He) as (Htr & Htu & Htd). rewrite Et in Htr, Htu, Htd.
  assert (forall pg j, 0 <= j < 1024 -> ent (mm_mem m') pg j =
    if decide (pg = t /\ j = vp mod 1024) then pte else ent (mm_mem m1) pg j) as Hent
    by (intros; by apply ent_store).
  assert (forall j, 0 <= j < 1024 -> ent (mm_mem m') d j = ent (mm_mem m1) d j) as Hdir.
  { intros j Hj. rewrite Hent by done. rewrite decide_False; [done|]. intros [E _]. congruence. }
  split.
  - done.
  - split; [done|..].
    + intros j Hj. rewrite Hdir by done. by apply Ht.
    + intros a b Ha Hb Hab. rewrite !Hdir by done. by apply Hdis.
  - intros vp' Hvp'. rewrite <- Hw by done. unfold walk. assert (0 <= vp' / 1024 < 1024) as Hi' by dlia.
    pose proof (Z.mod_pos_bound vp' 1024 ltac:(lia)) as Hmod'. rewrite Hdir by done. case_decide as Ev.
    + subst vp'. rewrite He, Et, Hent by done. by rewrite decide_True.
    + destruct (present (ent (mm_mem m1) d (vp' / 1024))) eqn:Epr; [|done]. rewrite Hent by done.
      rewrite decide_False; [done|]. intros [E1 E2]. destruct (decide (vp' / 1024 = vp / 1024)) as [E|Hne]; [dlia|].
      apply (Hdis _ _ Hi' Hi Hne Epr He). congruence.
  - done.
  - intros pg. cbn [tlb m' set_tlb]. by rewrite Htlb.
  - done.
  - intros j Hj. rewrite Hdir by done. by apply Htabs.
  - intros j Hj Hpj. rewrite Hdir by done. by apply Hkeep.
  - intros q Hq Hqu. rewrite Hdir by done. destruct (Hnew q Hq Hqu) as [|E]; [by left|right]. split; congruence.
  - exact Hcnt.
  - intros q j Hq Hqu Hqd Hj Hqt. rewrite Hent by done. rewrite decide_False; [by apply Hfr|].
    intros [E _]. destruct Htab as [Hf|[Hpr Et']]; [congruence|]. apply (Hqt Hpr). congruence.
Qed.

Lemma exec_map_page m d v p flags :
  pmm_wf (mm_pmm m) -> dir_wf m d -> current_directory m = d * 4096 -> is_u32 v -> is_u32 p ->
  (present (ent (mm_mem m) d (v / 4096 / 1024)) = false /\ (forall q, is_page q -> page_used (mm_pmm m) q = true) /\
   exec (paging_map_page v p flags) m = (Val tt, m)) \/
  exists m', exec (paging_map_page v p flags) m = (Val tt, m') /\ mapped m d (v / 4096) (make_pte p flags) m'.
Proof.
  intros Hp Hd Hc Hv Hpa. unfold is_u32 in Hv. unfold paging_map_page. destruct (indices v) as (-> & -> & _). cbv zeta.
  rewrite exec_bind, exec_gets. cbv iota. rewrite Hc. replace (v / 4194304) with (v / 4096 / 1024) by dlia.
  assert (is_u32 (make_pte p flags)) as Hpte.
  { unfold is_u32 in *. rewrite make_entry by done. dlia. }
  destruct (exec_table_for m d (v / 4096 / 1024) Hp Hd) as [(Hnp & Hall & E)|(t & m1 & Ht & E & Hr)]; [dlia|..];
    rewrite exec_bind, E; cbv iota; rewrite ?exec_ret; [by left|right].
  rewrite exec_bind, exec_write_entry by done. cbv iota. unfold paging_flush_tlb_entry. rewrite exec_modify.
  eexists. split; [done|]. exact (ready_mapped m d (v / 4096) t m1 _ Hr ltac:(dlia) Hpte).
Qed.

(** The cache never contradicts the tables of the directory in use. *)
Definition tlb_ok (m : mm) (d : Z) : Prop := forall vp pte, 0 <= vp < 1048576 -> tlb m vp = Some pte -> walk (mm_mem m) d vp = Some pte.

Lemma mapped_tlb m d vp pte m' : mapped m d vp pte m' -> tlb_ok m d -> tlb_ok m' d.
Proof.
  intros Hmp Hok q e Hq. rewrite (mp_tlb _ _ _ _ _ Hmp), (mp_walk _ _ _ _ _ Hmp) by done.
  destruct (Z.eqb_spec q vp); [done|]. rewrite decide_False by done. by apply Hok.
Qed.

Lemma mapped_translate m d v pte m' v' :
  mapped m d (v / 4096) pte m' -> is_u32 v' ->
  translate (mm_mem m') d v' =
  if decide (v' / 4096 = v / 4096) then (if present pte then Some (pte / 4096 * 4096 + v' mod 4096) else None)
  else translate (mm_mem m) d v'.
Proof.
  intros Hmp Hv'. unfold is_u32 in Hv'. unfold translate. rewrite (mp_walk _ _ _ _ _ Hmp) by dlia.
  case_decide; [|done]. by destruct (present pte).
Qed.

(** ** The boot mapping *)

Section boot.
(** Where the linker put the directory and the sixteen tables of the kernel:
    page aligned, below the end of the kernel, not overlapping. *)
Context (D E : Z).
Hypothesis Hlink : 0 < D < 512 /\ 0 < E /\ E + 16 <= 512 /\ (D < E \/ E + 16 <= D).

(** After [n] pages: the directory has a table for every started group of 1024
    pages, and the tables map the first [n] pages. *)
Record mapping_upto (n : Z) (m0 m : mm) : Prop := {
  mu_dir : forall i, 0 <= i < 1024 -> ent (mm_mem m) D i = if i * 1024 <? n then (E + i) * 4096 + 3 else 0;
  mu_tab : forall i j, 0 <= i < 4 -> 0 <= j < 1024 ->
    ent (mm_mem m) (E + i) j = if i * 1024 + j <? n then (i * 1024 + j) * 4096 + 3 else 0;
  mu_pmm : mm_pmm m = mm_pmm m0;
  mu_cr0 : cr0 m = cr0 m0
}.

Lemma kernel_entry pg : 0 <= pg < 1048576 -> make_pte (pg * 4096) PAGE_KERNEL = pg * 4096 + 3.
Proof. intros Hp. rewrite make_entry by (unfold is_u32; lia). rewrite Z.div_mul by lia. done. Qed.

Lemma present_3 x : present (x * 4096 + 3) = true /\ (x * 4096 + 3) / 4096 = x.
Proof. rewrite present_mod. split; [apply Z.eqb_eq|]; dlia. Qed.

Lemma exec_init_round n pt_count m0 m :
  0 <= n < 4096 -> pt_count = (n + 1023) / 1024 -> mapping_upto n m0 m ->
  exists m', exec (init_round (D * 4096) (E * 4096) n pt_count) m = (Val (inl ((n + 1 + 1023) / 1024)), m') /\
    mapping_upto (n + 1) m0 m'.
Proof.
  intros Hn -> [Hd Ht Hp Hc]. unfold init_round. unfold PAGE_SIZE. destruct (indices (n * 4096)) as (-> & -> & _). cbv zeta.
  replace (n * 4096 / 4194304) with (n / 1024) by dlia. replace (n * 4096 / 4096) with n by dlia.
  assert (0 <= n / 1024 < 4) as Hi by dlia. pose proof (Z.mod_pos_bound n 1024 ltac:(lia)) as Hj.
  rewrite exec_bind, exec_read_entry by lia. cbv iota.
  (* the state in which the directory entry is there *)
  assert (exists m1, exec (if Z.land (ent (mm_mem m) D (n / 1024)) PAGE_PRESENT =? 0 then
      if 16 <=? (n + 1023) / 1024 then stop_with Undefined else
      write_entry (D * 4096) (n / 1024) (make_pde (E * 4096 + (n + 1023) / 1024 * 4096) PAGE_KERNEL) ;;
      ret ((n + 1023) / 1024 + 1)
    else ret ((n + 1023) / 1024)) m = (Val ((n + 1 + 1023) / 1024), m1) /\
    (forall i, 0 <= i < 1024 -> ent (mm_mem m1) D i = if i * 1024 <? n + 1 then (E + i) * 4096 + 3 else 0) /\
    (forall pg j, pg <> D -> 0 <= j < 1024 -> ent (mm_mem m1) pg j = ent (mm_mem m) pg j) /\
    mm_pmm m1 = mm_pmm m /\ cr0 m1 = cr0 m) as (m1 & E1 & Hd1 & Ho1 & Hp1 & Hc1).
  { rewrite Hd by lia. destruct (Z.ltb_spec (n / 1024 * 1024) n) as [Hlt|Hge].
    - destruct (present_3 (E + n / 1024)) as [Hpr _]. unfold present in Hpr. apply negb_true_iff in Hpr. rewrite Hpr, exec_ret.
      eexists. split; [do 2 f_equal; dlia|]. split_and!; try done. intros i Hi2. rewrite Hd by done.
      destruct (Z.ltb_spec (i * 1024) n), (Z.ltb_spec (i * 1024) (n + 1)); (done || dlia).
    - change (Z.land 0 PAGE_PRESENT =? 0) with true. cbv iota. rewrite (proj2 (Z.leb_gt _ _)) by dlia.
      rewrite exec_bind, exec_write_entry by lia. cbv iota. rewrite exec_ret. eexists. split; [do 2 f_equal; dlia|].
      replace (E * 4096 + (n + 1023) / 1024 * 4096) with ((E + n / 1024) * 4096) by dlia. change make_pde with make_pte.
      rewrite kernel_entry by lia. cbn [mm_mem set_mem]. assert (is_u32 ((E + n / 1024) * 4096 + 3)) as Hu by (unfold is_u32; lia).
      split_and!; try done.
      + intros i Hi2. rewrite ent_store by (done || lia). case_decide as Ei.
        * destruct Ei as [_ ->]. by rewrite (proj2 (Z.ltb_lt _ _)) by dlia.
        * rewrite Hd by done. assert (i <> n / 1024) by (intros ->; by apply Ei).
          destruct (Z.ltb_spec (i * 1024) n), (Z.ltb_spec (i * 1024) (n + 1)); (done || dlia).
      + intros pg j Hpg Hj2. rewrite ent_store by (done || lia). rewrite decide_False; [done|]. intros [? _]. done. }
  rewrite exec_bind, E1. cbv iota. rewrite exec_bind, exec_read_entry by lia. cbv iota.
  rewrite Hd1, (proj2 (Z.ltb_lt _ _)) by dlia.
  rewrite mask_div by (unfold is_u32; lia). destruct (present_3 (E + n / 1024)) as [_ ->].
  rewrite exec_bind, exec_write_entry by lia. cbv iota. rewrite exec_ret. eexists. split; [done|].
  rewrite kernel_entry by lia. assert (is_u32 (n * 4096 + 3)) as Hu by (unfold is_u32; lia).
  split; cbn [mm_mem set_mem mm_pmm cr0]; [| |by rewrite Hp1|by rewrite Hc1].
  - intros i Hi2. rewrite ent_store by (done || lia). rewrite decide_False by lia. by apply Hd1.
  - intros i j Hi2 Hj2. rewrite ent_store by (done || lia). case_decide as Eij.
    + destruct Eij as [Ei ->]. rewrite (proj2 (Z.ltb_lt _ _)) by dlia. dlia.
    + rewrite Ho1, Ht by lia. destruct (Z.ltb_spec (i * 1024 + j) n), (Z.ltb_spec (i * 1024 + j) (n + 1)); (done || dlia).
Qed.

Lemma ent_fill m pg i n : E <= pg < E + 16 -> 0 <= i < 1024 -> n = (16 * 4096)%nat ->
  ent (fill_bytes n m (E * 4096) 0) pg i = 0.
Proof.
  intros Hpg Hi ->. unfold ent, load32. rewrite !fill_bytes_spec.
  rewrite !(proj2 (Z.leb_le (E * 4096) _)), !(proj2 (Z.ltb_lt _ _)) by lia. done.
Qed.

Lemma ent_fill_dir m i n : 0 <= i < 1024 -> n = (16 * 4096)%nat ->
  ent (fill_bytes n m (E * 4096) 0) D i = ent m D i.
Proof.
  intros Hi ->. apply load32_ext. intros x Hx. rewrite fill_bytes_spec.
  destruct (Z.leb_spec (E * 4096) x), (Z.ltb_spec x (E * 4096 + Z.of_nat (16 * 4096))); simpl; (done || lia).
Qed.

(** The whole of [paging_init]: it ends, the first 4096 pages are mapped to
    themselves, the directory is loaded and paging is on. *)
Lemma exec_paging_init m :
  exists m', exec (paging_init (D * 4096) (E * 4096)) m = (Val tt, m') /\
    mapping_upto 4096 (set_cr0 (Z.lor (cr0 m) 2147483648) m) m' /\
    current_directory m' = D * 4096 /\ cr3 m' = D * 4096 /\ tlb m' = fun _ => None.
Proof.
  unfold paging_init. rewrite exec_bind, exec_screen_write_color. cbv iota. rewrite exec_bind, exec_screen_write. cbv iota.
  unfold clear_table. rewrite exec_bind, exec_modify. cbv iota. rewrite exec_bind, exec_kprintf. cbv iota.
  rewrite exec_bind, exec_modify. cbv iota. set (m0 := set_mem _ (set_mem _ m)).
  assert (mapping_upto 0 m m0) as H0.
  { split; [| |done|done]; cbn [mm_mem m0 set_mem].
    - intros i Hi. rewrite ent_fill_dir by done. rewrite ent_clear by done. rewrite decide_True by done.
      by rewrite (proj2 (Z.ltb_ge _ _)) by lia.
    - intros i j Hi Hj. rewrite ent_fill by (done || lia). by rewrite (proj2 (Z.ltb_ge _ _)) by lia. }
  destruct (exec_for_state_seqZ (fun n k s => k = (n + 1023) / 1024 /\ mapping_upto n m s)
    (init_round (D * 4096) (E * 4096)) 4096 0 m0) as (k & m1 & E1 & _ & H1).
  { lia. } { done. }
  { intros i k s1 Hi [Hk Hs]. destruct (exec_init_round i k m s1 Hi Hk Hs) as (s2 & E2 & Hs2). by exists ((i + 1 + 1023) / 1024), s2. }
  change (16 * 1024 * 1024 / PAGE_SIZE) with 4096. rewrite exec_bind, E1. cbv iota.
  rewrite exec_bind, exec_modify. cbv iota. unfold load_page_directory. rewrite exec_bind, exec_modify. cbv iota.
  unfold paging_enable. rewrite exec_bind, exec_modify. cbv iota. rewrite exec_kprintf_color. eexists. split; [done|].
  destruct H1 as [Hd Ht Hp Hc]. split_and!; try done.
  split; [exact Hd|exact Ht|exact Hp|]. cbn. by rewrite Hc.
Qed.

Lemma boot_walk m0 m vp : mapping_upto 4096 m0 m -> 0 <= vp < 1048576 ->
  walk (mm_mem m) D vp = if vp <? 4096 then Some (vp * 4096 + 3) else None.
Proof.
  intros [Hd Ht _ _] Hvp. unfold walk. assert (0 <= vp / 1024 < 1024) as Hi by dlia.
  pose proof (Z.mod_pos_bound vp 1024 ltac:(lia)) as Hj. rewrite Hd by done.
  destruct (Z.ltb_spec vp 4096) as [Hlt|Hge].
  - rewrite (proj2 (Z.ltb_lt _ _)) by dlia. destruct (present_3 (E + vp / 1024)) as [-> ->].
    rewrite Ht by dlia. replace (vp / 1024 * 1024 + vp mod 1024) with vp by dlia.
    rewrite (proj2 (Z.ltb_lt _ _)) by dlia. by destruct (present_3 vp) as [-> _].
  - rewrite (proj2 (Z.ltb_ge _ _)) by dlia. done.
Qed.

Lemma boot_dir_wf m0 m : mapping_upto 4096 m0 m -> pmm_wf (mm_pmm m0) -> dir_wf m D.
Proof.
  intros [Hd _ Hp _] Hw. assert (forall q, 0 <= q < 512 -> page_used (mm_pmm m) q = true) as Hk.
  { intros q Hq. rewrite Hp. apply Hw. change (KERNEL_END / Pmm.PAGE_SIZE) with 512. done. }
  assert (forall i, 0 <= i < 1024 -> present (ent (mm_mem m) D i) = true ->
    0 <= i < 4 /\ ent (mm_mem m) D i / 4096 = E + i) as Hent.
  { intros i Hi. rewrite Hd by done. destruct (Z.ltb_spec (i * 1024) 4096); [|done].
    intros _. split; [lia|]. apply present_3. }
  split.
  - split; [lia|apply Hk; lia].
  - intros i Hi Hpr. destruct (Hent i Hi Hpr) as [Hi4 ->]. cbv zeta. split_and!; [lia|lia|apply Hk; lia|lia].
  - intros i j Hi Hj Hne Hpi Hpj. destruct (Hent i Hi Hpi) as [_ ->]. destruct (Hent j Hj Hpj) as [_ ->]. lia.
Qed.

End boot.
