(* ===== verification/PagingUser.v ===== *)
(** * Address spaces of user processes

    What [paging_unmap_page], [paging_map_user_code], the page fault handler and
    the creation and the release of a directory do to the walk of the tables and
    to the page allocator. *)

From S2P Require Import Prelude Bits CString Mem Pmm Alloc Process Paging PagingWalk.

(** ** Unmapping *)

(** Page [vp] has no translation any more; the others keep theirs. *)
Record unmapped (m : mm) (d vp : Z) (m' : mm) : Prop := {
  um_dir : dir_wf m' d;
  um_walk : forall vp', 0 <= vp' < 1048576 -> walk (mm_mem m') d vp' =
    if decide (vp' = vp) then None else walk (mm_mem m) d vp';
  um_pmm : pmm_wf (mm_pmm m');
  um_regs : same_regs m m';
  um_tlb : tlb_ok m d -> tlb_ok m' d
}.

Lemma exec_unmap_page m d v :
  pmm_wf (mm_pmm m) -> dir_wf m d -> current_directory m = d * 4096 -> is_u32 v ->
  exists m', exec (paging_unmap_page v) m = (Val tt, m') /\ unmapped m d (v / 4096) m'.
Proof.
  intros Hp Hd Hc Hv. unfold is_u32 in Hv. pose proof Hd as [[Hd0 _] Ht _]. unfold paging_unmap_page.
  destruct (indices v) as (-> & -> & _). cbv zeta. rewrite exec_bind, exec_gets. cbv iota.
  rewrite Hc, exec_bind, exec_read_entry by lia. cbv iota. replace (v / 4194304) with (v / 4096 / 1024) by dlia.
  assert (0 <= v / 4096 / 1024 < 1024) as Hi by dlia.
  destruct (present (ent (mm_mem m) d (v / 4096 / 1024))) eqn:Ep.
  - pose proof Ep as Ep'. unfold present in Ep'. apply negb_true_iff in Ep'. rewrite Ep'. rewrite mask_div by apply ent_range.
    rewrite exec_bind, exec_write_entry by (by apply Ht). cbv iota. unfold paging_flush_tlb_entry. rewrite exec_modify.
    eexists. split; [done|].
    pose proof (ready_mapped m d (v / 4096) _ m 0 (ready_same _ _ _ Hp Hd Ep) ltac:(dlia) ltac:(done)) as Hm.
    split; [apply Hm|apply Hm|apply Hm|apply Hm|exact (mapped_tlb _ _ _ _ _ Hm)].
  - pose proof Ep as Ep'. unfold present in Ep'. apply negb_false_iff in Ep'. rewrite Ep'. rewrite exec_ret.
    eexists. split; [done|]. split; try done. intros vp' Hvp'. case_decide; [subst|done]. unfold walk. by rewrite Ep.
Qed.

(** ** Mapping a region *)

(** The [n] pages from [vp] are mapped to those from [pp] for user mode; every
    other page is mapped as before, and no page in use outside the directory
    and its tables changed. *)
Record region (m : mm) (d vp pp n : Z) (m' : mm) : Prop := {
  rg_pmm : pmm_wf (mm_pmm m');
  rg_dir : dir_wf m' d;
  rg_walk : forall q, 0 <= q < 1048576 -> walk (mm_mem m') d q =
    if decide (vp <= q < vp + n) then Some ((pp + (q - vp)) * 4096 + 7) else walk (mm_mem m) d q;
  rg_regs : same_regs m m';
  rg_tlb : forall q, tlb m' q = if decide (vp <= q < vp + n) then None else tlb m q;
  rg_used : forall q, is_page q -> page_used (mm_pmm m) q = true -> page_used (mm_pmm m') q = true;
  rg_count : used_pages (mm_pmm m') <= used_pages (mm_pmm m) + n;
  rg_tables : forall j, 0 <= j < 1024 -> present (ent (mm_mem m') d j) = true ->
    ent (mm_mem m') d j = ent (mm_mem m) d j \/ page_used (mm_pmm m) (ent (mm_mem m') d j / 4096) = false;
  rg_keep : forall j, 0 <= j < 1024 -> present (ent (mm_mem m) d j) = true -> ent (mm_mem m') d j = ent (mm_mem m) d j;
  rg_new : forall q, is_page q -> page_used (mm_pmm m') q = true ->
    page_used (mm_pmm m) q = true \/ exists i, vp / 1024 <= i < 1024 /\
      present (ent (mm_mem m') d i) = true /\ q = ent (mm_mem m') d i / 4096;
  rg_frame : forall q j, is_page q -> page_used (mm_pmm m) q = true -> q <> d -> 0 <= j < 1024 ->
    (forall i, vp / 1024 <= i < 1024 -> present (ent (mm_mem m) d i) = true -> q <> ent (mm_mem m) d i / 4096) ->
    ent (mm_mem m') q j = ent (mm_mem m) q j
}.

Lemma region_nil m d vp pp : pmm_wf (mm_pmm m) -> dir_wf m d -> region m d vp pp 0 m.
Proof.
  intros Hp Hd. split; try done.
  - intros q _. by rewrite decide_False by lia.
  - intros q. by rewrite decide_False by lia.
  - lia.
  - by left.
  - by left.
Qed.

Lemma region_step m d vp pp n m1 m2 :
  region m d vp pp n m1 -> 0 <= n -> 0 <= vp -> vp + n < 1048576 ->
  mapped m1 d (vp + n) ((pp + n) * 4096 + 7) m2 -> region m d vp pp (n + 1) m2.
Proof.
  intros [Hp1 Hd1 Hw1 Hr1 Ht1 Hu1 Hc1 Htb1 Hk1 Hn1 Hf1] Hn Hvp Hb [Hp2 Hd2 Hw2 Hr2 Ht2 Hu2 Htb2 Hk2 Hn2 Hc2 Hf2]. split; try done.
  - intros q Hq. rewrite Hw2 by done. case_decide as E1.
    + rewrite decide_True by lia. replace (q - vp) with n by lia. rewrite present_mod.
      rewrite (proj2 (Z.eqb_eq _ 1)) by dlia. done.
    + rewrite Hw1 by done. destruct (decide (vp <= q < vp + n)).
      * by rewrite decide_True by lia.
      * by rewrite decide_False by lia.
  - unfold same_regs in *. destruct Hr1 as (? & ? & ?), Hr2 as (? & ? & ?). split_and!; congruence.
  - intros q. rewrite Ht2, Ht1. destruct (Z.eqb_spec q (vp + n)); [by rewrite decide_True by lia|].
    destruct (decide (vp <= q < vp + n)); [by rewrite decide_True by lia|by rewrite decide_False by lia].
  - intros q Hq Hu. by apply Hu2, Hu1.
  - lia.
  - intros j Hj Hpr. pose proof Hd2 as [_ Ht _]. destruct (Ht j Hj Hpr) as (Hb2 & _ & _).
    destruct (Htb2 j Hj Hpr) as [E|E].
    + rewrite E in Hpr |- *. by apply Htb1.
    + right. destruct (page_used (mm_pmm m) (ent (mm_mem m2) d j / 4096)) eqn:E2; [|done].
      rewrite Hu1 in E; [done| |done]. apply page_bounds. lia.
  - intros j Hj Hpr. rewrite <- (Hk1 j Hj Hpr) in Hpr |- *. by apply Hk2.
  - intros q Hq Hu. destruct (Hn2 q Hq Hu) as [Hu'|[Hpr ->]].
    + destruct (Hn1 q Hq Hu') as [|(i & Hi & Hpr & ->)]; [by left|right]. exists i.
      assert (0 <= i < 1024) as Hi' by dlia. by rewrite (Hk2 i Hi' Hpr).
    + right. exists ((vp + n) / 1024). split; [|done]. dlia.
  - intros q j Hq Hu Hqd Hj Hno. rewrite Hf2; [by apply Hf1|done|by apply Hu1|done|done|].
    intros Hpr E. assert (0 <= (vp + n) / 1024 < 1024) as Hi by dlia.
    destruct (Htb1 _ Hi Hpr) as [E1|E1].
    + rewrite E1 in Hpr. apply (Hno ((vp + n) / 1024) ltac:(dlia) Hpr). congruence.
    + rewrite <- E in E1. congruence.
Qed.

Lemma room_free s : pmm_wf s -> used_pages s < 4096 -> ~ (forall q, is_page q -> page_used s q = true).
Proof.
  intros Hw Hlt Hall. destruct (cnt_lt_exists (page_used s) (Z.to_nat TOTAL_PAGES)) as (q & Hq & Hf).
  { rewrite <- (wf_used s Hw), total_pages_nat. lia. }
  rewrite Hall in Hf; [done|]. rewrite total_pages_nat in Hq. by apply page_bounds.
Qed.

Lemma region_current m d vp pp n m' x y : current_directory m = y ->
  region (set_current x m) d vp pp n m' -> region m d vp pp n (set_current y m').
Proof. intros <- [? ? ? (? & ? & ?) ? ? ? ? ? ? ?]. split; try done. by apply (dir_wf_ext m'). Qed.

Lemma exec_map_pages m d vp pp n :
  pmm_wf (mm_pmm m) -> dir_wf m d -> current_directory m = d * 4096 ->
  0 <= vp -> 0 <= pp -> 0 <= n -> vp + n <= 1048576 -> pp + n <= 1048576 -> used_pages (mm_pmm m) + n <= 4096 ->
  exists m', exec (for_each (seqZ 0 n) (fun i =>
      paging_map_page (u32 (vp * 4096 + u32 (i * 4096))) (u32 (pp * 4096 + u32 (i * 4096))) PAGE_USER_MODE)) m =
    (Val tt, m') /\ region m d vp pp n m'.
Proof.
  intros Hp Hd Hc Hvp Hpp Hn Hv Hpn Hroom.
  apply (exec_for_each_seqZ (fun i s => region m d vp pp i s)); [done|by apply region_nil|].
  intros i s1 Hi Hr. pose proof Hr as [Hp1 Hd1 _ (Hc1 & _ & _) _ _ Hu1 _ _ _ _].
  rewrite !(u32_small (i * 4096)), !(u32_small (_ + _)) by (unfold is_u32; lia).
  destruct (exec_map_page s1 d (vp * 4096 + i * 4096) (pp * 4096 + i * 4096) PAGE_USER_MODE) as [(_ & Hall & _)|(s2 & E & Hm)];
    [done|done|congruence|unfold is_u32; lia|unfold is_u32; lia| |].
  - exfalso. revert Hall. apply room_free; [done|lia].
  - exists s2. split; [done|]. apply (region_step _ _ _ _ _ s1); [done|lia|done|lia|].
    replace ((vp * 4096 + i * 4096) / 4096) with (vp + i) in Hm by dlia.
    rewrite make_entry in Hm by (unfold is_u32; lia).
    replace ((pp * 4096 + i * 4096) / 4096) with (pp + i) in Hm by dlia. exact Hm.
Qed.

Lemma exec_map_user_code m d vp pp size :
  let n := (size + 4095) / 4096 in
  pmm_wf (mm_pmm m) -> dir_wf m d -> 0 <= vp -> 0 <= pp -> 0 <= size -> size + 4095 < 4294967296 ->
  vp + n <= 1048576 -> pp + n <= 1048576 -> used_pages (mm_pmm m) + n <= 4096 ->
  exists m', exec (paging_map_user_code (d * 4096) (vp * 4096) (pp * 4096) size) m = (Val tt, m') /\
    region m d vp pp n m'.
Proof.
  intros n Hp Hd Hvp Hpp Hs Hs2 Hv Hpn Hroom. unfold paging_map_user_code.
  rewrite exec_bind, exec_gets. cbv iota. rewrite exec_bind, exec_modify. cbv iota zeta.
  replace (u32 (size + PAGE_SIZE - 1) / PAGE_SIZE) with n.
  2: { unfold PAGE_SIZE. rewrite u32_small by (unfold is_u32; lia). unfold n. f_equal. lia. }
  destruct (exec_map_pages (set_current (d * 4096) m) d vp pp n) as (m' & E & Hr); try done.
  { by apply (dir_wf_ext m). }
  { apply Z.div_pos; lia. }
  unfold PAGE_SIZE. rewrite exec_bind, E. cbv iota. rewrite exec_modify. eexists. split; [done|].
  by apply (region_current _ _ _ _ _ _ (d * 4096)).
Qed.

(** ** Two address spaces *)

(** Directory [e] shares no page with the part of [d] above 16 MB. *)
Definition separate (m : mem) (d e : Z) : Prop :=
  d <> e /\ (forall j, 0 <= j < 1024 -> present (ent m e j) = true -> ent m e j / 4096 <> d) /\
  forall i, 4 <= i < 1024 -> present (ent m d i) = true -> ent m d i / 4096 <> e /\
    forall j, 0 <= j < 1024 -> present (ent m e j) = true -> ent m d i / 4096 <> ent m e j / 4096.

(** Mapping above 16 MB in one does not show in the other. *)
Lemma region_isolated m d vp pp n m' e q :
  region m d vp pp n m' -> 4096 <= vp -> dir_wf m e -> separate (mm_mem m) d e -> 0 <= q < 1048576 ->
  walk (mm_mem m') e q = walk (mm_mem m) e q.
Proof.
  intros Hr Hvp [[He Heu] Ht _] (Hde & Hed & Hsep) Hq. assert (4 <= vp / 1024) as Hv4 by dlia.
  assert (0 <= q / 1024 < 1024) as Hi by dlia. pose proof (Z.mod_pos_bound q 1024 ltac:(lia)) as Hmod.
  unfold walk. rewrite (rg_frame _ _ _ _ _ _ Hr e); [|apply page_bounds; lia|done|done|done|].
  2: { intros i Hi2 Hp E. destruct (Hsep i ltac:(lia) Hp) as [Hne _]. congruence. }
  destruct (present (ent (mm_mem m) e (q / 1024))) eqn:E; [|done]. destruct (Ht _ Hi E) as (Htb & Htu & _).
  rewrite (rg_frame _ _ _ _ _ _ Hr); [done|apply page_bounds; lia|done|by apply Hed|done|].
  intros i Hi2 Hp E2. destruct (Hsep i ltac:(lia) Hp) as [_ Hne]. apply (Hne _ Hi E). congruence.
Qed.

(** ** Creating a directory *)

(** Page [k], free before, is a directory with the kernel's mapping of the first
    16 MB and nothing else. *)
Record created_dir (m : mm) (D k : Z) (m' : mm) : Prop := {
  cd_free : is_page k /\ page_used (mm_pmm m) k = false;
  cd_pmm : mm_pmm m' = take_page k (mm_pmm m);
  cd_dir : forall i, 0 <= i < 1024 -> ent (mm_mem m') k i = if i <? 4 then ent (mm_mem m) D i else 0;
  cd_frame : forall q j, q <> k -> 0 <= j < 1024 -> ent (mm_mem m') q j = ent (mm_mem m) q j;
  cd_regs : same_regs m m' /\ tlb m' = tlb m
}.

Lemma exec_copy_entries m D k n :
  0 < D -> 0 < k -> D <> k -> 0 <= n <= 1024 -> (forall i, 0 <= i < 1024 -> ent (mm_mem m) k i = 0) ->
  exists m', exec (for_each (seqZ 0 n) (fun i =>
      let! e := read_entry (D * 4096) i in write_entry (k * 4096) i e)) m = (Val tt, m') /\
    mm_pmm m' = mm_pmm m /\ same_regs m m' /\ tlb m' = tlb m /\
    (forall i, 0 <= i < 1024 -> ent (mm_mem m') k i = if i <? n then ent (mm_mem m) D i else 0) /\
    (forall q j, q <> k -> 0 <= j < 1024 -> ent (mm_mem m') q j = ent (mm_mem m) q j).
Proof.
  intros HD Hk HDk Hn H0.
  apply (exec_for_each_seqZ (fun n s => mm_pmm s = mm_pmm m /\ same_regs m s /\ tlb s = tlb m /\
    (forall i, 0 <= i < 1024 -> ent (mm_mem s) k i = if i <? n then ent (mm_mem m) D i else 0) /\
    (forall q j, q <> k -> 0 <= j < 1024 -> ent (mm_mem s) q j = ent (mm_mem m) q j))); [lia| |].
  { split_and!; try done. intros i Hi. rewrite (proj2 (Z.ltb_ge _ _)) by lia. by apply H0. }
  intros i s Hi (Hp & Hr & Ht & Hd & Hf). rewrite exec_bind, exec_read_entry by done. cbv iota.
  rewrite exec_write_entry by done. eexists. split; [done|]. cbn [mm_mem set_mem mm_pmm tlb].
  pose proof (ent_range (mm_mem s) D i) as Hrng. split_and!; try done.
  - intros j Hj. rewrite ent_store by (done || lia). case_decide as E.
    + destruct E as [_ ->]. rewrite (proj2 (Z.ltb_lt _ _)) by lia. by apply Hf; [|lia].
    + rewrite Hd by done. assert (j <> i) by (intros ->; by apply E).
      destruct (Z.ltb_spec j i), (Z.ltb_spec j (i + 1)); (done || lia).
  - intros q j Hq Hj. rewrite ent_store by (done || lia). rewrite decide_False by (intros [? _]; done). by apply Hf.
Qed.

Lemma exec_create_directory m D :
  pmm_wf (mm_pmm m) -> dir_wf m D ->
  ((forall q, is_page q -> page_used (mm_pmm m) q = true) /\
   exec (paging_create_user_directory (D * 4096)) m = (Val 0, m)) \/
  exists k m', exec (paging_create_user_directory (D * 4096)) m = (Val (k * 4096), m') /\ created_dir m D k m'.
Proof.
  intros Hp [[HD HDu] _ _]. unfold paging_create_user_directory, on_pmm. rewrite exec_bind, exec_zoom.
  destruct (exec_pmm_alloc_page (mm_pmm m) Hp) as [(k & Hk & Hf & _ & ->)|[Hall ->]]; cbv iota.
  - right. pose proof (free_page_high _ _ Hp Hk Hf) as Hk512. pose proof (proj1 (page_bounds k) Hk) as Hkb.
    unfold Pmm.PAGE_SIZE. rewrite (proj2 (Z.eqb_neq (k * 4096) 0)) by lia. unfold clear_table.
    rewrite exec_bind, exec_modify. cbv iota. set (m0 := set_mem _ _).
    assert (forall q j, 0 <= j < 1024 -> ent (mm_mem m0) q j = if decide (q = k) then 0 else ent (mm_mem m) q j) as H0
      by (intros; unfold m0; cbn [mm_mem set_mem set_pmm]; by apply ent_clear).
    assert (mm_pmm m0 = take_page k (mm_pmm m) /\ same_regs m m0 /\ tlb m0 = tlb m) as (Hp0 & Hr0 & Ht0) by done. clearbody m0.
    assert (D <> k) as HDk by congruence.
    destruct (exec_copy_entries m0 D k 4) as (m1 & E & Hp1 & Hr1 & Ht1 & Hd1 & Hf1); [lia|lia|done|lia|..].
    { intros i Hi. rewrite H0 by done. by rewrite decide_True. }
    rewrite exec_bind, E. cbv iota. rewrite exec_ret. exists k, m1. split; [done|].
    unfold same_regs in *. split; [done|congruence| | |unfold same_regs; destruct_and!; split_and!; congruence].
    + intros i Hi. rewrite Hd1, H0 by lia. by rewrite decide_False.
    + intros q j Hq Hj. rewrite Hf1, H0 by done. by rewrite decide_False.
  - left. split; [done|]. cbn [Z.eqb]. rewrite exec_ret. by destruct m.
Qed.

(** The new directory is in order; it translates the kernel's 16 MB as the
    kernel's directory does, and nothing above. *)
Lemma created_wf m D k m' :
  pmm_wf (mm_pmm m) -> dir_wf m D -> created_dir m D k m' ->
  pmm_wf (mm_pmm m') /\ dir_wf m' k /\
  forall vp, 0 <= vp < 1048576 -> walk (mm_mem m') k vp = if vp <? 4096 then walk (mm_mem m) D vp else None.
Proof.
  intros Hp [[HD HDu] Ht Hdis] [[Hk Hkf] Hpm Hdir Hfr _].
  pose proof (free_page_high _ _ Hp Hk Hkf) as Hk512. pose proof (proj1 (page_bounds k) Hk) as Hkb.
  assert (forall q, is_page q -> page_used (mm_pmm m') q = (k =? q) || page_used (mm_pmm m) q) as Hused.
  { intros q Hq. rewrite Hpm. apply page_used_take; (done || apply Hp). }
  assert (forall i, 0 <= i < 1024 -> present (ent (mm_mem m') k i) = true ->
    0 <= i < 4 /\ ent (mm_mem m') k i = ent (mm_mem m) D i /\ present (ent (mm_mem m) D i) = true) as Hent.
  { intros i Hi. rewrite Hdir by done. destruct (Z.ltb_spec i 4); [|done]. intros. split_and!; (done || lia). }
  split; [|split; [split|]].
  - rewrite Hpm. by apply take_page_wf.
  - split; [lia|]. rewrite Hused, Z.eqb_refl by done. done.
  - intros i Hi Hpr. destruct (Hent i Hi Hpr) as (Hi4 & -> & Hpr2). destruct (Ht i Hi Hpr2) as (Hb & Hu & _). cbv zeta.
    assert (is_page (ent (mm_mem m) D i / 4096)) as Hpg by (apply page_bounds; lia).
    split_and!; [lia|lia| |congruence]. by rewrite Hused, Hu, orb_true_r.
  - intros i j Hi Hj Hij Hpi Hpj. destruct (Hent i Hi Hpi) as (_ & -> & Hi2). destruct (Hent j Hj Hpj) as (_ & -> & Hj2).
    by apply Hdis.
  - intros vp Hvp. unfold walk. assert (0 <= vp / 1024 < 1024) as Hi by dlia.
    pose proof (Z.mod_pos_bound vp 1024 ltac:(lia)) as Hmod. rewrite Hdir by done.
    destruct (Z.ltb_spec vp 4096) as [Hlt|Hge].
    + rewrite (proj2 (Z.ltb_lt _ _)) by dlia. destruct (present (ent (mm_mem m) D (vp / 1024))) eqn:Epr; [|done].
      destruct (Ht _ Hi Epr) as (_ & Hu & _). rewrite Hfr; [done|congruence|done].
    + rewrite (proj2 (Z.ltb_ge _ _)) by dlia. done.
Qed.

(** ** Releasing a directory *)

(** The pages a table maps, and the pages an address space is made of: what its
    tables above the kernel's 16 MB map, the tables and the directory, in the
    order in which they are given back. *)
Definition table_pages (m : mem) (t : Z) : list Z :=
  seqZ 0 1024 ≫= fun j => if present (ent m t j) then [ent m t j / 4096] else [].
Definition owned_pages (m : mem) (d : Z) : list Z :=
  (seqZ 4 1020 ≫= fun i =>
    if present (ent m d i) then table_pages m (ent m d i / 4096) ++ [ent m d i / 4096] else []) ++ [d].

Definition give_back (q : Z) : M mm unit := on_pmm (pmm_free_page (q * 4096)).

(** Only the allocator changes. *)
Definition same_but_pmm (m m' : mm) : Prop := m' = set_pmm (mm_pmm m') m.

Lemma exec_give_back m q : pmm_wf (mm_pmm m) -> 0 <= q ->
  exists m', exec (give_back q) m = (Val tt, m') /\ same_but_pmm m m' /\ pmm_wf (mm_pmm m') /\
    forall p, is_page p -> page_used (mm_pmm m') p = page_used (mm_pmm m) p && negb ((512 <=? p) && (p =? q)).
Proof.
  intros Hp Hq. unfold give_back, on_pmm. rewrite exec_zoom.
  destruct (pmm_free_page_wf (mm_pmm m) (q * 4096) Hp ltac:(lia)) as (s' & E & Hwf). rewrite E. eexists. split; [done|].
  split; [done|]. split; [done|]. cbn [mm_pmm set_pmm]. rewrite exec_pmm_free_page in E by (done || lia).
  injection E as <-. unfold MEMORY_SIZE, Pmm.PAGE_SIZE, KERNEL_END in *. rewrite Z.mod_mul, Z.div_mul by lia. cbn [negb Z.eqb].
  rewrite orb_false_r. intros p Hpg. pose proof (proj1 (page_bounds p) Hpg) as Hb.
  destruct (Z.leb_spec (16 * 1024 * 1024) (q * 4096)) as [Hhi|Hhi]; cbn [orb].
  { rewrite (proj2 (Z.eqb_neq p q)) by lia. by rewrite andb_false_r, andb_true_r. }
  destruct (Z.ltb_spec (q * 4096) 2097152) as [Hlo|Hlo].
  { destruct (Z.leb_spec 512 p), (Z.eqb_spec p q); try lia; by rewrite andb_true_r. }
  destruct (page_used (mm_pmm m) q) eqn:Eu.
  - rewrite page_used_drop; [|apply Hp|apply page_bounds; lia|done]. rewrite (Z.eqb_sym p q).
    destruct (Z.eqb_spec q p) as [->|]; cbn [negb andb]; [|by rewrite andb_false_r, andb_true_r].
    rewrite (proj2 (Z.leb_le 512 p)) by lia. by rewrite andb_false_r.
  - destruct (Z.eqb_spec p q) as [->|]; [by rewrite Eu|]. by rewrite andb_false_r, andb_true_r.
Qed.

Lemma exec_give_back_all l m : pmm_wf (mm_pmm m) -> Forall (fun q => 0 <= q) l ->
  exists m', exec (for_each l give_back) m = (Val tt, m') /\ same_but_pmm m m' /\ pmm_wf (mm_pmm m') /\
    forall p, is_page p ->
      page_used (mm_pmm m') p = page_used (mm_pmm m) p && negb ((512 <=? p) && bool_decide (p ∈ l)).
Proof.
  revert m. induction l as [|q l IH]; intros m Hp Hl.
  { exists m. split; [done|]. split; [by destruct m|]. split; [done|]. intros p _.
    rewrite bool_decide_false by set_solver. by rewrite andb_false_r, andb_true_r. }
  apply Forall_cons_iff in Hl as [Hq Hl]. destruct (exec_give_back m q Hp Hq) as (m1 & E1 & Hs1 & Hp1 & Hu1).
  destruct (IH m1 Hp1 Hl) as (m2 & E2 & Hs2 & Hp2 & Hu2). exists m2. unfold for_each; fold (@for_each mm Z).
  rewrite exec_bind, E1. split; [done|]. split; [|split; [done|]].
  - unfold same_but_pmm in *. rewrite Hs2, Hs1. by destruct m.
  - intros p Hpg. rewrite Hu2, Hu1 by done. rewrite <- andb_assoc. f_equal. rewrite <- negb_orb, <- andb_orb_distrib_r. do 2 f_equal.
    destruct (Z.eqb_spec p q) as [->|Hne]; cbn [orb].
    + symmetry. apply bool_decide_true. by apply list_elem_of_here.
    + apply bool_decide_ext. rewrite elem_of_cons. tauto.
Qed.

Lemma elem_of_table_pages m t q :
  q ∈ table_pages m t <-> exists j, 0 <= j < 1024 /\ present (ent m t j) = true /\ q = ent m t j / 4096.
Proof.
  unfold table_pages. rewrite list_elem_of_bind. split.
  - intros (j & Hq & Hj). apply elem_of_seqZ in Hj. destruct (present (ent m t j)) eqn:E; [|by apply not_elem_of_nil in Hq].
    apply list_elem_of_singleton in Hq. exists j. split_and!; (done || lia).
  - intros (j & Hj & Hp & ->). exists j. rewrite Hp, list_elem_of_singleton, elem_of_seqZ. split; [done|lia].
Qed.

(** The pages of the address space, by what the walk says. *)
Lemma elem_of_owned_pages m d q :
  q ∈ owned_pages m d <-> q = d \/
    (exists i, 4 <= i < 1024 /\ present (ent m d i) = true /\ q = ent m d i / 4096) \/
    (exists vp pte, 4096 <= vp < 1048576 /\ walk m d vp = Some pte /\ q = pte / 4096).
Proof.
  unfold owned_pages. rewrite elem_of_app, list_elem_of_bind, list_elem_of_singleton. split.
  - intros [(i & Hq & Hi)| ->]; [|by left]. right. apply elem_of_seqZ in Hi.
    destruct (present (ent m d i)) eqn:E; [|by apply not_elem_of_nil in Hq].
    apply elem_of_app in Hq as [Hq|Hq]; [right|left; apply list_elem_of_singleton in Hq; exists i; split_and!; (done || lia)].
    apply elem_of_table_pages in Hq as (j & Hj & Hp & ->). exists (i * 1024 + j), (ent m (ent m d i / 4096) j).
    split; [lia|]. split; [|done]. unfold walk. replace ((i * 1024 + j) / 1024) with i by dlia.
    replace ((i * 1024 + j) mod 1024) with j by dlia. by rewrite E, Hp.
  - intros [->| [(i & Hi & Hp & ->)|(vp & pte & Hvp & Hw & ->)]]; [by right|left..].
    + exists i. rewrite Hp, elem_of_app, list_elem_of_singleton, elem_of_seqZ. split; [by right|lia].
    + exists (vp / 1024). unfold walk in Hw. destruct (present (ent m d (vp / 1024))); [|done].
      destruct (present (ent m _ (vp mod 1024))) eqn:E; [|done]. injection Hw as <-. rewrite elem_of_app, elem_of_seqZ.
      split; [left|dlia]. apply elem_of_table_pages. exists (vp mod 1024). split; [|done]. apply Z.mod_pos_bound. lia.
Qed.

Lemma owned_pages_nonneg m d : 0 <= d -> Forall (fun q => 0 <= q) (owned_pages m d).
Proof.
  intros Hd. apply list.Forall_forall. intros q Hq. apply elem_of_owned_pages in Hq as [->| [(i & _ & _ & ->)|(vp & pte & _ & Hw & ->)]]; [done|..].
  - pose proof (ent_range m d i) as Hr. unfold is_u32 in Hr. dlia.
  - unfold walk in Hw. destruct (present _); [|done]. destruct (present _); [|done]. injection Hw as <-.
    pose proof (ent_range m (ent m d (vp / 1024) / 4096) (vp mod 1024)) as Hr. unfold is_u32 in Hr. dlia.
Qed.

Lemma give_back_mem l s : mm_mem (snd (exec (for_each l give_back) s)) = mm_mem s.
Proof.
  revert s. induction l as [|q l IH]; intros s; [done|]. unfold for_each; fold (@for_each mm Z). rewrite exec_bind.
  unfold give_back at 1, on_pmm. rewrite exec_zoom. destruct (exec (pmm_free_page _) _) as [[[]|w] p]; [|done]. cbv iota. by rewrite IH.
Qed.

Lemma exec_free_table m t : 0 < t ->
  exec (free_table (t * 4096)) m = exec (for_each (table_pages (mm_mem m) t) give_back) m.
Proof.
  intros Ht. unfold free_table, table_pages. rewrite exec_for_each_bind.
  apply (exec_for_each_cong (fun s => mm_mem s = mm_mem m)); [done|]. intros j s _ Hs. split; [|by rewrite give_back_mem].
  rewrite exec_bind, exec_read_entry by done. cbv iota. rewrite Hs. unfold present.
  destruct (Z.land (ent (mm_mem m) t j) PAGE_PRESENT =? 0); cbn [negb]; [done|].
  rewrite mask_div by apply ent_range. unfold for_each, give_back. rewrite exec_bind.
  destruct (exec (on_pmm _) s) as [[[]|w] s1]; done.
Qed.

Lemma exec_free_directory m d : dir_wf m d ->
  exec (paging_free_directory (d * 4096)) m = exec (for_each (owned_pages (mm_mem m) d) give_back) m.
Proof.
  intros [[Hd _] Ht _]. unfold paging_free_directory. rewrite (proj2 (Z.eqb_neq (d * 4096) 0)) by lia.
  unfold owned_pages. rewrite exec_for_each_app, exec_for_each_bind, exec_bind.
  rewrite (exec_for_each_cong (fun s => mm_mem s = mm_mem m) _ (fun i => for_each (if present (ent (mm_mem m) d i)
    then table_pages (mm_mem m) (ent (mm_mem m) d i / 4096) ++ [ent (mm_mem m) d i / 4096] else []) give_back)); [|done|].
  - destruct (exec (for_each _ _) m) as [[[]|w] s1]; [|done]. unfold for_each, give_back. rewrite exec_bind.
    destruct (exec (on_pmm _) s1) as [[[]|w] s2]; done.
  - intros i s Hi Hs. split; [|by rewrite give_back_mem]. apply elem_of_seqZ in Hi. unfold PAGE_DIRECTORY_ENTRIES in Hi.
    rewrite exec_bind, exec_read_entry by lia. cbv iota. rewrite Hs. specialize (Ht i ltac:(lia)). unfold present in *.
    destruct (Z.land (ent (mm_mem m) d i) PAGE_PRESENT =? 0); cbn [negb] in *; [done|]. destruct (Ht eq_refl) as (Ht0 & _ & _).
    rewrite mask_div by apply ent_range. cbv zeta. rewrite exec_bind, exec_free_table, exec_for_each_app, Hs by lia.
    destruct (exec (for_each _ _) s) as [[[]|w] s1]; [|done]. unfold for_each, give_back. rewrite exec_bind.
    destruct (exec (on_pmm _) s1) as [[[]|w] s2]; done.
Qed.

(** ** Page faults *)

Lemma dir_wf_take m d k : pmm_wf (mm_pmm m) -> is_page k -> dir_wf m d -> dir_wf (set_pmm (take_page k (mm_pmm m)) m) d.
Proof.
  intros Hp Hk [[Hd Hdu] Ht Hdis].
  assert (forall q, is_page q -> page_used (mm_pmm m) q = true -> page_used (take_page k (mm_pmm m)) q = true) as Hu.
  { intros q Hq Hqu. rewrite page_used_take by (done || apply Hp). by rewrite Hqu, orb_true_r. }
  split; cbn [mm_mem mm_pmm set_pmm].
  - split; [done|]. apply Hu; [apply page_bounds; lia|done].
  - intros i Hi Hpr. destruct (Ht i Hi Hpr) as (Hb & Htu & Hne). cbv zeta. split_and!; [lia|lia| |done].
    apply Hu; [apply page_bounds; lia|done].
  - done.
Qed.

(** Which faults are served. *)
Definition demand (fault : Z) (proc : option process_t) (error_code : Z) : bool :=
  match proc with
  | Some v => (Z.land error_code 1 =? 0) && (Z.land error_code 8 =? 0) && negb (is_user_mode v =? 0) && user_region fault
  | None => false
  end.

Lemma demand_iff fault proc err : demand fault proc err = true <->
  exists v, proc = Some v /\ Z.testbit err 0 = false /\ Z.testbit err 3 = false /\ is_user_mode v <> 0 /\ 1074003968 <= fault < 2147483648.
Proof.
  assert (forall n, 0 <= n -> (Z.land err (2 ^ n) =? 0) = negb (Z.testbit err n)) as Hbit.
  { intros n Hn. by rewrite <- (word_test err n Hn), Z.shiftl_1_l, negb_involutive. }
  assert (forall x, user_region x = (1074003968 <=? x) && (x <? 2147483648)) as Hreg.
  { intros x. unfold user_region, USER_STACK_BASE, USER_CODE_BASE. lia. }
  unfold demand. destruct proc as [v|]; [|split; [done|intros (v & ? & _); done]].
  change 1 with (2 ^ 0) at 1. change 8 with (2 ^ 3). rewrite !Hbit, Hreg by lia. split.
  - intros Hd. exists v. split; [done|]. destruct (Z.testbit err 0), (Z.testbit err 3), (Z.eqb_spec (is_user_mode v) 0); cbn in Hd; try done. split_and!; (done || lia).
  - intros (w & [= <-] & -> & -> & Hu & Hf). rewrite (proj2 (Z.eqb_neq _ 0) Hu). cbn. lia.
Qed.

Lemma exec_fault_report fault err proc m : exec (fault_report fault err proc) m = (Stopped Halted, m).
Proof. unfold fault_report. run. destruct (negb (Z.land err 8 =? 0)), proc; run; done. Qed.

Lemma exec_fault_refused fault proc err m : demand fault proc err = false ->
  exec (page_fault_handler fault proc err) m = (Stopped Halted, m).
Proof.
  intros Hd. unfold page_fault_handler. destruct proc as [v|]; [|apply exec_fault_report].
  cbn [demand] in Hd. rewrite !negb_involutive, Hd. apply exec_fault_report.
Qed.

(** One page mapped into a directory: nothing happens when its table is missing
    and no page is left for it. *)
Lemma exec_map_one m d vp pp : pmm_wf (mm_pmm m) -> dir_wf m d -> 0 <= vp < 1048576 -> 0 <= pp < 1048576 ->
  (present (ent (mm_mem m) d (vp / 1024)) = false /\ (forall q, is_page q -> page_used (mm_pmm m) q = true) /\
   exec (paging_map_user_code (d * 4096) (vp * 4096) (pp * 4096) 4096) m = (Val tt, m)) \/
  exists m', exec (paging_map_user_code (d * 4096) (vp * 4096) (pp * 4096) 4096) m = (Val tt, m') /\ region m d vp pp 1 m'.
Proof.
  intros Hp Hd Hvp Hpp. unfold paging_map_user_code. rewrite exec_bind, exec_gets. cbv iota. rewrite exec_bind, exec_modify. cbv iota zeta.
  change (u32 (4096 + PAGE_SIZE - 1) / PAGE_SIZE) with 1. change (seqZ 0 1) with [0]. rewrite exec_bind, exec_for_each_cons.
  change (u32 (0 * PAGE_SIZE)) with 0. rewrite !Z.add_0_r, !u32_small by (unfold is_u32; lia).
  set (m1 := set_current (d * 4096) m). assert (dir_wf m1 d) as Hd1 by (by apply (dir_wf_ext m)).
  destruct (exec_map_page m1 d (vp * 4096) (pp * 4096) PAGE_USER_MODE Hp Hd1 eq_refl) as [(Hn & Hall & E)|(m2 & E & Hm)];
    [unfold is_u32; lia..| |]; rewrite E; cbv iota; unfold for_each; rewrite exec_ret; cbv iota; rewrite exec_modify; [left|right].
  - split_and!; [by rewrite Z.div_mul in Hn by lia|done|]. by destruct m.
  - eexists. split; [done|]. apply (region_current _ _ _ _ _ _ (d * 4096)); [done|]. fold m1.
    rewrite Z.div_mul, make_entry, Z.div_mul in Hm by (unfold is_u32; lia).
    apply (region_step m1 d vp pp 0 m1 m2); [by apply region_nil|lia|lia|lia|]. by rewrite !Z.add_0_r.
Qed.

(** A fault that is served: the lowest free page backs the address, when it has a
    table or there is another free page for one. *)
Lemma exec_fault_served fault v err m d :
  demand fault (Some v) err = true -> pmm_wf (mm_pmm m) -> dir_wf m d -> page_directory v = d * 4096 ->
  (forall q, is_page q -> page_used (mm_pmm m) q = true) /\ exec (page_fault_handler fault (Some v) err) m = (Stopped Halted, m) \/
  exists k, is_page k /\ page_used (mm_pmm m) k = false /\ (forall q, 0 <= q < k -> page_used (mm_pmm m) q = true) /\
    let m1 := set_pmm (take_page k (mm_pmm m)) m in
    (present (ent (mm_mem m) d (fault / 4096 / 1024)) = false /\ (forall q, is_page q -> page_used (mm_pmm m1) q = true) /\
     exec (page_fault_handler fault (Some v) err) m = (Val tt, m1) \/
     exists m', exec (page_fault_handler fault (Some v) err) m = (Val tt, m') /\ region m1 d (fault / 4096) k 1 m').
Proof.
  intros Hdem Hp Hd Hpd. apply demand_iff in Hdem as Hf. destruct Hf as (v' & [= <-] & _ & _ & _ & Hf).
  unfold page_fault_handler. rewrite !negb_involutive. cbn [demand] in Hdem. rewrite Hdem. unfold on_pmm. rewrite exec_bind, exec_zoom.
  destruct (exec_pmm_alloc_page (mm_pmm m) Hp) as [(k & Hk & Hkf & Hmin & ->)|[Hall ->]]; cbv iota; [right|left].
  2: { split; [done|]. cbn [Z.eqb]. rewrite exec_fault_report. by destruct m. }
  pose proof (free_page_high _ _ Hp Hk Hkf) as Hk512. pose proof (proj1 (page_bounds k) Hk) as Hkb. exists k. split; [done|]. split; [done|]. split; [done|]. set (m1 := set_pmm _ m). cbv zeta.
  unfold Pmm.PAGE_SIZE. rewrite (proj2 (Z.eqb_neq (k * 4096) 0)) by lia. rewrite mask_div by (unfold is_u32; lia). rewrite Hpd. fold m1.
  change PAGE_SIZE with 4096. rewrite exec_bind.
  destruct (exec_map_one m1 d (fault / 4096) k) as [(Hn & Hall & E)|(m' & E & Hr)];
    [by apply take_page_wf|by apply dir_wf_take|dlia|lia|left|right]; rewrite E; cbv iota; rewrite exec_kprintf_color; [done|by exists m'].
Qed.

(** ** The interface of the process manager

    [kernel_directory] is where the linker put the directory of the kernel. *)

#[export] Instance mm_memory (kernel_directory : Z) : MemoryOps mm := {|
  Process.paging_get_directory := Paging.paging_get_directory;
  Process.paging_create_user_directory := Paging.paging_create_user_directory kernel_directory;
  Process.paging_free_directory := Paging.paging_free_directory;
  Process.paging_switch_directory := Paging.paging_switch_directory;
  Process.paging_map_user_code := Paging.paging_map_user_code;
  Process.pmm_alloc_page := on_pmm Pmm.pmm_alloc_page;
  Process.copy_page dest src size := modify (set_mem (fun m => copy_bytes (Z.to_nat size) m dest src))
|}.

#[export] Instance mm_memory_laws (kernel_directory : Z) : @MemoryLaws mm (mm_memory kernel_directory).
Proof. split. intros dir m. eexists. reflexivity. Qed.

(** ** The life of an address space *)

Lemma created_used m D k m' q : pmm_wf (mm_pmm m) -> created_dir m D k m' -> is_page q ->
  page_used (mm_pmm m') q = (k =? q) || page_used (mm_pmm m) q.
Proof. intros Hp [[Hk _] -> _ _ _] Hq. apply page_used_take; (done || apply Hp). Qed.

(** What a new directory owns after a region was mapped in it. *)
Lemma owned_region m D k m1 vp pp n m2 q :
  pmm_wf (mm_pmm m) -> dir_wf m D -> created_dir m D k m1 -> region m1 k vp pp n m2 ->
  4096 <= vp -> vp + n <= 1048576 -> is_page q -> page_used (mm_pmm m) q = true ->
  q ∈ owned_pages (mm_mem m2) k <-> pp <= q < pp + n.
Proof.
  intros Hp HD Hcr Hr Hvp Hn Hq Hu. destruct (created_wf _ _ _ _ Hp HD Hcr) as (_ & _ & Hw).
  assert (page_used (mm_pmm m1) q = true) as Hu1 by (rewrite (created_used _ _ _ _ _ Hp Hcr Hq), Hu; apply orb_true_r).
  rewrite elem_of_owned_pages. split.
  - intros [->| [(i & Hi & Hpr & ->)|(a & pte & Ha & Hwa & ->)]].
    + destruct Hcr as [[_ Hf] _ _ _ _]. congruence.
    + exfalso. assert (0 <= i < 1024) as Hi' by lia. destruct (rg_tables _ _ _ _ _ _ Hr i Hi' Hpr) as [E|E]; [|congruence].
      rewrite E, (cd_dir _ _ _ _ Hcr) in Hpr by done. by rewrite (proj2 (Z.ltb_ge i 4)) in Hpr by lia.
    + rewrite (rg_walk _ _ _ _ _ _ Hr), Hw in Hwa by lia. case_decide; [|by rewrite (proj2 (Z.ltb_ge a 4096)) in Hwa by lia].
      injection Hwa as <-. dlia.
  - intros Hin. right. right. exists (vp + (q - pp)), (q * 4096 + 7). split; [lia|]. split; [|dlia].
    rewrite (rg_walk _ _ _ _ _ _ Hr) by lia. rewrite decide_True by lia. do 2 f_equal. lia.
Qed.

(** Every page the address space took from the allocator is among those it owns. *)
Lemma owned_taken m D k m1 vp pp n m2 q :
  pmm_wf (mm_pmm m) -> created_dir m D k m1 -> region m1 k vp pp n m2 -> 4096 <= vp -> is_page q ->
  page_used (mm_pmm m) q = false -> page_used (mm_pmm m2) q = true -> q ∈ owned_pages (mm_mem m2) k.
Proof.
  intros Hp Hcr Hr Hvp Hq Hf Hu. apply elem_of_owned_pages. destruct (rg_new _ _ _ _ _ _ Hr q Hq Hu) as [Hu1|(i & Hi & Hpr & ->)].
  - rewrite (created_used _ _ _ _ _ Hp Hcr Hq), Hf, orb_false_r in Hu1. apply Z.eqb_eq in Hu1. by left.
  - right. left. exists i. split; [dlia|done].
Qed.

Definition live_and_die (D vp pp size : Z) : M mm unit :=
  let! dir := paging_create_user_directory (D * 4096) in
  paging_map_user_code dir (vp * 4096) (pp * 4096) size ;;
  paging_free_directory dir.

(** C12: An address space gives back all it took: creating a user directory,
    mapping a region above 16 MB in it and releasing the directory ends, and in
    the allocator exactly the pages of the region are freed besides: the directory and
    every page table that was made for it are free again, and no other page
    changed. *)
Theorem address_space_reclaimed (m : mm) (D vp pp size : Z)
    (Hp : pmm_wf (mm_pmm m)) (HD : dir_wf m D) (Hvp : 4096 <= vp) (Hpp : 0 <= pp) (Hsize : 0 <= size < 4294963200)
    (Hv : vp + (size + 4095) / 4096 <= 1048576) (Hpn : pp + (size + 4095) / 4096 <= 1048576)
    (Hroom : used_pages (mm_pmm m) + 1 + (size + 4095) / 4096 <= 4096) :
  exists m', exec (live_and_die D vp pp size) m = (Val tt, m') /\ pmm_wf (mm_pmm m') /\
    forall q, is_page q -> page_used (mm_pmm m') q =
      page_used (mm_pmm m) q && negb ((512 <=? q) && bool_decide (pp <= q < pp + (size + 4095) / 4096)).
Proof.
  set (n := (size + 4095) / 4096) in *. assert (0 <= n) as Hn by (apply Z.div_pos; lia).
  destruct (exec_create_directory m D Hp HD) as [[Hall _]|(k & m1 & E1 & Hcr)].
  { exfalso. revert Hall. apply room_free; [done|lia]. }
  destruct (created_wf _ _ _ _ Hp HD Hcr) as (Hp1 & Hd1 & _). pose proof (used_pages_range _ Hp) as Hur.
  destruct (exec_map_user_code m1 k vp pp size) as (m2 & E2 & Hr); try done; try lia.
  { rewrite (cd_pmm _ _ _ _ Hcr). cbn [take_page used_pages]. rewrite u32_small by (unfold is_u32; lia). lia. }
  pose proof (rg_dir _ _ _ _ _ _ Hr) as Hd2. pose proof (rg_pmm _ _ _ _ _ _ Hr) as Hp2. fold n in Hr.
  destruct (exec_give_back_all (owned_pages (mm_mem m2) k) m2 Hp2) as (m3 & E3 & _ & Hp3 & Hu3).
  { apply owned_pages_nonneg. destruct Hd2 as [[? _] _ _]. lia. }
  exists m3. unfold live_and_die. rewrite exec_bind, E1. cbv iota. rewrite exec_bind, E2. cbv iota.
  rewrite (exec_free_directory _ _ Hd2). split; [done|]. split; [done|]. intros q Hq. rewrite Hu3 by done.
  destruct (page_used (mm_pmm m) q) eqn:Eu; cbn [andb].
  - rewrite (rg_used _ _ _ _ _ _ Hr q Hq) by (rewrite (created_used _ _ _ _ _ Hp Hcr Hq), Eu; apply orb_true_r). cbn [andb].
    do 2 f_equal. apply bool_decide_ext. exact (owned_region m D k m1 vp pp n m2 q Hp HD Hcr Hr Hvp Hv Hq Eu).
  - destruct (page_used (mm_pmm m2) q) eqn:Eu2; [|done]. cbn [andb].
    rewrite bool_decide_true by exact (owned_taken m D k m1 vp pp n m2 q Hp Hcr Hr Hvp Hq Eu Eu2).
    rewrite (proj2 (Z.leb_le 512 q)) by exact (free_page_high _ _ Hp Hq Eu). done.
Qed.

(** The state of the witnesses: a directory without tables in page 256, and the
    allocator after boot. *)
Definition empty_mm : mm := mk_mm (fun _ => 0) (mk_pmm boot_bitmap 512) (256 * 4096) 0 0 (fun _ => None).

Lemma empty_mm_wf : dir_wf empty_mm 256.
Proof.
  assert (forall q i, ent (mm_mem empty_mm) q i = 0) as H0 by done.
  split; [split; [lia|reflexivity]|..].
  - intros i _. by rewrite H0.
  - intros i j _ _ _. by rewrite H0.
Qed.

Lemma address_space_reclaimed_witness :
  exists m', exec (live_and_die 256 262144 600 8000) empty_mm = (Val tt, m') /\
    forall q, is_page q -> page_used (mm_pmm m') q =
      page_used (mm_pmm empty_mm) q && negb ((512 <=? q) && bool_decide (600 <= q < 600 + 2)).
Proof.
  destruct (address_space_reclaimed empty_mm 256 262144 600 8000 pmm_init_wf empty_mm_wf) as (m' & E & _ & Hu);
    [lia..|vm_compute; done|vm_compute; done|vm_compute; done|]. exists m'. split; [exact E|exact Hu].
Defined.

(** [paging_init] ends with paging on, CR3 loaded, and the page tables in
    order; [paging_get_physical_address] then gives every address below 16 MB
    back unchanged and 0 for every other one, and no page was taken from the
    allocator. *)
Theorem paging_init_identity (m : mm) (D E : Z) (Hp : pmm_wf (mm_pmm m))
    (Hlink : 0 < D < 512 /\ 0 < E /\ E + 16 <= 512 /\ (D < E \/ E + 16 <= D)) :
  exists m', exec (paging_init (D * 4096) (E * 4096)) m = (Val tt, m') /\
    mm_pmm m' = mm_pmm m /\ dir_wf m' D /\ tlb_ok m' D /\ current_directory m' = D * 4096 /\ cr3 m' = D * 4096 /\
    Z.testbit (cr0 m') 31 = true /\
    forall v, is_u32 v -> exec (paging_get_physical_address v) m' = (Val (if v <? 16777216 then v else 0), m').
Proof.
  destruct (exec_paging_init D E Hlink m) as (m' & Ex & Hmu & Hc & H3 & Ht). exists m'.
  pose proof (boot_dir_wf D E Hlink _ m' Hmu Hp) as Hd. pose proof (mu_cr0 _ _ _ _ _ Hmu) as H0. cbn in H0.
  split_and!; [done|apply Hmu|done| |done|done| |].
  - intros vp pte _. by rewrite Ht.
  - by rewrite H0, Z.lor_spec, orb_true_r.
  - intros v Hv. rewrite (exec_get_physical m' D v Hd Hc Hv). do 2 f_equal. unfold translate, is_u32 in *.
    rewrite (boot_walk D E _ _ _ Hmu) by dlia.
    destruct (Z.ltb_spec (v / 4096) 4096), (Z.ltb_spec v 16777216); cbn; (done || dlia).
Qed.

Lemma paging_init_identity_witness :
  exists m', exec (paging_init 1048576 1228800) empty_mm = (Val tt, m') /\
    exec (paging_get_physical_address 753664) m' = (Val 753664, m').
Proof.
  destruct (paging_init_identity empty_mm 256 300 pmm_init_wf ltac:(lia)) as (m' & Ex & _ & _ & _ & _ & _ & _ & Hv).
  exists m'. split; [exact Ex|]. exact (Hv 753664 ltac:(unfold is_u32; lia)).
Defined.

(** C19: With a page left for a table, [paging_map_page] ends, and
    [paging_get_physical_address] then translates every address of the page to
    the given frame (to nothing when the flags have no present bit) and every
    other address as before; directory, allocator and TLB stay consistent. *)
Theorem paging_map_translates (m : mm) (d v p flags : Z) (Hp : pmm_wf (mm_pmm m)) (Hd : dir_wf m d)
    (Hc : current_directory m = d * 4096) (Hv : is_u32 v) (Hpa : is_u32 p) (Hroom : used_pages (mm_pmm m) < 4096) :
  exists m', exec (paging_map_page v p flags) m = (Val tt, m') /\
    pmm_wf (mm_pmm m') /\ dir_wf m' d /\ (tlb_ok m d -> tlb_ok m' d) /\
    forall v', is_u32 v' -> exec (paging_get_physical_address v') m' =
      (Val (if decide (v' / 4096 = v / 4096)
            then (if present flags then p / 4096 * 4096 + v' mod 4096 else 0)
            else default 0 (translate (mm_mem m) d v')), m').
Proof.
  destruct (exec_map_page m d v p flags Hp Hd Hc Hv Hpa) as [(_ & Hall & _)|(m' & Ex & Hm)].
  { exfalso. revert Hall. by apply room_free. }
  exists m'. split_and!; [done|apply Hm|apply Hm|exact (mapped_tlb _ _ _ _ _ Hm)|]. intros v' Hv'.
  pose proof (mp_regs _ _ _ _ _ Hm) as (Hc' & _ & _). rewrite (exec_get_physical m' d v' (mp_dir _ _ _ _ _ Hm)) by congruence.
  rewrite (mapped_translate _ _ _ _ _ _ Hm Hv'). do 2 f_equal. case_decide; [|done].
  destruct (entry_parts (p / 4096) flags) as (E1 & E2 & _). { unfold is_u32 in Hpa. dlia. }
  assert (make_pte p flags = make_pte (p / 4096 * 4096) flags) as ->.
  { unfold is_u32 in Hpa. rewrite !make_entry by (unfold is_u32; dlia). by rewrite Z.div_mul by lia. }
  rewrite E2. destruct (present flags); [|done]. cbn [default]. by rewrite E1.
Qed.

Lemma paging_map_translates_witness :
  exists m', exec (paging_map_page 1073741824 2457600 PAGE_USER_MODE) empty_mm = (Val tt, m') /\
    exec (paging_get_physical_address 1073741828) m' = (Val 2457604, m').
Proof.
  destruct (paging_map_translates empty_mm 256 1073741824 2457600 PAGE_USER_MODE pmm_init_wf empty_mm_wf eq_refl)
    as (m' & Ex & _ & _ & _ & Hv); [unfold is_u32; lia..|done|]. exists m'. split; [exact Ex|].
  exact (Hv 1073741828 ltac:(unfold is_u32; lia)).
Defined.

(** Mapping a page and unmapping it again: whatever the directory had for
    the page, it has nothing afterwards, every other address translates as in
    the beginning, and a TLB that agreed with the tables still does. *)
Theorem paging_map_unmap (m : mm) (d v p flags : Z) (Hp : pmm_wf (mm_pmm m)) (Hd : dir_wf m d)
    (Hc : current_directory m = d * 4096) (Hv : is_u32 v) (Hpa : is_u32 p) (Hroom : used_pages (mm_pmm m) < 4096) :
  exists m', exec (paging_map_page v p flags ;; paging_unmap_page v) m = (Val tt, m') /\
    dir_wf m' d /\ (tlb_ok m d -> tlb_ok m' d) /\
    forall v', is_u32 v' -> translate (mm_mem m') d v' =
      if decide (v' / 4096 = v / 4096) then None else translate (mm_mem m) d v'.
Proof.
  destruct (exec_map_page m d v p flags Hp Hd Hc Hv Hpa) as [(_ & Hall & _)|(m1 & Ex & Hm)].
  { exfalso. revert Hall. by apply room_free. }
  pose proof (mp_regs _ _ _ _ _ Hm) as (Hc1 & _ & _).
  destruct (exec_unmap_page m1 d v (mp_pmm _ _ _ _ _ Hm) (mp_dir _ _ _ _ _ Hm)) as (m2 & Ex2 & Hu); [congruence|done|].
  exists m2. rewrite exec_bind, Ex. split; [done|]. split; [apply Hu|]. split.
  { intros Ht. apply Hu. by apply (mapped_tlb _ _ _ _ _ Hm). }
  intros v' Hv'. unfold translate, is_u32 in *. rewrite (um_walk _ _ _ _ Hu) by dlia.
  case_decide; [done|]. rewrite (mp_walk _ _ _ _ _ Hm) by dlia. by rewrite decide_False.
Qed.

Lemma paging_map_unmap_witness :
  exists m', exec (paging_map_page 1073741824 2457600 PAGE_KERNEL ;; paging_unmap_page 1073741824) empty_mm = (Val tt, m') /\
    dir_wf m' 256.
Proof.
  destruct (paging_map_unmap empty_mm 256 1073741824 2457600 PAGE_KERNEL pmm_init_wf empty_mm_wf eq_refl)
    as (m' & Ex & Hd & _); [unfold is_u32; lia..|done|]. by exists m'.
Defined.

(** C18: [paging_map_user_code] with enough pages left ends and maps exactly the
    pages of the region, in order, with user flags; the directory in use and the
    registers are what they were, and a directory that shares no page with the
    one mapped into translates every address as before. *)
Theorem paging_map_user_code_spec (m : mm) (d vp pp size : Z)
    (Hp : pmm_wf (mm_pmm m)) (Hd : dir_wf m d) (Hvp : 4096 <= vp) (Hpp : 0 <= pp) (Hsize : 0 <= size < 4294963200)
    (Hv : vp + (size + 4095) / 4096 <= 1048576) (Hpn : pp + (size + 4095) / 4096 <= 1048576)
    (Hroom : used_pages (mm_pmm m) + (size + 4095) / 4096 <= 4096) :
  exists m', exec (paging_map_user_code (d * 4096) (vp * 4096) (pp * 4096) size) m = (Val tt, m') /\
    dir_wf m' d /\ pmm_wf (mm_pmm m') /\ current_directory m' = current_directory m /\ cr3 m' = cr3 m /\
    (forall q, 0 <= q < 1048576 -> walk (mm_mem m') d q =
       if decide (vp <= q < vp + (size + 4095) / 4096) then Some ((pp + (q - vp)) * 4096 + PAGE_USER_MODE)
       else walk (mm_mem m) d q) /\
    (forall e q, dir_wf m e -> separate (mm_mem m) d e -> 0 <= q < 1048576 ->
       walk (mm_mem m') e q = walk (mm_mem m) e q).
Proof.
  destruct (exec_map_user_code m d vp pp size) as (m' & Ex & Hr); try done; try lia. exists m'.
  pose proof (rg_regs _ _ _ _ _ _ Hr) as (H1 & _ & H3). split_and!; [done|apply Hr|apply Hr|done|done|exact (rg_walk _ _ _ _ _ _ Hr)|].
  intros e q He Hs Hq. by apply (region_isolated _ _ _ _ _ _ _ _ Hr).
Qed.

Lemma paging_map_user_code_spec_witness :
  exists m', exec (paging_map_user_code 1048576 1073741824 2457600 8000) empty_mm = (Val tt, m') /\
    walk (mm_mem m') 256 262145 = Some 2461703.
Proof.
  destruct (paging_map_user_code_spec empty_mm 256 262144 600 8000 pmm_init_wf empty_mm_wf)
    as (m' & Ex & _ & _ & _ & _ & Hw & _); [lia..|vm_compute; done|vm_compute; done|vm_compute; done|].
  exists m'. split; [exact Ex|]. exact (Hw 262145 ltac:(lia)).
Defined.

(** C17: The page fault handler.  A fault is served when there is a current process
    in user mode, the page was not present, no reserved bit was set, and the
    address lies between 256 KB above the code base and the stack base.  Any other
    fault, and a fault with no free page, halts the machine and changes nothing.
    Otherwise the handler returns with the lowest free page taken; the page backs
    the faulting address, the other addresses of the process translate as before,
    and so do all addresses of the directories that share no page with it, unless
    the address has no page table and the page taken was the last one: then the
    handler returns as well, the page is lost and nothing is mapped. *)
Theorem page_fault_spec (m : mm) (d fault err : Z) (proc : option process_t) (Hp : pmm_wf (mm_pmm m))
    (Hdir : forall v, proc = Some v -> is_user_mode v <> 0 -> dir_wf m d /\ page_directory v = d * 4096) :
  let handled := exists v, proc = Some v /\ Z.testbit err 0 = false /\ Z.testbit err 3 = false /\ is_user_mode v <> 0 /\
    1074003968 <= fault < 2147483648 in
  let full := forall q, is_page q -> page_used (mm_pmm m) q = true in
  (~ handled \/ full -> exec (page_fault_handler fault proc err) m = (Stopped Halted, m)) /\
  (handled -> ~ full -> exists k m', exec (page_fault_handler fault proc err) m = (Val tt, m') /\
      is_page k /\ page_used (mm_pmm m) k = false /\ (forall q, 0 <= q < k -> page_used (mm_pmm m) q = true) /\
      (dir_wf m' d /\ pmm_wf (mm_pmm m') /\ page_used (mm_pmm m') k = true /\ current_directory m' = current_directory m /\
       (forall a, is_u32 a -> translate (mm_mem m') d a =
          if decide (a / 4096 = fault / 4096) then Some (k * 4096 + a mod 4096) else translate (mm_mem m) d a) /\
       (forall e q, dir_wf m e -> separate (mm_mem m) d e -> 0 <= q < 1048576 ->
          walk (mm_mem m') e q = walk (mm_mem m) e q) \/
       present (ent (mm_mem m) d (fault / 4096 / 1024)) = false /\
       (forall q, is_page q -> page_used (mm_pmm m) q = false -> q = k) /\
       m' = set_pmm (take_page k (mm_pmm m)) m)).
Proof.
  intros handled full. destruct (demand fault proc err) eqn:Edem.
  2: { split; [intros _; by apply exec_fault_refused|]. intros Hh. apply demand_iff in Hh. congruence. }
  pose proof (proj1 (demand_iff _ _ _) Edem) as Hh. fold handled in Hh. pose proof Hh as (v & -> & _ & _ & Hu & Hf).
  destruct (Hdir v eq_refl Hu) as [Hd Hpd].
  destruct (exec_fault_served fault v err m d Edem Hp Hd Hpd) as [[Hall E]|(k & Hk & Hkf & Hmin & Hres)]; [by split|].
  split; [intros [?|Hfull]; [done|]; rewrite Hfull in Hkf by done; done|]. intros _ _. exists k.
  assert (page_used (mm_pmm (set_pmm (take_page k (mm_pmm m)) m)) k = true) as Hku
    by (cbn [mm_pmm set_pmm]; rewrite page_used_take by (done || apply Hp); by rewrite Z.eqb_refl).
  destruct Hres as [(Hn & Hall & E)|(m' & E & Hr)]; eexists; (split; [exact E|]); split_and!; try done; [right|left].
  - split_and!; [done| |done]. intros q Hq Hqf. specialize (Hall q Hq). cbn [mm_pmm set_pmm] in Hall.
    rewrite page_used_take in Hall by (done || apply Hp). destruct (Z.eqb_spec k q); [done|]. rewrite Hqf in Hall. done.
  - pose proof (rg_regs _ _ _ _ _ _ Hr) as (Hc & _). split_and!; [apply Hr|apply Hr|by apply (rg_used _ _ _ _ _ _ Hr)|exact Hc| |].
    + intros a Ha. unfold translate, is_u32 in *. rewrite (rg_walk _ _ _ _ _ _ Hr) by dlia.
      destruct (decide (a / 4096 = fault / 4096)) as [Ea|Ea].
      * rewrite decide_True by lia. rewrite Ea, Z.sub_diag, Z.add_0_r. cbn. f_equal. dlia.
      * by rewrite decide_False by lia.
    + intros e q He Hs Hq. apply (region_isolated _ _ _ _ _ _ _ _ Hr); [dlia|by apply dir_wf_take|done|done].
Qed.

Definition user_process : process_t :=
  mk_process 3 (c "user") 2 (mk_cpu 0 0 0 0 0 0 0 0 0 0 []) 0 0 0 0 1 1 10 0 0 0 (256 * 4096) 0.

Lemma page_fault_spec_witness :
  exists k m', exec (page_fault_handler 1610612740 (Some user_process) 6) empty_mm = (Val tt, m') /\
    page_used (mm_pmm empty_mm) k = false /\ translate (mm_mem m') 256 1610612740 = Some (k * 4096 + 4).
Proof.
  destruct (page_fault_spec empty_mm 256 1610612740 6 (Some user_process) pmm_init_wf) as [_ Hs].
  { intros v Hv _. injection Hv as <-. split; [exact empty_mm_wf|reflexivity]. }
  destruct Hs as (k & m' & Ex & _ & Hf & _ & Hres).
  - exists user_process. split_and!; (reflexivity || discriminate || lia).
  - intros Hall. specialize (Hall 4095 ltac:(apply page_bounds; lia)). vm_compute in Hall. discriminate Hall.
  - exists k, m'. split; [exact Ex|]. split; [exact Hf|]. destruct Hres as [(_ & _ & _ & _ & Hw & _)|(_ & Hone & _)].
    + exact (Hw 1610612740 ltac:(unfold is_u32; lia)).
    + exfalso. pose proof (Hone 4095 ltac:(apply page_bounds; lia) eq_refl). pose proof (Hone 4094 ltac:(apply page_bounds; lia) eq_refl). lia.
Defined.

(** The CPU lets user mode through only where both levels have the user bit. *)
Definition user_access (m : mem) (d vp : Z) : bool :=
  let pde := ent m d (vp / 1024) in
  present pde && negb (Z.land pde PAGE_USER =? 0) &&
  let pte := ent m (pde / 4096) (vp mod 1024) in
  present pte && negb (Z.land pte PAGE_USER =? 0).

(** The tables [paging_map_page] makes lack it: the process of the last witness
    has its page, translated, and may still not touch it. *)
Example demand_page_not_for_user :
  let m' := snd (exec (page_fault_handler 1610612740 (Some user_process) 6) empty_mm) in
  translate (mm_mem m') 256 1610612740 = Some 2097156 /\ user_access (mm_mem m') 256 393216 = false.
Proof. vm_compute. done. Qed.
