(* ===== verification/Timer.v ===== *)
(** * timer.c: the tick counter, sleeping and the time slice

    The counter is [k_ticks] of the kernel record.  A timer interrupt adds one,
    wakes the processes whose time has come and runs the scheduler every tenth
    tick. *)

From S2P Require Import Prelude CString Alloc Process Sched.

Definition PIT_CHANNEL0 := 64.
Definition PIT_COMMAND := 67.
Definition PIT_BASE_FREQUENCY := 1193182.
Definition TIMER_FREQUENCY := 1000.

Section timer.
Context {H P : Type} `{KmallocOps H} `{MemoryOps P}.
Implicit Types k : kernel H P.

Definition set_ticks (n : Z) k : kernel H P :=
  mk_kernel (k_heap k) (k_mm k) (procs k) (queues k) (stack_words k) (process_table k) (process_count_val k)
    (next_pid k) (current_process k) (idle_process k) (tss_esp0 k) n.

Definition timer_init : M (kernel H P) unit :=
  let divisor := PIT_BASE_FREQUENCY / TIMER_FREQUENCY in
  outb PIT_COMMAND 54 ;;
  outb PIT_CHANNEL0 (u8 (Z.land divisor 255)) ;;
  outb PIT_CHANNEL0 (u8 (Z.land (Z.shiftr divisor 8) 255)) ;;
  modify (set_ticks 0) ;;
  screen_write_color (c "[TIMER] ") (MAKE_COLOR COLOR_GREEN COLOR_BLACK) ;;
  screen_write (c "PIT initialized at ") ;;
  screen_write_dec TIMER_FREQUENCY ;;
  screen_write (c " Hz (") ;;
  screen_write_dec (1000 / TIMER_FREQUENCY) ;;
  screen_write (c "ms per tick)\n").

Definition timer_handler : M (kernel H P) unit :=
  modify (fun k => set_ticks (u32 (k_ticks k + 1)) k) ;;
  process_check_sleeping ;;
  let! t := gets k_ticks in
  if t mod 10 =? 0 then process_schedule else ret tt.

Definition timer_get_ticks : M (kernel H P) Z := gets k_ticks.
Definition timer_get_seconds : M (kernel H P) Z := gets (fun k => k_ticks k / TIMER_FREQUENCY).

(** [hlt] is what happens until the CPU goes on: the interrupts it waits for. *)
Definition timer_wait (fuel : nat) (hlt : M (kernel H P) unit) (ticks : Z) : M (kernel H P) unit :=
  let! start := gets k_ticks in
  iterate fuel (fun _ : unit =>
    let! now := gets k_ticks in
    if now <? u32 (start + ticks) then hlt ;; ret (inl tt) else ret (inr tt)) tt.

(** [buffer] is the array the pointer points to. *)
Definition timer_format_uptime (buffer : list Z) : M (kernel H P) (list Z) :=
  let! seconds := timer_get_seconds in
  let hours := seconds / 3600 in
  let minutes := (seconds mod 3600) / 60 in
  let secs := seconds mod 60 in
  let text := [48 + (hours / 10) mod 10; 48 + hours mod 10; 58; 48 + minutes / 10; 48 + minutes mod 10; 58;
               48 + secs / 10; 48 + secs mod 10; 0] in
  if (length buffer <? 9)%nat then stop_with Undefined else ret (text ++ drop 9 buffer).

(** ** process_check_sleeping *)

(** What a tick at time [t] does to one process. *)
Definition woken (t : Z) (v : process_t) : process_t :=
  if (state v =? PROCESS_STATE_BLOCKED) && (0 <? wake_time v) && (wake_time v <=? t)
  then set_wake_time 0 (set_state PROCESS_STATE_READY v) else v.

Lemma woken_twice t v : woken t (woken t v) = woken t v.
Proof.
  unfold woken at 2 3. destruct (_ && _) eqn:E; [done|]. unfold woken. by rewrite E.
Qed.

Lemma table_ok_insert k p v w : table_ok k -> procs k !! p = Some v -> table_ok (set_procs (<[p := w]> (procs k)) k).
Proof.
  intros [Hl Hv] Hp. split; [done|]. cbn. intros i q Hi Hq. destruct (decide (q = p)) as [->|].
  - by rewrite lookup_insert_eq.
  - rewrite lookup_insert_ne by done. by apply (Hv i).
Qed.

Definition sleeper_round (t : Z) (i : nat) : M (kernel H P) unit :=
  let! k := get in
  let p := process_table k !!! i in
  if p =? 0 then ret tt else
  let! v := load_pcb p in
  if (state v =? PROCESS_STATE_BLOCKED) && (0 <? wake_time v) && (wake_time v <=? t) then
    update_pcb p (fun v => set_wake_time 0 (set_state PROCESS_STATE_READY v))
  else ret tt.

(** The pointers in the slots [l]. *)
Definition pointers k (l : list nat) : list Z := (fun i => process_table k !!! i) <$> l.

Lemma exec_sleeper_round k t i : table_ok k -> (i < 16)%nat ->
  exists k', exec (sleeper_round t i) k = (Val tt, k') /\ k' = set_procs (procs k') k /\ table_ok k' /\
    forall q, procs k' !! q = if decide (q = process_table k !!! i /\ q <> 0) then woken t <$> procs k !! q else procs k !! q.
Proof.
  intros Ht Hi. unfold sleeper_round. run. destruct (table_slot k i Ht Hi) as [E|[v E]].
  { rewrite E. cbn [Z.eqb]. eexists. split; [done|]. split; [by destruct k|]. split; [done|]. intros q. rewrite decide_False; [done|].
    intros [-> ?]. done. }
  destruct (Z.eqb_spec (process_table k !!! i) 0) as [E0|E0].
  { eexists. split; [done|]. split; [by destruct k|]. split; [done|]. intros q. rewrite decide_False; [done|].
    intros [-> ?]. done. }
  rewrite (exec_load_pcb k _ v E). cbv iota.
  destruct ((state v =? PROCESS_STATE_BLOCKED) && (0 <? wake_time v) && (wake_time v <=? t)) eqn:Ew.
  - rewrite (exec_update_pcb k _ v) by done. eexists. split; [done|]. split; [by destruct k|].
    split; [by apply (table_ok_insert _ _ v)|]. intros q. cbn [procs set_procs]. destruct (decide (q = process_table k !!! i)) as [->|].
    + rewrite decide_True by done. rewrite lookup_insert_eq, E. cbn. unfold woken. by rewrite Ew.
    + rewrite decide_False by (intros [? _]; done). by rewrite lookup_insert_ne.
  - eexists. split; [done|]. split; [by destruct k|]. split; [done|]. intros q. case_decide as Eq; [|done].
    destruct Eq as [-> _]. rewrite E. cbn. unfold woken. by rewrite Ew.
Qed.

Lemma exec_sleepers l k t : table_ok k -> (forall i, i ∈ l -> (i < 16)%nat) ->
  exists k', exec (for_each l (sleeper_round t)) k = (Val tt, k') /\ k' = set_procs (procs k') k /\ table_ok k' /\
    forall q, procs k' !! q = if decide (q ∈ pointers k l /\ q <> 0) then woken t <$> procs k !! q else procs k !! q.
Proof.
  revert k. induction l as [|i l IH]; intros k Ht Hl.
  { exists k. split; [done|]. split; [by destruct k|]. split; [done|]. intros q. rewrite decide_False; [done|].
    intros [Hq _]. by apply not_elem_of_nil in Hq. }
  destruct (exec_sleeper_round k t i Ht) as (k1 & E1 & S1 & Ht1 & Hq1); [apply Hl; by left|].
  destruct (IH k1 Ht1) as (k2 & E2 & S2 & Ht2 & Hq2). { intros j Hj. apply Hl. by right. }
  exists k2. unfold for_each; fold (@for_each (kernel H P) nat). rewrite exec_bind, E1. split; [done|].
  split; [by rewrite S2, S1|]. split; [done|]. intros q. rewrite Hq2, Hq1.
  assert (pointers k1 l = pointers k l) as -> by (unfold pointers; by rewrite S1).
  change (pointers k (i :: l)) with (process_table k !!! i :: pointers k l).
  destruct (decide (q = 0)) as [Hq0|Hq0].
  { rewrite !decide_False by (by intros [_ ?]). done. }
  destruct (decide (q = process_table k !!! i)) as [Ei|Ei].
  - rewrite (decide_True (P := q = _ /\ _)) by done. rewrite (decide_True (P := q ∈ _ :: _ /\ _)) by (split; [rewrite Ei; by left|done]).
    case_decide; [|done]. destruct (procs k !! q); cbn; [|done]. by rewrite woken_twice.
  - rewrite (decide_False (P := q = _ /\ _)) by (by intros [? _]). destruct (decide (q ∈ pointers k l)) as [Hl2|Hl2].
    + rewrite !decide_True by (split; [done || by right|done]). done.
    + rewrite !decide_False; [done|..]; intros [Hin _]; [|done]. by apply elem_of_cons in Hin as [?|?].
Qed.

Lemma exec_check_sleeping k : table_ok k ->
  exists k', exec process_check_sleeping k = (Val tt, k') /\ k' = set_procs (procs k') k /\ table_ok k' /\
    forall q, procs k' !! q =
      if decide (q ∈ process_table k /\ q <> 0) then woken (k_ticks k) <$> procs k !! q else procs k !! q.
Proof.
  intros Ht. unfold process_check_sleeping. rewrite exec_bind, exec_gets. cbv iota.
  destruct (exec_sleepers table_indices k (k_ticks k) Ht) as (k' & E & S & Ht' & Hq); [intros i; apply elem_of_table|].
  exists k'. split; [exact E|]. split; [done|]. split; [done|]. intros q. rewrite Hq.
  assert (pointers k table_indices = process_table k) as ->; [|done].
  apply list_eq_same_length with (n := 16%nat); [|done|].
  - apply Ht.
  - intros i x y Hi. unfold pointers. rewrite list_lookup_fmap. unfold table_indices. rewrite lookup_seq_lt by lia. cbn.
    intros [= <-] Hy. by apply list_lookup_total_correct.
Qed.

(** ** What the scheduler does to a process *)

Definition awake (v : process_t) : Prop := state v = PROCESS_STATE_READY \/ state v = PROCESS_STATE_RUNNING.

(** The process table as it is once the system runs: the current process and the
    idle process exist and the idle process is not asleep. *)
Record sys_ok k : Prop := {
  so_table : table_ok k;
  so_count : process_count_val k <> 0;
  so_current : current_process k <> 0 /\ is_Some (procs k !! current_process k);
  so_idle : idle_process k <> 0 /\ exists v, procs k !! idle_process k = Some v /\ awake v
}.

Lemma preempted_pcb k vc p v : procs k !! current_process k = Some vc -> procs k !! p = Some v ->
  exists v', procs (preempted k vc) !! p = Some v' /\ wake_time v' = wake_time v /\
    (state v = PROCESS_STATE_BLOCKED -> v' = v) /\ (awake v -> awake v').
Proof.
  intros Ec Ep. unfold preempted. destruct (Z.eqb_spec (state vc) PROCESS_STATE_RUNNING) as [Hr|Hr]; [|by exists v].
  cbn [procs set_procs]. destruct (decide (p = current_process k)) as [->|Hne].
  - rewrite lookup_insert_eq. eexists. split; [done|]. replace v with vc in * by congruence.
    split_and!; [done| |by left]. intros Hb. exfalso. rewrite Hb in Hr. done.
  - rewrite lookup_insert_ne by done. by exists v.
Qed.

Lemma schedule_pcbs k `{!MemoryLaws P} : sys_ok k ->
  exists o k', exec process_schedule k = (o, k') /\ sys_ok k' /\
    process_table k' = process_table k /\ idle_process k' = idle_process k /\ k_ticks k' = k_ticks k /\
    forall p v, procs k !! p = Some v -> exists v', procs k' !! p = Some v' /\ wake_time v' = wake_time v /\
      (state v = PROCESS_STATE_BLOCKED -> p <> idle_process k -> v' = v) /\ (awake v -> awake v').
Proof.
  intros [Ht Hn [Hc [vc Ec]] [Hi0 (vi & Ei & Hai)]]. destruct (preempted_table k vc) as (Etab & Ecur & Eidle).
  pose proof (chosen_best (preempted k vc)) as Hb.
  (* the process chosen is there and awake *)
  assert (exists p v, (if fst (chosen_pair (preempted k vc)) =? 0 then idle_process k
      else fst (chosen_pair (preempted k vc))) = p /\ procs (preempted k vc) !! p = Some v /\ awake v /\ p <> 0) as (p & v & Ep & Ev & Hav & Hp0).
  { destruct Hb as [[-> _]|(i & _ & Ec2 & Hne & _)].
    - destruct (preempted_pcb k vc _ vi Ec Ei) as (vi' & Ei' & _ & _ & Ha). exists (idle_process k), vi'. split_and!; auto.
    - rewrite (proj2 (Z.eqb_neq _ 0) Hne). unfold candidate, slot in Ec2. destruct (Z.eqb_spec (process_table (preempted k vc) !!! i) 0); [done|].
      destruct (procs (preempted k vc) !! _) as [w|] eqn:Ew; [|done]. destruct (Z.eqb_spec (state w) PROCESS_STATE_READY) as [Hs|]; [|done].
      injection Ec2 as E2. exists (process_table (preempted k vc) !!! i), w. split_and!; [by rewrite <- E2|done|by left|done]. }
  destruct (exec_process_schedule k vc Ht Hn Hc Ec p v Ep Ev) as (k' & E & Hcur & Hprocs & Htab & Hcount & _ & Hidle & Hticks).
  assert (forall q w, procs k !! q = Some w -> exists w', procs k' !! q = Some w' /\ wake_time w' = wake_time w /\
      (state w = PROCESS_STATE_BLOCKED -> q <> idle_process k -> w' = w) /\ (awake w -> awake w')) as Hall.
  { intros q w Hq. destruct (preempted_pcb k vc q w Ec Hq) as (w' & Eq & Hwt & Hbl & Haw). rewrite Hprocs.
    destruct (decide (q = p)) as [->|Hqp].
    - rewrite lookup_insert_eq. eexists. split; [done|]. replace v with w' in * by congruence. split_and!; [done| |by right].
      intros Hbw _. rewrite (Hbl Hbw) in Hav. unfold awake in Hav. rewrite Hbw in Hav. by destruct Hav.
    - rewrite lookup_insert_ne by done. exists w'. split_and!; auto. }
  eexists _, k'. split; [done|]. split_and!; try done. split.
  - split; rewrite Htab; [apply Ht|]. intros i q Hi Hq. destruct (tb_live k Ht i q Hi Hq) as [w Hw].
    destruct (Hall q w Hw) as (w' & -> & _). by eexists.
  - by rewrite Hcount.
  - rewrite Hcur. split; [done|]. rewrite Hprocs, lookup_insert_eq. by eexists.
  - rewrite Hidle. split; [done|]. destruct (Hall _ _ Ei) as (w' & -> & _ & _ & Ha). exists w'. split; [done|]. by apply Ha.
Qed.

(** ** Ticks *)

Lemma woken_facts t v : (awake v -> awake (woken t v)) /\
  (state v = PROCESS_STATE_BLOCKED -> 0 < wake_time v ->
   if t <? wake_time v then woken t v = v else awake (woken t v) /\ wake_time (woken t v) = 0).
Proof.
  unfold woken, awake. split.
  - intros [Hs|Hs]; rewrite Hs; cbn; auto.
  - intros Hs Hw. rewrite Hs. cbn [Z.eqb andb]. rewrite (proj2 (Z.ltb_lt 0 _)) by done. cbn [andb].
    destruct (Z.ltb_spec t (wake_time v)), (Z.leb_spec (wake_time v) t); try lia; [done|]. cbn. auto.
Qed.

(** One timer interrupt, for one process. *)
Lemma exec_tick k `{!MemoryLaws P} : sys_ok k ->
  exists o k', exec timer_handler k = (o, k') /\ sys_ok k' /\ k_ticks k' = u32 (k_ticks k + 1) /\
    process_table k' = process_table k /\ idle_process k' = idle_process k /\
    forall p v, procs k !! p = Some v -> exists v', procs k' !! p = Some v' /\
      (awake v -> wake_time v = 0 -> awake v' /\ wake_time v' = 0) /\
      (state v = PROCESS_STATE_BLOCKED -> 0 < wake_time v -> p <> idle_process k -> p ∈ process_table k -> p <> 0 ->
       if u32 (k_ticks k + 1) <? wake_time v then v' = v else awake v' /\ wake_time v' = 0).
Proof.
  intros [Ht Hn [Hc [vc Ec]] [Hi0 (vi & Ei & Hai)]]. unfold timer_handler. rewrite exec_bind, exec_modify. cbv iota.
  set (k0 := set_ticks (u32 (k_ticks k + 1)) k). assert (table_ok k0) as Ht0 by (by destruct Ht).
  destruct (exec_check_sleeping k0 Ht0) as (k1 & E1 & S1 & Ht1 & Hq). rewrite exec_bind, E1. cbv iota.
  assert (forall p v, procs k !! p = Some v -> exists v', procs k1 !! p = Some v' /\ (v' = v \/ v' = woken (k_ticks k0) v) /\
    (p ∈ process_table k -> p <> 0 -> v' = woken (k_ticks k0) v)) as Hw.
  { intros p v Hp. rewrite Hq. change (procs k0 !! p) with (procs k !! p). rewrite Hp. case_decide as Ed.
    - eexists. split; [done|]. auto.
    - eexists. split; [done|]. split; [by left|]. intros ? ?. by destruct Ed. }
  assert (sys_ok k1) as Hk1.
  { split; [done|by rewrite S1|..].
    - rewrite S1. cbn. split; [done|]. destruct (Hw _ _ Ec) as (w & Hw1 & _). by exists w.
    - assert (idle_process k1 = idle_process k) as -> by (by rewrite S1). split; [done|].
      destruct (Hw _ _ Ei) as (w & Hw1 & Hor & _). exists w. split; [done|]. destruct Hor as [->| ->]; [done|].
      by apply woken_facts. }
  assert (k_ticks k1 = u32 (k_ticks k + 1) /\ process_table k1 = process_table k /\ idle_process k1 = idle_process k) as (Etk & Etb & Eid)
    by (by rewrite S1).
  rewrite exec_bind, exec_gets. cbv iota.
  assert (exists o k', exec (if k_ticks k1 mod 10 =? 0 then process_schedule else ret tt) k1 = (o, k') /\ sys_ok k' /\
    process_table k' = process_table k1 /\ idle_process k' = idle_process k1 /\ k_ticks k' = k_ticks k1 /\
    forall p v, procs k1 !! p = Some v -> exists v', procs k' !! p = Some v' /\ wake_time v' = wake_time v /\
      (state v = PROCESS_STATE_BLOCKED -> p <> idle_process k1 -> v' = v) /\ (awake v -> awake v'))
    as (o & k2 & E2 & Hk2 & Etb2 & Eid2 & Etk2 & Hp2).
  { destruct (k_ticks k1 mod 10 =? 0); [by apply schedule_pcbs|]. eexists _, k1. split; [done|]. split_and!; try done.
    intros p v Hv. by exists v. }
  rewrite E2. exists o, k2. split_and!; try congruence. intros p v Hv.
  destruct (Hw p v Hv) as (v1 & Hv1 & Hor & Hin). destruct (Hp2 p v1 Hv1) as (v2 & Hv2 & Hwt & Hbl & Haw).
  exists v2. split; [done|]. destruct (woken_facts (k_ticks k0) v) as [Hwa Hwb]. split.
  - intros Ha H0w. assert (awake v1 /\ wake_time v1 = 0) as [Ha1 Hw1].
    { destruct Hor as [->| ->]; [done|]. split; [by apply Hwa|]. unfold woken. by destruct (_ && _). }
    split; [by apply Haw|congruence].
  - intros Hb Hpos Hni Hint Hp0. specialize (Hwb Hb Hpos). rewrite (Hin Hint Hp0) in *. change (k_ticks k0) with (u32 (k_ticks k + 1)) in *.
    destruct (u32 (k_ticks k + 1) <? wake_time v).
    + rewrite Hwb in *. apply Hbl; [done|congruence].
    + destruct Hwb as [Ha Hz]. split; [by apply Haw|congruence].
Qed.

(** The kernel after [n] timer interrupts. *)
Definition after_ticks (n : nat) k : kernel H P := Nat.iter n (fun k => snd (exec timer_handler k)) k.

Lemma ticks_sleeper n k p v `{!MemoryLaws P} :
  sys_ok k -> procs k !! p = Some v -> state v = PROCESS_STATE_BLOCKED -> p <> idle_process k ->
  p ∈ process_table k -> p <> 0 -> 0 <= k_ticks k < wake_time v -> k_ticks k + Z.of_nat n < 4294967296 ->
  let k' := after_ticks n k in
  sys_ok k' /\ k_ticks k' = k_ticks k + Z.of_nat n /\ process_table k' = process_table k /\
  idle_process k' = idle_process k /\ exists v', procs k' !! p = Some v' /\
    if k_ticks k + Z.of_nat n <? wake_time v then v' = v else awake v' /\ wake_time v' = 0.
Proof.
  intros Hk Hp Hb Hni Hin Hp0 Hw. induction n as [|n IH]; intros Hn; cbv zeta.
  { split_and!; [done|cbn; lia|done|done|]. exists v. split; [done|]. by rewrite (proj2 (Z.ltb_lt _ _)) by lia. }
  destruct IH as (Hk1 & Ht1 & Htab1 & Hid1 & v1 & Hp1 & Hv1); [lia|]. change (after_ticks (S n) k) with (snd (exec timer_handler (after_ticks n k))).
  destruct (exec_tick (after_ticks n k) Hk1) as (o & k2 & E2 & Hk2 & Ht2 & Htab2 & Hid2 & Hall). rewrite E2. cbn [snd].
  destruct (Hall p v1 Hp1) as (v2 & Hp2 & Haw & Hbl). rewrite u32_small in Ht2, Hbl by (unfold is_u32; lia).
  split_and!; [done|lia|congruence|congruence|]. exists v2. split; [done|].
  destruct (Z.ltb_spec (k_ticks k + Z.of_nat n) (wake_time v)) as [Hlt|Hge].
  - subst v1. specialize (Hbl Hb ltac:(lia) ltac:(congruence) ltac:(congruence) Hp0).
    replace (k_ticks k + Z.of_nat (S n)) with (k_ticks (after_ticks n k) + 1) by lia. exact Hbl.
  - rewrite (proj2 (Z.ltb_ge _ _)) by lia. destruct Hv1 as [Ha Hz]. by apply Haw.
Qed.

(** C28: A sleeping process wakes on time.  When the current process, not the idle
    one, calls [process_sleep(ms)], then whatever the scheduler does it stays
    blocked through every timer interrupt before [ms] ticks have passed, and from
    the interrupt that completes them on it can run again. *)
Theorem sleep_wakes_on_time k v (ms : Z) (n : nat) `{!MemoryLaws P} :
  sys_ok k -> procs k !! current_process k = Some v -> pid v <> 0 ->
  current_process k <> idle_process k -> current_process k ∈ process_table k ->
  0 <= k_ticks k -> 0 < ms -> k_ticks k + ms < 4294967296 -> k_ticks k + Z.of_nat n < 4294967296 ->
  exists v', procs (after_ticks n (snd (exec (process_sleep ms) k))) !! current_process k = Some v' /\
    if Z.of_nat n <? ms then state v' = PROCESS_STATE_BLOCKED /\ wake_time v' = k_ticks k + ms
    else awake v' /\ wake_time v' = 0.
Proof.
  intros [Ht Hn [Hc _] [Hi0 (vi & Ei & Hai)]] Ev Hpid Hni Hin Htk Hms Hm Hn2.
  set (p := current_process k) in *.
  set (v1 := set_state PROCESS_STATE_BLOCKED (set_wake_time (u32 (k_ticks k + ms)) v)).
  set (k1 := set_procs (<[p := v1]> (procs k)) k).
  assert (sys_ok k1) as Hk1.
  { split; [by apply (table_ok_insert _ _ v)|done|split; [done|]; cbn; rewrite lookup_insert_eq; by eexists|].
    split; [done|]. exists vi. split; [|done]. cbn. by rewrite lookup_insert_ne. }
  destruct (schedule_pcbs k1 Hk1) as (o & k2 & E2 & Hk2 & Htab & Hid & Htk2 & Hall).
  assert (exec (process_sleep ms) k = (o, k2)) as ->.
  { unfold process_sleep. run. fold p. rewrite (proj2 (Z.eqb_neq p 0) Hc), (exec_load_pcb k p v Ev). cbv iota.
    rewrite (proj2 (Z.eqb_neq _ 0) Hpid). run. rewrite (exec_update_pcb k p v) by done. exact E2. }
  destruct (Hall p v1) as (v2 & Hp2 & _ & Hbl & _); [apply lookup_insert_eq|].
  rewrite (Hbl eq_refl Hni) in Hp2. cbn [snd].
  assert (wake_time v1 = k_ticks k + ms) as Hw1 by (apply u32_small; unfold is_u32; lia).
  assert (k_ticks k2 = k_ticks k) as Htk3 by (by rewrite Htk2).
  destruct (ticks_sleeper n k2 p v1 Hk2 Hp2) as (_ & _ & _ & _ & v' & Hp' & Hv'); [done|by rewrite Hid|by rewrite Htab|done|lia|lia|].
  exists v'. split; [done|]. rewrite Htk3, Hw1 in Hv'.
  destruct (Z.ltb_spec (Z.of_nat n) ms), (Z.ltb_spec (k_ticks k + Z.of_nat n) (k_ticks k + ms)); try lia; [|done].
  by subst v'.
Qed.

(** ** timer_wait *)

(** [timer_wait] ends: when every halt lasts until the next tick, it returns
    exactly [ticks] ticks later, unless the end of the wait is beyond the range of
    the counter, where it returns at once. *)
Theorem timer_wait_ends (hlt : M (kernel H P) unit) (ticks : Z) k
    (Hhlt : forall k1, exists k2, exec hlt k1 = (Val tt, k2) /\ k_ticks k2 = u32 (k_ticks k1 + 1))
    (Hk : is_u32 (k_ticks k)) (Hticks : is_u32 ticks) :
  exists k', exec (timer_wait (Z.to_nat ticks + 1) hlt ticks) k = (Val tt, k') /\
    if k_ticks k + ticks <? 4294967296 then k_ticks k' = k_ticks k + ticks else k' = k.
Proof.
  unfold timer_wait, is_u32 in *. rewrite exec_bind, exec_gets. cbv iota.
  destruct (Z.ltb_spec (k_ticks k + ticks) 4294967296) as [Hlt|Hge].
  - destruct (exec_iterate (fun _ k1 => k_ticks k <= k_ticks k1 <= k_ticks k + ticks)
      (fun _ k1 => Z.to_nat (k_ticks k + ticks - k_ticks k1)) (fun _ k1 => k_ticks k1 = k_ticks k + ticks)
      (fun _ : unit => let! now := gets k_ticks in
        if now <? u32 (k_ticks k + ticks) then hlt ;; ret (inl tt) else ret (inr tt))) with (n := (Z.to_nat ticks + 1)%nat) (a := tt) (s := k)
      as ([] & k' & E & HQ); [|lia|lia|by exists k'].
    intros [] k1 Hk1. rewrite exec_bind, exec_gets. cbv iota. rewrite u32_small by (unfold is_u32; lia).
    destruct (Z.ltb_spec (k_ticks k1) (k_ticks k + ticks)) as [H1'|H1'].
    + destruct (Hhlt k1) as (k2 & E2 & Ht2). rewrite u32_small in Ht2 by (unfold is_u32; lia).
      rewrite exec_bind, E2. eexists (inl tt), k2. split; [done|]. lia.
    + eexists (inr tt), k1. split; [done|]. lia.
  - exists k. split; [|done]. replace (Z.to_nat ticks + 1)%nat with (S (Z.to_nat ticks)) by lia.
    unfold iterate; fold (@iterate (kernel H P) unit unit). rewrite exec_bind, exec_bind, exec_gets. cbv iota.
    rewrite (proj2 (Z.ltb_ge _ _)); [done|]. unfold u32. dlia.
Qed.

(** ** The clock *)

(** The two decimal digits of a number below 100. *)
Definition two_digits (n : Z) : list Z := [48 + n / 10; 48 + n mod 10].

(** The text of the uptime: hours modulo 100, minutes and seconds, which are the
    seconds since boot again while they are less than 100 hours. *)
Lemma format_uptime_text k buffer : 0 <= k_ticks k -> (9 <= length buffer)%nat ->
  let s := k_ticks k / 1000 in
  exec (timer_format_uptime buffer) k =
    (Val (two_digits (s / 3600 mod 100) ++ [58] ++ two_digits (s mod 3600 / 60) ++ [58] ++ two_digits (s mod 60) ++ [0] ++ drop 9 buffer), k) /\
  (s < 360000 -> s / 3600 mod 100 * 3600 + s mod 3600 / 60 * 60 + s mod 60 = s).
Proof.
  intros Hk Hb s. unfold timer_format_uptime, timer_get_seconds. rewrite exec_bind, exec_gets. cbv iota.
  change TIMER_FREQUENCY with 1000. fold s. assert (0 <= s) by (apply Z.div_pos; lia).
  rewrite (proj2 (Nat.ltb_ge _ _)) by done. rewrite exec_ret. split.
  - unfold two_digits. replace (s / 3600 mod 100 / 10) with (s / 3600 / 10 mod 10) by dlia.
    by replace (s / 3600 mod 100 mod 10) with (s / 3600 mod 10) by dlia.
  - intros Hs. dlia.
Qed.

End timer.

(** ** The theorems at work *)

Lemma demo_sys_ok : sys_ok demo.
Proof.
  split; [apply demo_ok|done|split; [done|by eexists]|]. split; [done|].
  exists (demo_pcb 0 100 0 0). split; [done|by left].
Qed.

Lemma sleep_wakes_on_time_witness :
  exists v', procs (after_ticks 25 (snd (exec (process_sleep 20) demo))) !! 200 = Some v' /\ awake v' /\ wake_time v' = 0.
Proof.
  apply (sleep_wakes_on_time demo (demo_pcb 1 200 5 900) 20 25 demo_sys_ok); try done; [|cbn; lia..].
  apply list_elem_of_In. cbn. auto.
Defined.

Lemma timer_wait_ends_witness :
  exists k', exec (timer_wait 51 (modify (fun k => set_ticks (u32 (k_ticks k + 1)) k)) 50) demo = (Val tt, k') /\
    k_ticks k' = 50.
Proof.
  apply (timer_wait_ends (modify (fun k => set_ticks (u32 (k_ticks k + 1)) k)) 50 demo);
    [|unfold is_u32; cbn; lia|unfold is_u32; lia].
  intros k1. eexists. split; [reflexivity|reflexivity].
Defined.
