(* ===== verification/Gdt.v ===== *)
(** * gdt.c: segments and the task state segment

    The descriptor table as the structures of gdt.h, what the CPU reads out of a
    descriptor, and the table [gdt_init] builds. *)

From S2P Require Import Prelude.

Record gdt_entry_t : Type := mk_gdt_entry {
  limit_low : Z; base_low : Z; base_middle : Z; access : Z; granularity : Z; base_high : Z
}.

Record tss_t : Type := mk_tss {
  prev_tss : Z; esp0 : Z; ss0 : Z; esp1 : Z; ss1 : Z; esp2 : Z; ss2 : Z; tss_cr3 : Z; tss_eip : Z; tss_eflags : Z;
  tss_eax : Z; tss_ecx : Z; tss_edx : Z; tss_ebx : Z; tss_esp : Z; tss_ebp : Z; tss_esi : Z; tss_edi : Z;
  tss_es : Z; tss_cs : Z; tss_ss : Z; tss_ds : Z; tss_fs : Z; tss_gs : Z; ldt : Z; trap : Z; iomap_base : Z
}.

Definition SIZEOF_GDT_ENTRY := 8.
Definition SIZEOF_TSS := 104.
Definition KERNEL_CODE_SEGMENT := 8.
Definition KERNEL_DATA_SEGMENT := 16.

Record segments : Type := mk_segments {
  gdt_entries : list gdt_entry_t;
  gdt_ptr : Z * Z;                     (* limit, base *)
  tss_entry : tss_t;
  gdtr : option (Z * Z);               (* what lgdt loaded *)
  task_register : Z                    (* what ltr loaded *)
}.

(** The descriptor [gdt_set_gate] stores. *)
Definition gdt_gate (base limit access0 gran : Z) : gdt_entry_t :=
  mk_gdt_entry (u16 (Z.land limit 65535)) (u16 (Z.land base 65535)) (u8 (Z.land (Z.shiftr base 16) 255)) access0
    (Z.lor (Z.land (Z.shiftr limit 16) 15) (Z.land gran 240)) (u8 (Z.land (Z.shiftr base 24) 255)).

Definition gdt_set_gate (num base limit access0 gran : Z) : M segments unit :=
  let! s := get in
  if (num <? 0) || (Z.of_nat (length (gdt_entries s)) <=? num) then stop_with Undefined else
  modify (fun s => mk_segments (<[Z.to_nat num := gdt_gate base limit access0 gran]> (gdt_entries s))
    (gdt_ptr s) (tss_entry s) (gdtr s) (task_register s)).

Definition set_tss (t : tss_t) (s : segments) : segments :=
  mk_segments (gdt_entries s) (gdt_ptr s) t (gdtr s) (task_register s).

(** The assembly of gdt.asm: [lgdt] and [ltr]. *)
Definition gdt_flush : M segments unit :=
  modify (fun s => mk_segments (gdt_entries s) (gdt_ptr s) (tss_entry s) (Some (gdt_ptr s)) (task_register s)).
Definition tss_flush : M segments unit :=
  modify (fun s => mk_segments (gdt_entries s) (gdt_ptr s) (tss_entry s) (gdtr s) (Z.lor 40 3)).

Definition zero_tss : tss_t := mk_tss 0 0 0 0 0 0 0 0 0 0 0 0 0 0 0 0 0 0 0 0 0 0 0 0 0 0 0.

Definition boot_tss : tss_t :=
  let data := Z.lor KERNEL_DATA_SEGMENT 3 in
  mk_tss 0 0 KERNEL_DATA_SEGMENT 0 0 0 0 0 0 0 0 0 0 0 0 0 0 0 data (Z.lor KERNEL_CODE_SEGMENT 3) data data data data 0 0 0.

(** [gdt_addr] and [tss_addr] are the addresses of [gdt_entries] and [tss_entry]. *)
Definition gdt_init (gdt_addr tss_addr : Z) : M segments unit :=
  modify (fun s => mk_segments (gdt_entries s) (SIZEOF_GDT_ENTRY * 6 - 1, gdt_addr) (tss_entry s) (gdtr s) (task_register s)) ;;
  gdt_set_gate 0 0 0 0 0 ;;
  gdt_set_gate 1 0 4294967295 154 207 ;;
  gdt_set_gate 2 0 4294967295 146 207 ;;
  gdt_set_gate 3 0 4294967295 250 207 ;;
  gdt_set_gate 4 0 4294967295 242 207 ;;
  gdt_set_gate 5 tss_addr (SIZEOF_TSS - 1) 137 64 ;;
  modify (set_tss zero_tss) ;;
  modify (set_tss boot_tss) ;;
  gdt_flush ;;
  tss_flush ;;
  kprintf (c "[GDT] Global Descriptor Table initialized\n") [] ;;
  kprintf (c "[GDT] Segments: Kernel (Ring 0), User (Ring 3), TSS\n") [].

Definition tss_set_kernel_stack (stack : Z) : M segments unit :=
  modify (fun s => let t := tss_entry s in set_tss
    (mk_tss (prev_tss t) stack (ss0 t) (esp1 t) (ss1 t) (esp2 t) (ss2 t) (tss_cr3 t) (tss_eip t) (tss_eflags t)
       (tss_eax t) (tss_ecx t) (tss_edx t) (tss_ebx t) (tss_esp t) (tss_ebp t) (tss_esi t) (tss_edi t)
       (tss_es t) (tss_cs t) (tss_ss t) (tss_ds t) (tss_fs t) (tss_gs t) (ldt t) (trap t) (iomap_base t)) s).

(** ** What the CPU reads *)

Definition seg_base (e : gdt_entry_t) : Z := base_low e + 65536 * base_middle e + 16777216 * base_high e.
Definition seg_limit_field (e : gdt_entry_t) : Z := limit_low e + 65536 * (granularity e mod 16).
(** The last offset of the segment: the field counts bytes or 4 KB pages. *)
Definition seg_limit (e : gdt_entry_t) : Z :=
  if Z.testbit (granularity e) 7 then (seg_limit_field e + 1) * 4096 - 1 else seg_limit_field e.
Definition seg_dpl (e : gdt_entry_t) : Z := access e / 32 mod 4.
Definition seg_present (e : gdt_entry_t) : bool := Z.testbit (access e) 7.

(** The fields have the widths of the structure. *)
Definition entry_wf (e : gdt_entry_t) : Prop :=
  0 <= limit_low e < 65536 /\ 0 <= base_low e < 65536 /\ is_u8 (base_middle e) /\ is_u8 (access e) /\
  is_u8 (granularity e) /\ is_u8 (base_high e).

Lemma low_bits x n : 0 <= n -> Z.land x (Z.ones n) = x mod 2 ^ n.
Proof. intros. by apply Z.land_ones. Qed.

Lemma granularity_byte a g : 0 <= a < 16 -> is_u8 g -> Z.lor a (Z.land g 240) = a + g / 16 * 16.
Proof.
  intros Ha Hg. assert (Z.land g 240 = Z.shiftl (g / 16) 4) as E.
  { unfold is_u8 in Hg. change 240 with (Z.shiftl (Z.ones 4) 4). change (g / 16) with (g / 2 ^ 4). rewrite <- Z.shiftr_div_pow2 by lia.
    apply Z.bits_inj'. intros n Hn. rewrite Z.land_spec, !Z.shiftl_spec by done.
    destruct (decide (n < 4)).
    - rewrite !(Z.testbit_neg_r _ (n - 4)) by lia. apply andb_false_r.
    - rewrite Z.shiftr_spec by lia. replace (n - 4 + 4) with n by lia. destruct (decide (n < 8)).
      + rewrite Z.ones_spec_low by lia. apply andb_true_r.
      + rewrite Z.ones_spec_high by lia. rewrite andb_false_r. symmetry.
        destruct (decide (g = 0)) as [->|]; [apply Z.bits_0|].
        apply Z.bits_above_log2; [lia|]. assert (Z.log2 g < 8); [|lia]. apply Z.log2_lt_pow2; lia. }
  rewrite E, Z.shiftl_mul_pow2 by lia. change (2 ^ 4) with 16. symmetry. apply Z.add_nocarry_lor.
  apply Z.bits_inj'. intros n Hn. rewrite Z.land_spec, Z.bits_0. destruct (decide (n < 4)).
  - change 16 with (2 ^ 4) at 2. rewrite Z.mul_pow2_bits_low by lia. apply andb_false_r.
  - destruct (decide (a = 0)) as [->|]; [by rewrite Z.bits_0|].
    rewrite (Z.bits_above_log2 a n); [done|lia|]. assert (Z.log2 a < 4); [|lia]. apply Z.log2_lt_pow2; lia.
Qed.

(** A descriptor is packed so that the CPU reads back the same base, the low twenty
    bits of the limit, the access byte and the flags. *)
Lemma gdt_gate_fields base limit acc gran : is_u32 base -> is_u32 limit -> is_u8 acc -> is_u8 gran ->
  let e := gdt_gate base limit acc gran in
  entry_wf e /\ seg_base e = base /\ seg_limit_field e = limit mod 1048576 /\ access e = acc /\
  granularity e / 16 = gran / 16.
Proof.
  intros Hb Hl Ha Hg. assert (0 <= Z.land (Z.shiftr limit 16) 15 < 16) as H16.
  { change 15 with (Z.ones 4). rewrite low_bits by lia. apply Z.mod_pos_bound. lia. }
  unfold gdt_gate, entry_wf, seg_base, seg_limit_field. cbn [limit_low base_low base_middle access granularity base_high].
  rewrite (granularity_byte _ _ H16 Hg). unfold is_u32, is_u8, u8, u16 in *.
  change 65535 with (Z.ones 16). change 255 with (Z.ones 8). change (Z.land (Z.shiftr limit 16) 15) with (Z.land (Z.shiftr limit 16) (Z.ones 4)) in *.
  rewrite !low_bits in * by lia. rewrite !Z.shiftr_div_pow2 in * by lia.
  change (2 ^ 16) with 65536 in *. change (2 ^ 8) with 256 in *. change (2 ^ 24) with 16777216. change (2 ^ 4) with 16 in *.
  split_and!; try done; dlia.
Qed.

(** A flat 4 GB segment for the given ring. *)
Definition flat (ring : Z) (e : gdt_entry_t) : Prop :=
  seg_present e = true /\ seg_base e = 0 /\ seg_limit e = 4294967295 /\ seg_dpl e = ring.

Definition boot_gdt (tss_addr : Z) : list gdt_entry_t :=
  [gdt_gate 0 0 0 0; gdt_gate 0 4294967295 154 207; gdt_gate 0 4294967295 146 207; gdt_gate 0 4294967295 250 207;
   gdt_gate 0 4294967295 242 207; gdt_gate tss_addr (SIZEOF_TSS - 1) 137 64].

Lemma exec_gdt_set_gate s num base limit acc gran : 0 <= num < Z.of_nat (length (gdt_entries s)) ->
  exec (gdt_set_gate num base limit acc gran) s =
  (Val tt, mk_segments (<[Z.to_nat num := gdt_gate base limit acc gran]> (gdt_entries s)) (gdt_ptr s) (tss_entry s) (gdtr s) (task_register s)).
Proof.
  intros Hn. unfold gdt_set_gate. rewrite exec_bind, exec_get. cbv iota.
  rewrite (proj2 (Z.ltb_ge num 0)), (proj2 (Z.leb_gt _ num)) by lia. done.
Qed.

Lemma exec_gdt_init s gdt_addr tss_addr : length (gdt_entries s) = 6%nat ->
  exec (gdt_init gdt_addr tss_addr) s =
  (Val tt, mk_segments (boot_gdt tss_addr) (47, gdt_addr) boot_tss (Some (47, gdt_addr)) 43).
Proof.
  intros Hlen. destruct s as [l ptr t r tr]. cbn [gdt_entries] in Hlen.
  unfold gdt_init. rewrite exec_bind, exec_modify. cbv iota. cbn [gdt_entries gdt_ptr tss_entry gdtr task_register].
  do 6 (rewrite exec_bind, exec_gdt_set_gate by (cbn [gdt_entries]; rewrite ?length_insert, Hlen; lia); cbv iota;
    cbn [gdt_entries gdt_ptr tss_entry gdtr task_register]).
  do 6 (destruct l as [|? l]; [done|]). destruct l; [|done]. reflexivity.
Qed.

(** [gdt_init] builds and loads a table of six well-formed descriptors: none,
    flat code and data segments of 4 GB for ring 0 and for ring 3, and one
    that covers exactly the task state segment, whose ring 0 stack segment is
    the kernel's data segment. *)
Theorem gdt_init_segments (s : segments) (gdt_addr tss_addr : Z)
    (Hlen : length (gdt_entries s) = 6%nat) (Htss : is_u32 tss_addr) :
  exists e0 e1 e2 e3 e4 e5 s', exec (gdt_init gdt_addr tss_addr) s = (Val tt, s') /\
    gdt_entries s' = [e0; e1; e2; e3; e4; e5] /\ Forall entry_wf (gdt_entries s') /\
    seg_present e0 = false /\ flat 0 e1 /\ flat 0 e2 /\ flat 3 e3 /\ flat 3 e4 /\
    seg_present e5 = true /\ seg_base e5 = tss_addr /\ seg_limit e5 = SIZEOF_TSS - 1 /\ seg_dpl e5 = 0 /\
    gdtr s' = Some (6 * SIZEOF_GDT_ENTRY - 1, gdt_addr) /\ task_register s' / 8 = 5 /\
    ss0 (tss_entry s') = KERNEL_DATA_SEGMENT.
Proof.
  exists (gdt_gate 0 0 0 0), (gdt_gate 0 4294967295 154 207), (gdt_gate 0 4294967295 146 207), (gdt_gate 0 4294967295 250 207),
    (gdt_gate 0 4294967295 242 207), (gdt_gate tss_addr (SIZEOF_TSS - 1) 137 64),
    (mk_segments (boot_gdt tss_addr) (47, gdt_addr) boot_tss (Some (47, gdt_addr)) 43).
  split; [exact (exec_gdt_init s gdt_addr tss_addr Hlen)|]. split; [done|].
  destruct (gdt_gate_fields tss_addr (SIZEOF_TSS - 1) 137 64) as (Hw & Hb & Hl & Ha & Hg); [done|unfold is_u32, SIZEOF_TSS; lia|unfold is_u8; lia..|].
  split.
  { repeat first [apply Forall_cons_2; [first [exact Hw|unfold entry_wf, is_u8; vm_compute; repeat split; congruence]|] | apply Forall_nil_2]. }
  do 5 (split; [by vm_compute|]). split; [unfold seg_present; by rewrite Ha|]. split; [exact Hb|].
  split; [unfold seg_limit; by rewrite Hl|]. split; [unfold seg_dpl; by rewrite Ha|]. done.
Qed.

Lemma gdt_init_segments_witness :
  exists e0 e1 e2 e3 e4 e5 s', exec (gdt_init 4096 8192) (mk_segments (replicate 6 (gdt_gate 0 0 0 0)) (0, 0) zero_tss None 0) = (Val tt, s') /\
    gdt_entries s' = [e0; e1; e2; e3; e4; e5] /\ flat 0 e1 /\ flat 3 e3 /\ seg_base e5 = 8192.
Proof.
  destruct (gdt_init_segments (mk_segments (replicate 6 (gdt_gate 0 0 0 0)) (0, 0) zero_tss None 0) 4096 8192 eq_refl ltac:(unfold is_u32; lia))
    as (e0 & e1 & e2 & e3 & e4 & e5 & s' & E & El & _ & _ & H1 & _ & H3 & _ & _ & H5 & _).
  exists e0, e1, e2, e3, e4, e5, s'. split; [exact E|]. split; [exact El|]. split; [exact H1|]. split; [exact H3|exact H5].
Defined.
