(* ===== verification/Idt.v ===== *)
(** * idt.c: the interrupt descriptor table and the interrupt controllers *)

From S2P Require Import Prelude.

Definition IDT_ENTRIES := 256.
Definition PIC1_COMMAND := 32.
Definition PIC1_DATA := 33.
Definition PIC2_COMMAND := 160.
Definition PIC2_DATA := 161.
Definition PIC_EOI := 32.

Record idt_entry : Type := mk_idt_entry {
  offset_low : Z; selector : Z; zero : Z; type_attr : Z; offset_high : Z
}.

Record interrupts : Type := mk_interrupts {
  idt : list idt_entry;
  idtp : Z * Z;                        (* limit, base *)
  idtr : option (Z * Z);               (* what lidt loaded *)
  iflag : bool                         (* interrupts enabled *)
}.

Definition io_wait {S} : M S unit := outb 128 0.

(** The entry [idt_set_gate] leaves; every field is assigned. *)
Definition idt_gate (handler sel flags : Z) : idt_entry :=
  mk_idt_entry (u16 (Z.land handler 65535)) sel 0 flags (u16 (Z.land (Z.shiftr handler 16) 65535)).

Definition set_idt (l : list idt_entry) (s : interrupts) : interrupts := mk_interrupts l (idtp s) (idtr s) (iflag s).

(** [num] is a byte: it is always inside the table. *)
Definition idt_set_gate (num handler sel flags : Z) : M interrupts unit :=
  modify (fun s => set_idt (<[Z.to_nat (u8 num) := idt_gate handler sel flags]> (idt s)) s).

Definition pic_remap {S} : M S unit :=
  outb PIC1_COMMAND 17 ;; io_wait ;;
  outb PIC2_COMMAND 17 ;; io_wait ;;
  outb PIC1_DATA 32 ;; io_wait ;;
  outb PIC2_DATA 40 ;; io_wait ;;
  outb PIC1_DATA 4 ;; io_wait ;;
  outb PIC2_DATA 2 ;; io_wait ;;
  outb PIC1_DATA 1 ;; io_wait ;;
  outb PIC2_DATA 1 ;; io_wait ;;
  outb PIC1_DATA 252 ;;
  outb PIC2_DATA 255.

Definition pic_send_eoi {S} (irq : Z) : M S unit :=
  (if 8 <=? irq then outb PIC2_COMMAND PIC_EOI else ret tt) ;;
  outb PIC1_COMMAND PIC_EOI.

Section idt_init.
(** The addresses of the table, of the exception stubs [isr0] ... [isr31], of the
    interrupt stubs [irq0] ... [irq15] and of the system call stub, all of them
    symbols of the assembly files. *)
Context (idt_addr : Z) (isr irq : Z -> Z) (syscall_interrupt_handler : Z).

Definition idt_init : M interrupts unit :=
  modify (fun s => mk_interrupts (idt s) (8 * IDT_ENTRIES - 1, idt_addr) (idtr s) (iflag s)) ;;
  for_each (seqZ 0 IDT_ENTRIES) (fun i =>
    modify (fun s => set_idt (<[Z.to_nat i := mk_idt_entry 0 0 0 0 0]> (idt s)) s)) ;;
  pic_remap ;;
  for_each (seqZ 0 32) (fun i => idt_set_gate i (isr i) 8 142) ;;
  for_each (seqZ 0 16) (fun i => idt_set_gate (32 + i) (irq i) 8 142) ;;
  modify (fun s => mk_interrupts (idt s) (idtp s) (Some (idtp s)) (iflag s)) ;;
  screen_write_color (c "[IDT] ") (MAKE_COLOR COLOR_GREEN COLOR_BLACK) ;;
  screen_write (c "Interrupt Descriptor Table initialized\n") ;;
  screen_write_color (c "[PIC] ") (MAKE_COLOR COLOR_GREEN COLOR_BLACK) ;;
  screen_write (c "Programmable Interrupt Controller configured\n") ;;
  modify (fun s => mk_interrupts (idt s) (idtp s) (idtr s) true).

(** [syscall_init] of syscall.c. *)
Definition syscall_init : M interrupts unit :=
  idt_set_gate 128 syscall_interrupt_handler 8 238 ;;
  kprintf (c "[SYSCALL] System call interface initialized (INT 0x80)\n") [] ;;
  kprintf (c "[SYSCALL] Available syscalls: %d\n") [AInt 8].

(** ** What the CPU reads *)

Definition gate_offset (e : idt_entry) : Z := offset_low e + 65536 * offset_high e.
Definition gate_present (e : idt_entry) : bool := Z.testbit (type_attr e) 7.
Definition gate_dpl (e : idt_entry) : Z := type_attr e / 32 mod 4.

Lemma gate_offset_packed handler sel flags : is_u32 handler -> gate_offset (idt_gate handler sel flags) = handler.
Proof.
  intros Hh. unfold gate_offset, idt_gate, u16, is_u32 in *. cbn [offset_low offset_high]. change 65535 with (Z.ones 16).
  rewrite !Z.land_ones, Z.shiftr_div_pow2 by lia. change (2 ^ 16) with 65536. dlia.
Qed.

(** A loop that fills the [n] entries from [lo] on. *)
Lemma exec_fill_gates (f : Z -> idt_entry) (body : Z -> M interrupts unit) lo n s :
  (forall i s1, 0 <= i < n -> exec (body i) s1 = (Val tt, set_idt (<[Z.to_nat (lo + i) := f (lo + i)]> (idt s1)) s1)) ->
  0 <= lo -> 0 <= n -> lo + n <= Z.of_nat (length (idt s)) ->
  exists s', exec (for_each (seqZ 0 n) body) s = (Val tt, s') /\ s' = set_idt (idt s') s /\ length (idt s') = length (idt s) /\
    forall i, (i < length (idt s))%nat ->
      idt s' !! i = if (lo <=? Z.of_nat i) && (Z.of_nat i <? lo + n) then Some (f (Z.of_nat i)) else idt s !! i.
Proof.
  intros Hbody Hlo Hn Hlen. apply (exec_for_each_seqZ (fun n s' => s' = set_idt (idt s') s /\ length (idt s') = length (idt s) /\
    forall i, (i < length (idt s))%nat ->
      idt s' !! i = if (lo <=? Z.of_nat i) && (Z.of_nat i <? lo + n) then Some (f (Z.of_nat i)) else idt s !! i)); [done| |].
  { split; [by destruct s|]. split; [done|]. intros i _.
    by destruct (Z.leb_spec lo (Z.of_nat i)), (Z.ltb_spec (Z.of_nat i) (lo + 0)); try lia. }
  intros i s1 Hi (Hs & Hl & Hlk). rewrite Hbody by done. eexists. split; [done|]. split; [by rewrite Hs|].
  cbn [idt set_idt]. rewrite length_insert. split; [done|]. intros j Hj.
  destruct (decide (j = Z.to_nat (lo + i))) as [->|Hne].
  - rewrite list_lookup_insert_eq by lia. rewrite (proj2 (Z.leb_le _ _)), (proj2 (Z.ltb_lt _ _)) by lia.
    cbn [andb]. do 2 f_equal. lia.
  - rewrite list_lookup_insert_ne by done. rewrite Hlk by done.
    destruct (Z.leb_spec lo (Z.of_nat j)), (Z.ltb_spec (Z.of_nat j) (lo + i)), (Z.ltb_spec (Z.of_nat j) (lo + (i + 1)));
      cbn [andb]; (done || lia).
Qed.

(** The table after boot: 48 gates of the kernel, the gate of the system calls,
    and nothing else. *)
Definition boot_gate (v : Z) : idt_entry :=
  if v =? 128 then idt_gate syscall_interrupt_handler 8 238
  else if v <? 32 then idt_gate (isr v) 8 142
  else if v <? 48 then idt_gate (irq (v - 32)) 8 142
  else mk_idt_entry 0 0 0 0 0.

Lemma exec_idt_boot s : length (idt s) = 256%nat ->
  exists s', exec (idt_init ;; syscall_init) s = (Val tt, s') /\ length (idt s') = 256%nat /\
    (forall v, 0 <= v < 256 -> idt s' !! Z.to_nat v = Some (boot_gate v)) /\
    idtr s' = Some (2047, idt_addr) /\ iflag s' = true.
Proof.
  intros Hlen. unfold idt_init. change IDT_ENTRIES with 256. rewrite exec_bind, exec_bind, exec_modify. cbv iota. set (s0 := mk_interrupts _ _ _ _).
  destruct (exec_fill_gates (fun _ => mk_idt_entry 0 0 0 0 0) (fun i =>
    modify (fun s => set_idt (<[Z.to_nat i := mk_idt_entry 0 0 0 0 0]> (idt s)) s)) 0 256 s0) as (s1 & E1 & S1 & L1 & K1).
  { done. } { lia. } { lia. } { cbn. lia. }
  rewrite exec_bind, E1. cbv iota. unfold pic_remap, io_wait. run.
  destruct (exec_fill_gates (fun v => idt_gate (isr v) 8 142) (fun i => idt_set_gate i (isr i) 8 142) 0 32 s1) as (s2 & E2 & S2 & L2 & K2).
  { intros i s3 Hi. unfold idt_set_gate. rewrite exec_modify, u8_small by (unfold is_u8; lia). done. } { lia. } { lia. }
  { rewrite L1. cbn. lia. }
  rewrite E2. cbv iota.
  destruct (exec_fill_gates (fun v => idt_gate (irq (v - 32)) 8 142) (fun i => idt_set_gate (32 + i) (irq i) 8 142) 32 16 s2) as (s3 & E3 & S3 & L3 & K3).
  { intros i s3 Hi. unfold idt_set_gate. rewrite exec_modify, u8_small by (unfold is_u8; lia).
    replace (32 + i - 32) with i by lia. done. } { lia. } { lia. } { rewrite L2, L1. cbn. lia. }
  run. rewrite E3. cbv iota. unfold syscall_init, idt_set_gate. run. eexists. split; [done|].
  cbn [idt set_idt idtp idtr iflag]. rewrite length_insert. split; [by rewrite L3, L2, L1|]. split.
  2: { split; [|done]. rewrite S3, S2, S1. done. }
  intros v Hv. change (Z.to_nat (u8 128)) with 128%nat. unfold boot_gate. destruct (Z.eqb_spec v 128) as [->|Hne].
  { rewrite list_lookup_insert_eq; [done|]. rewrite L3, L2, L1. cbn. lia. }
  rewrite list_lookup_insert_ne by lia.
  assert ((Z.to_nat v < length (idt s0))%nat) as Hb0 by (cbn; lia).
  rewrite K3 by (rewrite L2, L1; exact Hb0). rewrite K2 by (rewrite L1; exact Hb0). rewrite K1 by exact Hb0.
  rewrite Z2Nat.id by lia.
  rewrite (proj2 (Z.leb_le 0 v)), (proj2 (Z.ltb_lt v (0 + 256))) by lia. change (0 + 32) with 32. change (32 + 16) with 48. cbn [andb].
  destruct (Z.ltb_spec v 32), (Z.leb_spec 32 v); cbn [andb]; try lia; [done|]. by destruct (v <? 48).
Qed.

(** C32: After [idt_init] and [syscall_init] every vector is known: the 32 exceptions
    and the 16 interrupts reach their own handler in the kernel's code segment, the
    remaining vectors are not present, the only gate user mode may call is
    vector 0x80 with the system call handler, the table is loaded and
    interrupts are on. *)
Theorem idt_boot_vectors (s : interrupts) (Hlen : length (idt s) = 256%nat)
    (Hisr : forall i, is_u32 (isr i)) (Hirq : forall i, is_u32 (irq i)) (Hsys : is_u32 syscall_interrupt_handler) :
  exists s', exec (idt_init ;; syscall_init) s = (Val tt, s') /\
    idtr s' = Some (2047, idt_addr) /\ iflag s' = true /\
    forall v, 0 <= v < 256 -> exists e, idt s' !! Z.to_nat v = Some e /\
      gate_present e = ((v <? 48) || (v =? 128)) /\
      (gate_present e = true -> selector e = 8 /\ gate_dpl e = (if v =? 128 then 3 else 0) /\
         gate_offset e = if v <? 32 then isr v else if v <? 48 then irq (v - 32) else syscall_interrupt_handler).
Proof.
  destruct (exec_idt_boot s Hlen) as (s' & E & _ & Hv & Hr & Hi). exists s'. split_and!; [done|done|done|].
  intros v Hb. exists (boot_gate v). split; [by apply Hv|]. unfold boot_gate.
  destruct (Z.eqb_spec v 128) as [->|Hne].
  - split; [done|]. intros _. split_and!; [done|done|]. by rewrite gate_offset_packed.
  - rewrite orb_false_r. destruct (Z.ltb_spec v 32).
    + rewrite (proj2 (Z.ltb_lt v 48)) by lia. split; [done|]. intros _. split_and!; [done|done|]. by apply gate_offset_packed.
    + destruct (v <? 48); [|done]. split; [done|]. intros _. split_and!; [done|done|]. by apply gate_offset_packed.
Qed.

End idt_init.

Lemma idt_boot_vectors_witness :
  exists s' e, exec (idt_init 4096 (fun i => 65536 + 8 * (i mod 32)) (fun i => 73728 + 8 * (i mod 16)) ;; syscall_init 81920)
      (mk_interrupts (replicate 256 (mk_idt_entry 0 0 0 0 0)) (0, 0) None false) = (Val tt, s') /\
    idt s' !! 33%nat = Some e /\ gate_present e = true.
Proof.
  destruct (idt_boot_vectors 4096 (fun i => 65536 + 8 * (i mod 32)) (fun i => 73728 + 8 * (i mod 16)) 81920
    (mk_interrupts (replicate 256 (mk_idt_entry 0 0 0 0 0)) (0, 0) None false)) as (s' & E & _ & _ & Hv).
  - reflexivity.
  - intros i. unfold is_u32. dlia.
  - intros i. unfold is_u32. dlia.
  - unfold is_u32. lia.
  - destruct (Hv 33 ltac:(lia)) as (e & He & Hp & _). exists s', e. split; [exact E|]. split; [exact He|exact Hp].
Defined.
