(* ===== verification/Isr.v ===== *)
(** * isr.c: exceptions and interrupts

    The two C entry points of the interrupt stubs, over the kernel with its page
    tables and the keyboard. *)

From S2P Require Import Prelude CString Alloc Process Sched Pmm Paging PagingUser Timer Idt.
From S2P Require Keyboard.

(** ** The handlers *)

Definition exception_messages : list (list Z) :=
  [c "Division By Zero"; c "Debug"; c "Non Maskable Interrupt"; c "Breakpoint"; c "Into Detected Overflow";
   c "Out of Bounds"; c "Invalid Opcode"; c "No Coprocessor"; c "Double Fault"; c "Coprocessor Segment Overrun";
   c "Bad TSS"; c "Segment Not Present"; c "Stack Fault"; c "General Protection Fault"; c "Page Fault";
   c "Unknown Interrupt"; c "Coprocessor Fault"; c "Alignment Check"; c "Machine Check"] ++ replicate 13 (c "Reserved").

Section isr.
Context {H : Type} `{KmallocOps H}.
Context (kernel_directory : Z).
#[local] Existing Instance mm_memory.
#[local] Instance machine_memory : MemoryOps mm := mm_memory kernel_directory.

Record machine : Type := mk_machine { m_kernel : kernel H mm; m_keyboard : Keyboard.keyboard }.

Definition on_kernel {A} (m : M (kernel H mm) A) : M machine A :=
  zoom m_kernel (fun k s => mk_machine k (m_keyboard s)) m.
Definition on_keyboard {A} (m : M Keyboard.keyboard A) : M machine A :=
  zoom m_keyboard (fun k s => mk_machine (m_kernel s) k) m.

(** What [process_current()] points to; [None] is NULL. *)
Definition current_pcb : M (kernel H mm) (option process_t) :=
  let! p := process_current in
  if p =? 0 then ret None else let! v := load_pcb p in ret (Some v).

(** [cr2] is the address the CPU reports for a page fault; the registers the
    handler reads are arguments. *)
Definition isr_handler (cr2 int_no err_code eip0 : Z) : M machine unit :=
  if int_no <? 32 then
    if int_no =? 14 then
      on_kernel (let! proc := current_pcb in on_mm (page_fault_handler cr2 proc err_code))
    else
      screen_write (c "\n") ;;
      screen_write_color (c "[EXCEPTION] ") (MAKE_COLOR COLOR_RED COLOR_BLACK) ;;
      screen_write_color (exception_messages !!! Z.to_nat int_no) (MAKE_COLOR COLOR_YELLOW COLOR_BLACK) ;;
      screen_write (c " Exception (") ;;
      screen_write_hex int_no ;;
      screen_write (c ")\n") ;;
      screen_write_color (c "Error Code: ") (MAKE_COLOR COLOR_RED COLOR_BLACK) ;;
      screen_write_hex err_code ;;
      screen_write (c "\n") ;;
      screen_write_color (c "EIP: ") (MAKE_COLOR COLOR_RED COLOR_BLACK) ;;
      screen_write_hex eip0 ;;
      screen_write (c "\n") ;;
      screen_write_color (c "\nSYSTEM HALTED!\n") (MAKE_COLOR COLOR_WHITE COLOR_RED) ;;
      stop_with Halted
  else ret tt.

(** [scancode] is what the keyboard port holds. *)
Definition irq_handler (scancode int_no : Z) : M machine unit :=
  let irq := u8 (int_no - 32) in
  (if irq =? 0 then on_kernel timer_handler
   else if irq =? 1 then on_keyboard (Keyboard.keyboard_handler scancode)
   else ret tt) ;;
  pic_send_eoi irq.

(** ** What reaches the interrupt controllers *)

Lemma silent_switch dir : silent (Process.paging_switch_directory dir : M mm unit).
Proof. cbn. unfold Paging.paging_switch_directory, load_page_directory, paging_flush_tlb. silence. Qed.

#[local] Hint Resolve silent_switch : silent.

Lemma silent_schedule : silent (process_schedule : M (kernel H mm) unit).
Proof. unfold process_schedule, pick_round, update_pcb, store_pcb, load_pcb, on_mm. silence. Qed.

#[local] Hint Resolve silent_schedule : silent.

Lemma silent_timer : silent (timer_handler : M (kernel H mm) unit).
Proof.
  unfold timer_handler, process_check_sleeping, update_pcb, store_pcb, load_pcb. silence.
Qed.

Lemma silent_keyboard scancode : silent (Keyboard.keyboard_handler scancode).
Proof. unfold Keyboard.keyboard_handler, Keyboard.set_flags, Keyboard.keyboard_buffer_add. silence. Qed.

(** The acknowledgement of an interrupt. *)
Definition eoi (irq : Z) : list event :=
  if 8 <=? irq then [EvOutb PIC2_COMMAND PIC_EOI; EvOutb PIC1_COMMAND PIC_EOI] else [EvOutb PIC1_COMMAND PIC_EOI].

(** C31: [irq_handler] sends nothing to a device but the acknowledgement, to both
    controllers for the interrupts of the second one, and sends it exactly when
    the handler returns.  A timer interrupt in which the scheduler switches
    processes sends none: the controller is left waiting until some other
    interrupt handler gets to its end. *)
Theorem irq_acknowledged (scancode int_no : Z) (m : machine) (Hint : 32 <= int_no < 48) :
  output (irq_handler scancode int_no) m =
    match exec (irq_handler scancode int_no) m with
    | (Val _, _) => eoi (int_no - 32)
    | (Stopped _, _) => []
    end.
Proof.
  unfold irq_handler. rewrite u8_small by (unfold is_u8; lia). set (h := if int_no - 32 =? 0 then _ else _).
  assert (silent h) as Hh.
  { unfold h, on_kernel, on_keyboard. destruct (int_no - 32 =? 0); [apply silent_zoom, silent_timer|].
    destruct (int_no - 32 =? 1); [apply silent_zoom, silent_keyboard|apply silent_ret]. }
  rewrite output_bind, exec_bind, Hh. destruct (exec h m) as [[[]|w] m']; [|done]. cbn [app].
  unfold pic_send_eoi, eoi. destruct (8 <=? int_no - 32); reflexivity.
Qed.

Lemma exec_exception cr2 int_no err eip0 m : 0 <= int_no < 32 -> int_no <> 14 ->
  exec (isr_handler cr2 int_no err eip0) m = (Stopped Halted, m).
Proof.
  intros Hn H14. unfold isr_handler. rewrite (proj2 (Z.ltb_lt _ _)), (proj2 (Z.eqb_neq _ _)) by lia. by run.
Qed.

Lemma exec_page_fault cr2 err eip0 m v :
  current_process (m_kernel m) <> 0 -> procs (m_kernel m) !! current_process (m_kernel m) = Some v ->
  exec (isr_handler cr2 14 err eip0) m =
    let '(o, mm') := exec (page_fault_handler cr2 (Some v) err) (k_mm (m_kernel m)) in
    (o, mk_machine (set_mm mm' (m_kernel m)) (m_keyboard m)).
Proof.
  intros Hc Ev. unfold isr_handler, on_kernel, current_pcb, process_current. cbn [Z.ltb Z.compare Pos.compare Pos.compare_cont Z.eqb Pos.eqb].
  rewrite exec_zoom, exec_bind, exec_bind, exec_gets. cbv iota. rewrite (proj2 (Z.eqb_neq _ 0) Hc), exec_bind.
  rewrite (exec_load_pcb _ _ v Ev). cbv iota. rewrite exec_ret. unfold on_mm. rewrite exec_zoom.
  by destruct (exec (page_fault_handler cr2 (Some v) err) _) as [o mm'].
Qed.

End isr.

(** The processes of [demo] one tick before the end of a time slice. *)
Definition demo_machine : machine (H := unit) :=
  mk_machine (mk_kernel tt empty_mm (procs demo) ∅ ∅ (process_table demo) 4 4 200 100 0 9) Keyboard.keyboard0.

Lemma irq_acknowledged_witness :
  output (irq_handler 1048576 0 32) demo_machine = [] /\
  output (irq_handler 1048576 30 33) demo_machine = [EvOutb PIC1_COMMAND PIC_EOI].
Proof.
  split.
  - rewrite (irq_acknowledged 1048576 0 32 demo_machine ltac:(lia)). vm_compute. reflexivity.
  - rewrite (irq_acknowledged 1048576 30 33 demo_machine ltac:(lia)). vm_compute. reflexivity.
Defined.
