(* ===== verification/X86.v ===== *)
(** * The CPU under the assembly files

    Registers, flags, segment registers and memory of the machine, and the
    instructions that switch.asm, usermode.asm, interrupt.asm and syscall.asm
    use, in the operand order of the assembler.  The segments are flat, so an
    address is an offset. *)

From S2P Require Import Prelude Mem Gdt.

Inductive gpr : Type := EAX | EBX | ECX | EDX | ESI | EDI | EBP | ESP.
#[export] Instance gpr_eq_dec : EqDecision gpr.
Proof. solve_decision. Defined.
Inductive sreg : Type := CS | DS | ES | FS | GS | SS.

Record gprs : Type := mk_gprs { r_eax : Z; r_ebx : Z; r_ecx : Z; r_edx : Z; r_esi : Z; r_edi : Z; r_ebp : Z; r_esp : Z }.
Record segregs : Type := mk_segregs { s_cs : Z; s_ds : Z; s_es : Z; s_fs : Z; s_gs : Z; s_ss : Z }.

Definition get_gpr (r : gpr) (g : gprs) : Z :=
  match r with
  | EAX => r_eax g | EBX => r_ebx g | ECX => r_ecx g | EDX => r_edx g
  | ESI => r_esi g | EDI => r_edi g | EBP => r_ebp g | ESP => r_esp g
  end.
Definition put_gpr (r : gpr) (v : Z) (g : gprs) : gprs :=
  let '(mk_gprs a b c d si di bp sp) := g in
  match r with
  | EAX => mk_gprs v b c d si di bp sp | EBX => mk_gprs a v c d si di bp sp
  | ECX => mk_gprs a b v d si di bp sp | EDX => mk_gprs a b c v si di bp sp
  | ESI => mk_gprs a b c d v di bp sp | EDI => mk_gprs a b c d si v bp sp
  | EBP => mk_gprs a b c d si di v sp | ESP => mk_gprs a b c d si di bp v
  end.
Definition get_seg (s : sreg) (g : segregs) : Z :=
  match s with CS => s_cs g | DS => s_ds g | ES => s_es g | FS => s_fs g | GS => s_gs g | SS => s_ss g end.
Definition put_seg (s : sreg) (v : Z) (g : segregs) : segregs :=
  let '(mk_segregs c d e f g' st) := g in
  match s with
  | CS => mk_segregs v d e f g' st | DS => mk_segregs c v e f g' st | ES => mk_segregs c d v f g' st
  | FS => mk_segregs c d e v g' st | GS => mk_segregs c d e f v st | SS => mk_segregs c d e f g' v
  end.

Record cpu : Type := mk_x86 {
  gpregs : gprs;
  sgregs : segregs;
  flags : Z;                           (* EFLAGS *)
  pc : Z;                              (* EIP, set where control leaves the code at hand *)
  ram : mem
}.

Definition regs (m : cpu) (r : gpr) : Z := get_gpr r (gpregs m).
Definition sregs (m : cpu) (s : sreg) : Z := get_seg s (sgregs m).

Definition set_reg (r : gpr) (v : Z) (m : cpu) : cpu := mk_x86 (put_gpr r v (gpregs m)) (sgregs m) (flags m) (pc m) (ram m).
Definition set_sreg (s : sreg) (v : Z) (m : cpu) : cpu := mk_x86 (gpregs m) (put_seg s v (sgregs m)) (flags m) (pc m) (ram m).
Definition set_flags (v : Z) (m : cpu) : cpu := mk_x86 (gpregs m) (sgregs m) v (pc m) (ram m).
Definition set_pc (v : Z) (m : cpu) : cpu := mk_x86 (gpregs m) (sgregs m) (flags m) v (ram m).
Definition set_ram (f : mem) (m : cpu) : cpu := mk_x86 (gpregs m) (sgregs m) (flags m) (pc m) f.

Lemma regs_set_same r v m : regs (set_reg r v m) r = v.
Proof. by destruct m as [[] ? ? ? ?], r. Qed.
Lemma regs_set_other r r' v m : r <> r' -> regs (set_reg r v m) r' = regs m r'.
Proof. intros Hr. by destruct m as [[] ? ? ? ?], r, r'. Qed.
Lemma sregs_set_reg r v m s : sregs (set_reg r v m) s = sregs m s.
Proof. done. Qed.

(** 16-bit words in memory. *)
Definition load16 (m : mem) (a : Z) : Z := u8 (m a) + 256 * u8 (m (a + 1)).
Definition store16 (m : mem) (a v : Z) : mem := fun x =>
  if x =? a then u8 v else if x =? a + 1 then u8 (v / 256) else m x.

Lemma load16_range m a : 0 <= load16 m a < 65536.
Proof. unfold load16. pose proof (u8_range (m a)). pose proof (u8_range (m (a + 1))). unfold is_u8 in *. lia. Qed.

Lemma store16_other m a v x : ~ (a <= x < a + 2) -> store16 m a v x = m x.
Proof. intros Hx. unfold store16. rewrite !(proj2 (Z.eqb_neq _ _)) by lia. done. Qed.

Lemma load16_store16 m a v : load16 (store16 m a v) a = v mod 65536.
Proof.
  unfold load16, store16. rewrite Z.eqb_refl, (proj2 (Z.eqb_neq _ _)), Z.eqb_refl by lia. unfold u8. rewrite !Zmod_mod. dlia.
Qed.

Lemma load16_ext m m' a : (forall x, a <= x < a + 2 -> m' x = m x) -> load16 m' a = load16 m a.
Proof. intros Hx. unfold load16. rewrite !Hx by lia. done. Qed.

Lemma load16_store16_other m a b v : a + 2 <= b \/ b + 2 <= a -> load16 (store16 m a v) b = load16 m b.
Proof. intros. apply load16_ext. intros. apply store16_other. lia. Qed.
Lemma load16_store32_other m a b v : a + 4 <= b \/ b + 2 <= a -> load16 (store32 m a v) b = load16 m b.
Proof. intros. apply load16_ext. intros. apply store32_other. lia. Qed.
Lemma load32_store16_other m a b v : a + 2 <= b \/ b + 4 <= a -> load32 (store16 m a v) b = load32 m b.
Proof. intros. apply load32_ext. intros. apply store16_other. lia. Qed.

(** ** Segment registers *)

(** The privilege level is the low two bits of CS. *)
Definition cpl (m : cpu) : Z := sregs m CS mod 4.

Definition is_stack (s : sreg) : bool := match s with SS => true | _ => false end.
Definition is_segment (e : gdt_entry_t) : bool := Z.testbit (access e) 4.
Definition is_code (e : gdt_entry_t) : bool := Z.testbit (access e) 3.
Definition is_conforming (e : gdt_entry_t) : bool := is_code e && Z.testbit (access e) 2.
(** Bit 1: a code segment can be read, a data segment written. *)
Definition accessible (e : gdt_entry_t) : bool := Z.testbit (access e) 1.

(** The exception a load of a segment register raises, if any: the vector and
    the error code.  There is no local descriptor table. *)
Definition segment_fault (gdt : list gdt_entry_t) (level : Z) (s : sreg) (sel : Z) : option (Z * Z) :=
  let rpl := sel mod 4 in
  let code := sel - rpl in
  if sel / 4 =? 0 then (if is_stack s then Some (13, 0) else None) else
  if Z.testbit sel 2 then Some (13, code) else
  match gdt !! Z.to_nat (sel / 8) with
  | None => Some (13, code)
  | Some e =>
      if is_stack s then
        if negb (rpl =? level) || negb (is_segment e && negb (is_code e) && accessible e) || negb (seg_dpl e =? level)
        then Some (13, code) else
        if negb (seg_present e) then Some (12, code) else None
      else
        if negb (is_segment e && (negb (is_code e) || accessible e)) ||
           (negb (is_conforming e) && ((seg_dpl e <? rpl) || (seg_dpl e <? level)))
        then Some (13, code) else
        if negb (seg_present e) then Some (11, code) else None
  end.

(** ** Instructions *)

Section instructions.
(** The descriptor table in force, and the status flags (carry, parity, adjust,
    zero, sign, overflow) an arithmetic instruction leaves for its result. *)
Context (gdt : list gdt_entry_t) (status_of : Z -> Z).

Definition STATUS := 2261.               (* 0x8D5 *)

Definition reg (r : gpr) : M cpu Z := gets (fun m => regs m r).
Definition mov (r : gpr) (v : Z) : M cpu unit := modify (set_reg r v).
(** [mov r, src] *)
Definition mov_rr (r src : gpr) : M cpu unit := let! v := reg src in mov r v.
(** The low half of a register. *)
Definition low16 (w v : Z) : Z := w - w mod 65536 + v.
Definition mov16 (r : gpr) (v : Z) : M cpu unit := let! w := reg r in mov r (low16 w v).

Definition load (a : Z) : M cpu Z := gets (fun m => load32 (ram m) (u32 a)).
Definition store (a v : Z) : M cpu unit := modify (fun m => set_ram (store32 (ram m) (u32 a) v) m).

(** [mov r, [b + off]] and [mov [b + off], r] *)
Definition mov_load (r b : gpr) (off : Z) : M cpu unit := let! a := reg b in let! v := load (a + off) in mov r v.
Definition mov_store (b : gpr) (off : Z) (r : gpr) : M cpu unit := let! a := reg b in let! v := reg r in store (a + off) v.
(** The same for 16 bits. *)
Definition mov_load16 (r b : gpr) (off : Z) : M cpu unit :=
  let! a := reg b in let! v := gets (fun m => load16 (ram m) (u32 (a + off))) in mov16 r v.
Definition mov_store16 (b : gpr) (off : Z) (r : gpr) : M cpu unit :=
  let! a := reg b in let! v := reg r in modify (fun m => set_ram (store16 (ram m) (u32 (a + off)) v) m).

(** [mov r, s] for a segment register, and [mov s, r]. *)
Definition mov_from_sreg (r : gpr) (s : sreg) : M cpu unit := let! v := gets (fun m => sregs m s) in mov16 r v.
Definition load_sreg (s : sreg) (sel : Z) : M cpu unit :=
  let! level := gets cpl in
  match segment_fault gdt level s sel with
  | Some (vector, code) => stop_with (Fault vector code)
  | None => modify (set_sreg s sel)
  end.
Definition mov_to_sreg (s : sreg) (r : gpr) : M cpu unit := let! v := reg r in load_sreg s (v mod 65536).

(** An instruction of the arithmetic unit sets the status flags. *)
Definition alu (result : Z) : M cpu unit :=
  modify (fun m => set_flags (Z.lor (Z.ldiff (flags m) STATUS) (Z.land (status_of result) STATUS)) m).
Definition add (r : gpr) (n : Z) : M cpu unit := let! v := reg r in mov r (u32 (v + n)) ;; alu (u32 (v + n)).
Definition or_imm (r : gpr) (n : Z) : M cpu unit := let! v := reg r in mov r (Z.lor v n) ;; alu (Z.lor v n).
(** [test r, r]; the result is what [jz] looks at. *)
Definition test_zero (r : gpr) : M cpu bool := let! v := reg r in alu v ;; ret (v =? 0).

Definition push (v : Z) : M cpu unit := let! sp := reg ESP in mov ESP (u32 (sp - 4)) ;; store (sp - 4) v.
Definition pop : M cpu Z := let! sp := reg ESP in let! v := load sp in mov ESP (u32 (sp + 4)) ;; ret v.
Definition push_reg (r : gpr) : M cpu unit := let! v := reg r in push v.
Definition pop_reg (r : gpr) : M cpu unit := let! v := pop in mov r v.
Definition push_sreg (s : sreg) : M cpu unit := let! v := gets (fun m => sregs m s) in push v.
Definition pop_sreg (s : sreg) : M cpu unit := let! v := pop in load_sreg s (v mod 65536).
Definition pushfd : M cpu unit := let! f := gets flags in push f.
Definition popfd : M cpu unit := let! v := pop in modify (set_flags v).
(** Near return. *)
Definition retn : M cpu unit := let! v := pop in modify (set_pc v).

(** [cli] clears bit 9, the interrupt flag. *)
Definition cli : M cpu unit := modify (fun m => set_flags (Z.ldiff (flags m) 512) m).

Definition pusha : M cpu unit :=
  let! sp := reg ESP in
  push_reg EAX ;; push_reg ECX ;; push_reg EDX ;; push_reg EBX ;; push sp ;; push_reg EBP ;; push_reg ESI ;; push_reg EDI.
(** The stored stack pointer is skipped. *)
Definition popa : M cpu unit :=
  pop_reg EDI ;; pop_reg ESI ;; pop_reg EBP ;; pop ;; pop_reg EBX ;; pop_reg EDX ;; pop_reg ECX ;; pop_reg EAX.

End instructions.

Lemma low16_mod w v : 0 <= v < 65536 -> low16 w v mod 65536 = v.
Proof. intros. unfold low16. dlia. Qed.

(** A number is a word when no bit from 32 on is set. *)
Lemma is_u32_bits x : is_u32 x <-> forall n, 32 <= n -> Z.testbit x n = false.
Proof.
  unfold is_u32. change 4294967296 with (2 ^ 32). split.
  - intros Hx n Hn. rewrite <- (Z.mod_small x (2 ^ 32)) by lia. apply Z.mod_pow2_bits_high. lia.
  - intros Hx. assert (x = x mod 2 ^ 32) as ->; [|apply Z.mod_pos_bound; lia]. apply Z.bits_inj'. intros n Hn.
    destruct (decide (n < 32)); [by rewrite Z.mod_pow2_bits_low by lia|]. rewrite Z.mod_pow2_bits_high by lia. apply Hx. lia.
Qed.

Lemma is_u32_alu f v : is_u32 f -> is_u32 (Z.lor (Z.ldiff f STATUS) (Z.land v STATUS)).
Proof.
  rewrite !is_u32_bits. intros Hf n Hn. rewrite Z.lor_spec, Z.ldiff_spec, Z.land_spec, Hf by done.
  rewrite (proj1 (is_u32_bits STATUS)) by (unfold is_u32, STATUS; lia). by rewrite andb_false_r.
Qed.

Lemma ldiff_alu f v : Z.ldiff (Z.lor (Z.ldiff f STATUS) (Z.land v STATUS)) STATUS = Z.ldiff f STATUS.
Proof.
  apply Z.bits_inj'. intros n Hn. rewrite !Z.ldiff_spec, Z.lor_spec, Z.ldiff_spec, Z.land_spec.
  by destruct (Z.testbit f n), (Z.testbit STATUS n), (Z.testbit v n).
Qed.

(** ** Running the code *)

(** Runs straight-line code on a machine whose registers are known. *)
Ltac run86 := cbv [exec fst bind ret gets get modify app mov_store mov_load mov_store16 mov_load16 mov_rr add or_imm test_zero push_reg pop_reg
  push_sreg pushfd popfd push pop mov_from_sreg mov16 alu reg mov load store retn cli pusha popa
  regs sregs gpregs sgregs flags pc ram set_reg set_sreg set_flags set_pc set_ram get_gpr put_gpr get_seg put_seg
  r_eax r_ebx r_ecx r_edx r_esi r_edi r_ebp r_esp s_cs s_ds s_es s_fs s_gs s_ss].

(** What memory holds behind a sequence of stores, where linear arithmetic tells
    the addresses apart. *)
Ltac memory := repeat match goal with
  | |- context [load32 (store32 ?m ?a ?v) ?a] => rewrite (load_store_same m a v) by assumption
  | |- context [load32 (store32 ?m ?a ?v) ?b] => rewrite (load_store_other m a b v) by lia
  | |- context [load32 (store16 ?m ?a ?v) ?b] => rewrite (load32_store16_other m a b v) by lia
  | |- context [load16 (store16 ?m ?a ?v) ?a] => rewrite (load16_store16 m a v)
  | |- context [load16 (store16 ?m ?a ?v) ?b] => rewrite (load16_store16_other m a b v) by lia
  | |- context [load16 (store32 ?m ?a ?v) ?b] => rewrite (load16_store32_other m a b v) by lia
  end.

(** The registers hold values of their width. *)
Record machine_ok (m : cpu) : Prop := {
  mo_regs r : is_u32 (regs m r);
  mo_segs s : 0 <= sregs m s < 65536;
  mo_flags : is_u32 (flags m)
}.

(** Two ranges of addresses have nothing in common. *)
Definition apart (a n b k : Z) : Prop := a + n <= b \/ b + k <= a.
