(* ===== verification/Switch.v ===== *)
(** * switch.asm: the context switch

    [process_switch] saves the registers of the process that calls it in its
    control block and loads those of another one.  For its caller it is a
    function that returns: when the process is switched to again, it goes on
    behind the call with its registers and its stack. *)

From S2P Require Import Prelude Mem Gdt Process Isr X86.

Section switch.
Context (gdt : list gdt_entry_t) (status_of : Z -> Z).

(** From the entry to [.load_new], when there is an old process: its registers go
    into the fields of its control block. *)
Definition save_old : M cpu unit :=
  mov_store EAX 44 EBX ;; mov_store EAX 48 ECX ;; mov_store EAX 56 ESI ;; mov_store EAX 60 EDI ;;
  mov_rr ECX ESP ;; add status_of ECX 4 ;; mov_store EAX 64 ECX ;;
  mov_store EAX 68 EBP ;;
  mov_load ECX ESP 0 ;; mov_store EAX 72 ECX ;;
  pushfd ;; pop_reg ECX ;; mov_store EAX 76 ECX ;;
  mov_from_sreg ECX DS ;; mov_store16 EAX 86 ECX ;;
  mov_from_sreg ECX ES ;; mov_store16 EAX 88 ECX ;;
  mov_from_sreg ECX FS ;; mov_store16 EAX 90 ECX ;;
  mov_from_sreg ECX GS ;; mov_store16 EAX 92 ECX ;;
  mov_from_sreg ECX SS ;; mov_store16 EAX 94 ECX.

(** From [.load_new] to [.done], when there is a new process. *)
Definition load_segment (s : sreg) (off : Z) : M cpu unit := mov_load16 ECX EDX off ;; mov_to_sreg gdt s ECX.
Definition load_segments : M cpu unit :=
  load_segment DS 86 ;; load_segment ES 88 ;; load_segment FS 90 ;; load_segment GS 92 ;; load_segment SS 94.

Definition load_registers : M cpu unit :=
  mov_load ESP EDX 64 ;; mov_load EBP EDX 68 ;;
  mov_load ECX EDX 76 ;; push_reg ECX ;; popfd ;;
  mov_load EBX EDX 44 ;; mov_load ESI EDX 56 ;; mov_load EDI EDX 60 ;; mov_load ECX EDX 48 ;;
  mov_load EAX EDX 72 ;; push_reg EAX ;;
  mov_load EDX EDX 52.

Definition process_switch : M cpu unit :=
  mov_load EAX ESP 4 ;;
  mov_load EDX ESP 8 ;;
  let! none := test_zero status_of EAX in
  (if none then ret tt else save_old) ;;
  let! none := test_zero status_of EDX in
  (if none then ret tt else load_segments ;; load_registers) ;;
  retn.

(** The image of the registers in the control block at [p], the structure
    [cpu_state_t] at offset 40. *)
Definition saved (m : mem) (p : Z) : cpu_state_t :=
  mk_cpu (load32 m (p + 72)) (load32 m (p + 64)) (load32 m (p + 68)) (load32 m (p + 76))
    (load16 m (p + 84)) (load16 m (p + 86)) (load16 m (p + 88)) (load16 m (p + 90)) (load16 m (p + 92)) (load16 m (p + 94))
    [load32 m (p + 40); load32 m (p + 44); load32 m (p + 48); load32 m (p + 52); load32 m (p + 56); load32 m (p + 60); load32 m (p + 80)].

Definition after_alu (f v : Z) : Z := Z.lor (Z.ldiff f STATUS) (Z.land (status_of v) STATUS).

Lemma exec_save_old m a sp : machine_ok m -> regs m EAX = a -> regs m ESP = sp -> 0 <= a -> a + 96 <= 4294967296 -> 4 <= sp -> sp + 12 <= 4294967296 ->
  apart a 96 (sp - 4) 16 ->
  exists m', exec save_old m = (Val tt, m') /\
    saved (ram m') a = mk_cpu (load32 (ram m) sp) (u32 (sp + 4)) (regs m EBP) (after_alu (flags m) (u32 (sp + 4)))
      (load16 (ram m) (a + 84)) (sregs m DS) (sregs m ES) (sregs m FS) (sregs m GS) (sregs m SS)
      [load32 (ram m) (a + 40); regs m EBX; regs m ECX; load32 (ram m) (a + 52); regs m ESI; regs m EDI; load32 (ram m) (a + 80)] /\
    (forall x, ~ (a + 40 <= x < a + 96) -> ~ (sp - 4 <= x < sp) -> ram m' x = ram m x) /\
    regs m' EDX = regs m EDX /\ regs m' ESP = sp /\ sgregs m' = sgregs m.
Proof.
  intros [Hr Hs Hf] Ha Hsp Ha0 Ha1 Hs0 Hs1 Hd.
  destruct m as [[ea b c d si di bp sp0] [cs0 ds0 es0 fs0 gs0 ss0] f p r].
  pose proof (Hr EBX). pose proof (Hr ECX). pose proof (Hr ESI). pose proof (Hr EDI). pose proof (Hr EBP).
  cbv [regs gpregs get_gpr r_eax r_ebx r_ecx r_edx r_esi r_edi r_ebp r_esp flags sregs sgregs get_seg s_cs s_ds s_es s_fs s_gs s_ss ram] in *. subst.
  eexists. split; [cbv [save_old]; run86; reflexivity|]. cbv [ram gpregs sgregs r_esp r_edx].
  pose proof (is_u32_alu f (status_of (u32 (sp + 4))) Hf) as Hfl. fold (after_alu f (u32 (sp + 4))) in *.
  assert (is_u32 (u32 (sp + 4))) by apply u32_range. pose proof (load32_range r sp).
  rewrite Z.add_0_r. unfold apart in Hd. repeat match goal with |- context [u32 (?x + ?k)] => lazymatch k with 4 => fail | _ => rewrite (u32_small (x + k)) by (unfold is_u32; lia) end end.
  rewrite !(u32_small (sp - 4)), !(u32_small sp) by (unfold is_u32; lia).
  memory. split; [|split; [|split; [reflexivity|split; [|reflexivity]]]].
  - unfold saved. memory. by rewrite !low16_mod by (first [exact (Hs DS)|exact (Hs ES)|exact (Hs FS)|exact (Hs GS)|exact (Hs SS)]).
  - intros x Hx1 Hx2. rewrite !store16_other, !store32_other by lia. reflexivity.
  - unfold u32 at 1. rewrite Z.sub_add. apply Z.mod_small. lia.
Qed.

(** ** Loading the new process *)

Lemma exec_load_sreg s sel m :
  exec (load_sreg gdt s sel) m =
    match segment_fault gdt (cpl m) s sel with Some (vector, code) => (Stopped (Fault vector code), m) | None => (Val tt, set_sreg s sel m) end.
Proof. unfold load_sreg. run. by destruct (segment_fault _ _ _ _) as [[]|]. Qed.

Lemma exec_load_segment s off m b : regs m EDX = b -> 0 <= b -> b + 96 <= 4294967296 -> 0 <= off < 96 ->
  let sel := load16 (ram m) (b + off) in let m1 := set_reg ECX (low16 (regs m ECX) sel) m in
  exec (load_segment s off) m =
    match segment_fault gdt (sregs m CS mod 4) s sel with
    | Some (vector, code) => (Stopped (Fault vector code), m1) | None => (Val tt, set_sreg s sel m1)
    end.
Proof.
  intros <- Hb0 Hb1 Hoff sel m1. unfold load_segment, mov_load16, mov16, mov_to_sreg, reg, mov. run. rewrite u32_small by (unfold is_u32; lia). fold sel m1.
  replace (regs m1 ECX) with (low16 (regs m ECX) sel) by (by destruct m as [[]]). rewrite low16_mod by apply load16_range. apply exec_load_sreg.
Qed.

(** The selectors of an image can be loaded at privilege level [level]. *)
Definition loadable (level : Z) (st : cpu_state_t) : Prop :=
  segment_fault gdt level DS (ds st) = None /\ segment_fault gdt level ES (es st) = None /\ segment_fault gdt level FS (fs st) = None /\
  segment_fault gdt level GS (gs st) = None /\ segment_fault gdt level SS (ss st) = None.

Lemma exec_load_segments m b : regs m EDX = b -> 0 <= b -> b + 96 <= 4294967296 -> loadable (sregs m CS mod 4) (saved (ram m) b) ->
  exists ecx, exec load_segments m = (Val tt, let st := saved (ram m) b in
    mk_x86 (put_gpr ECX ecx (gpregs m)) (mk_segregs (sregs m CS) (ds st) (es st) (fs st) (gs st) (ss st)) (flags m) (pc m) (ram m)).
Proof.
  intros Hb Hb0 Hb1 (Hd & He & Hf & Hg & Hs). destruct m as [[a eb c d si di bp sp] [cs0 ds0 es0 fs0 gs0 ss0] f p r].
  cbv [regs gpregs get_gpr r_edx] in Hb. subst d. cbv [sregs sgregs get_seg s_cs ram saved ds es fs gs ss] in *.
  eexists. unfold load_segments.
  do 4 (rewrite exec_bind, (exec_load_segment _ _ _ b) by (first [reflexivity|lia]);
    cbv [regs sregs gpregs sgregs flags pc ram set_reg set_sreg get_gpr put_gpr get_seg put_seg r_ecx s_cs]; rewrite ?Hd, ?He, ?Hf, ?Hg).
  rewrite (exec_load_segment _ _ _ b) by (first [reflexivity|lia]).
  cbv [regs sregs gpregs sgregs flags pc ram set_reg set_sreg get_gpr put_gpr get_seg put_seg r_ecx s_cs]. rewrite Hs. reflexivity.
Qed.

Lemma exec_load_registers m b st : regs m EDX = b -> 0 <= b -> b + 96 <= 4294967296 -> saved (ram m) b = st ->
  4 <= esp st -> apart b 96 (esp st - 4) 4 ->
  exists m', exec (load_registers ;; retn) m = (Val tt, m') /\ sgregs m' = sgregs m /\
    regs m' ESP = esp st /\ regs m' EBP = ebp st /\ pc m' = eip st /\ flags m' = eflags st /\
    [regs m' EBX; regs m' ECX; regs m' EDX; regs m' ESI; regs m' EDI] = take 5 (drop 1 (other_regs st)) /\
    (forall x, ~ (esp st - 4 <= x < esp st) -> ram m' x = ram m x).
Proof.
  intros Hb Hb0 Hb1 <- Hsp Hd. destruct m as [[a eb c d si di bp sp] sg f p r]. cbv [regs gpregs get_gpr r_edx] in Hb. subst d.
  cbn [saved esp ebp eip eflags other_regs take drop ram] in *. pose proof (load32_range r (b + 64)) as Hr64. pose proof (load32_range r (b + 76)).
  pose proof (load32_range r (b + 72)). unfold apart, is_u32 in Hd, Hr64. set (t := load32 r (b + 64)) in *.
  eexists. split; [cbv [load_registers]; run86; reflexivity|]. cbv [regs gpregs sgregs flags pc ram get_gpr r_eax r_ebx r_ecx r_edx r_esi r_edi r_ebp r_esp].
  repeat match goal with |- context [u32 (b + ?k)] => rewrite (u32_small (b + k)) by (unfold is_u32; lia) end. fold t.
  assert (u32 t = t) as Ht by (apply u32_small; exact Hr64). assert (u32 (t - 4) = t - 4) as Ht4 by (apply u32_small; unfold is_u32; lia).
  repeat (progress rewrite ?Ht4, ?Z.sub_add, ?Ht). memory. split_and!; try reflexivity.
  intros x Hx. by rewrite !store32_other by lia.
Qed.

Lemma exec_mov_load m r b off : 0 <= regs m b + off < 4294967296 ->
  exec (mov_load r b off) m = (Val tt, set_reg r (load32 (ram m) (regs m b + off)) m).
Proof. intros Hr. unfold mov_load, reg, load, mov. run. by rewrite u32_small. Qed.

Lemma exec_test_zero m r : exec (test_zero status_of r) m = (Val (regs m r =? 0), set_flags (after_alu (flags m) (regs m r)) m).
Proof. unfold test_zero, reg, alu. by run. Qed.

Lemma saved_ext m m' p : (forall x, p + 40 <= x < p + 96 -> m' x = m x) -> saved m' p = saved m p.
Proof.
  intros Hx. unfold saved. by rewrite !(load32_ext m' m), !(load16_ext m m') by (intros; apply Hx; lia).
Qed.

(** Everything behind [.load_new]. *)
Lemma exec_load_new m b st : regs m EDX = b -> 0 < b -> b + 96 <= 4294967296 -> saved (ram m) b = st ->
  loadable (sregs m CS mod 4) st -> 4 <= esp st -> apart b 96 (esp st - 4) 4 ->
  exists m', exec ((load_segments ;; load_registers) ;; retn) m = (Val tt, m') /\
    regs m' ESP = esp st /\ regs m' EBP = ebp st /\ pc m' = eip st /\ flags m' = eflags st /\
    sgregs m' = mk_segregs (sregs m CS) (ds st) (es st) (fs st) (gs st) (ss st) /\
    [regs m' EBX; regs m' ECX; regs m' EDX; regs m' ESI; regs m' EDI] = take 5 (drop 1 (other_regs st)) /\
    (forall x, ~ (esp st - 4 <= x < esp st) -> ram m' x = ram m x).
Proof.
  intros Hb Hb0 Hb1 <- Hl Hsp Hd. destruct (exec_load_segments m b Hb ltac:(lia) Hb1 Hl) as [ecx E].
  set (m1 := mk_x86 (put_gpr ECX ecx (gpregs m)) _ (flags m) (pc m) (ram m)) in E.
  destruct (exec_load_registers m1 b (saved (ram m) b)) as (m' & E' & Hs & H1 & H2 & H3 & H4 & H5 & H6);
    [subst m1; unfold regs in *; cbn [gpregs]; by destruct (gpregs m)|lia|done|done|done|done|].
  exists m'. split; [|by split_and!]. rewrite exec_bind, exec_bind, E. cbv iota. rewrite exec_bind in E'. exact E'.
Qed.

(** ** The whole function *)

(** The function has just been called on a stack of the kernel: the return address
    and the two arguments are on the stack, and the old control block lies
    elsewhere. *)
Record called (m : cpu) (a b : Z) : Prop := {
  cl_ok : machine_ok m;
  cl_stack : 4 <= regs m ESP /\ regs m ESP + 12 <= 4294967296;
  cl_old : load32 (ram m) (regs m ESP + 4) = a;
  cl_new : load32 (ram m) (regs m ESP + 8) = b;
  cl_range : 0 < a /\ a + 96 <= 4294967296 /\ 0 < b /\ b + 96 <= 4294967296;
  cl_apart : apart a 96 (regs m ESP - 4) 16 /\ apart b 96 (regs m ESP - 4) 16 /\ apart a 96 b 96
}.

Abbreviation behind_save := ((load_segments ;; load_registers) ;; retn).

(** The first half: the old process is saved. *)
Lemma exec_save_first m a b : called m a b ->
  exists m2, exec process_switch m = exec behind_save m2 /\ regs m2 EDX = b /\ sgregs m2 = sgregs m /\
    (exists f, Z.ldiff f STATUS = Z.ldiff (flags m) STATUS /\
      saved (ram m2) a = mk_cpu (load32 (ram m) (regs m ESP)) (regs m ESP + 4) (regs m EBP) f
        (cs (saved (ram m) a)) (sregs m DS) (sregs m ES) (sregs m FS) (sregs m GS) (sregs m SS)
        [load32 (ram m) (a + 40); regs m EBX; regs m ECX; load32 (ram m) (a + 52); regs m ESI; regs m EDI; load32 (ram m) (a + 80)]) /\
    saved (ram m2) b = saved (ram m) b /\
    (forall x, ~ (a + 40 <= x < a + 96) -> ~ (regs m ESP - 4 <= x < regs m ESP) -> ram m2 x = ram m x).
Proof.
  intros [Hok [Hsp0 Hsp1] Ha Hb (Ha0 & Ha1 & Hb0 & Hb1) (Dsa & Dsb & Dab)].
  set (sp := regs m ESP) in *. set (m1 := mk_x86 (put_gpr EDX b (put_gpr EAX a (gpregs m))) (sgregs m) (after_alu (flags m) a) (pc m) (ram m)).
  assert (exec process_switch m = exec (save_old ;; let! none := test_zero status_of EDX in (if none then ret tt else load_segments ;; load_registers) ;; retn) m1) as ->.
  { unfold process_switch. rewrite exec_bind, (exec_mov_load m EAX ESP 4) by (fold sp; lia). cbv iota. fold sp. rewrite Ha.
    rewrite exec_bind, (exec_mov_load _ EDX ESP 8) by (rewrite regs_set_other by done; fold sp; lia). cbv iota. rewrite regs_set_other by done. fold sp.
    change (ram (set_reg EAX a m)) with (ram m). rewrite Hb, exec_bind, exec_test_zero. rewrite (regs_set_other EDX EAX) by done. rewrite regs_set_same. cbv iota.
    rewrite (proj2 (Z.eqb_neq a 0)) by lia. reflexivity. }
  assert (regs m1 ESP = sp /\ regs m1 EAX = a /\ regs m1 EDX = b /\ forall r, r <> EAX -> r <> EDX -> regs m1 r = regs m r) as (E1 & E2 & E3 & E4).
  { subst sp m1. unfold regs. cbn [gpregs]. destruct (gpregs m). split_and!; try reflexivity. by intros []. }
  assert (machine_ok m1) as Hok1.
  { destruct Hok as [Hr Hs Hf]. split; [|exact Hs|by apply is_u32_alu]. intros r. destruct (decide (r = EAX)) as [->|]; [rewrite E2; unfold is_u32; lia|].
    destruct (decide (r = EDX)) as [->|]; [rewrite E3; unfold is_u32; lia|]. by rewrite E4. }
  rewrite exec_bind. destruct (exec_save_old m1 a sp Hok1 E2 E1 ltac:(lia) Ha1 Hsp0 Hsp1 Dsa) as (m2 & -> & Hsaved & Hram & Hedx & Hesp & Hseg). cbv iota.
  rewrite exec_bind, exec_test_zero, Hedx, E3, (proj2 (Z.eqb_neq b 0)) by lia. cbv iota.
  eexists. split; [reflexivity|]. split; [exact (eq_trans Hedx E3)|]. split; [exact Hseg|]. split; [|split; [|exact Hram]].
  - exists (after_alu (flags m1) (u32 (sp + 4))). split; [unfold after_alu; rewrite ldiff_alu; apply ldiff_alu|].
    cbn [ram set_flags]. rewrite Hsaved, !E4, u32_small by (first [done|unfold is_u32; lia]). reflexivity.
  - apply saved_ext. intros x Hx. cbn [ram set_flags]. rewrite Hram by (unfold apart in *; lia). done.
Qed.

Lemma exec_switch m a b : called m a b -> let st := saved (ram m) b in
  loadable (sregs m CS mod 4) st -> 4 <= esp st -> apart a 96 (esp st - 4) 4 -> apart b 96 (esp st - 4) 4 ->
  exists m' f, exec process_switch m = (Val tt, m') /\
    regs m' ESP = esp st /\ regs m' EBP = ebp st /\ pc m' = eip st /\ flags m' = eflags st /\
    sgregs m' = mk_segregs (sregs m CS) (ds st) (es st) (fs st) (gs st) (ss st) /\
    [regs m' EBX; regs m' ECX; regs m' EDX; regs m' ESI; regs m' EDI] = take 5 (drop 1 (other_regs st)) /\
    saved (ram m') a = mk_cpu (load32 (ram m) (regs m ESP)) (regs m ESP + 4) (regs m EBP) f
      (cs (saved (ram m) a)) (sregs m DS) (sregs m ES) (sregs m FS) (sregs m GS) (sregs m SS)
      [load32 (ram m) (a + 40); regs m EBX; regs m ECX; load32 (ram m) (a + 52); regs m ESI; regs m EDI; load32 (ram m) (a + 80)] /\
    Z.ldiff f STATUS = Z.ldiff (flags m) STATUS /\
    (forall x, ~ (a + 40 <= x < a + 96) -> ~ (regs m ESP - 4 <= x < regs m ESP) -> ~ (esp st - 4 <= x < esp st) -> ram m' x = ram m x).
Proof.
  intros Hcall st Hload Hst Dta Dtb. pose proof (cl_range _ _ _ Hcall) as (Ha0 & Ha1 & Hb0 & Hb1).
  destruct (exec_save_first m a b Hcall) as (m2 & -> & Hedx & Hseg & (f & Hf & Hsaved) & Est & Hram).
  destruct (exec_load_new m2 b st) as (m' & -> & H1 & H2 & H3 & H4 & H5 & H6 & H7);
    [done|done|done|done|unfold sregs; rewrite Hseg; exact Hload|done|done|].
  exists m', f. split; [done|]. split_and!; try assumption.
  - unfold sregs in *. by rewrite <- Hseg.
  - rewrite <- Hsaved. apply saved_ext. intros x Hx. apply H7. unfold apart in *. lia.
  - intros x Hx1 Hx2 Hx3. rewrite H7 by done. by apply Hram.
Qed.

Lemma exec_load_segments_fault m b vector code : regs m EDX = b -> 0 <= b -> b + 96 <= 4294967296 -> let st := saved (ram m) b in
  segment_fault gdt (sregs m CS mod 4) DS (ds st) = None -> segment_fault gdt (sregs m CS mod 4) ES (es st) = None ->
  segment_fault gdt (sregs m CS mod 4) FS (fs st) = None -> segment_fault gdt (sregs m CS mod 4) GS (gs st) = None ->
  segment_fault gdt (sregs m CS mod 4) SS (ss st) = Some (vector, code) ->
  exists m', exec load_segments m = (Stopped (Fault vector code), m').
Proof.
  intros Hb Hb0 Hb1 st Hd He Hf Hg Hs. subst st. destruct m as [[a eb c d si di bp sp] [cs0 ds0 es0 fs0 gs0 ss0] f p r].
  cbv [regs gpregs get_gpr r_edx] in Hb. subst d. cbv [sregs sgregs get_seg s_cs ram saved ds es fs gs ss] in *.
  eexists. unfold load_segments.
  do 4 (rewrite exec_bind, (exec_load_segment _ _ _ b) by (first [reflexivity|lia]);
    cbv [regs sregs gpregs sgregs flags pc ram set_reg set_sreg get_gpr put_gpr get_seg put_seg r_ecx s_cs]; rewrite ?Hd, ?He, ?Hf, ?Hg).
  rewrite (exec_load_segment _ _ _ b) by (first [reflexivity|lia]).
  cbv [regs sregs gpregs sgregs flags pc ram set_reg set_sreg get_gpr put_gpr get_seg put_seg r_ecx s_cs]. rewrite Hs. reflexivity.
Qed.
End switch.

(** ** Coming back *)

(** C13: A call of [process_switch] returns to its caller.  Process [a] gives the
    CPU to [b]; when later any process [x] gives it to [a], whose saved registers
    nobody has touched, the CPU goes on at the return address of the first
    call, with the stack pointer behind the return address and the registers,
    segments and flags (but for the status flags) of [a] at that call; of memory
    only the control block of [x] and the free words below the two stacks
    change. *)
Theorem switch_returns gdt status_of m0 a b m1 m2 x
    (H0 : called m0 a b) (Hb : loadable gdt (sregs m0 CS mod 4) (saved (ram m0) b)) (Hsb : 4 <= esp (saved (ram m0) b))
    (Dab : apart a 96 (esp (saved (ram m0) b) - 4) 4) (Dbb : apart b 96 (esp (saved (ram m0) b) - 4) 4)
    (E1 : exec (process_switch gdt status_of) m0 = (Val tt, m1))
    (H2 : called m2 x a) (Himg : forall y, a + 40 <= y < a + 96 -> ram m2 y = ram m1 y)
    (Hseg : forall s, s <> CS -> segment_fault gdt (sregs m2 CS mod 4) s (sregs m0 s) = None) (Dx : apart x 96 (regs m0 ESP) 4) :
  exists m3, exec (process_switch gdt status_of) m2 = (Val tt, m3) /\
    pc m3 = load32 (ram m0) (regs m0 ESP) /\ regs m3 ESP = regs m0 ESP + 4 /\
    (forall r, r = EBX \/ r = ESI \/ r = EDI \/ r = EBP \/ r = ECX -> regs m3 r = regs m0 r) /\
    (forall s, s <> CS -> sregs m3 s = sregs m0 s) /\ Z.ldiff (flags m3) STATUS = Z.ldiff (flags m0) STATUS /\
    (forall y, ~ (x + 40 <= y < x + 96) -> ~ (regs m2 ESP - 4 <= y < regs m2 ESP) -> ~ (regs m0 ESP <= y < regs m0 ESP + 4) -> ram m3 y = ram m2 y).
Proof.
  destruct (exec_switch gdt status_of m0 a b H0 Hb Hsb Dab Dbb) as (m1' & f & E1' & _ & _ & _ & _ & _ & _ & Hsaved & Hf & _).
  rewrite E1 in E1'. injection E1' as <-.
  assert (saved (ram m2) a = saved (ram m1) a) as Ea by (by apply saved_ext). rewrite Hsaved in Ea.
  pose proof (cl_apart _ _ _ H0) as (Da & _ & _). pose proof (cl_stack _ _ _ H0) as [Hsp _].
  destruct (exec_switch gdt status_of m2 x a H2) as (m3 & f3 & E3 & Hesp & Hebp & Hpc & Hfl & Hsg & Hrs & _ & _ & Hram).
  - rewrite Ea. by repeat split; cbn; apply Hseg.
  - rewrite Ea. cbn [esp]. lia.
  - rewrite Ea. cbn [esp]. unfold apart in *. lia.
  - rewrite Ea. cbn [esp]. unfold apart in *. lia.
  - rewrite Ea in *. cbn [esp ebp eip eflags ds es fs gs ss other_regs take drop] in *. injection Hrs as Hbx Hcx _ Hsi Hdi.
    exists m3. split_and!; [done|done|done| | |by rewrite Hfl|].
    + by intros r [->|[->|[->|[->| ->]]]].
    + intros s Hs. unfold sregs at 1. rewrite Hsg. by destruct s.
    + intros y Hy1 Hy2 Hy3. apply Hram; [done|done|lia].
Qed.

(** ** Processes that start *)

(** The first switch to a process that [process_create] set up starts it: with
    the descriptors of [gdt_init], at its entry point, on the top of its own
    stack, in the kernel's segments and with interrupts on. *)
Theorem switch_starts_process status_of tss_addr m a b entry stack regs0
    (Hcall : called m a b) (Hcs : sregs m CS = KERNEL_CODE_SEGMENT) (Himg : saved (ram m) b = entry_cpu entry stack regs0)
    (Hstack : 4 <= stack) (Da : apart a 96 (stack - 4) 4) (Db : apart b 96 (stack - 4) 4) :
  exists m', exec (process_switch (boot_gdt tss_addr) status_of) m = (Val tt, m') /\
    pc m' = entry /\ regs m' ESP = stack /\ regs m' EBP = stack /\ Z.testbit (flags m') 9 = true /\
    (forall s, s <> CS -> sregs m' s = KERNEL_DATA_SEGMENT) /\ cpl m' = 0 /\
    (forall x, ~ (a + 40 <= x < a + 96) -> ~ (X86.regs m ESP - 4 <= x < X86.regs m ESP) -> ~ (stack - 4 <= x < stack) -> ram m' x = ram m x).
Proof.
  destruct (exec_switch (boot_gdt tss_addr) status_of m a b Hcall) as (m' & f & E & Hesp & Hebp & Hpc & Hfl & Hsg & _ & _ & _ & Hram);
    rewrite ?Himg, ?Hcs; [by repeat split|exact Hstack|exact Da|exact Db|].
  rewrite Himg in *. cbn [esp ebp eip eflags ds es fs gs ss entry_cpu] in *.
  exists m'. split_and!; [done|done|done|done|by rewrite Hfl| | |exact Hram].
  - intros s Hs. unfold sregs. rewrite Hsg. by destruct s.
  - unfold cpl. unfold sregs at 1. rewrite Hsg. cbn [get_seg s_cs]. by rewrite Hcs.
Qed.

(** C16: A user mode process never starts.  [process_create_user_mode] puts the user's
    data segment into the saved SS, and the switch, which runs at privilege
    level 0, raises a general protection fault (vector 13, error code 0x20) when
    it loads it; the handler of that exception halts the system. *)
Theorem user_process_faults {H} status_of tss_addr m a b st entry cr2 eip0 (s : machine (H := H))
    (Hcall : called m a b) (Hcs : sregs m CS = KERNEL_CODE_SEGMENT) (Himg : saved (ram m) b = user_cpu st entry) :
  (exists m', exec (process_switch (boot_gdt tss_addr) status_of) m = (Stopped (Fault 13 32), m')) /\
  exec (isr_handler cr2 13 32 eip0) s = (Stopped Halted, s).
Proof.
  split; [|by apply exec_exception].
  pose proof (cl_range _ _ _ Hcall) as (Ha0 & Ha1 & Hb0 & Hb1).
  destruct (exec_save_first (boot_gdt tss_addr) status_of m a b) as (m2 & -> & Hedx & Hseg & _ & Hs2 & _); [exact Hcall|].
  rewrite exec_bind, exec_bind.
  destruct (exec_load_segments_fault (boot_gdt tss_addr) m2 b 13 32) as [m' ->]; [done|lia|done|..|by exists m'];
    rewrite Hs2, Himg; unfold sregs in *; rewrite Hseg, Hcs; reflexivity.
Qed.

(** ** The theorems at work *)

(** Process [a] at 4096 on a stack at 20480 has called the function to switch to [b]
    at 8192, whose stack is at 24576. *)
Definition image_ram : mem :=
  let r := store32 (fun _ => 0) (8192 + 64) 24576 in
  let r := store32 (store32 r (8192 + 72) 74565) (8192 + 76) 514 in
  let r := store16 (store16 (store16 r (8192 + 86) 16) (8192 + 88) 16) (8192 + 90) 16 in
  store16 (store16 r (8192 + 92) 16) (8192 + 94) 16.
Definition call_stack (r : mem) (sp ra a b : Z) : mem := store32 (store32 (store32 r sp ra) (sp + 4) a) (sp + 8) b.
Definition on_kernel_stack (sp : Z) (r : mem) : cpu := mk_x86 (mk_gprs 1 2 3 4 5 6 7 sp) (mk_segregs 8 16 16 16 16 16) 518 0 r.
Definition first_call : cpu := on_kernel_stack 20480 (call_stack image_ram 20480 65536 4096 8192).
Definition switched : cpu := snd (exec (process_switch (boot_gdt 12288) (fun _ => 0)) first_call).
Definition second_call : cpu := on_kernel_stack 24576 (call_stack (ram switched) 24576 69632 8192 4096).

Lemma pair_fst {A B} (p : A * B) a : fst p = a -> p = (a, snd p).
Proof. destruct p. cbn. by intros ->. Qed.

Lemma on_kernel_stack_ok sp r : is_u32 sp -> machine_ok (on_kernel_stack sp r).
Proof. intros Hsp. split; [intros []; cbn; first [exact Hsp|unfold is_u32; lia]|intros []; cbn; lia|unfold is_u32; cbn; lia]. Qed.

Lemma first_called : called first_call 4096 8192.
Proof. split; [apply on_kernel_stack_ok; unfold is_u32; lia|..]; cbn [regs gpregs get_gpr r_esp first_call on_kernel_stack]; [lia|reflexivity|reflexivity|lia|unfold apart; lia]. Qed.
Lemma second_called : called second_call 8192 4096.
Proof. split; [apply on_kernel_stack_ok; unfold is_u32; lia|..]; cbn [regs gpregs get_gpr r_esp second_call on_kernel_stack]; [lia|reflexivity|reflexivity|lia|unfold apart; lia]. Qed.

Lemma switch_returns_witness : exists m3, exec (process_switch (boot_gdt 12288) (fun _ => 0)) second_call = (Val tt, m3) /\
  pc m3 = 65536 /\ regs m3 ESP = 20484 /\ regs m3 EBX = 2.
Proof.
  destruct (switch_returns (boot_gdt 12288) (fun _ => 0) first_call 4096 8192 switched second_call 8192) as (m3 & E & Hpc & Hesp & Hr & _).
  - exact first_called.
  - by repeat split.
  - cbn. vm_compute. discriminate.
  - unfold apart. left. vm_compute. discriminate.
  - unfold apart. left. vm_compute. discriminate.
  - unfold switched. apply pair_fst. vm_compute. reflexivity.
  - exact second_called.
  - intros y Hy. cbn [ram second_call on_kernel_stack]. unfold call_stack. rewrite !store32_other by lia. reflexivity.
  - intros s Hs. destruct s; [by elim Hs|reflexivity..].
  - unfold apart. cbn. lia.
  - exists m3. split; [exact E|]. split; [exact Hpc|]. split; [exact Hesp|]. apply (Hr EBX). by left.
Defined.

(** The image of a user mode process at 8192. *)
Definition user_image : mem :=
  let r := store32 (fun _ => 0) (8192 + 64) 24576 in
  let r := store32 (store32 r (8192 + 72) 1073741824) (8192 + 76) 514 in
  let r := store16 (store16 (store16 (store16 r (8192 + 84) 27) (8192 + 86) 35) (8192 + 88) 35) (8192 + 90) 35 in
  store16 (store16 r (8192 + 92) 35) (8192 + 94) 35.
Definition user_call : cpu := on_kernel_stack 20480 (call_stack user_image 20480 65536 4096 8192).

Lemma user_called : called user_call 4096 8192.
Proof. split; [apply on_kernel_stack_ok; unfold is_u32; lia|..]; cbn [regs gpregs get_gpr r_esp user_call on_kernel_stack]; [lia|reflexivity|reflexivity|lia|unfold apart; lia]. Qed.

Lemma user_process_faults_witness :
  (exists m', exec (process_switch (boot_gdt 12288) (fun _ => 0)) user_call = (Stopped (Fault 13 32), m')) /\
  exec (isr_handler 0 13 32 1073741824) demo_machine = (Stopped Halted, demo_machine).
Proof.
  apply (user_process_faults (fun _ => 0) 12288 user_call 4096 8192 (mk_cpu 0 24576 0 514 0 0 0 0 0 0 (replicate 7 0)) 1073741824).
  - exact user_called.
  - reflexivity.
  - vm_compute. reflexivity.
Defined.
