(* ===== verification/Stubs.v ===== *)
(** * interrupt.asm, syscall.asm, usermode.asm: between the CPU and the C code

    What the CPU does on an interrupt and on [iret], the stubs that save the
    registers, call the C code and restore them, and the way into user mode. *)

From S2P Require Import Prelude Mem Gdt X86.

(** ** The CPU *)

Section cpu.
Context (gdt : list gdt_entry_t).

(** A selector for CS in a frame that [iret] pops at privilege level [level]. *)
Definition code_fault (level sel : Z) : option (Z * Z) :=
  let rpl := sel mod 4 in
  let code := sel - rpl in
  if sel / 4 =? 0 then Some (13, 0) else
  if Z.testbit sel 2 || (rpl <? level) then Some (13, code) else
  match gdt !! Z.to_nat (sel / 8) with
  | None => Some (13, code)
  | Some e =>
      if negb (is_segment e && is_code e) || (if is_conforming e then rpl <? seg_dpl e else negb (seg_dpl e =? rpl)) then Some (13, code) else
      if negb (seg_present e) then Some (11, code) else None
  end.

(** On the way to a less privileged level a data segment that level must not use
    is replaced by the null selector. *)
Definition keep_segment (level sel : Z) : Z :=
  if sel / 4 =? 0 then sel else
  match gdt !! Z.to_nat (sel / 8) with
  | Some e => if negb (is_conforming e) && (seg_dpl e <? level) then 0 else sel
  | None => 0
  end.

Definition iret : M cpu unit :=
  let! ip := pop in
  let! csv := pop in
  let! fl := pop in
  let! level := gets cpl in
  let sel := csv mod 65536 in
  match code_fault level sel with
  | Some (vector, code) => stop_with (Fault vector code)
  | None =>
      if level <? sel mod 4 then
        let! sp := pop in
        let! ssv := pop in
        match segment_fault gdt (sel mod 4) SS (ssv mod 65536) with
        | Some (vector, code) => stop_with (Fault vector code)
        | None =>
            modify (fun m => let g := sgregs m in let k := keep_segment (sel mod 4) in
              mk_x86 (put_gpr ESP sp (gpregs m)) (mk_segregs sel (k (s_ds g)) (k (s_es g)) (k (s_fs g)) (k (s_gs g)) (ssv mod 65536)) fl ip (ram m))
        end
      else modify (fun m => mk_x86 (gpregs m) (put_seg CS sel (sgregs m)) fl ip (ram m))
  end.

(** An interrupt or exception through an interrupt gate for ring 0: from user mode
    the CPU takes the stack of the task state segment first; it pushes where it
    was, and turns interrupts off (with the trap, nested task, resume and
    virtual mode flags). *)
Definition GATE_CLEARS := 213760.        (* 0x34300 *)
Definition enter_gate : M cpu unit :=
  modify (set_sreg CS KERNEL_CODE_SEGMENT) ;;
  modify (fun m => set_flags (Z.ldiff (flags m) GATE_CLEARS) m).
Definition deliver (esp0 ss0 : Z) (error_code : option Z) : M cpu unit :=
  let! m := get in
  (if cpl m =? 0 then ret tt else
   modify (set_sreg SS ss0) ;; mov ESP esp0 ;; push (sregs m SS) ;; push (regs m ESP)) ;;
  push (flags m) ;; push (sregs m CS) ;; push (pc m) ;;
  match error_code with Some e => push e | None => ret tt end ;;
  enter_gate.

End cpu.

(** ** The stubs *)

Section stubs.
Context (gdt : list gdt_entry_t) (status_of : Z -> Z).
(** The address behind a [call] instruction, and the C function it calls, which
    ends with [ret]. *)
Context (return_address : Z).
Definition call (f : M cpu unit) : M cpu unit := push return_address ;; f.

(** [isr_common_stub] and [irq_common_stub] are the same but for the function. *)
Definition common_entry : M cpu unit :=
  pusha ;;
  push_sreg DS ;; push_sreg ES ;; push_sreg FS ;; push_sreg GS ;;
  mov16 EAX 16 ;;
  mov_to_sreg gdt DS EAX ;; mov_to_sreg gdt ES EAX ;; mov_to_sreg gdt FS EAX ;; mov_to_sreg gdt GS EAX ;;
  push_reg ESP.

Definition common_exit : M cpu unit :=
  add status_of ESP 4 ;;
  pop_sreg gdt GS ;; pop_sreg gdt FS ;; pop_sreg gdt ES ;; pop_sreg gdt DS ;;
  popa ;;
  add status_of ESP 8 ;;
  iret gdt.

Definition common_stub (handler : M cpu unit) : M cpu unit := common_entry ;; call handler ;; common_exit.

Definition ISR_NO_ERROR (isr_handler : M cpu unit) (n : Z) : M cpu unit := push 0 ;; push n ;; common_stub isr_handler.
Definition ISR_ERROR (isr_handler : M cpu unit) (n : Z) : M cpu unit := push n ;; common_stub isr_handler.
Definition IRQ (irq_handler : M cpu unit) (n : Z) : M cpu unit := push 0 ;; push n ;; common_stub irq_handler.

Definition syscall_exit : M cpu unit :=
  add status_of ESP 20 ;;
  mov_store ESP 0 EAX ;;
  pop_reg EAX ;; pop_reg EBX ;; pop_reg ECX ;; pop_reg EDX ;; pop_reg ESI ;; pop_reg EDI ;; pop_reg EBP ;;
  iret gdt.

Definition syscall_interrupt_handler (syscall_dispatch : M cpu unit) : M cpu unit :=
  push_reg EBP ;; push_reg EDI ;; push_reg ESI ;; push_reg EDX ;; push_reg ECX ;; push_reg EBX ;; push_reg EAX ;;
  push_reg ESI ;; push_reg EDX ;; push_reg ECX ;; push_reg EBX ;; push_reg EAX ;;
  call syscall_dispatch ;;
  syscall_exit.

Definition enter_usermode : M cpu unit :=
  cli ;;
  mov_load EAX ESP 4 ;;
  mov_load EBX ESP 8 ;;
  push 35 ;;
  push_reg EBX ;;
  pushfd ;; pop_reg ECX ;; or_imm status_of ECX 512 ;; push_reg ECX ;;
  push 27 ;;
  push_reg EAX ;;
  mov16 EAX 35 ;;
  mov_to_sreg gdt DS EAX ;; mov_to_sreg gdt ES EAX ;; mov_to_sreg gdt FS EAX ;; mov_to_sreg gdt GS EAX ;;
  iret gdt.

End stubs.

(** ** The vectors *)

(** The macros ISR_NO_ERROR, ISR_ERROR and IRQ, and their uses: the labels [isr0]
    to [isr31] and [irq0] to [irq15] in the order of their vectors, each with the
    number it pushes. *)
Inductive macro : Type := NoCode | WithCode | Hardware.

Definition interrupt_stubs : list (macro * Z) :=
  [(NoCode, 0); (NoCode, 1); (NoCode, 2); (NoCode, 3);
   (NoCode, 4); (NoCode, 5); (NoCode, 6); (NoCode, 7);
   (WithCode, 8); (NoCode, 9); (WithCode, 10); (WithCode, 11);
   (WithCode, 12); (WithCode, 13); (WithCode, 14); (NoCode, 15);
   (NoCode, 16); (WithCode, 17); (NoCode, 18); (NoCode, 19);
   (NoCode, 20); (NoCode, 21); (NoCode, 22); (NoCode, 23);
   (NoCode, 24); (NoCode, 25); (NoCode, 26); (NoCode, 27);
   (NoCode, 28); (NoCode, 29); (WithCode, 30); (NoCode, 31);
   (Hardware, 32); (Hardware, 33); (Hardware, 34); (Hardware, 35);
   (Hardware, 36); (Hardware, 37); (Hardware, 38); (Hardware, 39);
   (Hardware, 40); (Hardware, 41); (Hardware, 42); (Hardware, 43);
   (Hardware, 44); (Hardware, 45); (Hardware, 46); (Hardware, 47)].

Section vectors.
Context (gdt : list gdt_entry_t) (status_of : Z -> Z).
(** The addresses behind the two [call] instructions, and the two C functions. *)
Context (isr_return irq_return : Z) (isr_handler irq_handler : M cpu unit).
Definition macro_code (l : macro * Z) : M cpu unit :=
  match l with
  | (NoCode, n) => ISR_NO_ERROR gdt status_of isr_return isr_handler n
  | (WithCode, n) => ISR_ERROR gdt status_of isr_return isr_handler n
  | (Hardware, n) => IRQ gdt status_of irq_return irq_handler n
  end.

Definition vector_stub (v : Z) : M cpu unit :=
  match interrupt_stubs !! Z.to_nat v with Some l => macro_code l | None => stop_with Undefined end.

(** The processor's side: the exceptions that push an error code, by their
    vectors (double fault, invalid TSS, segment not present, stack fault,
    general protection, page fault, alignment check, and on newer processors
    control protection, VMM communication and security). *)
Definition pushes_error_code (v : Z) : bool :=
  (v =? 8) || ((10 <=? v) && (v <=? 14)) || (v =? 17) || (v =? 21) || (v =? 29) || (v =? 30).
Definition error_code (v code : Z) : option Z := if pushes_error_code v then Some code else None.

(** An exception or a hardware interrupt with vector [v]. *)
Definition interrupt (esp0 ss0 code v : Z) : M cpu unit :=
  deliver esp0 ss0 (error_code v code) ;; vector_stub v.

(** What a vector needs: the number alone, or with a 0 in the place of the code. *)
Definition vector_code (err : option Z) (n ra : Z) (handler : M cpu unit) : M cpu unit :=
  match err with
  | Some _ => ISR_ERROR gdt status_of ra handler n
  | None => ISR_NO_ERROR gdt status_of ra handler n
  end.

(** The C function of a vector, and where it returns to. *)
Definition handler_of (v : Z) : M cpu unit := if v <? 32 then isr_handler else irq_handler.
Definition return_of (v : Z) : Z := if v <? 32 then isr_return else irq_return.

(** Each label has the macro its exception needs and pushes its own vector; the
    two newer exceptions whose vectors the file takes for reserved are the
    exception to it. *)
Definition macro_of (v : Z) : macro := if v <? 32 then if pushes_error_code v then WithCode else NoCode else Hardware.
Definition reserved (v : Z) : bool := (v =? 21) || (v =? 29).

Lemma stub_at (v : nat) : (v < 48)%nat -> reserved (Z.of_nat v) = false -> interrupt_stubs !! v = Some (macro_of (Z.of_nat v), Z.of_nat v).
Proof. intros Hv. do 48 (destruct v as [|v]; [by vm_compute|]). lia. Qed.

Lemma vector_stub_code v code : 0 <= v < 48 -> v <> 21 -> v <> 29 ->
  vector_stub v = vector_code (error_code v code) v (return_of v) (handler_of v).
Proof.
  intros Hv H21 H29. unfold vector_stub. rewrite stub_at by (rewrite ?Z2Nat.id by lia; unfold reserved; lia).
  rewrite Z2Nat.id by lia. unfold macro_of, error_code, return_of, handler_of, vector_code, macro_code.
  destruct (Z.ltb_spec v 32) as [|Hge]; [by destruct (pushes_error_code v)|].
  assert (pushes_error_code v = false) as -> by (unfold pushes_error_code; lia). unfold IRQ, ISR_NO_ERROR. reflexivity.
Qed.

End vectors.

(** ** Code on a stack *)

(** The words from the stack pointer on are [l], above at least [room] free bytes. *)
Record at_state (m : cpu) (g : gprs) (sg : segregs) (f p : Z) (l : list Z) (room : Z) : Prop := {
  as_gprs : gpregs m = g; as_segs : sgregs m = sg; as_flags : flags m = f; as_pc : pc m = p;
  as_room : 0 <= room <= r_esp g; as_top : r_esp g + 4 * Z.of_nat (length l) < 4294967296;
  as_words i v : l !! i = Some v -> load32 (ram m) (r_esp g + 4 * Z.of_nat i) = v
}.

Section rules.
Context (gdt : list gdt_entry_t) (status_of : Z -> Z).

Lemma rule_push v m g sg f p l room : at_state m g sg f p l room -> is_u32 v -> 4 <= room ->
  exists m', exec (push v) m = (Val tt, m') /\ at_state m' (put_gpr ESP (r_esp g - 4) g) sg f p (v :: l) (room - 4).
Proof.
  intros [Eg Es Ef Ep Hr Ht Hw] Hv H4. destruct m as [g0 sg0 f0 p0 r0]. cbn in Eg, Es, Ef, Ep, Hw. subst. destruct g as [a b c d si di bp sp]. cbn [r_esp] in *.
  eexists. split; [run86; reflexivity|]. rewrite !(u32_small (sp - 4)) by (unfold is_u32; lia).
  split; cbn [gpregs sgregs flags pc r_esp put_gpr length]; try done; try lia.
  intros [|i] w Hi; cbn in Hi; cbn [ram].
  - injection Hi as <-. rewrite Z.mul_0_r, Z.add_0_r. by apply load_store_same.
  - rewrite load_store_other by lia. rewrite <- (Hw i w Hi). f_equal. lia.
Qed.

Lemma rule_pop m g sg f p v l room : at_state m g sg f p (v :: l) room ->
  exists m', exec pop m = (Val v, m') /\ at_state m' (put_gpr ESP (r_esp g + 4) g) sg f p l (room + 4).
Proof.
  intros [Eg Es Ef Ep Hr Ht Hw]. destruct m as [g0 sg0 f0 p0 r0]. cbn in Eg, Es, Ef, Ep, Hw. subst. destruct g as [a b c d si di bp sp]. cbn [r_esp length] in *.
  pose proof (Hw 0%nat v eq_refl) as H0. rewrite Z.mul_0_r, Z.add_0_r in H0.
  eexists. split; [run86; rewrite (u32_small sp), H0 by (unfold is_u32; lia); reflexivity|].
  rewrite (u32_small (sp + 4)) by (unfold is_u32; lia).
  split; cbn [gpregs sgregs flags pc r_esp put_gpr]; try done; try lia.
  intros i w Hi. rewrite <- (Hw (S i) w Hi). cbn [ram]. f_equal. lia.
Qed.

Lemma rule_mov r v m g sg f p l room : at_state m g sg f p l room -> r <> ESP ->
  exists m', exec (mov r v) m = (Val tt, m') /\ at_state m' (put_gpr r v g) sg f p l room.
Proof.
  intros [Eg Es Ef Ep Hr Ht Hw] Hne. destruct m as [g0 sg0 f0 p0 r0]. cbn in Eg, Es, Ef, Ep, Hw. subst. destruct g as [a b c d si di bp sp].
  eexists. split; [reflexivity|]. by destruct r; split.
Qed.

Lemma rule_reg r m g sg f p l room : at_state m g sg f p l room -> exec (reg r) m = (Val (get_gpr r g), m).
Proof. intros Hm. unfold reg. run. unfold regs. by rewrite (as_gprs _ _ _ _ _ _ _ Hm). Qed.

Lemma rule_load_sreg s sel m g sg f p l room : at_state m g sg f p l room -> segment_fault gdt (s_cs sg mod 4) s sel = None ->
  exists m', exec (load_sreg gdt s sel) m = (Val tt, m') /\ at_state m' g (put_seg s sel sg) f p l room.
Proof.
  intros [Eg Es Ef Ep Hr Ht Hw] Hs. destruct m as [g0 sg0 f0 p0 r0]. cbn in Eg, Es, Ef, Ep, Hw. subst.
  eexists. unfold load_sreg. run. unfold cpl, sregs. cbn [get_seg sgregs]. rewrite Hs. split; [reflexivity|]. by split.
Qed.

(** The stack pointer moves up over [n] words. *)
Lemma rule_add m g sg f p l1 l2 room n : at_state m g sg f p (l1 ++ l2) room -> n = 4 * Z.of_nat (length l1) ->
  exists m' f', exec (add status_of ESP n) m = (Val tt, m') /\ at_state m' (put_gpr ESP (r_esp g + n) g) sg f' p l2 (room + n).
Proof.
  intros [Eg Es Ef Ep Hr Ht Hw] ->. destruct m as [g0 sg0 f0 p0 r0]. cbn in Eg, Es, Ef, Ep, Hw. subst. destruct g as [a b c d si di bp sp].
  rewrite length_app in Ht. cbn [r_esp] in *. eexists _, _. split; [run86; reflexivity|]. rewrite !u32_small by (unfold is_u32; lia).
  split; cbn [gpregs sgregs flags pc r_esp put_gpr]; try done; try lia.
  intros i w Hi. cbn [ram]. rewrite <- (Hw (length l1 + i)%nat w); [f_equal; lia|]. rewrite lookup_app_r by lia. by replace (length l1 + i - length l1)%nat with i by lia.
Qed.

Lemma rule_push_reg r m g sg f p l room : at_state m g sg f p l room -> is_u32 (get_gpr r g) -> 4 <= room ->
  exists m', exec (push_reg r) m = (Val tt, m') /\ at_state m' (put_gpr ESP (r_esp g - 4) g) sg f p (get_gpr r g :: l) (room - 4).
Proof. intros Hm Hv H4. unfold push_reg. rewrite exec_bind, (rule_reg r _ _ _ _ _ _ _ Hm). by apply rule_push. Qed.

Lemma rule_push_sreg s m g sg f p l room : at_state m g sg f p l room -> 0 <= get_seg s sg < 65536 -> 4 <= room ->
  exists m', exec (push_sreg s) m = (Val tt, m') /\ at_state m' (put_gpr ESP (r_esp g - 4) g) sg f p (get_seg s sg :: l) (room - 4).
Proof.
  intros Hm Hv H4. unfold push_sreg. rewrite exec_bind, exec_gets. unfold sregs. rewrite (as_segs _ _ _ _ _ _ _ Hm).
  apply rule_push; [done|unfold is_u32; lia|done].
Qed.

Lemma rule_pop_reg r m g sg f p v l room : at_state m g sg f p (v :: l) room -> r <> ESP ->
  exists m', exec (pop_reg r) m = (Val tt, m') /\ at_state m' (put_gpr r v (put_gpr ESP (r_esp g + 4) g)) sg f p l (room + 4).
Proof.
  intros Hm Hr. unfold pop_reg. rewrite exec_bind. destruct (rule_pop _ _ _ _ _ _ _ _ Hm) as (m1 & -> & H1). by apply rule_mov.
Qed.

Lemma rule_pop_sreg s m g sg f p v l room : at_state m g sg f p (v :: l) room -> 0 <= v < 65536 -> segment_fault gdt (s_cs sg mod 4) s v = None ->
  exists m', exec (pop_sreg gdt s) m = (Val tt, m') /\ at_state m' (put_gpr ESP (r_esp g + 4) g) (put_seg s v sg) f p l (room + 4).
Proof.
  intros Hm Hv Hs. unfold pop_sreg. rewrite exec_bind. destruct (rule_pop _ _ _ _ _ _ _ _ Hm) as (m1 & -> & H1).
  rewrite Z.mod_small by done. by apply rule_load_sreg.
Qed.

Lemma rule_mov16 r v m g sg f p l room : at_state m g sg f p l room -> r <> ESP ->
  exists m', exec (mov16 r v) m = (Val tt, m') /\ at_state m' (put_gpr r (low16 (get_gpr r g) v) g) sg f p l room.
Proof. intros Hm Hr. unfold mov16. rewrite exec_bind, (rule_reg r _ _ _ _ _ _ _ Hm). by apply rule_mov. Qed.

Lemma rule_mov_to_sreg s r sel m g sg f p l room : at_state m g sg f p l room -> get_gpr r g mod 65536 = sel -> segment_fault gdt (s_cs sg mod 4) s sel = None ->
  exists m', exec (mov_to_sreg gdt s r) m = (Val tt, m') /\ at_state m' g (put_seg s sel sg) f p l room.
Proof. intros Hm <- Hs. unfold mov_to_sreg. rewrite exec_bind, (rule_reg r _ _ _ _ _ _ _ Hm). by apply rule_load_sreg. Qed.

End rules.

(** Applies a rule to the first instruction and computes the new registers. *)
Ltac tidy H :=
  cbn [get_gpr put_gpr get_seg put_seg r_eax r_ebx r_ecx r_edx r_esi r_edi r_ebp r_esp s_cs s_ds s_es s_fs s_gs s_ss] in H;
  repeat match type of H with
  | context [?x - ?n - ?n'] => let k := eval compute in (n + n') in replace (x - n - n') with (x - k) in H by lia
  | context [?x + ?n + ?n'] => let k := eval compute in (n + n') in replace (x + n + n') with (x + k) in H by lia
  | context [?x - ?n + ?n'] => let k := eval compute in (n - n') in replace (x - n + n') with (x - k) in H by lia
  end.
Ltac side := first [assumption | discriminate | lia | reflexivity | idtac].
Ltac apply_rule H rule :=
  let m := fresh "m" in let E := fresh "E" in let H' := fresh "H" in
  edestruct rule as (m & E & H'); [exact H|side ..|]; rewrite E; clear E H; rename H' into H; tidy H.
Ltac one H :=
  lazymatch goal with
  | |- context [exec (push_reg ?r)] => apply_rule H (rule_push_reg r)
  | |- context [exec (push_sreg ?s)] => apply_rule H (rule_push_sreg s)
  | |- context [exec (push ?v)] => apply_rule H (rule_push v)
  | |- context [exec (pop_reg ?r)] => apply_rule H (rule_pop_reg r)
  | |- context [exec (pop_sreg ?gdt ?s)] => apply_rule H (rule_pop_sreg gdt s)
  | |- context [exec pop _] => apply_rule H rule_pop
  | |- context [exec (mov16 ?r ?v)] => apply_rule H (rule_mov16 r v)
  end.
(** A pair of constants: the next instruction loads [sel] from AX into a data segment register. *)
Ltac load_data H sel tac :=
  rewrite exec_bind;
  lazymatch goal with |- context [exec (mov_to_sreg ?gdt ?s ?r)] =>
    let m := fresh "m" in let E := fresh "E" in let H' := fresh "H" in
    destruct (rule_mov_to_sreg gdt s r sel _ _ _ _ _ _ _ H) as (m & E & H'); [apply low16_mod; lia|tac|]; rewrite E; clear E H; rename H' into H; tidy H
  end; cbv iota.
Ltac step H := first [rewrite exec_bind; one H; cbv iota | one H].

(** The registers hold words, the segment registers selectors. *)
Definition gprs_ok (g : gprs) : Prop := forall r, is_u32 (get_gpr r g).
Definition segs_ok (sg : segregs) : Prop := forall s, 0 <= get_seg s sg < 65536.

Lemma rule_pusha m a b c d si di bp sp sg f p l room : at_state m (mk_gprs a b c d si di bp sp) sg f p l room -> gprs_ok (mk_gprs a b c d si di bp sp) -> 32 <= room ->
  exists m', exec pusha m = (Val tt, m') /\ at_state m' (mk_gprs a b c d si di bp (sp - 32)) sg f p ([di; si; bp; sp; b; d; c; a] ++ l) (room - 32).
Proof.
  intros Hm Hg Hr. pose proof (Hg EAX). pose proof (Hg EBX). pose proof (Hg ECX). pose proof (Hg EDX). pose proof (Hg ESI). pose proof (Hg EDI). pose proof (Hg EBP). pose proof (Hg ESP).
  unfold pusha. rewrite exec_bind, (rule_reg ESP _ _ _ _ _ _ _ Hm). cbn [get_gpr r_esp].
  cbn [get_gpr r_eax r_ebx r_ecx r_edx r_esi r_edi r_ebp r_esp] in *.
  do 8 step Hm. eexists. split; [reflexivity|]. cbn [app].
  exact Hm.
Qed.

Lemma rule_popa m g sg f p di si bp x b d c a l room : at_state m g sg f p ([di; si; bp; x; b; d; c; a] ++ l) room ->
  exists m', exec popa m = (Val tt, m') /\ at_state m' (mk_gprs a b c d si di bp (r_esp g + 32)) sg f p l (room + 32).
Proof.
  intros Hm. destruct g as [a0 b0 c0 d0 si0 di0 bp0 sp0]. cbn [app] in Hm. unfold popa. do 8 step Hm. eexists. split; [reflexivity|].
  exact Hm.
Qed.

Section iret.
Context (gdt : list gdt_entry_t) (status_of : Z -> Z).

(** Back to the same privilege level. *)
Lemma rule_iret m g sg f p ip csv fl l room : at_state m g sg f p (ip :: csv :: fl :: l) room -> 0 <= csv < 65536 ->
  code_fault gdt (s_cs sg mod 4) csv = None -> csv mod 4 = s_cs sg mod 4 ->
  exists m', exec (iret gdt) m = (Val tt, m') /\ at_state m' (put_gpr ESP (r_esp g + 12) g) (put_seg CS csv sg) fl ip l (room + 12).
Proof.
  intros Hm Hcs Hc Hl. unfold iret. destruct g as [a b c d si di bp sp]. do 3 step Hm. rewrite exec_bind, exec_gets. cbv iota zeta.
  unfold cpl, sregs. cbn [get_seg]. rewrite (as_segs _ _ _ _ _ _ _ Hm), (Z.mod_small csv 65536), Hc, Hl, Z.ltb_irrefl by lia.
  eexists. split; [reflexivity|]. destruct Hm as [Eg Es Ef Ep Hr Ht Hw]. split; cbn [gpregs sgregs flags pc ram]; try done. by rewrite Es.
Qed.

(** Back to a less privileged level, on its stack. *)
Lemma rule_iret_outer m g sg f p ip csv fl sp ssv l room : at_state m g sg f p (ip :: csv :: fl :: sp :: ssv :: l) room ->
  0 <= csv < 65536 -> 0 <= ssv < 65536 -> code_fault gdt (s_cs sg mod 4) csv = None -> s_cs sg mod 4 < csv mod 4 ->
  segment_fault gdt (csv mod 4) SS ssv = None ->
  exists m', exec (iret gdt) m = (Val tt, m') /\ gpregs m' = put_gpr ESP sp g /\ flags m' = fl /\ pc m' = ip /\
    sgregs m' = (let k := keep_segment gdt (csv mod 4) in mk_segregs csv (k (s_ds sg)) (k (s_es sg)) (k (s_fs sg)) (k (s_gs sg)) ssv).
Proof.
  intros Hm Hcs Hss Hc Hl Hs. unfold iret. destruct g as [a b c d si di bp sp0]. do 3 step Hm. rewrite exec_bind, exec_gets. cbv iota zeta.
  unfold cpl, sregs. cbn [get_seg]. rewrite (as_segs _ _ _ _ _ _ _ Hm), (Z.mod_small csv 65536), Hc, (proj2 (Z.ltb_lt _ _) Hl) by lia.
  do 2 step Hm. rewrite (Z.mod_small ssv 65536), Hs by lia. eexists. split; [reflexivity|]. destruct Hm as [Eg Es Ef Ep Hr Ht Hw].
  cbn [gpregs sgregs flags pc]. rewrite Eg, Es. by split_and!.
Qed.

(** ** C functions *)

(** The calling convention: a function with [args] words of arguments and at most
    [depth] bytes of stack returns behind the call with EBX, ESI, EDI, EBP, the
    segment registers and the stack above its arguments as they were. *)
Definition c_function (depth : Z) (args : nat) (fn : M cpu unit) : Prop :=
  forall m g sg f p ra l1 l room, at_state m g sg f p (ra :: l1 ++ l) room -> length l1 = args -> depth <= room ->
  exists m' eax ecx edx f' p' l1', exec fn m = (Val tt, m') /\ length l1' = args /\ is_u32 eax /\
    at_state m' (mk_gprs eax (r_ebx g) ecx edx (r_esi g) (r_edi g) (r_ebp g) (r_esp g + 4)) sg f' p' (l1' ++ l) (room + 4).

(** ** The common stub *)

(** The structure [registers] of isr.c, from its first field to [err_code]. *)
Definition registers (g : gprs) (sg : segregs) (int_no err_code : Z) : list Z :=
  [s_gs sg; s_fs sg; s_es sg; s_ds sg; r_edi g; r_esi g; r_ebp g; r_esp g; r_ebx g; r_edx g; r_ecx g; r_eax g; int_no; err_code].

(** The kernel can load the data segments of the interrupted code again. *)
Definition restorable (sg : segregs) : Prop := forall s, s <> CS -> s <> SS -> segment_fault gdt 0 s (get_seg s sg) = None.
(** The data segment of the kernel can be loaded. *)
Definition kernel_data : Prop := forall s, s <> CS -> s <> SS -> segment_fault gdt 0 s 16 = None.

Lemma exit_body m g1 sg1 f p x g sg n e l room : at_state m g1 sg1 f p (x :: registers g sg n e ++ l) room ->
  r_esp g1 = r_esp g - 52 -> s_cs sg1 = s_cs sg -> s_ss sg1 = s_ss sg -> s_cs sg mod 4 = 0 -> segs_ok sg -> restorable sg ->
  exists m' f', exec (common_exit gdt status_of) m = exec (iret gdt) m' /\ at_state m' (put_gpr ESP (r_esp g + 8) g) sg f' p l (room + 60).
Proof.
  intros Hm Hsp Hc1 Hs1 Hcs Hs Hre. destruct g as [a b c d si di bp sp], sg as [cs0 ds0 es0 fs0 gs0 ss0], g1 as [a1 b1 c1 d1 si1 di1 bp1 sp1], sg1 as [cs1 ds1 es1 fs1 gs1 ss1].
  cbn in Hc1, Hs1, Hsp, Hcs. subst.
  pose proof (Hs DS) as Hds. pose proof (Hs ES) as Hes. pose proof (Hs FS) as Hfs. pose proof (Hs GS) as Hgs.
  pose proof (Hre DS ltac:(done) ltac:(done)) as Rds. pose proof (Hre ES ltac:(done) ltac:(done)) as Res.
  pose proof (Hre FS ltac:(done) ltac:(done)) as Rfs. pose proof (Hre GS ltac:(done) ltac:(done)) as Rgs.
  rewrite <- Hcs in Rds, Res, Rfs, Rgs. cbn [get_seg s_ds s_es s_fs s_gs registers app r_edi r_esi r_ebp r_esp r_ebx r_edx r_ecx r_eax] in *.
  unfold common_exit. rewrite exec_bind. destruct (rule_add status_of _ _ _ _ _ [x] _ _ 4 Hm eq_refl) as (m1 & f1 & -> & H1). clear Hm. rename H1 into Hm. tidy Hm. cbv iota.
  do 4 step Hm.
  rewrite exec_bind. destruct (rule_popa _ _ _ _ _ _ _ _ _ _ _ _ _ _ _ Hm) as (m6 & -> & H6). clear Hm. rename H6 into Hm. cbv iota. tidy Hm.
  rewrite exec_bind. destruct (rule_add status_of _ _ _ _ _ [n; e] _ _ 8 Hm eq_refl) as (m7 & f7 & -> & H7). clear Hm. rename H7 into Hm. tidy Hm. cbv iota.
  exists m7, f7. split; [reflexivity|]. tidy Hm. cbn [put_gpr r_esp].
  replace (sp + 8) with (sp - -8) by lia. exact Hm.
Qed.

Lemma stub_body ra handler depth m g sg f p n e l room : at_state m g sg f p (n :: e :: l) room ->
  gprs_ok g -> segs_ok sg -> s_cs sg mod 4 = 0 -> kernel_data -> restorable sg -> is_u32 ra -> c_function depth 1 handler -> 0 <= depth -> 56 + depth <= room ->
  exists mc gc fc m' f' p',
    exec (common_stub gdt status_of ra handler) m = exec (handler ;; common_exit gdt status_of) mc /\ r_esp gc = r_esp g - 56 /\
    at_state mc gc (mk_segregs (s_cs sg) 16 16 16 16 (s_ss sg)) fc p (ra :: (r_esp gc + 8) :: registers g sg n e ++ l) (room - 56) /\
    exec (common_stub gdt status_of ra handler) m = exec (iret gdt) m' /\
    at_state m' (put_gpr ESP (r_esp g + 8) g) sg f' p' l (room + 8).
Proof.
  intros Hm Hg Hs Hcs Hk Hre Hra Hfn Hd Hroom. destruct g as [a b c d si di bp sp], sg as [cs0 ds0 es0 fs0 gs0 ss0]. cbn [s_cs] in Hcs.
  pose proof (Hs DS) as Hds. pose proof (Hs ES) as Hes. pose proof (Hs FS) as Hfs. pose proof (Hs GS) as Hgs. cbn [get_seg s_ds s_es s_fs s_gs] in *.
  unfold common_stub, common_entry. rewrite exec_bind, exec_bind.
  destruct (rule_pusha _ _ _ _ _ _ _ _ _ _ _ _ _ _ Hm Hg ltac:(lia)) as (m1 & -> & H1). cbn [app] in H1. clear Hm. rename H1 into Hm.
  do 5 step Hm. pose proof (as_room _ _ _ _ _ _ _ Hm) as Hsp. pose proof (as_top _ _ _ _ _ _ _ Hm) as Htop. cbn [r_esp length] in Hsp, Htop.
  do 4 load_data Hm 16 ltac:(cbn [s_cs]; rewrite Hcs; apply Hk; discriminate).
  assert (is_u32 (sp - 48)) as Husp by (unfold is_u32; lia). step Hm. unfold call. rewrite exec_bind, exec_bind. step Hm.
  destruct (Hfn _ _ _ _ _ ra [sp - 48] _ _ Hm eq_refl ltac:(lia)) as (m' & ax & cx & dx & f' & p' & l1 & E & Hl1 & _ & Hm').
  destruct l1 as [|x [|]]; [done| |done]. cbn [r_ebx r_esi r_edi r_ebp r_esp app] in Hm'.
  destruct (exit_body m' _ _ _ _ x (mk_gprs a b c d si di bp sp) (mk_segregs cs0 ds0 es0 fs0 gs0 ss0) n e l _ Hm') as (m2' & f2 & E2 & H2);
    [cbn [r_esp]; lia|done..|].
  eexists m11, (mk_gprs (low16 a 16) b c d si di bp (sp - 56)), _, m2', f2, p'. rewrite !exec_bind. split; [reflexivity|]. split; [reflexivity|].
  split; [cbn [registers r_esp]; replace (sp - 56 + 8) with (sp - 48) by lia; exact Hm|].
  rewrite E. cbv iota. split; [exact E2|]. by replace (room + 8) with (room - 56 + 4 + 60) by lia.
Qed.

(** ** Interrupts *)

(** The word of the frame in which the handler finds the error code. *)
Definition pushed_code (error_code : option Z) : Z := match error_code with Some e => e | None => 0 end.

Definition code_words (error_code : option Z) : list Z := match error_code with Some e => [e] | None => [] end.
Definition code_bytes (error_code : option Z) : Z := match error_code with Some _ => 4 | None => 0 end.

(** The end of the delivery: the error code, the gate. *)
Lemma rule_gate err m g sg f p l room : at_state m g sg f p l room -> is_u32 (pushed_code err) -> 4 <= room ->
  exists m', exec (match err with Some e => push e | None => ret tt end ;; enter_gate) m = (Val tt, m') /\
    at_state m' (put_gpr ESP (r_esp g - code_bytes err) g) (put_seg CS KERNEL_CODE_SEGMENT sg) (Z.ldiff f GATE_CLEARS) p (code_words err ++ l) (room - code_bytes err).
Proof.
  assert (forall m g sg f p l room, at_state m g sg f p l room -> exists m', exec enter_gate m = (Val tt, m') /\
    at_state m' g (put_seg CS KERNEL_CODE_SEGMENT sg) (Z.ldiff f GATE_CLEARS) p l room) as Hgate.
  { intros m0 g0 sg0 f0 p0 l0 room0 [Eg Es Ef Ep Hr Ht Hw]. eexists. split; [reflexivity|]. split; cbn [gpregs sgregs flags pc ram set_flags set_sreg]; try done; congruence. }
  intros Hm He Hroom. destruct g as [a b c d si di bp sp]. rewrite exec_bind.
  destruct err as [e|]; cbn [pushed_code code_bytes code_words app] in *.
  - one Hm. cbv iota. destruct (Hgate _ _ _ _ _ _ _ Hm) as (m1 & -> & H1). by exists m1.
  - rewrite exec_ret. cbv iota. destruct (Hgate _ _ _ _ _ _ _ Hm) as (m1 & -> & H1). exists m1. split; [reflexivity|].
    cbn [put_gpr r_esp]. by rewrite !Z.sub_0_r.
Qed.

Lemma deliver_kernel esp0 ss0 err m g sg f p l room : at_state m g sg f p l room -> s_cs sg mod 4 = 0 -> segs_ok sg -> is_u32 f -> is_u32 p ->
  is_u32 (pushed_code err) -> 16 <= room ->
  exists m', exec (deliver esp0 ss0 err) m = (Val tt, m') /\
    at_state m' (put_gpr ESP (r_esp g - 12 - code_bytes err) g) (put_seg CS KERNEL_CODE_SEGMENT sg) (Z.ldiff f GATE_CLEARS) p
      (code_words err ++ p :: s_cs sg :: f :: l) (room - 12 - code_bytes err).
Proof.
  intros Hm Hcs Hs Hf Hp He Hroom. unfold deliver. rewrite exec_bind, exec_get. cbv iota.
  pose proof Hm as [Eg Es Ef Ep _ _ _]. unfold cpl, sregs. rewrite Es, Ef, Ep. cbn [get_seg]. rewrite Hcs. cbn [Z.eqb].
  pose proof (Hs CS) as Hc. cbn [get_seg] in Hc. assert (is_u32 (s_cs sg)) as Hc' by (unfold is_u32; lia).
  destruct g as [a b c d si di bp sp]. rewrite exec_bind, exec_ret. cbv iota. do 3 step Hm.
  exact (rule_gate err _ _ _ _ _ _ _ Hm He ltac:(lia)).
Qed.

(** From user mode, on the stack of the task state segment. *)
Lemma deliver_user esp0 ss0 err m : cpl m <> 0 -> machine_ok m -> is_u32 (pc m) -> is_u32 (pushed_code err) -> 24 <= esp0 < 4294967296 -> let sg := sgregs m in
  exists m', exec (deliver esp0 ss0 err) m = (Val tt, m') /\
    at_state m' (put_gpr ESP (esp0 - 20 - code_bytes err) (gpregs m)) (mk_segregs KERNEL_CODE_SEGMENT (s_ds sg) (s_es sg) (s_fs sg) (s_gs sg) ss0)
      (Z.ldiff (flags m) GATE_CLEARS) (pc m) (code_words err ++ [pc m; s_cs sg; flags m; r_esp (gpregs m); s_ss sg]) (esp0 - 20 - code_bytes err).
Proof.
  intros Hcpl [Hg Hs Hf] Hp He Hesp sg. unfold deliver. rewrite exec_bind, exec_get. cbv iota. rewrite (proj2 (Z.eqb_neq _ _) Hcpl).
  pose proof (Hs CS) as Hc. pose proof (Hs SS) as Hs2. pose proof (Hg ESP) as Hesp0. subst sg.
  destruct m as [[a b c d si di bp sp] [cs0 ds0 es0 fs0 gs0 ss1] f p r].
  cbv [regs sregs gpregs sgregs flags pc get_gpr get_seg r_esp s_cs s_ss s_ds s_es s_fs s_gs] in Hc, Hs2, Hesp0, Hf, Hp |- *.
  assert (is_u32 cs0) as Hc' by (unfold is_u32; lia). assert (is_u32 ss1) as Hs2' by (unfold is_u32; lia).
  rewrite exec_bind, exec_bind, exec_modify. cbv iota.
  assert (at_state (set_reg ESP esp0 (set_sreg SS ss0 (mk_x86 (mk_gprs a b c d si di bp sp) (mk_segregs cs0 ds0 es0 fs0 gs0 ss1) f p r)))
    (mk_gprs a b c d si di bp esp0) (mk_segregs cs0 ds0 es0 fs0 gs0 ss0) f p [] esp0) as Hm by (split; cbn; [done..|lia|lia|done]).
  rewrite exec_bind. unfold mov. rewrite exec_modify. cbv iota. do 5 step Hm.
  exact (rule_gate err _ _ _ _ _ _ _ Hm He ltac:(lia)).
Qed.

(** The code of the vector: behind it the frame is the same with and without an
    error code of the CPU. *)
Lemma rule_vector err n ra handler m g sg f p l room : at_state m g sg f p (code_words err ++ l) room -> is_u32 n -> is_u32 (pushed_code err) -> 8 <= room ->
  exists m', exec (vector_code gdt status_of err n ra handler) m =
      exec (common_stub gdt status_of ra handler) m' /\
    at_state m' (put_gpr ESP (r_esp g - (8 - code_bytes err)) g) sg f p (n :: pushed_code err :: l) (room - (8 - code_bytes err)).
Proof.
  intros Hm Hn He Hroom. destruct g as [a b c d si di bp sp]. assert (is_u32 0) as H0 by (unfold is_u32; lia).
  destruct err as [e|]; cbn [pushed_code code_words code_bytes app] in *; unfold vector_code, ISR_ERROR, ISR_NO_ERROR.
  - step Hm. eexists. split; [reflexivity|exact Hm].
  - do 2 step Hm. eexists. split; [reflexivity|exact Hm].
Qed.

Lemma gprs_ok_esp g sp : gprs_ok g -> is_u32 sp -> gprs_ok (put_gpr ESP sp g).
Proof.
  intros Hg Hsp r. specialize (Hg r). destruct g as [a b c d si di bp sp0]. destruct r; first [exact Hg|exact Hsp].
Qed.

(** Interrupted code of the kernel goes on as if nothing had happened: the handler
    is called with a pointer to the structure [registers], and then all registers
    and the stack are what they were. *)
Lemma interrupt_kernel esp0 ss0 err n ra handler depth m g sg f p l room : at_state m g sg f p l room ->
  gprs_ok g -> segs_ok sg -> is_u32 f -> is_u32 p -> is_u32 n -> is_u32 (pushed_code err) -> is_u32 ra ->
  s_cs sg = KERNEL_CODE_SEGMENT -> code_fault gdt 0 KERNEL_CODE_SEGMENT = None -> kernel_data -> restorable sg ->
  c_function depth 1 handler -> 0 <= depth -> 76 + depth <= room ->
  exists mc gc fc m',
    exec (deliver esp0 ss0 err ;; vector_code gdt status_of err n ra handler) m = exec (handler ;; common_exit gdt status_of) mc /\ r_esp gc = r_esp g - 76 /\
    at_state mc gc (mk_segregs KERNEL_CODE_SEGMENT 16 16 16 16 (s_ss sg)) fc p (ra :: (r_esp gc + 8) :: registers (put_gpr ESP (r_esp g - 20) g) sg n (pushed_code err) ++ p :: s_cs sg :: f :: l) (room - 76) /\
    exec (deliver esp0 ss0 err ;; vector_code gdt status_of err n ra handler) m = (Val tt, m') /\ at_state m' g sg f p l room.
Proof.
  intros Hm Hg Hs Hf Hp Hn He Hra Hcs Hcode Hk Hre Hfn Hd Hroom. pose proof (as_room _ _ _ _ _ _ _ Hm) as Hr. pose proof (as_top _ _ _ _ _ _ _ Hm) as Ht.
  assert (0 <= code_bytes err <= 4) as Hcb by (destruct err; cbn; lia). rewrite exec_bind.
  destruct (deliver_kernel esp0 ss0 err m g sg f p l room Hm) as (m0 & -> & H0); [by rewrite Hcs|done..|lia|]. cbv iota.
  destruct (rule_vector err n ra handler _ _ _ _ _ _ _ H0) as (m1 & E1 & H1); [done|done|lia|].
  assert (put_seg CS KERNEL_CODE_SEGMENT sg = sg) as Esg by (destruct sg as [c0 d0 e0 f0 g0 t0]; cbn [s_cs] in Hcs; by subst).
  replace (put_gpr ESP _ _) with (put_gpr ESP (r_esp g - 20) g) in H1 by (destruct g as [a b c d si di bp sp]; cbn [put_gpr r_esp]; f_equal; lia).
  rewrite Esg in H1. replace (room - 12 - code_bytes err - (8 - code_bytes err)) with (room - 20) in H1 by lia.
  destruct (stub_body ra handler depth m1 _ sg _ _ _ _ _ _ H1) as (mc & gc & fc & m2 & f2 & p2 & Ec & Hgc & Hc & E2 & H2);
    [apply gprs_ok_esp; [done|unfold is_u32; lia]|done|by rewrite Hcs|done|done|done|done|done|lia|].
  destruct (rule_iret _ _ _ _ _ _ _ _ _ _ H2) as (m3 & E3 & H3); [exact (Hs CS)|by rewrite Hcs|done|].
  exists mc, gc, fc, m3. rewrite E1, <- E3. split; [exact Ec|]. split; [rewrite Hgc; destruct g as [a b c d si di bp sp]; cbn [put_gpr r_esp]; lia|].
  split; [rewrite Hcs in Hc at 1; by replace (room - 76) with (room - 20 - 56) by lia|]. split; [exact E2|].
  rewrite Hcs, Esg in H3. destruct g as [a b c d si di bp sp]. tidy H3. rewrite !Z.sub_0_r in H3. exact H3.
Qed.

(** Code in user mode: its selectors, and what the kernel and [iret] make of them. *)
Record user_code (m : cpu) : Prop := {
  uc_ok : machine_ok m;
  uc_pc : is_u32 (pc m);
  uc_cpl : cpl m = 3;
  uc_code : code_fault gdt 0 (sregs m CS) = None;
  uc_stack : segment_fault gdt 3 SS (sregs m SS) = None;
  uc_data : restorable (sgregs m);
  uc_keep s : s <> CS -> s <> SS -> keep_segment gdt 3 (sregs m s) = sregs m s
}.

(** Its return to where it was. *)
Lemma iret_user m0 m g f p l room : user_code m0 -> at_state m g (mk_segregs KERNEL_CODE_SEGMENT (s_ds (sgregs m0)) (s_es (sgregs m0)) (s_fs (sgregs m0)) (s_gs (sgregs m0)) l) f p
    [pc m0; s_cs (sgregs m0); flags m0; r_esp (gpregs m0); s_ss (sgregs m0)] room ->
  exists m', exec (iret gdt) m = (Val tt, m') /\ gpregs m' = put_gpr ESP (r_esp (gpregs m0)) g /\ flags m' = flags m0 /\ pc m' = pc m0 /\ sgregs m' = sgregs m0.
Proof.
  intros [[Hg Hs Hf] Hp Hc Hcode Hst Hd Hk] Hm. unfold cpl in Hc.
  destruct (rule_iret_outer _ _ _ _ _ _ _ _ _ _ _ _ Hm) as (m' & E & H1 & H2 & H3 & H4);
    [exact (Hs CS)|exact (Hs SS)|exact Hcode|change (s_cs (sgregs m0)) with (sregs m0 CS); rewrite Hc; reflexivity|change (s_cs (sgregs m0)) with (sregs m0 CS); by rewrite Hc|].
  exists m'. split_and!; [done..|]. rewrite H4. change (s_cs (sgregs m0)) with (sregs m0 CS) at 1. rewrite Hc. cbn [s_ds s_es s_fs s_gs].
  pose proof (Hk DS ltac:(done) ltac:(done)) as K1. pose proof (Hk ES ltac:(done) ltac:(done)) as K2.
  pose proof (Hk FS ltac:(done) ltac:(done)) as K3. pose proof (Hk GS ltac:(done) ltac:(done)) as K4. unfold sregs in K1, K2, K3, K4. cbn [get_seg] in *.
  cbv zeta. rewrite K1, K2, K3, K4. by destruct (sgregs m0).
Qed.

Lemma interrupt_user esp0 ss0 err n ra handler depth m : user_code m -> 0 <= ss0 < 65536 -> is_u32 n -> is_u32 (pushed_code err) -> is_u32 ra ->
  kernel_data -> c_function depth 1 handler -> 0 <= depth -> 84 + depth <= esp0 < 4294967296 ->
  exists mc gc fc m',
    exec (deliver esp0 ss0 err ;; vector_code gdt status_of err n ra handler) m = exec (handler ;; common_exit gdt status_of) mc /\ r_esp gc = esp0 - 84 /\
    at_state mc gc (mk_segregs KERNEL_CODE_SEGMENT 16 16 16 16 ss0) fc (pc m) (ra :: (r_esp gc + 8) ::
      registers (put_gpr ESP (esp0 - 28) (gpregs m)) (sgregs m) n (pushed_code err) ++
      [pc m; s_cs (sgregs m); flags m; r_esp (gpregs m); s_ss (sgregs m)]) (esp0 - 84) /\
    exec (deliver esp0 ss0 err ;; vector_code gdt status_of err n ra handler) m = (Val tt, m') /\ gpregs m' = gpregs m /\ sgregs m' = sgregs m /\ flags m' = flags m /\ pc m' = pc m.
Proof.
  intros Hu Hss Hn He Hra Hk Hfn Hd Hesp. pose proof Hu as [[Hg Hs Hf] Hp Hc _ _ Hre _].
  assert (0 <= code_bytes err <= 4) as Hcb by (destruct err; cbn; lia). rewrite exec_bind.
  destruct (deliver_user esp0 ss0 err m) as (m0 & -> & H0); [by rewrite Hc|done|done|done|lia|]. cbv iota.
  destruct (rule_vector err n ra handler _ _ _ _ _ _ _ H0) as (m1 & E1 & H1); [done|done|lia|].
  replace (put_gpr ESP _ _) with (put_gpr ESP (esp0 - 28) (gpregs m)) in H1 by (destruct (gpregs m) as [a b c d si di bp sp]; cbn [put_gpr r_esp]; f_equal; lia).
  destruct (stub_body ra handler depth m1 _ _ _ _ _ _ _ _ H1) as (mc & gc & fc & m2 & f2 & p2 & Ec & Hgc & Hmc & E2 & H2);
    [apply gprs_ok_esp; [exact Hg|unfold is_u32; lia]| |done|done| |done|done|done|lia|].
  { intros s. pose proof (Hs s). unfold sregs in *. destruct s; first [assumption|cbn; unfold KERNEL_CODE_SEGMENT; lia]. }
  { intros s H3 H4. specialize (Hre s H3 H4). destruct s; [by elim H3|exact Hre..|by elim H4]. }
  destruct (iret_user m m2 _ _ _ _ _ Hu H2) as (m' & E & Eg & Ef & Ep & Es). exists mc, gc, fc, m'. rewrite E1. split; [exact Ec|].
  split; [rewrite Hgc; destruct (gpregs m) as [a b c d si di bp sp]; cbn [put_gpr r_esp]; lia|].
  split; [by replace (esp0 - 84) with (esp0 - 20 - code_bytes err - (8 - code_bytes err) - 56) by lia|].
  rewrite E2, E. split_and!; [done| |done..]. rewrite Eg. destruct (gpregs m) as [a b c d si di bp sp]. reflexivity.
Qed.

(** ** System calls *)

(** Interrupt 0x80 from user mode: the C dispatcher is called with the five
    registers as its arguments, and the program goes on with the result in EAX
    and everything else as before. *)
Definition syscall_int (esp0 ss0 ra : Z) (syscall_dispatch : M cpu unit) : M cpu unit :=
  deliver esp0 ss0 None ;; syscall_interrupt_handler gdt status_of ra syscall_dispatch.

Lemma rule_store_top m g sg f p x l room r : at_state m g sg f p (x :: l) room -> is_u32 (get_gpr r g) ->
  exists m', exec (mov_store ESP 0 r) m = (Val tt, m') /\ at_state m' g sg f p (get_gpr r g :: l) room.
Proof.
  intros [Eg Es Ef Ep Hr Ht Hw] Hv. destruct m as [g0 sg0 f0 p0 r0]. cbn in Eg, Es, Ef, Ep, Hw. subst. cbn [length] in Ht.
  eexists. unfold mov_store, reg, store. run. unfold regs. cbn [gpregs get_gpr]. rewrite Z.add_0_r, u32_small by (unfold is_u32; lia).
  split; [reflexivity|]. split; try done. intros [|i] w Hi; cbn in Hi; cbn [ram set_ram].
  - injection Hi as <-. rewrite Z.mul_0_r, Z.add_0_r. by apply load_store_same.
  - rewrite load_store_other by lia. by rewrite (Hw (S i) w Hi).
Qed.

Lemma syscall_exit_body m0 m g f p l5 l ss0 room : user_code m0 -> length l5 = 5%nat -> is_u32 (r_eax g) -> let u := gpregs m0 in
  at_state m g (mk_segregs KERNEL_CODE_SEGMENT (s_ds (sgregs m0)) (s_es (sgregs m0)) (s_fs (sgregs m0)) (s_gs (sgregs m0)) ss0) f p
    (l5 ++ l :: [r_ebx u; r_ecx u; r_edx u; r_esi u; r_edi u; r_ebp u; pc m0; s_cs (sgregs m0); flags m0; r_esp u; s_ss (sgregs m0)]) room ->
  exists m', exec (syscall_exit gdt status_of) m = (Val tt, m') /\ gpregs m' = put_gpr EAX (r_eax g) u /\ sgregs m' = sgregs m0 /\ flags m' = flags m0 /\ pc m' = pc m0.
Proof.
  intros Hu Hl5 Hax u Hm. subst u. destruct g as [a b c d si di bp sp]. unfold syscall_exit. rewrite exec_bind.
  destruct (rule_add status_of _ _ _ _ _ l5 _ _ 20 Hm ltac:(by rewrite Hl5)) as (m1 & f1 & -> & H1). clear Hm. tidy H1. cbv iota.
  rewrite exec_bind. destruct (rule_store_top _ _ _ _ _ _ _ _ EAX H1 Hax) as (m2 & -> & Hm). clear H1. tidy Hm. cbv iota.
  do 7 step Hm. destruct (iret_user m0 _ _ _ _ _ _ Hu Hm) as (m' & E & Eg & Ef & Ep & Es). exists m'. split_and!; [exact E| |done..].
  rewrite Eg. by destruct (gpregs m0).
Qed.

End iret.

(** C15: The registers of a system call.  Interrupt 0x80 in user mode calls the C
    dispatcher with EAX, EBX, ECX, EDX and ESI as its arguments, in this order; when
    it returns by the calling convention, the program goes on behind the
    instruction with its result in EAX and every other register, segment and
    flag as before. *)
Theorem syscall_returns gdt status_of esp0 ss0 ra dispatch depth m
    (Hu : user_code gdt m) (Hss : 0 <= ss0 < 65536) (Hra : is_u32 ra) (Hfn : c_function depth 5 dispatch) (Hd : 0 <= depth) (Hesp : 72 + depth <= esp0 < 4294967296) :
  exists mc gc sgc fc l md m', let g := gpregs m in
    at_state mc gc sgc fc (pc m) (ra :: [r_eax g; r_ebx g; r_ecx g; r_edx g; r_esi g] ++ l) (esp0 - 72) /\
    exec dispatch mc = (Val tt, md) /\
    exec (syscall_int gdt status_of esp0 ss0 ra dispatch) m = (Val tt, m') /\
    gpregs m' = put_gpr EAX (regs md EAX) (gpregs m) /\ sgregs m' = sgregs m /\ flags m' = flags m /\ pc m' = pc m.
Proof.
  pose proof Hu as [[Hg Hs Hf] Hp Hc _ _ Hre _]. unfold syscall_int, syscall_interrupt_handler. rewrite exec_bind.
  destruct (deliver_user esp0 ss0 None m) as (m0 & -> & Hm); [by rewrite Hc|done|done|done|lia|]. cbv iota. cbn [code_words code_bytes app] in Hm.
  pose proof (Hg EAX) as Ha. pose proof (Hg EBX) as Hb. pose proof (Hg ECX) as Hcx. pose proof (Hg EDX) as Hdx.
  pose proof (Hg ESI) as Hsi. pose proof (Hg EDI) as Hdi. pose proof (Hg EBP) as Hbp. unfold regs in *.
  destruct (gpregs m) as [a b c d si di bp sp] eqn:Eg. cbn [get_gpr r_eax r_ebx r_ecx r_edx r_esi r_edi r_ebp r_esp] in *. tidy Hm.
  do 12 step Hm. unfold call. rewrite exec_bind, exec_bind. one Hm. cbv iota.
  destruct (Hfn _ _ _ _ _ ra [a; b; c; d; si] [a; b; c; d; si; di; bp; pc m; s_cs (sgregs m); flags m; sp; s_ss (sgregs m)] _ Hm eq_refl ltac:(lia))
    as (md & ax & cx & dx & f' & p' & l5 & E & Hl5 & Hax & Hmd). tidy Hmd.
  destruct (syscall_exit_body gdt status_of m md (mk_gprs ax b cx dx si di bp (esp0 - 68)) f' p' l5 a ss0 (esp0 - 68) Hu Hl5 Hax) as (m' & E' & Hg' & Hs' & Hf' & Hp'); [rewrite Eg; exact Hmd|].
  eexists m13, _, _, _, _, md, m'. split; [exact Hm|]. split; [exact E|]. rewrite E. cbv iota. split; [exact E'|].
  split; [rewrite Hg', Eg, (as_gprs _ _ _ _ _ _ _ Hmd); reflexivity|]. by split_and!.
Qed.

(** ** Interrupts, with the descriptors of the kernel *)

Lemma boot_kernel_data tss_addr : kernel_data (boot_gdt tss_addr).
Proof. intros s Hc Hs. destruct s; [by elim Hc|reflexivity..|by elim Hs]. Qed.

Lemma boot_restorable tss_addr sg : sg = mk_segregs 8 16 16 16 16 16 \/ sg = mk_segregs 27 35 35 35 35 35 -> restorable (boot_gdt tss_addr) sg.
Proof. intros [->| ->] s Hc Hs; (destruct s; [by elim Hc|reflexivity..|by elim Hs]). Qed.

Lemma boot_user_code tss_addr m : machine_ok m -> is_u32 (pc m) -> sgregs m = mk_segregs 27 35 35 35 35 35 -> user_code (boot_gdt tss_addr) m.
Proof.
  intros Hok Hp Hs. split; unfold cpl, sregs; rewrite ?Hs; try done; [apply boot_restorable; by right|].
  intros s Hc Hss. destruct s; [by elim Hc|reflexivity..|by elim Hss].
Qed.

(** The error code the handler sees, by the processor's manual. *)
Lemma pushed_code_of v code : v <> 21 -> v <> 29 ->
  (if bool_decide (v ∈ [8; 10; 11; 12; 13; 14; 17; 30]) then code else 0) = pushed_code (error_code v code).
Proof.
  intros H21 H29. assert (pushes_error_code v = bool_decide (v ∈ [8; 10; 11; 12; 13; 14; 17; 30])) as E.
  { apply eq_true_iff_eq. rewrite bool_decide_eq_true. unfold pushes_error_code. rewrite !elem_of_cons, elem_of_nil. lia. }
  unfold error_code. rewrite E. by case_bool_decide.
Qed.

Lemma pushed_code_ok v code : is_u32 code -> is_u32 (pushed_code (error_code v code)).
Proof. intros Hc. unfold error_code. destruct (pushes_error_code v); [done|unfold is_u32; cbn; lia]. Qed.

(** C14: Interrupts are transparent.  For every vector from 0 to 47 but the two that
    interrupt.asm takes for reserved and newer processors use (21 and 29), the stub
    in the table matches what the processor pushed: the C handler of the vector is
    called with the kernel's segments and a pointer to the structure [registers],
    which holds the vector, the error code (0 where the processor pushes none), the
    saved registers and segments, and behind them the processor's frame.  If the
    handler follows the calling convention, interrupted code of the kernel goes on
    with the same registers, segments, flags, instruction pointer and stack; a
    program in user mode, interrupted on the stack of the task state segment,
    goes on with its registers (stack pointer included), segments, flags and
    instruction pointer. *)
Theorem interrupt_transparent status_of tss_addr esp0 code v isr_return irq_return isr_handler irq_handler depth m
    (Hv : 0 <= v < 48) (H21 : v <> 21) (H29 : v <> 29) (He : is_u32 code) (Hra : is_u32 isr_return /\ is_u32 irq_return)
    (Hfn : c_function depth 1 isr_handler /\ c_function depth 1 irq_handler) (Hd : 0 <= depth) :
  let gdt := boot_gdt tss_addr in
  let run := interrupt gdt status_of isr_return irq_return isr_handler irq_handler esp0 KERNEL_DATA_SEGMENT code v in
  let handler := if v <? 32 then isr_handler else irq_handler in
  let ra := if v <? 32 then isr_return else irq_return in
  let e := if bool_decide (v ∈ [8; 10; 11; 12; 13; 14; 17; 30]) then code else 0 in
  (forall g f p l room, let sg := mk_segregs 8 16 16 16 16 16 in
    at_state m g sg f p l room -> gprs_ok g -> is_u32 f -> is_u32 p -> 76 + depth <= room ->
    exists mc gc fc m', exec run m = exec (handler ;; common_exit gdt status_of) mc /\ r_esp gc = r_esp g - 76 /\
      at_state mc gc (mk_segregs 8 16 16 16 16 16) fc p
        (ra :: (r_esp gc + 8) :: registers (put_gpr ESP (r_esp g - 20) g) sg v e ++ p :: 8 :: f :: l) (room - 76) /\
      exec run m = (Val tt, m') /\ at_state m' g sg f p l room) /\
  (machine_ok m -> is_u32 (pc m) -> sgregs m = mk_segregs 27 35 35 35 35 35 -> 84 + depth <= esp0 < 4294967296 ->
    exists mc gc fc m', exec run m = exec (handler ;; common_exit gdt status_of) mc /\ r_esp gc = esp0 - 84 /\
      at_state mc gc (mk_segregs 8 16 16 16 16 16) fc (pc m)
        (ra :: (r_esp gc + 8) :: registers (put_gpr ESP (esp0 - 28) (gpregs m)) (sgregs m) v e ++
         [pc m; 27; flags m; r_esp (gpregs m); 35]) (esp0 - 84) /\
      exec run m = (Val tt, m') /\ gpregs m' = gpregs m /\ sgregs m' = sgregs m /\ flags m' = flags m /\ pc m' = pc m).
Proof.
  cbv zeta. unfold interrupt. rewrite (vector_stub_code _ _ _ _ _ _ v code Hv H21 H29). unfold handler_of, return_of.
  rewrite (pushed_code_of v code H21 H29). set (handler := if v <? 32 then isr_handler else irq_handler). set (ra := if v <? 32 then isr_return else irq_return).
  assert (c_function depth 1 handler) as Hh by (unfold handler; destruct Hfn, (v <? 32); done).
  assert (is_u32 ra) as Hr by (unfold ra; destruct Hra, (v <? 32); done).
  assert (is_u32 v) as Hn by (unfold is_u32; lia). pose proof (pushed_code_ok v code He) as Hp0. split.
  - intros g f p l room Hm Hg Hf Hp Hroom.
    refine (interrupt_kernel (boot_gdt tss_addr) status_of esp0 KERNEL_DATA_SEGMENT (error_code v code) v ra handler depth m g
      (mk_segregs 8 16 16 16 16 16) f p l room Hm Hg _ Hf Hp Hn Hp0 Hr eq_refl eq_refl (boot_kernel_data _) _ Hh Hd Hroom).
    + intros s. destruct s; cbn; lia.
    + apply boot_restorable. by left.
  - intros Hok Hp Hs Hesp.
    pose proof (interrupt_user (boot_gdt tss_addr) status_of esp0 KERNEL_DATA_SEGMENT (error_code v code) v ra handler depth m
      (boot_user_code _ _ Hok Hp Hs) ltac:(unfold KERNEL_DATA_SEGMENT; lia) Hn Hp0 Hr (boot_kernel_data _) Hh Hd Hesp) as Hu.
    rewrite Hs in Hu |- *. exact Hu.
Qed.

(** ** Into user mode *)

Lemma rule_mov_load m g sg f p l room r off i v : at_state m g sg f p l room -> l !! i = Some v -> r <> ESP -> off = 4 * Z.of_nat i ->
  exists m', exec (mov_load r ESP off) m = (Val tt, m') /\ at_state m' (put_gpr r v g) sg f p l room.
Proof.
  intros Hm Hi Hr ->. unfold mov_load. rewrite exec_bind, (rule_reg ESP _ _ _ _ _ _ _ Hm). unfold load. cbv iota. rewrite exec_bind, exec_gets. cbv iota.
  pose proof (as_room _ _ _ _ _ _ _ Hm). pose proof (as_top _ _ _ _ _ _ _ Hm). pose proof (lookup_lt_Some _ _ _ Hi).
  rewrite u32_small by (unfold is_u32; cbn [get_gpr]; lia). cbn [get_gpr]. rewrite (as_words _ _ _ _ _ _ _ Hm i v Hi). by apply rule_mov.
Qed.

Lemma rule_flags m g sg f p l room h : at_state m g sg f p l room ->
  exists m', exec (modify (fun m => set_flags (h (flags m)) m)) m = (Val tt, m') /\ at_state m' g sg (h f) p l room.
Proof.
  intros [Eg Es Ef Ep Hr Ht Hw]. eexists. split; [reflexivity|]. split; cbn [gpregs sgregs flags pc ram set_flags]; try done; congruence.
Qed.

Lemma is_u32_ldiff x y : is_u32 x -> is_u32 (Z.ldiff x y).
Proof. rewrite !is_u32_bits. intros Hx n Hn. by rewrite Z.ldiff_spec, Hx. Qed.
Lemma is_u32_lor x y : is_u32 x -> is_u32 y -> is_u32 (Z.lor x y).
Proof. rewrite !is_u32_bits. intros Hx Hy n Hn. by rewrite Z.lor_spec, Hx, Hy. Qed.

(** [enter_usermode] with the descriptors of [gdt_init]: the CPU is at the entry
    point, on the user's stack, in the user's segments at privilege level 3, with
    interrupts on. *)
Theorem enter_usermode_enters status_of tss_addr m g sg f p ra entry stack l room
    (Hm : at_state m g sg f p (ra :: entry :: stack :: l) room) (Hcs : s_cs sg = KERNEL_CODE_SEGMENT) (Hf : is_u32 f) (He : is_u32 entry)
    (Hst : is_u32 stack) (Hroom : 20 <= room) :
  exists m', exec (enter_usermode (boot_gdt tss_addr) status_of) m = (Val tt, m') /\
    pc m' = entry /\ regs m' ESP = stack /\ sgregs m' = mk_segregs 27 35 35 35 35 35 /\ cpl m' = 3 /\ Z.testbit (flags m') 9 = true.
Proof.
  destruct g as [a b c d si di bp sp], sg as [cs0 ds0 es0 fs0 gs0 ss0]. cbn [s_cs] in Hcs. subst cs0.
  unfold enter_usermode, cli. rewrite exec_bind. destruct (rule_flags _ _ _ _ _ _ _ (fun x => Z.ldiff x 512) Hm) as (m1 & -> & H1). clear Hm. rename H1 into Hm. cbv iota.
  rewrite exec_bind. destruct (rule_mov_load _ _ _ _ _ _ _ EAX 4 1 entry Hm eq_refl ltac:(done) eq_refl) as (m2 & -> & H2). clear Hm. rename H2 into Hm. cbv iota. tidy Hm.
  rewrite exec_bind. destruct (rule_mov_load _ _ _ _ _ _ _ EBX 8 2 stack Hm eq_refl ltac:(done) eq_refl) as (m3 & -> & H3). clear Hm. rename H3 into Hm. cbv iota. tidy Hm.
  assert (is_u32 35) as H35 by (unfold is_u32; lia). assert (is_u32 27) as H27 by (unfold is_u32; lia).
  pose proof (is_u32_ldiff f 512 Hf) as Hf1. assert (is_u32 (Z.lor (Z.ldiff f 512) 512)) as Hf2 by (apply is_u32_lor; [done|unfold is_u32; lia]).
  do 2 step Hm. unfold pushfd. rewrite exec_bind, exec_bind, exec_gets. cbv iota. rewrite (as_flags _ _ _ _ _ _ _ Hm). one Hm. cbv iota. step Hm.
  unfold or_imm. rewrite exec_bind, exec_bind, (rule_reg ECX _ _ _ _ _ _ _ Hm). cbv iota. cbn [get_gpr r_ecx]. rewrite exec_bind.
  destruct (rule_mov ECX (Z.lor (Z.ldiff f 512) 512) _ _ _ _ _ _ _ Hm ltac:(done)) as (m8 & -> & H8). clear Hm. tidy H8. cbv iota. unfold alu.
  destruct (rule_flags _ _ _ _ _ _ _ (fun x => Z.lor (Z.ldiff x STATUS) (Z.land (status_of (Z.lor (Z.ldiff f 512) 512)) STATUS)) H8) as (m9 & -> & Hm). clear H8. cbv iota.
  do 4 step Hm.
  do 4 load_data Hm 35 ltac:(reflexivity).
  destruct (rule_iret_outer (boot_gdt tss_addr) _ _ _ _ _ _ _ _ _ _ _ _ Hm) as (m' & E & Hg & Hfl & Hpc & Hsg); [lia|lia|reflexivity..|].
  exists m'. unfold cpl, sregs. rewrite Hsg. split_and!; [exact E|exact Hpc| |reflexivity|reflexivity|].
  - unfold regs. by rewrite Hg.
  - rewrite Hfl, Z.lor_spec. apply orb_true_r.
Qed.

(** ** The theorems at work *)

(** A C function that does nothing but return 7. *)
Definition return_seven : M cpu unit := mov EAX 7 ;; retn.

Lemma return_seven_ok args : c_function 0 args return_seven.
Proof.
  intros m g sg f p ra l1 l room Hm Hl Hr. unfold return_seven, retn. rewrite exec_bind. destruct (rule_mov EAX 7 _ _ _ _ _ _ _ Hm ltac:(done)) as (m1 & -> & H1).
  cbv iota. rewrite exec_bind. destruct (rule_pop _ _ _ _ _ _ _ _ H1) as (m2 & -> & H2). cbv iota. rewrite exec_modify.
  destruct g as [a b c d si di bp sp]. cbn [put_gpr r_esp r_ebx r_esi r_edi r_ebp] in *.
  exists (set_pc ra m2), 7, c, d, f, ra, l1. split_and!; [done|done|unfold is_u32; lia|]. destruct H2 as [Eg Es Ef Ep Hr' Ht Hw]. by split.
Qed.

(** A program in user mode with the number of a system call in EAX. *)
Definition demo_user : cpu :=
  mk_x86 (mk_gprs 3 11 12 13 14 15 2147483000 2147482000) (mk_segregs 27 35 35 35 35 35) 514 1073741840 (fun _ => 0).

Lemma demo_user_ok : machine_ok demo_user.
Proof. split; [intros r; unfold is_u32; destruct r; cbn; lia|intros s; destruct s; cbn; lia|unfold is_u32; cbn; lia]. Qed.

Lemma syscall_returns_witness :
  exists mc gc sgc fc l md m',
    at_state mc gc sgc fc 1073741840 (65536 :: [3; 11; 12; 13; 14] ++ l) (1000000 - 72) /\
    exec return_seven mc = (Val tt, md) /\
    exec (syscall_int (boot_gdt 8192) (fun _ => 0) 1000000 16 65536 return_seven) demo_user = (Val tt, m') /\
    gpregs m' = put_gpr EAX (regs md EAX) (gpregs demo_user) /\ sgregs m' = sgregs demo_user /\ flags m' = 514 /\ pc m' = 1073741840.
Proof.
  apply (syscall_returns (boot_gdt 8192) (fun _ => 0) 1000000 16 65536 return_seven 0 demo_user).
  - apply boot_user_code; [exact demo_user_ok|unfold is_u32; cbn; lia|reflexivity].
  - lia.
  - unfold is_u32; lia.
  - apply return_seven_ok.
  - lia.
  - lia.
Defined.

Lemma interrupt_transparent_witness :
  exists m', exec (interrupt (boot_gdt 8192) (fun _ => 0) 65536 65600 return_seven return_seven 1000000 16 2 14) demo_user = (Val tt, m') /\
    gpregs m' = gpregs demo_user /\ sgregs m' = sgregs demo_user /\ flags m' = 514 /\ pc m' = 1073741840.
Proof.
  destruct (interrupt_transparent (fun _ => 0) 8192 1000000 2 14 65536 65600 return_seven return_seven 0 demo_user) as [_ Hu].
  - lia.
  - lia.
  - lia.
  - unfold is_u32; lia.
  - unfold is_u32; lia.
  - split; apply return_seven_ok.
  - lia.
  - destruct Hu as (mc & gc & fc & m' & _ & _ & _ & E); [exact demo_user_ok|unfold is_u32; cbn; lia|reflexivity|lia|].
    exists m'. exact E.
Defined.
