(* ===== verification/Syscall.v ===== *)
(** * syscall.c: the system calls

    The dispatcher and the eight calls, over the kernel and the memory the
    calling process sees.  A pointer argument is an address of that memory. *)

From S2P Require Import Prelude CString Mem Alloc Process Sched Ipc.

Definition SYSCALL_MAX := 8.

Section syscalls.
Context {H P : Type} `{KmallocOps H} `{MemoryOps P}.

Record sysstate : Type := mk_sys { sys_kernel : kernel H P; sys_mem : mem }.
Implicit Types s : sysstate.

Definition on_kernel {A} (m : M (kernel H P) A) : M sysstate A :=
  zoom sys_kernel (fun k s => mk_sys k (sys_mem s)) m.

(** The array of [n] bytes at an address, and storing one. *)
Definition read_array (m : mem) (a : Z) (n : Z) : list Z := (fun i => u8 (m (a + i))) <$> seqZ 0 n.
Definition write_array (m : mem) (a : Z) (l : list Z) : mem := fun x =>
  if (a <=? x) && (x <? a + Z.of_nat (length l)) then l !!! Z.to_nat (x - a) else m x.

Definition sys_exit (exit_code arg2 arg3 arg4 : Z) : M sysstate Z :=
  let! current := on_kernel process_current in
  (if current =? 0 then ret tt else
   let! v := on_kernel (load_pcb current) in
   kprintf (c "[SYSCALL] Process %d exiting with code %d\n") [AInt (pid v); AInt exit_code]) ;;
  on_kernel process_exit ;;
  ret 0.

(** One round of the loop: [Some tt] is the [break]. *)
Definition write_char (buffer i : Z) : M sysstate (option unit) :=
  let! m := gets sys_mem in
  let ch := u8 (m (buffer + i)) in
  if ch =? 0 then ret (Some tt) else
  screen_write [ch] ;;
  ret None.

Definition sys_write (fd buffer count arg4 : Z) : M sysstate Z :=
  if (buffer =? 0) || (count =? 0) then ret (-1) else
  for_find (seqZ 0 count) (write_char buffer) ;;
  ret (s32 count).

Definition sys_read (fd buffer count arg4 : Z) : M sysstate Z := ret 0.

Definition sys_getpid (arg1 arg2 arg3 arg4 : Z) : M sysstate Z :=
  let! current := on_kernel process_current in
  if current =? 0 then ret (-1) else
  let! v := on_kernel (load_pcb current) in
  ret (s32 (pid v)).

Definition sys_sleep (milliseconds arg2 arg3 arg4 : Z) : M sysstate Z :=
  on_kernel (process_sleep milliseconds) ;; ret 0.

Definition sys_yield (arg1 arg2 arg3 arg4 : Z) : M sysstate Z :=
  on_kernel process_yield ;; ret 0.

Definition sys_send (target_pid message length0 arg4 : Z) : M sysstate Z :=
  if (message =? 0) || (length0 =? 0) then ret (-1) else
  let! m := gets sys_mem in
  on_kernel (process_send_message target_pid (Some (read_array m message length0)) length0).

Definition sys_recv (buffer max_length sender_ptr arg4 : Z) : M sysstate Z :=
  if (buffer =? 0) || (max_length =? 0) then ret (-1) else
  let! m := gets sys_mem in
  let! r := on_kernel (process_receive_message (Some (read_array m buffer max_length)) max_length) in
  let '(result, got) := r in
  match got with
  | None => ret result
  | Some (sender, bytes) =>
      modify (fun s => mk_sys (sys_kernel s) (write_array (sys_mem s) buffer bytes)) ;;
      (if negb (sender_ptr =? 0) && (0 <? result)
       then modify (fun s => mk_sys (sys_kernel s) (store32 (sys_mem s) sender_ptr sender)) else ret tt) ;;
      ret result
  end.

Definition syscall_table : list (Z -> Z -> Z -> Z -> M sysstate Z) :=
  [sys_exit; sys_write; sys_read; sys_getpid; sys_sleep; sys_yield; sys_send; sys_recv].

Definition syscall_dispatch (syscall_num arg1 arg2 arg3 arg4 : Z) : M sysstate Z :=
  if SYSCALL_MAX <=? syscall_num then
    kprintf_color (MAKE_COLOR COLOR_RED COLOR_BLACK) (c "[SYSCALL ERROR] Invalid syscall number: %d\n") [AInt syscall_num] ;;
    ret (-1)
  else
  let! handler := defined (syscall_table !! Z.to_nat syscall_num) in
  handler arg1 arg2 arg3 arg4.

(** ** Arrays in memory *)

Lemma length_read_array m a n : 0 <= n -> Z.of_nat (length (read_array m a n)) = n.
Proof. intros Hn. unfold read_array. rewrite length_fmap, length_seqZ. lia. Qed.

Lemma read_array_take m a n k : 0 <= k <= n -> take (Z.to_nat k) (read_array m a n) = read_array m a k.
Proof.
  intros Hk. unfold read_array. rewrite <- fmap_take. f_equal. replace n with (k + (n - k)) by lia.
  rewrite seqZ_app by lia. rewrite take_app_length'; [done|]. rewrite length_seqZ. done.
Qed.

Lemma read_write_array m a l k : 0 <= k <= Z.of_nat (length l) -> Forall is_u8 l ->
  read_array (write_array m a l) a k = take (Z.to_nat k) l.
Proof.
  intros Hk Hl. apply list_eq_same_length with (n := Z.to_nat k).
  - rewrite length_take. lia.
  - unfold read_array. rewrite length_fmap, length_seqZ. done.
  - intros i x y Hi Hx Hy. rewrite lookup_take_lt in Hy by lia. unfold read_array in Hx. rewrite list_lookup_fmap, lookup_seqZ_lt in Hx by lia.
    cbn in Hx. injection Hx as <-. unfold write_array.
    rewrite (proj2 (Z.leb_le _ _)), (proj2 (Z.ltb_lt _ _)) by lia. cbn [andb].
    replace (Z.to_nat (a + (0 + Z.of_nat i) - a)) with i by lia. rewrite (list_lookup_total_correct _ _ _ Hy).
    apply u8_small. exact (proj1 (list.Forall_lookup _ _) Hl _ _ Hy).
Qed.

Lemma read_array_bytes m a n : Forall is_u8 (read_array m a n).
Proof. apply Forall_fmap, list.Forall_forall. intros i _. apply u8_range. Qed.

Lemma read_array_other m m' a n : (forall x, a <= x < a + n -> m' x = m x) -> read_array m' a n = read_array m a n.
Proof.
  intros Hx. apply list_fmap_ext. intros i x Hi. apply lookup_seqZ in Hi as [-> Hi]. rewrite Hx by lia. done.
Qed.

(** ** Writing *)

(** The text [sys_write] puts out: the bytes before the first NUL. *)
Fixpoint until_nul (l : list Z) : list Z :=
  match l with [] => [] | ch :: r => if ch =? 0 then [] else ch :: until_nul r end.

Lemma write_loop l buffer s :
  (exists r, exec (for_find l (write_char buffer)) s = (Val r, s)) /\
  output (for_find l (write_char buffer)) s = (fun ch => EvWrite [ch]) <$> until_nul ((fun i => u8 (sys_mem s (buffer + i))) <$> l).
Proof.
  induction l as [|i l [(r & IH1) IH2]]; [split; [by eexists|done]|].
  unfold for_find; fold (@for_find sysstate Z unit). cbn [fmap list_fmap until_nul].
  rewrite exec_bind, output_bind. set (ch := u8 (sys_mem s (buffer + i))).
  assert (exec (write_char buffer i) s = (Val (if ch =? 0 then Some tt else None), s) /\
    output (write_char buffer i) s = if ch =? 0 then [] else [EvWrite [ch]]) as [-> ->].
  { unfold write_char. rewrite exec_bind, output_bind, exec_gets. cbv iota zeta. fold ch. by destruct (ch =? 0). }
  destruct (ch =? 0); cbv iota; [split; [by eexists|done]|]. split; [by exists r|]. rewrite IH2. done.
Qed.

(** System call 1 with a buffer and a length puts out, one character at a time,
    exactly the bytes of the buffer before the first NUL, changes nothing, and
    returns the length it was given, also when it stopped at a NUL. *)
Theorem syscall_write_spec s (fd buffer count arg4 : Z) (Hb : buffer <> 0) (Hc : 0 < count < 4294967296) :
  exec (syscall_dispatch 1 fd buffer count arg4) s = (Val (s32 count), s) /\
  output (syscall_dispatch 1 fd buffer count arg4) s =
    (fun ch => EvWrite [ch]) <$> until_nul (read_array (sys_mem s) buffer count).
Proof.
  unfold syscall_dispatch. cbn [SYSCALL_MAX Z.leb Z.compare Pos.compare Pos.compare_cont]. change (syscall_table !! Z.to_nat 1) with (Some sys_write).
  rewrite exec_bind, output_bind, exec_defined_Some. cbv iota. unfold sys_write.
  rewrite (proj2 (Z.eqb_neq buffer 0)), (proj2 (Z.eqb_neq count 0)) by lia. cbn [orb].
  destruct (write_loop (seqZ 0 count) buffer s) as [(r & E) Ho]. rewrite exec_bind, output_bind, E. cbv iota.
  split; [done|]. cbn [app output defined]. rewrite Ho. by rewrite app_nil_r.
Qed.

(** ** Messages *)

Lemma exec_sys_send s k' target message len arg4 :
  message <> 0 -> len <> 0 ->
  exec (process_send_message target (Some (read_array (sys_mem s) message len)) len) (sys_kernel s) = (Val 0, k') ->
  exec (syscall_dispatch 6 target message len arg4) s = (Val 0, mk_sys k' (sys_mem s)).
Proof.
  intros Hm Hl E. unfold syscall_dispatch. change (SYSCALL_MAX <=? 6) with false. cbv iota.
  change (syscall_table !! Z.to_nat 6) with (Some sys_send). rewrite exec_bind, exec_defined_Some. cbv iota. unfold sys_send.
  rewrite (proj2 (Z.eqb_neq message 0) Hm), (proj2 (Z.eqb_neq len 0) Hl). cbn [orb]. rewrite exec_bind, exec_gets. cbv iota.
  unfold on_kernel. by rewrite exec_zoom, E.
Qed.

Lemma exec_sys_recv s k' buffer max sender_ptr arg4 n sender bytes :
  buffer <> 0 -> max <> 0 -> sender_ptr <> 0 -> 0 < n ->
  exec (process_receive_message (Some (read_array (sys_mem s) buffer max)) max) (sys_kernel s) = (Val (n, Some (sender, bytes)), k') ->
  exec (syscall_dispatch 7 buffer max sender_ptr arg4) s =
    (Val n, mk_sys k' (store32 (write_array (sys_mem s) buffer bytes) sender_ptr sender)).
Proof.
  intros Hb Hm Hs Hn E. unfold syscall_dispatch. change (SYSCALL_MAX <=? 7) with false. cbv iota.
  change (syscall_table !! Z.to_nat 7) with (Some sys_recv). rewrite exec_bind, exec_defined_Some. cbv iota. unfold sys_recv.
  rewrite (proj2 (Z.eqb_neq buffer 0) Hb), (proj2 (Z.eqb_neq max 0) Hm). cbn [orb]. rewrite exec_bind, exec_gets. cbv iota.
  unfold on_kernel. rewrite exec_bind, exec_zoom, E. cbv iota. rewrite exec_bind, exec_modify. cbv iota.
  rewrite (proj2 (Z.eqb_neq sender_ptr 0) Hs), (proj2 (Z.ltb_lt 0 n) Hn). cbn [negb andb].
  rewrite exec_bind, exec_modify. done.
Qed.

(** C29: A message goes from memory to memory through the system calls: after process
    [A] sent [len] bytes to a process with an empty queue, that process, when it
    runs, receives them in its buffer, cut at the size of the buffer, with the
    pid of [A] at [sender_ptr] and the number of bytes as result. *)
Theorem syscall_send_recv s (m2 : mem) (target p : Z) (v va : process_t) (q : message_queue_t)
    (message len buffer max sender_ptr : Z)
    (Ht : table_ok (sys_kernel s)) (Hp : lookup_pid (sys_kernel s) target = p) (Hp0 : p <> 0)
    (Ev : procs (sys_kernel s) !! p = Some v) (Hq0 : msg_queue v <> 0)
    (Eq : queues (sys_kernel s) !! msg_queue v = Some q) (Hq : queue_ok q) (Hempty : q_count q = 0)
    (Ha0 : current_process (sys_kernel s) <> 0)
    (Ha : procs (sys_kernel s) !! current_process (sys_kernel s) = Some va) (Hpid : is_u32 (pid va))
    (Hmsg : message <> 0) (Hlen : 0 < len <= 256)
    (Hbuf : buffer <> 0) (Hmax : 0 < max) (Hsp : sender_ptr <> 0)
    (Hdis : sender_ptr + 4 <= buffer \/ buffer + max <= sender_ptr) :
  exists s1 s2, exec (syscall_dispatch 6 target message len 0) s = (Val 0, s1) /\
    exec (syscall_dispatch 7 buffer max sender_ptr 0) (mk_sys (set_current p (sys_kernel s1)) m2) = (Val (Z.min len max), s2) /\
    read_array (sys_mem s2) buffer (Z.min len max) = read_array (sys_mem s) message (Z.min len max) /\
    load32 (sys_mem s2) sender_ptr = pid va.
Proof.
  set (k := sys_kernel s) in *. set (msg := read_array (sys_mem s) message len).
  assert (Z.of_nat (length msg) = len) as Hml by (apply length_read_array; lia).
  destruct (exec_send k target p v q msg len Ht Hp Hp0 Ev Hq0 Eq Hq ltac:(lia) (or_intror (ex_intro _ _ Ha)) Hlen ltac:(lia))
    as (k1 & q' & E1 & Eqs & Hq' & Hcont & Hv & _ & _ & Hk1).
  exists (mk_sys k1 (sys_mem s)). assert (Hnn : len <> 0) by lia. pose proof (exec_sys_send s k1 target message len 0 Hmsg Hnn E1) as Es.
  set (k2 := set_current p k1). set (buf := read_array m2 buffer max).
  assert (contents q = []) as E0 by (unfold contents; by rewrite Hempty). rewrite E0 in Hcont. cbn [app] in Hcont.
  assert (sender_pid k = pid va) as Hsend by (unfold sender_pid; rewrite (proj2 (Z.eqb_neq _ 0) Ha0), Ha; done).
  assert (length (take (Z.to_nat len) msg) = Z.to_nat len) as Htl by (rewrite length_take; lia).
  pose proof (exec_receive k2 (Ipc.woken v) q' buf max) as Hr. rewrite Hcont in Hr. cbv zeta iota beta in Hr. rewrite Htl, Z2Nat.id in Hr by lia.
  destruct Hr as (q2 & E2 & _).
  { done. } { exact Hv. } { unfold Ipc.woken. by destruct (_ && _). }
  { replace (msg_queue (Ipc.woken v)) with (msg_queue v) by (unfold Ipc.woken; by destruct (_ && _)).
    change (queues k2) with (queues k1). rewrite Eqs. apply lookup_insert_eq. }
  { done. } { unfold buf. rewrite length_read_array by lia. lia. }
  set (n := Z.min len max) in *. assert (0 < n <= len /\ n <= max) as Hn by lia.
  rewrite take_take, Nat.min_l in E2 by lia.
  assert (Hmx : max <> 0) by lia. assert (Hn0 : 0 < n) by lia.
  pose proof (exec_sys_recv (mk_sys k2 m2) _ buffer max sender_ptr 0 n _ _ Hbuf Hmx Hsp Hn0 E2) as Er.
  eexists. split; [exact Es|]. split; [exact Er|]. cbn [sys_mem sys_kernel].
  assert (Forall is_u8 (take (Z.to_nat n) msg ++ drop (Z.to_nat n) buf)) as Hby.
  { apply Forall_app. split; [apply Forall_take|apply Forall_drop]; apply read_array_bytes. }
  split.
  - rewrite (read_array_other (write_array m2 buffer (take (Z.to_nat n) msg ++ drop (Z.to_nat n) buf))).
    2: { intros x Hx. apply store32_other. lia. }
    rewrite read_write_array; [|rewrite length_app, length_take; lia|done].
    rewrite take_app_length' by (rewrite length_take; lia). unfold msg. apply read_array_take. lia.
  - rewrite Hsend. by apply load_store_same.
Qed.

(** ** Other calls *)

Lemma syscall_invalid s num a1 a2 a3 a4 : 8 <= num -> exec (syscall_dispatch num a1 a2 a3 a4) s = (Val (-1), s).
Proof. intros Hn. unfold syscall_dispatch. rewrite (proj2 (Z.leb_le _ _)) by (unfold SYSCALL_MAX; lia). by run. Qed.

End syscalls.

(** ** The theorems at work *)

Definition demo_sys : sysstate (H := unit) (P := unit) :=
  mk_sys demo_ipc (write_array (fun _ => 0) 1000 [104; 105]).

Lemma syscall_write_spec_witness :
  exec (syscall_dispatch 1 1 1000 9 0) demo_sys = (Val 9, demo_sys) /\
  output (syscall_dispatch 1 1 1000 9 0) demo_sys = [EvWrite [104]; EvWrite [105]].
Proof. apply (syscall_write_spec demo_sys 1 1000 9 0); lia. Defined.

Lemma syscall_send_recv_witness :
  exists s1 s2, exec (syscall_dispatch 6 1 1000 2 0) demo_sys = (Val 0, s1) /\
    exec (syscall_dispatch 7 2000 10 3000 0) (mk_sys (set_current 200 (sys_kernel s1)) (fun _ => 0)) = (Val 2, s2) /\
    read_array (sys_mem s2) 2000 2 = [104; 105] /\ load32 (sys_mem s2) 3000 = 1.
Proof.
  apply (syscall_send_recv demo_sys (fun _ => 0) 1 200 (demo_pcb 1 200 5 900) (demo_pcb 1 200 5 900) empty_queue 1000 2 2000 10 3000 demo_ipc_ok).
  1-5: first [reflexivity | discriminate].
  1: exact empty_queue_ok.
  1-3: first [reflexivity | discriminate].
  1: (unfold is_u32; cbn; lia).
  all: lia.
Defined.
