(* ===== verification/ShellLine.v ===== *)
(** * shell.c: the command line with tab completion

    [shell_get_line] is the line editor of keyboard.c with one more key, the tab,
    which completes the line to one of the commands of the shell. *)

From S2P Require Import Prelude CString Screen Keyboard.

(** [available_commands], without the NULL at its end. *)
Definition available_commands : list (list Z) :=
  [c "help"; c "clear"; c "cls"; c "about"; c "ver"; c "mem"; c "meminfo"; c "memtest"; c "ps"; c "testproc";
   c "sleeptest"; c "nice"; c "kill"; c "ipctest"; c "syscalltest"; c "usermodetest"; c "echo"; c "color"; c "uptime";
   c "history"; c "banner"; c "ramdisk"; c "rdformat"; c "rdinfo"; c "fsformat"; c "ls"; c "cat"; c "touch"; c "rm";
   c "mkdir"; c "write"].

Definition shell_prompt : M screen unit :=
  screen_write_color (Some (c "wittche")) (MAKE_COLOR COLOR_GREEN COLOR_BLACK) ;;
  screen_write_color (Some (c "> ")) (MAKE_COLOR COLOR_LIGHT_GREY COLOR_BLACK).

(** [while (n < strlen(a) && n < strlen(b) && a[n] == b[n]) n++;] *)
Fixpoint common_length (a b : list Z) : nat :=
  match a, b with
  | x :: a', y :: b' => if x =? y then S (common_length a' b') else O
  | _, _ => O
  end.

(** One command of the table: [matches], [match] (which is [common_prefix] too)
    and [common_len]. *)
Definition tab_round (buffer : list Z) (i : nat) (st : nat * list Z * nat) : M screen (nat * list Z * nat + unit) :=
  let '(matches, match0, common_len) := st in
  let cmd := available_commands !!! i in
  let! b := defined (str_starts_with (cmd ++ [0]) buffer) in
  if negb b then ret (inl st) else
  let matches := S matches in
  if (matches =? 1)%nat then ret (inl (matches, cmd, length cmd))
  else if (matches =? 2)%nat then
    let prev := available_commands !!! (i - 1)%nat in
    screen_write (Some (c "\n")) ;;
    screen_write (Some prev) ;;
    screen_write (Some (c "  ")) ;;
    screen_write (Some cmd) ;;
    ret (inl (matches, match0, common_length prev cmd))
  else
    screen_write (Some (c "  ")) ;;
    screen_write (Some cmd) ;;
    ret (inl (matches, match0, common_len)).

(** [for (i = from; i < to; i++) { buffer[i] = src[i]; screen_putchar(src[i]); }] *)
Definition complete (src : list Z) (from to : nat) (buffer : list Z) : M screen (list Z) :=
  let! r := for_state (seq from (to - from)) (fun i buffer =>
    let! ch := defined (src !! i) in
    let! buffer := defined (store_at buffer i ch) in
    screen_putchar ch ;;
    ret (inl buffer : list Z + unit)) buffer in
  ret (match r with inl b => b | inr _ => buffer end).

(** The buffer and the result, the new length of the line. *)
Definition handle_tab_completion (buffer : list Z) (length0 : nat) (max_length : Z) : M screen (list Z * nat) :=
  let! r := for_state (seq 0 (length available_commands)) (tab_round buffer) (0%nat, [], 0%nat) in
  match r with
  | inr _ => ret (buffer, length0)
  | inl (matches, match0, common_len) =>
      if (matches =? 0)%nat then ret (buffer, 0%nat)
      else if (matches =? 1)%nat then
        let match_len := length match0 in
        if Z.of_nat match_len <? max_length - 1 then
          let! buffer := complete match0 length0 match_len buffer in
          let! buffer := defined (store_at buffer match_len 32) in
          screen_putchar 32 ;;
          ret (buffer, (match_len + 1)%nat)
        else ret (buffer, length0)
      else
        screen_write (Some (c "\n")) ;;
        shell_prompt ;;
        if (length0 <? common_len)%nat && (Z.of_nat common_len <? max_length - 1) then
          let! buffer := complete match0 0 common_len buffer in
          ret (buffer, common_len)
        else
          put_line buffer length0 ;;
          ret (buffer, length0)
  end.

(** [input] are the characters the keyboard delivers. *)
Fixpoint shell_line_loop (max_length : Z) (input : list Z) (start_row start_col : Z) (st : list Z * nat * nat)
    : M screen (list Z * list Z) :=
  match input with
  | [] => stop_with Halted
  | ch :: rest =>
      let '(buffer, length0, cursor) := st in
      if ch =? 10 then
        let! buffer := defined (store_at buffer length0 0) in
        screen_putchar 10 ;;
        ret (buffer, rest)
      else if ch =? 9 then
        let! '(buffer, new_length) := handle_tab_completion buffer length0 max_length in
        let! start_col := screen_get_cursor_col in
        let! start_row := screen_get_cursor_row in
        shell_line_loop max_length rest start_row start_col (buffer, new_length, new_length)
      else
        let! st' := edit_round start_row start_col max_length ch st in
        shell_line_loop max_length rest start_row start_col st'
  end.

Definition shell_get_line (input : list Z) (buffer : list Z) (max_length : Z) : M screen (list Z * list Z) :=
  let! start_col := screen_get_cursor_col in
  let! start_row := screen_get_cursor_row in
  shell_line_loop max_length input start_row start_col (buffer, 0%nat, 0%nat).

(** ** Prefixes *)

(** [p] is a prefix of [s]. *)
Fixpoint begins (p s : list Z) : bool :=
  match p, s with
  | [], _ => true
  | x :: p', y :: s' => (y =? x) && begins p' s'
  | _ :: _, [] => false
  end.

Lemma begins_spec p s : begins p s = true <-> exists r, s = p ++ r.
Proof.
  revert s. induction p as [|x p IH]; intros s; cbn [begins].
  - split; [by exists s|done].
  - destruct s as [|y s]; [split; [done|by intros (r & ?)]|]. rewrite andb_true_iff, Z.eqb_eq, IH. split.
    + intros [-> (r & ->)]. by exists r.
    + intros (r & E). injection E as -> ->. split; [done|]. by exists r.
Qed.

(** The bytes of an array before its first NUL, or all of them. *)
Definition upto_nul (b : list Z) : list Z := default b (cstring b).

Lemma upto_nul_cons ch b : upto_nul (ch :: b) = if ch =? 0 then [] else ch :: upto_nul b.
Proof.
  unfold upto_nul, cstring. cbn [scan]. destruct (ch =? 0); cbn [negb]; [done|].
  destruct (scan _ b) as [k|]; done.
Qed.

Lemma upto_nul_nonzero b : Forall (fun ch => ch <> 0) (upto_nul b).
Proof.
  induction b as [|ch b IH]; [constructor|]. rewrite upto_nul_cons. destruct (Z.eqb_spec ch 0); by constructor.
Qed.

(** The comparison of [handle_tab_completion] reads inside both arrays and
    compares with the text the buffer holds. *)
Lemma starts_with_begins cmd b : Forall (fun ch => ch <> 0) cmd -> (length cmd < length b)%nat ->
  str_starts_with (cmd ++ [0]) b = Some (begins (upto_nul b) cmd).
Proof.
  revert b. induction cmd as [|x cmd IH]; intros [|q b] Hc Hb; cbn [length] in Hb; try lia;
    cbn [app str_starts_with]; rewrite upto_nul_cons; destruct (Z.eqb_spec q 0) as [->|Hq]; try done.
  - cbn [begins]. by rewrite (proj2 (Z.eqb_neq 0 q)).
  - cbn [begins]. inversion_clear Hc. destruct (x =? q); cbn [andb]; [|done]. apply IH; [done|lia].
Qed.

Lemma common_length_le a b : (common_length a b <= length a)%nat.
Proof. revert b. induction a as [|x a IH]; intros [|y b]; cbn; try lia. destruct (x =? y); [specialize (IH b)|]; lia. Qed.

(** A text that does not begin with [p] shares less than [p] with one that does. *)
Lemma common_length_lt p a b : begins p a = false -> begins p b = true -> (common_length a b < length p)%nat.
Proof.
  revert a b. induction p as [|x p IH]; intros [|y a] [|z b]; cbn; try done; try lia.
  intros Ha Hb. apply andb_true_iff in Hb as [->%Z.eqb_eq Hb]. destruct (Z.eqb_spec y x) as [->|]; [|lia].
  cbn [andb] in Ha. specialize (IH a b Ha Hb). lia.
Qed.

(** ** The search *)

Lemma commands_ok i : (i < 31)%nat ->
  Forall (fun ch => ch <> 0) (available_commands !!! i) /\ (length (available_commands !!! i) <= 12)%nat.
Proof.
  intros Hi. assert (Forall (fun cmd => Forall (fun ch => ch <> 0) cmd /\ (length cmd <= 12)%nat) available_commands) as H.
  { unfold available_commands. repeat apply Forall_cons_2; try apply Forall_nil_2; (split; [repeat constructor; discriminate|cbn; lia]). }
  apply (proj1 (list.Forall_lookup _ _) H i). apply list_lookup_lookup_total_lt. exact Hi.
Qed.

(** The commands that begin with [p], in the order of the table. *)
Definition matching (k : nat) (p : list Z) : list (list Z) := List.filter (begins p) (take k available_commands).

Lemma matching_S k p : (k < 31)%nat ->
  matching (S k) p = matching k p ++ if begins p (available_commands !!! k) then [available_commands !!! k] else [].
Proof.
  intros Hk. unfold matching. rewrite (take_S_r _ _ (available_commands !!! k)) by (by apply list_lookup_lookup_total_lt).
  rewrite List.filter_app. done.
Qed.

Lemma matching_begins k p x : List.In x (matching k p) -> begins p x = true.
Proof. unfold matching. rewrite List.filter_In. by intros [_ ?]. Qed.

(** After [k] commands: how many match, the first one, and the length that is
    completed to. *)
Definition tab_inv (p : list Z) (k : nat) (st : nat * list Z * nat) : Prop :=
  let '(matches, match0, common_len) := st in
  matches = length (matching k p) /\
  (forall x l, matching k p = x :: l -> match0 = x) /\
  (matches = 1%nat -> common_len = length match0) /\
  ((2 <= matches)%nat -> (common_len <= length match0)%nat).

Lemma exec_screen_put str s : screen_ok s -> exists s', exec (screen_write (Some str)) s = (Val tt, s') /\ screen_ok s'.
Proof. intros Hs. exact (screen_run_ok (Write (Some str)) s Hs). Qed.

Lemma exec_putc ch s : screen_ok s -> exists s', exec (screen_putchar ch) s = (Val tt, s') /\ screen_ok s'.
Proof. intros Hs. exact (screen_run_ok (Putchar ch) s Hs). Qed.

Lemma exec_tab_round b k st s : (12 < length b)%nat -> (k < 31)%nat -> screen_ok s -> tab_inv (upto_nul b) k st ->
  exists st' s', exec (tab_round b k st) s = (Val (inl st'), s') /\ screen_ok s' /\ tab_inv (upto_nul b) (S k) st'.
Proof.
  intros Hb Hk Hs Hinv. destruct st as [[m f] cl]. destruct Hinv as (Hm & Hf & H1 & H2).
  destruct (commands_ok k Hk) as [Hnz Hlen]. unfold tab_round. set (cmd := available_commands !!! k) in *. set (p := upto_nul b) in *.
  rewrite starts_with_begins by (done || lia). fold p. rewrite exec_bind, exec_defined_Some. cbv iota.
  pose proof (matching_S k p Hk) as HS. fold cmd in HS. destruct (begins p cmd) eqn:Ebeg; cbn [negb].
  2: { rewrite app_nil_r in HS. eexists _, s. split; [done|]. split; [done|]. unfold tab_inv. by rewrite HS. }
  assert (length (matching (S k) p) = S m) as Hm' by (rewrite HS, length_app; cbn; lia).
  cbv zeta. destruct m as [|[|m]]; cbn [Nat.eqb].
  - eexists _, s. split; [done|]. split; [done|]. destruct (matching k p) as [|x l]; [|done].
    unfold tab_inv. rewrite Hm', HS. split_and!; [done|by intros x l [= -> _]|done|lia].
  - destruct (exec_screen_put (c "\n") s Hs) as (s1 & E1 & Hs1).
    destruct (exec_screen_put (available_commands !!! (k - 1)%nat) s1 Hs1) as (s2 & E2 & Hs2).
    destruct (exec_screen_put (c "  ") s2 Hs2) as (s3 & E3 & Hs3). destruct (exec_screen_put cmd s3 Hs3) as (s4 & E4 & Hs4).
    rewrite exec_bind, E1. cbv iota. rewrite exec_bind, E2. cbv iota. rewrite exec_bind, E3. cbv iota. rewrite exec_bind, E4. cbv iota.
    eexists _, s4. split; [done|]. split; [done|]. unfold tab_inv. rewrite Hm'. split_and!; [done| |done|].
    + intros x l E. destruct (matching k p) as [|x' l']; [done|]. rewrite HS in E. injection E as <- _. by apply (Hf x' l').
    + intros _. destruct (matching k p) as [|x [|? ?]] eqn:Em; [done| |done]. pose proof (Hf x [] eq_refl) as ->.
      destruct (decide (k = 0%nat)) as [->|Hk0]; [done|].
      assert (begins p x = true) as Hx.
      { apply (matching_begins k). rewrite Em. by left. }
      destruct (begins p (available_commands !!! (k - 1)%nat)) eqn:Eprev.
      * pose proof (matching_S (k - 1) p ltac:(lia)) as HS1. rewrite Eprev in HS1. replace (S (k - 1)) with k in HS1 by lia.
        rewrite Em in HS1. destruct (matching (k - 1) p) as [|? [|? ?]]; [|done|done]. injection HS1 as ->. apply common_length_le.
      * pose proof (common_length_lt p _ cmd Eprev Ebeg). apply begins_spec in Hx as (r & ->). rewrite length_app. lia.
  - destruct (exec_screen_put (c "  ") s Hs) as (s1 & E1 & Hs1). destruct (exec_screen_put cmd s1 Hs1) as (s2 & E2 & Hs2).
    rewrite exec_bind, E1. cbv iota. rewrite exec_bind, E2. cbv iota.
    eexists _, s2. split; [done|]. split; [done|]. unfold tab_inv. rewrite Hm'. split_and!; [done| |done|].
    + intros x l E. destruct (matching k p) as [|x' l']; [done|]. rewrite HS in E. injection E as <- _. by apply (Hf x' l').
    + intros _. apply H2. lia.
Qed.

Lemma exec_tab_search b s : (12 < length b)%nat -> screen_ok s ->
  exists st s', exec (for_state (seq 0 (length available_commands)) (tab_round b) (0%nat, [], 0%nat)) s = (Val (inl st), s') /\
    screen_ok s' /\ tab_inv (upto_nul b) 31 st.
Proof.
  intros Hb Hs.
  destruct (exec_for_state_seq (fun k st s => screen_ok s /\ tab_inv (upto_nul b) k st) (tab_round b) 0 31 (0%nat, [], 0%nat) s)
    as (st & s' & E & Hs' & Hi).
  - split; [done|]. unfold tab_inv. split_and!; [done|done|done|lia].
  - intros k st s1 Hk [Hs1 Hi]. destruct (exec_tab_round b k st s1 Hb ltac:(lia) Hs1 Hi) as (st' & s2 & E & Hs2 & Hi').
    by exists st', s2.
  - by exists st, s'.
Qed.

(** ** The completion *)

Lemma exec_complete src from to b s : (to <= length src)%nat -> (to <= length b)%nat -> screen_ok s ->
  exists b' s', exec (complete src from to b) s = (Val b', s') /\ screen_ok s' /\ length b' = length b /\
    ((from <= to)%nat -> take to b' = take from b ++ drop from (take to src)).
Proof.
  intros Hs Hb Hok. unfold complete. rewrite exec_bind.
  destruct (exec_for_state_seq (B := unit) (fun i b1 s1 => screen_ok s1 /\ length b1 = length b /\
      forall j, b1 !!! j = if decide (from <= j < i)%nat then src !!! j else b !!! j)
    (fun i buffer => let! ch := defined (src !! i) in
      let! buffer := defined (store_at buffer i ch) in
      screen_putchar ch ;; ret (inl buffer)) from (to - from) b s) as (b' & s' & E & Hs' & Hl & Hlk).
  - split_and!; [done|done|]. intros j. by rewrite decide_False by lia.
  - intros i b1 s1 Hi (Hs1 & Hl1 & Hlk1). rewrite (list_lookup_lookup_total_lt src i) by lia.
    rewrite exec_bind, exec_defined_Some. cbv iota. rewrite store_at_in by lia. rewrite exec_bind, exec_defined_Some. cbv iota.
    destruct (exec_putc (src !!! i) s1 Hs1) as (s2 & E2 & Hs2). rewrite exec_bind, E2. cbv iota. eexists _, s2. split; [done|].
    rewrite length_insert. split_and!; [done|done|]. intros j. destruct (decide (j = i)) as [->|Hne].
    + rewrite list_lookup_total_insert_eq by lia. by rewrite decide_True by lia.
    + rewrite list_lookup_total_insert_ne, Hlk1 by done.
      destruct (decide (from <= j < i)%nat); [by rewrite decide_True by lia|by rewrite decide_False by lia].
  - rewrite E. cbv iota. rewrite exec_ret. exists b', s'. split_and!; [done|done|done|]. intros Hft.
    assert (length (take from b ++ drop from (take to src)) = to) as Hlen by (rewrite length_app, length_drop, !length_take; lia).
    rewrite <- (take_ge (take from b ++ drop from (take to src)) to) by lia.
    apply take_eq; [lia|lia|]. intros j Hj. rewrite Hlk. case_decide.
    + rewrite lookup_total_app_r by (rewrite length_take; lia).
      rewrite lookup_total_drop, lookup_total_take_lt by (rewrite length_take; lia). f_equal. rewrite length_take. lia.
    + rewrite lookup_total_app_l by (rewrite length_take; lia). symmetry. apply lookup_total_take_lt. lia.
Qed.

Lemma exec_prompt s : screen_ok s -> exists s', exec shell_prompt s = (Val tt, s') /\ screen_ok s'.
Proof.
  intros Hs. unfold shell_prompt. rewrite exec_bind.
  destruct (screen_run_ok (WriteColor (Some (c "wittche")) (MAKE_COLOR COLOR_GREEN COLOR_BLACK)) s Hs) as (s1 & E1 & H1).
  change (MAKE_COLOR COLOR_GREEN COLOR_BLACK) with (u8 (MAKE_COLOR COLOR_GREEN COLOR_BLACK)). cbn [screen_run] in E1. rewrite E1. cbv iota.
  exact (screen_run_ok (WriteColor (Some (c "> ")) (MAKE_COLOR COLOR_LIGHT_GREY COLOR_BLACK)) s1 H1).
Qed.

(** The tab never leaves the buffer, and the line it returns still has room for
    its end. *)
Lemma exec_tab b n max s :
  (12 < length b)%nat -> max <= Z.of_nat (length b) -> 0 < max -> Z.of_nat n <= max - 1 -> screen_ok s ->
  exists b' n' s', exec (handle_tab_completion b n max) s = (Val (b', n'), s') /\ screen_ok s' /\
    length b' = length b /\ Z.of_nat n' <= max - 1 /\
    (matching 31 (upto_nul b) = [] -> b' = b /\ n' = 0%nat) /\
    (forall cmd, matching 31 (upto_nul b) = [cmd] -> upto_nul b = take n b -> Z.of_nat (length cmd) < max - 1 ->
       n' = S (length cmd) /\ take n' b' = cmd ++ [32]).
Proof.
  intros Hb Hmb Hm0 Hn Hs. unfold handle_tab_completion.
  destruct (exec_tab_search b s Hb Hs) as ([[m f] cl] & s1 & E1 & Hs1 & Hm & Hf & _ & H2).
  rewrite exec_bind, E1. cbv iota. destruct m as [|[|m]]; cbn [Nat.eqb].
  - rewrite exec_ret. exists b, 0%nat, s1. split_and!; try done; [lia|]. intros cmd E. by rewrite E in Hm.
  - destruct (matching 31 (upto_nul b)) as [|x [|? ?]] eqn:Em; [done| |done]. pose proof (Hf x [] eq_refl) as ->. clear Hf.
    destruct (Z.ltb_spec (Z.of_nat (length x)) (max - 1)) as [Hlt|Hge].
    2: { rewrite exec_ret. exists b, n, s1. split_and!; try done. intros cmd [= <-] _ Hc. lia. }
    destruct (exec_complete x n (length x) b s1) as (b' & s2 & E2 & Hs2 & Hl2 & Ht2); [lia|lia|done|].
    rewrite exec_bind, E2. cbv iota. rewrite store_at_in by lia. rewrite exec_bind, exec_defined_Some. cbv iota.
    destruct (exec_putc 32 s2 Hs2) as (s3 & E3 & Hs3). rewrite exec_bind, E3. cbv iota. rewrite exec_ret.
    eexists _, _, s3. split; [done|]. rewrite length_insert. split_and!; [done|done|lia|done|].
    intros cmd [= <-] Hup _. split; [lia|].
    assert (begins (upto_nul b) x = true) as Hx.
    { apply (matching_begins 31). rewrite Em. by left. }
    apply begins_spec in Hx as (r & Er). assert (n <= length x)%nat as Hnx.
    { rewrite Er, length_app, Hup, length_take. lia. }
    replace (length x + 1)%nat with (S (length x)) by lia. rewrite (take_S_r _ _ 32) by (apply list_lookup_insert_eq; lia).
    rewrite take_insert by lia. rewrite Ht2 by done. f_equal.
    rewrite (take_ge x) by lia. rewrite <- Hup. clear -Er Hup Hn Hmb Hm0. assert (length (upto_nul b) = n) as Hl by (rewrite Hup, length_take; lia).
    rewrite decide_False by lia. subst x. by rewrite (drop_app_length' _ _ _ (eq_sym Hl)).
  - destruct (exec_screen_put (c "\n") s1 Hs1) as (s2 & E2 & Hs2). destruct (exec_prompt s2 Hs2) as (s3 & E3 & Hs3).
    rewrite exec_bind, E2. cbv iota. rewrite exec_bind, E3. cbv iota.
    assert (forall X : Prop, matching 31 (upto_nul b) = [] -> X) as Hno by (intros X E; by rewrite E in Hm).
    assert (forall (X : Prop) cmd, matching 31 (upto_nul b) = [cmd] -> X) as Hno1 by (intros X cmd E; by rewrite E in Hm).
    destruct ((n <? cl)%nat && (Z.of_nat cl <? max - 1)) eqn:Ec.
    + apply andb_true_iff in Ec as [Ec1%Nat.ltb_lt Ec2%Z.ltb_lt]. specialize (H2 ltac:(lia)).
      destruct (exec_complete f 0 cl b s3) as (b' & s4 & E4 & Hs4 & Hl4 & _); [lia|lia|done|].
      rewrite exec_bind, E4. cbv iota. rewrite exec_ret. exists b', cl, s4. split_and!; [done|done|done|lia| |].
      * intros E. by apply Hno.
      * intros cmd E. by apply (Hno1 _ cmd).
    + destruct (exec_put_line b n s3 ltac:(lia) Hs3) as (s4 & E4 & Hs4).
      rewrite exec_bind, E4. cbv iota. rewrite exec_ret. exists b, n, s4. split_and!; [done|done|done|lia| |].
      * intros E. by apply Hno.
      * intros cmd E. by apply (Hno1 _ cmd).
Qed.

(** ** The theorems *)

(** Tab completes: when the buffer holds the line and exactly one command
    begins with it, the tab turns the line into that command followed by a blank. *)
Theorem tab_completes (b : list Z) (n : nat) (max : Z) (s : screen) (cmd : list Z)
    (Hb : (12 < length b)%nat) (Hmax : 15 <= max <= Z.of_nat (length b)) (Hn : Z.of_nat n <= max - 1) (Hs : screen_ok s)
    (Hline : upto_nul b = take n b) (Hone : List.filter (begins (take n b)) available_commands = [cmd]) :
  exists b' s', exec (handle_tab_completion b n max) s = (Val (b', S (length cmd)), s') /\
    take (S (length cmd)) b' = cmd ++ [32] /\ screen_ok s' /\ length b' = length b.
Proof.
  assert (matching 31 (upto_nul b) = [cmd]) as Hm by (rewrite Hline; exact Hone).
  destruct (exec_tab b n max s Hb ltac:(lia) ltac:(lia) Hn Hs) as (b' & n' & s' & E & Hs' & Hl & _ & _ & Huniq).
  assert (length cmd <= 12)%nat as Hlen.
  { assert (List.In cmd available_commands) as Hin.
    { apply (List.filter_In (begins (take n b))). rewrite Hone. by left. }
    apply list_elem_of_In, list_elem_of_lookup in Hin as (i & Hi). pose proof (lookup_lt_Some _ _ _ Hi) as Hlt.
    rewrite <- (list_lookup_total_correct _ _ _ Hi). by apply commands_ok. }
  destruct (Huniq cmd Hm Hline ltac:(lia)) as [-> Ht]. by exists b', s'.
Qed.

Lemma tab_completes_witness :
  exists b' s', exec (handle_tab_completion ([117; 115] ++ replicate 254 0) 2 256) screen0 = (Val (b', 13%nat), s') /\
    take 13 b' = c "usermodetest ".
Proof.
  destruct (tab_completes ([117; 115] ++ replicate 254 0) 2 256 screen0 (c "usermodetest")) as (b' & s' & E & Ht & _).
  - cbn. lia.
  - cbn. lia.
  - cbn. lia.
  - exact screen0_ok.
  - reflexivity.
  - reflexivity.
  - exists b', s'. split; [exact E|exact Ht].
Defined.

(** C34: Whatever keys are pressed before Enter, tabs among them, [shell_get_line]
    returns, reads and writes only inside its buffer (an access outside it stops
    the editor with [Undefined]), leaves a terminated string shorter than
    [max_length] in it, and keeps the characters after Enter for the next call.
    The buffer has more than 12 bytes, the longest command. *)
Theorem shell_get_line_safe (input rest buffer : list Z) (max : Z) (s : screen)
    (Hin : Forall (fun ch => ch <> 10) input) (Hb : (12 < length buffer)%nat)
    (Hmax : 0 < max <= Z.of_nat (length buffer)) (Hs : screen_ok s) :
  exists b n s', exec (shell_get_line (input ++ 10 :: rest) buffer max) s = (Val (b, rest), s') /\
    screen_ok s' /\ length b = length buffer /\ b !! n = Some 0 /\ Z.of_nat n < max.
Proof.
  unfold shell_get_line, screen_get_cursor_col, screen_get_cursor_row. rewrite exec_bind, exec_gets. cbv iota.
  rewrite exec_bind, exec_gets. cbv iota.
  assert (line_rep max buffer (buffer, 0%nat, 0%nat) ([], 0%nat)) as Hrep by (split_and!; (done || lia)).
  revert Hrep. generalize (@nil Z, 0%nat) as lc, (buffer, 0%nat, 0%nat) as st, (cursor_row s) as r, (cursor_col s) as col.
  revert s Hs. induction input as [|ch input IH]; intros s Hs lc [[b n] cur] r col Hrep; cbn [app shell_line_loop].
  - destruct Hrep as (Hl & _ & _ & Hn & _). rewrite Z.eqb_refl, store_at_in, exec_bind, exec_defined_Some by lia. cbv iota.
    destruct (exec_putc 10 s Hs) as (s1 & E1 & Hs1). rewrite exec_bind, E1. cbv iota. rewrite exec_ret. exists (<[n := 0]> b), n, s1. rewrite length_insert.
    split_and!; [done|done|done| |lia]. apply list_lookup_insert_eq. lia.
  - apply Forall_cons_iff in Hin as [Hch Hin]. specialize (IH Hin). rewrite (proj2 (Z.eqb_neq ch 10) Hch).
    destruct (ch =? 9).
    + destruct Hrep as (Hl & _ & _ & Hn & Hmb).
      destruct (exec_tab b n max s ltac:(lia) ltac:(lia) ltac:(lia) Hn Hs) as (b' & n' & s1 & E1 & Hs1 & Hl1 & Hn1 & _).
      rewrite exec_bind, E1. cbv iota. unfold screen_get_cursor_col, screen_get_cursor_row.
      rewrite exec_bind, exec_gets. cbv iota. rewrite exec_bind, exec_gets. cbv iota.
      apply (IH s1 Hs1 (take n' b', n')). split_and!; (done || lia).
    + rewrite exec_bind. destruct (edit_round_refines r col max buffer ch (b, n, cur) lc s Hrep Hs) as (st' & s1 & -> & Hs1 & Hrep').
      cbv iota. exact (IH s1 Hs1 _ _ _ _ Hrep').
Qed.

Lemma shell_get_line_safe_witness :
  exists b n s', exec (shell_get_line ([104; 9; 8; 8; 9; 122; 9] ++ 10 :: [97]) (replicate 256 120) 256) screen0 = (Val (b, [97]), s') /\
    b !! n = Some 0 /\ Z.of_nat n < 256.
Proof.
  destruct (shell_get_line_safe [104; 9; 8; 8; 9; 122; 9] [97] (replicate 256 120) 256 screen0) as (b & n & s' & E & _ & _ & Hz & Hn).
  - by repeat constructor.
  - cbn. lia.
  - cbn. lia.
  - exact screen0_ok.
  - exists b, n, s'. split; [exact E|]. split; [exact Hz|exact Hn].
Defined.

(** ** What the completion gets wrong *)

(** With no command to complete to, the result is 0, which [shell_get_line] takes
    for the new length: the line typed so far is lost. *)
Example tab_no_match_loses_line :
  fst (exec (handle_tab_completion (c "xyz" ++ replicate 253 0) 3 256) screen0) = Val (c "xyz" ++ replicate 253 0, 0%nat).
Proof. vm_compute. reflexivity. Qed.

(** [m] begins four commands, [mkdir] among them, and is completed to [mem]:
    only the first two decide. *)
Example tab_takes_first_two :
  match exec (handle_tab_completion (c "m" ++ replicate 255 0) 1 256) screen0 with
  | (Val (b, n), _) => take n b = c "mem"
  | _ => False
  end.
Proof. vm_compute. reflexivity. Qed.

(** The line need not be terminated when the tab is pressed: the bytes an earlier
    line left behind take part in the comparison. *)
Example tab_reads_old_line :
  match exec (handle_tab_completion (c "hx" ++ replicate 254 0) 1 256) screen0 with
  | (Val (_, n), _) => n = 0%nat
  | _ => False
  end.
Proof. vm_compute. reflexivity. Qed.
