(* ===== verification/Words.v ===== *)
(** * Lines and words: [str_trim] and [str_split] against lists

    The two functions of string.c work inside an array; here their results are
    compared with the same operations on the text the array holds. *)

From S2P Require Import Prelude CString.

(** ** Blanks *)

Fixpoint drop_blanks (s : list Z) : list Z :=
  match s with
  | [] => []
  | ch :: r => if is_space ch then drop_blanks r else s
  end.

(** The text without the blanks before and after it. *)
Definition trim (s : list Z) : list Z := rev (drop_blanks (rev (drop_blanks s))).

Definition blank (ch : Z) : Prop := is_space ch = true.

Definition starts_blank (s : list Z) : bool := match s with ch :: _ => is_space ch | [] => false end.

Lemma drop_blanks_split s : exists b, s = b ++ drop_blanks s /\ Forall blank b /\ starts_blank (drop_blanks s) = false.
Proof.
  induction s as [|ch s (b & E & Hb & Hs)]; [by exists []|]. cbn [drop_blanks]. destruct (is_space ch) eqn:Ech.
  - exists (ch :: b). rewrite E at 1. split_and!; [done|by constructor|done].
  - exists []. by split_and!.
Qed.

(** [trim] cuts blanks off both ends, and the text that is left ends with
    something else. *)
Lemma trim_split s : exists b m bl, s = b ++ m ++ bl /\ Forall blank b /\ Forall blank bl /\ trim s = m /\
  starts_blank m = false /\ (forall x, list.last m = Some x -> is_space x = false) /\ (m = [] -> bl = []).
Proof.
  destruct (drop_blanks_split s) as (b & E & Hb & Hs). destruct (drop_blanks_split (rev (drop_blanks s))) as (r & E2 & Hr & Hs2).
  assert (drop_blanks s = trim s ++ rev r) as E3.
  { unfold trim. rewrite <- rev_app_distr, <- E2. by rewrite rev_involutive. }
  exists b, (trim s), (rev r). rewrite <- E3. split_and!; [done|done| |done| | |].
  - apply list.Forall_forall. intros x Hx. apply (proj1 (list.Forall_forall _ _) Hr). apply list_elem_of_In. apply list_elem_of_In in Hx.
    by apply in_rev.
  - rewrite E3 in Hs. destruct (trim s) as [|x m]; [done|]. exact Hs.
  - intros x Hx. unfold trim in Hx. destruct (drop_blanks (rev (drop_blanks s))) as [|y d]; [done|].
    cbn [rev] in Hx. rewrite last_snoc in Hx. injection Hx as ->. exact Hs2.
  - intros E4. rewrite E4 in E3. cbn [app] in E3. rewrite E3 in Hs. destruct (rev r) as [|x r'] eqn:Er; [done|].
    assert (blank x) as Hx; [|cbn in Hs; unfold blank in Hx; by rewrite Hx in Hs].
    apply (proj1 (list.Forall_forall _ _) Hr). apply list_elem_of_In, in_rev. rewrite Er. by left.
Qed.

Lemma trim_nil_or s : trim s = [] \/ exists ch r, trim s = ch :: r /\ is_space ch = false.
Proof.
  destruct (trim_split s) as (b & m & bl & _ & _ & _ & -> & Hs & _). destruct m as [|ch r]; [by left|right]. by exists ch, r.
Qed.

(** ** str_trim *)

Lemma trim_end_blanks a start n k : (forall j, (n < j <= n + k)%nat -> exists x, a !! (start + j)%nat = Some x /\ blank x) ->
  (n = 0%nat \/ exists x, a !! (start + n)%nat = Some x /\ is_space x = false) -> trim_end a start (n + k) = Some n.
Proof.
  intros Hb Hn. induction k as [|k IH].
  - rewrite Nat.add_0_r. destruct n as [|n]; [done|]. destruct Hn as [?|(x & Hx & Hnb)]; [done|]. cbn [trim_end]. rewrite Hx. cbn. by rewrite Hnb.
  - rewrite Nat.add_succ_r. cbn [trim_end]. destruct (Hb (S (n + k)) ltac:(lia)) as (x & -> & Hx). cbn. rewrite Hx.
    apply IH. intros j Hj. apply Hb. lia.
Qed.

Lemma move_down_spec len : forall a start i, (0 < start)%nat -> (start + i + len <= length a)%nat ->
  exists a', move_down a start i len = Some a' /\ length a' = length a /\
    forall j, a' !! j = if decide (i <= j < i + len)%nat then a !! (start + j)%nat else a !! j.
Proof.
  induction len as [|len IH]; intros a start i Hs Hl; cbn [move_down].
  - exists a. split_and!; [done|done|]. intros j. by rewrite decide_False by lia.
  - destruct (lookup_lt_is_Some_2 a (start + i)) as [x Hx]; [lia|]. rewrite Hx. cbn [mbind option_bind].
    destruct (IH (<[i := x]> a) start (S i)) as (a' & E & Hl' & Hlk); [done|rewrite length_insert; lia|].
    exists a'. rewrite length_insert in Hl'. split_and!; [done|done|]. intros j. rewrite Hlk.
    destruct (decide (j = i)) as [->|Hne].
    + repeat case_decide; try lia. by rewrite list_lookup_insert_eq by lia.
    + repeat case_decide; try lia; by rewrite list_lookup_insert_ne by lia.
Qed.

Lemma holds_of_lookup a s : Forall (fun ch => ch <> 0) s -> (forall j, (j < length s)%nat -> a !! j = s !! j) ->
  a !! length s = Some 0 -> holds a s.
Proof.
  intros Hs Hj H0. exists (drop (S (length s)) a). split; [|done]. rewrite <- (take_drop_middle a _ 0 H0) at 1. f_equal.
  apply list_eq. intros j. destruct (decide (j < length s)%nat) as [Hlt|Hge].
  - by rewrite lookup_take_lt by done; apply Hj.
  - rewrite (lookup_ge_None_2 s) by lia. apply lookup_ge_None_2. rewrite length_take. lia.
Qed.

(** [str_trim] leaves the array holding the trimmed text. *)
Lemma str_trim_holds a s : holds a s -> exists a', str_trim a = Some a' /\ holds a' (trim s) /\ length a' = length a.
Proof.
  intros (t & -> & Hnz). destruct (trim_split s) as (b & m & bl & Es & Hb & Hbl & -> & Hsb & Hlast & Hbl0).
  set (a := s ++ 0 :: t). assert (a = b ++ m ++ bl ++ 0 :: t) as Ea by (unfold a; rewrite Es, <- !app_assoc; done).
  assert (Forall (fun ch => ch <> 0) m) as Hm by (rewrite Es in Hnz; apply Forall_app in Hnz as [_ Hnz]; by apply Forall_app in Hnz as [? _]).
  unfold str_trim. replace (scan is_space a) with (Some (length b)).
  2: { rewrite Ea. destruct m as [|x m]; [rewrite (Hbl0 eq_refl)|]; cbn [app]; symmetry; by apply scan_app. }
  cbn [mbind option_bind]. assert (drop (length b) a = (m ++ bl) ++ 0 :: t) as Ed by (rewrite Ea, drop_app_length, <- app_assoc; done).
  rewrite Ed, scan_strlen by (rewrite Es in Hnz; by apply Forall_app in Hnz as [_ ?]). cbn [mbind option_bind]. rewrite length_app.
  assert (match (length m + length bl)%nat with O => Some O | S e => S <$> trim_end a (length b) e end = Some (length m)) as ->.
  { destruct m as [|x m']; [by rewrite (Hbl0 eq_refl)|]. set (m := x :: m') in *. cbn [length Nat.add] in *. change (length m) with (S (length m')).
    cbn [Nat.add]. rewrite trim_end_blanks; [done| |].
    - intros j Hj. destruct (lookup_lt_is_Some_2 bl (j - S (length m'))) as [y Hy]; [lia|]. exists y. split.
      + rewrite Ea, lookup_app_r by lia. replace (length b + j - length b)%nat with j by lia.
        rewrite lookup_app_r by (cbn; lia). rewrite lookup_app_l by (cbn [m length]; lia). exact Hy.
      + by apply (proj1 (list.Forall_lookup _ _) Hbl _ _ Hy).
    - right. assert (exists y, list.last m = Some y) as [y Hy] by (apply last_is_Some; done). exists y. split; [|by apply Hlast].
      rewrite last_lookup in Hy. cbn [m length pred Nat.pred] in Hy. rewrite Ea, lookup_app_r by lia.
      replace (length b + length m' - length b)%nat with (length m') by lia. rewrite lookup_app_l by (cbn; lia). exact Hy. }
  cbn [mbind option_bind].
  assert (length m < length a)%nat as Hlt by (rewrite Ea, !length_app; cbn; lia).
  assert (exists a1, (if Nat.eqb (length b) 0 then Some a else move_down a (length b) 0 (length m)) = Some a1 /\ length a1 = length a /\
    forall j, (j < length m)%nat -> a1 !! j = m !! j) as (a1 & -> & Hl1 & Hj1).
  { destruct (Nat.eqb_spec (length b) 0) as [E0|E0].
    - exists a. split_and!; [done|done|]. intros j Hj. destruct b; [|done]. rewrite Ea. cbn [app]. by apply lookup_app_l.
    - destruct (move_down_spec (length m) a (length b) 0) as (a1 & E1 & Hl1 & Hlk); [lia|rewrite Ea, !length_app; lia|].
      exists a1. split_and!; [done|done|]. intros j Hj. rewrite Hlk, decide_True by lia. rewrite Ea, lookup_app_r by lia.
      replace (length b + j - length b)%nat with j by lia. by apply lookup_app_l. }
  cbn [mbind option_bind]. rewrite (proj2 (Nat.ltb_lt _ _)) by lia. eexists. split; [done|]. rewrite length_insert. split; [|done].
  apply holds_of_lookup; [done| |apply list_lookup_insert_eq; lia].
  intros j Hj. rewrite list_lookup_insert_ne by lia. by apply Hj1.
Qed.

(** ** str_split *)

(** A scan stops at the first character that fails the test, at the latest at a
    given one. *)
Lemma scan_stops p a z x : a !! z = Some x -> p x = false ->
  exists k y, scan p a = Some k /\ (k <= z)%nat /\ a !! k = Some y /\ p y = false.
Proof.
  revert z. induction a as [|ch a IH]; intros z Hz Hx; [done|]. cbn [scan]. destruct (p ch) eqn:Ech.
  - destruct z as [|z]; [injection Hz as ->; congruence|]. destruct (IH z Hz Hx) as (k & y & -> & Hk & Hy & Hpy).
    exists (S k), y. by split_and!; [|lia|..].
  - exists 0%nat, ch. by split_and!; [|lia|..].
Qed.

Lemma scan_from p a start z x : a !! z = Some x -> p x = false -> (start <= z)%nat ->
  exists k y, scan p (drop start a) = Some k /\ (start + k <= z)%nat /\ a !! (start + k)%nat = Some y /\ p y = false.
Proof.
  intros Hz Hx Hs. destruct (scan_stops p (drop start a) (z - start) x) as (k & y & E & Hk & Hy & Hpy); [|done|].
  - rewrite lookup_drop. by replace (start + (z - start))%nat with z by lia.
  - exists k, y. rewrite lookup_drop in Hy. by split_and!; [|lia|..].
Qed.

(** The loop ends and leaves what is before its position alone; the array keeps
    its terminator. *)
Lemma split_loop_ok delim max fuel : forall a cur count z, delim <> 0 -> a !! z = Some 0 -> (cur <= z)%nat -> (z - cur < fuel)%nat ->
  exists ts a', str_split_loop fuel a cur delim count max = Some (ts, a') /\ length a' = length a /\
    forall j, (j < cur)%nat -> a' !! j = a !! j.
Proof.
  induction fuel as [|fuel IH]; intros a cur count z Hd Hz Hc Hf; [lia|]. cbn [str_split_loop].
  destruct (lookup_lt_is_Some_2 a cur) as [ch0 H0]; [apply lookup_lt_Some in Hz; lia|]. rewrite H0. cbn [mbind option_bind].
  destruct ((ch0 =? 0) || negb (count <? max)); [by exists [], a|].
  destruct (scan_from (fun x => x =? delim) a cur z 0 Hz ltac:(by apply Z.eqb_neq) Hc) as (k & y & -> & Hk & Hy & Hyd).
  cbn [mbind option_bind]. rewrite Hy. cbn [mbind option_bind]. destruct (Z.eqb_spec y 0) as [->|Hy0]; [by exists [], a|].
  destruct (scan_from (fun x => negb (x =? 0) && negb (x =? delim)) a (cur + k) z 0 Hz ltac:(done) Hk) as (k2 & y2 & E2 & Hk2 & Hy2 & Hy2d).
  rewrite E2. cbn [mbind option_bind]. rewrite Hy2. cbn [mbind option_bind].
  assert (0 < k2)%nat as Hpos.
  { destruct k2; [|lia]. rewrite Nat.add_0_r, Hy in Hy2. injection Hy2 as <-. cbn in Hyd.
    rewrite (proj2 (Z.eqb_neq y 0) Hy0), Hyd in Hy2d. done. }
  destruct (Z.eqb_spec y2 0) as [->|Hy20].
  - destruct (IH a (cur + k + k2)%nat (count + 1) z Hd Hz Hk2 ltac:(lia)) as (ts & a' & -> & Hl & Hj).
    exists ((cur + k)%nat :: ts), a'. split_and!; [done|done|]. intros j Hlt. apply Hj. lia.
  - assert (cur + k + k2 < z)%nat as Hlt.
    { destruct (decide (cur + k + k2 = z)%nat) as [E|]; [|lia]. rewrite E, Hz in Hy2. by injection Hy2 as <-. }
    destruct (IH (<[(cur + k + k2)%nat := 0]> a) (S (cur + k + k2)) (count + 1) z) as (ts & a' & E & Hl & Hj);
      [done|by rewrite list_lookup_insert_ne by lia|lia|lia|].
    rewrite E. exists ((cur + k)%nat :: ts), a'. rewrite length_insert in Hl. split_and!; [done|done|].
    intros j Hjc. rewrite Hj by lia. by rewrite list_lookup_insert_ne by lia.
Qed.

(** A line: its first word, some blanks, and the rest. *)
Record line_of (s w rest : list Z) (k : nat) : Prop := {
  lo_text : s = w ++ replicate k 32 ++ rest;
  lo_word : w <> [];
  lo_chars : Forall (fun ch => ch <> 0 /\ ch <> 32) w;
  lo_rest : Forall (fun ch => ch <> 0) rest;
  lo_gap : match rest with [] => True | ch :: _ => ch <> 32 /\ (0 < k)%nat end
}.

Lemma line_nonzero s w rest k : line_of s w rest k -> Forall (fun ch => ch <> 0) s.
Proof.
  intros [-> _ Hw Hr _]. apply Forall_app. split; [by eapply Forall_impl; [|exact Hw]; intros ? []|].
  apply Forall_app. split; [by apply Forall_replicate|done].
Qed.

(** What ends the first word in the array. *)
Lemma line_word_end s w rest k t : line_of s w rest k ->
  exists x u, s ++ 0 :: t = w ++ x :: u /\ (x = 0 \/ x = 32).
Proof.
  intros [-> _ _ _ Hg]. destruct k as [|k].
  - destruct rest as [|ch r]; [|destruct Hg; lia]. exists 0, t. rewrite !app_nil_r. by split; [|left].
  - exists 32, (replicate k 32 ++ rest ++ 0 :: t). split; [|by right]. cbn [replicate]. by rewrite <- !app_assoc.
Qed.

Lemma word_compare w : Forall (fun ch => ch <> 0 /\ ch <> 32) w ->
  Forall (fun ch => negb (ch =? 0) && negb (ch =? 32) = true) w.
Proof.
  intros H. eapply Forall_impl; [|exact H]. intros ch [H0 H32]. cbn. by rewrite (proj2 (Z.eqb_neq _ _) H0), (proj2 (Z.eqb_neq _ _) H32).
Qed.

(** [str_split] finds the first word at the start of the array and ends it. *)
Lemma str_split_first a s w rest k : holds a s -> line_of s w rest k ->
  exists ts a', str_split a 32 10 = Some (0%nat :: ts, a') /\ holds a' w.
Proof.
  intros (t & -> & _) Hl. set (a := s ++ 0 :: t) in *. pose proof (line_nonzero _ _ _ _ Hl) as Hnz.
  assert (a !! length s = Some 0) as Hz by (unfold a; by rewrite lookup_app_r, Nat.sub_diag by lia).
  assert (length s < length a)%nat as Hlen by (unfold a; rewrite length_app; cbn; lia).
  destruct (line_word_end s w rest k t Hl) as (x & u & Ea & Hx). fold a in Ea. destruct Hl as [Es Hw Hc _ _].
  destruct w as [|ch w']; [done|]. set (w := ch :: w') in *.
  assert (a !! 0%nat = Some ch) as H0 by (rewrite Ea; done). pose proof (word_compare _ Hc) as Hwt. inversion_clear Hc as [|? ? [Hch0 Hch32] _].
  unfold str_split. cbn [str_split_loop]. rewrite H0. cbn [mbind option_bind]. rewrite (proj2 (Z.eqb_neq _ _) Hch0). cbn [orb negb Z.ltb Z.compare].
  assert (scan (fun x => x =? 32) (drop 0 a) = Some 0%nat) as ->.
  { rewrite drop_0, Ea. cbn [w app scan]. by rewrite (proj2 (Z.eqb_neq _ _) Hch32). }
  cbn [mbind option_bind Nat.add]. rewrite H0. cbn [mbind option_bind]. rewrite (proj2 (Z.eqb_neq _ _) Hch0).
  assert (scan (fun x => negb (x =? 0) && negb (x =? 32)) (drop 0 a) = Some (length w)) as ->.
  { rewrite drop_0, Ea. apply scan_app; [exact Hwt|].
    destruct Hx as [->| ->]; done. }
  cbn [mbind option_bind].
  assert (a !! length w = Some x) as Hwx by (rewrite Ea, lookup_app_r, Nat.sub_diag by lia; done). rewrite Hwx. cbn [mbind option_bind].
  assert (Forall (fun ch => ch <> 0) w) as Hwnz by (rewrite Es in Hnz; by apply Forall_app in Hnz as [? _]).
  assert (forall j, (j < length w)%nat -> a !! j = w !! j) as Hwj by (intros j Hj; rewrite Ea; by apply lookup_app_l).
  destruct (Z.eqb_spec x 0) as [->|Hx0].
  - destruct (split_loop_ok 32 10 (length a) a (length w) (0 + 1) (length w)) as (ts & a' & E & Hla & Hj); [done|done|lia|lia|].
    rewrite E. exists ts, a'. split; [done|].
    assert (ts = [] /\ a' = a) as [-> ->].
    { destruct (length a) as [|n]; [lia|]. cbn [str_split_loop] in E. rewrite Hwx in E. cbn in E. by injection E as <- <-. }
    by apply holds_of_lookup.
  - assert (length w < length s)%nat as Hlt.
    { destruct (decide (length w = length s)) as [E|]; [rewrite E, Hz in Hwx; by injection Hwx as <-|].
      rewrite Es, !length_app in *. lia. }
    destruct (split_loop_ok 32 10 (length a) (<[length w := 0]> a) (S (length w)) (0 + 1) (length s)) as (ts & a' & E & Hla & Hj);
      [done|by rewrite list_lookup_insert_ne by lia|lia|lia|].
    rewrite E. exists ts, a'. split; [done|]. apply holds_of_lookup; [done| |].
    + intros j Hlt'. rewrite Hj by lia. rewrite list_lookup_insert_ne by lia. by apply Hwj.
    + rewrite Hj by lia. apply list_lookup_insert_eq. lia.
Qed.

(** ** Copies *)

Lemma strcpy_holds src t : forall dest, holds src t -> (length t < length dest)%nat ->
  exists d, strcpy dest src = Some d /\ holds d t /\ length d = length dest.
Proof.
  revert src. induction t as [|ch t IH]; intros src dest Hs Hl; (destruct dest as [|x dest]; [cbn in Hl; lia|]); apply holds_inv in Hs.
  - destruct Hs as [u ->]. exists (0 :: dest). split_and!; [done|by exists dest|done].
  - destruct Hs as (Hch & src' & -> & Hs). cbn [strcpy]. rewrite (proj2 (Z.eqb_neq _ _) Hch).
    destruct (IH src' dest Hs) as (d & -> & Hd & Hld); [cbn in Hl; lia|]. exists (ch :: d).
    split_and!; [done|by apply holds_cons|cbn; lia].
Qed.

(** [strncpy] with one byte to spare, and the terminator after it. *)
Lemma strncpy_line n src t dest : holds src t -> (length t <= n)%nat -> length dest = S n ->
  exists d, strncpy dest src (Z.of_nat n) = Some d /\ holds (<[n := 0]> d) t /\ length d = length dest.
Proof.
  intros Hs Hn Hd. pose proof Hs as (_ & _ & Hnz). destruct (decide (length t < n)%nat) as [Hlt|Hge].
  - rewrite (strncpy_short t n dest src Hs Hlt), decide_True by lia. eexists. split; [done|].
    rewrite drop_ge, app_nil_r by lia. rewrite length_app, length_replicate. split; [|lia].
    apply holds_of_lookup; [done| |].
    + intros j Hj. rewrite list_lookup_insert_ne by lia. by apply lookup_app_l.
    + rewrite list_lookup_insert_ne by lia. rewrite lookup_app_r, Nat.sub_diag by lia. apply lookup_replicate. split; [done|lia].
  - rewrite (strncpy_truncates t n dest src Hs) by lia. eexists. split; [done|].
    rewrite take_ge, length_app, length_drop by lia. split; [|lia]. apply holds_of_lookup; [done| |].
    + intros j Hj. rewrite list_lookup_insert_ne by lia. by apply lookup_app_l.
    + replace (length t) with n by lia. apply list_lookup_insert_eq. rewrite length_app, length_drop. lia.
Qed.

Lemma cstring_holds a s : holds a s -> cstring a = Some s.
Proof. intros (t & -> & Hs). unfold cstring. rewrite scan_strlen by done. cbn. by rewrite take_app_length. Qed.
