(* ===== verification/Lifecycle.v ===== *)
(** * The life of a process

    [process_create] and [process_kill] over the kernel heap: the invariant that
    ties the table, the control blocks and the queues to blocks of the heap, what
    a new process looks like, and that killing it gives everything back. *)

From S2P Require Import Prelude CString Words Heap Alloc HeapAlloc HeapUse Pmm Paging PagingUser Process Sched Ipc.

Section lifecycle.
Context (kernel_directory : Z) (junk_pcb : Z -> process_t) (junk_queue : Z -> message_queue_t).
#[local] Instance life_memory : MemoryOps mm := mm_memory kernel_directory.
Implicit Types k : kernel heap mm.

(** ** The invariant *)

(** A pointer the process manager holds is a block of the heap in use. *)
Definition owned (bs : list block) (p : Z) : Prop := exists b, in_use HEAP_START bs (p - HEADER) b.

Definition occupied (table : list Z) : Z := Z.of_nat (length (filter (fun p => p <> 0) table)).

Record processes_ok k (bs : list block) : Prop := {
  pk_heap : heap_wf (k_heap k) bs;
  pk_table : table_ok k;
  pk_count : process_count_val k = occupied (process_table k);
  pk_procs p v : procs k !! p = Some v -> owned bs p;
  pk_queues q mq : queues k !! q = Some mq -> owned bs q;
  pk_pids p v : procs k !! p = Some v -> pid v < next_pid k;
  pk_next : 0 < next_pid k
}.

(** The first free slot of the table. *)
Definition free_slot k (i : nat) : Prop :=
  (i < 16)%nat /\ process_table k !!! i = 0 /\ forall j, (j < i)%nat -> process_table k !!! j <> 0.

Lemma occupied_le table : occupied table <= Z.of_nat (length table).
Proof. unfold occupied. pose proof (length_filter (fun p => p <> 0) table). lia. Qed.

Lemma has_free_slot table : occupied table < Z.of_nat (length table) ->
  exists i, (i < length table)%nat /\ table !!! i = 0 /\ forall j, (j < i)%nat -> table !!! j <> 0.
Proof.
  unfold occupied. induction table as [|p table IH]; cbn [length]; [cbn; lia|]. intros Hlt.
  destruct (decide (p = 0)) as [->|Hne].
  - exists 0%nat. split_and!; [lia|done|lia].
  - rewrite filter_cons_True in Hlt by done. cbn [length] in Hlt. destruct IH as (i & Hi & Hz & Hmin); [lia|].
    exists (S i). split_and!; [lia|done|]. intros [|j] Hj; [done|]. apply Hmin. lia.
Qed.

Lemma occupied_insert table i p : table !! i = Some 0 -> p <> 0 -> occupied (<[i := p]> table) = occupied table + 1.
Proof.
  intros Hi Hp. unfold occupied. rewrite insert_take_drop by (by apply lookup_lt_Some in Hi).
  rewrite <- (take_drop_middle table i 0 Hi) at 3. rewrite !list.filter_app, filter_cons_True, filter_cons_False by (done || auto).
  rewrite !length_app. cbn [length]. lia.
Qed.

(** ** Creation *)

(** The control block of a new process, and the kernel with the process in slot
    [i]. *)
Definition new_process k (p q base size0 entry : Z) (nm : list Z) : process_t :=
  mk_process (next_pid k) nm PROCESS_STATE_READY (entry_cpu entry (u32 (u32 (base + size0) - 4)) (other_regs (cpu_state (junk_pcb p))))
    base size0 0 (u32 (base + size0)) 0 5 10 0 0 q (current_directory (k_mm k)) 0.

Definition with_process k (h : heap) (i : nat) (p q base size0 entry : Z) (nm : list Z) : kernel heap mm :=
  mk_kernel h (k_mm k) (<[p := new_process k p q base size0 entry nm]> (procs k))
    (<[q := mk_queue (q_messages (junk_queue q)) 0 0 0]> (queues k)) (<[u32 (u32 (base + size0) - 4) := entry]> (stack_words k))
    (<[i := p]> (process_table k)) (s32 (process_count_val k + 1)) (u32 (next_pid k + 1)) (current_process k) (idle_process k)
    (tss_esp0 k) (k_ticks k).

(** What creation takes from the heap. *)
Record taken (bs bs' : list block) (p q base size0 : Z) : Prop := {
  tk_borrowed : borrowed bs bs' [q - HEADER; base - HEADER; p - HEADER];
  tk_nonnull : p <> 0 /\ q <> 0 /\ base <> 0;
  tk_distinct : p <> base /\ p <> q /\ base <> q;
  tk_stack : exists n, in_use HEAP_START bs' (base - HEADER) (mk_block n false) /\ size0 + HEADER <= n
}.

Lemma fresh_procs k bs p bs' L : processes_ok k bs -> borrowed bs bs' L -> p - HEADER ∈ L -> procs k !! p = None.
Proof.
  intros Hk Hb Hin. destruct (procs k !! p) as [v|] eqn:E; [|done]. destruct (pk_procs _ _ Hk p v E) as [b Hu].
  by destruct (bw_new _ _ _ Hb _ _ Hin Hu).
Qed.

Lemma fresh_queues k bs q bs' L : processes_ok k bs -> borrowed bs bs' L -> q - HEADER ∈ L -> queues k !! q = None.
Proof.
  intros Hk Hb Hin. destruct (queues k !! q) as [v|] eqn:E; [|done]. destruct (pk_queues _ _ Hk q v E) as [b Hu].
  by destruct (bw_new _ _ _ Hb _ _ Hin Hu).
Qed.

(** [borrow] with the address of the data instead of the header. *)
Lemma borrow_ptr bs0 bs L h size : heap_wf h bs -> borrowed bs0 bs L -> 0 < size <= MAX_REQUEST ->
  exists r h' bs', exec (kmalloc size) h = (Val r, h') /\ heap_wf h' bs' /\
    (forall q b, in_use HEAP_START bs q b -> in_use HEAP_START bs' q b) /\
    ((r = 0 /\ bs' = bs) \/ (r <> 0 /\ borrowed bs0 bs' (r - HEADER :: L) /\ (r - HEADER ∉ L) /\
       exists n, in_use HEAP_START bs' (r - HEADER) (mk_block n false) /\ size + HEADER <= n)).
Proof.
  intros Hwf Hb Hs. destruct (borrow bs0 bs L h size Hwf Hb Hs) as (r & h' & bs' & E & Hwf' & Hr).
  exists r, h', bs'. split; [done|]. split; [done|]. destruct Hr as [[-> ->]|(p & n & -> & Hne & Hb' & Hat & Hn & Hp & Hk)]; [by split; [|left]|split; [done|right]].
  replace (p + HEADER - HEADER) with p by lia. split_and!; try done. by exists n.
Qed.

(** A block of the heap lies inside its four megabytes. *)
Lemma stack_in_heap h bs base n : heap_wf h bs -> in_use HEAP_START bs (base - HEADER) (mk_block n false) ->
  HEAP_START + HEADER <= base /\ base - HEADER + n <= HEAP_START + HEAP_SIZE.
Proof.
  intros Hwf [_ Hat]. apply (block_at_ge _ _ _ _ _ (hw_rep _ _ Hwf)) in Hat. rewrite (hrep_end _ _ _ (hw_rep _ _ Hwf)) in Hat.
  cbn [b_size] in Hat. heap_consts. lia.
Qed.

Lemma return_ptr bs0 bs L h r : heap_wf h bs -> borrowed bs0 bs L -> r - HEADER ∈ L ->
  exists h' bs', exec (kfree r) h = (Val tt, h') /\ heap_wf h' bs' /\ borrowed bs0 bs' (filter (.≠ r - HEADER) L).
Proof.
  intros Hwf Hb Hin. destruct (give_back_block bs0 bs L h _ Hwf Hb Hin) as (h' & bs' & E & H'). exists h', bs'.
  replace (r - HEADER + HEADER) with r in E by lia. by split.
Qed.

(** A block with control-block contents, allocated and given back at once. *)
Lemma exec_new_pcb k bs0 bs L : heap_wf (k_heap k) bs -> borrowed bs0 bs L ->
  exists r h bs', heap_wf h bs' /\
    ((r = 0 /\ bs' = bs /\ exec (new_pcb junk_pcb) k = (Val 0, set_k_heap h k)) \/
     (r <> 0 /\ borrowed bs0 bs' (r - HEADER :: L) /\ (r - HEADER ∉ L) /\
      exec (new_pcb junk_pcb) k = (Val r, set_procs (<[r := junk_pcb r]> (procs k)) (set_k_heap h k)))).
Proof.
  intros Hwf Hb. destruct (borrow_ptr bs0 bs L (k_heap k) 144 Hwf Hb ltac:(unfold MAX_REQUEST; lia)) as (r & h & bs' & E & Hwf' & Hr).
  exists r, h, bs'. split; [done|]. unfold new_pcb, on_heap. rewrite exec_bind, exec_zoom. change SIZEOF_PROCESS with 144. rewrite E. cbv iota.
  destruct Hr as (_ & [[-> ->]|(Hne & Hb' & Hn & _)]); [by left|right]. split_and!; try done. by rewrite (proj2 (Z.eqb_neq r 0) Hne).
Qed.

Lemma exec_new_queue k bs0 bs L : heap_wf (k_heap k) bs -> borrowed bs0 bs L ->
  exists r h bs', heap_wf h bs' /\ (forall q b, in_use HEAP_START bs q b -> in_use HEAP_START bs' q b) /\
    ((r = 0 /\ bs' = bs /\ exec (new_queue junk_queue) k = (Val 0, set_k_heap h k)) \/
     (r <> 0 /\ borrowed bs0 bs' (r - HEADER :: L) /\ (r - HEADER ∉ L) /\
      exec (new_queue junk_queue) k = (Val r, set_queues (<[r := junk_queue r]> (queues k)) (set_k_heap h k)))).
Proof.
  intros Hwf Hb. destruct (borrow_ptr bs0 bs L (k_heap k) 2124 Hwf Hb ltac:(unfold MAX_REQUEST; lia)) as (r & h & bs' & E & Hwf' & Hr).
  exists r, h, bs'. split; [done|]. unfold new_queue, on_heap. rewrite exec_bind, exec_zoom. change SIZEOF_QUEUE with 2124. rewrite E. cbv iota.
  destruct Hr as (Hk & [[-> ->]|(Hne & Hb' & Hn & _)]); (split; [done|]); [by left|right]. split_and!; try done. by rewrite (proj2 (Z.eqb_neq r 0) Hne).
Qed.

(** [free_pcb] of the last block borrowed. *)
Lemma exec_free_pcb k bs0 bs h0 r : heap_wf h0 bs0 -> heap_wf (k_heap k) bs -> borrowed bs0 bs [r - HEADER] ->
  exists h, exec (free_pcb r) k = (Val tt, set_procs (delete r (procs k)) (set_k_heap h k)) /\ heap_wf h bs0.
Proof.
  intros H0 Hwf Hb. destruct (return_ptr bs0 bs _ _ r Hwf Hb) as (h & bs' & E & Hwf' & Hb'); [by apply list_elem_of_singleton|].
  rewrite filter_cons_False, filter_nil in Hb' by (intros Hn; by apply Hn). rewrite (all_given_back _ _ _ _ H0 Hwf' Hb') in Hwf'.
  exists h. split; [|done]. unfold free_pcb, on_heap. by rewrite exec_bind, exec_zoom, E.
Qed.

Context (Hjunk : forall p, length (name (junk_pcb p)) = 32%nat).

(** [process_create] fails without a trace in the heap, or puts a new process
    into the first free slot. *)
Lemma exec_create k bs i name0 nm0 entry size0 : processes_ok k bs -> process_count_val k < MAX_PROCESSES -> free_slot k i ->
  holds name0 nm0 -> (length nm0 <= 31)%nat -> 4 <= size0 <= MAX_REQUEST ->
  (exists h n, exec (process_create junk_pcb junk_queue name0 entry size0) k = (Val 0, set_next_pid n (set_k_heap h k)) /\ heap_wf h bs) \/
  (exists h bs' p q base nm,
     exec (process_create junk_pcb junk_queue name0 entry size0) k = (Val (next_pid k), with_process k h i p q base size0 entry nm) /\
     heap_wf h bs' /\ taken bs bs' p q base size0 /\ holds nm nm0).
Proof.
  intros Hk Hcnt (Hi & Hz & Hmin) Hname Hlen Hsz. pose proof (pk_heap _ _ Hk) as Hwf.
  remember (exec (process_create junk_pcb junk_queue name0 entry size0) k) as R eqn:ER. symmetry in ER.
  unfold process_create in ER. rewrite exec_bind, exec_get in ER. cbv iota in ER. rewrite (proj2 (Z.leb_gt _ _)) in ER by (unfold MAX_PROCESSES in *; lia).
  rewrite exec_bind in ER.
  destruct (exec_new_pcb k bs bs [] Hwf (borrowed_none bs)) as (p & h1 & b1 & W1 & [(-> & -> & E1)|(Hp & B1 & N1 & E1)]); rewrite E1 in ER; cbv iota in ER.
  { left. exists h1, (next_pid k). rewrite Z.eqb_refl in ER. split; [|done]. run_in ER. rewrite <- ER. by destruct k. }
  rewrite (proj2 (Z.eqb_neq p 0) Hp) in ER. set (k1 := set_procs _ _) in ER.
  assert (procs k !! p = None) as Fp by (apply (fresh_procs k bs p b1 _ Hk B1); by apply list_elem_of_here).
  rewrite exec_bind in ER. unfold on_heap at 1 in ER. rewrite exec_zoom in ER.
  destruct (borrow_ptr bs b1 _ (k_heap k1) size0 W1 B1 ltac:(lia)) as (base & h2 & b2 & E2 & W2 & _ & [[-> ->]|(Hba & B2 & N2 & n & Hblk & Hn)]); rewrite E2 in ER; cbv iota in ER.
  { left. rewrite Z.eqb_refl in ER. run_in ER.
    destruct (exec_free_pcb (set_k_heap h2 k1) bs b1 (k_heap k) p Hwf W2 B1) as (h3 & E3 & W3). rewrite E3 in ER. run_in ER.
    exists h3, (next_pid k). split; [|done]. rewrite <- ER. unfold k1. cbn. rewrite delete_insert_id by done. by destruct k. }
  rewrite (proj2 (Z.eqb_neq base 0) Hba) in ER. run_in ER.
  rewrite (exec_load_pcb _ p (junk_pcb p)) in ER by apply lookup_insert_eq. run_in ER.
  destruct (strncpy_line 31 name0 nm0 (name (junk_pcb p)) Hname Hlen (Hjunk p)) as (nm & En & Hnm & _).
  change 31 with (Z.of_nat 31) in ER. rewrite En in ER. run_in ER.
  erewrite exec_store_pcb in ER by apply lookup_insert_eq. run_in ER. set (k2 := set_procs _ _) in ER.
  destruct (exec_new_queue k2 bs b2 _ W2 B2) as (q & h4 & b4 & W4 & Hk4 & [(-> & -> & E4)|(Hq & B4 & N4 & E4)]); rewrite E4 in ER; cbv iota in ER.
  { left. rewrite Z.eqb_refl in ER. run_in ER. unfold on_heap in ER. run_in ER. cbn [k_heap set_k_heap] in ER.
    destruct (return_ptr bs b2 _ h4 base W4 B2) as (h5 & b5 & E5 & W5 & B5); [by apply list_elem_of_here|]. rewrite E5 in ER. run_in ER.
    rewrite filter_cons_False, filter_cons_True, filter_nil in B5 by (auto || (intros Hbp; apply N2; rewrite Hbp; by apply list_elem_of_here)).
    destruct (exec_free_pcb (set_k_heap h5 (set_k_heap h4 k2)) bs b5 (k_heap k) p Hwf W5 B5) as (h6 & E6 & W6). rewrite E6 in ER. run_in ER.
    exists h6, (u32 (next_pid k + 1)). split; [|done]. rewrite <- ER. unfold k2, k1. cbn. rewrite insert_insert_eq, delete_insert_id by done. by destruct k. }
  rewrite (proj2 (Z.eqb_neq q 0) Hq) in ER. right. run_in ER.
  rewrite (exec_load_queue _ q (junk_queue q)) in ER by apply lookup_insert_eq. run_in ER.
  erewrite exec_store_queue in ER by apply lookup_insert_eq. run_in ER.
  unfold on_mm in ER. run_in ER. cbn [Process.paging_get_directory mm_memory life_memory] in ER. unfold Paging.paging_get_directory in ER. run_in ER.
  destruct (stack_in_heap _ _ _ _ W2 Hblk) as [Hlo Hhi]. rewrite exec_push_word in ER by (heap_consts; lia). run_in ER.
  erewrite exec_update_pcb in ER by (cbn [procs set_procs set_stack_words set_mm set_queues set_k_heap k2]; apply lookup_insert_eq).
  set (k3 := set_procs _ (set_stack_words _ _)) in ER. run_in ER. set (nm1 := <[31%nat := 0]> nm) in *.
  match type of ER with context [exec (for_find table_indices ?f) k3] =>
    assert (exec (for_find table_indices f) k3 = (Val (Some (next_pid k)), with_process k h4 i p q base size0 entry nm1)) as Ef end.
  { refine (proj2 (for_find_at _ k3 i Hi _) _ _ _).
    - intros j Hj. run. change (process_table k3) with (process_table k). by rewrite (proj2 (Z.eqb_neq _ _) (Hmin j Hj)).
    - run. change (process_table k3) with (process_table k). rewrite Hz, Z.eqb_refl. do 2 f_equal. unfold with_process, k3, k2, k1. cbn.
      by rewrite !insert_insert_eq. }
  rewrite Ef in ER. run_in ER. exists h4, b4, p, q, base, nm1. split; [by rewrite <- ER|]. split; [done|]. split; [|done].
  split; [exact B4|done| |exists n; split; [by apply Hk4|done]]. apply not_elem_of_cons in N2 as [N2 _], N4 as [N4 N4']. apply not_elem_of_cons in N4' as [N4' _].
  split_and!; congruence.
Qed.

(** The invariant holds with the new process. *)
Lemma with_process_ok k bs i h bs' p q base size0 entry nm : processes_ok k bs -> process_count_val k < MAX_PROCESSES -> free_slot k i ->
  next_pid k < 4294967295 -> heap_wf h bs' -> taken bs bs' p q base size0 -> processes_ok (with_process k h i p q base size0 entry nm) bs'.
Proof.
  intros Hk Hc (Hi & Hz & _) Hn Hwf [Hb (Hp & _) _ _]. pose proof Hk as [_ [Hl Hlive] Hcnt Hpo Hqo Hpid Hnp].
  assert (forall x, owned bs x -> owned bs' x) as Hkeep by (intros x [b Hu]; exists b; by apply (bw_kept _ _ _ Hb)).
  assert (process_table k !! i = Some 0) as Hti by (rewrite <- Hz; apply list_lookup_lookup_total_lt; lia).
  unfold MAX_PROCESSES in Hc. assert (0 <= occupied (process_table k)) as Hpos by (unfold occupied; lia).
  split; cbn [k_heap process_table process_count_val procs queues next_pid with_process]; [done| | | | | |].
  - split; cbn [process_table procs with_process]; [by rewrite length_insert|]. intros j x Hj Hx.
    destruct (decide (x = p)) as [->|Hxp]; [by rewrite lookup_insert_eq|]. rewrite lookup_insert_ne by done.
    destruct (decide (j = i)) as [->|Hji]; [rewrite list_lookup_insert_eq in Hj by lia; congruence|].
    rewrite list_lookup_insert_ne in Hj by done. by apply (Hlive j).
  - rewrite occupied_insert, <- Hcnt by done. apply s32_small. unfold is_s32. lia.
  - intros x v [[<- _]|[_ Hx]]%lookup_insert_Some; [|by apply Hkeep, (Hpo x v)].
    apply (bw_live _ _ _ Hb). do 2 apply list_elem_of_further. apply list_elem_of_here.
  - intros x v [[<- _]|[_ Hx]]%lookup_insert_Some; [|by apply Hkeep, (Hqo x v)]. apply (bw_live _ _ _ Hb). apply list_elem_of_here.
  - intros x v [[_ <-]|[_ Hx]]%lookup_insert_Some; rewrite u32_small by (unfold is_u32; lia); [cbn; lia|]. apply Hpid in Hx. lia.
  - rewrite u32_small by (unfold is_u32; lia). lia.
Qed.

(** ** Termination *)

(** The kernel after a process came and went. *)
Definition left_behind k (h : heap) (base size0 entry : Z) : kernel heap mm :=
  mk_kernel h (k_mm k) (procs k) (queues k) (<[u32 (u32 (base + size0) - 4) := entry]> (stack_words k))
    (process_table k) (process_count_val k) (u32 (next_pid k + 1)) (current_process k) (idle_process k) (tss_esp0 k) (k_ticks k).

Lemma exec_kill_new k bs i h bs' p q base size0 entry nm : processes_ok k bs -> process_count_val k < MAX_PROCESSES -> free_slot k i ->
  next_pid k < 4294967295 -> heap_wf h bs' -> taken bs bs' p q base size0 ->
  (current_process k = 0 \/ is_Some (procs k !! current_process k)) ->
  exists h', exec (process_kill (next_pid k)) (with_process k h i p q base size0 entry nm) = (Val tt, left_behind k h' base size0 entry) /\
    heap_wf h' bs.
Proof.
  intros Hk Hc Hslot Hn Hwf Htk Hcur. pose proof (with_process_ok k bs i h bs' p q base size0 entry nm Hk Hc Hslot Hn Hwf Htk) as Hk'.
  destruct Hslot as (Hi & Hz & Hmin), Htk as [Hb (Hp & Hq & Hba) (Hpb & Hpq & Hbq) _].
  pose proof (pk_next _ _ Hk) as Hnp. unfold process_kill. rewrite (proj2 (Z.eqb_neq (next_pid k) 0)) by lia.
  set (k' := with_process _ _ _ _ _ _ _ _ _) in *.
  assert (procs k !! p = None) as Fp by (apply (fresh_procs k bs p bs' _ Hk Hb); do 2 apply list_elem_of_further; apply list_elem_of_here).
  assert (queues k !! q = None) as Fq by (apply (fresh_queues k bs q bs' _ Hk Hb); apply list_elem_of_here).
  set (v := new_process k p q base size0 entry nm).
  assert (procs k' !! p = Some v) as Ev by apply lookup_insert_eq.
  destruct (return_ptr bs bs' _ h base Hwf Hb) as (h1 & b1 & E1 & W1 & B1); [apply list_elem_of_further, list_elem_of_here|].
  rewrite filter_cons_True, filter_cons_False, filter_cons_True, filter_nil in B1 by (auto || lia).
  destruct (return_ptr bs b1 _ h1 q W1 B1) as (h2 & b2 & E2 & W2 & B2); [apply list_elem_of_here|].
  rewrite filter_cons_False, filter_cons_True, filter_nil in B2 by (auto || lia).
  assert (p <> current_process k) as Hpc by (intros Hpe; rewrite <- Hpe in Hcur; destruct Hcur as [?|[x Hx]]; congruence).
  assert (process_table k' !!! i = p) as Eti by (apply list_lookup_total_insert_eq; rewrite (tb_length _ (pk_table _ _ Hk)); lia).
  pose proof (pk_table _ _ Hk') as Ht'. rewrite exec_bind.
  match goal with |- context [exec (for_find table_indices ?f) k'] =>
    assert (exists h', exec (for_find table_indices f) k' = (Val (Some tt), left_behind k h' base size0 entry) /\ heap_wf h' bs) as (h' & Ef & W') end.
  { destruct (exec_free_pcb (set_queues (delete q (queues k')) (set_k_heap h2 k')) bs b2 (k_heap k) p (pk_heap _ _ Hk) W2 B2) as (h3 & E3 & W3).
    exists h3. split; [|done]. refine (proj2 (for_find_at _ k' i Hi _) _ _ _).
    - intros j Hj. rewrite exec_bind, exec_slot_has_pid by (done || lia). cbv iota. unfold slot.
      change (process_table k') with (<[i := p]> (process_table k)). rewrite list_lookup_total_insert_ne by lia.
      rewrite (proj2 (Z.eqb_neq _ 0) (Hmin j Hj)). destruct (table_slot k j (pk_table _ _ Hk) ltac:(lia)) as [Hj0|[w Ew]]; [by destruct (Hmin j Hj)|].
      change (procs k') with (<[p := v]> (procs k)). rewrite lookup_insert_ne, Ew by congruence.
      rewrite (proj2 (Z.eqb_neq (pid w) (next_pid k))); [done|]. apply (pk_pids _ _ Hk) in Ew. lia.
    - rewrite exec_bind, exec_slot_has_pid by done. cbv iota. unfold slot. rewrite Eti, (proj2 (Z.eqb_neq p 0) Hp), Ev.
      cbn [pid v new_process]. rewrite Z.eqb_refl. cbn [negb]. run. rewrite Eti, (proj2 (Z.eqb_neq p (current_process k')) Hpc). run.
      rewrite (exec_load_pcb k' p v Ev). run. cbn [stack_base msg_queue is_user_mode v new_process]. unfold on_heap at 1. run. cbn [k_heap with_process k'].
      rewrite E1. run. rewrite (proj2 (Z.eqb_neq q 0) Hq). unfold free_queue, on_heap. run.
      cbn [k_heap set_k_heap]. rewrite E2. run. cbn [Z.eqb negb andb]. run.
      change (set_queues (delete q (queues (set_k_heap h2 (set_k_heap h1 k')))) (set_k_heap h2 (set_k_heap h1 k')))
        with (set_queues (delete q (queues k')) (set_k_heap h2 k')).
      rewrite E3. run. do 2 f_equal. unfold left_behind, k'. cbn.
      rewrite !delete_insert_id by done. rewrite list_insert_insert_eq, list_insert_id
        by (rewrite <- Hz; apply list_lookup_lookup_total_lt; rewrite (tb_length _ (pk_table _ _ Hk)); lia).
      pose proof (pk_count _ _ Hk). unfold MAX_PROCESSES in Hc. assert (0 <= occupied (process_table k)) by (unfold occupied; lia).
      rewrite (s32_small (process_count_val k + 1)), s32_small by (unfold is_s32; lia).
      by replace (process_count_val k + 1 - 1) with (process_count_val k) by lia. }
  rewrite Ef. exists h'. by split.
Qed.

End lifecycle.

(** ** The theorems *)

(** C5: [process_create] with room in the table either fails, with the heap, the
    table, the control blocks and the queues as they were, or returns the next
    pid: the first free slot then points to a new control block with that pid and
    name, ready, with the default priority, the kernel's page directory, an empty
    message queue and a stack: a new block of the heap with room for
    [stack_size] bytes, whose last four are the only bytes stored and hold the
    entry point; everything else is unchanged and the invariant holds.  The
    stack has at least four bytes. *)
Theorem process_create_spec kdir junk_pcb junk_queue k bs name0 nm0 entry size0
    (Hjunk : forall p, length (name (junk_pcb p)) = 32%nat) (Hk : processes_ok k bs) (Hroom : process_count_val k < MAX_PROCESSES)
    (Hnext : next_pid k < 4294967295) (Hname : holds name0 nm0) (Hlen : (length nm0 <= 31)%nat) (Hsz : 4 <= size0 <= MAX_REQUEST) :
  exists r k', exec (process_create (H1 := mm_memory kdir) junk_pcb junk_queue name0 entry size0) k = (Val r, k') /\
    ((r = 0 /\ exists h n, k' = set_next_pid n (set_k_heap h k) /\ heap_wf h bs) \/
     (r = next_pid k /\ exists i p v q bs', free_slot k i /\ processes_ok k' bs' /\
        process_table k' = <[i := p]> (process_table k) /\ procs k !! p = None /\ procs k' = <[p := v]> (procs k) /\
        pid v = next_pid k /\ holds (name v) nm0 /\ state v = PROCESS_STATE_READY /\ priority v = 5 /\ is_user_mode v = 0 /\
        page_directory v = current_directory (k_mm k) /\ eip (cpu_state v) = entry /\
        (exists n, in_use HEAP_START bs' (stack_base v - HEADER) (mk_block n false) /\ size0 + HEADER <= n /\
           forall b, ~ in_use HEAP_START bs (stack_base v - HEADER) b) /\
        stack_size v = size0 /\ kernel_stack v = stack_base v + size0 /\ esp (cpu_state v) = stack_base v + size0 - 4 /\
        stack_words k' = <[esp (cpu_state v) := entry]> (stack_words k) /\
        queues k !! msg_queue v = None /\ queues k' = <[msg_queue v := q]> (queues k) /\ q_count q = 0 /\
        k_mm k' = k_mm k /\ current_process k' = current_process k)).
Proof.
  destruct (has_free_slot (process_table k)) as (i & Hi & Hz & Hmin).
  { rewrite <- (pk_count _ _ Hk), (tb_length _ (pk_table _ _ Hk)). exact Hroom. }
  assert (free_slot k i) as Hslot by (rewrite (tb_length _ (pk_table _ _ Hk)) in Hi; by split_and!).
  destruct (exec_create kdir junk_pcb junk_queue Hjunk k bs i name0 nm0 entry size0 Hk Hroom Hslot Hname Hlen Hsz)
    as [(h & n & E & Hwf)|(h & bs' & p & q & base & nm & E & Hwf & Htk & Hnm)]; eexists _, _; (split; [exact E|]).
  - left. split; [done|]. by exists h, n.
  - right. split; [done|]. pose proof (tk_borrowed _ _ _ _ _ _ Htk) as Hb. destruct (tk_stack _ _ _ _ _ _ Htk) as (n & Hblk & Hn).
    destruct (stack_in_heap _ _ _ _ Hwf Hblk) as [Hlo Hhi].
    assert (u32 (base + size0) = base + size0) as Etop by (apply u32_small; unfold is_u32; heap_consts; lia).
    assert (u32 (base + size0 - 4) = base + size0 - 4) as Eesp by (apply u32_small; unfold is_u32; heap_consts; lia).
    exists i, p, (new_process junk_pcb k p q base size0 entry nm), (mk_queue (q_messages (junk_queue q)) 0 0 0), bs'.
    split_and!; try done.
    + by apply with_process_ok with bs.
    + apply (fresh_procs k bs p bs' _ Hk Hb). do 2 apply list_elem_of_further. apply list_elem_of_here.
    + exists n. split_and!; [exact Hblk|exact Hn|]. intros b. apply (bw_new _ _ _ Hb). apply list_elem_of_further, list_elem_of_here.
    + cbn. by rewrite Etop, Eesp.
    + apply (fresh_queues k bs q bs' _ Hk Hb). apply list_elem_of_here.
Qed.

(** C6: Killing a process gives back what creating it took: after [process_create]
    and [process_kill] of the pid it returned, the heap has the same blocks, and
    the table, its count, the control blocks and the queues are the same. *)
Theorem create_kill_restores kdir junk_pcb junk_queue k bs name0 nm0 entry size0 r k1
    (Hjunk : forall p, length (name (junk_pcb p)) = 32%nat) (Hk : processes_ok k bs) (Hroom : process_count_val k < MAX_PROCESSES)
    (Hnext : next_pid k < 4294967295) (Hname : holds name0 nm0) (Hlen : (length nm0 <= 31)%nat) (Hsz : 4 <= size0 <= MAX_REQUEST)
    (Hcur : is_Some (procs k !! current_process k))
    (Hcreate : exec (process_create (H1 := mm_memory kdir) junk_pcb junk_queue name0 entry size0) k = (Val r, k1)) (Hr : r <> 0) :
  exists k2, exec (process_kill (H1 := mm_memory kdir) r) k1 = (Val tt, k2) /\ heap_wf (k_heap k2) bs /\
    process_table k2 = process_table k /\ process_count_val k2 = process_count_val k /\ procs k2 = procs k /\ queues k2 = queues k /\
    k_mm k2 = k_mm k /\ current_process k2 = current_process k.
Proof.
  destruct (has_free_slot (process_table k)) as (i & Hi & Hz & Hmin).
  { rewrite <- (pk_count _ _ Hk), (tb_length _ (pk_table _ _ Hk)). exact Hroom. }
  assert (free_slot k i) as Hslot by (rewrite (tb_length _ (pk_table _ _ Hk)) in Hi; by split_and!).
  destruct (exec_create kdir junk_pcb junk_queue Hjunk k bs i name0 nm0 entry size0 Hk Hroom Hslot Hname Hlen Hsz)
    as [(h & n & E & _)|(h & bs' & p & q & base & nm & E & Hwf & Htk & _)]; pose proof (eq_trans (eq_sym Hcreate) E) as X; injection X as -> ->; [done|].
  destruct (exec_kill_new kdir junk_pcb junk_queue k bs i h bs' p q base size0 entry nm Hk Hroom Hslot Hnext Hwf Htk (or_intror Hcur)) as (h' & E' & W').
  eexists. split; [exact E'|]. by split_and!.
Qed.

(** ** The theorems at work *)

(** A kernel with the idle process only. *)
Definition idle_junk (p : Z) : process_t := mk_process 0 (replicate 32 0) 0 (entry_cpu 0 0 []) 0 0 0 0 0 0 0 0 0 0 0 0.
Definition junk_queue0 (q : Z) : message_queue_t := mk_queue [] 0 0 0.
Definition heap_idle : heap := snd (exec (Heap.kmalloc 144) heap0).
Definition idle_blocks : list block := [mk_block 160 false; mk_block 4194144 true].
Definition idle_ptr : Z := HEAP_START + HEADER.
Definition idle_kernel : kernel heap mm :=
  mk_kernel heap_idle empty_mm {[idle_ptr := idle_junk idle_ptr]} ∅ ∅ (idle_ptr :: replicate 15 0) 1 1 idle_ptr idle_ptr 0 0.

Lemma idle_kernel_ok : processes_ok idle_kernel idle_blocks.
Proof.
  pose proof (kmalloc_exec heap0 _ 144 heap0_wf ltac:(lia)) as Hm. cbv [amalloc b_free b_size] in Hm. change (total_of 144) with 160 in Hm.
  destruct Hm as (h' & b & _ & _ & _ & E & Hwf & _). assert (heap_idle = h') as Eh by (unfold heap_idle; by rewrite E).
  split; [rewrite <- Eh in Hwf; exact Hwf| |reflexivity| | | |reflexivity].
  - split; [reflexivity|]. intros i p Hi Hp. cbn [process_table idle_kernel] in Hi. destruct i as [|i]; [injection Hi as <-|].
    + exists (idle_junk idle_ptr). apply lookup_singleton_eq.
    + apply lookup_replicate in Hi as [-> _]. done.
  - intros p v Hp. cbn [procs idle_kernel] in Hp. apply lookup_singleton_Some in Hp as [<- _]. exists (mk_block 160 false). split; [done|]. left. done.
  - intros q mq Hq. done.
  - intros p v Hp. cbn [procs idle_kernel] in Hp. apply lookup_singleton_Some in Hp as [_ <-]. cbn. lia.
Qed.

Lemma process_create_spec_witness :
  exists r k', exec (process_create (H1 := mm_memory 1048576) idle_junk junk_queue0 (c "worker" ++ [0]) 65536 4096) idle_kernel = (Val r, k').
Proof.
  destruct (process_create_spec 1048576 idle_junk junk_queue0 idle_kernel idle_blocks (c "worker" ++ [0]) (c "worker") 65536 4096) as (r & k' & E & _).
  - reflexivity.
  - exact idle_kernel_ok.
  - reflexivity.
  - reflexivity.
  - exists []. split; [reflexivity|by repeat constructor].
  - cbn. lia.
  - unfold MAX_REQUEST. lia.
  - exists r, k'. exact E.
Defined.

Lemma worker_created : exists k1, exec (process_create (H1 := mm_memory 1048576) idle_junk junk_queue0 (c "worker" ++ [0]) 65536 4096) idle_kernel = (Val 1, k1).
Proof.
  eexists. rewrite (surjective_pairing (exec _ _)). by f_equal.
Qed.

Lemma create_kill_restores_witness :
  exists k1 k2, exec (process_create (H1 := mm_memory 1048576) idle_junk junk_queue0 (c "worker" ++ [0]) 65536 4096) idle_kernel = (Val 1, k1) /\
    exec (process_kill (H1 := mm_memory 1048576) 1) k1 = (Val tt, k2) /\ process_table k2 = process_table idle_kernel.
Proof.
  destruct worker_created as [k1 E1].
  destruct (create_kill_restores 1048576 idle_junk junk_queue0 idle_kernel idle_blocks (c "worker" ++ [0]) (c "worker") 65536 4096 1 k1)
    as (k2 & E2 & _ & Ht & _).
  - reflexivity.
  - exact idle_kernel_ok.
  - reflexivity.
  - reflexivity.
  - exists []. split; [reflexivity|by repeat constructor].
  - cbn. lia.
  - unfold MAX_REQUEST. lia.
  - exists (idle_junk idle_ptr). reflexivity.
  - exact E1.
  - discriminate.
  - exists k1, k2. split; [exact E1|]. split; [exact E2|exact Ht].
Defined.
