(* ===== verification/Shell.v ===== *)
(** * shell.c: the state of the shell and the commands that report

    The shell works on the whole system: the kernel with its heap and page
    tables, the file system, which keeps its buffers on the same heap, and the
    history of the command lines.  What the commands print is the list of the
    events they emit. *)

From S2P Require Import Prelude CString Words Alloc RamDisk Pmm Paging Process PagingUser Timer Fs.
From S2P Require Heap.

Definition MAX_HISTORY := 10.
Definition MAX_CMD_LENGTH := 256.
Definition on_black (fg : Z) : Z := MAKE_COLOR fg COLOR_BLACK.

(** The file system without the heap it shares with the kernel, and back. *)
Definition detach {H} (f : fs_t H) : fs_t unit :=
  mk_fs tt (fs_rd f) (superblock f) (inode_bitmap f) (data_bitmap f) (open_files f) (fs_initialized f) (fs_ticks f).
Definition attach {H} (h : H) (ticks : Z) (f : fs_t unit) : fs_t H :=
  mk_fs h (fs_rd f) (superblock f) (inode_bitmap f) (data_bitmap f) (open_files f) (fs_initialized f) ticks.

Record system (H : Type) : Type := mk_system {
  sys_kernel : kernel H mm;
  sys_fs : fs_t unit;
  command_history : list (list Z);
  history_count : Z
}.
Arguments mk_system {H}. Arguments sys_kernel {H}. Arguments sys_fs {H}. Arguments command_history {H}.
Arguments history_count {H}.

Section shell.
Context {H : Type} `{KmallocOps H} `{HeapStats H}.
Abbreviation Sys := (system H).

Definition set_kernel (k : kernel H mm) (s : Sys) : Sys := mk_system k (sys_fs s) (command_history s) (history_count s).
Definition set_history (h : list (list Z)) (n : Z) (s : Sys) : Sys := mk_system (sys_kernel s) (sys_fs s) h n.

(** The file system as fs.c sees it, and what a call leaves. *)
Definition the_fs (s : Sys) : fs_t H := attach (k_heap (sys_kernel s)) (k_ticks (sys_kernel s)) (sys_fs s).
Definition put_fs (f : fs_t H) (s : Sys) : Sys :=
  mk_system (set_k_heap (fs_heap f) (sys_kernel s)) (detach f) (command_history s) (history_count s).

Definition on_kernel {A} (m : M (kernel H mm) A) : M Sys A := zoom sys_kernel set_kernel m.
Definition on_fs {A} (m : M (fs_t H) A) : M Sys A := zoom the_fs put_fs m.
Definition on_heap {A} (m : M H A) : M Sys A := on_kernel (Process.on_heap m).
Definition on_mm {A} (m : M mm A) : M Sys A := on_kernel (Process.on_mm m).
Definition on_disk {A} (m : M ramdisk_t A) : M Sys A := on_fs (zoom fs_rd set_rd m).
Definition pmm_get {A} (f : pmm -> A) : M Sys A := gets (fun s => f (mm_pmm (k_mm (sys_kernel s)))).

(** [screen_write(str)] of a string in memory. *)
Definition write_str (str : list Z) : M Sys unit := let! s := defined (cstring str) in screen_write s.

(** ** Text *)

Definition shell_display_banner : M Sys unit :=
  screen_write_color (c "\n") DEFAULT_COLOR ;;
  screen_write_color (c "===========================================\n") (on_black COLOR_CYAN) ;;
  screen_write_color (c " Wittche Operating System v0.9.0\n") (on_black COLOR_YELLOW) ;;
  screen_write_color (c "===========================================\n") (on_black COLOR_CYAN) ;;
  screen_write (c "\n") ;;
  screen_write (c "Welcome to Wittche OS!\n") ;;
  screen_write (c "Type 'help' for available commands.\n\n").

Definition cmd_help : M Sys unit :=
  screen_write (c "\n") ;;
  screen_write_color (c "Available Commands:\n") (on_black COLOR_YELLOW) ;;
  screen_write_color (c "==================\n") (on_black COLOR_YELLOW) ;;
  screen_write_color (c "  help") (on_black COLOR_CYAN) ;;
  screen_write (c "      - Display this help message\n") ;;
  screen_write_color (c "  clear") (on_black COLOR_CYAN) ;;
  screen_write (c "     - Clear the screen\n") ;;
  screen_write_color (c "  cls") (on_black COLOR_CYAN) ;;
  screen_write (c "       - Alias for clear\n") ;;
  screen_write_color (c "  about") (on_black COLOR_CYAN) ;;
  screen_write (c "     - Show system information\n") ;;
  screen_write_color (c "  ver") (on_black COLOR_CYAN) ;;
  screen_write (c "       - Show OS version\n") ;;
  screen_write_color (c "  mem") (on_black COLOR_CYAN) ;;
  screen_write (c "       - Display memory layout\n") ;;
  screen_write_color (c "  meminfo") (on_black COLOR_CYAN) ;;
  screen_write (c "   - Detailed memory statistics\n") ;;
  screen_write_color (c "  memtest") (on_black COLOR_CYAN) ;;
  screen_write (c "   - Test PMM and heap allocation\n") ;;
  screen_write_color (c "  ps") (on_black COLOR_CYAN) ;;
  screen_write (c "        - List running processes\n") ;;
  screen_write_color (c "  testproc") (on_black COLOR_CYAN) ;;
  screen_write (c "  - Spawn test processes A, B, C\n") ;;
  screen_write_color (c "  sleeptest") (on_black COLOR_CYAN) ;;
  screen_write (c " - Demonstrate process sleep/wake\n") ;;
  screen_write_color (c "  nice") (on_black COLOR_CYAN) ;;
  screen_write (c "      - Change process priority\n") ;;
  screen_write_color (c "  kill") (on_black COLOR_CYAN) ;;
  screen_write (c "      - Terminate a process\n") ;;
  screen_write_color (c "  ipctest") (on_black COLOR_CYAN) ;;
  screen_write (c "   - Test Inter-Process Communication\n") ;;
  screen_write_color (c "  syscalltest") (on_black COLOR_CYAN) ;;
  screen_write (c " - Test system calls (INT 0x80)\n") ;;
  screen_write_color (c "  usermodetest") (on_black COLOR_CYAN) ;;
  screen_write (c " - Test user mode (Ring 3)\n") ;;
  screen_write_color (c "  echo") (on_black COLOR_CYAN) ;;
  screen_write (c "      - Echo a message\n") ;;
  screen_write_color (c "  color") (on_black COLOR_CYAN) ;;
  screen_write (c "     - Test color output\n") ;;
  screen_write_color (c "  uptime") (on_black COLOR_CYAN) ;;
  screen_write (c "    - Show system uptime\n") ;;
  screen_write_color (c "  history") (on_black COLOR_CYAN) ;;
  screen_write (c "   - Show command history\n") ;;
  screen_write_color (c "  banner") (on_black COLOR_CYAN) ;;
  screen_write (c "    - Display welcome banner\n") ;;
  screen_write_color (c "  ramdisk") (on_black COLOR_CYAN) ;;
  screen_write (c "   - Test RAM disk read/write\n") ;;
  screen_write_color (c "  rdformat") (on_black COLOR_CYAN) ;;
  screen_write (c "  - Format (clear) RAM disk\n") ;;
  screen_write_color (c "  rdinfo") (on_black COLOR_CYAN) ;;
  screen_write (c "    - Display RAM disk information\n") ;;
  screen_write_color (c "  fsformat") (on_black COLOR_CYAN) ;;
  screen_write (c "  - Format file system\n") ;;
  screen_write_color (c "  ls") (on_black COLOR_CYAN) ;;
  screen_write (c "        - List files in directory\n") ;;
  screen_write_color (c "  touch") (on_black COLOR_CYAN) ;;
  screen_write (c "     - Create empty file\n") ;;
  screen_write_color (c "  cat") (on_black COLOR_CYAN) ;;
  screen_write (c "       - Display file contents\n") ;;
  screen_write_color (c "  rm") (on_black COLOR_CYAN) ;;
  screen_write (c "        - Delete file\n") ;;
  screen_write_color (c "  mkdir") (on_black COLOR_CYAN) ;;
  screen_write (c "     - Create directory\n") ;;
  screen_write_color (c "  write") (on_black COLOR_CYAN) ;;
  screen_write (c "     - Write text to file\n") ;;
  screen_write (c "\n").

Definition cmd_clear : M Sys unit := screen_clear.

Definition cmd_about : M Sys unit :=
  screen_write (c "\n") ;;
  screen_write_color (c "Wittche Operating System v0.9.0\n") (on_black COLOR_YELLOW) ;;
  screen_write_color (c "=================================\n") (on_black COLOR_CYAN) ;;
  screen_write (c "\n") ;;
  screen_write (c "A simple x86 operating system for educational purposes.\n\n") ;;
  screen_write_color (c "Features:\n") (on_black COLOR_GREEN) ;;
  screen_write (c "  - 32-bit protected mode kernel\n") ;;
  screen_write (c "  - Hardware interrupt handling (IDT)\n") ;;
  screen_write (c "  - Physical Memory Manager (PMM) with bitmap allocator\n") ;;
  screen_write (c "  - Kernel heap (kmalloc/kfree) with 4MB size\n") ;;
  screen_write (c "  - Paging (virtual memory) with identity mapping\n") ;;
  screen_write (c "  - Process management with PCB and multitasking\n") ;;
  screen_write (c "  - Preemptive priority-based scheduler\n") ;;
  screen_write (c "  - Context switching with full state save/restore\n") ;;
  screen_write (c "  - RAM Disk (1MB virtual disk)\n") ;;
  screen_write (c "  - WitFS file system (inode-based)\n") ;;
  screen_write (c "  - File operations (create, read, write, delete)\n") ;;
  screen_write (c "  - Programmable Interval Timer (PIT)\n") ;;
  screen_write (c "  - PS/2 keyboard driver with arrow key support\n") ;;
  screen_write (c "  - VGA text mode with hardware cursor\n") ;;
  screen_write (c "  - Proper screen scrolling\n") ;;
  screen_write (c "  - Printf-style formatted output (kprintf)\n") ;;
  screen_write (c "  - Interactive shell with tab completion\n") ;;
  screen_write (c "\n") ;;
  screen_write_color (c "Technical Info:\n") (on_black COLOR_GREEN) ;;
  screen_write (c "  Architecture:   x86 (32-bit)\n") ;;
  screen_write (c "  Kernel at:      ") ;;
  screen_write_hex 65536 ;;
  screen_write (c "\n") ;;
  screen_write (c "  Video Memory:   ") ;;
  screen_write_hex 753664 ;;
  screen_write (c "\n") ;;
  screen_write (c "  Screen Size:    80x25 characters\n") ;;
  screen_write (c "  Timer Freq:     ") ;;
  screen_write_dec TIMER_FREQUENCY ;;
  screen_write (c " Hz\n") ;;
  screen_write (c "\n").

(** [if (args && *args)] *)
Definition cmd_echo (args : option (list Z)) : M Sys unit :=
  screen_write (c "\n") ;;
  match args with
  | None => ret tt
  | Some a => let! ch := defined (head a) in if ch =? 0 then ret tt else write_str a
  end ;;
  screen_write (c "\n").

Definition cmd_color : M Sys unit :=
  screen_write (c "\n") ;;
  screen_write_color (c "Color Test:\n") (on_black COLOR_YELLOW) ;;
  screen_write_color (c "  Black ") (MAKE_COLOR COLOR_BLACK COLOR_LIGHT_GREY) ;;
  screen_write_color (c "  Blue ") (on_black COLOR_BLUE) ;;
  screen_write_color (c "  Green ") (on_black COLOR_GREEN) ;;
  screen_write_color (c "  Cyan ") (on_black COLOR_CYAN) ;;
  screen_write (c "\n") ;;
  screen_write_color (c "  Red ") (on_black COLOR_RED) ;;
  screen_write_color (c "  Magenta ") (on_black COLOR_MAGENTA) ;;
  screen_write_color (c "  Brown ") (on_black COLOR_BROWN) ;;
  screen_write_color (c "  Light Grey ") (on_black COLOR_LIGHT_GREY) ;;
  screen_write (c "\n") ;;
  screen_write_color (c "  Dark Grey ") (on_black COLOR_DARK_GREY) ;;
  screen_write_color (c "  Light Blue ") (on_black COLOR_LIGHT_BLUE) ;;
  screen_write_color (c "  Light Green ") (on_black COLOR_LIGHT_GREEN) ;;
  screen_write_color (c "  Light Cyan ") (on_black COLOR_LIGHT_CYAN) ;;
  screen_write (c "\n") ;;
  screen_write_color (c "  Light Red ") (on_black COLOR_LIGHT_RED) ;;
  screen_write_color (c "  Light Magenta ") (on_black COLOR_LIGHT_MAGENTA) ;;
  screen_write_color (c "  Yellow ") (on_black COLOR_YELLOW) ;;
  screen_write_color (c "  White ") (on_black COLOR_WHITE) ;;
  screen_write (c "\n\n").

Definition cmd_banner : M Sys unit := shell_display_banner.

Definition cmd_ver : M Sys unit :=
  kprintf (c "\n") [] ;;
  kprintf_color (on_black COLOR_YELLOW) (c "Wittche OS Version Information\n") [] ;;
  kprintf_color (on_black COLOR_CYAN) (c "==============================\n") [] ;;
  kprintf (c "\n") [] ;;
  kprintf (c "  Version:     ") [] ;;
  kprintf_color (on_black COLOR_CYAN) (c "0.9.0\n") [] ;;
  kprintf (c "  Codename:    ") [] ;;
  kprintf_color (on_black COLOR_CYAN) (c "File System\n") [] ;;
  kprintf (c "  Build Date:  ") [] ;;
  kprintf_color (on_black COLOR_CYAN) (c "2025-11\n") [] ;;
  kprintf (c "  Arch:        ") [] ;;
  kprintf_color (on_black COLOR_CYAN) (c "x86 (32-bit)\n") [] ;;
  kprintf (c "  License:     ") [] ;;
  kprintf_color (on_black COLOR_CYAN) (c "MIT\n") [] ;;
  kprintf (c "\n") [].

(** ** Reports *)

Definition cmd_uptime : M Sys unit :=
  let! ticks := on_kernel Timer.timer_get_ticks in
  let! seconds := on_kernel Timer.timer_get_seconds in
  screen_write (c "\n") ;;
  screen_write_color (c "System Uptime:\n") (on_black COLOR_YELLOW) ;;
  screen_write (c "  Time:        ") ;;
  let! uptime_buffer := on_kernel (timer_format_uptime (replicate 16 0)) in
  let! text := defined (cstring uptime_buffer) in
  screen_write_color text (on_black COLOR_CYAN) ;;
  screen_write (c "\n") ;;
  screen_write (c "  Seconds:     ") ;;
  screen_write_dec seconds ;;
  screen_write (c " s\n") ;;
  screen_write (c "  Ticks:       ") ;;
  screen_write_dec ticks ;;
  screen_write (c " (") ;;
  screen_write_dec TIMER_FREQUENCY ;;
  screen_write (c " Hz)\n") ;;
  screen_write (c "\n").

Definition cmd_history : M Sys unit :=
  screen_write (c "\n") ;;
  let! n := gets history_count in
  if n =? 0 then screen_write (c "No command history.\n") else
  screen_write_color (c "Command History:\n") (on_black COLOR_YELLOW) ;;
  for_each (seqZ 0 n) (fun i =>
    screen_write (c "  ") ;;
    screen_write_dec (i + 1) ;;
    screen_write (c ". ") ;;
    let! h := gets command_history in
    let! line := defined (h !! Z.to_nat i) in
    write_str line ;;
    screen_write (c "\n")) ;;
  screen_write (c "\n").

(** The segment registers are read with [mov]. *)
Definition cmd_mem (ds es fs gs ss : Z) : M Sys unit :=
  kprintf (c "\n") [] ;;
  kprintf_color (on_black COLOR_YELLOW) (c "Memory Layout\n") [] ;;
  kprintf_color (on_black COLOR_CYAN) (c "=============\n") [] ;;
  kprintf (c "\n") [] ;;
  kprintf_color (on_black COLOR_GREEN) (c "Kernel Memory Map:\n") [] ;;
  kprintf (c "  Bootloader:      %p (512 bytes)\n") [AInt 31744] ;;
  kprintf (c "  Kernel Code:     %p (loaded here)\n") [AInt 65536] ;;
  kprintf (c "  Stack:           %p (grows downward)\n") [AInt 589824] ;;
  kprintf (c "  VGA Text Buffer: %p (80x25 chars)\n") [AInt 753664] ;;
  kprintf (c "\n") [] ;;
  kprintf_color (on_black COLOR_GREEN) (c "Segment Registers:\n") [] ;;
  kprintf (c "  DS (Data):       0x%X\n") [AInt ds] ;;
  kprintf (c "  ES (Extra):      0x%X\n") [AInt es] ;;
  kprintf (c "  FS:              0x%X\n") [AInt fs] ;;
  kprintf (c "  GS:              0x%X\n") [AInt gs] ;;
  kprintf (c "  SS (Stack):      0x%X\n") [AInt ss] ;;
  kprintf (c "\n") [] ;;
  kprintf_color (on_black COLOR_GREEN) (c "Memory Statistics:\n") [] ;;
  let! total := pmm_get pmm_get_total_memory in
  kprintf (c "  Total RAM:       %d MB\n") [AInt (total / (1024 * 1024))] ;;
  let! used := pmm_get pmm_get_used_memory in
  let! used_pages := pmm_get pmm_get_used_pages in
  kprintf (c "  Used:            %d KB (%d pages)\n") [AInt (used / 1024); AInt used_pages] ;;
  let! free := pmm_get pmm_get_free_memory in
  let! free_pages := pmm_get pmm_get_free_pages in
  kprintf (c "  Free:            %d KB (%d pages)\n") [AInt (free / 1024); AInt free_pages] ;;
  kprintf (c "\n") [].

Definition cmd_meminfo : M Sys unit :=
  kprintf (c "\n") [] ;;
  kprintf_color (on_black COLOR_YELLOW) (c "Wittche OS Memory Information\n") [] ;;
  kprintf_color (on_black COLOR_CYAN) (c "=============================\n") [] ;;
  kprintf (c "\n") [] ;;
  kprintf_color (on_black COLOR_GREEN) (c "Physical Memory (PMM):\n") [] ;;
  let! total := pmm_get pmm_get_total_memory in
  kprintf (c "  Total Memory:    %d MB (%d bytes)\n") [AInt (total / (1024 * 1024)); AInt total] ;;
  let! used := pmm_get pmm_get_used_memory in
  kprintf (c "  Used Memory:     %d KB (%d bytes)\n") [AInt (used / 1024); AInt used] ;;
  let! free := pmm_get pmm_get_free_memory in
  kprintf (c "  Free Memory:     %d KB (%d bytes)\n") [AInt (free / 1024); AInt free] ;;
  let! pages := pmm_get pmm_get_total_pages in
  kprintf (c "  Total Pages:     %d (4KB each)\n") [AInt pages] ;;
  let! pages := pmm_get pmm_get_used_pages in
  kprintf (c "  Used Pages:      %d\n") [AInt pages] ;;
  let! pages := pmm_get pmm_get_free_pages in
  kprintf (c "  Free Pages:      %d\n") [AInt pages] ;;
  let usage_percent := u32 (used * 100) / total in
  kprintf (c "  Usage:           %d%%\n") [AInt usage_percent] ;;
  kprintf (c "\n") [] ;;
  kprintf_color (on_black COLOR_GREEN) (c "Kernel Heap:\n") [] ;;
  kprintf (c "  Heap Start:      0x%X\n") [AInt Heap.HEAP_START] ;;
  let! size := on_heap heap_get_total_size in
  kprintf (c "  Heap Size:       %d MB (%d bytes)\n") [AInt (size / (1024 * 1024)); AInt size] ;;
  let! used := on_heap heap_get_used_size in
  kprintf (c "  Used:            %d KB (%d bytes)\n") [AInt (used / 1024); AInt used] ;;
  let! free := on_heap heap_get_free_size in
  kprintf (c "  Free:            %d KB (%d bytes)\n") [AInt (free / 1024); AInt free] ;;
  let! n := on_heap heap_get_block_count in
  kprintf (c "  Total Blocks:    %d\n") [AInt n] ;;
  let! n := on_heap heap_get_free_block_count in
  kprintf (c "  Free Blocks:     %d\n") [AInt n] ;;
  let heap_usage := if 0 <? size then u32 (used * 100) / size else 0 in
  kprintf (c "  Usage:           %d%%\n") [AInt heap_usage] ;;
  kprintf (c "\n") [] ;;
  kprintf_color (on_black COLOR_GREEN) (c "Virtual Memory (Paging):\n") [] ;;
  kprintf (c "  Status:          ") [] ;;
  kprintf_color (on_black COLOR_CYAN) (c "ENABLED\n") [] ;;
  kprintf (c "  Page Size:       4 KB\n") [] ;;
  let! dir := on_mm Paging.paging_get_directory in
  kprintf (c "  Page Directory:  0x%X\n") [AInt dir] ;;
  kprintf (c "  Identity Map:    First 16 MB\n") [] ;;
  kprintf (c "\n") [] ;;
  kprintf_color (on_black COLOR_GREEN) (c "Memory Usage Bar:\n") [] ;;
  kprintf (c "  [") [] ;;
  let bars := u32 (usage_percent * 50) / 100 in
  for_each (seqZ 0 50) (fun i =>
    if i <? bars then kprintf_color (on_black COLOR_LIGHT_GREEN) (c "=") []
    else kprintf_color (on_black COLOR_DARK_GREY) (c "-") []) ;;
  kprintf (c "] %d%%\n") [AInt usage_percent] ;;
  kprintf (c "\n") [].

(** The name and the colour of a state in the table of [cmd_ps]. *)
Definition state_str (st : Z) : list Z * Z :=
  if st =? PROCESS_STATE_READY then (c "READY", on_black COLOR_CYAN)
  else if st =? PROCESS_STATE_RUNNING then (c "RUNNING", on_black COLOR_LIGHT_GREEN)
  else if st =? PROCESS_STATE_BLOCKED then (c "BLOCKED", on_black COLOR_YELLOW)
  else if st =? PROCESS_STATE_TERMINATED then (c "TERM", on_black COLOR_RED)
  else (c "UNKNOWN", on_black COLOR_DARK_GREY).

(** One slot of the table; the result is the count of the rows. *)
Definition ps_row (proc_table : list Z) (current : Z) (i : nat) (count : Z) : M Sys (Z + unit) :=
  let p := proc_table !!! i in
  if p =? 0 then ret (inl count) else
  let! v := on_kernel (load_pcb p) in
  (if p =? current then kprintf_color (on_black COLOR_LIGHT_GREEN) (c "%-4d ") [AInt (pid v)]
   else kprintf (c "%-4d ") [AInt (pid v)]) ;;
  let! nm := defined (cstring (name v)) in
  kprintf (c "%-20s ") [AStr (Some nm)] ;;
  let '(str, color) := state_str (state v) in
  kprintf_color color (c "%-9s  ") [AStr (Some str)] ;;
  kprintf (c "%-8d  %-8d\n") [AInt (priority v); AInt (total_time v)] ;;
  ret (inl (count + 1)).

Definition cmd_ps : M Sys unit :=
  kprintf (c "\n") [] ;;
  kprintf_color (on_black COLOR_YELLOW) (c "Process List\n") [] ;;
  kprintf_color (on_black COLOR_CYAN) (c "============\n") [] ;;
  kprintf (c "\n") [] ;;
  let! proc_table := on_kernel process_get_table in
  let! current := on_kernel process_current in
  kprintf_color (on_black COLOR_GREEN) (c "PID  NAME                 STATE      PRIORITY  TIME(ms)\n") [] ;;
  kprintf (c "---  -------------------  ---------  --------  --------\n") [] ;;
  let! r := for_state table_indices (ps_row proc_table current) 0 in
  let count := match r with inl n => n | inr _ => 0 end in
  kprintf (c "\n") [] ;;
  kprintf (c "Total processes: %d\n") [AInt count] ;;
  kprintf (c "Current process: ") [] ;;
  (if current =? 0 then kprintf (c "None\n") [] else
   let! v := on_kernel (load_pcb current) in
   let! nm := defined (cstring (name v)) in
   kprintf_color (on_black COLOR_LIGHT_GREEN) (c "%s (PID %d)\n") [AStr (Some nm); AInt (pid v)]) ;;
  kprintf (c "\n") [].

(** ** The memory test *)

(** The pages taken so far, or the failure at page [i]. *)
Definition take_test_page (i : Z) (pages : list Z) : M Sys (list Z + unit) :=
  let! page := on_mm (on_pmm Pmm.pmm_alloc_page) in
  if page =? 0 then
    kprintf_color (on_black COLOR_RED) (c "  FAILED: Could not allocate page %d\n") [AInt i] ;; ret (inr tt)
  else
    kprintf (c "  Page %d allocated at: 0x%X\n") [AInt (i + 1); AInt page] ;;
    ret (inl (pages ++ [page])).

Definition report_blocks : M Sys unit :=
  let! n := on_heap heap_get_block_count in
  let! m := on_heap heap_get_free_block_count in
  kprintf (c "  Heap Blocks:     %d total, %d free\n") [AInt n; AInt m].

(** [for (i = 0; i < 100; i++) test[i] = 'A' + (i % 26);] *)
Definition test_pattern : list Z := map (fun i => 65 + i mod 26) (seqZ 0 100).

Definition free_if (ptr : Z) : M Sys unit := if ptr =? 0 then ret tt else on_heap (kfree ptr).

(** Tests 2, 3 and the first half of 4. *)
Definition memtest_heap : M Sys unit :=
  kprintf_color (on_black COLOR_YELLOW) (c "Test 2: Heap Allocation (kmalloc)\n") [] ;;
  kprintf (c "  Allocating 1 KB, 2 KB, 4 KB blocks...\n") [] ;;
  let! ptr1 := on_heap (kmalloc 1024) in
  let! ptr2 := on_heap (kmalloc 2048) in
  let! ptr3 := on_heap (kmalloc 4096) in
  (if (ptr1 =? 0) || (ptr2 =? 0) || (ptr3 =? 0) then
     kprintf_color (on_black COLOR_RED) (c "  FAILED: Heap allocation failed\n") []
   else
     kprintf (c "  Block 1 (1 KB):  0x%X\n") [AInt ptr1] ;;
     kprintf (c "  Block 2 (2 KB):  0x%X\n") [AInt ptr2] ;;
     kprintf (c "  Block 3 (4 KB):  0x%X\n") [AInt ptr3] ;;
     kprintf_color (on_black COLOR_GREEN) (c "  SUCCESS: All blocks allocated\n") [] ;;
     let! free := on_heap heap_get_free_size in
     kprintf (c "  Heap Free:       %d KB\n") [AInt (free / 1024)] ;;
     report_blocks) ;;
  kprintf (c "\n") [] ;;
  kprintf_color (on_black COLOR_YELLOW) (c "Test 3: Memory Write Test\n") [] ;;
  (if ptr1 =? 0 then ret tt else
     kprintf (c "  Writing pattern to allocated memory...\n") [] ;;
     on_heap (heap_store ptr1 (test_pattern ++ [0])) ;;
     let! test := on_heap (heap_load ptr1 101) in
     let! test := defined (cstring test) in
     kprintf (c "  Pattern: %.50s...\n") [AStr (Some test)] ;;
     kprintf_color (on_black COLOR_GREEN) (c "  SUCCESS: Memory write/read works\n") []) ;;
  kprintf (c "\n") [] ;;
  kprintf_color (on_black COLOR_YELLOW) (c "Test 4: Free Memory\n") [] ;;
  kprintf (c "  Freeing heap blocks...\n") [] ;;
  free_if ptr1 ;;
  free_if ptr2 ;;
  free_if ptr3 ;;
  let! free := on_heap heap_get_free_size in
  kprintf (c "  Heap Free:       %d KB (should be back to initial)\n") [AInt (free / 1024)] ;;
  report_blocks.

Definition cmd_memtest : M Sys unit :=
  kprintf (c "\n") [] ;;
  kprintf_color (on_black COLOR_YELLOW) (c "Memory Management Test\n") [] ;;
  kprintf_color (on_black COLOR_CYAN) (c "======================\n") [] ;;
  kprintf (c "\n") [] ;;
  kprintf_color (on_black COLOR_GREEN) (c "Initial State:\n") [] ;;
  let! n := pmm_get pmm_get_free_pages in
  kprintf (c "  PMM Free Pages:  %d\n") [AInt n] ;;
  let! free := on_heap heap_get_free_size in
  kprintf (c "  Heap Free:       %d KB\n") [AInt (free / 1024)] ;;
  kprintf (c "\n") [] ;;
  kprintf_color (on_black COLOR_YELLOW) (c "Test 1: PMM Page Allocation\n") [] ;;
  kprintf (c "  Allocating 5 pages (20 KB)...\n") [] ;;
  let! r := for_state (seqZ 0 5) take_test_page [] in
  match r with
  | inr _ => ret tt
  | inl pages =>
      kprintf_color (on_black COLOR_GREEN) (c "  SUCCESS: All pages allocated\n") [] ;;
      let! n := pmm_get pmm_get_free_pages in
      kprintf (c "  PMM Free Pages:  %d (should be 5 less)\n") [AInt n] ;;
      kprintf (c "\n") [] ;;
      memtest_heap ;;
      kprintf (c "\n  Freeing PMM pages...\n") [] ;;
      for_each pages (fun page => on_mm (on_pmm (Pmm.pmm_free_page page))) ;;
      let! n := pmm_get pmm_get_free_pages in
      kprintf (c "  PMM Free Pages:  %d (should be back to initial)\n") [AInt n] ;;
      kprintf_color (on_black COLOR_GREEN) (c "  SUCCESS: All memory freed\n") [] ;;
      kprintf (c "\n") [] ;;
      kprintf_color (on_black COLOR_GREEN) (c "All Tests Passed! ") [] ;;
      kprintf_color (on_black COLOR_WHITE) (c "Memory management is working correctly.\n") [] ;;
      kprintf (c "\n") []
  end.

(** ** History *)

(** [strcpy(command_history[i], command_history[i + 1])] *)
Definition shift_entry (i : nat) : M Sys unit :=
  let! h := gets command_history in
  let! src := defined (h !! S i) in
  let! dest := defined (h !! i) in
  let! line := defined (strcpy dest src) in
  modify (fun s => set_history (<[i := line]> (command_history s)) (history_count s) s).

Definition shell_add_history (command : option (list Z)) : M Sys unit :=
  match command with
  | None => ret tt
  | Some command =>
      let! ch := defined (head command) in
      if ch =? 0 then ret tt else
      let! n := gets history_count in
      let! h := gets command_history in
      let! same := if 0 <? n then
                     let! last := defined (h !! Z.to_nat (n - 1)) in
                     let! r := defined (strcmp last command) in ret (r =? 0)
                   else ret false in
      if same then ret tt else
      (if MAX_HISTORY <=? n then
         for_each (seq 0 9) shift_entry ;;
         modify (fun s => set_history (command_history s) (MAX_HISTORY - 1) s)
       else ret tt) ;;
      let! n := gets history_count in
      let! h := gets command_history in
      let! dest := defined (h !! Z.to_nat n) in
      let! line := defined (strncpy dest command (MAX_CMD_LENGTH - 1)) in
      modify (fun s => set_history (<[Z.to_nat n := <[255%nat := 0]> line]> (command_history s)) (n + 1) s)
  end.

End shell.

(** ** The history keeps the last ten lines *)

(** The lines the history holds, oldest first. *)
Record history_ok {H} (s : system H) (l : list (list Z)) : Prop := {
  ho_rows : length (command_history s) = 10%nat;
  ho_size : Forall (fun a => length a = 256%nat) (command_history s);
  ho_count : history_count s = Z.of_nat (length l);
  ho_full : (length l <= 10)%nat;
  ho_lines : forall i t, l !! i = Some t -> exists a, command_history s !! i = Some a /\ holds a t
}.

(** A new line goes to the end, unless it repeats the last one; the oldest line
    makes room for it when there are ten. *)
Definition remember (l : list (list Z)) (t : list Z) : list (list Z) :=
  if decide (list.last l = Some t) then l else drop (S (length l) - 10) l ++ [t].

Section history.
Context {H : Type}.
Implicit Types s : system H.

Lemma history_row s l i : history_ok s l -> (i < 10)%nat -> exists a, command_history s !! i = Some a /\ length a = 256%nat.
Proof.
  intros Hok Hi. destruct (lookup_lt_is_Some_2 (command_history s) i) as [a Ha]; [rewrite (ho_rows s l Hok); lia|].
  exists a. split; [done|]. by apply (proj1 (list.Forall_lookup _ _) (ho_size s l Hok) _ _ Ha).
Qed.

(** The shifting loop: after [n] rounds the first [n] rows hold the next lines. *)
Lemma exec_shift s l : history_ok s l -> length l = 10%nat -> forall n, (n <= 9)%nat ->
  exists s', exec (for_each (seq 0 n) shift_entry) s = (Val tt, s') /\ sys_kernel s' = sys_kernel s /\ sys_fs s' = sys_fs s /\
    history_count s' = history_count s /\ length (command_history s') = 10%nat /\
    Forall (fun a => length a = 256%nat) (command_history s') /\
    (forall i t, (i < n)%nat -> l !! S i = Some t -> exists a, command_history s' !! i = Some a /\ holds a t) /\
    (forall i, (n <= i)%nat -> command_history s' !! i = command_history s !! i).
Proof.
  intros Hok Hl. induction n as [|n IH]; intros Hn.
  - exists s. split_and!; try done; [apply Hok|apply Hok|lia].
  - destruct IH as (s1 & E1 & Hk & Hf & Hc & Hr & Hz & Hdone & Hrest); [lia|].
    rewrite seq_S, exec_for_each_app, E1. cbv iota. cbn [Nat.add]. cbv beta iota delta [for_each]. unfold shift_entry at 1. run.
    destruct (lookup_lt_is_Some_2 l (S n)) as [t Ht]; [lia|]. destruct (ho_lines s l Hok _ _ Ht) as (a & Ha & Hat).
    rewrite (Hrest (S n)) by lia. rewrite Ha. run. destruct (lookup_lt_is_Some_2 (command_history s1) n) as [d Hd]; [lia|].
    rewrite Hd. run. pose proof (proj1 (list.Forall_lookup _ _) Hz _ _ Hd) as Hld.
    assert (length t < 256)%nat as Hlt.
    { pose proof (proj1 (list.Forall_lookup _ _) (ho_size s l Hok) _ _ Ha) as Hla. cbn in Hla. destruct Hat as (u & -> & _).
      rewrite length_app in Hla. cbn in Hla. lia. }
    destruct (strcpy_holds a t d Hat ltac:(cbn in Hld; lia)) as (d' & Ed & Hd' & Hld'). rewrite Ed. run.
    eexists. split; [done|]. cbn [set_history sys_kernel sys_fs history_count command_history]. rewrite length_insert. split_and!; try done.
    + apply Forall_insert; [done|]. cbn in Hld. lia.
    + intros i t' Hi Ht'. destruct (decide (i = n)) as [->|Hne].
      * rewrite Ht in Ht'. injection Ht' as <-. exists d'. split; [apply list_lookup_insert_eq; lia|done].
      * rewrite list_lookup_insert_ne by lia. apply Hdone; [lia|done].
    + intros i Hi. rewrite list_lookup_insert_ne by lia. apply Hrest. lia.
Qed.

(** Room for one more line: the history as it is before the new line is stored. *)
Lemma exec_make_room s l : history_ok s l ->
  exists s', exec (if MAX_HISTORY <=? history_count s then
      for_each (seq 0 9) shift_entry ;; modify (fun s => set_history (command_history s) (MAX_HISTORY - 1) s) else ret tt) s = (Val tt, s') /\
    sys_kernel s' = sys_kernel s /\ sys_fs s' = sys_fs s /\ history_ok s' (drop (S (length l) - 10) l) /\
    (length (drop (S (length l) - 10) l) < 10)%nat.
Proof.
  intros Hok. pose proof Hok as [Hr Hz Hc Hf Hl]. unfold MAX_HISTORY. rewrite Hc.
  destruct (Z.leb_spec 10 (Z.of_nat (length l))) as [Hge|Hlt].
  - assert (length l = 10%nat) as Hlen by lia. rewrite Hlen. cbn [Nat.sub]. rewrite exec_bind.
    destruct (exec_shift s l Hok Hlen 9 ltac:(lia)) as (s' & -> & Hk & Hfs & _ & Hr' & Hz' & Hdone & _). run.
    eexists. split; [done|]. cbn [set_history sys_kernel sys_fs]. rewrite length_drop. split_and!; [done|done| |lia].
    split; cbn [set_history command_history history_count]; [done|done|rewrite length_drop; lia|rewrite length_drop; lia|].
    intros i t Ht. rewrite lookup_drop in Ht. apply Hdone; [|done]. apply lookup_lt_Some in Ht. lia.
  - exists s. rewrite exec_ret. replace (S (length l) - 10)%nat with 0%nat by lia. rewrite drop_0. split_and!; (done || lia).
Qed.

(** The last line of the history is the one the new command is compared with. *)
Lemma exec_same_as_last s l command t : history_ok s l -> holds command t ->
  exec (if 0 <? history_count s then
          let! last := defined (command_history s !! Z.to_nat (history_count s - 1)) in
          let! r := defined (strcmp last command) in ret (r =? 0)
        else ret false) s = (Val (bool_decide (list.last l = Some t)), s).
Proof.
  intros [Hr Hz Hc Hf Hl] Ht. rewrite Hc. destruct (list.last l) as [u|] eqn:El.
  - rewrite last_lookup in El. destruct (Hl _ _ El) as (a & Ha & Hau). pose proof (lookup_lt_Some _ _ _ El).
    rewrite (proj2 (Z.ltb_lt _ _)) by lia. replace (Z.to_nat (Z.of_nat (length l) - 1)) with (pred (length l)) by lia.
    rewrite Ha. run. destruct (strcmp_holds u t a command Hau Ht) as (v & -> & Hv). run. rewrite Hv.
    do 2 f_equal. apply bool_decide_ext. split; [by intros ->|by intros [= ->]].
  - apply last_None in El. subst l. cbn [length Z.of_nat]. cbn [Z.ltb Z.compare]. by rewrite bool_decide_false.
Qed.

(** [shell_add_history] of a line of at most 255 characters is [remember], and
    touches nothing but the history. *)
Lemma exec_add_history s l command t : history_ok s l -> holds command t -> t <> [] -> (length t <= 255)%nat ->
  exists s', exec (shell_add_history (Some command)) s = (Val tt, s') /\ history_ok s' (remember l t) /\
    sys_kernel s' = sys_kernel s /\ sys_fs s' = sys_fs s.
Proof.
  intros Hok Ht Hne Hlen.
  destruct t as [|ch t']; [done|]. set (t := ch :: t') in *. pose proof (holds_inv _ _ Ht) as (Hch & rest & -> & _).
  unfold shell_add_history. cbn [head]. rewrite exec_bind, exec_defined_Some. cbv iota. rewrite (proj2 (Z.eqb_neq _ _) Hch).
  rewrite exec_bind, exec_gets. cbv iota. rewrite exec_bind, exec_gets. cbv iota.
  rewrite exec_bind, (exec_same_as_last s l _ t Hok Ht). cbv iota. unfold remember. case_bool_decide as Hlast.
  { exists s. rewrite decide_True by done. by rewrite exec_ret. }
  rewrite decide_False by done. destruct (exec_make_room s l Hok) as (s1 & E1 & Hk1 & Hf1 & Hok1 & Hlt1).
  rewrite exec_bind, E1. cbv iota. set (l1 := drop _ l) in *. run.
  destruct (history_row s1 l1 (length l1) Hok1 Hlt1) as (d & Hd & Hld). rewrite (ho_count s1 l1 Hok1), Nat2Z.id, Hd. run.
  destruct (strncpy_line 255 (ch :: rest) t d Ht Hlen Hld) as (d' & Ed & Hd' & Hld'). change (MAX_CMD_LENGTH - 1) with (Z.of_nat 255).
  rewrite Ed. run. eexists. split; [done|]. cbn [set_history sys_kernel sys_fs]. split_and!; [|done|done].
  destruct Hok1 as [Hr Hz Hc Hf Hl]. split; cbn [set_history command_history history_count].
  - by rewrite length_insert.
  - apply Forall_insert; [done|]. rewrite length_insert. lia.
  - rewrite length_app. cbn [length]. lia.
  - rewrite length_app. cbn [length]. lia.
  - intros i u Hu. apply lookup_app_Some in Hu as [Hu|[Hge Hu]].
    + pose proof (lookup_lt_Some _ _ _ Hu). rewrite list_lookup_insert_ne by lia. by apply Hl.
    + assert (i = length l1) as -> by (apply lookup_lt_Some in Hu; change (length [t]) with 1%nat in Hu; lia). rewrite Nat.sub_diag in Hu. injection Hu as <-.
      eexists. split; [apply list_lookup_insert_eq; lia|done].
Qed.

Lemma exec_add_all cmds lines : Forall2 (fun cmd t => holds cmd t /\ t <> [] /\ (length t <= 255)%nat) cmds lines ->
  forall s l, history_ok s l -> exists s', exec (for_each cmds (fun cmd => shell_add_history (Some cmd))) s = (Val tt, s') /\
    history_ok s' (foldl remember l lines) /\ sys_kernel s' = sys_kernel s /\ sys_fs s' = sys_fs s.
Proof.
  induction 1 as [|cmd t cmds lines (Hc & Ht & Hlt) _ IH]; intros s l Hok; cbn [foldl]; [by exists s|].
  destruct (exec_add_history s l cmd t Hok Hc Ht Hlt) as (s1 & E1 & Hok1 & Hk1 & Hf1). rewrite exec_for_each_cons, E1. cbv iota.
  destruct (IH s1 _ Hok1) as (s2 & E2 & Hok2 & Hk2 & Hf2). exists s2. by rewrite E2, Hk2, Hf2.
Qed.

End history.

(** Without the lines that repeat the one before them. *)
Fixpoint squeeze (l : list (list Z)) : list (list Z) :=
  match l with
  | x :: r => match r with y :: _ => if decide (x = y) then squeeze r else x :: squeeze r | [] => [x] end
  | [] => []
  end.

Lemma squeeze_snoc l t : squeeze (l ++ [t]) = if decide (list.last l = Some t) then squeeze l else squeeze l ++ [t].
Proof.
  induction l as [|x [|y r] IH]; cbn [app squeeze] in *; [done| |].
  - destruct (decide (x = t)) as [->|Hne]; [by rewrite decide_True|]. rewrite decide_False; [done|]. cbn. congruence.
  - rewrite last_cons_cons. destruct (decide (x = y)) as [->|]; [exact IH|]. rewrite IH. by destruct (decide _).
Qed.

Lemma last_squeeze l : list.last (squeeze l) = list.last l.
Proof.
  induction l as [|t l IH] using rev_ind; [done|]. rewrite squeeze_snoc, last_snoc. case_decide as E; [congruence|apply last_snoc].
Qed.

Definition last_ten (l : list (list Z)) : list (list Z) := drop (length l - 10) l.

Lemma last_last_ten l : list.last (last_ten l) = list.last l.
Proof.
  unfold last_ten. destruct l as [|t l] using rev_ind; [done|]. rewrite length_app. cbn [length].
  rewrite drop_app_le, !last_snoc by lia. done.
Qed.

Lemma remember_all lines : foldl remember [] lines = last_ten (squeeze lines).
Proof.
  induction lines as [|t l IH] using rev_ind; [done|]. rewrite foldl_snoc, IH, squeeze_snoc. unfold remember.
  rewrite last_last_ten, last_squeeze. destruct (decide (list.last l = Some t)); [done|]. unfold last_ten.
  rewrite length_app, length_drop. cbn [length]. rewrite drop_app_le by lia. f_equal.
  rewrite drop_drop. f_equal. lia.
Qed.

(** C35: Whatever lines of at most 255 characters are entered, the history holds the
    last ten of them, in order, a line that repeats the one before it counted
    once; nothing else of the system changes. *)
Theorem history_keeps_last_ten {H} (s : system H) (cmds lines : list (list Z)) (Hok : history_ok s [])
    (Hlines : Forall2 (fun cmd t => holds cmd t /\ t <> [] /\ (length t <= 255)%nat) cmds lines) :
  exists s', exec (for_each cmds (fun cmd => shell_add_history (Some cmd))) s = (Val tt, s') /\
    history_ok s' (last_ten (squeeze lines)) /\ sys_kernel s' = sys_kernel s /\ sys_fs s' = sys_fs s.
Proof. rewrite <- remember_all. by apply exec_add_all. Qed.

(** A system before anything was set up. *)
Definition blank_mm : mm := mk_mm (fun _ => 0) (mk_pmm (replicate 128 0) 0) 0 0 0 (fun _ => None).
Definition blank_kernel {H} (h : H) : kernel H mm := mk_kernel h blank_mm ∅ ∅ ∅ (replicate 16 0) 0 1 0 0 0 0.
Definition blank_fs : fs_t unit :=
  mk_fs tt (mk_ramdisk 0 (fun _ => 0) 0 0 0 0) (decode_sb (replicate 512 0)) null_buf null_buf (replicate 16 (mk_file 0 0 0 0)) 0 0.
Definition blank_system {H} (h : H) : system H := mk_system (blank_kernel h) blank_fs (replicate 10 (replicate 256 0)) 0.

Lemma blank_history {H} (h : H) : history_ok (blank_system h) [].
Proof.
  split; cbn [blank_system command_history history_count length]; [apply length_replicate| |done|lia|done].
  apply Forall_replicate, length_replicate.
Qed.

Lemma history_keeps_last_ten_witness :
  exists s', exec (for_each [c "ls" ++ [0]; c "ls" ++ [0]; c "ps" ++ [0]] (fun cmd => shell_add_history (Some cmd))) (blank_system tt) =
    (Val tt, s') /\ history_ok s' [c "ls"; c "ps"].
Proof.
  destruct (history_keeps_last_ten (blank_system tt) [c "ls" ++ [0]; c "ls" ++ [0]; c "ps" ++ [0]] [c "ls"; c "ls"; c "ps"])
    as (s' & E & Hok & _).
  - exact (blank_history tt).
  - repeat constructor; try (exists []; split; [reflexivity|by repeat constructor]); try discriminate; cbn; lia.
  - exists s'. split; [exact E|exact Hok].
Defined.
