(* ===== verification/ShellFs.v ===== *)
(** * shell.c: the commands for the RAM disk and the file system

    The commands are sequences of calls of ramdisk.c and fs.c with messages in
    between.  A buffer of the heap is a [buf], as in the model of fs.c. *)

From S2P Require Import Prelude CString Bytes Alloc RamDisk Fs Paging Process Shell.

Definition grey_dark : Z := on_black COLOR_DARK_GREY.
Definition magenta : Z := on_black COLOR_MAGENTA.

(** The number of positions where two arrays differ. *)
Fixpoint mismatches (a b : list Z) : Z :=
  match a, b with
  | x :: a', y :: b' => (if x =? y then 0 else 1) + mismatches a' b'
  | _, _ => 0
  end.

Definition test_msg : list Z := c "Hello from Wittche OS RAM Disk! This is a test message.".

Section shell_fs.
Context {H : Type} `{KmallocOps H} `{HeapStats H}.
Abbreviation Sys := (system H).

Definition alloc_buf (size : Z) : M Sys buf := let! p := on_heap (kmalloc size) in ret (mk_buf p Uninit).
Definition free_buf (b : buf) : M Sys unit := on_heap (kfree (b_ptr b)).
Definition fill (b : buf) (l : list Z) : buf := mk_buf (b_ptr b) (Bytes l).

(** ** The RAM disk *)

Definition cmd_rdinfo : M Sys unit :=
  screen_write_color (c "[CMD_RDINFO] Function called!\n") magenta ;;
  screen_write (c "\n") ;;
  screen_write_color (c "[CMD_RDINFO] Writing header...\n") magenta ;;
  screen_write (c "RAM Disk Information\n") ;;
  screen_write (c "====================\n") ;;
  screen_write (c "\n") ;;
  screen_write_color (c "[CMD_RDINFO] Checking if RAM disk is initialized...\n") magenta ;;
  let! up := on_disk ramdisk_is_initialized in
  if up =? 0 then
    screen_write_color (c "[CMD_RDINFO] RAM disk NOT initialized!\n") red ;;
    screen_write (c "Error: RAM Disk is not initialized!\n") ;;
    screen_write (c "\n")
  else
  screen_write_color (c "[CMD_RDINFO] RAM disk is initialized\n") magenta ;;
  let! rd := on_disk ramdisk_get_info in
  screen_write (c "Status:\n") ;;
  screen_write (c "  Initialized:     YES\n") ;;
  screen_write (c "  Base Address:    0x") ;;
  screen_write_hex (rd_ptr rd) ;;
  screen_write (c "\n\n") ;;
  screen_write (c "Configuration:\n") ;;
  screen_write (c "  Total Size:      ") ;;
  screen_write_dec (rd_size rd) ;;
  screen_write (c " bytes (") ;;
  screen_write_dec (rd_size rd / 1024) ;;
  screen_write (c " KB / ") ;;
  screen_write_dec (rd_size rd / (1024 * 1024)) ;;
  screen_write (c " MB)\n") ;;
  screen_write (c "  Block Size:      ") ;;
  screen_write_dec (rd_block_size rd) ;;
  screen_write (c " bytes\n") ;;
  screen_write (c "  Block Count:     ") ;;
  screen_write_dec (rd_block_count rd) ;;
  screen_write (c " blocks\n\n") ;;
  screen_write (c "Technical Details:\n") ;;
  screen_write (c "  Type:            Virtual disk in RAM\n") ;;
  screen_write (c "  Speed:           Memory speed (very fast)\n") ;;
  screen_write (c "  Volatile:        Yes (data lost on reboot)\n") ;;
  screen_write (c "  Purpose:         Foundation for file system\n") ;;
  screen_write (c "\n").

Definition cmd_rdformat : M Sys unit :=
  screen_write_color (c "[CMD_RDFORMAT] Function called!\n") magenta ;;
  screen_write (c "\n") ;;
  screen_write (c "RAM Disk Format\n") ;;
  screen_write (c "===============\n") ;;
  screen_write (c "\n") ;;
  screen_write_color (c "[CMD_RDFORMAT] Checking if RAM disk is initialized...\n") magenta ;;
  let! up := on_disk ramdisk_is_initialized in
  if up =? 0 then
    screen_write_color (c "[CMD_RDFORMAT] RAM disk NOT initialized!\n") red ;;
    screen_write (c "Error: RAM Disk is not initialized!\n") ;;
    screen_write (c "\n")
  else
  screen_write_color (c "[CMD_RDFORMAT] Calling ramdisk_format()...\n") magenta ;;
  screen_write (c "Formatting RAM disk (clearing all data)...\n") ;;
  on_disk ramdisk_format ;;
  screen_write_color (c "[CMD_RDFORMAT] ramdisk_format() completed\n") magenta ;;
  screen_write (c "RAM Disk formatted successfully!\n") ;;
  screen_write (c "All blocks cleared to zero.\n") ;;
  screen_write (c "\n").

(** Test 5: the write loop and the loop that counts the blocks with errors. *)
Definition write_letter (write_buffer : buf) (block : Z) : M Sys unit :=
  on_disk (ramdisk_write_block block (fill write_buffer (replicate 512 (65 + (block - 10))))) ;; ret tt.

Definition verify_letter (block : Z) (st : buf * Z) : M Sys (buf * Z + unit) :=
  let '(read_buffer, block_errors) := st in
  let! ' (_, read_buffer) := on_disk (ramdisk_read_block block read_buffer) in
  let! l := defined (bytes_of read_buffer) in
  ret (inl (read_buffer, if forallb (fun x => x =? 65 + (block - 10)) (take 512 l) then block_errors else block_errors + 1)).

Definition report_errors (errors : Z) (ok what : list Z) : M Sys unit :=
  if errors =? 0 then screen_write ok else
  screen_write (c "  FAILED: ") ;;
  screen_write_dec errors ;;
  screen_write what.

Definition ramdisk_tests (rd : ramdisk_t) (write_buffer read_buffer : buf) : M Sys unit :=
  screen_write (c "Test 1: Write Pattern to Block 0\n") ;;
  screen_write (c "  Preparing test data...\n") ;;
  let write_buffer := fill write_buffer (map (fun i => i mod 256) (seqZ 0 512)) in
  screen_write (c "  Writing block 0...\n") ;;
  let! r := on_disk (ramdisk_write_block 0 write_buffer) in
  if negb (r =? 0) then
    screen_write (c "  FAILED: Write error\n") ;;
    screen_write (c "\n") ;;
    free_buf write_buffer ;; free_buf read_buffer
  else
  screen_write (c "  SUCCESS: Block written\n") ;;
  screen_write (c "\n") ;;
  screen_write (c "Test 2: Read and Verify Block 0\n") ;;
  screen_write (c "  Reading block 0...\n") ;;
  let! ' (r, read_buffer) := on_disk (ramdisk_read_block 0 read_buffer) in
  if negb (r =? 0) then
    screen_write (c "  FAILED: Read error\n") ;;
    screen_write (c "\n") ;;
    free_buf write_buffer ;; free_buf read_buffer
  else
  screen_write (c "  SUCCESS: Block read\n") ;;
  screen_write (c "  Verifying data...\n") ;;
  let! l := defined (bytes_of read_buffer) in
  let! w := defined (bytes_of write_buffer) in
  report_errors (mismatches l w) (c "  SUCCESS: Data verified (0 errors)\n") (c " byte mismatches\n") ;;
  screen_write (c "\n") ;;
  screen_write (c "Test 3: Write ASCII Text to Block 1\n") ;;
  let! text := defined (strcpy (replicate 512 0) (test_msg ++ [0])) in
  let write_buffer := fill write_buffer text in
  screen_write (c "  Writing: '") ;;
  screen_write test_msg ;;
  screen_write (c "'\n") ;;
  on_disk (ramdisk_write_block 1 write_buffer) ;;
  screen_write (c "  SUCCESS: Text written to block 1\n") ;;
  screen_write (c "\n") ;;
  screen_write (c "Test 4: Read Text from Block 1\n") ;;
  let! ' (_, read_buffer) := on_disk (ramdisk_read_block 1 (fill read_buffer (replicate 512 0))) in
  screen_write (c "  Read back: '") ;;
  let! l := defined (bytes_of read_buffer) in
  write_str l ;;
  screen_write (c "'\n") ;;
  let! r := defined (strcmp l (test_msg ++ [0])) in
  (if r =? 0 then screen_write (c "  SUCCESS: Text matches perfectly\n")
   else screen_write (c "  FAILED: Text mismatch\n")) ;;
  screen_write (c "\n") ;;
  screen_write (c "Test 5: Multiple Block Operations\n") ;;
  screen_write (c "  Writing to 10 different blocks...\n") ;;
  for_each (seqZ 10 10) (write_letter write_buffer) ;;
  screen_write (c "  Reading back and verifying...\n") ;;
  let! r := for_state (seqZ 10 10) verify_letter (read_buffer, 0) in
  let block_errors := match r with inl (_, n) => n | inr _ => 0 end in
  report_errors block_errors (c "  SUCCESS: All 10 blocks verified\n") (c " blocks had errors\n") ;;
  screen_write (c "\n") ;;
  screen_write (c "RAM Disk Test Complete!\n") ;;
  screen_write (c "Total blocks available: ") ;;
  screen_write_dec (rd_block_count rd) ;;
  screen_write (c "\n") ;;
  screen_write (c "Blocks tested: 12 (blocks 0, 1, and 10-19)\n") ;;
  screen_write (c "\n") ;;
  free_buf write_buffer ;;
  free_buf read_buffer.

Definition cmd_ramdisk : M Sys unit :=
  screen_write_color (c "[CMD_RAMDISK] Function called!\n") magenta ;;
  screen_write (c "\n") ;;
  screen_write (c "RAM Disk Test\n") ;;
  screen_write (c "=============\n") ;;
  screen_write (c "\n") ;;
  screen_write_color (c "[CMD_RAMDISK] Checking if RAM disk is initialized...\n") magenta ;;
  let! up := on_disk ramdisk_is_initialized in
  if up =? 0 then
    screen_write_color (c "[CMD_RAMDISK] RAM disk NOT initialized!\n") red ;;
    screen_write (c "Error: RAM Disk is not initialized!\n") ;;
    screen_write (c "\n")
  else
  screen_write_color (c "[CMD_RAMDISK] RAM disk is initialized\n") magenta ;;
  screen_write_color (c "[CMD_RAMDISK] Getting RAM disk info...\n") magenta ;;
  let! rd := on_disk ramdisk_get_info in
  screen_write_color (c "[CMD_RAMDISK] Got RAM disk info\n") magenta ;;
  let! write_buffer := alloc_buf 512 in
  let! read_buffer := alloc_buf 512 in
  if is_null write_buffer || is_null read_buffer then
    screen_write_color (c "Error: Failed to allocate test buffers!\n") red ;;
    free_if (b_ptr write_buffer) ;;
    free_if (b_ptr read_buffer) ;;
    screen_write (c "\n")
  else ramdisk_tests rd write_buffer read_buffer.

(** ** The file system *)

Definition cmd_fsformat : M Sys unit :=
  screen_write (c "\n") ;;
  screen_write_color (c "File System Format\n") yellow ;;
  screen_write_color (c "==================\n") cyan ;;
  screen_write (c "\n") ;;
  screen_write (c "Formatting file system...\n") ;;
  on_fs fs_format ;;
  on_fs fs_init ;;
  screen_write_color (c "File system formatted successfully!\n") green ;;
  screen_write (c "Empty root directory created.\n") ;;
  screen_write (c "\n").

Definition not_initialized : M Sys unit :=
  screen_write_color (c "Error: File system not initialized!\n") red ;;
  screen_write (c "Run 'fsformat' to create a new file system.\n\n").

(** [!args || strlen(args) == 0] *)
Definition no_args (args : option (list Z)) : M Sys bool :=
  match args with
  | None => ret true
  | Some a => let! n := defined (strlen a) in ret (n =? 0)
  end.

Definition sizeof_dirent : Z := 32.

(** [entries[i].name]: the rest of the array from there on. *)
Definition listed_name (entries : list (list Z)) (i : nat) : list Z := drop 4 (concat (drop i entries)).

Definition ls_row (entries : list (list Z)) (i : nat) : M Sys unit :=
  let nm := listed_name entries i in
  let! st := on_fs (fs_stat (Some nm)) in
  match st with
  | None => ret tt
  | Some stat =>
      (if Z.land (i_mode stat) 255 =? FS_TYPE_DIR
       then screen_write_color (c "  [DIR]  ") (on_black COLOR_LIGHT_BLUE)
       else screen_write_color (c "  [FILE] ") (on_black COLOR_LIGHT_GREEN)) ;;
      write_str nm ;;
      (if Z.land (i_mode stat) 255 =? FS_TYPE_FILE then
         screen_write (c " (") ;;
         screen_write_dec (i_size stat) ;;
         screen_write (c " bytes)")
       else ret tt) ;;
      screen_write (c "\n")
  end.

Definition cmd_ls : M Sys unit :=
  screen_write (c "\n") ;;
  let! up := on_fs fs_is_initialized in
  if up =? 0 then not_initialized else
  let! entries_buf := alloc_buf (sizeof_dirent * 64) in
  if is_null entries_buf then
    screen_write_color (c "Error: Out of memory\n") red ;;
    screen_write (c "\n")
  else
  let! ' (count, entries) := on_fs (fs_readdir (Some (c "/" ++ [0])) 64) in
  if count <? 0 then
    screen_write_color (c "Error: Failed to read directory\n") red ;;
    screen_write (c "\n") ;;
    free_buf entries_buf
  else if count =? 0 then
    screen_write_color (c "Directory is empty\n") grey_dark ;;
    screen_write (c "\n") ;;
    free_buf entries_buf
  else
  screen_write_color (c "Files in /:\n") yellow ;;
  screen_write_color (c "===========\n") cyan ;;
  for_each (seq 0 (Z.to_nat count)) (ls_row entries) ;;
  screen_write (c "\n") ;;
  screen_write (c "Total: ") ;;
  screen_write_dec count ;;
  screen_write (c " item") ;;
  (if negb (count =? 1) then screen_write (c "s") else ret tt) ;;
  screen_write (c "\n\n") ;;
  free_buf entries_buf.

(** A message about the file [args]. *)
Definition say (color : Z) (before : list Z) (args : list Z) (after : list Z) : M Sys unit :=
  screen_write_color before color ;;
  write_str args ;;
  screen_write after.

Definition cmd_touch (args : option (list Z)) : M Sys unit :=
  screen_write (c "\n") ;;
  let! up := on_fs fs_is_initialized in
  if up =? 0 then not_initialized else
  let! none := no_args args in
  let path := default [] args in
  if none : bool then
    screen_write_color (c "Usage: touch <filename>\n") red ;;
    screen_write (c "Example: touch hello.txt\n\n")
  else
  let! found := on_fs (fs_exists args) in
  if negb (found =? 0) then say red (c "Error: File '") path (c "' already exists\n\n") else
  let! r := on_fs (fs_create args FS_TYPE_FILE) in
  if r <? 0 then say red (c "Error: Failed to create file '") path (c "'\n\n") else
  say green (c "Created file: ") path (c "\n\n").

Definition cmd_rm (args : option (list Z)) : M Sys unit :=
  screen_write (c "\n") ;;
  let! up := on_fs fs_is_initialized in
  if up =? 0 then not_initialized else
  let! none := no_args args in
  let path := default [] args in
  if none : bool then
    screen_write_color (c "Usage: rm <filename>\n") red ;;
    screen_write (c "Example: rm hello.txt\n\n")
  else
  let! found := on_fs (fs_exists args) in
  if found =? 0 then say red (c "Error: File '") path (c "' not found\n\n") else
  let! r := on_fs (fs_unlink args) in
  if r <? 0 then say red (c "Error: Failed to delete file '") path (c "'\n\n") else
  say green (c "Deleted file: ") path (c "\n\n").

Definition cmd_mkdir (args : option (list Z)) : M Sys unit :=
  screen_write (c "\n") ;;
  let! up := on_fs fs_is_initialized in
  if up =? 0 then not_initialized else
  let! none := no_args args in
  let path := default [] args in
  if none : bool then
    screen_write_color (c "Usage: mkdir <dirname>\n") red ;;
    screen_write (c "Example: mkdir docs\n\n")
  else
  let! found := on_fs (fs_exists args) in
  if negb (found =? 0) then say red (c "Error: '") path (c "' already exists\n\n") else
  let! r := on_fs (fs_mkdir args) in
  if r <? 0 then say red (c "Error: Failed to create directory '") path (c "'\n\n") else
  say green (c "Created directory: ") path (c "\n\n").

(** The part of [cmd_cat] after the checks: open, read, close, show. *)
Definition cat_contents (args : option (list Z)) (stat : fs_inode_t) : M Sys unit :=
  screen_write_color (c "[DEBUG] Opening file for reading...\n") magenta ;;
  let! fd := on_fs (fs_open args FS_OPEN_READ) in
  if fd <? 0 then
    screen_write_color (c "Error: Failed to open file for reading (fd=") red ;;
    screen_write_dec (u32 fd) ;;
    screen_write (c ")\n\n")
  else
  screen_write_color (c "[DEBUG] File opened, fd=") magenta ;;
  screen_write_dec (u32 fd) ;;
  screen_write (c "\n") ;;
  screen_write_color (c "[DEBUG] Allocating buffer (") magenta ;;
  screen_write_dec (u32 (i_size stat + 1)) ;;
  screen_write (c " bytes)...\n") ;;
  let! buffer := alloc_buf (u32 (i_size stat + 1)) in
  if is_null buffer then
    screen_write_color (c "Error: Out of memory\n") red ;;
    screen_write (c "\n") ;;
    on_fs (fs_close fd) ;; ret tt
  else
  screen_write_color (c "[DEBUG] Buffer allocated at 0x") magenta ;;
  screen_write_hex (b_ptr buffer) ;;
  screen_write (c "\n") ;;
  screen_write_color (c "[DEBUG] Calling fs_read for ") magenta ;;
  screen_write_dec (i_size stat) ;;
  screen_write (c " bytes...\n") ;;
  let! ' (bytes_read, data) := on_fs (fs_read fd (i_size stat)) in
  screen_write_color (c "[DEBUG] fs_read returned: ") magenta ;;
  screen_write_dec (u32 bytes_read) ;;
  screen_write (c " bytes\n") ;;
  on_fs (fs_close fd) ;;
  if bytes_read <=? 0 then
    screen_write_color (c "Error: Failed to read file (") red ;;
    screen_write_dec (u32 bytes_read) ;;
    screen_write (c " bytes read)\n\n") ;;
    free_buf buffer
  else
  let text := take (Z.to_nat bytes_read) data ++ [0] in
  screen_write_color (c "[DEBUG] File contents:\n") magenta ;;
  screen_write_color (c "--- BEGIN ---\n") cyan ;;
  write_str text ;;
  screen_write_color (c "\n--- END ---\n") cyan ;;
  screen_write (c "\n") ;;
  free_buf buffer.

Definition cmd_cat (args : option (list Z)) : M Sys unit :=
  screen_write (c "\n") ;;
  let! up := on_fs fs_is_initialized in
  if up =? 0 then not_initialized else
  let! none := no_args args in
  let path := default [] args in
  if none : bool then
    screen_write_color (c "Usage: cat <filename>\n") red ;;
    screen_write (c "Example: cat hello.txt\n\n")
  else
  say magenta (c "[DEBUG] Reading file: ") path (c "\n") ;;
  let! found := on_fs (fs_exists args) in
  if found =? 0 then say red (c "Error: File '") path (c "' not found\n\n") else
  screen_write_color (c "[DEBUG] File exists\n") magenta ;;
  let! st := on_fs (fs_stat args) in
  match st with
  | None =>
      screen_write_color (c "Error: Failed to get file info\n") red ;;
      screen_write (c "\n")
  | Some stat =>
      screen_write_color (c "[DEBUG] File size: ") magenta ;;
      screen_write_dec (i_size stat) ;;
      screen_write (c " bytes\n") ;;
      screen_write_color (c "[DEBUG] File mode: 0x") magenta ;;
      screen_write_hex (i_mode stat) ;;
      screen_write (c "\n") ;;
      if negb (Z.land (i_mode stat) 255 =? FS_TYPE_FILE) then say red (c "Error: '") path (c "' is a directory\n\n") else
      if i_size stat =? 0 then
        screen_write_color (c "(empty file)\n") grey_dark ;;
        screen_write (c "\n")
      else cat_contents args stat
  end.

(** [char args_copy[256]; strncpy(args_copy, args, 255); args_copy[255] = 0;] and
    the split at the first blank: the two strings, as arrays. *)
Definition split_args (args : list Z) : M Sys (option (list Z * list Z)) :=
  let! args_copy := defined (strncpy (replicate 256 0) args 255) in
  let args_copy := <[255%nat := 0]> args_copy in
  let! space := defined (strchr args_copy 32) in
  match space with
  | None => ret None
  | Some k => ret (Some (<[k := 0]> args_copy, drop (S k) args_copy))
  end.

Definition write_to (filename text : list Z) (file_exists : bool) (fd : Z) : M Sys unit :=
  if fd <? 0 then
    screen_write_color (c "Error: Failed to open file (fd=") red ;;
    screen_write_dec (u32 fd) ;;
    screen_write (c ")\n\n")
  else
  screen_write_color (c "[DEBUG] File opened successfully, fd=") magenta ;;
  screen_write_dec (u32 fd) ;;
  screen_write (c "\n") ;;
  let! text_len := defined (strlen text) in
  screen_write_color (c "[DEBUG] Calling fs_write with ") magenta ;;
  screen_write_dec text_len ;;
  screen_write (c " bytes...\n") ;;
  let! bytes_written := on_fs (fs_write fd text text_len) in
  screen_write_color (c "[DEBUG] fs_write returned: ") magenta ;;
  screen_write_dec (u32 bytes_written) ;;
  screen_write (c " bytes\n") ;;
  if bytes_written <? 0 then
    screen_write_color (c "Error: Failed to write to file\n") red ;;
    screen_write (c "\n") ;;
    on_fs (fs_close fd) ;; ret tt
  else
  screen_write_color (c "[DEBUG] Closing file...\n") magenta ;;
  on_fs (fs_close fd) ;;
  screen_write_color (if file_exists then c "Updated file: " else c "Created file: ") green ;;
  write_str filename ;;
  screen_write (c " (") ;;
  screen_write_dec (u32 bytes_written) ;;
  screen_write (c " bytes written)\n\n").

Definition cmd_write (args : option (list Z)) : M Sys unit :=
  screen_write (c "\n") ;;
  let! up := on_fs fs_is_initialized in
  if up =? 0 then not_initialized else
  let! none := no_args args in
  if none : bool then
    screen_write_color (c "Usage: write <filename> <text>\n") red ;;
    screen_write (c "Example: write hello.txt Hello, World!\n\n")
  else
  let! r := split_args (default [] args) in
  match r with
  | None =>
      screen_write_color (c "Error: Missing text content\n") red ;;
      screen_write (c "Usage: write <filename> <text>\n\n")
  | Some (filename, text) =>
      say magenta (c "[DEBUG] Filename: ") filename (c "\n") ;;
      screen_write_color (c "[DEBUG] Text: ") magenta ;;
      write_str text ;;
      screen_write (c " (") ;;
      let! n := defined (strlen text) in
      screen_write_dec n ;;
      screen_write (c " bytes)\n") ;;
      let! e := on_fs (fs_exists (Some filename)) in
      let file_exists := negb (e =? 0) in
      screen_write_color (c "[DEBUG] File exists: ") magenta ;;
      screen_write (if file_exists then c "YES\n" else c "NO\n") ;;
      if file_exists then
        screen_write_color (c "[DEBUG] Opening existing file for writing...\n") magenta ;;
        let! fd := on_fs (fs_open (Some filename) FS_OPEN_WRITE) in
        write_to filename text true fd
      else
        screen_write_color (c "[DEBUG] Creating new file...\n") magenta ;;
        let! r := on_fs (fs_create (Some filename) FS_TYPE_FILE) in
        if r <? 0 then say red (c "Error: Failed to create file '") filename (c "'\n\n") else
        screen_write_color (c "[DEBUG] File created, opening for writing...\n") magenta ;;
        let! fd := on_fs (fs_open (Some filename) FS_OPEN_WRITE) in
        write_to filename text false fd
  end.

End shell_fs.
