(* ===== verification/ShellFiles.v ===== *)
(** * What the file commands of the shell do

    The theorems on the calls of fs.c, carried over to the commands: the file
    system a command works on is [the_fs] of the system, and what it leaves is
    [put_fs]. *)

From S2P Require Import Prelude CString Words Bits Heap Alloc HeapAlloc RamDisk Fs FsDisk FsMount FsFile FsDir FsNames Paging Process.
From S2P Require Import Shell ShellFs.

Section files.
Context {H : Type} `{HK : KmallocOps H} `{HA : !Allocator H} `{HS : HeapStats H}.
Implicit Types s : system H.
Implicit Types f : fs_t H.

(** ** Calls of fs.c inside the system *)

Lemma exec_on_fs {A} (m : M (fs_t H) A) s r f' : exec m (the_fs s) = (r, f') -> exec (on_fs m) s = (r, put_fs f' s).
Proof. intros E. unfold on_fs. by rewrite exec_zoom, E. Qed.

(** The clock of the file system is the one of the kernel. *)
Definition in_time f s : Prop := fs_ticks f = k_ticks (sys_kernel s).

Lemma the_put f s : in_time f s -> the_fs (put_fs f s) = f.
Proof. unfold in_time. intros E. destruct f. cbn in *. unfold the_fs, attach. cbn. by rewrite <- E. Qed.

Lemma exec_on_fs_put {A} (m : M (fs_t H) A) f s r f' : in_time f s -> exec m f = (r, f') ->
  exec (on_fs m) (put_fs f s) = (r, put_fs f' s).
Proof. intros Ht E. unfold on_fs. rewrite exec_zoom, (the_put f s Ht), E. done. Qed.

Lemma exec_is_initialized s : exec (on_fs fs_is_initialized) s = (Val (fs_initialized (the_fs s)), put_fs (the_fs s) s).
Proof. done. Qed.

(** ** The arguments *)

Lemma names_text a nm : names a nm -> nm <> [] -> exists t, holds a t /\ t <> [].
Proof.
  intros (name & Es & Hn) Hne. unfold skip_slash in Es. destruct a as [|ch a]; [done|]. cbn in Es.
  destruct (Z.eqb_spec ch 47) as [->|]; injection Es as <-.
  - exists (47 :: nm). split; [|done]. by apply holds_cons.
  - by exists nm.
Qed.

Lemma exec_no_args a t s : holds a t -> exec (no_args (Some a)) s = (Val (bool_decide (t = [])), s).
Proof.
  intros Ha. unfold no_args. rewrite (strlen_holds a t Ha). run. do 2 f_equal. destruct t as [|x t]; [done|].
  rewrite bool_decide_false by done. apply Z.eqb_neq. cbn [length]. lia.
Qed.

Lemma exec_say col before a t after s : holds a t -> exec (say col before a after) s = (Val tt, s).
Proof. intros Ha. unfold say, write_str. run. by rewrite (cstring_holds a t Ha). Qed.

(** ** The state the commands need *)

(** The directory of the file system, as a reader sees it. *)
Definition entries_of f : list (list Z * Z) := dir_entries (fs_rd f) (inode_at (fs_rd f) 0).

(** A mounted file system with room for buffers, a root directory without
    duplicate names, and a clock. *)
Record ready f (B : blocks) : Prop := {
  rd_mounted : mounted f B;
  rd_room : room 2 512 B;
  rd_root : dir_ok f (inode_at (fs_rd f) 0);
  rd_names : NoDup (entries_of f).*1;
  rd_clock : is_u32 (fs_ticks f);
  rd_inode0 : bm_bit 8 (ibits f) 0 = true
}.

Lemma ready_heap f B h : ready f B -> alloc_rep h B -> ready (set_heap h f) B.
Proof. intros [Hm Hr Hd Hn Hc Hz] Hh. split; try done; [by apply mounted_set_heap with B|by apply dir_ok_heap]. Qed.

Lemma exec_exists f B a nm : ready f B -> names a nm -> nm <> [] ->
  exists h, alloc_rep h B /\
    exec (fs_exists (Some a)) f = (Val (if decide (dir_lookup (entries_of f) nm = None) then 0 else 1), set_heap h f).
Proof.
  intros [Hm Hr Hd _ _ _] Ha Hne. destruct (exec_path_lookup f B a nm Hm (room_le 1 2 512 B ltac:(lia) Hr) Hd Ha Hne) as (h & Hh & E).
  exists h. split; [done|]. unfold fs_exists. rewrite exec_bind, E. cbv iota. rewrite exec_ret. unfold entries_of.
  by destruct (dir_lookup _ nm).
Qed.

(** ** touch *)

(** What [touch] leaves: the new file, or nothing new on a full disk. *)
Definition touched f B nm f' : Prop := (exists n, created f B nm n f') \/ not_created f B f'.

Lemma exec_touch s B a nm m : let f := the_fs s in
  ready f B -> names a nm -> nm <> [] -> Forall is_u8 nm -> 0 <= m < 384 -> bm_bit 8 (ibits f) m = false ->
  dir_lookup (entries_of f) nm = None ->
  exists f', exec (cmd_touch (Some a)) s = (Val tt, put_fs f' s) /\ touched f B nm f'.
Proof.
  intros f Hf Ha Hne Hnu Hm Hmf Hnone. destruct (names_text a nm Ha Hne) as (t & Hat & Htne).
  destruct (exec_exists f B a nm Hf Ha Hne) as (h & Hh & Ee). rewrite decide_True in Ee by done.
  pose proof (ready_heap f B h Hf Hh) as [Hm1 Hr1 Hd1 _ Hc1 Hz1]. set (f1 := set_heap h f) in *.
  destruct (exec_fs_create f1 B a nm m Hm1 Hr1 Hd1 Ha Hne Hnu Hc1 Hz1 Hm Hmf Hnone) as (rc & f' & Ec & Hres).
  assert (in_time f s) as T0 by done.
  exists f'. unfold cmd_touch. run. rewrite exec_is_initialized. fold f. cbv iota. rewrite (mt_up f B (rd_mounted f B Hf)). cbn [Z.eqb Pos.eqb].
  rewrite exec_bind, (exec_no_args a t _ Hat), bool_decide_false by done. cbv iota. cbn [default].
  rewrite exec_bind, (exec_on_fs_put _ f s _ _ T0 Ee). cbn [Z.eqb negb]. rewrite exec_bind, (exec_on_fs_put _ f1 s _ _ T0 Ec). cbv iota.
  split.
  - rewrite exec_if, !(exec_say _ _ a t) by done. by destruct (rc <? 0).
  - destruct Hres as [[_ [n Hn]]|[_ Hn]]; [left; exists n|right].
    + destruct Hn as [? ? ? ? ? ? ? ? Hby ? ? ? ?]. split; try done. intros i2 Hf2. apply Hby. by apply file_ok_same_bits with f.
    + destruct Hn as [? ? ? ? ? ? ? ? ? Hby]. split; try done. intros i2 Hf2. apply Hby. by apply file_ok_same_bits with f.
Qed.

(** ** rm *)

Lemma exec_rm_absent s B a nm : let f := the_fs s in ready f B -> names a nm -> nm <> [] -> dir_lookup (entries_of f) nm = None ->
  exists h, alloc_rep h B /\ exec (cmd_rm (Some a)) s = (Val tt, put_fs (set_heap h f) s).
Proof.
  intros f Hf Ha Hne Hnone. destruct (names_text a nm Ha Hne) as (t & Hat & Htne).
  destruct (exec_exists f B a nm Hf Ha Hne) as (h & Hh & Ee). rewrite decide_True in Ee by done.
  exists h. split; [done|]. unfold cmd_rm. run. rewrite exec_is_initialized. fold f. cbv iota.
  rewrite (mt_up f B (rd_mounted f B Hf)). cbn [Z.eqb Pos.eqb].
  rewrite exec_bind, (exec_no_args a t _ Hat), bool_decide_false by done. cbv iota. cbn [default].
  rewrite exec_bind, (exec_on_fs_put _ f s _ _ eq_refl Ee). cbn [Z.eqb]. by apply (exec_say _ _ a t).
Qed.

Lemma exec_rm s B a nm n : let f := the_fs s in ready f B -> names a nm -> nm <> [] ->
  dir_lookup (entries_of f) nm = Some n -> 0 < n < 384 -> bm_bit 8 (ibits f) n = true ->
  file_ok f (inode_at (fs_rd f) n) -> disjoint_files (inode_at (fs_rd f) n) (inode_at (fs_rd f) 0) ->
  exists h f', alloc_rep h B /\ exec (cmd_rm (Some a)) s = (Val tt, put_fs f' s) /\ unlinked (set_heap h f) B nm n f'.
Proof.
  intros f Hf Ha Hne Hlk Hn Hu Hfo Hdj. destruct (names_text a nm Ha Hne) as (t & Hat & Htne).
  destruct (exec_exists f B a nm Hf Ha Hne) as (h & Hh & Ee). rewrite decide_False in Ee by congruence.
  pose proof (ready_heap f B h Hf Hh) as [Hm1 Hr1 Hd1 _ Hc1 Hz1]. set (f1 := set_heap h f) in *.
  destruct (exec_fs_unlink f1 B a nm n Hm1 Hr1 Hd1 Ha Hne Hc1 Hlk Hn Hu) as (f' & Eu & Hul); [by apply file_ok_same_bits with f|done|].
  exists h, f'. split; [done|]. split; [|done]. unfold cmd_rm. run. rewrite exec_is_initialized. fold f. cbv iota.
  rewrite (mt_up f B (rd_mounted f B Hf)). cbn [Z.eqb Pos.eqb].
  rewrite exec_bind, (exec_no_args a t _ Hat), bool_decide_false by done. cbv iota. cbn [default].
  rewrite exec_bind, (exec_on_fs_put _ f s _ _ eq_refl Ee). cbn [Z.eqb]. rewrite exec_bind, (exec_on_fs_put _ f1 s _ _ eq_refl Eu).
  cbn [Z.ltb Z.compare]. by apply (exec_say _ _ a t).
Qed.

(** ** A new file, as [rm] finds it *)

Lemma lookup_absent es nm : dir_lookup es nm = None -> nm ∉ es.*1.
Proof.
  induction es as [|e es IH]; [by intros _ ?%elem_of_nil|]. rewrite dir_lookup_cons, fmap_cons, not_elem_of_cons.
  case_decide; [done|]. intros E. split; [congruence|by apply IH].
Qed.

Lemma created_ready f B nm n f' : ready f B -> (length nm <= 27)%nat -> dir_lookup (entries_of f) nm = None -> created f B nm n f' ->
  ready f' B /\ dir_lookup (entries_of f') nm = Some n /\ bm_bit 8 (ibits f') n = true /\
  file_ok f' (inode_at (fs_rd f') n) /\ disjoint_files (inode_at (fs_rd f') n) (inode_at (fs_rd f') 0).
Proof.
  intros [Hm Hr Hd Hnd Hc Hz] Hlen Hnone [Hm' Hd' [Hn Hnf] Hib Hen Hin Hfo Hoth Hby [Ho Ht] _ _ _]. fold (entries_of f) (entries_of f') in Hen.
  split_and!.
  - split; [done|done|done| |by rewrite Ht|].
    + destruct Hen as (es1 & es2 & E1 & ->). apply lookup_absent in Hnone. rewrite E1 in Hnd, Hnone. unfold stored_name.
      rewrite take_ge by lia. rewrite fmap_app, fmap_cons in *. cbn [fst].
      rewrite <- Permutation_middle. by apply list.NoDup_cons.
    + rewrite Hib by lia. by rewrite Hz, orb_true_r.
  - rewrite (entry_added_lookup nm n (entries_of f)) by done. by rewrite decide_True.
  - by rewrite Hib, Z.eqb_refl by lia.
  - by rewrite Hin.
  - rewrite Hin. intros k k' Hk Hk' Hne E. apply Hne. rewrite <- E. by apply lookup_total_replicate_2.
Qed.

(** The directory has no block of another file after the new entry either. *)
Lemma created_disjoint f B nm n f' i2 : created f B nm n f' -> file_ok f i2 -> disjoint_files (inode_at (fs_rd f) 0) i2 ->
  disjoint_files (inode_at (fs_rd f') 0) i2.
Proof.
  intros Hc Hf Hd k k' Hk Hk' Hne E. destruct (cr_blocks _ _ _ _ _ Hc k Hk) as [E1|[_ Hfree]]; [apply (Hd k k'); congruence|].
  rewrite E in Hfree. destruct (fo_used _ _ Hf k' Hk' Hne) as [_ Hu]. congruence.
Qed.

(** Adding an entry and removing it again. *)
Lemma entry_back nm n es es1 es2 : (length nm <= 27)%nat -> dir_lookup es nm = None -> entry_added nm n es es1 -> entry_removed nm es1 es2 ->
  es2 = es.
Proof.
  intros Hlen Hnone%lookup_absent (a & b & -> & ->) (c' & d & n' & E & ->). unfold stored_name in E. rewrite take_ge in E by lia.
  revert a E Hnone. induction c' as [|x c' IH]; intros [|y a] E Hnone; cbn [app] in E.
  - by injection E as _ ->.
  - injection E as -> _. by destruct Hnone; left.
  - injection E as <- E. destruct Hnone. cbn [app]. rewrite E, fmap_app, fmap_cons. apply elem_of_app. right. left.
  - injection E as -> E. cbn [app]. f_equal. apply IH; [done|]. intros Hin. apply Hnone. cbn [app fmap list_fmap]. by right.
Qed.

(** What [touch] and [rm] leave together. *)
Lemma removed_again f B nm n f1 h f2 : ready f B -> (length nm <= 27)%nat -> dir_lookup (entries_of f) nm = None ->
  created f B nm n f1 -> unlinked (set_heap h f1) B nm n f2 ->
  mounted f2 B /\ entries_of f2 = entries_of f /\
  (forall j, 0 <= j < 512 -> bm_bit 8 (ibits f2) j = bm_bit 8 (ibits f) j) /\
  (forall q, 0 < q < 384 -> bm_bit 8 (ibits f) q = true -> inode_at (fs_rd f2) q = inode_at (fs_rd f) q /\
     (file_ok f (inode_at (fs_rd f) q) -> disjoint_files (inode_at (fs_rd f) 0) (inode_at (fs_rd f) q) ->
      file_ok f2 (inode_at (fs_rd f2) q) /\
      file_bytes (fs_rd f2) (inode_at (fs_rd f2) q) = file_bytes (fs_rd f) (inode_at (fs_rd f) q))) /\
  (forall b, 0 <= b < 1981 -> bm_bit 8 (dbits f) b = true -> bm_bit 8 (dbits f2) b = true) /\
  (forall b, 0 < b < 1981 -> bm_bit 8 (dbits f) b = false -> bm_bit 8 (dbits f2) b = true ->
     exists k, (k < 10)%nat /\ i_blocks (inode_at (fs_rd f2) 0) !!! k = b).
Proof.
  intros Hf Hlen Hnone Hc [Hm2 _ Hen Hib Hdb Hoth Hby Hbl]. pose proof (cr_number _ _ _ _ _ Hc) as [Hn Hnf].
  cbn [fs_rd set_heap] in Hen, Hdb, Hoth, Hbl. rewrite (cr_inode _ _ _ _ _ Hc) in Hdb.
  change (ibits (set_heap h f1)) with (ibits f1) in Hib. change (dbits (set_heap h f1)) with (dbits f1) in Hdb.
  assert (forall b, 0 <= b < 1981 -> bm_bit 8 (dbits f2) b = bm_bit 8 (dbits f1) b) as Hb2 by (intros b Hb; by rewrite Hdb).
  split; [done|]. split; [exact (entry_back nm n _ _ _ Hlen Hnone (cr_entries _ _ _ _ _ Hc) Hen)|]. split_and!.
  - intros j Hj. rewrite Hib, (cr_ibits _ _ _ _ _ Hc) by done. destruct (Z.eqb_spec n j) as [<-|]; [by rewrite Hnf|done].
  - intros q Hq Hu. assert (q <> n) as Hqn by congruence. rewrite Hoth, (cr_others _ _ _ _ _ Hc) by done. split; [done|].
    intros Hfq Hd. destruct (cr_bytes _ _ _ _ _ Hc _ Hfq Hd) as [Hf1 <-].
    apply Hby; cbn [fs_rd set_heap]; [by apply file_ok_same_bits with f1|by apply (created_disjoint f B nm n f1)|].
    rewrite (cr_inode _ _ _ _ _ Hc). intros k k' Hk Hk' Hne E. apply Hne. rewrite <- E. by apply lookup_total_replicate_2.
  - intros b Hb Hu. rewrite Hb2 by done. by apply (cr_kept _ _ _ _ _ Hc).
  - intros b Hb Hu. rewrite Hb2 by lia. intros Hu1. destruct (cr_new _ _ _ _ _ Hc b ltac:(lia) Hu1) as [?|(k & Hk & Ek)]; [congruence|].
    exists k. split; [done|]. rewrite Hbl; [done|done|]. lia.
Qed.

(** ** cat *)

Lemma exec_stat f B a nm n : ready f B -> names a nm -> nm <> [] -> dir_lookup (entries_of f) nm = Some n -> 0 <= n < 512 ->
  exists h, alloc_rep h B /\ exec (fs_stat (Some a)) f = (Val (Some (inode_at (fs_rd f) n)), set_heap h f).
Proof.
  intros Hf Ha Hne Hlk Hn. pose proof Hf as [Hm Hr Hd _ _ _]. pose proof (room_le 1 2 512 B ltac:(lia) Hr) as Hr1.
  destruct (exec_path_lookup f B a nm Hm Hr1 Hd Ha Hne) as (h & Hh & E). destruct (room_1 B Hr1) as (p & B' & Et).
  destruct (exec_read_inode (set_heap h f) B n Hh (mt_disk f B Hm) Hn) as (h2 & Hh2 & E2).
  change (take_block 512 B) with (take_block FS_BLOCK_SIZE B) in Et. rewrite Et in E2.
  exists h2. split; [done|]. unfold fs_stat. rewrite exec_bind, exec_gets. cbv iota. rewrite (mt_up f B Hm). cbn [Z.eqb Pos.eqb].
  rewrite exec_bind, E. cbv iota. unfold entries_of in Hlk. rewrite Hlk. cbv iota. exact E2.
Qed.

(** The last events of a run. *)
Definition ends_with {S A} (m : M S A) (st : S) (o : list event) : Prop := exists p, output m st = p ++ o.

Lemma ends_bind {S A C} (m : M S A) (g : A -> M S C) st v st' o :
  exec m st = (Val v, st') -> ends_with (g v) st' o -> ends_with (bind m g) st o.
Proof. intros E (p & Ep). exists (output m st ++ p). by rewrite output_bind, E, Ep, app_assoc. Qed.

(** ** The theorems *)

(** C38: [touch] and [rm] are inverse: on a mounted file system with a free inode
    below 384, [touch] of a new name makes an empty file of that name, or fails on a
    full disk or directory; [rm] of the name then leaves the entries of the
    directory, the inode numbers in use and the blocks of the heap as they were,
    and every other file with its inode and its bytes.  Every data block that was in
    use still is, and one that became used is a block of the directory, which does
    not shrink. *)
Theorem touch_rm_restores s B a nm m (Hf : ready (the_fs s) B) (Ha : names a nm) (Hne : nm <> []) (Hlen : (length nm <= 27)%nat)
    (Hnu : Forall is_u8 nm) (Hm : 0 <= m < 384) (Hmf : bm_bit 8 (ibits (the_fs s)) m = false)
    (Hnone : dir_lookup (entries_of (the_fs s)) nm = None) (f := the_fs s) :
  exists f1 f2, exec (cmd_touch (Some a)) s = (Val tt, put_fs f1 s) /\
    exec (cmd_rm (Some a)) (put_fs f1 s) = (Val tt, put_fs f2 s) /\
    ((exists n, dir_lookup (entries_of f1) nm = Some n /\ file_bytes (fs_rd f1) (inode_at (fs_rd f1) n) = []) \/
     free_blocks (superblock f) = 0 \/ forall q, (q < 10)%nat -> i_blocks (inode_at (fs_rd f) 0) !!! q <> 0) /\
    mounted f2 B /\ entries_of f2 = entries_of f /\
    (forall j, 0 <= j < 512 -> bm_bit 8 (ibits f2) j = bm_bit 8 (ibits f) j) /\
    (forall q, 0 < q < 384 -> bm_bit 8 (ibits f) q = true -> inode_at (fs_rd f2) q = inode_at (fs_rd f) q /\
       (file_ok f (inode_at (fs_rd f) q) -> disjoint_files (inode_at (fs_rd f) 0) (inode_at (fs_rd f) q) ->
        file_ok f2 (inode_at (fs_rd f2) q) /\
        file_bytes (fs_rd f2) (inode_at (fs_rd f2) q) = file_bytes (fs_rd f) (inode_at (fs_rd f) q))) /\
    (forall b, 0 <= b < 1981 -> bm_bit 8 (dbits f) b = true -> bm_bit 8 (dbits f2) b = true) /\
    (forall b, 0 < b < 1981 -> bm_bit 8 (dbits f) b = false -> bm_bit 8 (dbits f2) b = true ->
       exists k, (k < 10)%nat /\ i_blocks (inode_at (fs_rd f2) 0) !!! k = b).
Proof.
  destruct (exec_touch s B a nm m Hf Ha Hne Hnu Hm Hmf Hnone) as (f1 & E1 & Ht). fold f in Hf, Hmf, Hnone, Ht.
  destruct Ht as [[n Hc]|Hn].
  - destruct (created_ready f B nm n f1 Hf Hlen Hnone Hc) as (Hr1 & Hlk & Hu & Hfo & Hdj).
    assert (the_fs (put_fs f1 s) = f1) as Ef by (apply the_put; exact (proj2 (cr_files _ _ _ _ _ Hc))).
    destruct (exec_rm (put_fs f1 s) B a nm n) as (h & f2 & _ & E2 & Hul); try (by rewrite ?Ef); [apply (cr_number _ _ _ _ _ Hc)|].
    rewrite Ef in Hul. exists f1, f2. split; [done|]. split; [exact E2|].
    split; [left; exists n; split; [done|by rewrite (cr_inode _ _ _ _ _ Hc)]|]. by apply (removed_again f B nm n f1 h).
  - destruct Hn as [Hwhy Hm1 Ei Hd1 Een [_ Htk] Hib Hdb Hin Hby]. assert (entries_of f1 = entries_of f) as Een1 by (unfold entries_of; by rewrite Ei).
    assert (the_fs (put_fs f1 s) = f1) as Ef by (by apply the_put).
    assert (ready f1 B) as Hr1.
    { destruct Hf as [_ Hr _ Hnd Hck Hz]. split; [done|done|by rewrite Ei|by rewrite Een1|by rewrite Htk|by rewrite Hib by lia]. }
    destruct (exec_rm_absent (put_fs f1 s) B a nm) as (h & Hh & E2); try (by rewrite ?Ef); [by rewrite Ef, Een1|].
    rewrite Ef in E2. exists f1, (set_heap h f1). change (dbits (set_heap h f1)) with (dbits f1). rewrite Hdb.
    split_and!; [done|exact E2|by right|by apply mounted_set_heap with B|done|done| |done|congruence].
    intros q Hq Hu. cbn [fs_rd set_heap]. rewrite Hin by (done || lia). split; [done|]. intros Hfq _.
    destruct (Hby _ Hfq). split; [by apply file_ok_same_bits with f1|done].
Qed.

(** [cat] shows no file: the mode of a file, as [fs_create] stores it, has the
    permission bits next to the type, so the comparison of the whole byte with
    FS_TYPE_FILE fails and every file is reported as a directory. *)
Theorem cat_refuses_files s B a t nm n (Hf : ready (the_fs s) B) (Hat : holds a t) (Ha : names a nm) (Hne : nm <> [])
    (Hlk : dir_lookup (entries_of (the_fs s)) nm = Some n) (Hn : 0 <= n < 512)
    (Hmode : i_mode (inode_at (fs_rd (the_fs s)) n) = Z.lor FS_TYPE_FILE FS_PERM_DEFAULT) :
  (exists h, alloc_rep h B /\ exec (cmd_cat (Some a)) s = (Val tt, put_fs (set_heap h (the_fs s)) s)) /\
  ends_with (cmd_cat (Some a)) s [EvWriteColor (c "Error: '") red; EvWrite t; EvWrite (c "' is a directory\n\n")].
Proof.
  set (f := the_fs s) in *. assert (t <> []) as Htne.
  { intros ->. apply holds_inv in Hat as [u ->]. destruct Ha as (name & Es & Hnm). injection Es as <-.
    destruct nm as [|x nm]; [done|]. by apply holds_inv in Hnm as (? & ? & [= <- <-] & _). }
  destruct (exec_exists f B a nm Hf Ha Hne) as (h1 & Hh1 & E1). rewrite decide_False in E1 by congruence.
  pose proof (ready_heap f B h1 Hf Hh1) as Hf1. destruct (exec_stat _ B a nm n Hf1 Ha Hne Hlk Hn) as (h2 & Hh2 & E2).
  pose proof (exec_on_fs_put _ f s _ _ eq_refl E1) as E1'. pose proof (exec_on_fs_put _ (set_heap h1 f) s _ _ eq_refl E2) as E2'.
  assert (negb (Z.land (i_mode (inode_at (fs_rd (set_heap h1 f)) n)) 255 =? FS_TYPE_FILE) = true) as Hdir.
  { cbn [fs_rd set_heap]. by rewrite Hmode. }
  unfold cmd_cat. split.
  - exists h2. split; [done|]. run. rewrite exec_is_initialized. fold f. cbv iota. rewrite (mt_up f B (rd_mounted f B Hf)). cbn [Z.eqb Pos.eqb].
    rewrite exec_bind, (exec_no_args a t _ Hat), bool_decide_false by done. cbv iota. cbn [default].
    rewrite exec_bind, (exec_say _ _ a t _ _ Hat). cbv iota. rewrite exec_bind, E1'. cbn [Z.eqb]. run. rewrite E2'. run.
    rewrite Hdir. by apply (exec_say _ _ a t).
  - do 2 (eapply ends_bind; [try apply exec_screen_write; apply exec_is_initialized|]). fold f.
    rewrite (mt_up f B (rd_mounted f B Hf)). cbn [Z.eqb Pos.eqb].
    eapply ends_bind; [apply (exec_no_args a t _ Hat)|]. rewrite bool_decide_false by done. cbn [default].
    eapply ends_bind; [apply (exec_say _ _ a t _ _ Hat)|]. eapply ends_bind; [exact E1'|]. cbn [Z.eqb].
    eapply ends_bind; [apply exec_screen_write_color|]. eapply ends_bind; [exact E2'|].
    do 6 (eapply ends_bind; [first [apply exec_screen_write_color|apply exec_screen_write_dec|apply exec_screen_write_hex|apply exec_screen_write]|]).
    rewrite Hdir. exists []. change (id a) with a. unfold say, write_str. by rewrite (cstring_holds a t Hat).
Qed.

End files.

(** ** The system after boot and with a file *)

Definition system_of (f : fs_t heap) : system heap :=
  mk_system (mk_kernel (fs_heap f) blank_mm ∅ ∅ ∅ (replicate 16 0) 0 1 0 0 0 (fs_ticks f)) (detach f) (replicate 10 (replicate 256 0)) 0.

Lemma the_system_of f : the_fs (system_of f) = f.
Proof. by destruct f. Qed.

Lemma fs3_ready : exists B, ready fs3 B /\ bm_bit 8 (ibits fs3) 1 = false /\ entries_of fs3 = [].
Proof.
  destruct fs3_ok as (B & Hm & Hf & Hr & Ht). destruct (fresh_dir fs3 B Hm Hf Ht) as (Hd & He & Hi0 & Hi1 & _ & _).
  exists B. split; [|split; [exact Hi1|exact He]].
  split; [exact Hm|exact Hr|exact Hd|unfold entries_of; rewrite He; constructor|exact Ht|exact Hi0].
Qed.

Lemma touch_rm_restores_witness :
  exists f1 f2, exec (cmd_touch (Some demo_path)) (system_of fs3) = (Val tt, put_fs f1 (system_of fs3)) /\
    exec (cmd_rm (Some demo_path)) (put_fs f1 (system_of fs3)) = (Val tt, put_fs f2 (system_of fs3)).
Proof.
  destruct fs3_ready as (B & Hr & H1 & He).
  destruct (touch_rm_restores (system_of fs3) B demo_path (c "hi") 1) as (f1 & f2 & E1 & E2 & _).
  - rewrite the_system_of. exact Hr.
  - exact demo_names.
  - discriminate.
  - cbn. lia.
  - exact demo_name_u8.
  - lia.
  - rewrite the_system_of. exact H1.
  - rewrite the_system_of, He. reflexivity.
  - exists f1, f2. split; [exact E1|exact E2].
Defined.

Lemma cat_refuses_files_witness : exists s : system heap,
  ends_with (cmd_cat (Some demo_path)) s [EvWriteColor (c "Error: '") red; EvWrite (c "/hi"); EvWrite (c "' is a directory\n\n")].
Proof.
  destruct demo_created as (B & n & f & Hm & Hr & Ht & [_ Hd [Hn _] Hib _ Hin _ _ _ _ _ _ _] & He).
  assert (ready f B) as Hf.
  { split; [exact Hm|exact Hr|exact Hd|unfold entries_of; rewrite He; apply NoDup_singleton|exact Ht|].
    destruct fs3_ok as (B3 & Hm3 & Hf3 & _ & Ht3). destruct (fresh_dir fs3 B3 Hm3 Hf3 Ht3) as (_ & _ & H0 & _).
    rewrite Hib by lia. rewrite H0. apply orb_true_r. }
  exists (system_of f). destruct (cat_refuses_files (system_of f) B demo_path (c "/hi") (c "hi") n) as [_ E].
  - rewrite the_system_of. exact Hf.
  - exists []. split; [reflexivity|]. by repeat constructor.
  - exact demo_names.
  - discriminate.
  - rewrite the_system_of. unfold entries_of. rewrite He. reflexivity.
  - lia.
  - rewrite the_system_of, Hin. reflexivity.
  - exact E.
Defined.
