(* ===== verification/ShellProc.v ===== *)
(** * shell.c: the commands for processes

    [entries] holds the addresses of the demonstration programs of kernel.c the
    commands start. *)

From S2P Require Import Prelude CString Alloc Process Paging PagingUser Shell ShellFs.

Record programs : Type := mk_programs {
  test_process_a : Z; test_process_b : Z; test_process_c : Z; test_process_sleep : Z;
  ipc_producer : Z; ipc_consumer : Z; test_syscall : Z; test_usermode : Z
}.

Section shell_proc.
Context {H : Type} `{KmallocOps H} `{HeapStats H}.
Context (kernel_directory : Z) (junk_pcb : Z -> process_t) (junk_queue : Z -> message_queue_t).
Context (entries : programs).
#[local] Instance shell_memory : MemoryOps mm := mm_memory kernel_directory.
Abbreviation Sys := (system H).
Abbreviation green := (on_black COLOR_GREEN) (only parsing).
Abbreviation red := (on_black COLOR_RED) (only parsing).
Abbreviation title := (on_black COLOR_YELLOW) (only parsing).
Abbreviation rule := (on_black COLOR_CYAN) (only parsing).

Definition spawn (name0 : list Z) (entry prio : Z) : M Sys Z :=
  on_kernel (process_create_with_priority junk_pcb junk_queue (name0 ++ [0]) entry 4096 prio).

Definition cmd_testproc : M Sys unit :=
  kprintf (c "\n") [] ;;
  kprintf_color title (c "Spawning Test Processes\n") [] ;;
  kprintf_color rule (c "========================\n") [] ;;
  kprintf (c "Testing priority-based scheduling...\n\n") [] ;;
  let! pid_a := spawn (c "TestProcA") (test_process_a entries) 20 in
  (if 0 <? pid_a then kprintf_color green (c "Created Process A (PID %d, Priority=20 HIGH)\n") [AInt pid_a]
   else kprintf_color red (c "Failed to create Process A\n") []) ;;
  let! pid_b := spawn (c "TestProcB") (test_process_b entries) 10 in
  (if 0 <? pid_b then kprintf_color green (c "Created Process B (PID %d, Priority=10 MEDIUM)\n") [AInt pid_b]
   else kprintf_color red (c "Failed to create Process B\n") []) ;;
  let! pid_c := spawn (c "TestProcC") (test_process_c entries) 2 in
  (if 0 <? pid_c then kprintf_color green (c "Created Process C (PID %d, Priority=2 LOW)\n") [AInt pid_c]
   else kprintf_color red (c "Failed to create Process C\n") []) ;;
  kprintf (c "\n") [] ;;
  kprintf_color (on_black COLOR_LIGHT_CYAN) (c "Test processes are now running with priorities!\n") [] ;;
  kprintf (c "Process A (HIGH) should run most frequently.\n") [] ;;
  kprintf (c "Process B (MEDIUM) should run occasionally.\n") [] ;;
  kprintf (c "Process C (LOW) should run least often.\n") [] ;;
  kprintf (c "Use 'ps' command to view process priorities.\n") [] ;;
  kprintf (c "\n") [].

(** [process_get] and [process_set_priority] take [uint32_t] values; the [int]s
    passed are not negative. *)
Definition cmd_nice (args : option (list Z)) : M Sys unit :=
  kprintf (c "\n") [] ;;
  let! none := no_args args in
  if none : bool then
    kprintf_color red (c "Usage: nice <PID> <priority>\n") [] ;;
    kprintf (c "  PID: Process ID (use 'ps' to see PIDs)\n") [] ;;
    kprintf (c "  Priority: 0-255 (higher = more CPU time)\n") [] ;;
    kprintf (c "\nExample: nice 2 50\n") [] ;;
    kprintf (c "\n") []
  else
  let! r := split_args (default [] args) in
  match r with
  | None =>
      kprintf_color red (c "Error: Missing priority argument\n") [] ;;
      kprintf (c "Usage: nice <PID> <priority>\n\n") []
  | Some (pid_str, priority_str) =>
      let! pid0 := defined (atoi pid_str) in
      let! priority0 := defined (atoi priority_str) in
      if pid0 <? 0 then kprintf_color red (c "Error: Invalid PID\n\n") [] else
      if (priority0 <? 0) || (255 <? priority0) then kprintf_color red (c "Error: Priority must be 0-255\n\n") [] else
      let! proc := on_kernel (process_get pid0) in
      if proc =? 0 then
        kprintf_color red (c "Error: Process %d not found\n") [AInt pid0] ;;
        kprintf (c "Use 'ps' command to see active processes\n\n") []
      else
      let! v := on_kernel (load_pcb proc) in
      let old_priority := priority v in
      let! r := on_kernel (process_set_priority pid0 priority0) in
      (if r =? 0 then
         kprintf_color green (c "Priority changed successfully!\n") [] ;;
         let! v := on_kernel (load_pcb proc) in
         let! nm := defined (cstring (name v)) in
         kprintf (c "Process: %s (PID %d)\n") [AStr (Some nm); AInt pid0] ;;
         kprintf (c "Old Priority: %d\n") [AInt old_priority] ;;
         kprintf (c "New Priority: %d\n") [AInt priority0]
       else kprintf_color red (c "Error: Failed to set priority\n") []) ;;
      kprintf (c "\n") []
  end.

Definition cmd_sleeptest : M Sys unit :=
  kprintf (c "\n") [] ;;
  kprintf_color title (c "Sleep/Wake Test\n") [] ;;
  kprintf_color rule (c "===============\n") [] ;;
  kprintf (c "Spawning a process that sleeps for 2 seconds between iterations...\n\n") [] ;;
  let! pid0 := spawn (c "SleepTest") (test_process_sleep entries) 10 in
  (if 0 <? pid0 then
     kprintf_color green (c "Created Sleep Test Process (PID %d)\n") [AInt pid0] ;;
     kprintf (c "\nWatch the process:\n") [] ;;
     kprintf (c "1. Print message and go to sleep\n") [] ;;
     kprintf (c "2. Process becomes BLOCKED for 2000ms\n") [] ;;
     kprintf (c "3. Automatically wakes up after 2 seconds\n") [] ;;
     kprintf (c "4. Print 'Woke up!' message\n") [] ;;
     kprintf (c "5. Repeat 5 times\n\n") [] ;;
     kprintf (c "Use 'ps' command while it's sleeping to see BLOCKED state!\n") []
   else kprintf_color red (c "Failed to create sleep test process\n") []) ;;
  kprintf (c "\n") [].

Definition cmd_kill (args : option (list Z)) : M Sys unit :=
  kprintf (c "\n") [] ;;
  let! none := no_args args in
  if none : bool then
    kprintf_color red (c "Usage: kill <PID>\n") [] ;;
    kprintf (c "  PID: Process ID (use 'ps' to see PIDs)\n") [] ;;
    kprintf (c "\nExample: kill 2\n") [] ;;
    kprintf (c "\nWarning: Cannot kill idle process (PID 0)\n") [] ;;
    kprintf (c "\n") []
  else
  let! pid0 := defined (atoi (default [] args)) in
  if pid0 <? 0 then kprintf_color red (c "Error: Invalid PID\n\n") [] else
  if pid0 =? 0 then kprintf_color red (c "Error: Cannot kill idle process (PID 0)\n\n") [] else
  let! proc := on_kernel (process_get pid0) in
  if proc =? 0 then
    kprintf_color red (c "Error: Process %d not found\n") [AInt pid0] ;;
    kprintf (c "Use 'ps' command to see active processes\n\n") []
  else
  let! v := on_kernel (load_pcb proc) in
  let! name0 := defined (strncpy (replicate 32 0) (name v) 31) in
  let name0 := <[31%nat := 0]> name0 in
  let! nm := defined (cstring name0) in
  kprintf (c "Terminating process: %s (PID %d)\n") [AStr (Some nm); AInt pid0] ;;
  on_kernel (process_kill pid0) ;;
  kprintf_color green (c "Process %d terminated successfully\n") [AInt pid0] ;;
  kprintf (c "\n") [].

Definition cmd_ipctest : M Sys unit :=
  kprintf (c "\n") [] ;;
  kprintf_color title (c "Inter-Process Communication Test\n") [] ;;
  kprintf_color rule (c "=================================\n") [] ;;
  kprintf (c "Spawning Producer and Consumer processes...\n\n") [] ;;
  let! producer_pid := spawn (c "IPC_Producer") (ipc_producer entries) 10 in
  if producer_pid =? 0 then kprintf_color red (c "Failed to create producer process\n\n") [] else
  let! consumer_pid := spawn (c "IPC_Consumer") (ipc_consumer entries) 10 in
  if consumer_pid =? 0 then kprintf_color red (c "Failed to create consumer process\n\n") [] else
  kprintf_color green (c "Created Producer Process (PID %d)\n") [AInt producer_pid] ;;
  kprintf_color green (c "Created Consumer Process (PID %d)\n") [AInt consumer_pid] ;;
  kprintf (c "\nWatch the processes:\n") [] ;;
  kprintf (c "1. Producer sends 5 messages (one per second)\n") [] ;;
  kprintf (c "2. Consumer receives and displays messages\n") [] ;;
  kprintf (c "3. Message queue holds up to 8 messages\n") [] ;;
  kprintf (c "4. Each message is max 256 bytes\n\n") [] ;;
  kprintf (c "Use 'ps' command to monitor process states!\n") [] ;;
  kprintf (c "\n") [].

Definition cmd_syscalltest : M Sys unit :=
  kprintf (c "\n") [] ;;
  kprintf_color title (c "System Call Test\n") [] ;;
  kprintf_color rule (c "================\n") [] ;;
  kprintf (c "Spawning a process to test system calls...\n\n") [] ;;
  let! pid0 := spawn (c "SyscallTest") (test_syscall entries) 10 in
  (if 0 <? pid0 then
     kprintf_color green (c "Created Syscall Test Process (PID %d)\n") [AInt pid0] ;;
     kprintf (c "\nThis process will test:\n") [] ;;
     kprintf (c "1. SYS_GETPID - Get process ID\n") [] ;;
     kprintf (c "2. SYS_WRITE - Write to screen\n") [] ;;
     kprintf (c "3. SYS_SLEEP - Sleep for milliseconds\n") [] ;;
     kprintf (c "4. SYS_YIELD - Yield CPU\n") [] ;;
     kprintf (c "5. SYS_EXIT - Exit process\n\n") [] ;;
     kprintf (c "Watch the output to see syscalls in action!\n") []
   else kprintf_color red (c "Failed to create syscall test process\n") []) ;;
  kprintf (c "\n") [].

Definition cmd_usermodetest : M Sys unit :=
  kprintf (c "\n") [] ;;
  kprintf_color title (c "Syscall Infrastructure Test\n") [] ;;
  kprintf_color rule (c "============================\n") [] ;;
  kprintf_color (on_black COLOR_MAGENTA) (c "NOTE: Full Ring 3 requires ELF loader (planned for v1.0)\n") [] ;;
  kprintf (c "Testing syscall infrastructure from kernel mode...\n\n") [] ;;
  let! pid0 := spawn (c "SyscallTest") (test_usermode entries) 10 in
  (if 0 <? pid0 then
     kprintf_color green (c "Created Syscall Test Process (PID %d)\n") [AInt pid0] ;;
     kprintf (c "\nTesting syscalls:") [] ;;
     kprintf (c "\n  - SYS_WRITE (write to screen)\n") [] ;;
     kprintf (c "  - SYS_GETPID (get process ID)\n") [] ;;
     kprintf (c "  - SYS_SLEEP (sleep ms)\n") [] ;;
     kprintf (c "  - SYS_EXIT (exit process)\n\n") [] ;;
     kprintf_color rule (c "Infrastructure ready for future Ring 3 support!\n") [] ;;
     kprintf (c "(Page directories, GDT/TSS, syscalls all working)\n") []
   else kprintf_color red (c "Failed to create test process\n") []) ;;
  kprintf (c "\n") [].

End shell_proc.
