(* ===== verification/ShellRun.v ===== *)
(** * shell.c: the history, the dispatcher and the main loop

    [shell_process_command] splits the line into the first word and the rest and
    calls the command; [shell_run] reads lines and processes them. *)

From S2P Require Import Prelude CString Words Alloc Process Paging Fs Screen Kprintf Console ShellLine Shell ShellFs ShellProc.
From S2P Require Heap HeapAlloc.

(** What is left of the command after its first word and the blanks behind it:
    the two loops over [full_args]. *)
Definition skip_word (command : list Z) : option (list Z) :=
  k1 ← scan (fun x => negb (x =? 0) && negb (x =? 32)) command;
  k2 ← scan (fun x => x =? 32) (drop k1 command);
  Some (drop (k1 + k2) command).

Section shell_run.
Context {H : Type} `{KmallocOps H} `{HeapStats H}.
Context (kernel_directory : Z) (junk_pcb : Z -> process_t) (junk_queue : Z -> message_queue_t).
Context (entries : programs).
(** What [mov] reads from the segment registers. *)
Context (ds es fs gs ss : Z).
Abbreviation Sys := (system H).
Abbreviation put := Prelude.screen_write (only parsing).
Abbreviation put_color := Prelude.screen_write_color (only parsing).

Definition announce (what : list Z) : M Sys unit := put_color what (on_black COLOR_CYAN).

(** The commands in the order of the comparisons. *)
Definition commands (full_args : option (list Z)) : list (list Z * M Sys unit) :=
  [(c "help", cmd_help);
   (c "clear", cmd_clear);
   (c "cls", cmd_clear);
   (c "about", cmd_about);
   (c "ver", cmd_ver);
   (c "mem", cmd_mem ds es fs gs ss);
   (c "meminfo", cmd_meminfo);
   (c "memtest", cmd_memtest);
   (c "ps", cmd_ps);
   (c "testproc", cmd_testproc kernel_directory junk_pcb junk_queue entries);
   (c "sleeptest", cmd_sleeptest kernel_directory junk_pcb junk_queue entries);
   (c "nice", cmd_nice full_args);
   (c "kill", cmd_kill kernel_directory full_args);
   (c "ipctest", cmd_ipctest kernel_directory junk_pcb junk_queue entries);
   (c "syscalltest", cmd_syscalltest kernel_directory junk_pcb junk_queue entries);
   (c "usermodetest", cmd_usermodetest kernel_directory junk_pcb junk_queue entries);
   (c "echo", cmd_echo full_args);
   (c "color", cmd_color);
   (c "uptime", cmd_uptime);
   (c "history", cmd_history);
   (c "banner", cmd_banner);
   (c "ramdisk", announce (c "[DISPATCHER] Matched 'ramdisk' command, calling cmd_ramdisk()\n") ;; cmd_ramdisk);
   (c "rdformat", announce (c "[DISPATCHER] Matched 'rdformat' command, calling cmd_rdformat()\n") ;; cmd_rdformat);
   (c "rdinfo", announce (c "[DISPATCHER] Matched 'rdinfo' command, calling cmd_rdinfo()\n") ;; cmd_rdinfo);
   (c "fsformat", cmd_fsformat);
   (c "ls", cmd_ls);
   (c "touch", cmd_touch full_args);
   (c "cat", cmd_cat full_args);
   (c "rm", cmd_rm full_args);
   (c "mkdir", cmd_mkdir full_args);
   (c "write", cmd_write full_args)].

Definition unknown_command (cmd : list Z) : M Sys unit :=
  put (c "\n") ;;
  put_color (c "Error: ") (on_black COLOR_RED) ;;
  put (c "Unknown command '") ;;
  write_str cmd ;;
  put (c "'\n") ;;
  put (c "Type 'help' for available commands.\n").

(** The chain of [if (strcmp(cmd, "...") == 0) ... else if ...]. *)
Fixpoint dispatch (cmd : list Z) (table : list (list Z * M Sys unit)) : M Sys unit :=
  match table with
  | [] => unknown_command cmd
  | (name0, run_it) :: rest =>
      let! r := defined (strcmp cmd (name0 ++ [0])) in
      if r =? 0 then run_it else dispatch cmd rest
  end.

(** [frame] is the memory of the stack from the first byte of [cmd_copy] on: the
    256 bytes of the array and what may be overwritten behind them.  The result
    is the buffer as the call leaves it. *)
Definition shell_process_command (frame command : list Z) : M Sys (list Z) :=
  let! command := defined (str_trim command) in
  let! ch := defined (head command) in
  if ch =? 0 then put (c "\n") ;; ret command else
  shell_add_history (Some command) ;;
  let! cmd_copy := defined (strncpy frame command MAX_CMD_LENGTH) in
  let! ' (tokens, cmd_copy) := defined (str_split cmd_copy 32 10) in
  match tokens with
  | [] => put (c "\n") ;; ret command
  | start :: _ =>
      let! full_args := defined (skip_word command) in
      dispatch (drop start cmd_copy) (commands (Some full_args)) ;;
      ret command
  end.

(** ** The main loop *)

(** The system with its screen: what the commands put out appears there. *)
Definition console : Type := Sys * screen.

(** One round of [while (1)]: the buffer and the input left. *)
Definition shell_round (frame : list Z) (st : list Z * list Z) : M console (list Z * list Z + unit) :=
  let '(command_buffer, input) := st in
  on_screen shell_prompt ;;
  let! ' (command_buffer, input) := on_screen (shell_get_line input command_buffer MAX_CMD_LENGTH) in
  let! command_buffer := shown (shell_process_command frame command_buffer) in
  ret (inl (command_buffer, input)).

(** Every round reads a line; when the input ends, [shell_get_line] waits for
    ever, so one round more than there are characters is enough. *)
Definition shell_run (frame command_buffer input : list Z) : M console unit :=
  iterate (S (length input)) (shell_round frame) (command_buffer, input).

(** ** The dispatcher *)










(** The words the tab completes are the words the dispatcher knows. *)
Lemma commands_complete fa : map fst (commands fa) ≡ₚ available_commands.
Proof.
  unfold commands, available_commands. cbn [map fst]. do 26 apply Permutation_skip. apply Permutation_swap.
Qed.



Lemma silent_add_history line : silent (shell_add_history line : M Sys unit).
Proof. unfold shell_add_history, shift_entry. silence. Qed.

(** Up to the copy of the line: trimmed and entered in the history. *)
Lemma run_command_start frame a ln s l t : holds a ln -> t = trim ln -> t <> [] -> (length t <= 255)%nat -> history_ok s l ->
  exists a' s1, exec (shell_add_history (Some a')) s = (Val tt, s1) /\ history_ok s1 (remember l t) /\
    sys_kernel s1 = sys_kernel s /\ sys_fs s1 = sys_fs s /\ holds a' t /\ length a' = length a /\
    shell_process_command frame a s =
    (let! cmd_copy := defined (strncpy frame a' MAX_CMD_LENGTH) in
          let! ' (tokens, cmd_copy) := defined (str_split cmd_copy 32 10) in
          match tokens with
          | [] => put (c "\n") ;; ret a'
          | start :: _ =>
              let! full_args := defined (skip_word a') in
              dispatch (drop start cmd_copy) (commands (Some full_args)) ;; ret a'
          end) s1.
Proof.
  intros Ha -> Hne Hlen Hok. destruct (str_trim_holds a ln Ha) as (a' & Et & Ha' & Hla).
  destruct (exec_add_history s l a' (trim ln) Hok Ha' Hne Hlen) as (s1 & E1 & Hok1 & Hk & Hf).
  exists a', s1. split_and!; try done. unfold shell_process_command. rewrite Et, bind_defined.
  destruct (trim ln) as [|ch t']; [done|]. destruct (holds_inv _ _ Ha') as (Hch & r & -> & _). cbn [head].
  rewrite bind_defined, (proj2 (Z.eqb_neq _ _) Hch). rewrite (bind_run (shell_add_history (Some (ch :: r))) _ s tt s1); [done|].
  by apply silent_run; [apply silent_add_history|].
Qed.

End shell_run.

(** ** The main loop *)

Lemma iterate_S {S A B} n (body : A -> M S (A + B)) a :
  iterate (Datatypes.S n) body a = let! r := body a in match r with inl a' => iterate n body a' | inr b => ret b end.
Proof. reflexivity. Qed.

(** A loop whose rounds lower a measure does not depend on fuel beyond it. *)
Lemma iterate_enough {S A B} (mu : A -> nat) (body : A -> M S (A + B)) :
  (forall a s a' s', exec (body a) s = (Val (inl a'), s') -> (mu a' < mu a)%nat) ->
  forall n m a s, (mu a < n)%nat -> (mu a < m)%nat -> exec (iterate n body a) s = exec (iterate m body a) s.
Proof.
  intros Hmu. induction n as [|n IH]; intros [|m] a s Hn Hm; try lia. rewrite !iterate_S, !exec_bind.
  destruct (exec (body a) s) as [[[a'|b]|w] s'] eqn:E; [|done|done]. apply Hmu in E. apply IH; lia.
Qed.

(** The editor reads up to the first Enter. *)
Lemma line_loop_reads max input : forall row col st s b rest s',
  exec (shell_line_loop max input row col st) s = (Val (b, rest), s') ->
  exists keys, input = keys ++ 10 :: rest /\ Forall (fun ch => ch <> 10) keys.
Proof.
  induction input as [|ch input IH]; intros row col [[buf n] cur] s b rest s'; cbn [shell_line_loop]; [done|].
  destruct (Z.eqb_spec ch 10) as [->|Hch]; [|destruct (ch =? 9)]; rewrite exec_bind.
  - destruct (exec _ s) as [[?|w] s1]; [|done]. rewrite exec_bind. destruct (exec _ s1) as [[[]|w] s2]; [|done]. intros [= _ <- _]. by exists [].
  - destruct (exec _ s) as [[[b' n']|w] s1]; [|done]. rewrite exec_bind. destruct (exec _ s1) as [[?|w] s2]; [|done].
    rewrite exec_bind. destruct (exec _ s2) as [[?|w] s3]; [|done]. intros (keys & -> & Hk)%IH. exists (ch :: keys). split; [done|by constructor].
  - destruct (exec _ s) as [[st'|w] s1]; [|done]. intros (keys & -> & Hk)%IH. exists (ch :: keys). split; [done|by constructor].
Qed.

Lemma get_line_reads input b0 max s b rest s' :
  exec (shell_get_line input b0 max) s = (Val (b, rest), s') ->
  exists keys, input = keys ++ 10 :: rest /\ Forall (fun ch => ch <> 10) keys.
Proof.
  unfold shell_get_line. rewrite exec_bind. destruct (exec _ s) as [[?|w] s1]; [|done]. rewrite exec_bind.
  destruct (exec _ s1) as [[?|w] s2]; [|done]. apply line_loop_reads.
Qed.


(** Every command line overruns the copy: whatever the line, when the stack
    frame ends with the 256 bytes of [cmd_copy], [strncpy] writes one byte behind
    them, for it is called with the whole size of the array. *)
Theorem command_overruns_copy {H} `{KmallocOps H} `{HeapStats H} kdir jp jq progs ds es fs gs ss (frame a ln : list Z)
    (s : system H) (l : list (list Z))
    (Ha : holds a ln) (Hne : trim ln <> []) (Hlen : (length (trim ln) <= 255)%nat) (Hframe : length frame = Z.to_nat MAX_CMD_LENGTH)
    (Hok : history_ok s l) :
  fst (exec (shell_process_command kdir jp jq progs ds es fs gs ss frame a) s) = Stopped Undefined.
Proof.
  destruct (run_command_start kdir jp jq progs ds es fs gs ss frame a ln s l (trim ln) Ha eq_refl Hne Hlen Hok)
    as (a' & s1 & _ & _ & _ & _ & Ha' & _ & E). unfold exec. rewrite E.
  change MAX_CMD_LENGTH with (Z.of_nat 256). change (Z.to_nat MAX_CMD_LENGTH) with 256%nat in Hframe.
  rewrite (strncpy_short (trim ln) 256 frame a' Ha') by lia. by rewrite decide_False by lia.
Qed.

(** A round that comes back has read one line, and the loop goes on. *)
Section rounds.
Context {H : Type} `{KmallocOps H} `{HeapStats H}.
Context (kdir : Z) (jp : Z -> process_t) (jq : Z -> message_queue_t) (progs : programs) (ds es fs gs ss : Z) (frame : list Z).
Abbreviation round := (shell_round kdir jp jq progs ds es fs gs ss frame).

(** The buffer, the input left and the console before and after a round. *)
Definition one_round (x y : list Z * list Z * console) : Prop := exec (round (fst x)) (snd x) = (Val (inl (fst y)), snd y).

Lemma round_reads x y : one_round x y -> exists keys, snd (fst x) = keys ++ 10 :: snd (fst y) /\ Forall (fun ch => ch <> 10) keys.
Proof.
  destruct x as [[b i] s], y as [[b' i'] s']. unfold one_round. cbn [fst snd]. unfold shell_round. rewrite exec_bind.
  destruct (exec _ s) as [[[]|w] s2]; [|done].
  rewrite exec_bind. unfold on_screen at 1. rewrite exec_zoom. destruct (exec _ (snd s2)) as [[[b2 i2]|w] s3] eqn:E; [|done].
  rewrite exec_bind. match goal with |- context [let (_, _) := ?e in _] => destruct e as [[b3|w] s4] end; [|done].
  intros [= _ -> _]. by apply get_line_reads in E.
Qed.

Lemma round_consumes a s a' s' : exec (round a) s = (Val (inl a'), s') -> (length (snd a') < length (snd a))%nat.
Proof.
  intros E. destruct (round_reads (a, s) (a', s') E) as (keys & Ei & _). cbn [fst snd] in Ei. rewrite Ei, length_app. cbn [length]. lia.
Qed.

Lemma round_goes_on a s b s' : exec (round a) s <> (Val (inr b), s').
Proof.
  destruct a as [buf i]. unfold shell_round. rewrite exec_bind. destruct (exec _ s) as [[[]|w] s2]; [|done].
  rewrite exec_bind. destruct (exec _ s2) as [[[b2 i2]|w] s3]; [|done]. rewrite exec_bind. by destruct (exec _ _) as [[b3|w] s4].
Qed.

(** The loop goes through rounds that come back, and ends as the first one that
    does not. *)
Lemma loop_ends n : forall a s, (length (snd a) < n)%nat ->
  exists k a1 s1 w s', nsteps one_round k (a, s) (a1, s1) /\ exec (round a1) s1 = (Stopped w, s') /\
    exec (iterate n round a) s = (Stopped w, s').
Proof.
  induction n as [|n IH]; intros a s Hn; [lia|]. rewrite iterate_S, exec_bind.
  destruct (exec (round a) s) as [[[a'|u]|w] s'] eqn:E; [|by apply round_goes_on in E|].
  - destruct (IH a' s') as (k & a1 & s1 & w & s2 & Hk & Hs & Ei); [apply round_consumes in E; lia|].
    exists (S k), a1, s1, w, s2. split_and!; [by apply nsteps_l with (a', s')|done|done].
  - exists 0%nat, a, s, w, s'. split_and!; [constructor|done|done].
Qed.

Lemma shell_run_never_returns buffer input s :
  exists w s', exec (shell_run kdir jp jq progs ds es fs gs ss frame buffer input) s = (Stopped w, s').
Proof.
  destruct (loop_ends (S (length input)) (buffer, input) s) as (k & a1 & s1 & w & s' & _ & _ & E); [cbn; lia|]. by exists w, s'.
Qed.

Lemma rounds_bound k : forall x y, nsteps one_round k x y -> (k + length (snd (fst y)) <= length (snd (fst x)))%nat.
Proof.
  induction k as [|k IH]; intros x y Hk; inversion_clear Hk as [|? ? z ? Hz Hk']; [lia|]. apply IH in Hk'.
  destruct (round_reads x z Hz) as (keys & Ei & _). rewrite Ei, length_app. cbn [length]. lia.
Qed.

End rounds.

(** C37: The main loop reads one line per round.  A round that comes back has taken
    from the input exactly the keys up to the first Enter, that one included.  On
    any input the loop goes through a number of such rounds, at most the number
    of keys, up to one that does not come back - it waits for input, or its
    command does not return - and ends there, as that round ends: [shell_run] never
    returns, and allowing it more rounds than there are keys changes nothing. *)
Theorem shell_run_rounds {H} `{KmallocOps H} `{HeapStats H} kdir jp jq progs ds es fs gs ss (frame buffer input : list Z)
    (n : nat) (s : console) (Hn : (length input < n)%nat) :
  (forall b i s0 b' i' s0', exec (shell_round kdir jp jq progs ds es fs gs ss frame (b, i)) s0 = (Val (inl (b', i')), s0') ->
     exists keys, i = keys ++ 10 :: i' /\ Forall (fun ch => ch <> 10) keys) /\
  (exists k a1 s1 w s', nsteps (one_round kdir jp jq progs ds es fs gs ss frame) k (buffer, input, s) (a1, s1) /\ (k <= length input)%nat /\
     exec (shell_round kdir jp jq progs ds es fs gs ss frame a1) s1 = (Stopped w, s') /\
     exec (shell_run kdir jp jq progs ds es fs gs ss frame buffer input) s = (Stopped w, s') /\
     exec (iterate n (shell_round kdir jp jq progs ds es fs gs ss frame) (buffer, input)) s = (Stopped w, s')).
Proof.
  split.
  - intros b i s0 b' i' s0' E. exact (round_reads kdir jp jq progs ds es fs gs ss frame (b, i, s0) (b', i', s0') E).
  - destruct (loop_ends kdir jp jq progs ds es fs gs ss frame n (buffer, input) s Hn) as (k & a1 & s1 & w & s' & Hk & Hs & E).
    exists k, a1, s1, w, s'. pose proof (rounds_bound _ _ _ _ _ _ _ _ _ _ k _ _ Hk) as Hb. cbn [fst snd] in Hb. split_and!; [done|lia|done| |done].
    rewrite <- E. apply (iterate_enough (fun a => length (snd a))); [apply round_consumes|cbn; lia..].
Qed.

(** ** Examples *)

Definition no_pcb (p : Z) : process_t :=
  mk_process 0 (replicate 32 0) 0 (entry_cpu 0 0 []) 0 0 0 0 0 0 0 0 0 0 0 0.
Definition no_queue (p : Z) : message_queue_t := mk_queue [] 0 0 0.
Definition no_programs : programs := mk_programs 0 0 0 0 0 0 0 0.

#[local] Existing Instance HeapAlloc.heap_ops.
#[local] Existing Instance HeapAlloc.heap_stats.


Lemma command_overruns_copy_witness :
  fst (exec (shell_process_command 0 no_pcb no_queue no_programs 16 16 16 16 16 (replicate 256 0) (c "help" ++ [0])) (blank_system Heap.heap0)) =
  Stopped Undefined.
Proof.
  apply (command_overruns_copy 0 no_pcb no_queue no_programs 16 16 16 16 16 (replicate 256 0) (c "help" ++ [0]) (c "help") (blank_system Heap.heap0) []).
  - exists []. split; [reflexivity|by repeat constructor].
  - discriminate.
  - vm_compute. lia.
  - reflexivity.
  - exact (blank_history Heap.heap0).
Defined.

Lemma shell_run_rounds_witness :
  exists w s', exec (shell_run 0 no_pcb no_queue no_programs 16 16 16 16 16 (replicate 300 0) (replicate 256 0) [112; 10]) (blank_system Heap.heap0, screen0) =
    (Stopped w, s') /\
  exec (iterate 7 (shell_round 0 no_pcb no_queue no_programs 16 16 16 16 16 (replicate 300 0)) (replicate 256 0, [112; 10])) (blank_system Heap.heap0, screen0) =
    (Stopped w, s').
Proof.
  destruct (shell_run_rounds 0 no_pcb no_queue no_programs 16 16 16 16 16 (replicate 300 0) (replicate 256 0) [112; 10] 7
    (blank_system Heap.heap0, screen0)) as [_ (k & a1 & s1 & w & s' & _ & _ & _ & E1 & E2)]; [cbn; lia|].
  exists w, s'. split; [exact E1|exact E2].
Defined.
