(* ===== verification/ShellMem.v ===== *)
(** * What the memory test of the shell leaves behind

    [cmd_memtest] takes five pages and three blocks of the heap and gives them
    back, the blocks in the order it took them. *)

From S2P Require Import Prelude CString Bits Mem Bytes Pmm Heap Alloc HeapAlloc HeapUse Paging PagingWalk PagingUser Process Shell.

(** ** The heap and the page tables inside the system *)

Definition with_parts (h : heap) (m : mm) (s : system heap) : system heap := set_kernel (set_mm m (set_k_heap h (sys_kernel s))) s.

Lemma parts_id s : with_parts (k_heap (sys_kernel s)) (k_mm (sys_kernel s)) s = s.
Proof. by destruct s as [[] ? ? ?]. Qed.

Section parts.
Context (s : system heap).

Lemma exec_heap_part {A} (c : M heap A) h m r h' : exec c h = (r, h') -> exec (on_heap c) (with_parts h m s) = (r, with_parts h' m s).
Proof. intros E. unfold on_heap, Process.on_heap, on_kernel. rewrite !exec_zoom. cbn [sys_kernel with_parts set_kernel k_heap set_k_heap set_mm]. by rewrite E. Qed.

Lemma exec_mm_part {A} (c : M mm A) h m r m' : exec c m = (r, m') -> exec (on_mm c) (with_parts h m s) = (r, with_parts h m' s).
Proof. intros E. unfold on_mm, Process.on_mm, on_kernel. rewrite !exec_zoom. cbn [sys_kernel with_parts set_kernel k_mm set_k_heap set_mm]. by rewrite E. Qed.

Lemma exec_pmm_get {A} (g : pmm -> A) h m : exec (pmm_get g) (with_parts h m s) = (Val (g (mm_pmm m)), with_parts h m s).
Proof. done. Qed.

(** The reports of the heap read only. *)
Lemma exec_heap_report h bs m : heap_wf h bs ->
  (exists v, exec (on_heap heap_get_free_size) (with_parts h m s) = (Val v, with_parts h m s)) /\
  exec report_blocks (with_parts h m s) = (Val tt, with_parts h m s).
Proof.
  intros Hwf. split.
  - eexists. apply exec_heap_part. exact (proj2 (used_free_exec h bs Hwf)).
  - assert (exists v, exec heap_get_block_count h = (Val v, h)) as [v Ev].
    { cbn [heap_get_block_count heap_stats]. unfold Heap.heap_get_block_count. rewrite (walk_exec _ h bs Hwf). by eexists. }
    assert (exists v, exec heap_get_free_block_count h = (Val v, h)) as [w Ew].
    { cbn [heap_get_free_block_count heap_stats]. unfold Heap.heap_get_free_block_count. rewrite (walk_exec _ h bs Hwf). by eexists. }
    unfold report_blocks. rewrite exec_bind, (exec_heap_part _ h m _ _ Ev). cbv iota.
    by rewrite exec_bind, (exec_heap_part _ h m _ _ Ew).
Qed.

(** ** Pages *)

Lemma exec_test_pages h m : pmm_wf (mm_pmm m) -> used_pages (mm_pmm m) + 5 <= 4096 ->
  exists l m', exec (for_state (seqZ 0 5) take_test_page []) (with_parts h m s) = (Val (inl ((fun q => q * 4096) <$> l)), with_parts h m' s) /\
    same_but_pmm m m' /\ pmm_wf (mm_pmm m') /\
    (forall p, is_page p -> page_used (mm_pmm m') p = bool_decide (p ∈ l) || page_used (mm_pmm m) p) /\
    Forall (fun q => 512 <= q /\ page_used (mm_pmm m) q = false) l.
Proof.
  intros Hwf Hroom.
  destruct (exec_for_state_seqZ (fun i pages st => exists l m', pages = (fun q => q * 4096) <$> l /\ st = with_parts h m' s /\
      same_but_pmm m m' /\ pmm_wf (mm_pmm m') /\ used_pages (mm_pmm m') = used_pages (mm_pmm m) + i /\
      (forall p, is_page p -> page_used (mm_pmm m') p = bool_decide (p ∈ l) || page_used (mm_pmm m) p) /\
      Forall (fun q => 512 <= q /\ page_used (mm_pmm m) q = false) l)
    (take_test_page : Z -> list Z -> M (system heap) (list Z + unit)) 5 [] (with_parts h m s))
    as (pages & st & E & l & m' & -> & -> & Hs & Hwf' & _ & Hu & Hl); [lia| | |by exists l, m'].
  - exists [], m. split_and!; [done|done|by destruct m|done|lia| |constructor]. intros p _. by rewrite bool_decide_false by set_solver.
  - intros i pages st Hi (l & m' & -> & -> & Hs & Hwf' & Hn & Hu & Hl). unfold take_test_page.
    destruct (exec_pmm_alloc_page (mm_pmm m') Hwf') as [(p & Hp & Hfree & _ & Ea)|[Hfull _]].
    2: { exfalso. pose proof (wf_used _ Hwf') as Hc. destruct (cnt_lt_exists (page_used (mm_pmm m')) (Z.to_nat TOTAL_PAGES)) as (q & Hq & Hqf).
         - rewrite <- Hc, total_pages_nat. lia.
         - rewrite total_pages_nat' in Hq. by rewrite (Hfull q Hq) in Hqf. }
    assert (exec (on_pmm Pmm.pmm_alloc_page) m' = (Val (p * 4096), set_pmm (take_page p (mm_pmm m')) m')) as Em by (unfold on_pmm; by rewrite exec_zoom, Ea).
    rewrite exec_bind, (exec_mm_part _ h m' _ _ Em). cbv iota. pose proof (free_page_high _ _ Hwf' Hp Hfree) as Hhi.
    rewrite (proj2 (Z.eqb_neq (p * 4096) 0)) by lia. run. eexists _, _. split; [done|].
    exists (l ++ [p]), (set_pmm (take_page p (mm_pmm m')) m'). cbn [mm_pmm set_pmm].
    split_and!; [by rewrite fmap_app|done| |by apply take_page_wf| | |].
    + unfold same_but_pmm in *. rewrite Hs. by destruct m.
    + cbn [take_page used_pages]. pose proof (used_pages_range _ Hwf'). rewrite u32_small by (unfold is_u32; lia). lia.
    + intros q Hq. rewrite page_used_take; [|apply Hwf'|done|done]. rewrite Hu by done. rewrite orb_assoc. f_equal.
      destruct (Z.eqb_spec p q) as [->|Hne]; cbn [orb]; [symmetry; apply bool_decide_true; set_solver|]. apply bool_decide_ext. set_solver.
    + apply Forall_app. split; [done|]. apply Forall_singleton. split; [done|]. rewrite Hu in Hfree by done.
      by apply orb_false_iff in Hfree as [_ ?].
Qed.

Lemma exec_free_pages h l : forall m m', exec (for_each l give_back) m = (Val tt, m') ->
  exec (for_each ((fun q => q * 4096) <$> l) (fun page => on_mm (on_pmm (pmm_free_page page)))) (with_parts h m s) = (Val tt, with_parts h m' s).
Proof.
  induction l as [|q l IH]; intros m m'; [by intros [= <-]|]. rewrite fmap_cons, !exec_for_each_cons.
  destruct (exec (give_back q) m) as [[[]|w] m1] eqn:E1; [|done]. intros E2. cbv beta. fold (give_back q). rewrite (exec_mm_part _ h m _ _ E1). by apply IH.
Qed.

(** ** Blocks, with NULL for a failed allocation *)

Definition slot (r : Z) : list Z := if r =? 0 then [] else [r - HEADER].

Lemma borrow_slot bs0 bs L h size : heap_wf h bs -> borrowed bs0 bs L -> 0 < size <= 4294967276 ->
  exists r h' bs', exec (kmalloc size) h = (Val r, h') /\ heap_wf h' bs' /\ borrowed bs0 bs' (slot r ++ L) /\
    (forall q, q ∈ slot r -> q ∉ L) /\
    (r <> 0 -> exists n, block_at HEAP_START bs' (r - HEADER) (mk_block n false) /\ size + HEADER <= n) /\
    (forall q b, in_use HEAP_START bs q b -> in_use HEAP_START bs' q b).
Proof.
  intros Hwf Hb Hs. destruct (borrow bs0 bs L h size Hwf Hb Hs) as (r & h' & bs' & E & Hwf' & [[-> ->]|(p & n & -> & Hr & Hb' & Hat & Hn & Hp & Hk)]).
  - exists 0, h', bs. split_and!; try done. by intros q ?%elem_of_nil.
  - exists (p + HEADER), h', bs'. unfold slot. rewrite (proj2 (Z.eqb_neq _ 0) Hr). replace (p + HEADER - HEADER) with p by lia.
    split_and!; try done; [by intros q ->%list_elem_of_singleton|]. intros _. by exists n.
Qed.

Lemma return_slot bs0 bs L h m r : heap_wf h bs -> borrowed bs0 bs L -> (forall q, q ∈ slot r -> q ∈ L) ->
  exists h' bs', exec (free_if r) (with_parts h m s) = (Val tt, with_parts h' m s) /\ heap_wf h' bs' /\
    borrowed bs0 bs' (filter (.∉ slot r) L).
Proof.
  intros Hwf Hb Hin. unfold free_if, slot in *. destruct (Z.eqb_spec r 0) as [->|Hr].
  - exists h, bs. split_and!; [done|done|]. apply (borrowed_iff _ _ L); [|done]. intros q. rewrite list_elem_of_filter.
    split; [|by intros []]. intros Hq. split; [by intros ?%elem_of_nil|done].
  - destruct (give_back_block bs0 bs L h (r - HEADER) Hwf Hb) as (h' & bs' & E & Hwf' & Hb'); [apply Hin; set_solver|].
    replace (r - HEADER + HEADER) with r in E by lia. exists h', bs'. split_and!; [by apply exec_heap_part|done|].
    apply (borrowed_iff _ _ (filter (.≠ r - HEADER) L)); [|done]. intros q. rewrite !list_elem_of_filter, list_elem_of_singleton. done.
Qed.

(** Test 3 writes inside the first block. *)
Lemma exec_write_test bs h m r : heap_wf h bs -> (r <> 0 -> exists n, block_at HEAP_START bs (r - HEADER) (mk_block n false) /\ 1024 + HEADER <= n) ->
  exists h', exec (if r =? 0 then ret tt else
     kprintf (c "  Writing pattern to allocated memory...\n") [] ;;
     on_heap (heap_store r (test_pattern ++ [0])) ;;
     let! test := on_heap (heap_load r 101) in
     let! test := defined (cstring test) in
     kprintf (c "  Pattern: %.50s...\n") [AStr (Some test)] ;;
     kprintf_color (on_black COLOR_GREEN) (c "  SUCCESS: Memory write/read works\n") []) (with_parts h m s) =
    (Val tt, with_parts h' m s) /\ heap_wf h' bs.
Proof.
  intros Hwf Hr. destruct (Z.eqb_spec r 0) as [->|Hne]; [by exists h|]. destruct (Hr Hne) as (n & Hat & Hn).
  set (h1 := mk_heap (write_bytes (hmem h) r (test_pattern ++ [0])) (heap_head h)). exists h1. split.
  - assert (exec (heap_store r (test_pattern ++ [0])) h = (Val tt, h1)) as Es by (cbn [heap_store heap_stats]; by rewrite exec_modify).
    rewrite exec_bind, exec_kprintf. cbv iota. rewrite exec_bind, (exec_heap_part _ h m _ _ Es). cbv iota.
    assert (exec (heap_load r 101) h1 = (Val (test_pattern ++ [0]), h1)) as El.
    { cbn [heap_load heap_stats]. rewrite exec_gets. change 101%nat with (length (test_pattern ++ [0])). cbn [hmem h1].
      by rewrite read_write_same. }
    rewrite exec_bind, (exec_heap_part _ h1 m _ _ El). cbv iota. assert (cstring (test_pattern ++ [0]) = Some test_pattern) as -> by reflexivity.
    by run.
  - apply (heap_wf_write h bs _ (r - HEADER) (mk_block n false) Hwf Hat). cbn [b_size]. intros x Hx. unfold write_bytes.
    change (Z.of_nat (length (test_pattern ++ [0]))) with 101.
    destruct (Z.leb_spec r x), (Z.ltb_spec x (r + 101)); cbn [andb]; try done. heap_consts. lia.
Qed.

Lemma exec_memtest_heap bs h m : heap_wf h bs ->
  exists h', exec memtest_heap (with_parts h m s) = (Val tt, with_parts h' m s) /\ heap_wf h' bs.
Proof.
  intros Hwf.
  destruct (borrow_slot bs bs [] h 1024 Hwf (borrowed_none bs) ltac:(lia)) as (r1 & h1 & bs1 & E1 & W1 & B1 & _ & S1 & _).
  destruct (borrow_slot bs bs1 _ h1 2048 W1 B1 ltac:(lia)) as (r2 & h2 & bs2 & E2 & W2 & B2 & N2 & _ & K2).
  destruct (borrow_slot bs bs2 _ h2 4096 W2 B2 ltac:(lia)) as (r3 & h3 & bs3 & E3 & W3 & B3 & N3 & _ & K3).
  destruct (exec_write_test bs3 h3 m r1 W3) as (h4 & E4 & W4).
  { intros Hr. destruct (S1 Hr) as (n & Hat & Hn). exists n. split; [|done]. apply K3, K2. by split. }
  destruct (return_slot bs bs3 _ h4 m r1 W4 B3) as (h5 & bs5 & E5 & W5 & B5); [set_solver|].
  destruct (return_slot bs bs5 _ h5 m r2 W5 B5) as (h6 & bs6 & E6 & W6 & B6); [intros q Hq; rewrite list_elem_of_filter; set_solver|].
  destruct (return_slot bs bs6 _ h6 m r3 W6 B6) as (h7 & bs7 & E7 & W7 & B7); [intros q Hq; rewrite !list_elem_of_filter; set_solver|].
  assert (bs7 = bs) as ->.
  { apply (all_given_back bs bs7 h h7 Hwf W7). eapply borrowed_iff; [|exact B7]. intros q. rewrite !list_elem_of_filter. set_solver. }
  destruct (exec_heap_report h3 bs3 m W3) as [[v3 R3] P3]. destruct (exec_heap_report h7 bs m W7) as [[v7 R7] P7].
  exists h7. split; [|done]. unfold memtest_heap. rewrite exec_bind, exec_kprintf_color. cbv iota. rewrite exec_bind, exec_kprintf. cbv iota.
  rewrite exec_bind, (exec_heap_part _ h m _ _ E1). cbv iota. rewrite exec_bind, (exec_heap_part _ h1 m _ _ E2). cbv iota.
  rewrite exec_bind, (exec_heap_part _ h2 m _ _ E3). cbv iota. rewrite exec_bind.
  assert (forall b : bool, exec (if b then kprintf_color (on_black COLOR_RED) (c "  FAILED: Heap allocation failed\n") [] else
     kprintf (c "  Block 1 (1 KB):  0x%X\n") [AInt r1] ;;
     kprintf (c "  Block 2 (2 KB):  0x%X\n") [AInt r2] ;;
     kprintf (c "  Block 3 (4 KB):  0x%X\n") [AInt r3] ;;
     kprintf_color (on_black COLOR_GREEN) (c "  SUCCESS: All blocks allocated\n") [] ;;
     let! free := on_heap heap_get_free_size in
     kprintf (c "  Heap Free:       %d KB\n") [AInt (free / 1024)] ;;
     report_blocks) (with_parts h3 m s) = (Val tt, with_parts h3 m s)) as ->.
  { intros []; [done|]. run. rewrite R3. run. exact P3. }
  cbv iota. rewrite exec_bind, exec_kprintf. cbv iota. rewrite exec_bind, exec_kprintf_color. cbv iota. rewrite exec_bind, E4. cbv iota.
  run. rewrite E5. cbv iota. run. rewrite E6. cbv iota. run. rewrite E7. cbv iota. run. rewrite R7. run. exact P7.
Qed.

End parts.

(** C39: The memory test gives everything back when at least five pages are free:
    [cmd_memtest] then returns, the heap has the blocks it had, whatever the
    allocations did, and the same pages are in use; nothing else of the system
    changes.  (With fewer pages it returns at the failed allocation and keeps the
    ones it took.) *)
Theorem memtest_restores (s : system heap) (bs : list block) (Hh : heap_wf (k_heap (sys_kernel s)) bs)
    (Hp : pmm_wf (mm_pmm (k_mm (sys_kernel s)))) (Hfree : used_pages (mm_pmm (k_mm (sys_kernel s))) + 5 <= TOTAL_PAGES) :
  exists h' m', exec cmd_memtest s = (Val tt, with_parts h' m' s) /\ heap_wf h' bs /\
    same_but_pmm (k_mm (sys_kernel s)) m' /\ pmm_wf (mm_pmm m') /\
    (forall p, is_page p -> page_used (mm_pmm m') p = page_used (mm_pmm (k_mm (sys_kernel s))) p) /\
    used_pages (mm_pmm m') = used_pages (mm_pmm (k_mm (sys_kernel s))).
Proof.
  pose proof (parts_id s) as Es. set (h := k_heap (sys_kernel s)) in *. set (m := k_mm (sys_kernel s)) in *.
  destruct (exec_test_pages s h m Hp Hfree) as (l & m1 & E1 & S1 & W1 & U1 & L1).
  destruct (exec_memtest_heap s bs h m1 Hh) as (h2 & E2 & W2).
  destruct (exec_give_back_all l m1 W1) as (m3 & E3 & S3 & W3 & U3); [eapply Forall_impl; [|exact L1]; cbn; lia|].
  pose proof (exec_free_pages s h2 l m1 m3 E3) as E3'. destruct (exec_heap_report s h bs m Hh) as [[v R] _].
  assert (forall p, is_page p -> page_used (mm_pmm m3) p = page_used (mm_pmm m) p) as Hsame.
  { intros p Hpg. rewrite U3, U1 by done. case_bool_decide as Hin; [|by rewrite andb_false_r, andb_true_r].
    destruct (proj1 (list.Forall_forall _ _) L1 p Hin) as [Hlo ->]. by rewrite (proj2 (Z.leb_le 512 p)) by lia. }
  exists h2, m3. split.
  - replace (exec cmd_memtest s) with (exec cmd_memtest (with_parts h m s)) by (by rewrite Es).
    unfold cmd_memtest. run. rewrite exec_pmm_get. run. rewrite R. run. rewrite E1. cbv iota. run. rewrite exec_pmm_get. run.
    rewrite E2. cbv iota. run. rewrite E3'. cbv iota. run. rewrite exec_pmm_get. by run.
  - split_and!; [done| |done|done|].
    + unfold same_but_pmm in *. rewrite S3, S1. by destruct m.
    + rewrite (wf_used _ W3), (wf_used _ Hp). apply cnt_ext. intros p Hpr. apply Hsame. unfold is_page. by rewrite total_pages_nat' in Hpr.
Qed.

Lemma memtest_restores_witness :
  exists h' m', exec cmd_memtest (with_parts heap1 empty_mm (blank_system heap1)) = (Val tt, with_parts h' m' (blank_system heap1)) /\
    heap_wf h' blocks1 /\ used_pages (mm_pmm m') = 512.
Proof.
  destruct (memtest_restores (with_parts heap1 empty_mm (blank_system heap1)) blocks1) as (h' & m' & E & Hh & _ & _ & _ & Hu).
  - exact heap1_wf.
  - exact pmm_init_wf.
  - apply Z.leb_le. reflexivity.
  - exists h', m'. split; [exact E|]. split; [exact Hh|exact Hu].
Defined.
