(* ===== verification/Kernel.v ===== *)
(** * kernel.c: the kernel comes up

    [kernel_main] sets up one component after the other and starts the shell.
    The board is the whole machine as these functions see it: the system the
    shell works on, the descriptor tables and the keyboard. *)

From S2P Require Import Prelude CString Words Alloc HeapAlloc RamDisk Fs FsDisk FsMount FsDir FsNames Pmm Paging PagingWalk PagingUser.
From S2P Require Import Process Sched Lifecycle HeapUse Timer Gdt Idt Screen Console Shell ShellFiles ShellProc ShellRun ShellMem.
From S2P Require Import Heap.
From S2P Require Keyboard.

(** The addresses the linker gives to the tables and functions of the kernel. *)
Record image : Type := mk_image {
  gdt_addr : Z; tss_addr : Z; idt_addr : Z;
  isr : Z -> Z; irq : Z -> Z; syscall_interrupt_handler : Z;
  kernel_directory : Z; early_page_tables : Z;
  idle_task : Z;
  entries : programs
}.

Record board : Type := mk_board {
  b_system : system heap;
  b_segments : segments;
  b_interrupts : interrupts;
  b_keyboard : Keyboard.keyboard
}.

(** The task state segment holds the kernel stack the scheduler sets: the field
    [esp0] is the [tss_esp0] of the kernel. *)
Definition set_esp0 (v : Z) (k : kernel heap mm) : kernel heap mm :=
  mk_kernel (k_heap k) (k_mm k) (procs k) (queues k) (stack_words k) (process_table k) (process_count_val k)
    (next_pid k) (current_process k) (idle_process k) v (k_ticks k).

Definition put_system (s : system heap) (b : board) : board := mk_board s (b_segments b) (b_interrupts b) (b_keyboard b).
Definition put_segments (g : segments) (b : board) : board :=
  mk_board (set_kernel (set_esp0 (esp0 (tss_entry g)) (sys_kernel (b_system b))) (b_system b)) g (b_interrupts b) (b_keyboard b).
Definition put_interrupts (i : interrupts) (b : board) : board := mk_board (b_system b) (b_segments b) i (b_keyboard b).
Definition put_keyboard (k : Keyboard.keyboard) (b : board) : board := mk_board (b_system b) (b_segments b) (b_interrupts b) k.

Definition on_system {A} (m : M (system heap) A) : M board A := zoom b_system put_system m.
Definition on_segments {A} (m : M segments A) : M board A := zoom b_segments put_segments m.
Definition on_interrupts {A} (m : M interrupts A) : M board A := zoom b_interrupts put_interrupts m.
Definition on_keyboard {A} (m : M Keyboard.keyboard A) : M board A := zoom b_keyboard put_keyboard m.

(** The RAM disk takes its memory from the heap. *)
Definition on_ramdisk {A} (m : M (heap * ramdisk_t) A) : M (system heap) A :=
  on_fs (zoom (fun f => (fs_heap f, fs_rd f)) (fun p f => set_rd (snd p) (set_heap (fst p) f)) m).

Section boot.
Context (img : image) (junk_pcb : Z -> process_t) (junk_queue : Z -> message_queue_t).
#[local] Instance boot_memory : MemoryOps mm := mm_memory (kernel_directory img).
Abbreviation put := Prelude.screen_write (only parsing).
Abbreviation put_color := Prelude.screen_write_color (only parsing).

(** A line of the kernel about its own progress. *)
Definition kernel_says (colour : Z) (text : list Z) : M (system heap) unit :=
  put_color (c "[KERNEL] ") (on_black colour) ;; put text.

(** The file system is formatted when it is not mounted yet, then mounted. *)
Definition mount_fs : M (system heap) unit :=
  kernel_says COLOR_CYAN (c "Checking file system status...\n") ;;
  let! up := on_fs fs_is_initialized in
  (if up =? 0 then
     kernel_says COLOR_YELLOW (c "File system not initialized, formatting...\n") ;;
     on_fs fs_format ;;
     kernel_says COLOR_GREEN (c "Format complete, mounting file system...\n")
   else
     kernel_says COLOR_CYAN (c "File system already initialized, mounting...\n")) ;;
  on_fs fs_init ;;
  let! up := on_fs fs_is_initialized in
  if up =? 0 then kernel_says COLOR_RED (c "ERROR: File system mount failed!\n")
  else kernel_says COLOR_GREEN (c "File system ready!\n").

(** [kernel_main] from the first message to the banner. *)
Definition kernel_boot : M board unit :=
  put_color (c "[BOOT] ") (on_black COLOR_CYAN) ;;
  put (c "Wittche OS kernel loaded at ") ;;
  Prelude.screen_write_hex 65536 ;;
  put (c "\n") ;;
  on_segments (gdt_init (gdt_addr img) (tss_addr img)) ;;
  on_interrupts (idt_init (idt_addr img) (isr img) (irq img)) ;;
  on_interrupts (syscall_init (syscall_interrupt_handler img)) ;;
  on_system (on_mm (on_pmm pmm_init)) ;;
  on_system (on_heap heap_init) ;;
  on_system (on_mm (paging_init (kernel_directory img) (early_page_tables img))) ;;
  on_system (on_ramdisk ramdisk_init) ;;
  on_system mount_fs ;;
  on_system (on_kernel (process_init junk_pcb (idle_task img))) ;;
  on_system (on_kernel timer_init) ;;
  on_keyboard Keyboard.keyboard_init ;;
  on_system shell_display_banner.

Definition console_of (t : board * screen) : system heap * screen := (b_system (fst t), snd t).
Definition put_console (k : system heap * screen) (t : board * screen) : board * screen := (put_system (fst k) (fst t), snd k).

(** The whole entry point: the screen first, everything else is shown on it; the
    shell runs on the system that came up. *)
Definition kernel_main (ds es fs gs ss : Z) (frame command_buffer input : list Z) : M (board * screen) unit :=
  on_screen screen_init ;;
  shown kernel_boot ;;
  zoom console_of put_console
    (shell_run (kernel_directory img) junk_pcb junk_queue (entries img) ds es fs gs ss frame command_buffer input) ;;
  shown (put_color (c "\n[KERNEL PANIC] ") (on_black COLOR_RED) ;;
         put (c "Shell unexpectedly terminated!\n")) ;;
  stop_with Halted.

End boot.

(** ** The parts come up *)

(** What [process_init] leaves: one process, the idle process, in the first slot. *)
Definition idle_pcb (v : process_t) (nm : list Z) (idle base dir : Z) : process_t :=
  mk_process 0 nm PROCESS_STATE_READY (entry_cpu idle (u32 (u32 (base + 4096) - 4)) (other_regs (cpu_state v))) base 4096
    (user_stack v) (kernel_stack v) (is_user_mode v) 0 10 0 (wake_time v) (msg_queue v) dir 0.

Definition with_idle {H} (h : H) (p base idle : Z) (v : process_t) (k : kernel H mm) : kernel H mm :=
  mk_kernel h (k_mm k) (<[p := v]> (procs k)) (queues k) (<[u32 (u32 (base + 4096) - 4) := idle]> (stack_words k))
    (p :: replicate 15 0) 1 (next_pid k) p p (tss_esp0 k) (k_ticks k).

Lemma exec_process_init `{Allocator H} (dir : Z) (junk_pcb : Z -> process_t) (idle : Z) (k : kernel H mm) (B : blocks) p B1 base B2 :
  alloc_rep (k_heap k) B -> take_block 144 B = Some (p, B1) -> take_block 4096 B1 = Some (base, B2) ->
  (4 < length (name (junk_pcb p)))%nat -> 0 < base < 4294963200 ->
  exists h nm, exec (process_init (H1 := mm_memory dir) junk_pcb idle) k =
      (Val tt, with_idle h p base idle (idle_pcb (junk_pcb p) nm idle base (current_directory (k_mm k))) k) /\
    alloc_rep h B2 /\ p <> 0 /\ holds nm (c "idle").
Proof.
  intros Hr E1 E2 Hnm Hbase.
  pose proof (kmalloc_law _ B 144 Hr ltac:(unfold MAX_REQUEST; lia)) as K1. rewrite E1 in K1. destruct K1 as (h1 & K1 & Hr1 & Hp).
  pose proof (kmalloc_law _ B1 4096 Hr1 ltac:(unfold MAX_REQUEST; lia)) as K2. rewrite E2 in K2. destruct K2 as (h2 & K2 & Hr2 & _).
  destruct (strcpy_holds (c "idle" ++ [0]) (c "idle") (name (junk_pcb p))) as (nm & Es & Hh & _); [exists []; split; [done|by repeat constructor]|done|].
  exists h2, nm. split; [|done].
  unfold process_init, new_pcb, Process.on_heap, Process.on_mm. run. change SIZEOF_PROCESS with 144. cbn [k_heap set_table].
  rewrite K1. run. rewrite (proj2 (Z.eqb_neq p 0) Hp). run.
  rewrite (exec_load_pcb _ p (junk_pcb p)) by apply lookup_insert_eq. run. rewrite Es. run.
  cbn [Process.paging_get_directory mm_memory]. unfold Paging.paging_get_directory. run.
  erewrite exec_store_pcb by apply lookup_insert_eq. run. cbn [k_heap set_procs set_mm set_idle set_k_heap]. rewrite K2. run.
  rewrite exec_push_word by lia. run. erewrite exec_update_pcb by (cbn [procs set_procs set_stack_words set_k_heap]; apply lookup_insert_eq). run.
  unfold with_idle. cbn. by rewrite !insert_insert_eq, (proj2 (Z.eqb_neq p 0) Hp).
Qed.

(** The RAM disk is the first block of an empty heap. *)
Lemma exec_ramdisk_init (h : heap) (d : ramdisk_t) :
  heap_wf h [mk_block HEAP_SIZE true] -> (forall x, is_u8 (rd_data d x)) ->
  exists h' d', exec ramdisk_init (h, d) = (Val tt, (h', d')) /\ heap_wf h' boot_blocks /\ disk_ok d' /\
    rd_ptr d' = HEAP_START + HEADER.
Proof.
  intros Hwf Hd. pose proof (kmalloc_exec h _ RAMDISK_SIZE Hwf ltac:(unfold RAMDISK_SIZE; lia)) as Hk.
  cbv [amalloc b_free b_size] in Hk. change (total_of RAMDISK_SIZE) with 1048592 in Hk.
  destruct Hk as (h' & b & _ & _ & _ & E & Hwf' & _).
  exists h', (mk_ramdisk (HEAP_START + HEADER) (clear_data (rd_data d) RAMDISK_SIZE) RAMDISK_SIZE 512 2048 1).
  split_and!; [|exact Hwf'| |done].
  - unfold ramdisk_init, RamDisk.on_heap, upd_disk. run. cbn [fst]. change (Alloc.kmalloc RAMDISK_SIZE) with (Heap.kmalloc RAMDISK_SIZE).
    rewrite E. by run.
  - split; try done. cbn. intros x. unfold clear_data. destruct (_ && _); [unfold is_u8; lia|apply Hd].
Qed.

Lemma exec_on_ramdisk {A} (m : M (heap * ramdisk_t) A) (s : system heap) r h d :
  exec m (k_heap (sys_kernel s), fs_rd (sys_fs s)) = (r, (h, d)) ->
  exec (on_ramdisk m) s = (r, put_fs (set_rd d (set_heap h (the_fs s))) s).
Proof. intros E. unfold on_ramdisk, on_fs. rewrite !exec_zoom. cbn [fs_heap fs_rd the_fs attach]. by rewrite E. Qed.

(** [mount_fs] on a disk in service formats it and mounts it. *)
Lemma exec_mount (f : fs_t heap) (s : system heap) (B : list block) :
  in_time f s -> heap_wf (fs_heap f) B -> room (H1 := heap_allocator) 7 512 B -> disk_ok (fs_rd f) -> is_u32 (fs_ticks f) ->
  b_ptr (inode_bitmap f) = 0 -> b_ptr (data_bitmap f) = 0 -> length (open_files f) = 16%nat -> fs_initialized f = 0 ->
  exists f' B', exec mount_fs (put_fs f s) = (Val tt, put_fs f' s) /\ in_time f' s /\ mounted (H1 := heap_allocator) f' B' /\
    fresh_fs f' /\ take_blocks (H1 := heap_allocator) 4 512 B = Some B'.
Proof.
  intros Ht Hwf Hroom Hd Hu Hi Hb Ho Hz.
  destruct (@boot_exec heap heap_ops heap_allocator 2 f B Hwf Hroom Hd Hu Hi Hb Ho) as (f1 & f' & B' & E1 & E2 & T1 & T2 & Hm & Hf & _ & Hk).
  exists f', B'. assert (in_time f1 s) as Ht1 by (unfold in_time; by rewrite T1). assert (in_time f' s) as Ht2 by (unfold in_time; by rewrite T2).
  split_and!; try done. unfold mount_fs, kernel_says. run.
  assert (forall g, in_time g s -> exec (on_fs fs_is_initialized) (put_fs g s) = (Val (fs_initialized g), put_fs g s)) as Hup
    by (intros g Hg; by apply (exec_on_fs_put _ g s)).
  rewrite (Hup f Ht), Hz. cbn [Z.eqb]. run. rewrite (exec_on_fs_put _ f s _ _ Ht E1). run.
  rewrite (exec_on_fs_put _ f1 s _ _ Ht1 E2). run. by rewrite (Hup f' Ht2), (mt_up _ _ Hm).
Qed.

(** ** The machine at power-on and after [kernel_boot] *)

(** The static variables of the kernel before its first instruction. *)
Record powered_on (b : board) : Prop := {
  po_gdt : length (gdt_entries (b_segments b)) = 6%nat;
  po_idt : length (idt (b_interrupts b)) = 256%nat;
  po_keys : length (Keyboard.keyboard_buffer (b_keyboard b)) = 256%nat;
  po_ticks : k_ticks (sys_kernel (b_system b)) = 0;
  po_procs : procs (sys_kernel (b_system b)) = ∅ /\ queues (sys_kernel (b_system b)) = ∅;
  po_next : next_pid (sys_kernel (b_system b)) = 1;
  po_disk x : is_u8 (rd_data (fs_rd (sys_fs (b_system b))) x);
  po_ibits : b_ptr (inode_bitmap (sys_fs (b_system b))) = 0;
  po_dbits : b_ptr (data_bitmap (sys_fs (b_system b))) = 0;
  po_files : length (open_files (sys_fs (b_system b))) = 16%nat;
  po_down : fs_initialized (sys_fs (b_system b)) = 0
}.

(** The kernel directory is page [D]; no page is shared with the sixteen early
    page tables from page [E] on, and both lie in the first two megabytes. *)
Record linked (img : image) (D E : Z) : Prop := {
  li_dir : kernel_directory img = D * 4096;
  li_tables : early_page_tables img = E * 4096;
  li_apart : 0 < D < 512 /\ 0 < E /\ E + 16 <= 512 /\ (D < E \/ E + 16 <= D)
}.

(** The blocks of the heap once everything is set up: the RAM disk, the bitmaps
    of the file system, twice, the idle process and its stack. *)
Definition running_blocks : list block :=
  [mk_block 1048592 false; mk_block 528 false; mk_block 528 false; mk_block 528 false; mk_block 528 false;
   mk_block 160 false; mk_block 4112 false; mk_block 3139328 true].

Record system_up (D : Z) (s : system heap) : Prop := {
  su_pages : mm_pmm (k_mm (sys_kernel s)) = mk_pmm boot_bitmap 512;
  su_dir : dir_wf (k_mm (sys_kernel s)) D;
  su_tlb : tlb_ok (k_mm (sys_kernel s)) D;
  su_current : current_directory (k_mm (sys_kernel s)) = D * 4096;
  su_cr3 : cr3 (k_mm (sys_kernel s)) = D * 4096;
  su_paging : Z.testbit (cr0 (k_mm (sys_kernel s))) 31 = true;
  su_identity v : is_u32 v ->
    exec (paging_get_physical_address v) (k_mm (sys_kernel s)) = (Val (if v <? 16777216 then v else 0), k_mm (sys_kernel s));
  su_files : ready (HA := heap_allocator) (the_fs s) running_blocks;
  su_empty : entries_of (the_fs s) = [];
  su_procs : sys_ok (sys_kernel s);
  su_processes : processes_ok (sys_kernel s) running_blocks;
  su_idle : exists p v, process_table (sys_kernel s) = p :: replicate 15 0 /\ current_process (sys_kernel s) = p /\
    idle_process (sys_kernel s) = p /\ procs (sys_kernel s) !! p = Some v /\ pid v = 0 /\ holds (name v) (c "idle");
  su_clock : k_ticks (sys_kernel s) = 0
}.

Section up.
Context (img : image) (junk_pcb : Z -> process_t) (junk_queue : Z -> message_queue_t) (D E : Z).
Context (Hlink : linked img D E).
#[local] Instance up_memory : MemoryOps mm := mm_memory (kernel_directory img).

(** The system from [pmm_init] to [timer_init]. *)
Definition system_boot : M (system heap) unit :=
  on_mm (on_pmm pmm_init) ;;
  on_heap heap_init ;;
  on_mm (paging_init (kernel_directory img) (early_page_tables img)) ;;
  on_ramdisk ramdisk_init ;;
  mount_fs ;;
  on_kernel (process_init junk_pcb (idle_task img)) ;;
  on_kernel timer_init.

(** Memory: the page allocator, the heap and the page tables. *)
Lemma exec_memory_up (s : system heap) :
  exists h m, (forall k, exec (on_mm (on_pmm pmm_init) ;; on_heap heap_init ;;
      on_mm (paging_init (kernel_directory img) (early_page_tables img)) ;; k) s = exec (A := unit) k (with_parts h m s)) /\
    heap_wf h [mk_block HEAP_SIZE true] /\ mm_pmm m = mk_pmm boot_bitmap 512 /\ dir_wf m D /\ tlb_ok m D /\
    current_directory m = D * 4096 /\ cr3 m = D * 4096 /\ Z.testbit (cr0 m) 31 = true /\
    forall v, is_u32 v -> exec (paging_get_physical_address v) m = (Val (if v <? 16777216 then v else 0), m).
Proof.
  destruct Hlink as [Ed Et Hap]. set (m0 := set_pmm (mk_pmm boot_bitmap 512) (k_mm (sys_kernel s))).
  destruct (heap_init_exec (k_heap (sys_kernel s))) as (h & E2 & Hwf).
  destruct (paging_init_identity m0 D E pmm_init_wf Hap) as (m & E3 & Hp & Hrest).
  exists h, m. split; [|split; [done|]; rewrite Hp; by split]. intros k. rewrite <- (parts_id s) at 1.
  assert (exec (on_pmm pmm_init) (k_mm (sys_kernel s)) = (Val tt, m0)) as E1 by (unfold on_pmm; by rewrite exec_zoom, exec_pmm_init).
  rewrite exec_bind, (exec_mm_part s _ _ _ _ _ E1). cbv iota. rewrite exec_bind, (exec_heap_part s _ _ _ _ _ E2). cbv iota.
  rewrite Ed, Et, exec_bind, (exec_mm_part s _ _ _ _ _ E3). done.
Qed.

(** The process manager after [process_init]: the control block of the idle
    process is the sixth block of the heap. *)
Lemma idle_processes_ok h base idle nm junk dir (k : kernel heap mm) : heap_wf h running_blocks -> procs k = ∅ -> queues k = ∅ -> next_pid k = 1 ->
  processes_ok (set_ticks 0 (with_idle h 3147872 base idle (idle_pcb junk nm idle base dir) k)) running_blocks.
Proof.
  intros Hwf Hpr Hqu Hnx. set (v := idle_pcb _ _ _ _ _).
  assert (forall p w, procs (set_ticks 0 (with_idle h 3147872 base idle v k)) !! p = Some w -> p = 3147872 /\ w = v) as Hone.
  { intros p w Hp. cbn [procs set_ticks with_idle] in Hp. rewrite Hpr, insert_empty in Hp. by apply lookup_singleton_Some in Hp as [<- <-]. }
  split; [exact Hwf| |reflexivity| | | |cbn; lia].
  - split; [reflexivity|]. intros i q Hi Hq. change (process_table _) with (3147872 :: replicate 15 0) in Hi.
    destruct i as [|i]; [injection Hi as <-; exists v; apply lookup_insert_eq|]. apply lookup_replicate in Hi as [-> _]. done.
  - intros p w Hp. destruct (Hone p w Hp) as [-> _]. exists (mk_block 160 false). split; [reflexivity|]. do 5 right. left. by split.
  - intros q mq Hq. cbn [queues set_ticks with_idle] in Hq. by rewrite Hqu in Hq.
  - intros p w Hp. destruct (Hone p w Hp) as [_ ->]. cbn. lia.
Qed.

Lemma exec_system_up (s : system heap) (f := sys_fs s) :
  k_ticks (sys_kernel s) = 0 -> procs (sys_kernel s) = ∅ -> queues (sys_kernel s) = ∅ -> next_pid (sys_kernel s) = 1 ->
  (forall x, is_u8 (rd_data (fs_rd f) x)) -> b_ptr (inode_bitmap f) = 0 -> b_ptr (data_bitmap f) = 0 ->
  length (open_files f) = 16%nat -> fs_initialized f = 0 -> (forall p, (4 < length (name (junk_pcb p)))%nat) ->
  exists s', exec system_boot s = (Val tt, s') /\ system_up D s' /\ command_history s' = command_history s /\
    history_count s' = history_count s /\ tss_esp0 (sys_kernel s') = tss_esp0 (sys_kernel s).
Proof.
  intros Ht Hpr Hqu Hnx Hd Hib Hdb Ho Hz Hnm. destruct (exec_memory_up s) as (h & m & Em & Hwf & Hmm).
  destruct (exec_ramdisk_init h (fs_rd f) Hwf Hd) as (h2 & d & E2 & Hwf2 & Hdk & _).
  set (s1 := with_parts h m s) in *. set (f2 := set_rd d (set_heap h2 (the_fs s1))).
  pose proof (exec_on_ramdisk ramdisk_init s1 _ _ _ E2) as E2'.
  destruct (exec_mount f2 s1 boot_blocks) as (f3 & B3 & E3 & Ht3 & Hm3 & Hf3 & Hk3);
    [done|exact Hwf2|apply boot_room; lia|exact Hdk|cbn; rewrite Ht; unfold is_u32; lia|done|done|done|done|].
  assert (B3 = take 5 running_blocks ++ [mk_block 3143600 true]) as -> by (vm_compute in Hk3; by injection Hk3 as <-).
  assert (fs_ticks f3 = 0) as Ht3' by (rewrite Ht3; exact Ht).
  assert (take_block (Allocator := heap_allocator) 144 (take 5 running_blocks ++ [mk_block 3143600 true]) =
    Some (3147872, take 6 running_blocks ++ [mk_block 3143440 true])) as T1 by reflexivity.
  assert (take_block (Allocator := heap_allocator) 4096 (take 6 running_blocks ++ [mk_block 3143440 true]) =
    Some (3148032, running_blocks)) as T2 by reflexivity.
  destruct (exec_process_init (kernel_directory img) junk_pcb (idle_task img) (sys_kernel (put_fs f3 s1)) _ _ _ _ _
    (mt_heap _ _ Hm3) T1 T2 (Hnm _) ltac:(lia)) as (h4 & nm & E4 & Hh4 & Hp4 & Hn4).
  set (v := idle_pcb _ _ _ _ _) in E4. set (k4 := with_idle _ _ _ _ _ _) in E4.
  exists (set_kernel (set_ticks 0 k4) (put_fs f3 s1)). split; [|split; [|done]].
  { unfold system_boot. rewrite Em. rewrite exec_bind, E2'. cbv iota. rewrite exec_bind. fold f2. rewrite E3. cbv iota.
    unfold on_kernel at 1. rewrite exec_bind, exec_zoom. fold up_memory in E4. rewrite E4. cbv iota.
    unfold on_kernel, timer_init. rewrite exec_zoom. by run. }
  assert (the_fs (set_kernel (set_ticks 0 k4) (put_fs f3 s1)) = set_heap h4 f3) as Hfs
    by (destruct f3; cbn in Ht3' |- *; by rewrite Ht3').
  destruct (fresh_dir f3 _ Hm3 Hf3) as (Hroot & Hent & Hi0 & _); [rewrite Ht3'; unfold is_u32; lia|].
  destruct Hmm as (Hp & Hdir & Htlb & Hcd & Hc3 & Hc0 & Hid).
  assert (procs k4 !! 3147872 = Some v) as Hv by apply lookup_insert_eq.
  split; [exact Hp|exact Hdir|exact Htlb|exact Hcd|exact Hc3|exact Hc0|exact Hid| | | | | |reflexivity].
  - rewrite Hfs. split; [by apply mounted_set_heap with (1 := Hm3)|by vm_compute|by apply dir_ok_heap| | |done].
    + unfold entries_of. cbn [fs_rd set_heap]. rewrite Hent. by constructor.
    + cbn [fs_ticks set_heap]. rewrite Ht3'. unfold is_u32. lia.
  - rewrite Hfs. exact Hent.
  - split; [split; [done|]|done|by split|split; [done|exists v; split; [done|by left]]].
    intros i q Hi Hq. change (process_table _) with (3147872 :: replicate 15 0) in Hi.
    destruct i as [|i]; [injection Hi as <-; by exists v|]. apply lookup_replicate in Hi as [-> _]. done.
  - apply idle_processes_ok; [exact Hh4|exact Hpr|exact Hqu|exact Hnx].
  - by exists 3147872, v.
Qed.

End up.

(** ** Interrupts, segments and the keyboard *)

Record board_up (img : image) (D : Z) (b : board) : Prop := {
  bu_system : system_up D (b_system b);
  bu_segments : b_segments b = mk_segments (boot_gdt (tss_addr img)) (47, gdt_addr img) boot_tss (Some (47, gdt_addr img)) 43;
  bu_stack : tss_esp0 (sys_kernel (b_system b)) = 0;
  bu_vectors v : 0 <= v < 256 ->
    idt (b_interrupts b) !! Z.to_nat v = Some (boot_gate (isr img) (irq img) (syscall_interrupt_handler img) v);
  bu_idtr : idtr (b_interrupts b) = Some (2047, idt_addr img);
  bu_enabled : iflag (b_interrupts b) = true;
  bu_keyboard : Keyboard.keyboard_ok (b_keyboard b) /\ Keyboard.pending (b_keyboard b) = []
}.

Lemma exec_on_system {A} (m : M (system heap) A) b r s : exec m (b_system b) = (r, s) -> exec (on_system m) b = (r, put_system s b).
Proof. intros Ex. unfold on_system. by rewrite exec_zoom, Ex. Qed.

(** Calls on the same part, one after the other, are one call on it. *)
Lemma exec_zoom_join {S T A} (get : S -> T) (put : T -> S -> S) (m m' : M T unit) (k : M S A) b :
  (forall t s, get (put t s) = t) -> (forall t t' s, put t (put t' s) = put t s) ->
  exec (zoom get put (m ;; m') ;; k) b = exec (zoom get put m ;; zoom get put m' ;; k) b.
Proof.
  intros Hg Hp. rewrite !exec_bind, !exec_zoom, exec_bind. destruct (exec m (get b)) as [[[]|w] s]; [|done].
  rewrite exec_bind, exec_zoom, Hg. destruct (exec m' s) as [[]]; by rewrite Hp.
Qed.

Lemma exec_seq_cong {S A} (m : M S unit) (k k' : M S A) b : (forall b', exec k b' = exec k' b') -> exec (m ;; k) b = exec (m ;; k') b.
Proof. intros Hk. rewrite !exec_bind. destruct (exec m b) as [[[]|w] s]; [apply Hk|done]. Qed.

(** [kernel_boot] sets up three parts of the board, then the system. *)
Lemma kernel_boot_parts img junk_pcb b :
  exec (kernel_boot img junk_pcb) b =
  exec (on_segments (gdt_init (gdt_addr img) (tss_addr img)) ;;
        on_interrupts (idt_init (idt_addr img) (isr img) (irq img) ;; syscall_init (syscall_interrupt_handler img)) ;;
        on_system (system_boot img junk_pcb) ;;
        on_keyboard Keyboard.keyboard_init) b.
Proof.
  unfold kernel_boot. rewrite exec_bind, exec_screen_write_color. cbv iota. rewrite exec_bind, exec_screen_write. cbv iota.
  rewrite exec_bind, exec_screen_write_hex. cbv iota. rewrite exec_bind, exec_screen_write. cbv iota.
  apply exec_seq_cong. intros b1. unfold on_interrupts. rewrite exec_zoom_join by done. do 2 (apply exec_seq_cong; intros ?).
  unfold on_system, system_boot. do 6 (rewrite exec_zoom_join by done; apply exec_seq_cong; intros ?).
  apply exec_seq_cong; intros b3. unfold on_keyboard, Keyboard.keyboard_init. unfold shell_display_banner. by run.
Qed.

(** [kernel_boot] returns and leaves the board in order. *)
Lemma kernel_boot_exec (img : image) (junk_pcb : Z -> process_t) (D E : Z) (b : board)
    (Hlink : linked img D E) (Hon : powered_on b) (Hnm : forall p, (4 < length (name (junk_pcb p)))%nat) :
  exists b', exec (kernel_boot img junk_pcb) b = (Val tt, b') /\ board_up img D b'.
Proof.
  destruct Hon as [Hg Hi Hk Ht [Hpr Hqu] Hnx Hd Hib Hdb Ho Hz]. rewrite kernel_boot_parts, exec_bind.
  unfold on_segments at 1. rewrite exec_zoom, exec_gdt_init by done. cbv iota. set (b1 := put_segments _ b).
  destruct (exec_idt_boot (idt_addr img) (isr img) (irq img) (syscall_interrupt_handler img) (b_interrupts b1) Hi) as (i & Ei & _ & Hv & Hr & Hf).
  rewrite exec_bind. unfold on_interrupts at 1. rewrite exec_zoom, Ei. cbv iota. set (b2 := put_interrupts i b1).
  destruct (exec_system_up img junk_pcb D E Hlink (b_system b2) Ht Hpr Hqu Hnx Hd Hib Hdb Ho Hz Hnm) as (s & Es & Hs & _ & _ & He).
  rewrite exec_bind, (exec_on_system _ b2 _ _ Es). cbv iota. unfold on_keyboard, Keyboard.keyboard_init. rewrite exec_zoom. run.
  eexists. split; [reflexivity|]. split; [exact Hs|reflexivity|exact He|exact Hv|exact Hr|exact Hf|].
  split; [split; [exact Hk|split; [reflexivity|exact eq_refl]..]|reflexivity].
Qed.
