(* ===== verification/KernelRun.v ===== *)
(** * kernel.c: from the first message to the shell

    Every message of the boot can be printed, so [kernel_main] with the screen
    does what [kernel_boot] does alone, and then runs the shell on the system
    that came up. *)

From S2P Require Import Prelude CString Mem Alloc Heap HeapAlloc RamDisk Fs Pmm Paging PagingWalk PagingUser Process Timer Gdt Idt Screen Kprintf Console.
From S2P Require Import Shell ShellProc ShellRun Kernel.
From S2P Require Keyboard.

(** ** What the components print while they come up *)

Lemma prints_kmalloc size : prints (Heap.kmalloc size).
Proof.
  unfold Heap.kmalloc, kmalloc_round, block_magic, block_is_free, Heap.block_size, block_next, Heap.set_size, set_is_free, set_magic, set_next, poke.
  printing.
Qed.

Lemma prints_kfree p : prints (Heap.kfree p).
Proof.
  unfold Heap.kfree, coalesce_free_blocks, coalesce_round, block_magic, block_is_free, Heap.block_size, block_next, Heap.set_size, set_is_free,
    set_next, poke. printing.
Qed.

Lemma prints_heap_init : prints heap_init.
Proof. unfold heap_init, Heap.set_size, set_is_free, set_magic, set_next, poke. printing. Qed.

Lemma prints_pmm_init : prints pmm_init.
Proof. unfold pmm_init, Pmm.bitmap_set, add_used, bitmap_word, bitmap_store. printing. Qed.

Lemma prints_paging_init dir tables : prints (paging_init dir tables).
Proof.
  unfold paging_init, init_round, clear_table, read_entry, write_entry, load_page_directory, paging_enable. printing.
Qed.

Lemma prints_gdt_init g t : prints (gdt_init g t).
Proof. unfold gdt_init, gdt_set_gate, gdt_flush, tss_flush. printing. Qed.

Lemma prints_idt_init a i q : prints (idt_init a i q).
Proof. unfold idt_init, pic_remap, io_wait, idt_set_gate. printing. Qed.

Lemma prints_syscall_init h : prints (syscall_init h).
Proof. unfold syscall_init, idt_set_gate. printing. Qed.

#[local] Hint Resolve prints_kmalloc prints_kfree : prints.

Lemma prints_ramdisk_init : prints (ramdisk_init (H := heap)).
Proof. unfold ramdisk_init, RamDisk.on_heap, upd_disk. printing. Qed.

Lemma prints_fs_format : prints (fs_format (H := heap)).
Proof.
  unfold fs_format, format_disk, write_inode, ramdisk_is_initialized, kmalloc_buf, kfree_buf, read_block, write_block, ramdisk_read_block,
    ramdisk_write_block, upd_sb, Fs.timer_get_ticks. printing.
Qed.

Lemma prints_fs_init : prints (fs_init (H := heap)).
Proof.
  unfold fs_init, ramdisk_is_initialized, kmalloc_buf, kfree_buf, read_block, ramdisk_read_block, upd_sb. printing.
Qed.

Lemma prints_get_directory dir : prints (@Process.paging_get_directory mm (mm_memory dir)).
Proof. exact (prints_silent _ (silent_gets current_directory)). Qed.
#[local] Hint Resolve prints_get_directory : prints.

Lemma prints_process_init dir junk idle : prints (process_init (H0 := heap_ops) (H1 := mm_memory dir) junk idle).
Proof.
  unfold process_init, new_pcb, Process.on_heap, Process.on_mm, update_pcb, store_pcb, load_pcb, push_word. printing.
Qed.

#[local] Hint Resolve prints_heap_init prints_pmm_init prints_paging_init prints_gdt_init prints_idt_init prints_syscall_init
  prints_ramdisk_init prints_fs_format prints_fs_init prints_process_init : prints.

Lemma prints_boot img junk : prints (kernel_boot img junk).
Proof.
  unfold kernel_boot, on_segments, on_interrupts, on_system, on_mm, Process.on_mm, on_heap, Process.on_heap, on_kernel, on_pmm, on_ramdisk, on_fs,
    mount_fs, kernel_says, on_fs, fs_is_initialized, on_keyboard, Keyboard.keyboard_init, timer_init, shell_display_banner. printing.
Qed.

(** ** The entry point *)

Lemma exec_screen_init t : cells_ok (video_memory t) -> exists t', exec screen_init t = (Val tt, t') /\ screen_ok t'.
Proof.
  intros Ht. unfold screen_init, set_cursor_pos, set_color_field. run.
  edestruct (exec_fill_screen (mk_screen 0 0 DEFAULT_COLOR (video_memory t))) as (l & E & Hok); [done|].
  cbn [cursor_row cursor_col current_color video_memory] in *. rewrite E. run.
  rewrite exec_update_cursor. eexists. split; [done|]. split; cbn; try done; unfold is_u8; vm_compute; lia.
Qed.

(** C2: [kernel_main] brings the machine up and hands it to the shell: from the
    state at power-on, with any contents of video memory, it runs [shell_run] on
    the system the boot theorem describes and on a screen in order, ends as the
    shell ends, which never returns, and never reaches the panic message. *)
Theorem kernel_main_runs_shell (img : image) (junk_pcb : Z -> process_t) (junk_queue : Z -> message_queue_t) (D E ds es fs gs ss : Z)
    (frame buffer input : list Z) (b : board) (t : screen)
    (Hlink : linked img D E) (Hon : powered_on b) (Hnm : forall p, (4 < length (name (junk_pcb p)))%nat)
    (Ht : cells_ok (video_memory t)) :
  exists b' t' w s', board_up img D b' /\ screen_ok t' /\
    exec (shell_run (kernel_directory img) junk_pcb junk_queue (entries img) ds es fs gs ss frame buffer input) (b_system b', t') = (Stopped w, s') /\
    exec (kernel_main img junk_pcb junk_queue ds es fs gs ss frame buffer input) (b, t) = (Stopped w, put_console s' (b', t')).
Proof.
  destruct (kernel_boot_exec img junk_pcb D E b Hlink Hon Hnm) as (b' & Eb & Hb).
  destruct (exec_screen_init t Ht) as (t1 & E1 & Ht1).
  destruct (exec_shown (kernel_boot img junk_pcb) b t1 (prints_boot img junk_pcb) Ht1) as (t' & E2 & Ht2).
  rewrite Eb in E2. cbn [fst snd] in E2.
  destruct (shell_run_never_returns (kernel_directory img) junk_pcb junk_queue (entries img) ds es fs gs ss frame buffer input (b_system b', t'))
    as (w & s' & E3).
  exists b', t', w, s'. split; [exact Hb|]. split; [exact Ht2|]. split; [exact E3|].
  unfold kernel_main. rewrite exec_bind. unfold on_screen at 1. rewrite exec_zoom. cbn [snd]. rewrite E1. cbv iota.
  rewrite exec_bind. cbn [fst]. rewrite E2. cbv iota. rewrite exec_bind, exec_zoom. unfold console_of at 1. cbn [fst snd].
  unfold console in E3. rewrite E3. reflexivity.
Qed.

(** ** The heap and the page allocator share memory *)

(** The third entry of the kernel directory points into the first 16 MB. *)
Lemma kernel_entry_low D s : system_up D s -> 0 <= ent (mm_mem (k_mm (sys_kernel s))) D 2 < 16777216.
Proof.
  intros Hs. pose proof (su_identity _ _ Hs 8388608 ltac:(unfold is_u32; lia)) as Hid.
  rewrite (exec_get_physical _ D 8388608 (su_dir _ _ Hs) (su_current _ _ Hs) ltac:(unfold is_u32; lia)) in Hid.
  assert (present (ent (mm_mem (k_mm (sys_kernel s))) D 2) = true) as Hp.
  { unfold translate, walk in Hid. change (8388608 / 4096 / 1024) with 2 in Hid. by destruct (present _). }
  pose proof (dw_table _ _ (su_dir _ _ Hs) 2 ltac:(lia) Hp) as (Ht & _). cbv zeta in Ht.
  pose proof (ent_range (mm_mem (k_mm (sys_kernel s))) D 2) as Hr.
  split; [apply Hr|]. apply Z.nle_gt. intros Hge. pose proof (Z.div_le_mono 16777216 _ 4096 ltac:(lia) Hge) as Hdiv. change (16777216 / 4096) with 4096 in Hdiv. lia.
Qed.

(** The first new directory after the boot is the first page of the heap. *)
Lemma exec_first_directory D s : system_up D s ->
  exists m', exec (Paging.paging_create_user_directory (D * 4096)) (k_mm (sys_kernel s)) = (Val HEAP_START, m') /\
    ent (mm_mem m') 512 2 = ent (mm_mem (k_mm (sys_kernel s))) D 2.
Proof.
  intros Hs. set (m := k_mm (sys_kernel s)).
  assert (exec (on_pmm Pmm.pmm_alloc_page) m = (Val HEAP_START, set_pmm (take_page 512 (mk_pmm boot_bitmap 512)) m)) as Ea.
  { unfold on_pmm. rewrite exec_zoom. fold m in Hs. unfold m. rewrite (su_pages _ _ Hs). reflexivity. }
  destruct (exec_create_directory m D) as [[Hall _]|(k & m' & Ex & Hc)].
  { unfold m. rewrite (su_pages _ _ Hs). exact pmm_init_wf. } { exact (su_dir _ _ Hs). }
  { specialize (Hall 512). unfold m in Hall. rewrite (su_pages _ _ Hs) in Hall. by specialize (Hall ltac:(done)). }
  assert (k = 512) as ->.
  { pose proof Ex as Ex'. unfold Paging.paging_create_user_directory in Ex'. rewrite exec_bind, Ea in Ex'. cbn [Z.eqb HEAP_START] in Ex'.
    rewrite exec_bind in Ex'. destruct (exec _ _) as [[[]|] ?] in Ex'; [|done]. cbv iota in Ex'.
    rewrite exec_bind in Ex'. destruct (exec (for_each _ _) _) as [[[]|] ?] in Ex'; [|done]. cbv iota in Ex'.
    rewrite exec_ret in Ex'. injection Ex' as Hk _. unfold HEAP_START in Hk. lia. }
  exists m'. split; [exact Ex|]. by rewrite (cd_dir _ _ _ _ Hc).
Qed.

(** C40: The heap lies in memory the page allocator gives away: it starts at 2 MB,
    where the reserved pages end.  The first page taken after the boot, for the
    page directory of the first user process, is the page of the first block of
    the heap, the RAM disk; with the directory in its place, [kmalloc] reads a
    header that is none and refuses every request. *)
Theorem user_directory_overwrites_heap (img : image) (D : Z) (b : board) (Hup : board_up img D b) :
  exists m', exec (Paging.paging_create_user_directory (D * 4096)) (k_mm (sys_kernel (b_system b))) = (Val HEAP_START, m') /\
    forall size, 0 < size ->
      exec (Heap.kmalloc size) (mk_heap (mm_mem m') HEAP_START) = (Val 0, mk_heap (mm_mem m') HEAP_START).
Proof.
  destruct Hup as [Hs _ _ _ _ _ _]. destruct (exec_first_directory D _ Hs) as (m' & Ex & He). exists m'. split; [exact Ex|].
  intros size Hsz. unfold Heap.kmalloc. rewrite (proj2 (Z.eqb_neq size 0)) by lia. run. cbn [heap_head].
  assert (exists n, heap_fuel = S n) as [n ->] by (exists (Nat.pred heap_fuel); unfold heap_fuel; lia). rewrite iterate_S, exec_bind. unfold kmalloc_round at 1. cbn [Z.eqb HEAP_START].
  unfold block_magic. run. cbn [hmem].
  pose proof (kernel_entry_low D _ Hs) as Hlow. rewrite <- He in Hlow. unfold ent in Hlow.
  change (512 * 4096 + 4 * 2) with (HEAP_START + 8) in Hlow.
  rewrite (proj2 (Z.eqb_neq (load32 (mm_mem m') (HEAP_START + 8)) HEAP_MAGIC)) by (unfold HEAP_MAGIC; lia). by run.
Qed.

(** ** A machine that is switched on *)

Definition demo_image : image :=
  mk_image 4096 8192 12288 (fun v => 65536 + 16 * v) (fun v => 69632 + 16 * v) 73728 1048576 1228800 77824 no_programs.
Definition demo_board : board :=
  mk_board (blank_system heap0) (mk_segments (replicate 6 (mk_gdt_entry 0 0 0 0 0 0)) (0, 0) zero_tss None 0)
    (mk_interrupts (replicate 256 (mk_idt_entry 0 0 0 0 0)) (0, 0) None false) Keyboard.keyboard0.

Lemma demo_linked : linked demo_image 256 300.
Proof. split; [reflexivity|reflexivity|lia]. Qed.

Lemma demo_powered_on : powered_on demo_board.
Proof. split; try reflexivity; [by split|]. intros x. cbn. unfold is_u8. lia. Qed.

Lemma no_pcb_name p : (4 < length (name (no_pcb p)))%nat.
Proof. cbn. lia. Qed.

Lemma kernel_main_runs_shell_witness :
  exists b' t' w s', board_up demo_image 256 b' /\ screen_ok t' /\
    exec (kernel_main demo_image no_pcb no_queue 16 16 16 16 16 [] [] []) (demo_board, screen0) = (Stopped w, put_console s' (b', t')).
Proof.
  destruct (kernel_main_runs_shell demo_image no_pcb no_queue 256 300 16 16 16 16 16 [] [] [] demo_board screen0
    demo_linked demo_powered_on no_pcb_name (so_cells _ screen0_ok)) as (b' & t' & w & s' & Hb & Ht & _ & E).
  exists b', t', w, s'. split; [exact Hb|]. split; [exact Ht|exact E].
Defined.

Lemma user_directory_overwrites_heap_witness :
  exists b m', exec (kernel_boot demo_image no_pcb) demo_board = (Val tt, b) /\
    exec (Heap.kmalloc 64) (mk_heap (mm_mem m') HEAP_START) = (Val 0, mk_heap (mm_mem m') HEAP_START).
Proof.
  destruct (kernel_boot_exec demo_image no_pcb 256 300 demo_board demo_linked demo_powered_on no_pcb_name) as (b & Eb & Hb).
  destruct (user_directory_overwrites_heap demo_image 256 b Hb) as (m' & _ & Hk).
  exists b, m'. split; [exact Eb|]. apply (Hk 64). lia.
Defined.
