(* ===== verification/Userlib.v ===== *)
(** * userlib.c: the user library

    The wrappers around [int $0x80].  The stub of syscall.asm passes the registers
    to [syscall_dispatch] in the order eax, ebx, ecx, edx, esi and gives the
    result back in eax; a register a wrapper does not set holds whatever it held
    before. *)

From S2P Require Import Prelude CString Mem Alloc Process Sched Ipc Syscall.

Definition SYS_EXIT := 0.
Definition SYS_WRITE := 1.
Definition SYS_READ := 2.
Definition SYS_GETPID := 3.
Definition SYS_SLEEP := 4.
Definition SYS_YIELD := 5.
Definition SYS_SEND := 6.
Definition SYS_RECV := 7.

Section userlib.
Context {H P : Type} `{KmallocOps H} `{MemoryOps P}.
(** The registers before the call. *)
Context (ebx ecx edx esi : Z).
Abbreviation U := (sysstate (H := H) (P := P)).

Definition SYSCALL0 (num : Z) : M U Z := syscall_dispatch num ebx ecx edx esi.
Definition SYSCALL1 (num arg1 : Z) : M U Z := syscall_dispatch num (u32 arg1) ecx edx esi.
Definition SYSCALL3 (num arg1 arg2 arg3 : Z) : M U Z := syscall_dispatch num (u32 arg1) (u32 arg2) (u32 arg3) esi.

Definition exit (exit_code : Z) : M U unit := SYSCALL1 SYS_EXIT exit_code ;; ret tt.
Definition write (fd buf count : Z) : M U Z := SYSCALL3 SYS_WRITE fd buf count.
Definition read (fd buf count : Z) : M U Z := SYSCALL3 SYS_READ fd buf count.
Definition getpid : M U Z := SYSCALL0 SYS_GETPID.
Definition sleep_ms (milliseconds : Z) : M U Z := SYSCALL1 SYS_SLEEP milliseconds.
Definition yield : M U unit := SYSCALL0 SYS_YIELD ;; ret tt.
Definition send_msg (target_pid message length0 : Z) : M U Z := SYSCALL3 SYS_SEND target_pid message length0.
Definition recv_msg (buffer max_length sender : Z) : M U Z := SYSCALL3 SYS_RECV buffer max_length sender.

End userlib.
