(* ===== verification/Programs.v ===== *)
(** * kernel.c: the demonstration programs

    A process that sleeps, yields or ends leaves the CPU inside the call; what it
    does when it runs again starts behind that call.  A program is therefore given
    by its turns: a turn runs from the place [l] where the process got the CPU up
    to the next call that may give it away, and results in the place behind that
    call together with the call itself. *)

From S2P Require Import Prelude CString Mem Alloc Process Sched Ipc Syscall Userlib.

(** [run_turn] takes a turn: the call returns, or the CPU goes to another
    process; both leave the process at the new place. *)
Definition run_turn {S L} (turn : L -> M S (L * M S unit)) (l : L) (s : S) : option (L * S) :=
  match exec (turn l) s with
  | (Val (l', call), s1) =>
      match exec call s1 with
      | (Val _, s2) | (Stopped Switched, s2) => Some (l', s2)
      | _ => None
      end
  | _ => None
  end.

Section programs.
Context {H P : Type} `{KmallocOps H} `{MemoryOps P}.
Abbreviation K := (kernel H P).
Abbreviation U := (sysstate (H := H) (P := P)).

Definition tag {S} (text : list Z) (fg : Z) : M S unit := screen_write_color text (MAKE_COLOR fg COLOR_BLACK).

(** ** Processes that count *)

(** The busy wait of ten million rounds between two lines changes nothing. *)
Definition counting (name0 : list Z) (fg : Z) (line name1 final : list Z) : M K unit :=
  for_each (seqZ 0 5) (fun count =>
    tag name0 fg ;; screen_write line ;; screen_write_dec count ;; screen_write (c "\n")) ;;
  tag name1 fg ;; screen_write final ;;
  process_exit.

Definition test_process_a : M K unit :=
  counting (c "[Process A] ") COLOR_LIGHT_GREEN (c "Running iteration ") (c "[Process A] ") (c "Finished!\n").
Definition test_process_b : M K unit :=
  counting (c "[Process B] ") COLOR_LIGHT_BLUE (c "Executing iteration ") (c "[Process B] ") (c "Completed!\n").
Definition test_process_c : M K unit :=
  counting (c "[Process C - Low Priority] ") COLOR_YELLOW (c "Iteration ") (c "[Process C] ") (c "Done!\n").

(** ** The process that sleeps *)

(** Before the loop, asleep in round [count], ended. *)
Inductive sleeper : Type := SleepStart | Asleep (count : Z) | SleepEnd.

Definition sleep_round (count : Z) : M K (sleeper * M K unit) :=
  if count <? 5 then
    tag (c "[Sleep Process] ") COLOR_LIGHT_MAGENTA ;; screen_write (c "Iteration ") ;; screen_write_dec count ;;
    screen_write (c " - Going to sleep for 2000ms\n") ;;
    ret (Asleep count, process_sleep 2000)
  else
    tag (c "[Sleep Process] ") COLOR_LIGHT_MAGENTA ;; screen_write (c "All iterations complete!\n") ;;
    ret (SleepEnd, process_exit).

Definition test_process_sleep (l : sleeper) : M K (sleeper * M K unit) :=
  match l with
  | SleepStart => sleep_round 0
  | Asleep count =>
      tag (c "[Sleep Process] ") COLOR_LIGHT_MAGENTA ;; screen_write (c "Woke up from sleep!\n") ;;
      sleep_round (count + 1)
  | SleepEnd => stop_with Undefined
  end.

(** ** Messages *)

(** [process_current()->pid] *)
Definition current_pid : M K Z :=
  let! p := process_current in let! v := load_pcb p in ret (pid v).

(** The text built in [message], whose bytes before are [frame]. *)
Definition build_message (i : Z) (frame : list Z) : option (list Z) :=
  message ← strcpy frame (c "Message #" ++ [0]);
  num_str ← itoa i 10;
  message ← strcat message num_str;
  strcat message (c " from Producer" ++ [0]).

(** At the start, asleep before the first message, asleep behind message [i - 1],
    ended. *)
Inductive producer : Type := ProdStart | ProdAsleep | ProdSent (consumer_pid i : Z) | ProdEnd.

Section producer.
(** What the array [message] holds when the block is entered. *)
Context (frame : list Z).

Definition produce_round (consumer_pid i : Z) : M K (producer * M K unit) :=
  if i <? 5 then
    let! message := defined (build_message i frame) in
    let! text := defined (cstring message) in
    tag (c "[IPC Producer] ") COLOR_LIGHT_CYAN ;; screen_write (c "Sending: '") ;; screen_write text ;;
    screen_write (c "' to PID ") ;; screen_write_dec consumer_pid ;; screen_write (c "\n") ;;
    let! n := defined (strlen message) in
    let! result := process_send_message consumer_pid (Some message) (n + 1) in
    (if result <? 0 then
       tag (c "[IPC Producer] ") COLOR_RED ;; screen_write (c "Failed to send message (error code: ") ;;
       screen_write_dec (u32 result) ;; screen_write (c ")\n")
     else ret tt) ;;
    ret (ProdSent consumer_pid (i + 1), process_sleep 1000)
  else
    tag (c "[IPC Producer] ") COLOR_LIGHT_CYAN ;; screen_write (c "All messages sent!\n") ;;
    ret (ProdEnd, process_exit).

Definition ipc_producer (l : producer) : M K (producer * M K unit) :=
  match l with
  | ProdStart =>
      tag (c "[IPC Producer] ") COLOR_LIGHT_CYAN ;; screen_write (c "Starting message producer (PID ") ;;
      let! me := current_pid in screen_write_dec me ;; screen_write (c ")\n") ;;
      ret (ProdAsleep, process_sleep 500)
  | ProdAsleep => let! me := current_pid in produce_round (u32 (me + 1)) 0
  | ProdSent consumer_pid i => produce_round consumer_pid i
  | ProdEnd => stop_with Undefined
  end.
End producer.

(** At the start, behind the call of [process_sleep] at the end of a round or of
    [process_yield] in the middle of one, ended; [buffer] is the local array. *)
Inductive consumer : Type :=
| ConsStart (buffer : list Z) | ConsSlept (buffer : list Z) (received_count : Z) | ConsYielded (buffer : list Z) (received_count : Z) | ConsEnd.

Definition consume_round (buffer : list Z) (received_count : Z) : M K (consumer * M K unit) :=
  if received_count <? 5 then
    let! waiting := process_has_messages in
    if 0 <? waiting then
      let! ' (bytes, got) := process_receive_message (Some buffer) 256 in
      match got with
      | Some (sender, buffer) =>
          if 0 <? bytes then
            let! text := defined (cstring buffer) in
            tag (c "[IPC Consumer] ") COLOR_LIGHT_GREEN ;; screen_write (c "Received from PID ") ;; screen_write_dec sender ;;
            screen_write (c ": '") ;; screen_write text ;; screen_write (c "'\n") ;;
            ret (ConsSlept buffer (received_count + 1), process_sleep 100)
          else ret (ConsSlept buffer received_count, process_sleep 100)
      | None => ret (ConsSlept buffer received_count, process_sleep 100)
      end
    else ret (ConsYielded buffer received_count, process_yield)
  else
    tag (c "[IPC Consumer] ") COLOR_LIGHT_GREEN ;; screen_write (c "All messages received!\n") ;;
    ret (ConsEnd, process_exit).

Definition ipc_consumer (l : consumer) : M K (consumer * M K unit) :=
  match l with
  | ConsStart buffer =>
      tag (c "[IPC Consumer] ") COLOR_LIGHT_GREEN ;; screen_write (c "Starting message consumer (PID ") ;;
      let! me := current_pid in screen_write_dec me ;; screen_write (c ")\n") ;;
      consume_round buffer 0
  | ConsSlept buffer n => consume_round buffer n
  | ConsYielded buffer n => ret (ConsSlept buffer n, process_sleep 100)
  | ConsEnd => stop_with Undefined
  end.

(** ** System calls *)

(** At the start, behind [sleep_ms], behind [yield], ended. *)
Inductive caller : Type := CallStart | CallSlept | CallYielded | CallEnd.

Section callers.
(** The registers a wrapper does not set. *)
Context (ebx ecx edx esi : Z).

Definition store_bytes (a : Z) (l : list Z) : M U unit := modify (fun s => mk_sys (sys_kernel s) (write_array (sys_mem s) a l)).

(** [msg1] and [msg2] are the addresses of the two string literals. *)
Definition test_syscall (msg1 msg2 : Z) (l : caller) : M U (caller * M U unit) :=
  match l with
  | CallStart =>
      tag (c "[Syscall Test] ") COLOR_LIGHT_CYAN ;; screen_write (c "Starting system call test\n") ;;
      let! my_pid := getpid ebx ecx edx esi in
      tag (c "[Syscall Test] ") COLOR_LIGHT_CYAN ;; screen_write (c "My PID from syscall: ") ;; screen_write_dec (u32 my_pid) ;; screen_write (c "\n") ;;
      let! n1 := defined (strlen (c "[Syscall Test] Testing SYS_WRITE syscall...\n" ++ [0])) in
      write esi 1 msg1 n1 ;;
      let! n2 := defined (strlen (c "[Syscall Test] Hello from userspace syscall!\n" ++ [0])) in
      write esi 1 msg2 n2 ;;
      tag (c "[Syscall Test] ") COLOR_LIGHT_CYAN ;; screen_write (c "Sleeping for 1000ms using SYS_SLEEP...\n") ;;
      ret (CallSlept, sleep_ms ecx edx esi 1000 ;; ret tt)
  | CallSlept =>
      tag (c "[Syscall Test] ") COLOR_LIGHT_CYAN ;; screen_write (c "Woke up! Sleep syscall works.\n") ;;
      tag (c "[Syscall Test] ") COLOR_LIGHT_CYAN ;; screen_write (c "Testing SYS_YIELD...\n") ;;
      ret (CallYielded, yield ebx ecx edx esi)
  | CallYielded =>
      tag (c "[Syscall Test] ") COLOR_LIGHT_CYAN ;; screen_write (c "Back from yield. All syscalls working!\n") ;;
      tag (c "[Syscall Test] ") COLOR_GREEN ;; screen_write (c "All tests passed! Exiting with SYS_EXIT...\n") ;;
      ret (CallEnd, exit ecx edx esi 0)
  | CallEnd => stop_with Undefined
  end.

(** [msg] is the address of the array on the user stack. *)
Definition test_usermode (msg : Z) (l : caller) : M U (caller * M U unit) :=
  match l with
  | CallStart =>
      store_bytes msg (c "[Ring 3] Hi!\n" ++ [0]) ;;
      write esi 1 msg 13 ;;
      let! my_pid := getpid ebx ecx edx esi in
      store_bytes msg (c "PID=" ++ [s8 (48 + Z.rem my_pid 10)] ++ c "\n" ++ [0]) ;;
      write esi 1 msg 6 ;;
      store_bytes msg (c "Sleep..\n" ++ [0]) ;;
      write esi 1 msg 8 ;;
      ret (CallSlept, sleep_ms ecx edx esi 500 ;; ret tt)
  | CallSlept =>
      store_bytes msg (c "OK!\n" ++ [0]) ;;
      write esi 1 msg 4 ;;
      ret (CallEnd, exit ecx edx esi 0)
  | _ => stop_with Undefined
  end.
End callers.

End programs.
