(* ===== verification/UserPrograms.v ===== *)
(** * What the programs put out through the system calls

    [test_usermode] and [test_syscall] reach the screen through the wrappers of
    userlib.c, the dispatcher and [sys_write], which reads the memory of the
    process.  Here is what appears on the screen, turn by turn. *)

From S2P Require Import Prelude CString Mem Alloc Process Sched Ipc Syscall Userlib Programs.

(** Text that [sys_write] puts out. *)
Definition typed (l : list Z) : list event := (fun ch => EvWrite [ch]) <$> l.

Definition text_ok (l : list Z) : Prop := Forall (fun ch => is_u8 ch /\ ch <> 0) l.

Lemma until_nul_text l : text_ok l -> until_nul l = l.
Proof. induction 1 as [|ch l [_ Hch] _ IH]; [done|]. cbn. by rewrite (proj2 (Z.eqb_neq ch 0) Hch), IH. Qed.

Section programs.
Context {H P : Type} `{KmallocOps H} `{MemoryOps P}.
Abbreviation U := (sysstate (H := H) (P := P)).
Context (ebx ecx edx esi : Z).
Implicit Types s : U.

(** The user has [l] at address [a]. *)
Definition at_address s (a : Z) (l : list Z) : Prop := read_array (sys_mem s) a (Z.of_nat (length l)) = l.

Lemma exec_write s a l : at_address s a l -> text_ok l -> 0 < a < 4294967296 -> l <> [] -> Z.of_nat (length l) < 2147483648 ->
  (write esi 1 a (Z.of_nat (length l)) : M U Z) s = (Val (Z.of_nat (length l)), s, typed l).
Proof.
  intros Ha Hl Hr Hn Hlen. unfold write, SYSCALL3. rewrite !u32_small by (unfold is_u32; lia).
  destruct (syscall_write_spec s 1 a (Z.of_nat (length l)) esi) as [E Ho]; [lia|destruct l; [done|cbn [length] in *; lia]|].
  rewrite Ha, until_nul_text in Ho by done. rewrite s32_small in E by (unfold is_s32; lia).
  unfold exec in E. unfold output in Ho. destruct (syscall_dispatch _ _ _ _ _ s) as [[r s'] o]. cbn in E, Ho. injection E as -> ->. by rewrite Ho.
Qed.

Lemma exec_getpid s v : current_process (sys_kernel s) <> 0 -> procs (sys_kernel s) !! current_process (sys_kernel s) = Some v ->
  (getpid ebx ecx edx esi : M U Z) s = (Val (s32 (pid v)), s, []).
Proof.
  intros Hc Ev. unfold getpid, SYSCALL0, syscall_dispatch. change (SYSCALL_MAX <=? SYS_GETPID) with false. cbv iota.
  unfold bind at 1, defined. change (syscall_table !! Z.to_nat SYS_GETPID) with (Some (sys_getpid (H := H) (P := P))). cbv iota.
  unfold sys_getpid, on_kernel, process_current, load_pcb, zoom, gets, bind, defined, get, ret. cbn. rewrite (proj2 (Z.eqb_neq _ 0) Hc). cbn. rewrite Ev. destruct s; reflexivity.
Qed.

Definition put_bytes s (a : Z) (l : list Z) : U := mk_sys (sys_kernel s) (write_array (sys_mem s) a l).

Lemma at_put s a l : text_ok l -> at_address (put_bytes s a (l ++ [0])) a l.
Proof.
  intros Hl. unfold at_address, put_bytes. cbn [sys_mem]. rewrite read_write_array.
  - rewrite Nat2Z.id. by apply take_app_length.
  - rewrite length_app. lia.
  - apply Forall_app. split; [by eapply Forall_impl; [|exact Hl]; intros ch [? _]|]. constructor; [unfold is_u8; lia|constructor].
Qed.

(** Writing a text to the stack and calling [write] with it. *)
Lemma say_from_stack {A} s a l n (f : M U A) : text_ok l -> 0 < a < 4294967296 -> l <> [] -> n = Z.of_nat (length l) -> n < 2147483648 ->
  (store_bytes a (l ++ [0]) ;; write esi 1 a n ;; f) s = (let '(r, s', o) := f (put_bytes s a (l ++ [0])) in (r, s', typed l ++ o)).
Proof.
  intros Hl Ha Hn -> Hlen. unfold bind at 1. change (store_bytes a (l ++ [0]) s) with (Val tt, put_bytes s a (l ++ [0]), @nil event). cbv iota beta zeta.
  unfold bind at 1. rewrite (exec_write _ a l (at_put s a l Hl) Hl Ha Hn Hlen). by destruct (f _) as [[[]] ].
Qed.

(** The array on the stack is all the program writes. *)
Definition only_array (a n : Z) s s' : Prop := sys_kernel s' = sys_kernel s /\ forall x, x < a \/ a + n <= x -> sys_mem s' x = sys_mem s x.

#[global] Instance only_array_trans a n : Transitive (only_array a n).
Proof. intros s1 s2 s3 [K1 M1] [K2 M2]. split; [congruence|]. intros x Hx. by rewrite M2, M1. Qed.

Lemma put_only_array s a n l : Z.of_nat (length l) <= n -> only_array a n s (put_bytes s a l).
Proof.
  intros Hl. split; [done|]. intros x Hx. cbn [sys_mem put_bytes]. unfold write_array.
  destruct (Z.leb_spec a x), (Z.ltb_spec x (a + Z.of_nat (length l))); cbn [andb]; [lia|done..].
Qed.

(** The wrappers that give the CPU away are the calls of process.c. *)
Lemma exec_sleep_ms ms s : 0 <= ms < 4294967296 -> exec (sleep_ms ecx edx esi ms ;; ret tt : M U unit) s = exec (on_kernel (process_sleep ms)) s.
Proof.
  intros Hms. unfold sleep_ms, SYSCALL1, syscall_dispatch. change (SYSCALL_MAX <=? SYS_SLEEP) with false. cbv iota.
  rewrite u32_small by (unfold is_u32; lia). change (syscall_table !! Z.to_nat SYS_SLEEP) with (Some (sys_sleep (H := H) (P := P))).
  rewrite !exec_bind, exec_defined_Some. unfold sys_sleep. rewrite exec_bind. by destruct (exec (on_kernel (process_sleep ms)) s) as [[[]|] ].
Qed.

Lemma exec_exit code s v : current_process (sys_kernel s) <> 0 -> procs (sys_kernel s) !! current_process (sys_kernel s) = Some v ->
  exec (exit ecx edx esi code : M U unit) s = exec (on_kernel process_exit) s.
Proof.
  intros Hc Ev. unfold exit, SYSCALL1, syscall_dispatch. change (SYSCALL_MAX <=? SYS_EXIT) with false. cbv iota.
  change (syscall_table !! Z.to_nat SYS_EXIT) with (Some (sys_exit (H := H) (P := P))). rewrite !exec_bind, exec_defined_Some. unfold sys_exit, process_current.
  rewrite exec_bind. unfold on_kernel at 1. rewrite exec_zoom, exec_gets. destruct s as [k m]. cbn [sys_kernel sys_mem] in *. rewrite (proj2 (Z.eqb_neq _ 0) Hc).
  rewrite !exec_bind. unfold on_kernel at 1. rewrite exec_zoom. cbn [sys_kernel sys_mem]. rewrite (exec_load_pcb k _ v Ev). cbn [sys_mem]. run.
  by destruct (exec (on_kernel process_exit) (mk_sys k m)) as [[[]|] ].
Qed.

End programs.

(** The first turn of [test_syscall], with its two literals in memory: the kernel
    prints the tags, the system call the literals, and no state changes. *)
Lemma syscall_test_output {H P} `{KmallocOps H} `{MemoryOps P} (ebx ecx edx esi msg1 msg2 : Z) (s : sysstate (H := H) (P := P)) v :
  let text1 := c "[Syscall Test] Testing SYS_WRITE syscall...\n" in let text2 := c "[Syscall Test] Hello from userspace syscall!\n" in
  let name := EvWriteColor (c "[Syscall Test] ") (MAKE_COLOR COLOR_LIGHT_CYAN COLOR_BLACK) in
  current_process (sys_kernel s) <> 0 -> procs (sys_kernel s) !! current_process (sys_kernel s) = Some v -> 0 <= pid v < 2147483648 ->
  0 < msg1 < 4294967296 -> 0 < msg2 < 4294967296 -> at_address s msg1 text1 -> at_address s msg2 text2 ->
  test_syscall ebx ecx edx esi msg1 msg2 CallStart s =
    (Val (CallSlept, sleep_ms ecx edx esi 1000 ;; ret tt), s,
     [name; EvWrite (c "Starting system call test\n"); name; EvWrite (c "My PID from syscall: "); EvDec (pid v); EvWrite (c "\n")] ++
     typed text1 ++ typed text2 ++ [name; EvWrite (c "Sleeping for 1000ms using SYS_SLEEP...\n")]).
Proof.
  intros text1 text2 name Hcur Hv Hpid Ha1 Ha2 Ht1 Ht2.
  pose proof (exec_getpid ebx ecx edx esi s v Hcur Hv) as Eg. rewrite s32_small in Eg by (unfold is_s32; lia).
  pose proof (exec_write esi s msg1 text1 Ht1 ltac:(by repeat constructor) Ha1 ltac:(discriminate) ltac:(cbn; lia)) as E1.
  pose proof (exec_write esi s msg2 text2 Ht2 ltac:(by repeat constructor) Ha2 ltac:(discriminate) ltac:(cbn; lia)) as E2.
  unfold test_syscall, tag, screen_write_color, screen_write, screen_write_dec, emit, bind. rewrite Eg. cbv iota beta zeta. rewrite u32_small by (unfold is_u32; lia).
  change (strlen (c "[Syscall Test] Testing SYS_WRITE syscall...\n" ++ [0])) with (Some (Z.of_nat (length text1))).
  change (strlen (c "[Syscall Test] Hello from userspace syscall!\n" ++ [0])) with (Some (Z.of_nat (length text2))).
  unfold defined, ret. cbv iota beta zeta. rewrite E1. cbv iota beta zeta. rewrite E2. reflexivity.
Qed.

(** C30: A user program reaches the screen through its system calls.  The first turn
    of [test_usermode] puts out its greeting, the last digit of its pid and the
    announcement of its sleep, the second one its last line; neither writes
    anything but the array on its stack, and the calls that end the two turns
    are [process_sleep] with 500 ms and [process_exit]. *)
Theorem usermode_output {H P} `{KmallocOps H} `{MemoryOps P} (ebx ecx edx esi msg : Z) (s : sysstate (H := H) (P := P)) v
    (Hcur : current_process (sys_kernel s) <> 0) (Hv : procs (sys_kernel s) !! current_process (sys_kernel s) = Some v)
    (Hpid : 0 <= pid v < 2147483648) (Hmsg : 0 < msg < 4294967296) :
  (exists s1 call, test_usermode ebx ecx edx esi msg CallStart s =
      (Val (CallSlept, call), s1, typed (c "[Ring 3] Hi!\nPID=" ++ [48 + pid v mod 10] ++ c "\nSleep..\n")) /\
    only_array msg 64 s s1 /\ forall s', exec call s' = exec (on_kernel (process_sleep 500)) s') /\
  (exists s1 call, test_usermode ebx ecx edx esi msg CallSlept s = (Val (CallEnd, call), s1, typed (c "OK!\n")) /\
    only_array msg 64 s s1 /\ exec call s1 = exec (on_kernel process_exit) s1).
Proof.
  split.
  - eexists _, _. split; [|split].
    + unfold test_usermode. rewrite say_from_stack; [|by repeat constructor|lia|done|reflexivity|lia].
      unfold bind at 1. erewrite exec_getpid; [|exact Hcur|exact Hv]. cbv iota beta zeta.
      rewrite s32_small, Z.rem_mod_nonneg by (unfold is_s32; lia). rewrite s8_small by dlia.
      change (c "PID=" ++ [48 + pid v mod 10] ++ c "\n" ++ [0]) with ((c "PID=" ++ [48 + pid v mod 10] ++ c "\n") ++ [0]).
      rewrite say_from_stack; [|repeat (constructor; [unfold is_u8; first [done|split; [split; dlia|dlia]]|]); constructor|lia|done|reflexivity|lia].
      rewrite say_from_stack; [|by repeat constructor|lia|done|reflexivity|lia]. reflexivity.
    + etrans; [|apply put_only_array; cbn; lia]. etrans; [|apply put_only_array; cbn; lia]. apply put_only_array. cbn; lia.
    + intros s'. apply exec_sleep_ms. lia.
  - eexists _, _. split; [|split].
    + unfold test_usermode. rewrite say_from_stack; [|by repeat constructor|lia|done|reflexivity|lia]. reflexivity.
    + apply put_only_array. cbn; lia.
    + by eapply exec_exit.
Qed.

(** ** The theorem at work *)

Lemma usermode_output_witness :
  (exists s1 call, test_usermode 0 0 0 0 3000 CallStart demo_sys =
      (Val (CallSlept, call), s1, typed (c "[Ring 3] Hi!\nPID=1\nSleep..\n")) /\
    only_array 3000 64 demo_sys s1 /\ forall s', exec call s' = exec (on_kernel (process_sleep 500)) s') /\
  (exists s1 call, test_usermode 0 0 0 0 3000 CallSlept demo_sys = (Val (CallEnd, call), s1, typed (c "OK!\n")) /\
    only_array 3000 64 demo_sys s1 /\ exec call s1 = exec (on_kernel process_exit) s1).
Proof.
  apply (usermode_output 0 0 0 0 3000 demo_sys (demo_pcb 1 200 5 900)); [discriminate|reflexivity|cbn; lia|lia].
Defined.
