(* ===== verification/Demo.v ===== *)
(** * The message demonstration, under interleaved turns

    Producer and consumer of kernel.c, each a process that runs in turns, from one
    call that gives the CPU away to the next, next to timer interrupts and steps of
    the rest of the system between their turns.  A turn is one step: an interrupt
    in the middle of it is not modelled.  The other steps may do anything that
    leaves the two control blocks, the consumer's slot of the table and its queue
    alone; killing one of the two or sending to the consumer is excluded.  The
    states such a system can reach satisfy an invariant on the queue and on what
    the consumer has printed: the messages arrive complete and in order. *)

From S2P Require Import Prelude CString Words Mem Heap Alloc HeapAlloc Paging PagingUser Process Sched Ipc Timer Lifecycle Programs.

(** ** What the scheduler leaves alone *)

(** The table, the queues, and of every control block the pid and the queue. *)
Definition identity (v : process_t) : Z * Z := (pid v, msg_queue v).

Record frame_kept {H P} (k k' : kernel H P) : Prop := {
  fk_table : process_table k' = process_table k;
  fk_queues : queues k' = queues k;
  fk_procs x : identity <$> procs k' !! x = identity <$> procs k !! x
}.

#[export] Instance frame_kept_preorder {H P} : PreOrder (@frame_kept H P).
Proof.
  split; [by split|]. intros k1 k2 k3 [T1 Q1 P1] [T2 Q2 P2]. split; [congruence|congruence|]. intros x. by rewrite P2.
Qed.

(** A program that keeps a relation, whatever its outcome. *)
Definition keeps {S A} (R : S -> S -> Prop) (m : M S A) : Prop := forall s, R s (snd (exec m s)).

Section keeps.
Context {S : Type} (R : S -> S -> Prop) `{!PreOrder R}.

Lemma keeps_bind {A B} (m : M S A) (f : A -> M S B) : keeps R m -> (forall a, keeps R (f a)) -> keeps R (bind m f).
Proof.
  intros Hm Hf s. rewrite exec_bind. specialize (Hm s). destruct (exec m s) as [[a|w] s1]; cbn [snd] in *; [|done].
  etrans; [exact Hm|apply Hf].
Qed.

Lemma keeps_same {A} (m : M S A) : (forall s, snd (exec m s) = s) -> keeps R m.
Proof. intros Hm s. by rewrite Hm. Qed.

Lemma keeps_for_state {A L B} (l : list A) (f : A -> L -> M S (L + B)) loc : (forall x y, keeps R (f x y)) -> keeps R (for_state l f loc).
Proof.
  intros Hf. revert loc. induction l as [|x l IH]; intros loc; [by apply keeps_same|].
  apply keeps_bind; [apply Hf|]. intros [y|b]; [apply IH|by apply keeps_same].
Qed.

Lemma keeps_for_each {A} (l : list A) (f : A -> M S unit) : (forall x, keeps R (f x)) -> keeps R (for_each l f).
Proof. intros Hf. induction l; [by apply keeps_same|]. by apply keeps_bind. Qed.

Lemma keeps_modify f : (forall s, R s (f s)) -> keeps R (modify f).
Proof. intros Hf s. by rewrite exec_modify. Qed.

End keeps.

Section schedule.
Context {H P : Type} `{KmallocOps H} `{MemoryOps P}.
Abbreviation K := (kernel H P).

Lemma kept_update p f : (forall v, identity (f v) = identity v) -> keeps frame_kept (update_pcb p f : M K unit).
Proof.
  intros Hf k. unfold update_pcb, store_pcb, load_pcb. run. destruct (procs k !! p) as [v|] eqn:E; [|done]. run. rewrite E. run. cbn [snd].
  split; [done|done|]. intros x. cbn [procs set_procs]. destruct (decide (x = p)) as [->|Hx]; [|by rewrite lookup_insert_ne].
  rewrite lookup_insert_eq, E. cbn. by rewrite Hf.
Qed.

Lemma kept_load p : keeps frame_kept (load_pcb p : M K _).
Proof. apply keeps_same; [apply _|]. intros k. unfold load_pcb. run. by destruct (procs k !! p). Qed.

Lemma kept_on_mm {A} (m : M P A) : keeps frame_kept (on_mm m : M K A).
Proof. intros k. unfold on_mm. rewrite exec_zoom. destruct (exec m (k_mm k)) as [r t]. by split. Qed.

End schedule.

Ltac keeping := repeat match goal with
  | |- forall _, _ => intros
  | |- keeps _ (bind _ _) => apply keeps_bind; [apply _| |]
  | |- keeps _ (for_state _ _ _) => apply keeps_for_state; [apply _|]
  | |- keeps _ (for_each _ _) => apply keeps_for_each; [apply _|]
  | |- keeps _ (update_pcb _ _) => apply kept_update; intros; reflexivity
  | |- keeps _ (load_pcb _) => apply kept_load
  | |- keeps _ (on_mm _) => apply kept_on_mm
  | |- keeps _ (modify _) => apply keeps_modify; intros; by split
  | |- keeps _ (match ?x with _ => _ end) => destruct x
  | |- keeps _ (_ _) => apply keeps_same; [apply _|intros; reflexivity]
  | |- keeps _ get => apply keeps_same; [apply _|intros; reflexivity]
  end.

Lemma kept_schedule {H P} `{KmallocOps H} `{MemoryOps P} : keeps frame_kept (process_schedule : M (kernel H P) unit).
Proof. unfold process_schedule, pick_round. keeping. Qed.

Lemma kept_sleep {H P} `{KmallocOps H} `{MemoryOps P} ms : keeps frame_kept (process_sleep ms : M (kernel H P) unit).
Proof.
  unfold process_sleep. apply keeps_bind; [apply _|keeping|]. intros cur. case_match; [keeping|].
  apply keeps_bind; [apply _|keeping|]. intros v. case_match; [keeping|]. apply keeps_bind; [apply _|keeping|]. intros now.
  apply keeps_bind; [apply _|keeping|]. intros _. apply kept_schedule.
Qed.

Lemma kept_timer {H P} `{KmallocOps H} `{MemoryOps P} : keeps frame_kept (timer_handler : M (kernel H P) unit).
Proof.
  unfold timer_handler, process_check_sleeping. keeping. apply kept_schedule.
Qed.

(** ** A process that ends *)

(** Programs that never switch, and what holds when one does. *)
Definition stays {S A} (m : M S A) : Prop := forall s, fst (exec m s) <> Stopped Switched.
Definition switches {S A} (R : S -> S -> Prop) (m : M S A) : Prop := forall s s', exec m s = (Stopped Switched, s') -> R s s'.

(** A property of the value a program returns. *)
Definition results {S A} (Q : A -> Prop) (m : M S A) : Prop := forall s a s', exec m s = (Val a, s') -> Q a.

Lemma results_bind {S A B} (Q : B -> Prop) (m : M S A) (f : A -> M S B) : (forall a, results Q (f a)) -> results Q (bind m f).
Proof. intros Hf s b s' E. rewrite exec_bind in E. destruct (exec m s) as [[a|w] s1]; [by eapply Hf|done]. Qed.

Section switching.
Context {S : Type} (R : S -> S -> Prop) `{!PreOrder R}.

Lemma stays_bind {A B} (m : M S A) (f : A -> M S B) : stays m -> (forall a, stays (f a)) -> stays (bind m f).
Proof. intros Hm Hf s. rewrite exec_bind. specialize (Hm s). destruct (exec m s) as [[a|w] s1]; [apply Hf|]. cbn in *. congruence. Qed.

Lemma stays_zoom {T A} (g : S -> T) (p : T -> S -> S) (m : M T A) : stays m -> stays (zoom g p m).
Proof. intros Hm s. specialize (Hm (g s)). rewrite exec_zoom. by destruct (exec m (g s)). Qed.

Lemma stays_for_each {A} (l : list A) (f : A -> M S unit) : (forall x, stays (f x)) -> stays (for_each l f).
Proof. intros Hf. induction l; [done|]. by apply stays_bind. Qed.

Lemma stays_for_find {A B} (l : list A) (f : A -> M S (option B)) : (forall x, stays (f x)) -> stays (for_find l f).
Proof. intros Hf. induction l as [|x l IH]; [done|]. apply stays_bind; [apply Hf|]. by intros [b|]. Qed.

Lemma stays_iterate {A B} n (f : A -> M S (A + B)) a : (forall x, stays (f x)) -> stays (iterate n f a).
Proof. intros Hf. revert a. induction n as [|n IH]; intros a; [done|]. apply stays_bind; [apply Hf|]. by intros [a'|b]. Qed.

Lemma stays_defined {A} (o : option A) : stays (S := S) (defined o).
Proof. by destruct o. Qed.

Lemma switches_stays {A} (m : M S A) : stays m -> switches R m.
Proof. intros Hm s s' E. specialize (Hm s). by rewrite E in Hm. Qed.

Lemma switches_keeps {A} (m : M S A) : keeps R m -> switches R m.
Proof. intros Hm s s' E. specialize (Hm s). by rewrite E in Hm. Qed.

(** A switch comes from the first part or, behind it, from the second. *)
Lemma switches_bind {A B} (m : M S A) (f : A -> M S B) : keeps R m -> (forall a, switches R (f a)) -> switches R (bind m f).
Proof.
  intros Hm Hf s s' E. rewrite exec_bind in E. specialize (Hm s). destruct (exec m s) as [[a|w] s1]; cbn [snd] in *.
  - etrans; [exact Hm|by apply (Hf a)].
  - by injection E as _ <-.
Qed.

Lemma switches_then {A B} (m : M S A) (f : A -> M S B) : switches R m -> (forall a, stays (f a)) -> switches R (bind m f).
Proof.
  intros Hm Hf s s' E. rewrite exec_bind in E. destruct (exec m s) as [[a|w] s1] eqn:E1.
  - specialize (Hf a s1). by rewrite E in Hf.
  - injection E as -> ->. by apply Hm.
Qed.

Lemma switches_for_find {A B} (l : list A) (f : A -> M S (option B)) : (forall x, switches R (f x)) ->
  (forall x s s', exec (f x) s = (Val None, s') -> R s s') -> switches R (for_find l f).
Proof.
  intros Hf Hn. induction l as [|x l IH]; [done|]. intros s s' E. unfold for_find in E. fold (for_find l f) in E. rewrite exec_bind in E.
  destruct (exec (f x) s) as [[[b|]|w] s1] eqn:E1; [done| |].
  - etrans; [by apply (Hn x)|by apply IH].
  - injection E as -> ->. by apply (Hf x).
Qed.

End switching.

Ltac staying := repeat match goal with
  | |- forall _, _ => intros
  | |- stays (bind _ _) => apply stays_bind
  | |- stays (zoom _ _ _) => apply stays_zoom
  | |- stays (for_each _ _) => apply stays_for_each
  | |- stays (for_find _ _) => apply stays_for_find
  | |- stays (iterate _ _ _) => apply stays_iterate
  | |- stays (defined _) => apply stays_defined
  | |- stays (match ?x with _ => _ end) => destruct x
  | |- stays (stop_with _) => intros ?; discriminate
  | |- stays (ret _) => intros ?; discriminate
  | |- stays get => intros ?; discriminate
  | |- stays (gets _) => intros ?; discriminate
  | |- stays (modify _) => intros ?; discriminate
  | |- stays (kprintf _ _) => intros ?; discriminate
  | |- stays (kprintf_color _ _ _) => intros ?; discriminate
  | |- stays _ => progress cbv zeta
  end.

Lemma stays_kfree p : stays (Heap.kfree p).
Proof.
  unfold Heap.kfree, coalesce_free_blocks, coalesce_round, block_magic, block_is_free, Heap.block_size, block_next, Heap.set_size, set_is_free,
    set_next, poke. staying.
Qed.

Lemma stays_free_page p : stays (Pmm.pmm_free_page p).
Proof. unfold Pmm.pmm_free_page, Pmm.bitmap_test, Pmm.bitmap_clear, Pmm.bitmap_word, Pmm.bitmap_store, Pmm.add_used. staying. Qed.

Lemma stays_free_table pt : stays (free_table pt).
Proof.
  apply stays_for_each. intros j. apply stays_bind; [unfold read_entry; staying|]. intros pte. case_match; [staying|].
  apply stays_zoom, stays_free_page.
Qed.

Lemma stays_free_directory dir : stays (Paging.paging_free_directory dir).
Proof.
  unfold Paging.paging_free_directory. case_match; [staying|]. apply stays_bind; [|intros _; apply stays_zoom, stays_free_page].
  apply stays_for_each. intros i. apply stays_bind; [unfold read_entry; staying|]. intros pde. case_match; [staying|].
  apply stays_bind; [apply stays_free_table|intros _; apply stays_zoom, stays_free_page].
Qed.

Section exit.
Context (kernel_directory : Z).
#[local] Instance exit_memory : MemoryOps mm := mm_memory kernel_directory.
Abbreviation K := (kernel heap mm).

Lemma slot_reads pid0 i (k : K) : snd (exec (slot_has_pid pid0 i) k) = k.
Proof. unfold slot_has_pid, load_pcb. run. case_match; [done|]. by destruct (procs k !! _). Qed.

Lemma kill_switches pid0 : switches frame_kept (process_kill pid0 : M K unit).
Proof.
  unfold process_kill. case_match; [apply switches_stays; staying|].
  apply switches_then; [|staying]. apply switches_for_find; [apply _| |].
  - intros i. apply switches_bind; [apply _|unfold slot_has_pid; keeping|]. intros b. destruct (negb b); [apply switches_stays; staying|].
    apply switches_bind; [apply _|keeping|]. intros k.
    apply switches_then; [|].
    + apply switches_keeps. keeping. apply kept_schedule.
    + intros _. unfold load_pcb, free_queue, free_pcb, on_heap, on_mm, load_pcb.
      cbn [kfree heap_ops Process.paging_free_directory mm_memory exit_memory]. staying; [apply stays_kfree|apply stays_kfree|apply stays_free_directory|apply stays_kfree].
  - intros i s s' E. rewrite exec_bind in E. pose proof (slot_reads pid0 i s) as Hs.
    destruct (exec (slot_has_pid pid0 i) s) as [[[]|w] s1]; cbn [snd negb] in *; [|by injection E as <-; subst|done].
    exfalso. revert E. match goal with |- exec ?m s1 = _ -> _ => assert (results (fun o => o = Some tt) m) as Hr end.
    { repeat (apply results_bind; intros ?). by intros ? ? ? [= <- _]. }
    intros E. by apply Hr in E.
Qed.

(** When [process_exit] returns or switches, the frame is kept. *)
Lemma exit_kept (k k' : K) o : exec process_exit k = (o, k') -> o = Val tt \/ o = Stopped Switched -> frame_kept k k'.
Proof.
  intros E Ho. unfold process_exit in E. rewrite exec_bind, exec_gets in E. cbv iota in E. case_match; [by injection E as _ <-|].
  rewrite exec_bind in E. unfold load_pcb in E. run_in E. destruct (procs k !! current_process k) as [v|]; run_in E; [|by injection E as _ <-].
  case_match; [by injection E as _ <-|]. run_in E. pose proof (kill_switches (pid v) k) as Hk.
  destruct (exec (process_kill (pid v)) k) as [[[]|w] k1].
  - run_in E. injection E as <- <-. by destruct Ho.
  - injection E as <- <-. destruct Ho as [|[= ->]]; [done|by apply Hk].
Qed.

End exit.

(** ** The messages *)

Lemma strcat_holds dest src s t : holds dest s -> holds src t -> (length s + length t < length dest)%nat ->
  exists d, strcat dest src = Some d /\ holds d (s ++ t) /\ length d = length dest.
Proof.
  intros (u & -> & Hs) Hsrc Hlen. unfold strcat.
  rewrite (scan_app (fun ch => negb (ch =? 0)) s 0 u); [|eapply Forall_impl; [|exact Hs]; intros ch Hch; by apply negb_true_iff, Z.eqb_neq|done].
  cbn [mbind option_bind]. rewrite drop_app_length, take_app_length.
  destruct (strcpy_holds src t (0 :: u) Hsrc) as (d & -> & (w & -> & Ht) & Hl); [rewrite length_app in Hlen; cbn [length] in *; lia|].
  eexists. split; [reflexivity|]. split.
  - exists w. split; [by rewrite <- app_assoc|by apply Forall_app].
  - rewrite !length_app in *. cbn [length] in *. lia.
Qed.

Definition message_text (i : Z) : list Z := c "Message #" ++ [48 + i] ++ c " from Producer".

Lemma build_message_text i frame : 0 <= i < 5 -> length frame = 64%nat ->
  exists a, build_message i frame = Some a /\ holds a (message_text i) /\ length a = 64%nat.
Proof.
  intros Hi Hf. unfold build_message.
  assert (forall s, Forall (fun ch => ch <> 0) s -> holds (s ++ [0]) s) as Hlit by (intros s Hs; by exists []).
  destruct (strcpy_holds (c "Message #" ++ [0]) (c "Message #") frame) as (a1 & -> & H1 & L1); [apply Hlit; by repeat constructor|rewrite Hf; cbn; lia|].
  assert (itoa i 10 = Some ([48 + i] ++ [0])) as ->.
  { assert (i = 0 \/ i = 1 \/ i = 2 \/ i = 3 \/ i = 4) as Hc by lia. destruct Hc as [->|[->|[->|[->| ->]]]]; reflexivity. }
  cbn [mbind option_bind].
  destruct (strcat_holds a1 ([48 + i] ++ [0]) _ [48 + i] H1) as (a2 & -> & H2 & L2); [apply Hlit; constructor; [lia|done]|rewrite L1, Hf; cbn; lia|].
  cbn [mbind option_bind].
  destruct (strcat_holds a2 (c " from Producer" ++ [0]) _ (c " from Producer") H2) as (a3 & -> & H3 & L3);
    [apply Hlit; by repeat constructor|rewrite L2, L1, Hf; cbn; lia|].
  exists a3. split; [done|]. split; [by rewrite <- app_assoc in H3|congruence].
Qed.

(** ** The two processes in the kernel *)

Section demo.
Context (kernel_directory : Z).
#[local] Instance demo_memory : MemoryOps mm := mm_memory kernel_directory.
Abbreviation K := (kernel heap mm).
(** The control blocks of producer and consumer, the queue and the pid of the
    consumer, and the array of the producer. *)
Context (p cons cq cpid : Z) (frame : list Z).

(** The two processes are in place and the queue holds [L]. *)
Record stage (k : K) (L : list (Z * list Z)) : Prop := {
  st_table : table_ok k;
  st_slot : exists i, (i < 16)%nat /\ process_table k !!! i = cons;
  st_consumer : exists v, procs k !! cons = Some v /\ identity v = (cpid, cq);
  st_unique x v : procs k !! x = Some v -> pid v = cpid -> x = cons;
  st_producer : exists v, procs k !! p = Some v /\ pid v = cpid - 1;
  st_queue : exists q, queues k !! cq = Some q /\ queue_ok q /\ contents q = L
}.

Lemma stage_frame k k' L : frame_kept k k' -> stage k L -> stage k' L.
Proof.
  intros [Ht Hq Hp] [[Hl Hlive] Hs (v & Ev & Hv) Hu (vp & Ep & Hvp) Hqu].
  assert (forall x w, procs k !! x = Some w -> exists w', procs k' !! x = Some w' /\ identity w' = identity w) as Hfw.
  { intros x w Hx. specialize (Hp x). rewrite Hx in Hp. destruct (procs k' !! x) as [w'|]; [|done]. exists w'. split; [done|]. cbn in Hp. congruence. }
  split; rewrite ?Ht, ?Hq; try done.
  - split; rewrite Ht; [done|]. intros i x Hi Hx. destruct (Hlive i x Hi Hx) as [w Hw]. destruct (Hfw x w Hw) as (w' & -> & _). done.
  - destruct (Hfw _ _ Ev) as (v' & -> & E). exists v'. split; [done|congruence].
  - intros x w Hx Hpid. specialize (Hp x). rewrite Hx in Hp. destruct (procs k !! x) as [w'|] eqn:Ew; [|done]. cbn in Hp.
    injection Hp as Hpp _. apply (Hu x w' Ew). congruence.
  - destruct (Hfw _ _ Ep) as (v' & -> & Hid). injection Hid as Hid _. exists v'. split; [done|congruence].
Qed.

Lemma stage_lookup k L : stage k L -> cons <> 0 -> lookup_pid k cpid = cons.
Proof.
  intros [Ht (i & Hi & Es) (v & Ev & [= Hv _]) Hu _ _] Hc. unfold lookup_pid.
  destruct (first_some _ _) as [x|] eqn:E.
  - apply first_some_Some in E as (j & _ & E). unfold slot in E. destruct (process_table k !!! j =? 0); [done|].
    destruct (procs k !! (process_table k !!! j)) as [w|] eqn:Ew; [|done]. destruct (Z.eqb_spec (pid w) cpid) as [Hw|]; [|done].
    injection E as <-. by apply (Hu _ w Ew).
  - pose proof (proj1 (first_some_None _ _) E i ltac:(by apply elem_of_table)) as Hn. unfold slot in Hn.
    rewrite Es, (proj2 (Z.eqb_neq cons 0) Hc), Ev, Hv, Z.eqb_refl in Hn. done.
Qed.

Context (Hcons : cons <> 0) (Hcq : cq <> 0) (Hp0 : p <> 0) (Hframe : length frame = 64%nat).
Context (Hcpid : 1 < cpid < 4294967296).

(** ** The calls of the two programs *)

Lemma holds_take a t : holds a t -> take (length t + 1) a = t ++ [0].
Proof. intros (u & -> & _). rewrite take_app_add. done. Qed.

Lemma send_stage k L a t : stage k L -> current_process k = p -> (length L < 8)%nat -> holds a t -> (length t < 256)%nat ->
  exists k', exec (process_send_message cpid (Some a) (Z.of_nat (length t) + 1)) k = (Val 0, k') /\ stage k' (L ++ [(cpid - 1, t ++ [0])]).
Proof.
  intros Hst Hcur HL Ha Ht. pose proof (stage_lookup k L Hst Hcons) as Hlk.
  destruct Hst as [Htab Hslot (v & Ev & Hid) Hu (vp & Ep & Hvp) (q & Eq & Hq & Hcont)]. pose proof Hid as Hid'. injection Hid' as Hpid Hmq.
  pose proof (length_contents q Hq) as Hlen. rewrite Hcont in Hlen. pose proof (qo_count q Hq) as Hcnt.
  pose proof Ha as (u & Ea & _). assert (length t + 1 <= length a)%nat as Hla by (rewrite Ea, length_app; cbn [length]; lia).
  destruct (exec_send k cpid cons v q a (Z.of_nat (length t) + 1)) as (k' & q' & E & Hqs & Hq' & Hc' & Hcv & Hoth & Htb & Hk');
    [done|done|done|done|by rewrite Hmq|by rewrite Hmq|done|lia|right; rewrite Hcur, Ep; by eexists|lia|lia|].
  exists k'. split; [exact E|]. rewrite Hmq in Hqs.
  assert (pid (Ipc.woken v) = pid v /\ msg_queue (Ipc.woken v) = msg_queue v) as [Hw1 Hw2] by (unfold Ipc.woken; by case_match).
  assert (p <> cons) as Hpc by (intros ->; rewrite Ev in Ep; injection Ep as <-; lia).
  split; rewrite ?Htb; try done.
  - destruct Htab as [Hl Hlive]. split; rewrite Htb; [done|]. intros i x Hi Hx. destruct (decide (x = cons)) as [->|Hxc]; [by rewrite Hcv|].
    rewrite (Hoth x Hxc). by apply (Hlive i).
  - exists (Ipc.woken v). split; [done|]. unfold identity. congruence.
  - intros x w Hx Hwp. destruct (decide (x = cons)) as [|Hxc]; [done|]. rewrite (Hoth x Hxc) in Hx. by apply (Hu x w).
  - exists vp. by rewrite (Hoth p Hpc).
  - exists q'. rewrite Hqs, lookup_insert_eq. split_and!; [done|done|]. rewrite Hc', Hcont. do 2 f_equal.
    unfold sender_pid. rewrite Hcur, (proj2 (Z.eqb_neq p 0) Hp0), Ep. cbn. rewrite Hvp. f_equal.
    replace (Z.to_nat (Z.of_nat (length t) + 1)) with (length t + 1)%nat by lia. by apply holds_take.
Qed.

Lemma exec_current_pid k v : procs k !! current_process k = Some v -> exec (current_pid : M K Z) k = (Val (pid v), k).
Proof. intros E. unfold current_pid, process_current. run. by rewrite (exec_load_pcb k _ v E). Qed.

Definition message (i : Z) : Z * list Z := (cpid - 1, message_text i ++ [0]).

Lemma message_text_length i : length (message_text i) = 24%nat.
Proof. reflexivity. Qed.

Lemma exec_produce k L i : stage k L -> current_process k = p -> (length L < 8)%nat -> 0 <= i ->
  exists k', exec (produce_round frame cpid i : M K _) k =
      (Val (if i <? 5 then (ProdSent cpid (i + 1), process_sleep 1000) else (ProdEnd, process_exit)), k') /\
    stage k' (if i <? 5 then L ++ [message i] else L).
Proof.
  intros Hst Hcur HL Hi. unfold produce_round, tag. destruct (Z.ltb_spec i 5) as [Hlt|Hge].
  - destruct (build_message_text i frame ltac:(lia) Hframe) as (a & -> & Ha & _). run.
    rewrite (cstring_holds a _ Ha), (strlen_holds a _ Ha). run.
    destruct (send_stage k L a _ Hst Hcur HL Ha) as (k' & E & Hst'); [rewrite message_text_length; lia|]. rewrite E. run.
    exists k'. by split.
  - run. exists k. by split.
Qed.

(** What the consumer prints for a message. *)
Definition show (m : Z * list Z) : list event :=
  [EvWriteColor (c "[IPC Consumer] ") (MAKE_COLOR COLOR_LIGHT_GREEN COLOR_BLACK); EvWrite (c "Received from PID "); EvDec (fst m);
   EvWrite (c ": '"); EvWrite (removelast (snd m)); EvWrite (c "'\n")].
Definition farewell : list event :=
  [EvWriteColor (c "[IPC Consumer] ") (MAKE_COLOR COLOR_LIGHT_GREEN COLOR_BLACK); EvWrite (c "All messages received!\n")].
Definition greeting : list event :=
  [EvWriteColor (c "[IPC Consumer] ") (MAKE_COLOR COLOR_LIGHT_GREEN COLOR_BLACK); EvWrite (c "Starting message consumer (PID "); EvDec cpid; EvWrite (c ")\n")].

Lemma has_messages_stage k L : stage k L -> current_process k = cons ->
  (process_has_messages : M K Z) k = (Val (Z.of_nat (length L)), k, []).
Proof.
  intros [_ _ (v & Ev & Hid) _ _ (q & Eq & Hq & Hc)] Hcur. injection Hid as _ Hmq. pose proof (length_contents q Hq) as Hl. pose proof (qo_count q Hq).
  unfold process_has_messages, bind, get, load_pcb, load_queue, defined. rewrite Hcur, (proj2 (Z.eqb_neq cons 0) Hcons). cbn. rewrite Ev. cbn.
  rewrite Hmq, (proj2 (Z.eqb_neq cq 0) Hcq), Eq. cbn. rewrite s32_small by (unfold is_s32; lia). rewrite <- Hc, Hl. do 3 f_equal. lia.
Qed.

Lemma silent_receive b n : silent (process_receive_message b n : M K _).
Proof. unfold process_receive_message, load_pcb, load_queue, store_queue, load_queue. silence. Qed.

Lemma receive_stage k L buf i : stage k (message i :: L) -> current_process k = cons -> length buf = 256%nat -> 0 <= i < 5 ->
  exists k' buf', exec (process_receive_message (Some buf) 256 : M K _) k = (Val (25, Some (cpid - 1, buf')), k') /\ stage k' L /\
    length buf' = 256%nat /\ holds buf' (message_text i).
Proof.
  intros [Htab Hslot (v & Ev & Hid) Hu Hprod (q & Eq & Hq & Hc)] Hcur Hb Hi. pose proof Hid as Hid'. injection Hid' as _ Hmq.
  pose proof (exec_receive k v q buf 256) as Hr. rewrite Hcur, Hmq, Hc in Hr. cbn [message fst] in Hr.
  destruct Hr as (q' & E & Hq' & Hc'); [done|done|done|done|done|lia|].
  assert (Z.min (Z.of_nat (length (message_text i ++ [0]))) 256 = 25) as Hmin by (rewrite length_app, message_text_length; reflexivity).
  rewrite Hmin in E. eexists _, _. split; [exact E|]. split; [|split].
  - split; cbn [process_table procs queues set_queues]; try done.
    + destruct Htab as [Hl Hlive]. by split.
    + by exists v.
    + exists q'. by rewrite lookup_insert_eq.
  - rewrite length_app, length_take, length_drop, length_app, message_text_length, Hb. reflexivity.
  - rewrite take_ge by (rewrite length_app, message_text_length; cbn; lia). rewrite <- app_assoc. eexists. split; [reflexivity|].
    unfold message_text. apply Forall_app. split; [by repeat constructor|]. constructor; [lia|]. by repeat constructor.
Qed.

(** One round of the consumer, by what is waiting. *)
Lemma consume_end k buf n : 5 <= n -> (consume_round buf n : M K _) k = (Val (ConsEnd, process_exit), k, farewell).
Proof. intros Hn. unfold consume_round. by rewrite (proj2 (Z.ltb_ge n 5)) by lia. Qed.

Lemma consume_none k buf n : stage k [] -> current_process k = cons -> n < 5 ->
  (consume_round buf n : M K _) k = (Val (ConsYielded buf n, process_yield), k, []).
Proof.
  intros Hst Hcur Hn. unfold consume_round. rewrite (proj2 (Z.ltb_lt n 5)) by lia. unfold bind. by rewrite (has_messages_stage k [] Hst Hcur).
Qed.

Lemma consume_one k L buf n : stage k (message n :: L) -> current_process k = cons -> length buf = 256%nat -> 0 <= n < 5 ->
  exists buf' k', (consume_round buf n : M K _) k = (Val (ConsSlept buf' (n + 1), process_sleep 100), k', show (message n)) /\
    stage k' L /\ length buf' = 256%nat.
Proof.
  intros Hst Hcur Hb Hn. destruct (receive_stage k L buf n Hst Hcur Hb Hn) as (k' & buf' & E & Hst' & Hb' & Hh).
  exists buf', k'. split; [|done]. unfold consume_round. rewrite (proj2 (Z.ltb_lt n 5)) by lia. unfold bind at 1.
  rewrite (has_messages_stage k _ Hst Hcur). rewrite (proj2 (Z.ltb_lt 0 _)) by (cbn [length]; lia). unfold bind at 1.
  pose proof (silent_receive (Some buf) 256 k) as Hs. unfold exec in E. unfold output in Hs.
  destruct (process_receive_message (Some buf) 256 k) as [[r k1] o]. cbn in E, Hs. injection E as -> ->. rewrite Hs.
  change (0 <? 25) with true. cbv iota. rewrite (cstring_holds buf' _ Hh). unfold show, message. cbn [fst snd]. rewrite removelast_last. reflexivity.
Qed.

(** ** The system of the two processes *)

Record config : Type := mk_config { at_producer : producer; at_consumer : consumer; at_kernel : K; printed : list event }.

(** What the rest of the system may do between the turns: it keeps the table in
    order and the consumer in its slot, the pids and the queue pointers of the two,
    and the contents of the consumer's queue, and gives the consumer's pid to
    nobody else. *)
Record others_may (k k' : K) : Prop := {
  om_table : table_ok k -> table_ok k';
  om_slot i : (i < 16)%nat -> process_table k !!! i = cons -> process_table k' !!! i = cons;
  om_pcbs x : x = p \/ x = cons -> identity <$> procs k' !! x = identity <$> procs k !! x;
  om_pids x v : procs k' !! x = Some v -> pid v = cpid -> exists v0, procs k !! x = Some v0 /\ pid v0 = cpid;
  om_queue : queues k' !! cq = queues k !! cq
}.

Lemma others_stage k k' L : others_may k k' -> stage k L -> stage k' L.
Proof.
  intros [Ht Hs Hp Hn Hq] [Htab (i & Hi & Es) (v & Ev & Hv) Hu (vp & Ep & Hvp) Hqu].
  assert (forall x w, x = p \/ x = cons -> procs k !! x = Some w -> exists w', procs k' !! x = Some w' /\ identity w' = identity w) as Hfw.
  { intros x w Hx Hw. specialize (Hp x Hx). rewrite Hw in Hp. destruct (procs k' !! x) as [w'|]; [|done]. exists w'. split; [done|]. cbn in Hp. congruence. }
  split.
  - by apply Ht.
  - exists i. split; [done|]. by apply Hs.
  - destruct (Hfw _ _ (or_intror eq_refl) Ev) as (v' & -> & E). exists v'. split; [done|congruence].
  - intros x w Hx Hpid. destruct (Hn x w Hx Hpid) as (w0 & Hw0 & Hp0'). by apply (Hu x w0).
  - destruct (Hfw _ _ (or_introl eq_refl) Ep) as (v' & -> & Hid). injection Hid as Hid _. exists v'. split; [done|congruence].
  - by rewrite Hq.
Qed.

(** Among them: whatever ends in the scheduler, and the creation of a process. *)
Lemma frame_kept_may k k' : frame_kept k k' -> others_may k k'.
Proof.
  intros [Ht Hq Hp]. split; rewrite ?Ht, ?Hq; try done.
  - intros [Hl Hlive]. split; rewrite Ht; [done|]. intros i x Hi Hx. destruct (Hlive i x Hi Hx) as [w Hw]. specialize (Hp x). rewrite Hw in Hp.
    by destruct (procs k' !! x).
  - intros x v Hx Hv. specialize (Hp x). rewrite Hx in Hp. destruct (procs k !! x) as [w|]; [|done]. exists w. split; [done|]. cbn in Hp. injection Hp. congruence.
Qed.

Lemma create_may junk_pcb junk_queue k bs name0 nm0 entry size0 r k' L :
  (forall x, length (name (junk_pcb x)) = 32%nat) -> processes_ok k bs -> process_count_val k < MAX_PROCESSES -> next_pid k < 4294967295 ->
  holds name0 nm0 -> (length nm0 <= 31)%nat -> 4 <= size0 <= MAX_REQUEST -> stage k L ->
  exec (process_create junk_pcb junk_queue name0 entry size0) k = (Val r, k') -> others_may k k'.
Proof.
  intros Hj Hk Hc Hn Hnm Hl Hsz Hst E. destruct (has_free_slot (process_table k)) as (i & Hi & Hz & Hmin).
  { rewrite <- (pk_count _ _ Hk), (tb_length _ (pk_table _ _ Hk)). exact Hc. }
  assert (free_slot k i) as Hslot by (rewrite (tb_length _ (pk_table _ _ Hk)) in Hi; by split_and!).
  destruct (st_consumer _ _ Hst) as (v & Ev & [= Hpid Hmq]), (st_producer _ _ Hst) as (vp & Ep & _), (st_queue _ _ Hst) as (q0 & Eq & _).
  destruct (exec_create kernel_directory junk_pcb junk_queue Hj k bs i name0 nm0 entry size0 Hk Hc Hslot Hnm Hl Hsz)
    as [(h & n & E' & _)|(h & bs' & a & q & base & nm & E' & Hwf & Htk & _)]; pose proof (eq_trans (eq_sym E) E') as X; injection X as -> ->.
  { apply frame_kept_may. by split. }
  pose proof (tk_borrowed _ _ _ _ _ _ Htk) as Hb. pose proof (with_process_ok junk_pcb junk_queue k bs i h bs' a q base size0 entry nm Hk Hc Hslot Hn Hwf Htk) as Hk'.
  assert (procs k !! a = None) as Fa by (apply (fresh_procs k bs a bs' _ Hk Hb); do 2 apply list_elem_of_further; apply list_elem_of_here).
  assert (queues k !! q = None) as Fq by (apply (fresh_queues k bs q bs' _ Hk Hb); apply list_elem_of_here).
  split; [intros _; exact (pk_table _ _ Hk')| | | |]; cbn [process_table procs queues with_process].
  - intros j Hj16 Es. rewrite list_lookup_total_insert_ne; [done|]. intros ->. congruence.
  - intros x Hx. rewrite lookup_insert_ne; [done|]. intros ->. destruct Hx; congruence.
  - intros x w Hx Hw. destruct (decide (x = a)) as [->|Hxa].
    + rewrite lookup_insert_eq in Hx. injection Hx as <-. cbn [pid new_process] in Hw. apply (pk_pids _ _ Hk) in Ev. lia.
    + rewrite lookup_insert_ne in Hx by congruence. by exists w.
  - rewrite lookup_insert_ne; [done|]. congruence.
Qed.

(** A step is a turn of one of the two, a timer interrupt, or a step of the rest
    of the system. *)
Inductive step : config -> config -> Prop :=
| step_producer lp lc k out lp' k' :
    current_process k = p -> run_turn (ipc_producer frame) lp k = Some (lp', k') ->
    step (mk_config lp lc k out) (mk_config lp' lc k' out)
| step_consumer lp lc k out lc' k' :
    current_process k = cons -> run_turn ipc_consumer lc k = Some (lc', k') ->
    step (mk_config lp lc k out) (mk_config lp lc' k' (out ++ output (ipc_consumer lc) k))
| step_timer lp lc k out k' o :
    exec timer_handler k = (o, k') ->
    step (mk_config lp lc k out) (mk_config lp lc k' out)
| step_others lp lc k out k' :
    others_may k k' ->
    step (mk_config lp lc k out) (mk_config lp lc k' out).

(** How many messages were sent and printed. *)
Definition sent (l : producer) : Z := match l with ProdSent _ i => i | ProdEnd => 5 | _ => 0 end.
Definition received (l : consumer) : Z := match l with ConsStart _ => 0 | ConsSlept _ n | ConsYielded _ n => n | ConsEnd => 5 end.

Definition place_ok (lp : producer) (lc : consumer) : Prop :=
  match lp with ProdSent target i => target = cpid /\ 0 <= i <= 5 | _ => True end /\
  match lc with ConsStart b | ConsSlept b _ | ConsYielded b _ => length b = 256%nat | ConsEnd => True end.

(** The messages in flight when [r] were printed and [n] sent. *)
Definition in_flight (r n : Z) : list (Z * list Z) := message <$> seqZ r (n - r).

Lemma in_flight_send r n : r <= n -> in_flight r (n + 1) = in_flight r n ++ [message n].
Proof.
  intros Hr. unfold in_flight. replace (n + 1 - r) with (n - r + 1) by lia. rewrite seqZ_app by lia. rewrite fmap_app.
  by replace (r + (n - r)) with n by lia.
Qed.

Lemma in_flight_receive r n : r < n -> in_flight r n = message r :: in_flight (r + 1) n.
Proof. intros Hr. unfold in_flight. rewrite seqZ_cons by lia. cbn [fmap list_fmap]. do 2 f_equal. f_equal; lia. Qed.

Lemma in_flight_none r : in_flight r r = [].
Proof. unfold in_flight. by replace (r - r) with 0 by lia. Qed.

Lemma length_in_flight r n : length (in_flight r n) = Z.to_nat (n - r).
Proof. unfold in_flight. by rewrite length_fmap, length_seqZ. Qed.

(** What the consumer has printed. *)
Definition transcript (l : consumer) : list event :=
  match l with
  | ConsStart _ => []
  | ConsSlept _ n | ConsYielded _ n => greeting ++ concat ((fun i => show (message i)) <$> seqZ 0 n)
  | ConsEnd => greeting ++ concat ((fun i => show (message i)) <$> seqZ 0 5) ++ farewell
  end.

Record in_order (s : config) : Prop := {
  io_place : place_ok (at_producer s) (at_consumer s);
  io_counts : 0 <= received (at_consumer s) <= sent (at_producer s) /\ sent (at_producer s) <= 5;
  io_queue : stage (at_kernel s) (in_flight (received (at_consumer s)) (sent (at_producer s)));
  io_printed : printed s = transcript (at_consumer s)
}.

(** ** Every step keeps the order *)

(** The calls that end a turn leave the stage as it is. *)
Inductive gives_away : M K unit -> Prop :=
| gives_sleep ms : gives_away (process_sleep ms)
| gives_yield : gives_away process_yield
| gives_exit : gives_away process_exit.

Lemma gives_away_stage call k k' o L : gives_away call -> exec call k = (o, k') -> o = Val tt \/ o = Stopped Switched -> stage k L -> stage k' L.
Proof.
  intros Hc E Ho. apply stage_frame. destruct Hc.
  - pose proof (kept_sleep ms k) as Hk. by rewrite E in Hk.
  - pose proof (kept_schedule k) as Hk. unfold process_yield in E. by rewrite E in Hk.
  - by eapply exit_kept.
Qed.

(** What a kernel that keeps the stage keeps. *)
Lemma in_order_stage lp lc k k' out : (forall L, stage k L -> stage k' L) -> in_order (mk_config lp lc k out) -> in_order (mk_config lp lc k' out).
Proof. intros Hk [Hp Hc Hq Hout]. split; cbn in *; auto. Qed.

(** The call that ends a turn. *)
Lemma run_turn_call {L0} (turn : L0 -> M K (L0 * M K unit)) l l1 call k k1 l' k' :
  exec (turn l) k = (Val (l1, call), k1) -> gives_away call -> run_turn turn l k = Some (l', k') -> l' = l1 /\ (forall L, stage k1 L -> stage k' L).
Proof.
  intros E Hc Hr. unfold run_turn in Hr. rewrite E in Hr. destruct (exec call k1) as [o k2] eqn:E2.
  assert (l1 = l' /\ k2 = k' /\ (o = Val tt \/ o = Stopped Switched)) as (-> & -> & Ho).
  { destruct o as [[]|[]]; try done; injection Hr as <- <-; auto. }
  split; [done|]. intros L Hst. by eapply gives_away_stage.
Qed.

Lemma producer_pid k L : stage k L -> current_process k = p -> exec (current_pid : M K Z) k = (Val (cpid - 1), k).
Proof. intros Hst Hcur. destruct (st_producer k L Hst) as (v & Ev & <-). apply exec_current_pid. by rewrite Hcur. Qed.

Lemma consumer_pid k L : stage k L -> current_process k = cons -> exec (current_pid : M K Z) k = (Val cpid, k).
Proof.
  intros Hst Hcur. destruct (st_consumer k L Hst) as (v & Ev & Hid). injection Hid as <- _. apply exec_current_pid. by rewrite Hcur.
Qed.

(** A round of the producer, started with [i] messages sent. *)
Lemma produce_in_order k i lc out : 0 <= received lc <= i -> i <= 5 -> place_ok ProdStart lc ->
  stage k (in_flight (received lc) i) -> out = transcript lc -> current_process k = p ->
  exists lp' call k1, exec (produce_round frame cpid i : M K _) k = (Val (lp', call), k1) /\ gives_away call /\ in_order (mk_config lp' lc k1 out).
Proof.
  intros Hr Hi [_ Hlc] Hst Hout Hcur.
  destruct (exec_produce k _ i Hst Hcur) as (k1 & E & Hst1); [rewrite length_in_flight; lia|lia|].
  destruct (Z.ltb_spec i 5) as [Hlt|Hge]; eexists _, _, k1; (split; [exact E|]); (split; [constructor|]).
  - rewrite <- in_flight_send in Hst1 by lia. split; cbn; [split; [lia|exact Hlc]|lia|exact Hst1|exact Hout].
  - replace i with 5 in * by lia. split; cbn; [split; [done|exact Hlc]|lia|exact Hst1|exact Hout].
Qed.

Lemma producer_turn lp lc k out : in_order (mk_config lp lc k out) -> current_process k = p -> lp <> ProdEnd ->
  exists lp' call k1, exec (ipc_producer frame lp : M K _) k = (Val (lp', call), k1) /\ gives_away call /\ in_order (mk_config lp' lc k1 out).
Proof.
  intros [[Hlp Hlc] [Hr Hs] Hst Hout] Hcur Hend. cbn in Hlp, Hlc, Hr, Hs, Hst, Hout. destruct lp as [| |target i|]; cbn in Hr, Hs, Hst; [| | |done].
  - eexists ProdAsleep, _, k. split; [unfold ipc_producer, tag; run; by rewrite (producer_pid k _ Hst Hcur)|]. split; [constructor|].
    split; cbn; [split; [done|exact Hlc]|lia|exact Hst|exact Hout].
  - unfold ipc_producer. rewrite exec_bind, (producer_pid k _ Hst Hcur), Z.sub_add, u32_small by (unfold is_u32; lia).
    apply (produce_in_order k 0); [exact Hr|lia|split; [done|exact Hlc]|exact Hst|exact Hout|exact Hcur].
  - destruct Hlp as [-> Hi]. apply (produce_in_order k i); [exact Hr|lia|split; [done|exact Hlc]|exact Hst|exact Hout|exact Hcur].
Qed.

(** What was printed before round [n]. *)
Definition shown_before (n : Z) : list event := greeting ++ concat ((fun i => show (message i)) <$> seqZ 0 n).

Lemma shown_before_S n : 0 <= n -> shown_before (n + 1) = shown_before n ++ show (message n).
Proof. intros Hn. unfold shown_before. rewrite seqZ_app, fmap_app, concat_app by lia. rewrite Z.add_0_l, (seqZ_cons n 1) by lia.
  change (seqZ (Z.succ n) (Z.pred 1)) with (@nil Z). cbn [fmap list_fmap concat]. by rewrite app_nil_r, app_assoc. Qed.

(** A round of the consumer, started with [n] messages printed. *)
Lemma consume_in_order k lp buf n out : 0 <= n <= sent lp -> sent lp <= 5 -> place_ok lp (ConsStart buf) ->
  stage k (in_flight n (sent lp)) -> out = shown_before n -> current_process k = cons ->
  exists lc' call k1 o, (consume_round buf n : M K _) k = (Val (lc', call), k1, o) /\ gives_away call /\ in_order (mk_config lp lc' k1 (out ++ o)).
Proof.
  intros Hn Hs [Hlp Hbuf] Hst -> Hcur. cbn in Hbuf.
  destruct (decide (5 <= n)) as [Hge|Hlt]; [|destruct (decide (n = sent lp)) as [Heq|Hne]].
  - eexists _, _, k, _. split; [exact (consume_end k buf n Hge)|]. split; [constructor|]. replace n with 5 in * by lia.
    split; cbn [at_producer at_consumer at_kernel printed received]; [by split|lia|exact Hst|]. unfold shown_before. by rewrite <- app_assoc.
  - rewrite Heq, in_flight_none in Hst. eexists _, _, k, _. split; [apply (consume_none k buf n Hst Hcur); lia|]. split; [constructor|].
    split; cbn [at_producer at_consumer at_kernel printed received]; [by split|lia|by rewrite Heq, in_flight_none|]. by rewrite app_nil_r.
  - rewrite in_flight_receive in Hst by lia. destruct (consume_one k _ buf n Hst Hcur Hbuf) as (buf' & k1 & E & Hst1 & Hb'); [lia|].
    eexists _, _, k1, _. split; [exact E|]. split; [constructor|].
    split; cbn [at_producer at_consumer at_kernel printed received]; [by split|lia|exact Hst1|]. cbn [transcript]. symmetry. apply shown_before_S. lia.
Qed.

Lemma consumer_turn lp lc k out : in_order (mk_config lp lc k out) -> current_process k = cons -> lc <> ConsEnd ->
  exists lc' call k1 o, (ipc_consumer lc : M K _) k = (Val (lc', call), k1, o) /\ gives_away call /\ in_order (mk_config lp lc' k1 (out ++ o)).
Proof.
  intros [[Hlp Hlc] [Hr Hs] Hst Hout] Hcur Hend. cbn in Hlp, Hlc, Hr, Hs, Hst, Hout. destruct lc as [buf|buf n|buf n|]; cbn in Hr, Hst, Hout; [| | |done].
  - destruct (consume_in_order k lp buf 0 (shown_before 0)) as (lc' & call & k1 & o & E & Hc & Ho); [exact Hr|exact Hs|split; [exact Hlp|exact Hlc]|exact Hst|done|exact Hcur|].
    exists lc', call, k1, (greeting ++ o). split; [|split; [exact Hc|subst; exact Ho]].
    destruct (st_consumer k _ Hst) as (v & Ev & Hid). injection Hid as Hv _. rewrite <- Hcur in Ev.
    unfold ipc_consumer, tag, greeting, current_pid, process_current, load_pcb, bind, gets, get, defined. cbn -[consume_round]. rewrite Ev. cbn -[consume_round]. by rewrite Hv, E.
  - apply (consume_in_order k lp buf n); [exact Hr|exact Hs|split; [exact Hlp|exact Hlc]|exact Hst|exact Hout|exact Hcur].
  - eexists _, _, k, []. split; [reflexivity|]. split; [constructor|]. split; cbn; [by split|lia|exact Hst|subst; by rewrite app_nil_r].
Qed.

Lemma step_in_order s s' : step s s' -> in_order s -> in_order s'.
Proof.
  intros [lp lc k out lp' k' Hcur Hr|lp lc k out lc' k' Hcur Hr|lp lc k out k' o E|lp lc k out k' Hk] Hs; [| | |].
  - destruct (producer_turn lp lc k out Hs Hcur) as (l1 & call & k1 & E & Hc & Ho); [by intros ->|].
    destruct (run_turn_call _ _ _ _ _ _ _ _ E Hc Hr) as [-> Hk]. by eapply in_order_stage.
  - destruct (consumer_turn lp lc k out Hs Hcur) as (l1 & call & k1 & o & E & Hc & Ho); [by intros ->|].
    assert (exec (ipc_consumer lc : M K _) k = (Val (l1, call), k1)) as E1 by (unfold exec; by rewrite E).
    destruct (run_turn_call _ _ _ _ _ _ _ _ E1 Hc Hr) as [-> Hk]. unfold output. rewrite E. by eapply in_order_stage.
  - eapply in_order_stage, Hs. intros L. apply stage_frame. pose proof (kept_timer k) as Hk. by rewrite E in Hk.
  - eapply in_order_stage, Hs. intros L. by apply others_stage.
Qed.

Lemma reachable_in_order s s' : rtc step s s' -> in_order s -> in_order s'.
Proof. induction 1; [done|]. intros Hs. by eauto using step_in_order. Qed.

(** The system as it runs: the current process takes its turn, and while neither
    of the two has the CPU the clock ticks. *)
Definition drive1 (s : config) : option config :=
  let '(mk_config lp lc k out) := s in
  if current_process k =? p then
    match run_turn (ipc_producer frame) lp k with Some (lp', k') => Some (mk_config lp' lc k' out) | None => None end
  else if current_process k =? cons then
    match run_turn ipc_consumer lc k with Some (lc', k') => Some (mk_config lp lc' k' (out ++ output (ipc_consumer lc) k)) | None => None end
  else Some (mk_config lp lc (snd (exec timer_handler k)) out).

Fixpoint drive (n : nat) (s : config) : option config :=
  match n with 0%nat => Some s | S n => match drive1 s with Some s' => drive n s' | None => None end end.

Lemma drive1_step s s' : drive1 s = Some s' -> step s s'.
Proof.
  destruct s as [lp lc k out]. cbn [drive1]. destruct (Z.eqb_spec (current_process k) p); [|destruct (Z.eqb_spec (current_process k) cons)].
  - case_match; [|done]. case_match. intros [= <-]. by apply step_producer.
  - case_match; [|done]. case_match. intros [= <-]. by apply step_consumer.
  - intros [= <-]. eapply step_timer. apply surjective_pairing.
Qed.

Lemma drive_steps n s s' : drive n s = Some s' -> rtc step s s'.
Proof.
  revert s. induction n as [|n IH]; intros s; cbn [drive]; [by intros [= <-]|]. case_match eqn:E; [|done]. intros Hd.
  eapply rtc_l; [by apply drive1_step|by apply IH].
Qed.

End demo.

(** C24: The message demonstration under interleaved turns.  Started with both
    processes in place and an empty queue, in every state reached by whole turns
    of the two, timer interrupts between them, and steps of the rest of the system
    that leave the two control blocks, the consumer's slot and pid, and its queue
    alone, the consumer has printed complete messages from the producer in the
    order 0, 1, 2, ..., those sent and not yet printed are in the queue in that
    order, and the code of either process runs up to its next call without
    failing; when the consumer has ended it has printed all five. *)
Theorem messages_in_order kdir p cons cq cpid frame buffer k s
    (Hcons : cons <> 0) (Hcq : cq <> 0) (Hp : p <> 0) (Hframe : length frame = 64%nat) (Hcpid : 1 < cpid < 4294967296)
    (Hbuf : length buffer = 256%nat) (Hk : stage p cons cq cpid k [])
    (Hreach : rtc (step kdir p cons cq cpid frame) (mk_config ProdStart (ConsStart buffer) k []) s) :
  let '(mk_config lp lc k' out) := s in
  0 <= received lc <= sent lp /\ sent lp <= 5 /\
  stage p cons cq cpid k' (in_flight cpid (received lc) (sent lp)) /\ out = transcript cpid lc /\
  (lc = ConsEnd -> out = greeting cpid ++ concat ((fun i => show (message cpid i)) <$> [0; 1; 2; 3; 4]) ++ farewell) /\
  (current_process k' = p -> lp <> ProdEnd -> exists r k1, exec (ipc_producer (H1 := mm_memory kdir) frame lp) k' = (Val r, k1)) /\
  (current_process k' = cons -> lc <> ConsEnd -> exists r k1, exec (ipc_consumer (H1 := mm_memory kdir) lc) k' = (Val r, k1)).
Proof.
  assert (in_order p cons cq cpid s) as Hs.
  { eapply reachable_in_order; [done..|exact Hreach|]. split; cbn; [by split|lia|exact Hk|done]. }
  destruct s as [lp lc k' out]. pose proof Hs as [_ [Hr Hn] Hst Hout]. cbn in Hr, Hn, Hst, Hout. split_and!; [lia|lia|lia|exact Hst|exact Hout| | |].
  - intros ->. rewrite Hout. reflexivity.
  - intros Hcur Hl. edestruct (producer_turn kdir p cons cq cpid frame) as (l' & call & k1 & E & _); eauto.
  - intros Hcur Hl. edestruct (consumer_turn kdir p cons cq cpid) as (l' & call & k1 & o & E & _); eauto. eexists _, k1. unfold demo_memory in E. unfold exec. by rewrite E.
Qed.

(** ** The theorem at work *)

(** The idle process, the producer and the consumer. *)
Definition demo_process (id addr prio q : Z) : process_t :=
  mk_process id (replicate 32 0) PROCESS_STATE_READY (entry_cpu 0 0 []) addr 4096 0 (addr + 4096) 0 prio 10 0 0 q 4096 0.
Definition demo_kernel : kernel heap mm :=
  mk_kernel heap0 empty_mm {[ 100 := demo_process 0 100 0 0; 200 := demo_process 1 200 5 800; 300 := demo_process 2 300 5 900 ]}
    {[ 800 := empty_queue; 900 := empty_queue ]} ∅ ([100; 200; 300] ++ replicate 13 0) 3 3 100 100 0 0.
Definition demo_start : config := mk_config ProdStart (ConsStart (replicate 256 0)) demo_kernel [].

Lemma demo_stage : stage 200 300 900 2 demo_kernel [].
Proof.
  split.
  - split; [done|]. intros i p Hi Hp. do 3 (destruct i as [|i]; [injection Hi as <-; by eexists|]).
    exfalso. apply Hp. change (replicate 13 0 !! i = Some p) in Hi. by apply lookup_replicate in Hi as [-> _].
  - exists 2%nat. split; [lia|reflexivity].
  - by eexists.
  - intros x v Hx Hv. cbn [procs demo_kernel] in Hx.
    repeat (rewrite lookup_insert_Some in Hx; destruct Hx as [[<- <-]|[_ Hx]]); [done|done|]. apply lookup_singleton_Some in Hx as [<- _]. done.
  - by eexists.
  - exists empty_queue. split_and!; [done|exact empty_queue_ok|reflexivity].
Qed.
Definition demo_end : option config := drive 1048576 200 300 (replicate 64 0) (Z.to_nat 6000) demo_start.

Lemma demo_ends : at_consumer <$> demo_end = Some ConsEnd.
Proof. vm_compute. reflexivity. Qed.

Lemma messages_in_order_witness : exists s, rtc (step 1048576 200 300 900 2 (replicate 64 0)) demo_start s /\ at_consumer s = ConsEnd /\
  printed s = greeting 2 ++ concat ((fun i => show (message 2 i)) <$> [0; 1; 2; 3; 4]) ++ farewell.
Proof.
  pose proof demo_ends as He. destruct demo_end as [s|] eqn:E; [|done]. injection He as He.
  assert (rtc (step 1048576 200 300 900 2 (replicate 64 0)) demo_start s) as Hs by exact (drive_steps _ _ _ 900 2 _ _ _ _ E).
  pose proof (messages_in_order 1048576 200 300 900 2 (replicate 64 0) (replicate 256 0) demo_kernel s ltac:(discriminate) ltac:(discriminate)
    ltac:(discriminate) eq_refl ltac:(lia) eq_refl demo_stage Hs) as Ho.
  exists s. split; [exact Hs|]. split; [exact He|]. destruct s as [lp lc k' out]. destruct Ho as (_ & _ & _ & _ & Hend & _). exact (Hend He).
Defined.
